(* ===== verification/_CoqProject ===== *)
-Q . S2P
Prelude.v
PyStr.v
Hash.v
PyDecimal.v
PyValue.v
Json.v
Base64.v
Models.v
Session.v
PgDatabase.v
Tables.v
Demo.v
Logic.v
OrderStateMachine.v
ExecutionLog.v
ExecutionRow.v
Alerts.v
Delivery.v
Health.v
Backups.v
HostChecks.v
Accounts.v
Security.v
Mfa.v
Users.v
Permissions.v
Notifications.v
PositionReconciliation.v
ReconciliationWorker.v
TestnetGate.v
WindowApproval.v
RateLimit.v
HttpClient.v
TestnetRequest.v
RiskEngine.v
PositionEngine.v
EmergencyStop.v
SignalEngine.v
MockExchange.v
OrderEngine.v
TestnetPersistence.v
TestnetSubmit.v
Lifecycle.v
AccountSync.v
OrderReconciliation.v
UserStream.v
Adapters.v
ReadOnly.v
Phase4.v
MarketData.v
Storage.v
Bootstrap.v
Endpoints.v
Steady.v
Records.v
Migrations.v
Schema.v
System.v
Plain.v
Standing.v
Ledger.v
LogInvariant.v
OrderBook.v
StopInvariant.v
Access.v
Validation.v
Scenario.v
Sending.v
Concurrency.v
Responses.v
Secrecy.v
