(* ===== verification/Prelude.v ===== *)
(** * The back end of the copy-trading platform, modelled and verified

    The program (src/backend/app) is a FastAPI service over PostgreSQL and Redis.  Users
    log in with a password and a second factor, register accounts at three exchanges,
    store API keys, post trading signals and execute them: on a simulated exchange, or on
    an exchange's testnet inside an approved, short order window.  Real accounts are only
    read.  Administrators may stop all trading, reconcile, and record the reviews that
    would have to precede a real order.

    ** How the model is built

    - Foundations: [Prelude] (lists, sorting, sequences of steps), [PyStr], [PyDecimal],
      [PyValue], [Json], [Base64] and [Hash] are the parts of Python and its standard
      library the services use, on ASCII text: [str], [decimal.Decimal] with its 28 digit
      context, JSON values and their text, base 64, SHA-256, HMAC and query strings.
    - [Models] has one record per database table (db/models), [Session] the effects of a
      service: a state monad over a [World] that holds the committed database, the open
      transaction, the rows added and not yet flushed, the clock, the identifiers drawn
      and the trace of everything that left the process; exceptions are values of [Exn],
      and [try_except] is Python's.  [Tables] gives each table its unique constraints and
      its NUMERIC columns, and [flush], [commit] and the rollback that ends a request
      ([run_request]).  [PgDatabase] is a concrete database for examples, [Demo] data.
    - [Logic], [ExecutionLog], [ExecutionRow] and [Steady] hold the program logic: rules
      for invariants under failing stores ([keeps]), frames, what is emitted ([emits]),
      what is preserved, and what a bystander of a table leaves alone ([bystander]).
    - Trading: [OrderStateMachine] (services/order_state_machine.py), [SignalEngine],
      [RiskEngine], [PositionEngine], [MockExchange], [OrderEngine], [EmergencyStop].
    - Testnet orders: [TestnetGate] (gate, admission, window plan), [WindowApproval],
      [RateLimit], [HttpClient] and [TestnetRequest] (the signed request),
      [TestnetPersistence] and [TestnetSubmit] (the endpoint with all its error clauses),
      [Lifecycle] (exchange reports), [AccountSync], [OrderReconciliation], [UserStream].
    - Reconciliation of positions: [PositionReconciliation], [ReconciliationWorker];
      [Notifications] and [Alerts] tell people about it, [Delivery] is how an alert reaches
      Telegram, a mail server or a webhook.
    - Users: [Security] (hashes and tokens), [Mfa], [Users] (login, dependencies of
      api/deps.py), [Permissions], [Accounts] (accounts and encrypted keys), [Bootstrap]
      (the first administrator).
    - Real accounts: [Adapters] and [ReadOnly] (reading exchanges), [Phase4] (the records
      before a real order).  [MarketData] reads public data, [Storage] parses a setting,
      [Endpoints] holds the endpoints that add little to a service.
    - Operations: [Health] (probes, metrics, the dependency monitor and its worker),
      [Backups] (dumps, retention, restore drills, on a file system of their own),
      [HostChecks] (the backup timer, the preflight of a host).
    - The schema: [Migrations] interprets the DDL of alembic/versions, [Schema] the columns
      the model classes declare; [Records] gives every table its column types and what of a
      row is permanent.
    - [System] composes it: [Call] is the API, [serve] authenticates a request and runs
      its endpoint, [step] serves one request in a session of its own or lets time pass.
      [Validation] puts the request schemas in front of it, [Responses] the response models
      behind it; [Concurrency] cuts a submission into phases between which other sessions
      run; [Scenario] is scripts/integration/mock_compose_check.py, run by evaluation.

    A component is called by another the way the code calls it: the endpoint of an order
    calls the stop, the gate, the window, the limiter, the client and the persistence one
    after the other in one session.  Interfaces stand for what is not in the repository:
    [Database] (identifiers, rounding of NUMERIC), [Exchange] (any answers, which may
    depend on everything sent before), [WebSocket], [Redis], [Fernet] with its round trip
    law, [Pyotp], [Secrets], [PyFloat] (rounding of a literal), [EmailValidator], and how
    pydantic writes a moment.  Their laws are hypotheses; the witnesses instantiate all of
    them.

    ** What the theorems show

    - Of the whole service, for every series of requests: an active emergency stop holds
      ([StopInvariant]); each order's log is a path of the transition table that ends in its
      status ([LogInvariant]), the orders move as in an abstract order book and finished
      ones stay ([OrderBook]); rows keep their types and what is permanent stays
      ([Standing]); approvals are bounded ([Ledger]); every order request has its papers and
      no client order id goes out twice ([Sending]); requests without authentication,
      reauthentication or role change nothing ([Access]); what the request schemas refuse
      never reaches the service ([Validation]); no answer depends on a stored secret
      ([Secrecy], a relational logic for two runs).
    - Of overlapping submissions ([Concurrency]): orders stay accounted for in any
      interleaving, and once the stop is on at most the submissions under way still go out.
      A submission with nobody in between is the endpoint ([submission_on_its_own]).
    - Of orders: a testnet request goes out at most once, only when every guard holds on
      data committed before it; how submissions and executions can end; replays; targets;
      terminal statuses; reconciliation only reads and only moves statuses forward.
    - Of users and keys: what a login proves, what revokes tokens, one use per second
      factor, round trips of passwords and API keys, isolation of permissions.
    - Of real accounts: every service sends at most one GET; the records before an order
      nest and are backed by checks.
    - Of the schema: upgrades and downgrades are each other's inverse, the migrated schema
      is the one the classes declare, and a flush keeps its constraints.
    - Of operations: a persistent outage keeps being reported, a backup that succeeds is
      there and is kept, cleanup deletes exactly the expired ones.
    - Of the rest: equivalence of checks with their specifications, the spacing of orders
      and alerts, exact reports of drift, fallback of market data, the end of all loops.

    ** Bounds and fuel

    [json_loads] runs with fuel twice the length of the text plus one, enough because each
    call consumes a character or returns; [strip_zeros] runs with the length of its text;
    [lineage], the walk along the revisions, with one more than there are; [consume] runs
    its two loops with one more than the reconnects and the messages it allows, and
    [consume_bounded] shows that it never runs out.
    Integers are unbounded, as in Python; PBKDF2 is written out with its 390000 rounds and
    only evaluated with one.

    ** Not modelled

    Text outside ASCII; the values of settings (core/config.py reads the environment: what
    a component uses is a record of it) and the middleware of main.py; the interleaving of
    requests other than overlapping submissions (a request is one step, and what another
    session could read during it is recorded with every outgoing request); VARCHAR lengths
    and foreign keys, which [Schema] states and [flush] does not enforce; the responses of
    preferences, of changed accounts and risk settings and of market data; registration and
    login in [Scenario]; Alembic's own environment; the front end and the deployment files.

    ** What modelling showed

    The findings are stated where they are proved; the notable ones: a response that
    cannot be recorded is answered without recording the failure ([TestnetSubmit]);
    changed notification preferences are never committed ([Notifications]); an exchange's
    error code in an answer with status 200 passes a read-only check ([ReadOnly]); a
    ticker of dots leaves the provider's path ([MarketData]); a storage path of two
    slashes passes for a scoped one ([Storage]); of two submissions of one order that both
    look before either writes, the second fails with an error no clause of the endpoint
    catches, and a stop that comes between a submission's check and its request does not
    hold it back ([Concurrency]); links and asterisks defeat the retention of backups and
    the redaction of passwords ([Backups]). *)
From stdpp Require Export base tactics list gmap strings sorting.
From Stdlib Require Export Lia ZArith.

(** ** Scopes and settings *)

Declare Scope py_scope.
Delimit Scope py_scope with py.

(** Hint database of the lemmas that decide the everyday boolean and list side
    conditions of the components. *)
Create HintDb py.
Create Rewrite HintDb py.

(** ** Booleans *)

Lemma negb_false_true (b : bool) : negb b = false ↔ b = true.
Proof. by destruct b. Qed.

Lemma bool_decide_bool (P : Prop) `{Decision P} (b : bool) :
  bool_decide P = b ↔ (if b then P else ¬ P).
Proof. destruct b; [apply bool_decide_eq_true | apply bool_decide_eq_false]. Qed.

#[export] Hint Rewrite negb_true_iff negb_false_true andb_true_iff andb_false_iff
  orb_true_iff orb_false_iff bool_decide_eq_true bool_decide_eq_false : py.

Lemma existsb_false_iff {A} (p : A → bool) (l : list A) :
  existsb p l = false ↔ ∀ x, x ∈ l → p x = false.
Proof.
  rewrite <- not_true_iff_false, List.existsb_exists. setoid_rewrite <- list_elem_of_In.
  setoid_rewrite <- not_true_iff_false. naive_solver.
Qed.

(** Turn every boolean equation of the context and goal into a proposition. *)
Ltac bool_prop := autorewrite with py in *.

(** Case analysis on the scrutinee of any [if]/[match] of the goal. *)
Ltac case_goal :=
  match goal with
  | |- context [match ?x with _ => _ end] =>
      lazymatch x with
      | context [match _ with _ => _ end] => fail
      | _ => destruct x eqn:?
      end
  end.

(** ** The list of reasons a guard collects

    The services gather blocking reasons with the pattern
    [reasons = []; if c1: reasons.append(m1); if c2: reasons.append(m2); ...].
    [collect] is that loop: the guards in the order of the source, each with the
    message it appends. *)

Definition is_none {A} (o : option A) : bool := match o with None => true | _ => false end.

Lemma is_none_false {A} (o : option A) : is_none o = false ↔ ∃ x, o = Some x.
Proof. destruct o; naive_solver. Qed.

Definition collect (l : list (bool * string)) : list string :=
  (List.filter fst l).*2.

Lemma collect_cons (b : bool) (m : string) (l : list (bool * string)) :
  collect ((b, m) :: l) = if b then m :: collect l else collect l.
Proof. by destruct b. Qed.

Lemma collect_nil_iff (l : list (bool * string)) :
  collect l = [] ↔ Forall (λ p, p.1 = false) l.
Proof.
  induction l as [|[b m] l IH]; [by split|].
  rewrite collect_cons, Forall_cons; destruct b; simpl; [|naive_solver].
  split; [done | by intros [? _]].
Qed.

(** The same as one conjunction, which a long list of conditions unfolds to at once. *)
Lemma collect_nil_conj (l : list (bool * string)) :
  collect l = [] → foldr (λ p P, p.1 = false ∧ P) True l.
Proof.
  induction l as [|[b m] l IH]; [done|]. rewrite collect_cons. by destruct b; simpl; [|auto].
Qed.

Lemma elem_of_collect (m : string) (l : list (bool * string)) :
  m ∈ collect l ↔ (true, m) ∈ l.
Proof.
  induction l as [|[b m'] l IH]; [by rewrite !elem_of_nil|].
  rewrite collect_cons, elem_of_cons.
  destruct b; rewrite ?elem_of_cons, IH; naive_solver.
Qed.

(** A report is empty exactly when all its guards are false: the form in which
    the gate theorems use [collect_nil_iff]. *)
Ltac solve_collect :=
  rewrite collect_nil_iff, ?Forall_cons, ?Forall_nil; simpl; bool_prop.

(** ** Searching and updating lists of rows

    A table is a list of rows in insertion order. *)

Fixpoint find_first {A} (p : A → bool) (l : list A) : option A :=
  match l with
  | [] => None
  | x :: l' => if p x then Some x else find_first p l'
  end.

Definition update_where {A} (p : A → bool) (f : A → A) (l : list A) : list A :=
  map (λ x, if p x then f x else x) l.

Section find.
Context {A : Type}.
Implicit Types (p q : A → bool) (l : list A).

Lemma find_first_Some p l x : find_first p l = Some x → x ∈ l ∧ p x = true.
Proof.
  induction l as [|y l IH]; simpl; [done|].
  destruct (p y) eqn:E; [intros [= ->] | intros H%IH];
    rewrite elem_of_cons; naive_solver.
Qed.

Lemma find_first_None p l : find_first p l = None ↔ ∀ x, x ∈ l → p x = false.
Proof.
  induction l as [|y l IH]; simpl; [by split; [intros _ x ?%elem_of_nil|]|].
  destruct (p y) eqn:E.
  - split; [done|]. intros H. rewrite H in E by apply list_elem_of_here. done.
  - rewrite IH. split; intros H x; [|intros Hx; apply H; by right].
    intros [->|Hx]%elem_of_cons; auto.
Qed.

Lemma find_first_app p l k :
  find_first p (l ++ k) =
  match find_first p l with Some x => Some x | None => find_first p k end.
Proof. induction l as [|y l IH]; simpl; [done|]. by destruct (p y). Qed.

(** Where at most one element satisfies [p], the first is that one. *)
Lemma find_first_unique p l x :
  x ∈ l → p x = true → (∀ y, y ∈ l → p y = true → y = x) →
  find_first p l = Some x.
Proof.
  intros Hx Hp Huniq. destruct (find_first p l) as [y|] eqn:E.
  - apply find_first_Some in E as [? ?]. f_equal. by apply Huniq.
  - rewrite find_first_None in E. by rewrite E in Hp.
Qed.

Lemma find_first_ext p q l :
  (∀ x, x ∈ l → p x = q x) → find_first p l = find_first q l.
Proof.
  induction l as [|y l IH]; simpl; intros H; [done|].
  setoid_rewrite elem_of_cons in H. rewrite (H y), IH by auto. done.
Qed.

(** An update that keeps [p] unchanged is seen by the search as the update of
    what it finds. *)
Lemma find_first_update p q f l :
  (∀ x, p (f x) = p x) →
  find_first p (update_where q f l) =
  (λ x, if q x then f x else x) <$> find_first p l.
Proof.
  intros Hp. induction l as [|y l IH]; simpl; [done|].
  assert (p (if q y then f y else y) = p y) as -> by (destruct (q y); auto).
  by destruct (p y).
Qed.

(** A row is found by its key where keys are unique. *)
Lemma find_first_key (key : A → string) l x :
  NoDup (key <$> l) → x ∈ l → find_first (λ y, String.eqb (key y) (key x)) l = Some x.
Proof.
  intros Hd Hx. apply find_first_unique; [done | apply String.eqb_refl|].
  intros y Hy Heq%String.eqb_eq. induction l as [|z l IH]; [by apply elem_of_nil in Hx|].
  cbn in Hd. apply NoDup_cons in Hd as [Hz Hd].
  apply elem_of_cons in Hx as [->|Hx], Hy as [->|Hy]; auto; exfalso; apply Hz;
    [rewrite <- Heq | rewrite Heq]; apply list_elem_of_fmap; eauto.
Qed.

Lemma unique_key (key : A → string) l x y :
  NoDup (key <$> l) → x ∈ l → y ∈ l → key x = key y → x = y.
Proof.
  intros Hd Hx Hy Heq. pose proof (find_first_key key l x Hd Hx) as Hfx.
  pose proof (find_first_key key l y Hd Hy) as Hfy. rewrite Heq, Hfy in Hfx. by injection Hfx.
Qed.

(** The search finds the row that replaced the one it found. *)
Lemma find_first_replaced p q l x x' :
  find_first p l = Some x → (∀ y, y ∈ l → q y = true → y = x) → q x = true → p x' = true →
  find_first p (update_where q (λ _, x') l) = Some x'.
Proof.
  intros Hf Hq Hx Hx'. induction l as [|y l IH]; simpl in *; [done|].
  destruct (q y) eqn:Eq.
  - by rewrite Hx'.
  - destruct (p y) eqn:Ep; [injection Hf as ->; congruence|]. apply IH; [done|].
    intros z Hz. apply Hq. by right.
Qed.

(** Writing the rows [p] selects, with a row that [p] selects again. *)
Lemma find_first_update_found p x l :
  p x = true → find_first p (update_where p (λ _, x) l) = (λ _, x) <$> find_first p l.
Proof.
  intros Hx. induction l as [|y l IH]; simpl; [done|].
  destruct (p y) eqn:E; rewrite ?Hx, ?E; [done | by rewrite IH].
Qed.

Lemma update_where_length q f l : length (update_where q f l) = length l.
Proof. apply length_map. Qed.

Lemma elem_of_update_where q f l x :
  x ∈ update_where q f l ↔ ∃ y, y ∈ l ∧ x = if q y then f y else y.
Proof. unfold update_where. rewrite list_elem_of_fmap. naive_solver. Qed.

Lemma update_where_none q f l :
  (∀ x, x ∈ l → q x = false) → update_where q f l = l.
Proof.
  induction l as [|y l IH]; simpl; intros H; [done|].
  setoid_rewrite elem_of_cons in H. rewrite (H y), IH by auto. done.
Qed.

Lemma map_update_where {B} (g : A → B) q f l :
  (∀ x, q x = true → g (f x) = g x) → map g (update_where q f l) = map g l.
Proof.
  intros Hg. unfold update_where. rewrite map_map. apply map_ext. intros x.
  destruct (q x) eqn:E; auto.
Qed.
End find.

Arguments find_first : simpl nomatch.

(** The elements of a list with the greatest key, the first of them: the row
    [ORDER BY key DESC] delivers first. *)
Fixpoint latest {A} (key : A → Z) (l : list A) : option A :=
  match l with
  | [] => None
  | x :: l' =>
      match latest key l' with
      | Some y => if (key x <? key y)%Z then Some y else Some x
      | None => Some x
      end
  end.

Lemma latest_None {A} (key : A → Z) (l : list A) : latest key l = None ↔ l = [].
Proof.
  destruct l as [|x l]; simpl; [done|].
  destruct (latest key l); [case_goal|]; done.
Qed.

Lemma latest_Some {A} (key : A → Z) (l : list A) (x : A) :
  latest key l = Some x → x ∈ l ∧ ∀ y, y ∈ l → (key y ≤ key x)%Z.
Proof.
  revert x. induction l as [|z l IH]; simpl; intros x; [done|].
  destruct (latest key l) as [m|] eqn:E.
  - destruct (IH m eq_refl) as [Hm Hmax].
    destruct (Z.ltb_spec (key z) (key m)); intros [= <-]; split;
      rewrite ?elem_of_cons; auto;
      intros y [->|Hy]%elem_of_cons; try lia; specialize (Hmax y Hy); lia.
  - intros [= <-]. apply latest_None in E as ->. split; [by left|].
    intros y ->%list_elem_of_singleton. lia.
Qed.

(** A strictly newer row appended to the table becomes the latest one. *)
Lemma latest_snoc {A} (key : A → Z) (l : list A) (x : A) :
  (∀ y, y ∈ l → (key y < key x)%Z) → latest key (l ++ [x]) = Some x.
Proof.
  induction l as [|z l IH]; simpl; intros H; [done|].
  setoid_rewrite elem_of_cons in H. rewrite IH by auto.
  rewrite (proj2 (Z.ltb_lt _ _)); auto.
Qed.

(** ** Sorting

    [sorted] of the source is stable: [sort_by] inserts from the right, before
    the first element that is not smaller. *)
Fixpoint insert_by {A} (leb : A → A → bool) (x : A) (l : list A) : list A :=
  match l with
  | [] => [x]
  | y :: l' => if leb x y then x :: l else y :: insert_by leb x l'
  end.

Fixpoint sort_by {A} (leb : A → A → bool) (l : list A) : list A :=
  match l with [] => [] | x :: l' => insert_by leb x (sort_by leb l') end.

Section sorting.
Context {A : Type} (leb : A → A → bool).

Lemma insert_by_perm x l : insert_by leb x l ≡ₚ x :: l.
Proof.
  induction l as [|y l IH]; simpl; [done|]. destruct (leb x y); [done|].
  rewrite IH. by constructor.
Qed.

Lemma sort_by_perm l : sort_by leb l ≡ₚ l.
Proof. induction l as [|x l IH]; simpl; [done|]. by rewrite insert_by_perm, IH. Qed.

Lemma sort_by_sorted l :
  (∀ x y, leb x y = true ∨ leb y x = true) → Sorted (λ x y, leb x y = true) (sort_by leb l).
Proof.
  intros Htot. induction l as [|x l IH]; simpl; [constructor|].
  induction IH as [|y l' Hl IHl Hy]; simpl; [by repeat constructor|].
  destruct (leb x y) eqn:E; [by repeat constructor|].
  destruct (Htot x y) as [?|Hyx]; [congruence|]. constructor; [done|].
  destruct l' as [|z l']; simpl; [by constructor|].
  destruct (leb x z); constructor; [done|]. by inversion Hy.
Qed.

(** The first [n] of a sorted list come before the rest. *)
Lemma sort_by_take_drop n l :
  (∀ x y, leb x y = true ∨ leb y x = true) →
  (∀ x y z, leb x y = true → leb y z = true → leb x z = true) →
  ∀ x y, x ∈ take n (sort_by leb l) → y ∈ drop n (sort_by leb l) → leb x y = true.
Proof.
  intros Htot Htrans. pose proof (sort_by_sorted l Htot) as Hs. apply Sorted_StronglySorted in Hs; [|exact Htrans].
  revert n. induction Hs as [|z l' Hl IH Hz]; intros [|n] x y; cbn; try by intros ?%elem_of_nil.
  rewrite elem_of_cons. intros [->|Hx] Hy; [|by eapply IH].
  rewrite Forall_forall in Hz. apply Hz. rewrite <- (take_drop n l'). apply elem_of_app. by right.
Qed.

(** A page: the first [n] of the sorted list. *)
Lemma sort_by_page n l :
  (∀ x y, leb x y = true ∨ leb y x = true) →
  (∀ x y z, leb x y = true → leb y z = true → leb x z = true) →
  ∃ rest, take n (sort_by leb l) ++ rest ≡ₚ l ∧ length (take n (sort_by leb l)) ≤ n ∧
    (rest ≠ [] → length (take n (sort_by leb l)) = n) ∧
    Sorted (λ x y, leb x y = true) (take n (sort_by leb l)) ∧
    ∀ x y, x ∈ take n (sort_by leb l) → y ∈ rest → leb x y = true.
Proof.
  intros Htot Htrans. exists (drop n (sort_by leb l)). rewrite take_drop. split; [apply sort_by_perm|].
  rewrite length_take. split; [lia|]. split.
  { intros Hr. enough (n < length (sort_by leb l)) by lia. apply Nat.nle_gt. intros Hle. by apply Hr, drop_ge. }
  split; [|by apply sort_by_take_drop].
  pose proof (sort_by_sorted l Htot) as Hs. rewrite <- (take_drop n) in Hs.
  apply Sorted_StronglySorted in Hs; [|exact Htrans]. apply StronglySorted_Sorted.
  revert Hs. generalize (take n (sort_by leb l)), (drop n (sort_by leb l)). intros a b.
  induction a as [|x a IH]; cbn; [constructor|]. intros Hs. inversion Hs as [|? ? Ha Hf]; subst.
  constructor; [by apply IH|]. by apply Forall_app in Hf as [Hf _].
Qed.
End sorting.

(** ** Transition sequences *)

Inductive star {A} (R : A → A → Prop) : A → A → Prop :=
| star_refl x : star R x x
| star_snoc x y z : star R x y → R y z → star R x z.

Lemma star_trans {A} (R : A → A → Prop) x y z : star R x y → star R y z → star R x z.
Proof. intros Hxy Hyz. induction Hyz as [|y u v Hyu IH Huv]; [done|]. eapply star_snoc; [by apply IH|done]. Qed.

(** Steps taken in a context. *)
Lemma star_map {A B} (R : A → A → Prop) (S : B → B → Prop) (f : A → B) :
  (∀ x y, R x y → S (f x) (f y)) → ∀ x y, star R x y → star S (f x) (f y).
Proof. intros Hf x y Hxy. induction Hxy; [apply star_refl|]. eapply star_snoc; eauto. Qed.

(** Rule induction for invariants: what every step keeps holds along a run. *)
Lemma star_invariant {A} (R : A → A → Prop) (I : A → Prop) :
  (∀ x y, I x → R x y → I y) → ∀ x y, star R x y → I x → I y.
Proof. intros Hstep x y Hxy Hx. induction Hxy; eauto. Qed.
