(* ===== verification/PyStr.v ===== *)
(** Python's [str] as the services use it, on ASCII strings: case mapping,
    [strip], [split]/[join], prefixes, [isdigit]/[isalnum], [replace], slices and
    decimal numerals.  Characters outside ASCII are not modelled. *)
From S2P Require Import Prelude.
From Stdlib Require Import Ascii DecimalString DecimalN DecimalPos.

Local Open Scope string_scope.
Local Open Scope N_scope.

(** ** Characters *)

Definition code (c : ascii) : N := N_of_ascii c.
Definition between (lo hi : N) (c : ascii) : bool := (lo <=? code c) && (code c <=? hi).

Definition is_upper (c : ascii) : bool := between 65 90 c.
Definition is_lower (c : ascii) : bool := between 97 122 c.
Definition is_digit (c : ascii) : bool := between 48 57 c.
(** The ASCII characters [str.strip] and [str.split] take for white space. *)
Definition is_space (c : ascii) : bool := between 9 13 c || between 28 32 c.

Definition ascii_upper (c : ascii) : ascii :=
  if is_lower c then ascii_of_N (code c - 32) else c.
Definition ascii_lower (c : ascii) : ascii :=
  if is_upper c then ascii_of_N (code c + 32) else c.

(** ** Strings *)

Fixpoint str_map (f : ascii → ascii) (s : string) : string :=
  match s with "" => "" | String c r => String (f c) (str_map f r) end.

Fixpoint str_forall (p : ascii → bool) (s : string) : bool :=
  match s with "" => true | String c r => p c && str_forall p r end.

Definition str_upper : string → string := str_map ascii_upper.
Definition str_lower : string → string := str_map ascii_lower.

Fixpoint lstrip (s : string) : string :=
  match s with "" => "" | String c r => if is_space c then lstrip r else s end.

Fixpoint rstrip (s : string) : string :=
  match s with
  | "" => ""
  | String c r =>
      match rstrip r with
      | "" => if is_space c then "" else String c ""
      | r' => String c r'
      end
  end.

Definition str_strip (s : string) : string := rstrip (lstrip s).

Definition startswith (pre s : string) : bool := String.prefix pre s.

Fixpoint str_contains (needle s : string) : bool :=
  String.prefix needle s ||
  match s with "" => false | String _ r => str_contains needle r end.

(** [s[:n]] and [s[n:]] *)
Fixpoint str_take (n : nat) (s : string) : string :=
  match n, s with
  | S n', String c r => String c (str_take n' r)
  | _, _ => ""
  end.

Fixpoint str_drop (n : nat) (s : string) : string :=
  match n, s with
  | S n', String _ r => str_drop n' r
  | _, _ => s
  end.

Definition endswith (suf s : string) : bool :=
  (String.length suf <=? String.length s)%nat &&
  String.eqb (str_drop (String.length s - String.length suf) s) suf.

(** [s.replace(old, new)] for one-character [old] *)
Fixpoint replace_char (old : ascii) (new s : string) : string :=
  match s with
  | "" => ""
  | String c r => (if Ascii.eqb c old then new else String c "") +:+ replace_char old new r
  end.

(** [s.replace(old, new)] for a non-empty [old], leftmost occurrences first; [skip]
    characters of an occurrence are still to be passed over. *)
Fixpoint str_replace_from (old new s : string) (skip : nat) : string :=
  match s with
  | "" => ""
  | String c r =>
      match skip with
      | S n => str_replace_from old new r n
      | O => if startswith old s then new +:+ str_replace_from old new r (String.length old - 1)
             else String c (str_replace_from old new r 0)
      end
  end.
Definition str_replace (old new s : string) : string := str_replace_from old new s 0.

(** [s.split(sep)] *)
Fixpoint split_on (sep : ascii) (s : string) : list string :=
  match s with
  | "" => [""]
  | String c r =>
      if Ascii.eqb c sep then "" :: split_on sep r
      else match split_on sep r with
           | [] => [String c ""]
           | x :: l => String c x :: l
           end
  end.

(** [s.isdigit()] and [s.isalnum()] are false on the empty string. *)
Definition isdigit (s : string) : bool := negb (String.eqb s "") && str_forall is_digit s.
Definition is_alnum (c : ascii) : bool := is_upper c || is_lower c || is_digit c.

(** [sep.join(parts)] *)
Fixpoint str_join (sep : string) (parts : list string) : string :=
  match parts with
  | [] => ""
  | [p] => p
  | p :: ps => p +:+ sep +:+ str_join sep ps
  end.

(** [s.split()] without a separator: the maximal runs of non-space characters *)
Fixpoint split_ws_aux (cur : string) (s : string) : list string :=
  match s with
  | "" => if String.eqb cur "" then [] else [cur]
  | String c r =>
      if is_space c
      then (if String.eqb cur "" then [] else [cur]) ++ split_ws_aux "" r
      else split_ws_aux (cur +:+ String c "") r
  end.
Definition split_ws : string → list string := split_ws_aux "".

(** The longest prefix of digits and the rest of the string. *)
Fixpoint span_digits (s : string) : string * string :=
  match s with
  | String c r =>
      if is_digit c then let '(d, r') := span_digits r in (String c d, r') else ("", s)
  | "" => ("", "")
  end.

Fixpoint str_repeat (s : string) (n : nat) : string :=
  match n with O => "" | S n' => s +:+ str_repeat s n' end.

(** ** Numerals *)

(** [str(n)] and [int(s)] for numerals without sign *)
Definition digits_of_N (n : N) : string := NilZero.string_of_uint (N.to_uint n).
Definition digit_val (c : ascii) : N := code c - 48.
Fixpoint numeral_val_acc (acc : N) (s : string) : N :=
  match s with "" => acc | String c r => numeral_val_acc (10 * acc + digit_val c) r end.
Definition numeral_val (s : string) : N := numeral_val_acc 0 s.

Definition str_of_Z (z : Z) : string :=
  if (z <? 0)%Z then "-" +:+ digits_of_N (Z.abs_N z) else digits_of_N (Z.abs_N z).

(** [int(s)]: surrounding white space, an optional sign, digits that single
    underscores may separate; [None] where Python raises [ValueError]. *)
Fixpoint strip_underscores (prev_digit : bool) (s : string) : option string :=
  match s with
  | "" => if prev_digit then Some "" else None
  | String c r =>
      if is_digit c then String c <$> strip_underscores true r
      else if Ascii.eqb c "_" && prev_digit then strip_underscores false r
      else None
  end.

Definition int_of_str (s : string) : option Z :=
  match str_strip s with
  | String "-" r => (λ d, (- Z.of_N (numeral_val d))%Z) <$> strip_underscores false r
  | String "+" r => (λ d, Z.of_N (numeral_val d)) <$> strip_underscores false r
  | r => (λ d, Z.of_N (numeral_val d)) <$> strip_underscores false r
  end.

(** [sorted] of a set of strings *)
Definition sorted_set (l : list string) : list string := sort_by String.leb (remove_dups l).

(** ** Lemmas *)

Lemma elem_of_sorted_set x l : x ∈ sorted_set l ↔ x ∈ l.
Proof. unfold sorted_set. by rewrite sort_by_perm, elem_of_remove_dups. Qed.

Lemma NoDup_sorted_set l : NoDup (sorted_set l).
Proof. unfold sorted_set. rewrite sort_by_perm. apply NoDup_remove_dups. Qed.

Lemma sorted_set_sorted l : Sorted (λ x y, String.leb x y = true) (sorted_set l).
Proof. apply sort_by_sorted, String.leb_total. Qed.

Lemma app_str_assoc (a b c : string) : a +:+ (b +:+ c) = (a +:+ b) +:+ c.
Proof. induction a as [|x a IH]; [done|]. change (String x (a +:+ (b +:+ c)) = String x ((a +:+ b) +:+ c)). by rewrite IH. Qed.

Lemma app_str_nil_r (a : string) : a +:+ "" = a.
Proof. induction a as [|x a IH]; [done|]. change (String x (a +:+ "") = String x a). by rewrite IH. Qed.

Lemma app_str_nil_l (a : string) : "" +:+ a = a.
Proof. done. Qed.

Lemma app_str_cons (c : ascii) (a b : string) : String c a +:+ b = String c (a +:+ b).
Proof. done. Qed.

Lemma str_length_app (a b : string) :
  String.length (a +:+ b) = (String.length a + String.length b)%nat.
Proof. induction a as [|x a IH]; [done|]. rewrite ?app_str_cons. simpl. by rewrite IH. Qed.

Lemma str_forall_app (p : ascii → bool) (a b : string) :
  str_forall p (a +:+ b) = str_forall p a && str_forall p b.
Proof.
  induction a as [|x a IH]; [done|]. rewrite ?app_str_cons. simpl.
  by rewrite IH, andb_assoc.
Qed.

Lemma str_take_drop (n : nat) (s : string) : str_take n s +:+ str_drop n s = s.
Proof.
  revert s. induction n as [|n IH]; intros [|c s]; simpl; try done.
  by rewrite ?app_str_cons, IH.
Qed.

Lemma str_take_length (n : nat) (s : string) :
  String.length (str_take n s) = (n `min` String.length s)%nat.
Proof. revert s. induction n as [|n IH]; intros [|c s]; simpl; auto. Qed.

Lemma str_drop_length (n : nat) (s : string) :
  String.length (str_drop n s) = (String.length s - n)%nat.
Proof. revert s. induction n as [|n IH]; intros [|c s]; simpl; auto. Qed.

Lemma str_forall_take (p : ascii → bool) n s : str_forall p s = true → str_forall p (str_take n s) = true.
Proof.
  revert s. induction n as [|n IH]; intros [|c s]; simpl; auto.
  rewrite !andb_true_iff. intros [? ?]. auto.
Qed.

Lemma str_forall_drop (p : ascii → bool) n s : str_forall p s = true → str_forall p (str_drop n s) = true.
Proof.
  revert s. induction n as [|n IH]; intros [|c s]; simpl; auto.
  rewrite andb_true_iff. intros [? ?]. auto.
Qed.

Lemma span_digits_app (d r : string) :
  str_forall is_digit d = true →
  match r with String c _ => is_digit c = false | "" => True end →
  span_digits (d +:+ r) = (d, r).
Proof.
  induction d as [|c d IH]; simpl.
  - intros _. destruct r as [|c r]; simpl; [done|]. by intros ->.
  - intros [Hc Hd]%andb_true_iff Hr. rewrite ?app_str_cons. simpl.
    by rewrite Hc, IH.
Qed.

Lemma prefix_app a b : startswith a (a +:+ b) = true.
Proof.
  unfold startswith. induction a as [|c a IH]; [by destruct b|]. rewrite app_str_cons. simpl.
  by destruct (Ascii.ascii_dec c c).
Qed.

Lemma str_drop_app a b : str_drop (String.length a) (a +:+ b) = b.
Proof. induction a as [|c a IH]; [by destruct b|]. by rewrite app_str_cons. Qed.

Lemma str_repeat_forall p s n : str_forall p s = true → str_forall p (str_repeat s n) = true.
Proof. intros H. induction n as [|n IH]; simpl; [done|]. by rewrite str_forall_app, H, IH. Qed.

Lemma str_repeat_length1 c n : String.length (str_repeat (String c "") n) = n.
Proof. induction n as [|n IH]; [done|]. cbn [str_repeat]. rewrite str_length_app, IH. done. Qed.

(** Numerals round-trip. *)
Lemma numeral_val_acc_app acc a b :
  numeral_val_acc acc (a +:+ b) = numeral_val_acc (numeral_val_acc acc a) b.
Proof. revert acc. induction a as [|c a IH]; intros acc; [done|]. rewrite ?app_str_cons. simpl. apply IH. Qed.

Lemma numeral_val_zeros n s : numeral_val (str_repeat "0" n +:+ s) = numeral_val s.
Proof. unfold numeral_val. rewrite numeral_val_acc_app. f_equal. by induction n as [|n IH]. Qed.

Lemma string_of_uint_digits (u : Decimal.uint) :
  str_forall is_digit (NilEmpty.string_of_uint u) = true.
Proof. by induction u. Qed.

Lemma numeral_val_uint_acc (u : Decimal.uint) (acc : positive) :
  numeral_val_acc (N.pos acc) (NilEmpty.string_of_uint u) = N.pos (Pos.of_uint_acc u acc).
Proof.
  revert acc. induction u; intros acc; simpl; try done;
    rewrite <- IHu; f_equal; unfold digit_val; simpl; lia.
Qed.

Lemma numeral_val_uint (u : Decimal.uint) :
  numeral_val (NilEmpty.string_of_uint u) = N.of_uint u.
Proof.
  unfold numeral_val. induction u; simpl; try done; apply numeral_val_uint_acc.
Qed.

Lemma digits_of_N_digits n : str_forall is_digit (digits_of_N n) = true.
Proof.
  unfold digits_of_N, NilZero.string_of_uint.
  destruct (N.to_uint n) eqn:E; [done|..]; apply string_of_uint_digits.
Qed.

Lemma digits_of_N_nonempty n : digits_of_N n ≠ "".
Proof. unfold digits_of_N, NilZero.string_of_uint. by destruct (N.to_uint n). Qed.

Lemma numeral_val_of_N n : numeral_val (digits_of_N n) = n.
Proof.
  unfold digits_of_N, NilZero.string_of_uint.
  destruct (N.to_uint n) eqn:E;
    [apply (f_equal N.of_uint) in E; by rewrite DecimalN.Unsigned.of_to in E
    |rewrite numeral_val_uint, <- E; apply DecimalN.Unsigned.of_to ..].
Qed.

(** Case mapping is idempotent. *)
Lemma ascii_upper_idemp c : ascii_upper (ascii_upper c) = ascii_upper c.
Proof. destruct c as [[] [] [] [] [] [] [] []]; vm_compute; reflexivity. Qed.

Lemma str_upper_idemp s : str_upper (str_upper s) = str_upper s.
Proof. induction s as [|c s IH]; [done|]. unfold str_upper in *. simpl. by rewrite ascii_upper_idemp, IH. Qed.

#[export] Hint Rewrite str_upper_idemp str_length_app str_forall_app : py.

(** Stripping and replacing change nothing where there is nothing to change. *)
Lemma lstrip_id s : str_forall (λ c, negb (is_space c)) s = true → lstrip s = s.
Proof. destruct s as [|c s]; simpl; [done|]. by destruct (is_space c). Qed.

Lemma rstrip_id s : str_forall (λ c, negb (is_space c)) s = true → rstrip s = s.
Proof.
  induction s as [|c s IH]; simpl; [done|]. rewrite andb_true_iff, negb_true_iff.
  intros [-> Hs]. rewrite (IH Hs). by destruct s.
Qed.

Lemma str_strip_id s : str_forall (λ c, negb (is_space c)) s = true → str_strip s = s.
Proof. intros H. unfold str_strip. by rewrite lstrip_id, rstrip_id. Qed.

Lemma replace_char_id old new s :
  str_forall (λ c, negb (Ascii.eqb c old)) s = true → replace_char old new s = s.
Proof.
  induction s as [|c s IH]; simpl; [done|]. rewrite andb_true_iff, negb_true_iff.
  intros [-> Hs]. by rewrite (IH Hs).
Qed.

Lemma str_forall_impl (p q : ascii → bool) s :
  (∀ c, p c = true → q c = true) → str_forall p s = true → str_forall q s = true.
Proof.
  intros H. induction s as [|c s IH]; simpl; [done|]. rewrite !andb_true_iff. naive_solver.
Qed.

Lemma is_digit_val c : is_digit c = true → (48 ≤ code c ∧ code c ≤ 57).
Proof. unfold is_digit, between. rewrite andb_true_iff, !N.leb_le. done. Qed.

(** A digit is none of the other characters a numeral may hold. *)
Lemma is_digit_neqb c x : is_digit c = true → is_digit x = false → Ascii.eqb c x = false.
Proof. intros Hc Hx. apply Ascii.eqb_neq. intros ->. congruence. Qed.

Lemma numeral_val_trailing_zeros s n :
  numeral_val (s +:+ str_repeat "0" n) = numeral_val s * 10 ^ N.of_nat n.
Proof.
  unfold numeral_val. rewrite numeral_val_acc_app. generalize (numeral_val_acc 0 s).
  induction n as [|n IH]; intros a; [simpl; lia|].
  cbn [str_repeat]. rewrite app_str_cons, app_str_nil_l. cbn [numeral_val_acc].
  rewrite IH, Nat2N.inj_succ, N.pow_succ_r'. unfold digit_val. simpl (code "0" - 48). lia.
Qed.

(** A numeral of [n] digits is below [10^n]. *)
Lemma numeral_val_acc_bound acc s :
  str_forall is_digit s = true →
  (numeral_val_acc acc s < (acc + 1) * 10 ^ N.of_nat (String.length s))%N.
Proof.
  revert acc. induction s as [|c s IH]; intros acc Hs; cbn [numeral_val_acc String.length]; [lia|].
  cbn [str_forall] in Hs. apply andb_true_iff in Hs as [Hc Hs]. specialize (IH (10 * acc + digit_val c)%N Hs).
  apply is_digit_val in Hc. rewrite Nat2N.inj_succ, N.pow_succ_r'. unfold digit_val in *.
  eapply N.lt_le_trans; [exact IH|]. rewrite N.mul_assoc. apply N.mul_le_mono_r. lia.
Qed.

Lemma numeral_val_bound s :
  str_forall is_digit s = true → (numeral_val s < 10 ^ N.of_nat (String.length s))%N.
Proof. intros Hs. pose proof (numeral_val_acc_bound 0 s Hs) as Hb. unfold numeral_val. lia. Qed.

(** The order of strings is transitive. *)
Lemma str_leb_cons c d s t :
  String.leb (String c s) (String d t) =
  match Ascii.compare c d with Eq => String.leb s t | Lt => true | Gt => false end.
Proof. unfold String.leb. cbn. by destruct (Ascii.compare c d). Qed.

Lemma str_leb_trans s t u : String.leb s t = true → String.leb t u = true → String.leb s u = true.
Proof.
  revert t u. induction s as [|c s IH]; intros [|d t] [|e u]; try done.
  rewrite !str_leb_cons. unfold Ascii.compare.
  destruct (N.compare_spec (N_of_ascii c) (N_of_ascii d)), (N.compare_spec (N_of_ascii d) (N_of_ascii e)),
    (N.compare_spec (N_of_ascii c) (N_of_ascii e)); try done; try lia. apply IH.
Qed.

Lemma strip_underscores_digits b s :
  str_forall is_digit s = true → (b || negb (String.eqb s "")) = true → strip_underscores b s = Some s.
Proof.
  revert b. induction s as [|c s IH]; intros b; cbn; [by destruct b|]. intros [-> Hs]%andb_true_iff _.
  by rewrite IH.
Qed.

(** [int(str(n))] *)
Lemma int_of_str_digits n : int_of_str (digits_of_N n) = Some (Z.of_N n).
Proof.
  pose proof (digits_of_N_digits n) as Hd. pose proof (digits_of_N_nonempty n) as Hn. unfold int_of_str.
  rewrite str_strip_id.
  2:{ eapply str_forall_impl; [|exact Hd]. intros c Hc. destruct c as [[] [] [] [] [] [] [] []]; (discriminate Hc || done). }
  assert (strip_underscores false (digits_of_N n) = Some (digits_of_N n)) as Hs.
  { apply strip_underscores_digits; [done|]. by destruct (String.eqb_spec (digits_of_N n) ""). }
  assert ((λ d, Z.of_N (numeral_val d)) <$> strip_underscores false (digits_of_N n) = Some (Z.of_N n)) as Hv
    by (rewrite Hs; cbn; by rewrite numeral_val_of_N).
  destruct (digits_of_N n) as [|c s]; [done|].
  destruct c as [[] [] [] [] [] [] [] []]; (discriminate Hd || exact Hv).
Qed.

Lemma int_of_str_of_Z z : (0 ≤ z)%Z → int_of_str (str_of_Z z) = Some z.
Proof.
  intros Hz. unfold str_of_Z. rewrite (proj2 (Z.ltb_ge z 0) Hz), int_of_str_digits. f_equal. lia.
Qed.
