(* ===== verification/Hash.v ===== *)
(** The hashing and text encodings of the Python standard library that the source
    uses: SHA-256 and HMAC ([hashlib], [hmac]), hexadecimal, Base64 and
    [urllib.parse.urlencode].  A byte is a number below 256. *)
From S2P Require Import Prelude PyStr.
From Stdlib Require Import Ascii.
Open Scope Z_scope.

(** ** SHA-256 *)

Definition w32 (z : Z) : Z := z mod 2 ^ 32.
Definition add32 (a b : Z) : Z := w32 (a + b).
Definition rotr (n x : Z) : Z := Z.lor (Z.shiftr x n) (w32 (Z.shiftl x (32 - n))).
Definition not32 (x : Z) : Z := 2 ^ 32 - 1 - x.

Definition sha_ch (x y z : Z) : Z := Z.lxor (Z.land x y) (Z.land (not32 x) z).
Definition sha_maj (x y z : Z) : Z := Z.lxor (Z.lxor (Z.land x y) (Z.land x z)) (Z.land y z).
Definition sha_S0 (x : Z) : Z := Z.lxor (Z.lxor (rotr 2 x) (rotr 13 x)) (rotr 22 x).
Definition sha_S1 (x : Z) : Z := Z.lxor (Z.lxor (rotr 6 x) (rotr 11 x)) (rotr 25 x).
Definition sha_s0 (x : Z) : Z := Z.lxor (Z.lxor (rotr 7 x) (rotr 18 x)) (Z.shiftr x 3).
Definition sha_s1 (x : Z) : Z := Z.lxor (Z.lxor (rotr 17 x) (rotr 19 x)) (Z.shiftr x 10).

(** The constants of the standard: the first 32 bits of the fractional parts of the
    cube roots of the first 64 primes, and of the square roots of the first 8. *)
Definition cube_root (n : Z) : Z :=
  foldl (λ x b, if (x + 2 ^ b) ^ 3 <=? n then x + 2 ^ b else x) 0 (map Z.of_nat (rev (seq 0 36))).

Definition is_prime (n : nat) : bool :=
  forallb (λ d, negb (n mod d =? 0)%nat) (seq 2 (n - 2)).
Definition first_primes (k bound : nat) : list Z :=
  map Z.of_nat (take k (List.filter is_prime (seq 2 bound))).

Definition sha_k : list Z := Eval vm_compute in
  map (λ p, w32 (cube_root (p * 2 ^ 96))) (first_primes 64 400).

Definition sha_h0 : list Z := Eval vm_compute in
  map (λ p, w32 (Z.sqrt (p * 2 ^ 64))) (first_primes 8 400).

(** The big-endian bytes of a number. *)
Fixpoint be_bytes (n : nat) (z : Z) : list Z :=
  match n with O => [] | S n' => be_bytes n' (z / 256) ++ [z mod 256] end.

Definition be_value (bs : list Z) : Z := foldl (λ acc b, acc * 256 + b) 0 bs.

Fixpoint chunks (fuel n : nat) (l : list Z) : list (list Z) :=
  match fuel with
  | O => []
  | S fuel' => match l with [] => [] | _ => take n l :: chunks fuel' n (drop n l) end
  end.

Definition sha_pad (msg : list Z) : list Z :=
  let len := length msg in
  let zeros := Z.to_nat ((55 - Z.of_nat len) mod 64) in
  msg ++ [128] ++ repeat 0 zeros ++ be_bytes 8 (8 * Z.of_nat len).

(** The message schedule, extended from the last sixteen words. *)
Fixpoint schedule (n : nat) (w : list Z) : list Z :=
  match n with
  | O => w
  | S n' =>
      let i := length w in
      let at_ k := nth (i - k) w 0 in
      schedule n' (w ++ [add32 (add32 (sha_s1 (at_ 2%nat)) (at_ 7%nat)) (add32 (sha_s0 (at_ 15%nat)) (at_ 16%nat))])
  end.

Definition sha_round (s : list Z) (kw : Z * Z) : list Z :=
  match s with
  | [a; b; c; d; e; f; g; h] =>
      let t1 := add32 (add32 (add32 h (sha_S1 e)) (add32 (sha_ch e f g) (fst kw))) (snd kw) in
      let t2 := add32 (sha_S0 a) (sha_maj a b c) in
      [add32 t1 t2; a; b; c; add32 d t1; e; f; g]
  | _ => s
  end.

Definition sha_block (h : list Z) (block : list Z) : list Z :=
  let w := schedule 48 (map be_value (chunks 16 4 block)) in
  zip_with add32 h (foldl sha_round h (combine sha_k w)).

Definition sha256 (msg : list Z) : list Z :=
  let padded := sha_pad msg in
  flat_map (be_bytes 4) (foldl sha_block sha_h0 (chunks (length padded) 64 padded)).

Definition hmac_sha256 (key msg : list Z) : list Z :=
  let key := if (64 <? length key)%nat then sha256 key else key in
  let key := key ++ repeat 0 (64 - length key) in
  sha256 (map (Z.lxor 0x5c) key ++ sha256 (map (Z.lxor 0x36) key ++ msg)).

(** ** Text encodings *)

Fixpoint bytes_of_str (s : string) : list Z :=
  match s with "" => [] | String c r => Z.of_N (code c) :: bytes_of_str r end.

Definition str_of_codes (l : list Z) : string :=
  foldr (λ z s, String (ascii_of_N (Z.to_N z)) s) "" l.

Definition nibble (z : Z) : Z := if z <? 10 then 48 + z else 87 + z.
Definition hex (bs : list Z) : string := str_of_codes (flat_map (λ b, [nibble (b / 16); nibble (b mod 16)]) bs).

Definition b64_char (plus slash z : Z) : Z :=
  if z <? 26 then 65 + z else if z <? 52 then 71 + z else if z <? 62 then z - 4
  else if z =? 62 then plus else slash.

Fixpoint b64_codes (plus slash : Z) (bs : list Z) : list Z :=
  let c := b64_char plus slash in
  match bs with
  | [] => []
  | [x] => [c (x / 4); c (x mod 4 * 16); 61; 61]
  | [x; y] => [c (x / 4); c (x mod 4 * 16 + y / 16); c (y mod 16 * 4); 61]
  | x :: y :: z :: r =>
      c (x / 4) :: c (x mod 4 * 16 + y / 16) :: c (y mod 16 * 4 + z / 64) :: c (z mod 64) ::
      b64_codes plus slash r
  end.

Definition b64encode (bs : list Z) : string := str_of_codes (b64_codes 43 47 bs).

Definition hex_upper (z : Z) : Z := if z <? 10 then 48 + z else 55 + z.

(** [urllib.parse.quote_plus] *)
Definition quote_char (c : ascii) : string :=
  if is_alnum c || Ascii.eqb c "_" || Ascii.eqb c "." || Ascii.eqb c "-" || Ascii.eqb c "~"
  then String c ""
  else if Ascii.eqb c " " then "+"
  else let z := Z.of_N (code c) in "%" +:+ str_of_codes [hex_upper (z / 16); hex_upper (z mod 16)].

Fixpoint quote_plus (s : string) : string :=
  match s with "" => "" | String c r => quote_char c +:+ quote_plus r end.

Definition urlencode (params : list (string * string)) : string :=
  str_join "&" (map (λ kv, quote_plus kv.1 +:+ "=" +:+ quote_plus kv.2) params).

(** Known answers. *)
Example sha256_abc :
  hex (sha256 (bytes_of_str "abc")) =
    "ba7816bf8f01cfea414140de5dae2223b00361a396177a9cb410ff61f20015ad".
Proof. vm_compute. reflexivity. Qed.

Example hmac_sha256_jefe :
  hex (hmac_sha256 (bytes_of_str "Jefe") (bytes_of_str "what do ya want for nothing?")) =
    "5bdcc146bf60754e6a042426089575c75a003f089d2739839dec58b964ec3843".
Proof. vm_compute. reflexivity. Qed.

(** ** Lengths *)

Lemma be_bytes_length n z : length (be_bytes n z) = n.
Proof. revert z. induction n as [|n IH]; intros z; simpl; [done|]. rewrite length_app, IH. simpl. lia. Qed.

Lemma sha_round_length s kw : length (sha_round s kw) = length s.
Proof. unfold sha_round. repeat (destruct s as [|? s]; try done). Qed.

Lemma sha_rounds_length l s : length (foldl sha_round s l) = length s.
Proof. revert s. induction l as [|kw l IH]; intros s; simpl; [done|]. by rewrite IH, sha_round_length. Qed.

Lemma sha_blocks_length l h : length h = 8%nat → length (foldl sha_block h l) = 8%nat.
Proof.
  revert h. induction l as [|b l IH]; intros h Hh; simpl; [done|]. apply IH.
  unfold sha_block. by rewrite length_zip_with, sha_rounds_length, Hh.
Qed.

Lemma flat_map_length_const {A B} (f : A → list B) n l :
  (∀ x, length (f x) = n) → length (flat_map f l) = (n * length l)%nat.
Proof. intros Hf. induction l as [|x l IH]; simpl; [lia|]. rewrite length_app, Hf, IH. lia. Qed.

Lemma sha256_length msg : length (sha256 msg) = 32%nat.
Proof.
  unfold sha256. rewrite (flat_map_length_const _ 4) by apply be_bytes_length.
  by rewrite sha_blocks_length.
Qed.

Lemma str_of_codes_length l : String.length (str_of_codes l) = length l.
Proof. induction l; simpl; congruence. Qed.

Lemma hmac_sha256_hex_length key msg : String.length (hex (hmac_sha256 key msg)) = 64%nat.
Proof.
  unfold hex. rewrite str_of_codes_length, (flat_map_length_const _ 2) by done.
  unfold hmac_sha256. by rewrite sha256_length.
Qed.
