(* ===== verification/PyDecimal.v ===== *)
(** Python's [decimal.Decimal] under the default context: sign, coefficient and
    exponent, arithmetic rounded half-even to 28 significant digits, numeric
    comparison, [str], [format(d.normalize(), "f")] and the constructor's parser.
    The exponent limits of the context (Emin = -999999, Emax = 999999) are not
    modelled: no service reaches them with NUMERIC(28, 10) operands. *)
From S2P Require Import Prelude PyStr.
From Stdlib Require Import Ascii.

Local Open Scope Z_scope.

(** ** Representation *)

Record dec := Dec { d_neg : bool; d_coeff : N; d_exp : Z }.

#[export] Instance dec_eq_dec : EqDecision dec.
Proof. solve_decision. Defined.

(** What the constructor can return: a finite number, an infinity or a NaN. *)
Inductive pydec :=
| PFin (d : dec)
| PInf (neg : bool)
| PNaN (neg : bool) (quiet : bool).

#[export] Instance pydec_eq_dec : EqDecision pydec.
Proof. solve_decision. Defined.

Definition dec_of_Z (z : Z) : dec := Dec (z <? 0) (Z.abs_N z) 0.
Definition dec0 : dec := dec_of_Z 0.
Definition dec1 : dec := dec_of_Z 1.

(** ** Numeric value and comparison *)

Definition sval (d : dec) : Z :=
  if d_neg d then - Z.of_N (d_coeff d) else Z.of_N (d_coeff d).

(** The value as a multiple of [10 ^ e], for [e] at most the exponent. *)
Definition scaled (e : Z) (d : dec) : Z := sval d * 10 ^ (d_exp d - e).

Definition dec_compare (a b : dec) : comparison :=
  let e := Z.min (d_exp a) (d_exp b) in scaled e a ?= scaled e b.

Definition dec_eqb (a b : dec) : bool := match dec_compare a b with Eq => true | _ => false end.
Definition dec_ltb (a b : dec) : bool := match dec_compare a b with Lt => true | _ => false end.
Definition dec_leb (a b : dec) : bool := match dec_compare a b with Gt => false | _ => true end.
Definition dec_gtb (a b : dec) : bool := dec_ltb b a.
Definition dec_geb (a b : dec) : bool := dec_leb b a.
Definition dec_is_zero (d : dec) : bool := N.eqb (d_coeff d) 0.

(** ** Context rounding and arithmetic *)

Definition ndigits (c : N) : nat := String.length (digits_of_N c).

Definition round_half_even (c : N) (k : Z) : N :=
  let p := Z.to_N (10 ^ k) in
  let q := (c / p)%N in
  let r := (c mod p)%N in
  match (2 * r ?= p)%N with
  | Lt => q
  | Gt => (q + 1)%N
  | Eq => if N.even q then q else (q + 1)%N
  end.

Definition prec_limit : N := (10 ^ 28)%N.

(** [Decimal._fix]: round a coefficient of more than 28 digits. *)
Definition dec_fix (d : dec) : dec :=
  if (d_coeff d <? prec_limit)%N then d
  else
    let k := Z.of_nat (ndigits (d_coeff d)) - 28 in
    let q := round_half_even (d_coeff d) k in
    if (q =? prec_limit)%N then Dec (d_neg d) (10 ^ 27)%N (d_exp d + k + 1)
    else Dec (d_neg d) q (d_exp d + k).

Definition dec_copy_negate (d : dec) : dec := Dec (negb (d_neg d)) (d_coeff d) (d_exp d).

Definition dec_add (a b : dec) : dec :=
  let e := Z.min (d_exp a) (d_exp b) in
  let s := scaled e a + scaled e b in
  dec_fix (Dec (if s =? 0 then d_neg a && d_neg b else s <? 0) (Z.abs_N s) e).

Definition dec_sub (a b : dec) : dec := dec_add a (dec_copy_negate b).

Definition dec_mul (a b : dec) : dec :=
  dec_fix (Dec (xorb (d_neg a) (d_neg b)) (d_coeff a * d_coeff b)%N (d_exp a + d_exp b)).

(** [abs(d)] and [-d] *)
Definition dec_abs (d : dec) : dec := dec_fix (Dec false (d_coeff d) (d_exp d)).
Definition dec_minus (d : dec) : dec :=
  dec_fix (Dec (if dec_is_zero d then false else negb (d_neg d)) (d_coeff d) (d_exp d)).

(** The exponent of the most significant digit. *)
Definition dec_adjusted (d : dec) : Z := d_exp d + Z.of_nat (ndigits (d_coeff d)) - 1.

(** ** Text *)


Definition sign_text (neg : bool) : string := if neg then "-" else "".

(** ["%+d" % z] *)
Definition signed_text (z : Z) : string :=
  if z <? 0 then "-" +:+ digits_of_N (Z.abs_N z) else "+" +:+ digits_of_N (Z.abs_N z).

(** [str(d)] *)
Definition dec_str (d : dec) : string :=
  let digs := digits_of_N (d_coeff d) in
  let len := Z.of_nat (String.length digs) in
  let leftdigits := d_exp d + len in
  let dotplace := if (d_exp d <=? 0) && (-6 <? leftdigits) then leftdigits else 1 in
  let body :=
    if dotplace <=? 0 then "0." +:+ str_repeat "0" (Z.to_nat (- dotplace)) +:+ digs
    else if len <=? dotplace then digs +:+ str_repeat "0" (Z.to_nat (dotplace - len))
    else str_take (Z.to_nat dotplace) digs +:+ "." +:+ str_drop (Z.to_nat dotplace) digs in
  let expo := if leftdigits =? dotplace then "" else "E" +:+ signed_text (leftdigits - dotplace) in
  sign_text (d_neg d) +:+ body +:+ expo.

(** [d.normalize()]: round, then drop the trailing zeros of the coefficient. *)
Fixpoint strip_zeros (fuel : nat) (c : N) (e : Z) : N * Z :=
  match fuel with
  | O => (c, e)
  | S fuel' =>
      if (c mod 10 =? 0)%N then strip_zeros fuel' (c / 10)%N (e + 1) else (c, e)
  end.

Definition dec_normalize (d : dec) : dec :=
  let d := dec_fix d in
  if dec_is_zero d then Dec (d_neg d) 0 0
  else let '(c, e) := strip_zeros (ndigits (d_coeff d)) (d_coeff d) (d_exp d) in
       Dec (d_neg d) c e.

(** [format(d, "f")] *)
Definition dec_format_f (d : dec) : string :=
  let d := if dec_is_zero d && (0 <? d_exp d) then Dec (d_neg d) 0 0 else d in
  let digs := digits_of_N (d_coeff d) in
  let len := Z.of_nat (String.length digs) in
  let dotplace := d_exp d + len in
  let '(intpart, fracpart) :=
    if dotplace <? 0 then ("0", str_repeat "0" (Z.to_nat (- dotplace)) +:+ digs)
    else if len <? dotplace then (digs +:+ str_repeat "0" (Z.to_nat (dotplace - len)), "")
    else (if dotplace =? 0 then "0" else str_take (Z.to_nat dotplace) digs,
          str_drop (Z.to_nat dotplace) digs) in
  sign_text (d_neg d) +:+ intpart +:+
  (if String.eqb fracpart "" then "" else "." +:+ fracpart).

(** ** The constructor [Decimal(text)] *)

Definition parse_sign (s : string) : bool * string :=
  match s with
  | String c r =>
      if Ascii.eqb c "-" then (true, r) else if Ascii.eqb c "+" then (false, r) else (false, s)
  | "" => (false, s)
  end.

Definition parse_frac (s : string) : string * string :=
  match s with
  | String c r => if Ascii.eqb c "." then span_digits r else ("", s)
  | "" => ("", s)
  end.

Definition parse_exp (s : string) : option Z :=
  match s with
  | "" => Some 0
  | String c r =>
      if Ascii.eqb (ascii_lower c) "e" then
        let '(neg, r) := parse_sign r in
        let '(ds, rest) := span_digits r in
        if String.eqb ds "" || negb (String.eqb rest "") then None
        else Some (if (neg : bool) then - Z.of_N (numeral_val ds) else Z.of_N (numeral_val ds))
      else None
  end.

Definition parse_special (neg : bool) (s : string) : option pydec :=
  let t := str_lower s in
  if String.eqb t "inf" || String.eqb t "infinity" then Some (PInf neg)
  else if startswith "nan" t && str_forall is_digit (str_drop 3 t) then Some (PNaN neg true)
  else if startswith "snan" t && str_forall is_digit (str_drop 4 t) then Some (PNaN neg false)
  else None.

(** [None] is [decimal.InvalidOperation]. *)
Definition decimal_of_str (s : string) : option pydec :=
  let s := replace_char "_" "" (str_strip s) in
  let '(neg, r) := parse_sign s in
  let '(int, r1) := span_digits r in
  let '(frac, r2) := parse_frac r1 in
  if String.eqb int "" && String.eqb frac "" then parse_special neg r
  else
    e ← parse_exp r2;
    Some (PFin (Dec neg (numeral_val (int +:+ frac)) (e - Z.of_nat (String.length frac)))).

(** ** Comparison is comparison of values *)

Lemma pow10_pos (k : Z) : 0 ≤ k → 0 < 10 ^ k.
Proof. intros. apply Z.pow_pos_nonneg; lia. Qed.

Lemma scaled_shift (e k : Z) (d : dec) :
  e ≤ d_exp d → 0 ≤ k → scaled (e - k) d = scaled e d * 10 ^ k.
Proof.
  intros He Hk. unfold scaled. replace (d_exp d - (e - k)) with ((d_exp d - e) + k) by lia.
  rewrite Z.pow_add_r by lia. lia.
Qed.

Lemma dec_compare_scaled (e : Z) (a b : dec) :
  e ≤ d_exp a → e ≤ d_exp b → dec_compare a b = (scaled e a ?= scaled e b).
Proof.
  intros Ha Hb. unfold dec_compare. set (m := Z.min _ _).
  replace e with (m - (m - e)) by lia.
  rewrite !scaled_shift by lia.
  pose proof (pow10_pos (m - e) ltac:(lia)) as Hp.
  destruct (Z.compare_spec (scaled m a) (scaled m b)) as [->|H|H].
  - by rewrite Z.compare_refl.
  - symmetry. apply Z.compare_lt_iff. nia.
  - symmetry. apply Z.compare_gt_iff. nia.
Qed.

Definition common_exp (a b : dec) : Z := Z.min (d_exp a) (d_exp b).

Lemma dec_ltb_spec (e : Z) (a b : dec) :
  e ≤ d_exp a → e ≤ d_exp b → dec_ltb a b = true ↔ scaled e a < scaled e b.
Proof.
  intros Ha Hb. unfold dec_ltb. rewrite (dec_compare_scaled e) by done.
  destruct (Z.compare_spec (scaled e a) (scaled e b)); split; (done || lia).
Qed.

Lemma dec_leb_spec (e : Z) (a b : dec) :
  e ≤ d_exp a → e ≤ d_exp b → dec_leb a b = true ↔ scaled e a ≤ scaled e b.
Proof.
  intros Ha Hb. unfold dec_leb. rewrite (dec_compare_scaled e) by done.
  destruct (Z.compare_spec (scaled e a) (scaled e b)); split; (done || lia).
Qed.

Lemma dec_eqb_spec (e : Z) (a b : dec) :
  e ≤ d_exp a → e ≤ d_exp b → dec_eqb a b = true ↔ scaled e a = scaled e b.
Proof.
  intros Ha Hb. unfold dec_eqb. rewrite (dec_compare_scaled e) by done.
  destruct (Z.compare_spec (scaled e a) (scaled e b)); split; (done || lia).
Qed.

Lemma dec_leb_negb_ltb (a b : dec) : dec_leb a b = negb (dec_ltb b a).
Proof.
  unfold dec_leb, dec_ltb.
  rewrite (dec_compare_scaled (common_exp a b) a b), (dec_compare_scaled (common_exp a b) b a)
    by (unfold common_exp; lia).
  rewrite (Z.compare_antisym (scaled _ a)). by destruct (_ ?= _).
Qed.

(** Numeric equality: an equivalence coarser than [=] that comparison respects. *)
Definition dec_eq (a b : dec) : Prop := dec_eqb a b = true.

#[export] Instance dec_eq_equivalence : Equivalence dec_eq.
Proof.
  split.
  - intros a. apply (dec_eqb_spec (d_exp a)); lia.
  - intros a b. unfold dec_eq.
    rewrite (dec_eqb_spec (common_exp a b) a b), (dec_eqb_spec (common_exp a b) b a)
      by (unfold common_exp; lia). done.
  - intros a b c. unfold dec_eq. set (e := Z.min (common_exp a b) (d_exp c)).
    rewrite !(dec_eqb_spec e) by (unfold e, common_exp; lia). congruence.
Qed.

#[export] Instance dec_ltb_proper : Proper (dec_eq ==> dec_eq ==> eq) dec_ltb.
Proof.
  intros a a' Ha b b' Hb. unfold dec_eq in *.
  set (e := Z.min (common_exp a a') (common_exp b b')).
  apply (dec_eqb_spec e) in Ha, Hb; try (unfold e, common_exp; lia).
  apply eq_bool_prop_intro. rewrite !Is_true_true.
  rewrite !(dec_ltb_spec e), Ha, Hb by (unfold e, common_exp; lia). done.
Qed.

#[export] Instance dec_leb_proper : Proper (dec_eq ==> dec_eq ==> eq) dec_leb.
Proof. intros a a' Ha b b' Hb. rewrite !dec_leb_negb_ltb. by rewrite Ha, Hb. Qed.

(** ** Arithmetic that fits 28 digits is exact *)

Lemma dec_fix_small (d : dec) : (d_coeff d < prec_limit)%N → dec_fix d = d.
Proof. intros H. unfold dec_fix. by apply N.ltb_lt in H as ->. Qed.

Lemma sval_abs (b : bool) (s e : Z) :
  (s ≠ 0 → b = (s <? 0)) → sval (Dec b (Z.abs_N s) e) = s.
Proof.
  intros H. unfold sval. simpl. rewrite N2Z.inj_abs_N.
  destruct (decide (s = 0)) as [->|Hs]; [by destruct b|].
  rewrite (H Hs). destruct (Z.ltb_spec s 0); lia.
Qed.

Lemma dec_add_exact (a b : dec) :
  let e := common_exp a b in
  Z.abs (scaled e a + scaled e b) < 10 ^ 28 →
  d_exp (dec_add a b) = e ∧ sval (dec_add a b) = scaled e a + scaled e b.
Proof.
  intros e H. unfold dec_add. fold (common_exp a b). fold e.
  rewrite dec_fix_small by (simpl; unfold prec_limit; lia).
  split; [done|]. apply sval_abs. intros Hs.
  by rewrite (proj2 (Z.eqb_neq _ _) Hs).
Qed.

Lemma scaled_copy_negate e d : scaled e (dec_copy_negate d) = - scaled e d.
Proof. unfold scaled, sval, dec_copy_negate. simpl. destruct (d_neg d); simpl; lia. Qed.

Lemma dec_sub_exact (a b : dec) :
  let e := common_exp a b in
  Z.abs (scaled e a - scaled e b) < 10 ^ 28 →
  d_exp (dec_sub a b) = e ∧ sval (dec_sub a b) = scaled e a - scaled e b.
Proof.
  intros e H. unfold dec_sub.
  pose proof (dec_add_exact a (dec_copy_negate b)) as He. cbv zeta in He.
  assert (common_exp a (dec_copy_negate b) = e) as Hc by done. rewrite Hc in He.
  rewrite scaled_copy_negate in He. apply He. lia.
Qed.

Lemma scaled_same_exp (d : dec) : scaled (d_exp d) d = sval d.
Proof. unfold scaled. rewrite Z.sub_diag. lia. Qed.

Lemma dec_abs_exact (d : dec) :
  (d_coeff d < prec_limit)%N → dec_abs d = Dec false (d_coeff d) (d_exp d).
Proof. intros. by apply dec_fix_small. Qed.

(** ** Printing and parsing round-trip *)

Definition numeral_char (c : ascii) : bool :=
  is_digit c || Ascii.eqb c "-" || Ascii.eqb c "+" || Ascii.eqb c "." || Ascii.eqb c "E".

Lemma numeral_char_clean c :
  numeral_char c = true → negb (is_space c) = true ∧ negb (Ascii.eqb c "_") = true.
Proof. destruct c as [[] [] [] [] [] [] [] []]; vm_compute; (done || auto). Qed.

Lemma is_digit_numeral_char c : is_digit c = true → numeral_char c = true.
Proof. unfold numeral_char. by intros ->. Qed.

Definition frac_text (frac : string) : string := if String.eqb frac "" then "" else "." +:+ frac.
Definition exp_text (e : Z) : string := if e =? 0 then "" else "E" +:+ signed_text e.
Definition numeral_text (neg : bool) (int frac : string) (e : Z) : string :=
  sign_text neg +:+ int +:+ frac_text frac +:+ exp_text e.

Definition all_digits (s : string) : Prop := str_forall is_digit s = true.

Lemma all_digits_numeral s : all_digits s → str_forall numeral_char s = true.
Proof. apply str_forall_impl, is_digit_numeral_char. Qed.

Lemma numeral_text_clean neg int frac e :
  all_digits int → all_digits frac →
  replace_char "_" "" (str_strip (numeral_text neg int frac e)) = numeral_text neg int frac e.
Proof.
  intros Hi Hf.
  assert (str_forall numeral_char (numeral_text neg int frac e) = true) as H.
  { unfold numeral_text, frac_text, exp_text, signed_text.
    assert (∀ n, str_forall numeral_char (digits_of_N n) = true) as Hn
      by (intros; apply all_digits_numeral, digits_of_N_digits).
    apply all_digits_numeral in Hi, Hf.
    destruct neg, (String.eqb frac ""), (e =? 0), (e <? 0);
      rewrite ?str_forall_app, Hi, ?Hf, ?str_forall_app, ?Hn; done. }
  rewrite str_strip_id, replace_char_id; [done| |];
    (eapply str_forall_impl; [|exact H]); intros c Hc; by apply numeral_char_clean.
Qed.

Lemma parse_sign_digits neg int rest :
  all_digits int → int ≠ "" →
  parse_sign (sign_text neg +:+ int +:+ rest) = (neg, int +:+ rest).
Proof.
  intros Hd Hne. destruct neg; [done|]. destruct int as [|c int]; [done|].
  apply andb_true_iff in Hd as [Hc _]. simpl.
  by rewrite !is_digit_neqb.
Qed.

Lemma exp_text_not_digit e :
  match exp_text e with String c _ => is_digit c = false | "" => True end.
Proof. unfold exp_text. by destruct (e =? 0). Qed.

Lemma parse_frac_text frac e :
  all_digits frac → parse_frac (frac_text frac +:+ exp_text e) = (frac, exp_text e).
Proof.
  intros Hf. unfold frac_text. destruct (String.eqb_spec frac "") as [->|Hne].
  - unfold exp_text. by destruct (e =? 0).
  - simpl. apply span_digits_app; [done | apply exp_text_not_digit].
Qed.

Lemma parse_exp_text e : parse_exp (exp_text e) = Some e.
Proof.
  unfold exp_text, signed_text. destruct (Z.eqb_spec e 0) as [->|He]; [done|].
  assert (∀ n, span_digits (digits_of_N n) = (digits_of_N n, "")) as Hs.
  { intros n. rewrite <- (app_str_nil_r (digits_of_N n)) at 1.
    apply span_digits_app; [apply digits_of_N_digits | done]. }
  destruct (Z.ltb_spec e 0); simpl; rewrite app_str_nil_l, Hs;
    rewrite (proj2 (String.eqb_neq _ _) (digits_of_N_nonempty _)); simpl;
    rewrite numeral_val_of_N, N2Z.inj_abs_N; f_equal; lia.
Qed.

(** The parser inverts every text of the shape [str] and [format] produce. *)
Lemma decimal_of_numeral_text neg int frac e :
  all_digits int → all_digits frac → int ≠ "" →
  decimal_of_str (numeral_text neg int frac e) =
  Some (PFin (Dec neg (numeral_val (int +:+ frac)) (e - Z.of_nat (String.length frac)))).
Proof.
  intros Hi Hf Hne. unfold decimal_of_str. rewrite numeral_text_clean by done.
  unfold numeral_text. rewrite parse_sign_digits by done.
  rewrite span_digits_app; [|done|].
  - rewrite parse_frac_text by done. rewrite (proj2 (String.eqb_neq _ _) Hne).
    simpl. rewrite parse_exp_text. done.
  - unfold frac_text. destruct (String.eqb frac ""); [apply exp_text_not_digit | done].
Qed.

Lemma frac_text_cons c f : frac_text (String c f) = "." +:+ String c f.
Proof. done. Qed.

Lemma frac_text_nonempty f : f ≠ "" → frac_text f = "." +:+ f.
Proof. intros H. unfold frac_text. by rewrite (proj2 (String.eqb_neq _ _) H). Qed.

Lemma str_drop_nonempty n s : (n < String.length s)%nat → str_drop n s ≠ "".
Proof. intros H E. pose proof (str_drop_length n s) as L. rewrite E in L. simpl in L. lia. Qed.

Lemma str_take_nonempty n s : (0 < n)%nat → s ≠ "" → str_take n s ≠ "".
Proof. destruct n, s; (lia || done). Qed.

Lemma app_nonempty_r a b : b ≠ "" → a +:+ b ≠ "".
Proof. by destruct a. Qed.

Lemma str_repeat_zeros_digits n : all_digits (str_repeat "0" n).
Proof. by apply str_repeat_forall. Qed.

(** Splitting the digits at a point inside them, as both printers do. *)
Lemma numeral_split neg n digs e :
  (0 < n)%nat → (n ≤ String.length digs)%nat → all_digits digs →
  decimal_of_str (numeral_text neg (str_take n digs) (str_drop n digs) e) =
  Some (PFin (Dec neg (numeral_val digs) (e - Z.of_nat (String.length digs - n)))).
Proof.
  intros Hn Hl Hd. rewrite decimal_of_numeral_text.
  - by rewrite str_take_drop, str_drop_length.
  - by apply str_forall_take.
  - by apply str_forall_drop.
  - apply str_take_nonempty; [done|]. intros ->. simpl in Hl. lia.
Qed.

(** Leading zeros after the point, as both printers do for small numbers. *)
Lemma numeral_leading_zeros neg n digs e :
  all_digits digs →
  decimal_of_str (numeral_text neg "0" (str_repeat "0" n +:+ digs) e) =
  Some (PFin (Dec neg (numeral_val digs) (e - Z.of_nat (n + String.length digs)))).
Proof.
  intros Hd. rewrite decimal_of_numeral_text; [| done | | done].
  - rewrite str_length_app, str_repeat_length1.
    change ("0" +:+ (str_repeat "0" n +:+ digs)) with (str_repeat "0" (S n) +:+ digs).
    by rewrite numeral_val_zeros.
  - unfold all_digits. by rewrite str_forall_app, str_repeat_zeros_digits, Hd.
Qed.

Lemma dec_str_parses (d : dec) : decimal_of_str (dec_str d) = Some (PFin d).
Proof.
  destruct d as [neg c e]. unfold dec_str. cbn [d_neg d_coeff d_exp].
  set (digs := digits_of_N c).
  assert (all_digits digs) as Hd by apply digits_of_N_digits.
  assert (digs ≠ "") as Hne by apply digits_of_N_nonempty.
  assert (numeral_val digs = c) as Hc by apply numeral_val_of_N.
  assert (0 < String.length digs)%nat as Hlen by (destruct digs; [done | simpl; lia]).
  set (len := Z.of_nat (String.length digs)).
  set (dot := if (e <=? 0) && (-6 <? e + len) then e + len else 1).
  assert ((if e + len =? dot then "" else "E" +:+ signed_text (e + len - dot))
          = exp_text (e + len - dot)) as ->.
  { unfold exp_text. destruct (Z.eqb_spec (e + len) dot), (Z.eqb_spec (e + len - dot) 0);
      (done || lia). }
  assert (dot = e + len ∧ e ≤ 0 ∨ dot = 1) as Hdot.
  { unfold dot. destruct (Z.leb_spec e 0); simpl; [|by right].
    destruct (Z.ltb_spec (-6) (e + len)); [by left | by right]. }
  destruct (Z.leb_spec dot 0); [|destruct (Z.leb_spec len dot)].
  - destruct Hdot as [[Hdot He]| ->]; [|lia].
    replace (sign_text neg +:+ ("0." +:+ str_repeat "0" (Z.to_nat (- dot)) +:+ digs) +:+
             exp_text (e + len - dot))
      with (numeral_text neg "0" (str_repeat "0" (Z.to_nat (- dot)) +:+ digs) (e + len - dot)).
    + rewrite numeral_leading_zeros by done. rewrite Hc. do 3 f_equal. lia.
    + unfold numeral_text. rewrite frac_text_nonempty by by apply app_nonempty_r.
      by rewrite <- !app_str_assoc.
  - assert (dot = len) as Hdl by (destruct Hdot as [[? ?]| ->]; lia).
    replace (Z.to_nat (dot - len)) with O by lia. cbn [str_repeat]. rewrite app_str_nil_r.
    change (exp_text (e + len - dot)) with (frac_text "" +:+ exp_text (e + len - dot)).
    fold (numeral_text neg digs "" (e + len - dot)).
    rewrite decimal_of_numeral_text, app_str_nil_r, Hc by done. do 3 f_equal. simpl. lia.
  - replace (sign_text neg +:+ (str_take (Z.to_nat dot) digs +:+ "." +:+
             str_drop (Z.to_nat dot) digs) +:+ exp_text (e + len - dot))
      with (numeral_text neg (str_take (Z.to_nat dot) digs) (str_drop (Z.to_nat dot) digs)
              (e + len - dot)).
    + rewrite numeral_split by (done || lia). rewrite Hc. do 3 f_equal. lia.
    + unfold numeral_text. rewrite frac_text_nonempty by (apply str_drop_nonempty; lia).
      by rewrite <- !app_str_assoc.
Qed.

Lemma format_f_parses (d : dec) :
  ∃ d', decimal_of_str (dec_format_f d) = Some (PFin d') ∧ dec_eq d' d.
Proof.
  unfold dec_format_f.
  set (d1 := if dec_is_zero d && (0 <? d_exp d) then Dec (d_neg d) 0 0 else d).
  assert (dec_eq d1 d) as Heq.
  { unfold d1. destruct (dec_is_zero d && (0 <? d_exp d)) eqn:E; [|reflexivity].
    apply andb_true_iff in E as [E%N.eqb_eq He%Z.ltb_lt]. destruct d as [n c e].
    simpl in *. subst c. apply (dec_eqb_spec 0); simpl; [lia..|].
    unfold scaled, sval. simpl. by destruct n. }
  setoid_rewrite <- Heq. clearbody d1. clear Heq d. destruct d1 as [neg c e]. simpl.
  set (digs := digits_of_N c).
  assert (all_digits digs) as Hd by apply digits_of_N_digits.
  assert (digs ≠ "") as Hne by apply digits_of_N_nonempty.
  assert (numeral_val digs = c) as Hc by apply numeral_val_of_N.
  set (len := Z.of_nat (String.length digs)).
  assert (0 < len) by (unfold len; destruct digs; [done | simpl; lia]).
  assert (∀ int frac, sign_text neg +:+ int +:+ (if String.eqb frac "" then "" else "." +:+ frac)
            = numeral_text neg int frac 0) as Htext.
  { intros. unfold numeral_text, exp_text. simpl. by rewrite app_str_nil_r. }
  destruct (Z.ltb_spec (e + len) 0); [|destruct (Z.ltb_spec len (e + len))].
  - rewrite Htext, numeral_leading_zeros, Hc by done.
    eexists; split; [reflexivity|]. replace (0 - _) with e by lia. reflexivity.
  - rewrite Htext, decimal_of_numeral_text, app_str_nil_r, numeral_val_trailing_zeros, Hc.
    + eexists; split; [reflexivity|]. apply (dec_eqb_spec 0); simpl; [lia..|].
      unfold scaled, sval. simpl. replace (Z.to_nat (e + len - len)) with (Z.to_nat e) by lia.
      rewrite !Z.sub_0_r, N2Z.inj_mul, N2Z.inj_pow, nat_N_Z, Z2Nat.id by lia.
      change (Z.of_N 10) with 10. rewrite Z.pow_0_r. destruct neg; lia.
    + unfold all_digits. by rewrite str_forall_app, str_repeat_zeros_digits, Hd.
    + done.
    + by destruct digs.
  - destruct (Z.eqb_spec (e + len) 0) as [E|E].
    + rewrite E. simpl (str_drop _ _). rewrite Htext.
      change (numeral_text neg "0" digs 0) with (numeral_text neg "0" (str_repeat "0" 0 +:+ digs) 0).
      rewrite numeral_leading_zeros, Hc by done.
      eexists; split; [reflexivity|]. replace (0 - _) with e by lia. reflexivity.
    + rewrite Htext, numeral_split, Hc by (done || lia).
      eexists; split; [reflexivity|]. replace (0 - _) with e by lia. reflexivity.
Qed.

Lemma strip_zeros_value fuel c e c' e' :
  strip_zeros fuel c e = (c', e') → e ≤ e' ∧ Z.of_N c = Z.of_N c' * 10 ^ (e' - e).
Proof.
  revert c e. induction fuel as [|fuel IH]; simpl; intros c e.
  - intros [= <- <-]. rewrite Z.sub_diag. lia.
  - destruct (N.eqb_spec (c mod 10) 0) as [E|E].
    + intros [Hle Hv]%IH. split; [lia|].
      pose proof (N.div_mod' c 10) as Hdm. rewrite E in Hdm.
      replace (e' - e) with (1 + (e' - (e + 1))) by lia. rewrite Z.pow_add_r by lia. lia.
    + intros [= <- <-]. rewrite Z.sub_diag. lia.
Qed.

Lemma dec_normalize_value (d : dec) :
  (d_coeff d < prec_limit)%N → dec_eq (dec_normalize d) d.
Proof.
  intros H. unfold dec_normalize. rewrite dec_fix_small by done.
  destruct d as [neg c e]. unfold dec_is_zero. simpl in *.
  destruct (N.eqb_spec c 0) as [->|Hc].
  - apply (dec_eqb_spec (Z.min 0 e)); simpl; [lia..|]. unfold scaled, sval. simpl.
    by destruct neg.
  - destruct (strip_zeros _ c e) as [c' e'] eqn:E.
    apply strip_zeros_value in E as [Hle Hv].
    apply (dec_eqb_spec e); simpl; [lia..|]. unfold scaled, sval. simpl.
    rewrite Z.sub_diag, Hv. destruct neg; lia.
Qed.

(** ** Magnitude *)

Lemma ndigits_bound (c : N) : (c < 10 ^ N.of_nat (ndigits c))%N.
Proof.
  unfold ndigits. rewrite <- (numeral_val_of_N c) at 1. apply numeral_val_bound, digits_of_N_digits.
Qed.

(** A decimal with at most [s] decimals below [10^m] has [m + s] digits at scale [s]. *)
Lemma scaled_bound (m s : Z) (d : dec) :
  0 <= m + s -> - s <= d_exp d -> dec_is_zero d = true \/ dec_adjusted d < m ->
  Z.abs (scaled (- s) d) < 10 ^ (m + s).
Proof.
  intros Hms He Hd. unfold scaled.
  assert (Hsv : Z.abs (sval d) = Z.of_N (d_coeff d)) by (unfold sval; destruct (d_neg d); lia).
  rewrite Z.abs_mul, Hsv, (Z.abs_eq (10 ^ _)) by (apply Z.pow_nonneg; lia).
  destruct Hd as [Hz%N.eqb_eq|Ha].
  - rewrite Hz. cbn. apply Z.pow_pos_nonneg; lia.
  - unfold dec_adjusted in Ha. pose proof (ndigits_bound (d_coeff d)) as Hb.
    apply N2Z.inj_lt in Hb. rewrite N2Z.inj_pow, nat_N_Z in Hb.
    set (n := Z.of_nat (ndigits (d_coeff d))) in *.
    apply Z.lt_le_trans with (10 ^ n * 10 ^ (d_exp d - - s)).
    + apply Z.mul_lt_mono_pos_r; [apply Z.pow_pos_nonneg; lia|exact Hb].
    + rewrite <- Z.pow_add_r by lia. apply Z.pow_le_mono_r; lia.
Qed.

Lemma dec_ltb_dec0 (d : dec) : dec_ltb d dec0 = (sval d <? 0).
Proof.
  apply eq_true_iff_eq. rewrite (dec_ltb_spec (common_exp d dec0)) by (unfold common_exp; lia).
  rewrite Z.ltb_lt. unfold scaled at 2. cbn [sval dec0]. change (sval dec0) with 0. rewrite Z.mul_0_l.
  unfold scaled. pose proof (pow10_pos (d_exp d - common_exp d dec0) ltac:(unfold common_exp; lia)).
  split; nia.
Qed.
