(* ===== verification/PyValue.v ===== *)
(** The dynamically typed Python values the services pass around: JSON payloads,
    exchange responses and audit payloads.  A float is represented by its
    [repr], which determines it; dictionaries keep insertion order and have
    string keys. *)
From S2P Require Import Prelude PyStr PyDecimal.
From Stdlib Require Import Ascii.

#[local] Set Warnings "-register-all".

Inductive pyval :=
| VNone
| VBool (b : bool)
| VInt (z : Z)
| VFloat (repr : string)
| VStr (s : string)
| VDecimal (d : dec)
| VList (l : list pyval)
| VTuple (l : list pyval)
| VDict (l : list (string * pyval)).

(** Structural induction through the nested lists. *)
Section pyval_induction.
Context (P : pyval → Prop).
Context (HNone : P VNone) (HBool : ∀ b, P (VBool b)) (HInt : ∀ z, P (VInt z))
  (HFloat : ∀ r, P (VFloat r)) (HStr : ∀ s, P (VStr s)) (HDec : ∀ d, P (VDecimal d))
  (HList : ∀ l, Forall P l → P (VList l))
  (HTuple : ∀ l, Forall P l → P (VTuple l))
  (HDict : ∀ l, Forall (λ kv, P kv.2) l → P (VDict l)).

Fixpoint pyval_ind' (v : pyval) : P v :=
  match v with
  | VNone => HNone
  | VBool b => HBool b
  | VInt z => HInt z
  | VFloat r => HFloat r
  | VStr s => HStr s
  | VDecimal d => HDec d
  | VList l => HList l ((fix go l := match l return Forall P l with
                         | [] => List.Forall_nil _
                         | x :: l' => List.Forall_cons _ _ _ (pyval_ind' x) (go l') end) l)
  | VTuple l => HTuple l ((fix go l := match l return Forall P l with
                         | [] => List.Forall_nil _
                         | x :: l' => List.Forall_cons _ _ _ (pyval_ind' x) (go l') end) l)
  | VDict l => HDict l ((fix go l := match l return Forall (λ kv, P kv.2) l with
                         | [] => List.Forall_nil _
                         | x :: l' => List.Forall_cons _ _ _ (pyval_ind' x.2) (go l') end) l)
  end.
End pyval_induction.

(** ** Dictionaries *)

(** [d.get(k)]: [None] where the key is missing. *)
Fixpoint dict_lookup {A} (k : string) (l : list (string * A)) : option A :=
  match l with
  | [] => None
  | (k', v) :: l' => if String.eqb k' k then Some v else dict_lookup k l'
  end.

Definition dict := list (string * pyval).
Definition dict_get (k : string) (l : dict) : pyval := default VNone (dict_lookup k l).
Definition dict_get_default (k : string) (d : pyval) (l : dict) : pyval := default d (dict_lookup k l).

(** [d[k] = v]: an existing key keeps its place, a new one goes last. *)
Fixpoint dict_set {A} (k : string) (v : A) (l : list (string * A)) : list (string * A) :=
  match l with
  | [] => [(k, v)]
  | (k', v') :: l' => if String.eqb k' k then (k, v) :: l' else (k', v') :: dict_set k v l'
  end.

Lemma dict_lookup_set {A} k k' (v : A) l :
  dict_lookup k (dict_set k' v l) = if String.eqb k' k then Some v else dict_lookup k l.
Proof.
  induction l as [|[k0 v0] l IH]; simpl; [done|].
  destruct (String.eqb_spec k0 k') as [->|H]; simpl.
  - by destruct (String.eqb k' k).
  - rewrite IH. destruct (String.eqb_spec k0 k) as [->|]; [|done].
    by rewrite (proj2 (String.eqb_neq k' k)) by congruence.
Qed.

(** ** Truth, equality with constants, type tests *)

Definition float_is_zero (repr : string) : bool := String.eqb repr "0.0" || String.eqb repr "-0.0".

Definition truthy (v : pyval) : bool :=
  match v with
  | VNone => false
  | VBool b => b
  | VInt z => negb (Z.eqb z 0)
  | VFloat r => negb (float_is_zero r)
  | VStr s => negb (String.eqb s "")
  | VDecimal d => negb (dec_is_zero d)
  | VList l | VTuple l => match l with [] => false | _ => true end
  | VDict l => match l with [] => false | _ => true end
  end.

(** [v == 0] and [v == s] *)
Definition py_eq_zero (v : pyval) : bool :=
  match v with
  | VBool b => negb b
  | VInt z => Z.eqb z 0
  | VFloat r => float_is_zero r
  | VDecimal d => dec_is_zero d
  | _ => false
  end.

Definition py_eq_str (v : pyval) (s : string) : bool :=
  match v with VStr t => String.eqb t s | _ => false end.

(** [v in (None, 0, "0")] *)
Definition none_or_zero (v : pyval) : bool :=
  match v with VNone => true | _ => py_eq_zero v || py_eq_str v "0" end.

(** Lists and dictionaries are unhashable: testing them for membership in a set
    raises [TypeError]. *)
Fixpoint hashable (v : pyval) : bool :=
  match v with
  | VList _ | VDict _ => false
  | VTuple l => forallb hashable l
  | _ => true
  end.

(** ** [repr] and [str] *)

Definition hex_digit (n : N) : string :=
  String (ascii_of_N (if (n <? 10)%N then 48 + n else 87 + n)) "".

Definition repr_char (quote : ascii) (c : ascii) : string :=
  if Ascii.eqb c quote || Ascii.eqb c "\" then String "\" (String c "")
  else if Ascii.eqb c "009" then "\t"
  else if Ascii.eqb c "010" then "\n"
  else if Ascii.eqb c "013" then "\r"
  else if between 32 126 c then String c ""
  else "\x" +:+ hex_digit (code c / 16) +:+ hex_digit (code c mod 16).

Fixpoint repr_body (quote : ascii) (s : string) : string :=
  match s with "" => "" | String c r => repr_char quote c +:+ repr_body quote r end.

Definition single_quote : ascii := "039".
Definition double_quote : ascii := "034".

Definition str_repr (s : string) : string :=
  let has q := negb (str_forall (λ c, negb (Ascii.eqb c q)) s) in
  let quote := if has single_quote && negb (has double_quote) then double_quote else single_quote in
  String quote "" +:+ repr_body quote s +:+ String quote "".

Fixpoint py_repr (v : pyval) : string :=
  match v with
  | VNone => "None"
  | VBool true => "True"
  | VBool false => "False"
  | VInt z => str_of_Z z
  | VFloat r => r
  | VStr s => str_repr s
  | VDecimal d => "Decimal('" +:+ dec_str d +:+ "')"
  | VList l => "[" +:+ str_join ", " (map py_repr l) +:+ "]"
  | VTuple [x] => "(" +:+ py_repr x +:+ ",)"
  | VTuple l => "(" +:+ str_join ", " (map py_repr l) +:+ ")"
  | VDict l => "{" +:+ str_join ", " (map (λ kv, str_repr kv.1 +:+ ": " +:+ py_repr kv.2) l) +:+ "}"
  end.

Definition py_str (v : pyval) : string :=
  match v with
  | VStr s => s
  | VDecimal d => dec_str d
  | _ => py_repr v
  end.

(** The helper [_optional_text] of several services:
    [None] for [None] and for blank text. *)
Definition optional_text (v : pyval) : option string :=
  match v with
  | VNone => None
  | _ => let text := str_strip (py_str v) in if String.eqb text "" then None else Some text
  end.

(** The helper [_mapping]: the dictionary itself, or an empty one. *)
Definition mapping (v : pyval) : dict := match v with VDict l => l | _ => [] end.

Definition opt_val {A} (f : A → pyval) (o : option A) : pyval :=
  match o with Some x => f x | None => VNone end.

(** A key of a dictionary at any depth. *)
Inductive has_key (k : string) : pyval → Prop :=
| key_here l v : (k, v) ∈ l → has_key k (VDict l)
| key_in_dict l k' v : (k', v) ∈ l → has_key k v → has_key k (VDict l)
| key_in_list l v : v ∈ l → has_key k v → has_key k (VList l).
