(* ===== verification/Json.v ===== *)
(** The JSON text of the standard library's [json] module, on ASCII text: the two ways
    the services write it and the parser.  A parsed fraction is a double: the [repr] of
    the double a literal denotes is a parameter.  Escapes beyond ASCII are refused. *)
From S2P Require Import Prelude PyStr PyDecimal PyValue.
From Stdlib Require Import Ascii DecimalString DecimalN DecimalFacts.

(** ** Writing: [json.dumps(value, separators=(",", ":"))], with [sort_keys=True] and without *)

Definition json_char (c : ascii) : string :=
  if Ascii.eqb c double_quote then String "\" (String double_quote "")
  else if Ascii.eqb c "\" then "\\"
  else if Ascii.eqb c "008" then "\b" else if Ascii.eqb c "009" then "\t"
  else if Ascii.eqb c "010" then "\n" else if Ascii.eqb c "012" then "\f"
  else if Ascii.eqb c "013" then "\r"
  else if between 32 126 c then String c ""
  else "\u00" +:+ hex_digit (code c / 16) +:+ hex_digit (code c mod 16).

Fixpoint json_text (s : string) : string :=
  match s with "" => "" | String c r => json_char c +:+ json_text r end.

Definition json_string (s : string) : string :=
  String double_quote "" +:+ json_text s +:+ String double_quote "".

Fixpoint json_dumps (v : pyval) : string :=
  match v with
  | VNone => "null"
  | VBool b => if b then "true" else "false"
  | VInt z => str_of_Z z
  | VFloat r => r
  | VStr s => json_string s
  | VDecimal d => dec_str d (* TypeError in Python: no payload holds one *)
  | VList l | VTuple l => "[" +:+ str_join "," (map json_dumps l) +:+ "]"
  | VDict l =>
      "{" +:+ str_join "," (map snd (sort_by (λ a b, String.leb a.1 b.1)
                (map (λ kv, (kv.1, json_string kv.1 +:+ ":" +:+ json_dumps kv.2)) l))) +:+ "}"
  end.

Fixpoint json_dumps_ordered (v : pyval) : string :=
  match v with
  | VDict l =>
      "{" +:+ str_join "," (map (λ kv, json_string kv.1 +:+ ":" +:+ json_dumps_ordered kv.2) l) +:+ "}"
  | VList l | VTuple l => "[" +:+ str_join "," (map json_dumps_ordered l) +:+ "]"
  | _ => json_dumps v
  end.

(** ** Reading: [json.loads] *)

Class PyFloat := { float_of_literal : string → string }.

Definition json_space (c : ascii) : bool :=
  Ascii.eqb c " " || Ascii.eqb c "009" || Ascii.eqb c "010" || Ascii.eqb c "013".

Fixpoint skip_space (s : string) : string :=
  match s with String c r => if json_space c then skip_space r else s | "" => "" end.

Definition hex_value (c : ascii) : option N :=
  if is_digit c then Some (code c - 48)%N
  else if between 97 102 c then Some (code c - 87)%N
  else if between 65 70 c then Some (code c - 55)%N
  else None.

Definition hex4_value (a b c d : ascii) : option N :=
  w ← hex_value a; x ← hex_value b; y ← hex_value c; z ← hex_value d;
  Some (((w * 16 + x) * 16 + y) * 16 + z)%N.

Definition simple_escape (c : ascii) : option ascii :=
  if Ascii.eqb c double_quote || Ascii.eqb c "\" || Ascii.eqb c "/" then Some c
  else if Ascii.eqb c "b" then Some "008"%char else if Ascii.eqb c "f" then Some "012"%char
  else if Ascii.eqb c "n" then Some "010"%char else if Ascii.eqb c "r" then Some "013"%char
  else if Ascii.eqb c "t" then Some "009"%char else None.

(** The characters of a string up to its closing quote, and what follows. *)
Fixpoint parse_chars (s : string) : option (string * string) :=
  match s with
  | "" => None
  | String c r =>
      if Ascii.eqb c double_quote then Some ("", r)
      else if Ascii.eqb c "\" then
        match r with
        | String "u" (String h1 (String h2 (String h3 (String h4 r')))) =>
            z ← hex4_value h1 h2 h3 h4;
            if (z <? 128)%N
            then '(t, r'') ← parse_chars r'; Some (String (ascii_of_N z) t, r'')
            else None
        | String e r' => x ← simple_escape e; '(t, r'') ← parse_chars r'; Some (String x t, r'')
        | "" => None
        end
      else if (code c <? 32)%N then None
      else '(t, r') ← parse_chars r; Some (String c t, r')
  end.

Definition take_prefix (pre s : string) : option string :=
  if startswith pre s then Some (str_drop (String.length pre) s) else None.

(** The integer part: a zero stands alone. *)
Definition parse_int_part (s : string) : option (string * string) :=
  match span_digits s with
  | ("", _) => None
  | (String "0" d, r) => Some ("0", d +:+ r)
  | (d, r) => Some (d, r)
  end.

Definition parse_fraction (s : string) : string * string :=
  match s with
  | String "." r => match span_digits r with ("", _) => ("", s) | (d, r') => ("." +:+ d, r') end
  | _ => ("", s)
  end.

Definition parse_exponent (s : string) : string * string :=
  match s with
  | String e r =>
      if Ascii.eqb e "e" || Ascii.eqb e "E" then
        let '(sign, r1) := match r with
                           | String "+" r' => ("+", r') | String "-" r' => ("-", r') | _ => ("", r)
                           end in
        match span_digits r1 with ("", _) => ("", s) | (d, r2) => (String e sign +:+ d, r2) end
      else ("", s)
  | "" => ("", s)
  end.

Section parser.
Context `{PyFloat}.

Definition parse_number (s : string) : option (pyval * string) :=
  let '(sign, r) := match s with String "-" r => ("-", r) | _ => ("", s) end in
  '(int, r1) ← parse_int_part r;
  let '(frac, r2) := parse_fraction r1 in
  let '(exp, r3) := parse_exponent r2 in
  if String.eqb frac "" && String.eqb exp ""
  then Some (VInt (let z := Z.of_N (numeral_val int) in if String.eqb sign "-" then - z else z)%Z, r3)
  else Some (VFloat (float_of_literal (sign +:+ int +:+ frac +:+ exp)), r3).

(** The words, the first of them that matches. *)
Definition parse_word (s : string) : option (pyval * string) :=
  match take_prefix "null" s, take_prefix "true" s, take_prefix "false" s,
        take_prefix "NaN" s, take_prefix "Infinity" s, take_prefix "-Infinity" s with
  | Some r, _, _, _, _, _ => Some (VNone, r)
  | _, Some r, _, _, _, _ => Some (VBool true, r)
  | _, _, Some r, _, _, _ => Some (VBool false, r)
  | _, _, _, Some r, _, _ => Some (VFloat "nan", r)
  | _, _, _, _, Some r, _ => Some (VFloat "inf", r)
  | _, _, _, _, _, Some r => Some (VFloat "-inf", r)
  | _, _, _, _, _, _ => None
  end.

(** [fuel] bounds the values and members read. *)
Fixpoint parse_value (fuel : nat) (s : string) : option (pyval * string) :=
  match fuel with
  | O => None
  | S fuel' =>
      match s with
      | String c r =>
          if Ascii.eqb c double_quote then '(t, r') ← parse_chars r; Some (VStr t, r')
          else if Ascii.eqb c "{" then
            match skip_space r with
            | String "}" r' => Some (VDict [], r')
            | r' => '(l, r'') ← parse_members fuel' [] r'; Some (VDict l, r'')
            end
          else if Ascii.eqb c "[" then
            match skip_space r with
            | String "]" r' => Some (VList [], r')
            | r' => '(l, r'') ← parse_elements fuel' r'; Some (VList l, r'')
            end
          else match parse_word s with Some p => Some p | None => parse_number s end
      | "" => None
      end
  end
with parse_members (fuel : nat) (acc : dict) (s : string) : option (dict * string) :=
  match fuel with
  | O => None
  | S fuel' =>
      match s with
      | String q r =>
          if negb (Ascii.eqb q double_quote) then None
          else
            '(k, r1) ← parse_chars r;
            match skip_space r1 with
            | String ":" r2 =>
                '(v, r3) ← parse_value fuel' (skip_space r2);
                match skip_space r3 with
                | String "}" r4 => Some (dict_set k v acc, r4)
                | String "," r4 => parse_members fuel' (dict_set k v acc) (skip_space r4)
                | _ => None
                end
            | _ => None
            end
      | "" => None
      end
  end
with parse_elements (fuel : nat) (s : string) : option (list pyval * string) :=
  match fuel with
  | O => None
  | S fuel' =>
      '(v, r) ← parse_value fuel' s;
      match skip_space r with
      | String "]" r' => Some ([v], r')
      | String "," r' => '(l, r'') ← parse_elements fuel' (skip_space r'); Some (v :: l, r'')
      | _ => None
      end
  end.

(** [json.loads(text)], [None] where it raises [JSONDecodeError].  Between
    two characters at most an element list and its first value begin, so twice the
    length of the text is fuel enough. *)
Definition json_loads (s : string) : option pyval :=
  '(v, r) ← parse_value (S (2 * String.length s)) (skip_space s);
  if String.eqb (skip_space r) "" then Some v else None.
End parser.

(** ** What was written is read back *)

Definition ascii_text (s : string) : bool := str_forall (λ c, (code c <? 128)%N) s.

(** The values that both JSON and the model render exactly: no doubles, tuples or
    decimals, ASCII text, distinct keys. *)
Fixpoint json_plain (v : pyval) : bool :=
  match v with
  | VNone | VBool _ | VInt _ => true
  | VStr s => ascii_text s
  | VList l => forallb json_plain l
  | VDict l => forallb (λ kv, ascii_text kv.1 && json_plain kv.2) l && bool_decide (NoDup (map fst l))
  | _ => false
  end.

Lemma parse_char_text c r :
  (code c <? 128)%N = true →
  parse_chars (json_char c +:+ r) = '(t, r') ← parse_chars r; Some (String c t, r').
Proof. intros Hc. destruct c as [[] [] [] [] [] [] [] []]; try discriminate Hc; reflexivity. Qed.

Lemma parse_json_text s r :
  ascii_text s = true → parse_chars (json_text s +:+ String double_quote r) = Some (s, r).
Proof.
  unfold ascii_text. induction s as [|c s IH]; intros Hs; [done|]. cbn [json_text str_forall] in *.
  apply andb_true_iff in Hs as [Hc Hs]. by rewrite <- app_str_assoc, parse_char_text, IH.
Qed.

(** What may follow a value. *)
Definition ends (rest : string) : Prop :=
  match rest with
  | "" => True
  | String c _ => c = ","%char ∨ c = "}"%char ∨ c = "]"%char
  end.

Lemma digits_of_N_cons n : ∃ c d, digits_of_N n = String c d ∧ is_digit c = true.
Proof.
  pose proof (digits_of_N_nonempty n). pose proof (digits_of_N_digits n).
  destruct (digits_of_N n) as [|c d]; [done|]. exists c, d. split; [done|]. cbn in *. by apply andb_true_iff in H0 as [].
Qed.

Lemma digits_of_N_zero n d : digits_of_N n = String "0" d → d = "".
Proof.
  unfold digits_of_N. rewrite <- (Unsigned.of_to n), Unsigned.to_of. unfold Decimal.unorm.
  pose proof (nzhead_nonzero (N.to_uint n)) as Hz. destruct (Decimal.nzhead _) as [|u|u|u|u|u|u|u|u|u|u]; cbn; try done.
  - by intros [= <-].
  - by destruct (Hz u).
Qed.

Lemma ends_no_digit rest : ends rest → match rest with String c _ => is_digit c = false | "" => True end.
Proof. destruct rest as [|c r]; [done|]. by intros [->|[->| ->]]. Qed.

Lemma ends_no_fraction rest : ends rest → parse_fraction rest = ("", rest) ∧ parse_exponent rest = ("", rest).
Proof. destruct rest as [|c r]; [done|]. by intros [->|[->| ->]]. Qed.

Section roundtrip.
Context `{PyFloat}.

Lemma parse_digits n rest : ends rest →
  parse_int_part (digits_of_N n +:+ rest) = Some (digits_of_N n, rest).
Proof.
  intros He. unfold parse_int_part. rewrite span_digits_app by (apply digits_of_N_digits || by apply ends_no_digit).
  destruct (digits_of_N_cons n) as (c & d & Hd & Hc). rewrite Hd.
  destruct (Ascii.eqb_spec c "0") as [->|Hn].
  { pose proof (digits_of_N_zero n d Hd) as ->. done. }
  destruct c as [[] [] [] [] [] [] [] []]; (done || by destruct Hn).
Qed.

Lemma parse_number_text z rest : ends rest → parse_number (str_of_Z z +:+ rest) = Some (VInt z, rest).
Proof.
  intros He. destruct (ends_no_fraction rest He) as [Hf Hx].
  unfold str_of_Z. destruct (Z.ltb_spec z 0).
  - rewrite <- app_str_assoc. rewrite app_str_cons, app_str_nil_l. unfold parse_number.
    rewrite parse_digits by done. cbn -[numeral_val parse_fraction parse_exponent]. rewrite Hf. cbn -[numeral_val parse_exponent].
    rewrite Hx. cbn -[numeral_val]. rewrite numeral_val_of_N. do 3 f_equal. lia.
  - destruct (digits_of_N_cons (Z.abs_N z)) as (c & d & Hd & Hc). unfold parse_number.
    assert (match digits_of_N (Z.abs_N z) +:+ rest with String "-" r => ("-", r) | _ => ("", digits_of_N (Z.abs_N z) +:+ rest) end
      = ("", digits_of_N (Z.abs_N z) +:+ rest)) as ->.
    { rewrite Hd, app_str_cons. destruct c as [[] [] [] [] [] [] [] []]; done. }
    rewrite parse_digits by done. cbn -[numeral_val parse_fraction parse_exponent]. rewrite Hf. cbn -[numeral_val parse_exponent].
    rewrite Hx. cbn -[numeral_val]. rewrite numeral_val_of_N. do 3 f_equal. lia.
Qed.

Lemma parse_word_digit c r : is_digit c = true → parse_word (String c r) = None ∧ parse_word (String "-" (String c r)) = None.
Proof. intros Hc. destruct c as [[] [] [] [] [] [] [] []]; (discriminate Hc || done). Qed.

Lemma plain_head v : json_plain v = true →
  ∃ c r, json_dumps_ordered v = String c r ∧ json_space c = false ∧ c ≠ "]"%char.
Proof.
  destruct v as [|[]|z|r|t|d|l|l|l]; intros Hv; try discriminate Hv; try by eexists _, _.
  cbn. unfold str_of_Z. destruct (z <? 0)%Z; [by eexists _, _|].
  destruct (digits_of_N_cons (Z.abs_N z)) as (c & d & Hd & Hc). rewrite Hd. exists c, d. split; [done|].
  destruct c as [[] [] [] [] [] [] [] []]; (discriminate Hc || done).
Qed.

Lemma skip_head v rest : json_plain v = true → skip_space (json_dumps_ordered v +:+ rest) = json_dumps_ordered v +:+ rest.
Proof.
  intros Hv. destruct (plain_head v Hv) as (c & r & Hd & Hs & _). rewrite Hd, app_str_cons. cbn. by rewrite Hs.
Qed.

Definition reads (v : pyval) : Prop := ∀ fuel rest, ends rest →
  2 * String.length (json_dumps_ordered v) < fuel →
  parse_value fuel (json_dumps_ordered v +:+ rest) = Some (v, rest).

Lemma str_join_cons sep x y l : str_join sep (x :: y :: l) = x +:+ sep +:+ str_join sep (y :: l).
Proof. done. Qed.

Lemma reads_elements x l fuel rest :
  Forall (λ v, reads v ∧ json_plain v = true) (x :: l) →
  2 * String.length (str_join "," (map json_dumps_ordered (x :: l))) + 1 < fuel →
  parse_elements fuel (str_join "," (map json_dumps_ordered (x :: l)) +:+ String "]" rest) = Some (x :: l, rest).
Proof.
  revert x fuel. induction l as [|y l IH]; intros x fuel Hf Hl; apply Forall_cons in Hf as [[Hx _] Hf];
    (destruct fuel as [|fuel]; [lia|]).
  - cbn [map str_join parse_elements] in *. rewrite Hx; [done|right; by right|lia].
  - cbn [map] in Hl |- *. rewrite str_join_cons in Hl |- *. rewrite !str_length_app in Hl. cbn [String.length] in Hl.
    cbn [parse_elements]. rewrite <- !app_str_assoc. rewrite Hx; [|by left|lia].
    apply Forall_cons in Hf as Hf'. destruct Hf' as [[_ Hy] _].
    cbn [mbind option_bind]. rewrite app_str_cons, app_str_nil_l. cbn [skip_space json_space]. cbn -[parse_elements].
    assert (∀ r, skip_space (str_join "," (json_dumps_ordered y :: map json_dumps_ordered l) +:+ r) =
      str_join "," (json_dumps_ordered y :: map json_dumps_ordered l) +:+ r) as Hs.
    { intros r. destruct l; cbn [map]; [|rewrite str_join_cons, <- app_str_assoc]; by apply skip_head. }
    rewrite Hs. specialize (IH y fuel Hf). cbn [map] in IH. rewrite IH; [done|lia].
Qed.

Lemma dict_set_fresh (k : string) (v : pyval) acc : k ∉ map fst acc → dict_set k v acc = acc ++ [(k, v)].
Proof.
  induction acc as [|[k' v'] acc IH]; cbn; [done|]. rewrite not_elem_of_cons. intros [Hk Hn].
  destruct (String.eqb_spec k' k); [by subst|]. by rewrite IH.
Qed.

Definition member_text (kv : string * pyval) : string := json_string kv.1 +:+ ":" +:+ json_dumps_ordered kv.2.

Lemma reads_member k v fuel acc rest :
  ascii_text k = true → reads v → json_plain v = true → ends rest →
  2 * String.length (json_dumps_ordered v) < fuel →
  parse_members (S fuel) acc (member_text (k, v) +:+ rest) =
  match skip_space rest with
  | String "}" r4 => Some (dict_set k v acc, r4)
  | String "," r4 => parse_members fuel (dict_set k v acc) (skip_space r4)
  | _ => None
  end.
Proof.
  intros Hk Hv Hp He Hl. unfold member_text, json_string. cbn [fst snd].
  rewrite <- !app_str_assoc. rewrite app_str_cons, app_str_nil_l. cbn [parse_members]. cbn [negb Ascii.eqb]. 
  rewrite Ascii.eqb_refl. cbn [negb]. rewrite (app_str_cons double_quote), app_str_nil_l, parse_json_text by done.
  cbn [mbind option_bind]. rewrite app_str_cons, app_str_nil_l. cbn [skip_space json_space].
  change (json_space ":") with false. cbv iota. rewrite skip_head, Hv by done. done.
Qed.

Lemma reads_members kv l fuel acc rest :
  Forall (λ kv, ascii_text kv.1 = true ∧ reads kv.2 ∧ json_plain kv.2 = true) (kv :: l) →
  NoDup (map fst (acc ++ kv :: l)) →
  2 * String.length (str_join "," (map member_text (kv :: l))) < fuel →
  parse_members fuel acc (str_join "," (map member_text (kv :: l)) +:+ String "}" rest) = Some (acc ++ kv :: l, rest).
Proof.
  revert kv fuel acc. induction l as [|kv' l IH]; intros [k v] fuel acc Hf Hd Hl;
    apply Forall_cons in Hf as [(Hk & Hv & Hp) Hf]; cbn [fst snd] in *; (destruct fuel as [|fuel]; [lia|]);
    (assert (k ∉ map fst acc) as Hn
      by (rewrite List.map_app in Hd; apply NoDup_app in Hd as (_ & Hd & _); intros Hin; apply (Hd k Hin); by left)).
  - cbn [map str_join] in *. unfold member_text at 1 in Hl. cbn [fst snd] in Hl. rewrite !str_length_app in Hl.
    cbn [String.length] in Hl. rewrite reads_member by (done || lia || by right; left).
    cbn. by rewrite dict_set_fresh.
  - cbn [map] in Hl |- *. rewrite str_join_cons in Hl |- *. rewrite !str_length_app in Hl.
    unfold member_text at 1 in Hl. cbn [fst snd] in Hl. rewrite !str_length_app in Hl. cbn [String.length] in Hl.
    rewrite <- !app_str_assoc. rewrite reads_member by (done || lia || by left).
    rewrite app_str_cons, app_str_nil_l. cbn [skip_space]. change (json_space ",") with false. cbv iota.
    assert (∀ r, skip_space (str_join "," (member_text kv' :: map member_text l) +:+ r) =
      str_join "," (member_text kv' :: map member_text l) +:+ r) as Hs.
    { intros r. destruct l; cbn [map]; [|rewrite str_join_cons, <- app_str_assoc]; done. }
    rewrite Hs, dict_set_fresh by done.
    specialize (IH kv' fuel (acc ++ [(k, v)]) Hf). rewrite <- app_assoc in IH. cbn [map app] in IH.
    rewrite IH; [done|done|lia].
Qed.

Lemma take_prefix_app pre r : take_prefix pre (pre +:+ r) = Some r.
Proof. unfold take_prefix. by rewrite prefix_app, str_drop_app. Qed.

Lemma parse_value_word word v fuel rest :
  (word, v) ∈ [("null", VNone); ("true", VBool true); ("false", VBool false)] →
  parse_value (S fuel) (word +:+ rest) = Some (v, rest).
Proof.
  intros Hin. assert (parse_word (word +:+ rest) = Some (v, rest)) as Hw.
  { unfold parse_word. repeat (apply elem_of_cons in Hin as [[= -> ->]|Hin]; [by rewrite take_prefix_app|]).
    by apply elem_of_nil in Hin. }
  repeat (apply elem_of_cons in Hin as [[= -> ->]|Hin];
    [rewrite app_str_cons in Hw |- *; cbn [parse_value]; by rewrite Hw|]). by apply elem_of_nil in Hin.
Qed.

Lemma plain_reads v : json_plain v = true → reads v.
Proof.
  induction v as [|b|z|r|t|d|l IH|l IH|l IH] using pyval_ind'; intros Hp fuel rest He Hl; try discriminate Hp;
    (destruct fuel as [|fuel]; [lia|]).
  - by apply parse_value_word; set_solver.
  - destruct b; [by apply parse_value_word; set_solver|by apply parse_value_word; set_solver].
  - cbn [json_dumps_ordered json_dumps] in *.
    assert (∃ c r, str_of_Z z +:+ rest = String c r ∧ parse_word (String c r) = None ∧ Ascii.eqb c double_quote = false ∧
      Ascii.eqb c "{" = false ∧ Ascii.eqb c "[" = false) as (c & r & Hs & Hw & Hq & Hb & Ha).
    { unfold str_of_Z. destruct (digits_of_N_cons (Z.abs_N z)) as (c & d & Hd & Hc). rewrite Hd.
      destruct (parse_word_digit c (d +:+ rest) Hc) as [Hw1 Hw2]. destruct (z <? 0)%Z.
      - by eexists _, _.
      - eexists _, _. rewrite app_str_cons. split; [reflexivity|]. split; [done|].
        destruct c as [[] [] [] [] [] [] [] []]; (discriminate Hc || done). }
    pose proof (parse_number_text z rest He) as Hn. rewrite Hs in Hn |- *. cbn [parse_value]. by rewrite Hq, Hb, Ha, Hw.
  - cbn [json_dumps_ordered json_dumps json_plain] in *. unfold json_string. rewrite <- !app_str_assoc.
    rewrite app_str_cons, app_str_nil_l. cbn [parse_value]. rewrite Ascii.eqb_refl.
    rewrite (app_str_cons double_quote), app_str_nil_l, parse_json_text by done. done.
  - cbn [json_dumps_ordered json_plain] in *. rewrite !str_length_app in Hl. cbn [String.length] in Hl.
    rewrite <- !app_str_assoc, app_str_cons, app_str_nil_l. cbn [parse_value].
    change (Ascii.eqb "[" double_quote) with false. cbn [Ascii.eqb eqb]. cbv iota.
    destruct l as [|x l]; [done|].
    assert (Forall (λ v, reads v ∧ json_plain v = true) (x :: l)) as Hf.
    { clear -IH Hp. induction IH as [|y l' Hy _ IHl]; [constructor|]. cbn in Hp. apply andb_true_iff in Hp as [? ?].
      constructor; auto. }
    apply Forall_cons in Hf as Hx. destruct Hx as [[_ Hx] _].
    assert (∃ c r, str_join "," (map json_dumps_ordered (x :: l)) = String c r ∧ json_space c = false ∧ c ≠ "]"%char)
      as (c & r & Hs & Hc & Hcb).
    { destruct (plain_head x Hx) as (c & r & Hd & ? & ?). destruct l; cbn [map]; [|rewrite str_join_cons];
        rewrite Hd; [|rewrite app_str_cons]; by eexists _, _. }
    pose proof (reads_elements x l fuel rest Hf ltac:(lia)) as Hr.
    change ("]" +:+ rest) with (String "]" rest). rewrite Hs, app_str_cons in Hr |- *. cbn [skip_space]. rewrite Hc.
    destruct c as [[] [] [] [] [] [] [] []]; try (by destruct Hcb); by rewrite Hr.
  - cbn [json_dumps_ordered json_plain] in *. rewrite !str_length_app in Hl. cbn [String.length] in Hl.
    apply andb_true_iff in Hp as [Hp Hd%bool_decide_eq_true].
    rewrite <- !app_str_assoc, app_str_cons, app_str_nil_l. cbn [parse_value].
    change (Ascii.eqb "{" double_quote) with false. cbv iota. change (Ascii.eqb "{" "{") with true. cbv iota.
    destruct l as [|x l]; [done|].
    assert (Forall (λ kv, ascii_text kv.1 = true ∧ reads kv.2 ∧ json_plain kv.2 = true) (x :: l)) as Hf.
    { clear -IH Hp. induction IH as [|y l' Hy _ IHl]; [constructor|]. cbn in Hp.
      apply andb_true_iff in Hp as [[? ?]%andb_true_iff ?]. constructor; auto. }
    change (map (λ kv, json_string kv.1 +:+ ":" +:+ json_dumps_ordered kv.2) (x :: l)) with (map member_text (x :: l)) in *.
    pose proof (reads_members x l fuel [] rest Hf Hd ltac:(lia)) as Hr.
    change ("}" +:+ rest) with (String "}" rest).
    assert (∃ r, str_join "," (map member_text (x :: l)) = String double_quote r) as (r & Hs).
    { destruct l; cbn [map]; [|rewrite str_join_cons]; by eexists. }
    rewrite Hs, app_str_cons in Hr |- *. cbn [skip_space]. change (json_space double_quote) with false. cbv iota.
    unfold double_quote in Hr |- *. cbv iota. rewrite Hr. done.
Qed.

(** Reading what was written without sorting gives the value back. *)
Lemma json_roundtrip v : json_plain v = true → json_loads (json_dumps_ordered v) = Some v.
Proof.
  intros Hp. unfold json_loads. rewrite <- (app_str_nil_r (json_dumps_ordered v)) at 2.
  rewrite skip_head by done. rewrite plain_reads; [done|done|done|lia].
Qed.
End roundtrip.
