(* ===== verification/Base64.v ===== *)
(** [_b64encode] and [_b64decode] of [core/security.py], with the decoder of the standard
    library's [base64] module in its lenient mode: characters outside the alphabet are
    skipped, and a complete padding ends the input. *)
From S2P Require Import Prelude PyStr PyDecimal PyValue Hash.
From Stdlib Require Import Ascii.
Open Scope Z_scope.

(** [bytes.rstrip] of one character *)
Fixpoint rstrip_char (c : ascii) (s : string) : string :=
  match s with
  | "" => ""
  | String d r =>
      match rstrip_char c r with
      | "" => if Ascii.eqb d c then "" else String d ""
      | r' => String d r'
      end
  end.

Definition _b64encode (bs : list Z) : string := rstrip_char "=" (str_of_codes (b64_codes 45 95 bs)).

(** The value of a character of the URL-safe alphabet; the translation to the standard
    alphabet leaves the standard [+] and [/] in it. *)
Definition b64_value (c : Z) : option Z :=
  if (65 <=? c) && (c <=? 90) then Some (c - 65)
  else if (97 <=? c) && (c <=? 122) then Some (c - 71)
  else if (48 <=? c) && (c <=? 57) then Some (c + 4)
  else if (c =? 45) || (c =? 43) then Some 62
  else if (c =? 95) || (c =? 47) then Some 63
  else None.

(** [binascii.a2b_base64]: the position in the group of four, the bits left over and the
    pads seen; [None] where it raises. *)
Fixpoint a2b_base64 (pos left pads : Z) (l : list Z) : option (list Z) :=
  match l with
  | [] => if pos =? 0 then Some [] else None
  | c :: r =>
      if c =? 61 then
        if 2 <=? pos
        then if 4 <=? pos + (pads + 1) then Some [] else a2b_base64 pos left (pads + 1) r
        else a2b_base64 pos left pads r
      else
        match b64_value c with
        | None => a2b_base64 pos left pads r
        | Some v =>
            if pos =? 0 then a2b_base64 1 v 0 r
            else if pos =? 1 then cons (left * 4 + v / 16) <$> a2b_base64 2 (v mod 16) 0 r
            else if pos =? 2 then cons (left * 16 + v / 4) <$> a2b_base64 3 (v mod 4) 0 r
            else cons (left * 64 + v) <$> a2b_base64 0 0 0 r
        end
  end.

Definition _b64decode (value : string) : option (list Z) :=
  let padding := str_repeat "=" (Z.to_nat (- Z.of_nat (String.length value) mod 4)) in
  a2b_base64 0 0 0 (bytes_of_str (value +:+ padding)).

(** ** Decoding gives back what was encoded *)

Definition byte (z : Z) : Prop := 0 <= z < 256.

(** Linear arithmetic with quotients and remainders by constants. *)
Ltac div_lia := Z.to_euclidean_division_equations; lia.

Lemma list_ind3 {A} (P : list A → Prop) :
  P [] → (∀ x, P [x]) → (∀ x y, P [x; y]) → (∀ x y z l, P l → P (x :: y :: z :: l)) → ∀ l, P l.
Proof.
  intros H0 H1 H2 H3. refine (fix go l := match l with
    | [] => H0 | [x] => H1 x | [x; y] => H2 x y | x :: y :: z :: l' => H3 x y z l' (go l') end).
Qed.

Lemma range64 (P : Z → bool) : forallb P (map Z.of_nat (seq 0 64)) = true → ∀ z, 0 <= z < 64 → P z = true.
Proof.
  intros Hall z Hz. rewrite forallb_forall in Hall. apply Hall, in_map_iff.
  exists (Z.to_nat z). split; [lia|]. apply in_seq. lia.
Qed.

Definition alphabet_char (z : Z) : bool :=
  let c := b64_char 45 95 z in
  match b64_value c with Some v => v =? z | None => false end && negb (c =? 61) && (0 <=? c) && (c <? 128).

Lemma b64_char_value z : 0 <= z < 64 → b64_value (b64_char 45 95 z) = Some z ∧ (b64_char 45 95 z =? 61) = false ∧
  0 <= b64_char 45 95 z < 128.
Proof.
  intros Hz. assert (alphabet_char z = true) as H by (apply range64; [vm_compute; reflexivity|done]).
  unfold alphabet_char in H. rewrite !andb_true_iff, negb_true_iff in H. destruct H as [[[Hv He] Hl] Hu].
  destruct (b64_value _) as [v|]; [|done]. apply Z.eqb_eq in Hv as ->. split; [done|]. split; [done|]. lia.
Qed.

Lemma a2b_char pos left pads z r : 0 <= z < 64 →
  a2b_base64 pos left pads (b64_char 45 95 z :: r) =
    if pos =? 0 then a2b_base64 1 z 0 r
    else if pos =? 1 then cons (left * 4 + z / 16) <$> a2b_base64 2 (z mod 16) 0 r
    else if pos =? 2 then cons (left * 16 + z / 4) <$> a2b_base64 3 (z mod 4) 0 r
    else cons (left * 64 + z) <$> a2b_base64 0 0 0 r.
Proof. intros Hz. destruct (b64_char_value z Hz) as (Hv & He & _). cbn [a2b_base64]. by rewrite He, Hv. Qed.

(** The codes are characters of the alphabet and at most two pads, four by four. *)
Lemma b64_codes_shape bs : Forall byte bs →
  ∃ body k, b64_codes 45 95 bs = body ++ repeat 61 k ∧
    Forall (λ c, (c =? 61) = false ∧ 0 <= c < 128) body ∧ (k <= 2)%nat ∧ (Z.of_nat (length body) + Z.of_nat k) mod 4 = 0.
Proof.
  assert (∀ z, 0 <= z < 64 → (b64_char 45 95 z =? 61) = false ∧ 0 <= b64_char 45 95 z < 128) as Hc
    by (intros z Hz; by destruct (b64_char_value z Hz) as (_ & ? & ?)).
  unfold byte. induction bs as [|x|x y|x y z l IH] using list_ind3; intros Hb; rewrite ?Forall_cons in Hb.
  - exists [], 0%nat. repeat split; [constructor|lia].
  - exists [b64_char 45 95 (x / 4); b64_char 45 95 (x mod 4 * 16)], 2%nat. split; [done|].
    split; [|split; [lia|done]]. repeat (apply Forall_cons; split; [apply Hc; div_lia|]). constructor.
  - exists [b64_char 45 95 (x / 4); b64_char 45 95 (x mod 4 * 16 + y / 16); b64_char 45 95 (y mod 16 * 4)], 1%nat.
    split; [done|]. split; [|split; [lia|done]]. repeat (apply Forall_cons; split; [apply Hc; div_lia|]). constructor.
  - destruct IH as (body & k & He & Hf & Hk & Hm); [tauto|].
    eexists (_ :: _ :: _ :: _ :: body), k. cbn [b64_codes]. rewrite He. split; [reflexivity|].
    split; [|split; [done|]].
    + repeat (apply Forall_cons; split; [apply Hc; div_lia|]). done.
    + cbn [length]. rewrite !Nat2Z.inj_succ. replace (_ + _) with (Z.of_nat (length body) + Z.of_nat k + 1 * 4) by lia.
      by rewrite Z.mod_add.
Qed.

Lemma str_of_codes_cons c l : str_of_codes (c :: l) = String (ascii_of_N (Z.to_N c)) (str_of_codes l).
Proof. done. Qed.

Lemma bytes_of_codes l : Forall byte l → bytes_of_str (str_of_codes l) = l.
Proof.
  induction 1 as [|z l Hz _ IH]; [done|]. rewrite str_of_codes_cons. cbn [bytes_of_str]. rewrite IH. unfold byte in Hz. unfold code.
  rewrite N_ascii_embedding by lia. f_equal. lia.
Qed.

Lemma str_of_codes_app a b : str_of_codes (a ++ b) = str_of_codes a +:+ str_of_codes b.
Proof. induction a as [|x a IH]; [done|]. cbn [app]. by rewrite !str_of_codes_cons, IH, app_str_cons. Qed.

Lemma str_of_pads k : str_of_codes (repeat 61 k) = str_repeat "=" k.
Proof. induction k as [|k IH]; [done|]. cbn [repeat str_repeat]. by rewrite str_of_codes_cons, IH. Qed.

Lemma rstrip_pads body k : Forall (λ c, (c =? 61) = false ∧ 0 <= c < 128) body →
  rstrip_char "=" (str_of_codes body +:+ str_repeat "=" k) = str_of_codes body.
Proof.
  assert (∀ k, rstrip_char "=" (str_repeat "=" k) = "") as Hk.
  { intros n. induction n as [|n IH]; [done|]. cbn [str_repeat]. rewrite app_str_cons, app_str_nil_l.
    cbn [rstrip_char]. by rewrite IH. }
  induction 1 as [|c l [Hc Hr] _ IH]; [by rewrite app_str_nil_l|].
  rewrite str_of_codes_cons, app_str_cons. cbn [rstrip_char]. rewrite IH. destruct (str_of_codes l); [|done].
  destruct (Ascii.eqb_spec (ascii_of_N (Z.to_N c)) "="%char) as [He|]; [|done].
  apply (f_equal N_of_ascii) in He. rewrite N_ascii_embedding in He by lia. cbn in He. lia.
Qed.

Ltac bytes_eq :=
  repeat match goal with |- context [?a <=? ?b] =>
    let r := eval vm_compute in (a <=? b) in change (a <=? b) with r; cbv iota end;
  cbn -[Z.div Z.modulo Z.mul Z.add]; f_equal; repeat (apply (f_equal2 cons); [div_lia|]); reflexivity.

Lemma a2b_codes bs : Forall byte bs → a2b_base64 0 0 0 (b64_codes 45 95 bs) = Some bs.
Proof.
  unfold byte. induction bs as [|x|x y|x y z l IH] using list_ind3; intros Hb; rewrite ?Forall_cons in Hb.
  - done.
  - cbn [b64_codes]. do 2 (rewrite a2b_char by div_lia; cbn -[Z.div Z.modulo Z.mul Z.add b64_char a2b_base64]). cbn -[Z.div Z.modulo Z.mul Z.add]. bytes_eq.
  - cbn [b64_codes]. do 3 (rewrite a2b_char by div_lia; cbn -[Z.div Z.modulo Z.mul Z.add b64_char a2b_base64]). cbn -[Z.div Z.modulo Z.mul Z.add]. bytes_eq.
  - cbn [b64_codes]. do 4 (rewrite a2b_char by div_lia; cbn -[Z.div Z.modulo Z.mul Z.add b64_char b64_codes a2b_base64]).
    rewrite IH by tauto. cbn -[Z.div Z.modulo Z.mul Z.add]. bytes_eq.
Qed.

Lemma b64_roundtrip bs : Forall byte bs → _b64decode (_b64encode bs) = Some bs.
Proof.
  intros Hb. destruct (b64_codes_shape bs Hb) as (body & k & He & Hf & Hk & Hm).
  unfold _b64decode, _b64encode. pose proof (a2b_codes bs Hb) as Ha. rewrite He in Ha |- *.
  rewrite str_of_codes_app, str_of_pads, rstrip_pads by done. rewrite str_of_codes_length.
  replace (Z.to_nat _) with k by div_lia. rewrite <- str_of_pads, <- str_of_codes_app, bytes_of_codes; [done|].
  apply Forall_app. split; [by eapply Forall_impl; [exact Hf|]; unfold byte; cbn; lia|].
  apply Forall_forall. intros z Hz%list_elem_of_In%repeat_spec. subst. unfold byte. lia.
Qed.

(** Encoded text is made of the alphabet: it holds no character a format uses as a
    separator. *)
Definition b64_letter (c : ascii) : bool := is_alnum c || Ascii.eqb c "-" || Ascii.eqb c "_".

Lemma b64_letters bs : Forall byte bs → str_forall b64_letter (_b64encode bs) = true.
Proof.
  intros Hb. destruct (b64_codes_shape bs Hb) as (body & k & He & Hf & _ & _). unfold _b64encode.
  rewrite He, str_of_codes_app, str_of_pads, rstrip_pads by done.
  assert (∀ c, c ∈ b64_codes 45 95 bs → (c =? 61) = false → b64_letter (ascii_of_N (Z.to_N c)) = true) as Hl.
  { clear -Hb. assert (∀ z, 0 <= z < 64 → b64_letter (ascii_of_N (Z.to_N (b64_char 45 95 z))) = true) as H
      by (apply range64; vm_compute; reflexivity).
    unfold byte in Hb. induction bs as [|x|x y|x y z l IH] using list_ind3; intros c Hc Hn; rewrite ?Forall_cons in Hb; cbn [b64_codes] in Hc;
      repeat (apply elem_of_cons in Hc as [->|Hc]; [try done; apply H; div_lia|]); try (by apply elem_of_nil in Hc).
    apply IH; tauto. }
  rewrite He in Hl. clear He. induction Hf as [|c l [Hc _] _ IH]; [done|]. rewrite str_of_codes_cons. cbn [str_forall]. rewrite Hl, IH; [done| |by left|done].
  intros d Hd. apply Hl. by right.
Qed.
