(* ===== verification/Models.v ===== *)
(** The database models of [backend/app/db/models]: enumerations with their
    stored values, one record per table and the whole database.  Timestamps the
    program never reads back ([created_at]/[updated_at] outside the audit log,
    the notifications and the system control row) are left out; a moment in time
    is a number of microseconds since the epoch. *)
From S2P Require Import Prelude PyStr PyDecimal PyValue.

(** ** Enumerations *)

Inductive UserRole := SUPER_ADMIN | ADMIN | NORMAL_USER | TEAM_ADMIN.
Inductive ExchangeName := BINANCE | OKX | BYBIT | MOCK.
Inductive AccountMode := SIMULATION | TESTNET | REAL.
Inductive SignalSource := MANUAL | COPY_TRADE | AI | STRATEGY | WEBHOOK_SIGNAL.
Inductive OrderSide := BUY | SELL.
Inductive OrderType := MARKET | LIMIT.
Inductive RiskDecision := PASSED | RISK_REJECTED.
Inductive OrderExecutionStatus :=
| CREATED | RISK_PASSED | SUBMITTED | ACCEPTED | PARTIALLY_FILLED
| FILLED | CANCELLED | REJECTED | FAILED | TIMEOUT.
Inductive NotificationChannel := INTERNAL | TELEGRAM | EMAIL | WEBHOOK.

#[export] Instance UserRole_eq_dec : EqDecision UserRole. Proof. solve_decision. Defined.
#[export] Instance ExchangeName_eq_dec : EqDecision ExchangeName. Proof. solve_decision. Defined.
#[export] Instance AccountMode_eq_dec : EqDecision AccountMode. Proof. solve_decision. Defined.
#[export] Instance SignalSource_eq_dec : EqDecision SignalSource. Proof. solve_decision. Defined.
#[export] Instance OrderSide_eq_dec : EqDecision OrderSide. Proof. solve_decision. Defined.
#[export] Instance OrderType_eq_dec : EqDecision OrderType. Proof. solve_decision. Defined.
#[export] Instance RiskDecision_eq_dec : EqDecision RiskDecision. Proof. solve_decision. Defined.
#[export] Instance OrderExecutionStatus_eq_dec : EqDecision OrderExecutionStatus.
Proof. solve_decision. Defined.
#[export] Instance NotificationChannel_eq_dec : EqDecision NotificationChannel.
Proof. solve_decision. Defined.

Definition exchange_value (e : ExchangeName) : string :=
  match e with BINANCE => "binance" | OKX => "okx" | BYBIT => "bybit" | MOCK => "mock" end.
Definition mode_value (m : AccountMode) : string :=
  match m with SIMULATION => "SIMULATION" | TESTNET => "TESTNET" | REAL => "REAL" end.
Definition source_value (s : SignalSource) : string :=
  match s with
  | MANUAL => "manual" | COPY_TRADE => "copy_trade" | AI => "ai" | STRATEGY => "strategy"
  | WEBHOOK_SIGNAL => "webhook"
  end.
Definition side_value (s : OrderSide) : string := match s with BUY => "BUY" | SELL => "SELL" end.
Definition order_type_value (t : OrderType) : string :=
  match t with MARKET => "MARKET" | LIMIT => "LIMIT" end.
Definition decision_value (d : RiskDecision) : string :=
  match d with PASSED => "PASSED" | RISK_REJECTED => "REJECTED" end.
Definition status_value (s : OrderExecutionStatus) : string :=
  match s with
  | CREATED => "CREATED" | RISK_PASSED => "RISK_PASSED" | SUBMITTED => "SUBMITTED"
  | ACCEPTED => "ACCEPTED" | PARTIALLY_FILLED => "PARTIALLY_FILLED" | FILLED => "FILLED"
  | CANCELLED => "CANCELLED" | REJECTED => "REJECTED" | FAILED => "FAILED" | TIMEOUT => "TIMEOUT"
  end.
Definition channel_value (c : NotificationChannel) : string :=
  match c with
  | INTERNAL => "INTERNAL" | TELEGRAM => "TELEGRAM" | EMAIL => "EMAIL" | WEBHOOK => "WEBHOOK"
  end.

Lemma status_value_inj s t : status_value s = status_value t → s = t.
Proof. by destruct s, t. Qed.
Lemma exchange_value_inj s t : exchange_value s = exchange_value t → s = t.
Proof. by destruct s, t. Qed.
Lemma side_value_inj s t : side_value s = side_value t → s = t.
Proof. by destruct s, t. Qed.

(** ** Rows *)

Record User := {
  user_id : string; user_email : string; user_username : string; user_password_hash : string;
  user_auth_version : Z; user_mfa_enabled : bool; user_mfa_secret : option string;
  user_mfa_pending_secret : option string; user_mfa_last_used_step : option Z;
  user_mfa_recovery_code_hashes : list string; user_role : UserRole; user_is_active : bool }.

Record UserPermission := {
  perm_id : string; perm_owner : string; perm_grantee : string; perm_view_only : bool;
  perm_copy_follow : bool; perm_pause_follow : bool; perm_edit_copy_rule : bool;
  perm_trade_manual : bool }.

Record ExchangeAccount := {
  acct_id : string; acct_user : string; acct_exchange : ExchangeName; acct_mode : AccountMode;
  acct_label : string; acct_trading_enabled : bool; acct_is_active : bool }.

Record ApiKeySecret := {
  key_id : string; key_user : string; key_account : string; key_api_key : string;
  key_api_secret : string; key_passphrase : option string }.

Record TradingSignal := {
  sig_id : string; sig_user : string; sig_source : SignalSource; sig_symbol : string;
  sig_side : OrderSide; sig_order_type : OrderType; sig_price : option dec;
  sig_quantity : option dec; sig_target : option dec; sig_raw_payload : option dict }.

Record RiskSetting := {
  risk_id : string; risk_user : string; risk_account : string; risk_trading_enabled : bool;
  risk_max_single_order_notional : option dec; risk_max_position_notional : option dec;
  risk_max_leverage : option dec; risk_min_order_quantity : option dec;
  risk_max_order_quantity : option dec; risk_blocked_symbols : list string }.

Record Balance := {
  bal_id : string; bal_user : string; bal_account : string; bal_asset : string;
  bal_available : dec; bal_locked : dec; bal_total : dec }.

Record Position := {
  pos_id : string; pos_user : string; pos_account : string; pos_symbol : string;
  pos_quantity : dec }.

Record OrderExecution := {
  exe_id : string; exe_user : string; exe_signal : string; exe_execution_id : string;
  exe_account : string; exe_exchange_name : string; exe_client_order_id : string;
  exe_exchange_order_id : option string; exe_symbol : string; exe_side : OrderSide;
  exe_order_type : OrderType; exe_price : option dec; exe_quantity : dec;
  exe_status : OrderExecutionStatus; exe_risk_result : option dict;
  exe_exchange_response : option pyval; exe_error_message : option string }.

Record OrderExecutionTransition := {
  tr_id : string; tr_user : string; tr_order : string; tr_sequence : Z;
  tr_from : option string; tr_to : string; tr_reason : string; tr_details : option dict }.

Record AuditLog := {
  aud_id : string; aud_user : string; aud_account : option string; aud_action : string;
  aud_severity : string; aud_payload : dict; aud_created_at : Z }.

Record SystemEvent := {
  evt_id : string; evt_user : option string; evt_account : option string; evt_type : string;
  evt_severity : string; evt_payload : dict; evt_created_at : Z }.

Record InternalNotification := {
  ntf_id : string; ntf_user : string; ntf_account : option string; ntf_channel : string;
  ntf_severity : string; ntf_title : string; ntf_message : string; ntf_payload : dict;
  ntf_is_read : bool; ntf_created_at : Z; ntf_read_at : option Z }.

Record NotificationPreference := {
  prf_id : string; prf_user : string; prf_internal : bool; prf_telegram : bool;
  prf_email : bool; prf_webhook : bool; prf_position_drift : bool; prf_risk_rejection : bool;
  prf_order_failure : bool }.

Record SystemControl := {
  ctl_id : string; ctl_emergency_stop : bool; ctl_reason : option string;
  ctl_changed_by : option string; ctl_changed_at : Z }.

Definition GLOBAL_SYSTEM_CONTROL_ID : string := "global".

(** ** The database *)

Record Db := {
  db_users : list User; db_permissions : list UserPermission; db_accounts : list ExchangeAccount;
  db_secrets : list ApiKeySecret; db_signals : list TradingSignal; db_risk : list RiskSetting;
  db_balances : list Balance; db_positions : list Position; db_executions : list OrderExecution;
  db_transitions : list OrderExecutionTransition; db_audit : list AuditLog;
  db_events : list SystemEvent; db_notifications : list InternalNotification;
  db_preferences : list NotificationPreference; db_controls : list SystemControl }.

Definition empty_db : Db :=
  Build_Db [] [] [] [] [] [] [] [] [] [] [] [] [] [] [].

(** ** The prepared HTTP request of [exchanges/http_client.py]

    It is data here because the record of an outgoing request is part of the
    observable trace. *)
Record PreparedExchangeRequest := {
  req_method : string; req_url : string; req_path : string;
  req_params : list (string * string); req_headers : list (string * string);
  req_body : option dict }.
