(* ===== verification/Session.v ===== *)
(** The effects of the services: one SQLAlchemy session over the database of
    [Models], exceptions, the clock and the trace of externally visible actions,
    as a state-and-error monad with the rules to reason about it.

    [SessionLocal] is made with [autoflush=False] ([db/session.py]): a query sees
    what was flushed, not what was only added.  [w_tx] is the database as the open
    transaction sees it, [w_new] holds the added but unflushed rows ([db.new]),
    [w_committed] is what other sessions see.  Attribute writes to a flushed row go
    straight to [w_tx]; no modelled query filters on a column between a write and
    the next flush, so the delay of the real UPDATE is not observable.  Foreign
    keys and column lengths are not modelled. *)
From S2P Require Import Prelude PyStr PyDecimal PyValue Models.

(** ** What the database and the uuid generator provide *)

Class Database := {
  (** the [n]-th identifier drawn from [uuid.uuid4] *)
  new_uuid : nat → string;
  (** the value a [NUMERIC(p, s)] column holds after a decimal is stored in it,
      [None] where the store reports an overflow *)
  numeric_column : Z → Z → dec → option dec }.

Definition canonical_numeric (s z : Z) : dec := Dec (z <? 0)%Z (Z.abs_N z) (- s).

Class DatabaseLaws `{Database} := {
  new_uuid_inj m n : new_uuid m = new_uuid n → m = n;
  new_uuid_nonempty n : new_uuid n ≠ "";
  (** a value that fits the column is stored exactly, with scale [s] *)
  numeric_column_fits p s d :
    (- s ≤ d_exp d)%Z → (Z.abs (scaled (- s) d) < 10 ^ p)%Z →
    numeric_column p s d = Some (canonical_numeric s (scaled (- s) d));
  (** whatever is stored has scale [s] and at most [p] digits *)
  numeric_column_range p s d d' :
    numeric_column p s d = Some d' →
    ∃ z, (Z.abs z < 10 ^ p)%Z ∧ d' = canonical_numeric s z }.

(** ** Exceptions, with the class hierarchy of the source *)

Inductive Exn :=
| ValueError (m : string) | RuntimeError (m : string) | KeyError (m : string)
| TypeError (m : string) | AttributeError (m : string) | OverflowError (m : string) | InvalidOperation | InvalidToken
| IntegrityError | DataError
| EmergencyStopEnabledError (m : string)
| InvalidOrderStateTransitionError (m : string)
| TestnetOrderEventValidationError (m : string)
| TestnetOrderIdempotencyConflictError (m : string)
| TestnetOrderRiskRejectedError (m : string)
| TestnetExchangeOrderRejectedError (m : string)
| TestnetOrderApiBlockedError (reasons : list string)
| TestnetOrderWindowApprovalBlockedError (reasons : list string)
| TestnetOrderWindowAuthorizationError (reasons : list string)
| TestnetOrderRequestBlockedError (m : string)
| TestnetOrderReconciliationBlockedError (m : string)
| RateLimitExceededError (rule_name : string) (retry_after_seconds : Z)
| RateLimitStoreUnavailableError
| ExchangeHttpRequestError (failure_type : string) (status_code : option Z)
    (exchange_code : option string)
| TestnetAccountStateSyncError (m : string)
| TestnetWebSocketTransportError (m : string)
| TestnetUserStreamBlockedError (m : string) | TestnetUserStreamActivationError (m : string)
| TestnetUserStreamNotSupportedError (m : string)
| ExternalNotificationChannelDisabledError (channel : NotificationChannel)
| ExternalNotificationPreferenceDisabledError (channel : NotificationChannel)
| SensitiveNotificationPayloadError (key_path : string)
| DuplicateUserError (m : string) | PasswordChangeError (m : string)
| ReauthenticationError (m : string) | MfaRequiredError (m : string)
| MfaEnrollmentError (m : string) | MfaVerificationError (m : string)
| Phase4SmallFundReviewBlockedError (reasons : list string)
| Phase4SmallFundOrderWindowBlockedError (reasons : list string)
| Phase4FinalReleaseCheckBlockedError (reasons : list string)
| TestnetAdapterDisabledError (m : string) | TestnetAdapterCredentialsError (m : string)
| TestnetAdapterNotImplementedError (m : string) | TestnetTradingNotSupportedError (m : string)
| TestnetReadOnlyCheckBlockedError (reasons : list string)
| TestnetReadOnlyAccountNotFoundError (m : string) | TestnetReadOnlyAuthenticationError (m : string)
| RealReadOnlyCheckBlockedError (reasons : list string)
| RealReadOnlyAccountNotFoundError (m : string)
| RealReadOnlyAuthenticationError (failure_type : string) (exchange_code : option string)
| RealBalancesBlockedError (reasons : list string)
| RealBalancesAuthenticationError (failure_type : string) (exchange_code : option string)
| RealOpenOrdersBlockedError (reasons : list string)
| RealOpenOrdersAuthenticationError (failure_type : string) (exchange_code : option string)
| PublicMarketDataError (m failure_type : string)
| GexbotMarketDataError (failure_type : string) (status_code : option Z)
| GexbotConfigurationError (m : string)
| GexbotValidationError (m : string)
| SuperAdminBootstrapDisabledError (m : string)
| SuperAdminAlreadyExistsError (m : string)
| SuperAdminInputError (m : string)
| StorageLocationConfigurationError (m : string)
| ExternalAlertDeliveryError (m : string)
| BackupRetentionCleanupError (m : string) | PostgresBackupError (m : string)
| PostgresRestoreDrillError (m : string) | OSError (m : string)
| SystemdBackupTimerVerificationError (m : string) | CalledProcessError (returncode : Z)
| UbuntuIntegrationPreflightError (m : string)
| HTTPException (status_code : Z) (detail : pyval) (headers : list (string * string)).

(** [isinstance(exc, ValueError)] and [isinstance(exc, RuntimeError)] *)
Definition is_ValueError (e : Exn) : bool :=
  match e with
  | ValueError _ | TestnetOrderEventValidationError _ | DuplicateUserError _
  | PasswordChangeError _ | ReauthenticationError _ | MfaRequiredError _
  | MfaEnrollmentError _ | MfaVerificationError _
  | TestnetReadOnlyAccountNotFoundError _ | RealReadOnlyAccountNotFoundError _ | GexbotValidationError _
  | SuperAdminAlreadyExistsError _ | SuperAdminInputError _ | StorageLocationConfigurationError _ => true
  | _ => false
  end.

Definition is_RuntimeError (e : Exn) : bool :=
  match e with
  | RuntimeError _ | EmergencyStopEnabledError _ | InvalidOrderStateTransitionError _
  | TestnetOrderIdempotencyConflictError _ | TestnetOrderRiskRejectedError _
  | TestnetExchangeOrderRejectedError _ | TestnetOrderApiBlockedError _
  | TestnetOrderWindowApprovalBlockedError _ | TestnetOrderWindowAuthorizationError _
  | TestnetOrderRequestBlockedError _ | TestnetOrderReconciliationBlockedError _
  | RateLimitExceededError _ _ | RateLimitStoreUnavailableError
  | ExchangeHttpRequestError _ _ _ | TestnetAccountStateSyncError _
  | TestnetUserStreamBlockedError _ | TestnetUserStreamActivationError _
  | TestnetUserStreamNotSupportedError _
  | TestnetWebSocketTransportError _ | ExternalNotificationChannelDisabledError _
  | ExternalNotificationPreferenceDisabledError _ | SensitiveNotificationPayloadError _
  | Phase4SmallFundReviewBlockedError _ | Phase4SmallFundOrderWindowBlockedError _
  | Phase4FinalReleaseCheckBlockedError _
  | TestnetAdapterDisabledError _ | TestnetAdapterCredentialsError _
  | TestnetAdapterNotImplementedError _ | TestnetTradingNotSupportedError _
  | TestnetReadOnlyCheckBlockedError _ | TestnetReadOnlyAuthenticationError _
  | RealReadOnlyCheckBlockedError _ | RealReadOnlyAuthenticationError _ _
  | RealBalancesBlockedError _ | RealBalancesAuthenticationError _ _
  | RealOpenOrdersBlockedError _ | RealOpenOrdersAuthenticationError _ _
  | PublicMarketDataError _ _ | GexbotMarketDataError _ _ | GexbotConfigurationError _
  | SuperAdminBootstrapDisabledError _ | ExternalAlertDeliveryError _ | BackupRetentionCleanupError _
  | PostgresBackupError _ | PostgresRestoreDrillError _
  | SystemdBackupTimerVerificationError _ | UbuntuIntegrationPreflightError _ => true
  | _ => false
  end.

(** ** The world *)

(** An outgoing request is recorded with the database another session would read
    at that moment. *)
Inductive Event :=
| EvHttp (committed : Db) (req : PreparedExchangeRequest)
| EvMockOrder (response : dict)
| EvAlert (kind : string) (fields : list (string * string))
| EvRedis (command key : string)
| EvWs (command detail : string).

Record World := mkWorld {
  w_committed : Db; w_tx : Db; w_new : Db; w_next : nat; w_now : Z; w_trace : list Event }.

Inductive Outcome (A : Type) := Ok (a : A) | Raise (e : Exn).
Arguments Ok {A} a.
Arguments Raise {A} e.

Definition M (A : Type) : Type := World → Outcome A * World.

#[export] Instance M_ret : MRet M := λ A a w, (Ok a, w).
#[export] Instance M_bind : MBind M := λ A B k m w,
  match m w with
  | (Ok a, w') => k a w'
  | (Raise e, w') => (Raise e, w')
  end.

(** Code that only computes or raises, and its call from a program. *)
Definition outcome_bind {A B} (o : Outcome A) (f : A → Outcome B) : Outcome B :=
  match o with Ok a => f a | Raise e => Raise e end.

(** The list a comprehension builds, element by element. *)
Section outcome_map.
Context {A B : Type} (f : A → Outcome B).

Fixpoint outcome_map (l : list A) : Outcome (list B) :=
  match l with
  | [] => Ok []
  | x :: l' => outcome_bind (f x) (λ y, outcome_bind (outcome_map l') (λ ys, Ok (y :: ys)))
  end.
End outcome_map.

Definition lift {A} (o : Outcome A) : M A := λ w, (o, w).

Definition raise {A} (e : Exn) : M A := λ w, (Raise e, w).

(** [try: m except ...: handler], where [handler] picks the clauses by class. *)
Definition try_except {A} (m : M A) (handler : Exn → option (M A)) : M A := λ w,
  match m w with
  | (Ok a, w') => (Ok a, w')
  | (Raise e, w') => match handler e with Some h => h w' | None => (Raise e, w') end
  end.

Fixpoint run_all (ms : list (M unit)) : M unit :=
  match ms with [] => mret tt | m :: ms' => m ;; run_all ms' end.

Definition gets {A} (f : World → A) : M A := λ w, (Ok (f w), w).
Definition modify (f : World → World) : M unit := λ w, (Ok tt, f w).

Definition set_tx (d : Db) (w : World) : World :=
  mkWorld (w_committed w) d (w_new w) (w_next w) (w_now w) (w_trace w).
Definition set_new (d : Db) (w : World) : World :=
  mkWorld (w_committed w) (w_tx w) d (w_next w) (w_now w) (w_trace w).
Definition set_committed (d : Db) (w : World) : World :=
  mkWorld d (w_tx w) (w_new w) (w_next w) (w_now w) (w_trace w).
Definition set_next (n : nat) (w : World) : World :=
  mkWorld (w_committed w) (w_tx w) (w_new w) n (w_now w) (w_trace w).
Definition set_now (t : Z) (w : World) : World :=
  mkWorld (w_committed w) (w_tx w) (w_new w) (w_next w) t (w_trace w).
Definition push_event (ev : Event) (w : World) : World :=
  mkWorld (w_committed w) (w_tx w) (w_new w) (w_next w) (w_now w) (w_trace w ++ [ev]).

(** ** Tables *)

Class Table (R : Type) := {
  tbl : Db → list R;
  set_tbl : list R → Db → Db;
  row_id : R → string;
  (** two rows that the primary key or a unique constraint excludes together *)
  row_conflict : R → R → bool;
  (** the row after its NUMERIC columns are stored *)
  row_store : (Z → Z → dec → option dec) → R → option R }.

Definition store_opt (f : dec → option dec) (o : option dec) : option (option dec) :=
  match o with Some d => Some <$> f d | None => Some None end.

Section session.
Context `{Database}.

Definition new_id : M string := λ w, (Ok (new_uuid (w_next w)), set_next (S (w_next w)) w).
Definition now_utc : M Z := gets w_now.
Definition emit (ev : Event) : M unit := modify (push_event ev).

Section table.
Context {R : Type} `{Table R}.

(** [db.scalar(select(R).where(p))], [db.scalars(...)] and [db.get(R, id)] *)
Definition db_scalar (p : R → bool) : M (option R) := gets (λ w, find_first p (tbl (w_tx w))).
Definition db_scalars (p : R → bool) : M (list R) := gets (λ w, List.filter p (tbl (w_tx w))).
Definition db_get (id : string) : M (option R) := db_scalar (λ r, String.eqb (row_id r) id).

(** [db.add(row)] *)
Definition db_add (r : R) : M unit :=
  modify (λ w, set_new (set_tbl (tbl (w_new w) ++ [r]) (w_new w)) w).

(** One INSERT of a flush. *)
Definition insert_row (r : R) : M unit := λ w,
  match row_store numeric_column r with
  | None => (Raise DataError, w)
  | Some r' =>
      if existsb (row_conflict r') (tbl (w_tx w)) then (Raise IntegrityError, w)
      else (Ok tt, set_tx (set_tbl (tbl (w_tx w) ++ [r']) (w_tx w)) w)
  end.

Fixpoint insert_rows (rs : list R) : M unit :=
  match rs with
  | [] => mret tt
  | r :: rs' => insert_row r ;; insert_rows rs'
  end.

Definition flush_table : M unit :=
  rs ← gets (λ w, tbl (w_new w));
  insert_rows rs ;;
  modify (λ w, set_new (set_tbl [] (w_new w)) w).

(** Attribute writes on a flushed row. *)
Definition db_update (id : string) (f : R → R) : M unit := λ w,
  match find_first (λ r, String.eqb (row_id r) id) (tbl (w_tx w)) with
  | None => (Raise (RuntimeError "row is gone"), w)
  | Some r =>
      match row_store numeric_column (f r) with
      | None => (Raise DataError, w)
      | Some r' =>
          (Ok tt,
           set_tx (set_tbl (update_where (λ x, String.eqb (row_id x) id) (λ _, r')
                              (tbl (w_tx w))) (w_tx w)) w)
      end
  end.

(** [db.delete(row)] *)
Definition db_delete (id : string) : M unit :=
  modify (λ w, set_tx (set_tbl (List.filter (λ r, negb (String.eqb (row_id r) id))
                                  (tbl (w_tx w))) (w_tx w)) w).

(** [db.execute(update(R).values(...))] *)
Definition db_update_all (f : R → R) : M unit :=
  modify (λ w, set_tx (set_tbl (map f (tbl (w_tx w))) (w_tx w)) w).
End table.
End session.
