(* ===== verification/PgDatabase.v ===== *)
(** A database in the sense of [Session.Database]: identifiers are numbered and a
    NUMERIC column rounds half away from zero, as PostgreSQL does.  It shows that
    the laws of the interface can hold, and runs the examples. *)
From S2P Require Import Prelude PyStr PyDecimal PyValue Models Session.
Open Scope Z_scope.

(** [z / 10^k], rounded half away from zero *)
Definition round_half_up (z k : Z) : Z :=
  Z.sgn z * ((2 * Z.abs z + 10 ^ k) / (2 * 10 ^ k)).

Definition pg_numeric (p s : Z) (d : dec) : option dec :=
  let z := if - s <=? d_exp d then scaled (- s) d else round_half_up (sval d) (- s - d_exp d) in
  if Z.abs z <? 10 ^ p then Some (canonical_numeric s z) else None.

Definition pg_uuid (n : nat) : string := "uuid-" +:+ digits_of_N (N.of_nat n).

#[export] Instance pg_database : Database :=
  {| new_uuid := pg_uuid; numeric_column := pg_numeric |}.

#[export] Instance pg_database_laws : DatabaseLaws.
Proof.
  split.
  - intros m n E. cbn in E. unfold pg_uuid in E. injection E as E.
    rewrite !app_str_nil_l in E. apply Nat2N.inj.
    rewrite <- (numeral_val_of_N (N.of_nat m)), E. apply numeral_val_of_N.
  - done.
  - intros p s d He Hlt. cbn. unfold pg_numeric. apply Z.leb_le in He as ->.
    by apply Z.ltb_lt in Hlt as ->.
  - intros p s d d'. cbn. unfold pg_numeric.
    set (z := if - s <=? d_exp d then _ else _).
    destruct (Z.ltb_spec (Z.abs z) (10 ^ p)); [|done]. intros [= <-]. eauto.
Qed.
