(* ===== verification/Tables.v ===== *)
(** The tables of the database: their rows' keys, unique constraints and NUMERIC
    columns, then [flush], [commit] and the life of a request. *)
From S2P Require Import Prelude PyStr PyDecimal PyValue Models Session.

(** ** Storing rows *)

Definition store_signal (num : Z → Z → dec → option dec) (r : TradingSignal) : option TradingSignal :=
  p ← store_opt (num 28 10)%Z (sig_price r);
  q ← store_opt (num 28 10)%Z (sig_quantity r);
  t ← store_opt (num 28 10)%Z (sig_target r);
  Some (Build_TradingSignal (sig_id r) (sig_user r) (sig_source r) (sig_symbol r) (sig_side r)
          (sig_order_type r) p q t (sig_raw_payload r)).

Definition store_risk (num : Z → Z → dec → option dec) (r : RiskSetting) : option RiskSetting :=
  a ← store_opt (num 28 10)%Z (risk_max_single_order_notional r);
  b ← store_opt (num 28 10)%Z (risk_max_position_notional r);
  c ← store_opt (num 12 4)%Z (risk_max_leverage r);
  d ← store_opt (num 28 10)%Z (risk_min_order_quantity r);
  e ← store_opt (num 28 10)%Z (risk_max_order_quantity r);
  Some (Build_RiskSetting (risk_id r) (risk_user r) (risk_account r) (risk_trading_enabled r)
          a b c d e (risk_blocked_symbols r)).

Definition store_balance (num : Z → Z → dec → option dec) (r : Balance) : option Balance :=
  a ← num 28%Z 10%Z (bal_available r);
  b ← num 28%Z 10%Z (bal_locked r);
  c ← num 28%Z 10%Z (bal_total r);
  Some (Build_Balance (bal_id r) (bal_user r) (bal_account r) (bal_asset r) a b c).

Definition store_position (num : Z → Z → dec → option dec) (r : Position) : option Position :=
  q ← num 28%Z 10%Z (pos_quantity r);
  Some (Build_Position (pos_id r) (pos_user r) (pos_account r) (pos_symbol r) q).

Definition store_execution (num : Z → Z → dec → option dec) (r : OrderExecution) : option OrderExecution :=
  p ← store_opt (num 28 10)%Z (exe_price r);
  q ← num 28%Z 10%Z (exe_quantity r);
  Some (Build_OrderExecution (exe_id r) (exe_user r) (exe_signal r) (exe_execution_id r)
          (exe_account r) (exe_exchange_name r) (exe_client_order_id r) (exe_exchange_order_id r)
          (exe_symbol r) (exe_side r) (exe_order_type r) p q (exe_status r) (exe_risk_result r)
          (exe_exchange_response r) (exe_error_message r)).

(** ** The fifteen tables *)

Definition set_users (l : list User) (d : Db) : Db :=
  Build_Db
    l (db_permissions d) (db_accounts d) (db_secrets d) (db_signals d)
    (db_risk d) (db_balances d) (db_positions d) (db_executions d) (db_transitions d)
    (db_audit d) (db_events d) (db_notifications d) (db_preferences d) (db_controls d).

#[export] Instance User_table : Table User := {|
  tbl := db_users; set_tbl := set_users; row_id := user_id;
  row_conflict a b := String.eqb (user_id a) (user_id b) || String.eqb (user_email a) (user_email b) || String.eqb (user_username a) (user_username b);
  row_store := λ _ r, Some r |}.

Definition set_permissions (l : list UserPermission) (d : Db) : Db :=
  Build_Db
    (db_users d) l (db_accounts d) (db_secrets d) (db_signals d)
    (db_risk d) (db_balances d) (db_positions d) (db_executions d) (db_transitions d)
    (db_audit d) (db_events d) (db_notifications d) (db_preferences d) (db_controls d).

#[export] Instance UserPermission_table : Table UserPermission := {|
  tbl := db_permissions; set_tbl := set_permissions; row_id := perm_id;
  row_conflict a b := String.eqb (perm_id a) (perm_id b) || (String.eqb (perm_owner a) (perm_owner b) && String.eqb (perm_grantee a) (perm_grantee b));
  row_store := λ _ r, Some r |}.

Definition set_accounts (l : list ExchangeAccount) (d : Db) : Db :=
  Build_Db
    (db_users d) (db_permissions d) l (db_secrets d) (db_signals d)
    (db_risk d) (db_balances d) (db_positions d) (db_executions d) (db_transitions d)
    (db_audit d) (db_events d) (db_notifications d) (db_preferences d) (db_controls d).

#[export] Instance ExchangeAccount_table : Table ExchangeAccount := {|
  tbl := db_accounts; set_tbl := set_accounts; row_id := acct_id;
  row_conflict a b := String.eqb (acct_id a) (acct_id b);
  row_store := λ _ r, Some r |}.

Definition set_secrets (l : list ApiKeySecret) (d : Db) : Db :=
  Build_Db
    (db_users d) (db_permissions d) (db_accounts d) l (db_signals d)
    (db_risk d) (db_balances d) (db_positions d) (db_executions d) (db_transitions d)
    (db_audit d) (db_events d) (db_notifications d) (db_preferences d) (db_controls d).

#[export] Instance ApiKeySecret_table : Table ApiKeySecret := {|
  tbl := db_secrets; set_tbl := set_secrets; row_id := key_id;
  row_conflict a b := String.eqb (key_id a) (key_id b) || String.eqb (key_account a) (key_account b);
  row_store := λ _ r, Some r |}.

Definition set_signals (l : list TradingSignal) (d : Db) : Db :=
  Build_Db
    (db_users d) (db_permissions d) (db_accounts d) (db_secrets d) l
    (db_risk d) (db_balances d) (db_positions d) (db_executions d) (db_transitions d)
    (db_audit d) (db_events d) (db_notifications d) (db_preferences d) (db_controls d).

#[export] Instance TradingSignal_table : Table TradingSignal := {|
  tbl := db_signals; set_tbl := set_signals; row_id := sig_id;
  row_conflict a b := String.eqb (sig_id a) (sig_id b);
  row_store := store_signal |}.

Definition set_risk (l : list RiskSetting) (d : Db) : Db :=
  Build_Db
    (db_users d) (db_permissions d) (db_accounts d) (db_secrets d) (db_signals d) l (db_balances d) (db_positions d) (db_executions d) (db_transitions d)
    (db_audit d) (db_events d) (db_notifications d) (db_preferences d) (db_controls d).

#[export] Instance RiskSetting_table : Table RiskSetting := {|
  tbl := db_risk; set_tbl := set_risk; row_id := risk_id;
  row_conflict a b := String.eqb (risk_id a) (risk_id b) || String.eqb (risk_account a) (risk_account b);
  row_store := store_risk |}.

Definition set_balances (l : list Balance) (d : Db) : Db :=
  Build_Db
    (db_users d) (db_permissions d) (db_accounts d) (db_secrets d) (db_signals d)
    (db_risk d) l (db_positions d) (db_executions d) (db_transitions d)
    (db_audit d) (db_events d) (db_notifications d) (db_preferences d) (db_controls d).

#[export] Instance Balance_table : Table Balance := {|
  tbl := db_balances; set_tbl := set_balances; row_id := bal_id;
  row_conflict a b := String.eqb (bal_id a) (bal_id b) || (String.eqb (bal_account a) (bal_account b) && String.eqb (bal_asset a) (bal_asset b));
  row_store := store_balance |}.

Definition set_positions (l : list Position) (d : Db) : Db :=
  Build_Db
    (db_users d) (db_permissions d) (db_accounts d) (db_secrets d) (db_signals d)
    (db_risk d) (db_balances d) l (db_executions d) (db_transitions d)
    (db_audit d) (db_events d) (db_notifications d) (db_preferences d) (db_controls d).

#[export] Instance Position_table : Table Position := {|
  tbl := db_positions; set_tbl := set_positions; row_id := pos_id;
  row_conflict a b := String.eqb (pos_id a) (pos_id b) || (String.eqb (pos_account a) (pos_account b) && String.eqb (pos_symbol a) (pos_symbol b));
  row_store := store_position |}.

Definition set_executions (l : list OrderExecution) (d : Db) : Db :=
  Build_Db
    (db_users d) (db_permissions d) (db_accounts d) (db_secrets d) (db_signals d)
    (db_risk d) (db_balances d) (db_positions d) l (db_transitions d)
    (db_audit d) (db_events d) (db_notifications d) (db_preferences d) (db_controls d).

#[export] Instance OrderExecution_table : Table OrderExecution := {|
  tbl := db_executions; set_tbl := set_executions; row_id := exe_id;
  row_conflict a b := String.eqb (exe_id a) (exe_id b) || String.eqb (exe_execution_id a) (exe_execution_id b) || String.eqb (exe_client_order_id a) (exe_client_order_id b) || (String.eqb (exe_signal a) (exe_signal b) && String.eqb (exe_account a) (exe_account b));
  row_store := store_execution |}.

Definition set_transitions (l : list OrderExecutionTransition) (d : Db) : Db :=
  Build_Db
    (db_users d) (db_permissions d) (db_accounts d) (db_secrets d) (db_signals d)
    (db_risk d) (db_balances d) (db_positions d) (db_executions d) l
    (db_audit d) (db_events d) (db_notifications d) (db_preferences d) (db_controls d).

#[export] Instance OrderExecutionTransition_table : Table OrderExecutionTransition := {|
  tbl := db_transitions; set_tbl := set_transitions; row_id := tr_id;
  row_conflict a b := String.eqb (tr_id a) (tr_id b) || (String.eqb (tr_order a) (tr_order b) && Z.eqb (tr_sequence a) (tr_sequence b));
  row_store := λ _ r, Some r |}.

Definition set_audit (l : list AuditLog) (d : Db) : Db :=
  Build_Db
    (db_users d) (db_permissions d) (db_accounts d) (db_secrets d) (db_signals d)
    (db_risk d) (db_balances d) (db_positions d) (db_executions d) (db_transitions d) l (db_events d) (db_notifications d) (db_preferences d) (db_controls d).

#[export] Instance AuditLog_table : Table AuditLog := {|
  tbl := db_audit; set_tbl := set_audit; row_id := aud_id;
  row_conflict a b := String.eqb (aud_id a) (aud_id b);
  row_store := λ _ r, Some r |}.

Definition set_events (l : list SystemEvent) (d : Db) : Db :=
  Build_Db
    (db_users d) (db_permissions d) (db_accounts d) (db_secrets d) (db_signals d)
    (db_risk d) (db_balances d) (db_positions d) (db_executions d) (db_transitions d)
    (db_audit d) l (db_notifications d) (db_preferences d) (db_controls d).

#[export] Instance SystemEvent_table : Table SystemEvent := {|
  tbl := db_events; set_tbl := set_events; row_id := evt_id;
  row_conflict a b := String.eqb (evt_id a) (evt_id b);
  row_store := λ _ r, Some r |}.

Definition set_notifications (l : list InternalNotification) (d : Db) : Db :=
  Build_Db
    (db_users d) (db_permissions d) (db_accounts d) (db_secrets d) (db_signals d)
    (db_risk d) (db_balances d) (db_positions d) (db_executions d) (db_transitions d)
    (db_audit d) (db_events d) l (db_preferences d) (db_controls d).

#[export] Instance InternalNotification_table : Table InternalNotification := {|
  tbl := db_notifications; set_tbl := set_notifications; row_id := ntf_id;
  row_conflict a b := String.eqb (ntf_id a) (ntf_id b);
  row_store := λ _ r, Some r |}.

Definition set_preferences (l : list NotificationPreference) (d : Db) : Db :=
  Build_Db
    (db_users d) (db_permissions d) (db_accounts d) (db_secrets d) (db_signals d)
    (db_risk d) (db_balances d) (db_positions d) (db_executions d) (db_transitions d)
    (db_audit d) (db_events d) (db_notifications d) l (db_controls d).

#[export] Instance NotificationPreference_table : Table NotificationPreference := {|
  tbl := db_preferences; set_tbl := set_preferences; row_id := prf_id;
  row_conflict a b := String.eqb (prf_id a) (prf_id b) || String.eqb (prf_user a) (prf_user b);
  row_store := λ _ r, Some r |}.

Definition set_controls (l : list SystemControl) (d : Db) : Db :=
  Build_Db
    (db_users d) (db_permissions d) (db_accounts d) (db_secrets d) (db_signals d)
    (db_risk d) (db_balances d) (db_positions d) (db_executions d) (db_transitions d)
    (db_audit d) (db_events d) (db_notifications d) (db_preferences d) l.

#[export] Instance SystemControl_table : Table SystemControl := {|
  tbl := db_controls; set_tbl := set_controls; row_id := ctl_id;
  row_conflict a b := String.eqb (ctl_id a) (ctl_id b);
  row_store := λ _ r, Some r |}.

(** ** Transactions *)

Section transactions.
Context `{Database}.

(** [db.flush()]: INSERT the added rows, table by table, parents first. *)
Definition flush_order : list (M unit) :=
  [flush_table (R:=User); flush_table (R:=UserPermission); flush_table (R:=ExchangeAccount);
   flush_table (R:=ApiKeySecret); flush_table (R:=TradingSignal); flush_table (R:=RiskSetting);
   flush_table (R:=Balance); flush_table (R:=Position); flush_table (R:=OrderExecution);
   flush_table (R:=OrderExecutionTransition); flush_table (R:=AuditLog);
   flush_table (R:=SystemEvent); flush_table (R:=InternalNotification);
   flush_table (R:=NotificationPreference); flush_table (R:=SystemControl)].

Definition flush : M unit := run_all flush_order.

(** [db.commit()]; [db.refresh(...)] afterwards re-reads what [w_tx] holds. *)
Definition commit : M unit :=
  flush ;; modify (λ w, set_committed (w_tx w) w).

Definition add_flush {R} `{Table R} (r : R) : M unit := db_add r ;; flush.
Definition add_commit {R} `{Table R} (r : R) : M unit := db_add r ;; commit.
End transactions.

(** [db.close()] at the end of a request ([get_db] in db/session.py) discards what
    was not committed. *)
Definition close (w : World) : World := set_new empty_db (set_tx (w_committed w) w).

Definition run_request {A} (m : M A) (w : World) : Outcome A * World :=
  let '(o, w') := m w in (o, close w').
