(* ===== verification/Demo.v ===== *)
(** A small concrete database the witnesses evaluate the theorems on: one user with
    a simulated and a testnet account, their risk settings, two signals. *)
From S2P Require Import Prelude PyStr PyDecimal PyValue Models Session PgDatabase Tables.

Definition d10 (z : Z) : dec := canonical_numeric 10 (z * 10 ^ 10).

Definition demo_user : User :=
  {| user_id := "user-1"; user_email := "alice@example.com"; user_username := "alice";
     user_password_hash := ""; user_auth_version := 0; user_mfa_enabled := false;
     user_mfa_secret := None; user_mfa_pending_secret := None; user_mfa_last_used_step := None;
     user_mfa_recovery_code_hashes := []; user_role := SUPER_ADMIN; user_is_active := true |}.

Definition demo_account : ExchangeAccount :=
  {| acct_id := "acct-sim"; acct_user := "user-1"; acct_exchange := MOCK; acct_mode := SIMULATION;
     acct_label := "sim"; acct_trading_enabled := true; acct_is_active := true |}.

Definition demo_testnet_account : ExchangeAccount :=
  {| acct_id := "acct-test"; acct_user := "user-1"; acct_exchange := BINANCE; acct_mode := TESTNET;
     acct_label := "test"; acct_trading_enabled := true; acct_is_active := true |}.

Definition demo_risk (id account : string) : RiskSetting :=
  {| risk_id := id; risk_user := "user-1"; risk_account := account; risk_trading_enabled := true;
     risk_max_single_order_notional := Some (d10 1000000); risk_max_position_notional := None;
     risk_max_leverage := None; risk_min_order_quantity := None;
     risk_max_order_quantity := Some (d10 10); risk_blocked_symbols := ["DOGEUSDT"] |}.

Definition demo_signal : TradingSignal :=
  {| sig_id := "signal-1"; sig_user := "user-1"; sig_source := MANUAL; sig_symbol := "BTCUSDT";
     sig_side := BUY; sig_order_type := MARKET; sig_price := None; sig_quantity := Some (d10 2);
     sig_target := None; sig_raw_payload := None |}.

Definition demo_target_signal : TradingSignal :=
  {| sig_id := "signal-2"; sig_user := "user-1"; sig_source := MANUAL; sig_symbol := "BTCUSDT";
     sig_side := BUY; sig_order_type := MARKET; sig_price := None; sig_quantity := None;
     sig_target := Some (d10 3); sig_raw_payload := None |}.

Definition demo_position : Position :=
  {| pos_id := "pos-1"; pos_user := "user-1"; pos_account := "acct-sim"; pos_symbol := "BTCUSDT";
     pos_quantity := d10 5 |}.

Definition demo_key : ApiKeySecret :=
  {| key_id := "key-1"; key_user := "user-1"; key_account := "acct-test"; key_api_key := "enc:key";
     key_api_secret := "enc:secret"; key_passphrase := None |}.

Definition demo_db : Db :=
  Build_Db [demo_user] [] [demo_account; demo_testnet_account] [demo_key]
    [demo_signal; demo_target_signal] [demo_risk "risk-1" "acct-sim"; demo_risk "risk-2" "acct-test"]
    [] [demo_position] [] [] [] [] [] [] [].

(** A clean session over [demo_db], at some moment of 2026. *)
Definition demo_world : World :=
  mkWorld demo_db demo_db empty_db 0 1780000000000000 [].

(** The demo database before a window: every flag is off. *)
Definition closed_account : ExchangeAccount :=
  {| acct_id := "acct-test"; acct_user := "user-1"; acct_exchange := BINANCE; acct_mode := TESTNET;
     acct_label := "test"; acct_trading_enabled := false; acct_is_active := true |}.
Definition closed_risk : RiskSetting :=
  {| risk_id := "risk-2"; risk_user := "user-1"; risk_account := "acct-test";
     risk_trading_enabled := false; risk_max_single_order_notional := None;
     risk_max_position_notional := None; risk_max_leverage := None; risk_min_order_quantity := None;
     risk_max_order_quantity := None; risk_blocked_symbols := [] |}.
Definition closed_db : Db := set_accounts [closed_account] (set_risk [closed_risk] demo_db).
Definition closed_world : World := mkWorld closed_db closed_db empty_db 0 1780000000000000 [].
