(* ===== verification/Logic.v ===== *)
(** Reasoning about the session monad: how a sequence of effects runs, when a
    program keeps an invariant of the session, and which tables an effect leaves
    alone. *)
From S2P Require Import Prelude PyStr PyDecimal PyValue Models Session Tables.

(** ** Running a program *)

Lemma run_ret {A} (a : A) w : (mret a : M A) w = (Ok a, w).
Proof. done. Qed.

Lemma run_bind {A B} (m : M A) (k : A → M B) w :
  (m ≫= k) w = match m w with (Ok a, w') => k a w' | (Raise e, w') => (Raise e, w') end.
Proof. done. Qed.

Lemma run_seq_assoc {A B C} (m : M A) (k : M B) (h : M C) w :
  ((m ;; k) ;; h) w = (m ;; (k ;; h)) w.
Proof. rewrite !run_bind. by destruct (m w) as [[a|e] w1]. Qed.

Lemma run_bind_Ok {A B} (m : M A) (k : A → M B) w a w' :
  m w = (Ok a, w') → (m ≫= k) w = k a w'.
Proof. intros E. by rewrite run_bind, E. Qed.

Lemma run_bind_Raise {A B} (m : M A) (k : A → M B) w e w' :
  m w = (Raise e, w') → (m ≫= k) w = (Raise e, w').
Proof. intros E. by rewrite run_bind, E. Qed.

Lemma bind_Ok_inv {A B} (m : M A) (k : A → M B) w b w2 :
  (m ≫= k) w = (Ok b, w2) → ∃ a w1, m w = (Ok a, w1) ∧ k a w1 = (Ok b, w2).
Proof. rewrite run_bind. destruct (m w) as [[a|e] w1]; [eauto | done]. Qed.

(** Invert every [bind] of a successful run. *)
Ltac run_inv :=
  repeat match goal with
  | H : (_ ≫= _) _ = (Ok _, _) |- _ =>
      apply bind_Ok_inv in H; destruct H as (? & ? & ? & H)
  | H : (mret _) _ = (Ok _, _) |- _ => injection H as <- <-
  | H : mret _ _ = (Ok _, _) |- _ => injection H as <- <-
  | H : gets _ _ = (Ok _, _) |- _ => injection H as <- <-
  | H : raise _ _ = (Ok _, _) |- _ => discriminate H
  end.

(** ** Keeping an invariant

    [I] holds between the operations of a session and [C] is the part of it that
    concerns the committed database.  A store the database refuses (a unique
    constraint, a NUMERIC overflow) may leave the open transaction in any state,
    so only [C] survives it; every other exception leaves [I]. *)

Definition db_failure (e : Exn) : bool :=
  match e with IntegrityError | DataError => true | _ => false end.

Section keeps.
Context (I C : World → Prop).

Definition outcome_ok {A} (o : Outcome A) (w : World) : Prop :=
  match o with
  | Ok _ => I w
  | Raise e => if db_failure e then C w else I w
  end.

Definition keeps {A} (m : M A) : Prop := ∀ w, I w → outcome_ok (m w).1 (m w).2.

Lemma keeps_ret {A} (a : A) : keeps (mret a).
Proof. by intros w Hw. Qed.

Lemma keeps_gets {A} (f : World → A) : keeps (gets f).
Proof. by intros w Hw. Qed.

Lemma keeps_raise {A} (e : Exn) : db_failure e = false → keeps (raise (A:=A) e).
Proof. intros He w Hw. cbn. by rewrite He. Qed.

Lemma keeps_bind {A B} (m : M A) (k : A → M B) :
  keeps m → (∀ a, keeps (k a)) → keeps (m ≫= k).
Proof.
  intros Hm Hk w Hw. rewrite run_bind. specialize (Hm w Hw).
  destruct (m w) as [[a|e] w1]; [by apply Hk | done].
Qed.

Lemma keeps_modify f : (∀ w, I w → I (f w)) → keeps (modify f).
Proof. intros Hf w Hw. cbn. auto. Qed.

Lemma keeps_try {A} (m : M A) (h : Exn → option (M A)) :
  keeps m →
  (∀ e k, h e = Some k → db_failure e = false ∧ keeps k) →
  keeps (try_except m h).
Proof.
  intros Hm Hh w Hw. unfold try_except. specialize (Hm w Hw).
  destruct (m w) as [[a|e] w1]; [done|].
  destruct (h e) as [k|] eqn:E; [|done].
  destruct (Hh e k E) as [He Hk]. cbn in Hm. rewrite He in Hm. by apply Hk.
Qed.

Lemma keeps_mapM {A B} (f : A → M B) (l : list A) :
  (∀ x, keeps (f x)) → keeps (mapM f l).
Proof.
  intros Hf. induction l as [|x l IH]; cbn; [apply keeps_ret|].
  apply keeps_bind; [apply Hf|]. intros y. apply keeps_bind; [done|].
  intros ys. apply keeps_ret.
Qed.

Lemma keeps_run_all (ms : list (M unit)) : (∀ m, m ∈ ms → keeps m) → keeps (run_all ms).
Proof.
  intros Hms. induction ms as [|m ms IH]; cbn; [apply keeps_ret|].
  apply keeps_bind; [apply Hms; by left|]. intros _. apply IH. intros m' Hm'. apply Hms. by right.
Qed.
End keeps.

(** ** Pure code that raises

    [benign o]: an exception of [o] does not come from the database. *)
Lemma outcome_bind_Ok {A B} (o : Outcome A) (f : A → Outcome B) b :
  outcome_bind o f = Ok b → ∃ a, o = Ok a ∧ f a = Ok b.
Proof. destruct o; cbn; [eauto|done]. Qed.

Definition benign {A} (o : Outcome A) : Prop := ∀ x, o = Raise x → db_failure x = false.

Lemma benign_ok {A} (a : A) : benign (Ok a).
Proof. done. Qed.
Lemma benign_raise {A} x : db_failure x = false → benign (Raise (A:=A) x).
Proof. by intros Hx y [= <-]. Qed.
Lemma benign_bind {A B} (o : Outcome A) (f : A → Outcome B) :
  benign o → (∀ a, benign (f a)) → benign (outcome_bind o f).
Proof. intros Ho Hf. destruct o as [a|x]; cbn; [apply Hf|]. intros y [= <-]. by apply Ho. Qed.
Lemma keeps_lift {A} I C (o : Outcome A) : benign o → keeps I C (lift o).
Proof. intros Ho w Hw. destruct o as [a|x]; cbn; [done|]. by rewrite Ho. Qed.

Create HintDb benign.
#[export] Hint Resolve benign_ok : benign.
Ltac benign_tac :=
  repeat match goal with
  | |- benign (outcome_bind _ _) => apply benign_bind; [|intros ?]
  | |- benign (Raise _) => apply benign_raise; reflexivity
  | |- benign (match ?x with _ => _ end) => destruct x
  | |- benign _ => solve [eauto 2 with benign]
  end.

Create HintDb keeps.
#[export] Hint Resolve keeps_ret keeps_gets keeps_bind keeps_mapM : keeps.

(** Decompose a program along its syntax, leaving the operations without a rule. *)
Ltac keeps_step :=
  match goal with
  | |- keeps _ _ (mret _) => apply keeps_ret
  | |- keeps _ _ (gets _) => apply keeps_gets
  | |- keeps _ _ (db_scalar _) => apply keeps_gets
  | |- keeps _ _ (db_scalars _) => apply keeps_gets
  | |- keeps _ _ (db_get _) => apply keeps_gets
  | |- keeps _ _ now_utc => apply keeps_gets
  | |- keeps _ _ (raise _) => apply keeps_raise; reflexivity
  | |- keeps _ _ (mapM _ _) => apply keeps_mapM; intros ?
  | |- keeps _ _ (_ ≫= _) => apply keeps_bind; [|intros ?]
  | |- keeps _ _ (match ?x with _ => _ end) => destruct x eqn:?
  end.
Ltac keeps_tac := repeat first [keeps_step | solve [eauto with keeps]].

(** ** Table access *)

Ltac solve_store_id :=
  let num := fresh in let r' := fresh in let E := fresh in
  intros num [] r'; cbn;
  unfold store_signal, store_risk, store_balance, store_position, store_execution; cbn; intros E;
  repeat match type of E with
  | (store_opt ?f ?o ≫= _) = Some _ => destruct (store_opt f o) eqn:?; [cbn in E | discriminate E]
  | (num ?p ?s ?d ≫= _) = Some _ => destruct (num p s d) eqn:?; [cbn in E | discriminate E]
  end; injection E as <-; reflexivity.

(** Reading what was written, in a table that behaves like a field. *)
Class TableLaws (R : Type) `{Table R} := {
  tbl_set l d : tbl (set_tbl l d) = l;
  set_tbl_set l l' d : set_tbl l (set_tbl l' d) = set_tbl l d;
  set_tbl_tbl d : set_tbl (tbl d) d = d;
  (** the primary key excludes a second row with the same id *)
  conflict_id a b : row_id a = row_id b → row_conflict a b = true;
  store_id num r r' : row_store num r = Some r' → row_id r' = row_id r }.

#[export] Hint Extern 0 (TableLaws _) =>
  (split; [reflexivity | reflexivity | intros []; reflexivity
          | cbn; intros ? ? ->; by rewrite String.eqb_refl
          | solve_store_id]) : typeclass_instances.

(** The rows a table holds have different ids. *)
Definition unique_ids (R : Type) `{Table R} (d : Db) : Prop := NoDup (row_id (R:=R) <$> tbl d).

(** ** Frames: what a table's effects leave alone

    [Untouched R V] says that writing table [R] does not change the view [V] of
    the database. *)
Class Untouched (R : Type) `{Table R} {V : Type} (view : Db → V) :=
  untouched : ∀ l d, view (set_tbl l d) = view d.

#[export] Hint Extern 0 (Untouched _ _) => (intros ? ?; reflexivity) : typeclass_instances.

(** The views of a world that a frame is about: both the open transaction and the
    rows still to be flushed, with what only some effects change. *)
Definition same_view {V} (view : Db → V) (w w' : World) : Prop :=
  view (w_tx w') = view (w_tx w) ∧ view (w_new w') = view (w_new w) ∧
  w_committed w' = w_committed w ∧ w_next w' = w_next w ∧
  w_now w' = w_now w ∧ w_trace w' = w_trace w.

#[export] Instance same_view_preorder {V} (view : Db → V) : PreOrder (same_view view).
Proof.
  split.
  - by intros w.
  - intros w1 w2 w3 (?&?&?&?&?&?) (?&?&?&?&?&?). unfold same_view. naive_solver congruence.
Qed.

Section frames.
Context `{Database} {V : Type} (view : Db → V).

Definition frames {A} (m : M A) : Prop := ∀ w, same_view view w (m w).2.

Lemma frames_bind {A B} (m : M A) (k : A → M B) :
  frames m → (∀ a, frames (k a)) → frames (m ≫= k).
Proof.
  intros Hm Hk w. rewrite run_bind. specialize (Hm w).
  destruct (m w) as [[a|e] w1]; [|done]. etrans; [exact Hm | apply Hk].
Qed.

Lemma frames_gets {A} (f : World → A) : frames (gets f).
Proof. intros w. reflexivity. Qed.

Context {R : Type} `{Table R} `{!Untouched R view}.

Lemma frames_add (r : R) : frames (db_add r).
Proof. intros w. unfold same_view. cbn. by rewrite untouched. Qed.

Lemma frames_insert (r : R) : frames (insert_row r).
Proof.
  intros w. unfold insert_row. destruct (row_store _ r); [|reflexivity].
  destruct (existsb _ _); [reflexivity|]. unfold same_view. cbn. by rewrite untouched.
Qed.

Lemma frames_inserts (rs : list R) : frames (insert_rows rs).
Proof.
  induction rs as [|r rs IH]; cbn; [by intros w|].
  apply frames_bind; [apply frames_insert | done].
Qed.

Lemma frames_flush_table : frames (flush_table (R:=R)).
Proof.
  apply frames_bind; [apply frames_gets|]. intros rs.
  apply frames_bind; [apply frames_inserts|]. intros _ w.
  unfold same_view. cbn. by rewrite untouched.
Qed.

Lemma frames_update id (f : R → R) : frames (db_update id f).
Proof.
  intros w. unfold db_update. destruct (find_first _ _); [|reflexivity].
  destruct (row_store _ _); [|reflexivity]. unfold same_view. cbn. by rewrite untouched.
Qed.

Lemma frames_update_all (f : R → R) : frames (db_update_all f).
Proof. intros w. unfold same_view. cbn. by rewrite untouched. Qed.

Lemma frames_delete id : frames (db_delete (R:=R) id).
Proof. intros w. unfold same_view. cbn. by rewrite untouched. Qed.
End frames.

(** A frame keeps every invariant that depends only on its view, the committed
    database and the identifier supply. *)
Lemma keeps_frames `{Database} {V A} (view : Db → V) (I C : World → Prop) (m : M A) :
  frames view m → (∀ w, I w → C w) → (∀ w w', same_view view w w' → I w → I w') → keeps I C m.
Proof.
  intros Hm HC Hview w Hw. assert (I (m w).2) as Hw' by eauto.
  destruct (m w) as [[a|e] w']; cbn in *; [done|]. destruct (db_failure e); auto.
Qed.

(** ** Flushing *)

Section flushing.
Context `{Database} {R : Type} `{Table R} `{!TableLaws R}.

(** The rows as the database stores them. *)
Definition stored (r r' : R) : Prop := row_store numeric_column r = Some r'.

Lemma insert_row_Ok (r : R) w w' :
  insert_row r w = (Ok tt, w') →
  ∃ r', stored r r' ∧ existsb (row_conflict r') (tbl (w_tx w)) = false ∧
    w' = set_tx (set_tbl (tbl (w_tx w) ++ [r']) (w_tx w)) w.
Proof.
  unfold insert_row, stored. destruct (row_store _ r) as [r'|]; [|done].
  destruct (existsb _ _) eqn:E; [done|]. intros [= <-]. eauto.
Qed.

Lemma insert_rows_Ok (rs : list R) w w' :
  insert_rows rs w = (Ok tt, w') →
  ∃ rs', Forall2 stored rs rs' ∧
    (unique_ids R (w_tx w) → NoDup (row_id <$> tbl (w_tx w) ++ rs')) ∧
    w' = set_tx (set_tbl (tbl (w_tx w) ++ rs') (w_tx w)) w.
Proof.
  revert w. induction rs as [|r rs IH]; cbn; intros w E.
  - injection E as <-. exists []. split; [constructor|]. rewrite app_nil_r, set_tbl_tbl.
    by destruct w.
  - apply bind_Ok_inv in E as ([] & w1 & (r' & Hr & Hc & ->)%insert_row_Ok & E).
    apply IH in E as (rs' & Hrs & Hd & ->). exists (r' :: rs'). split; [by constructor|].
    cbn in *. rewrite tbl_set, set_tbl_set, <- app_assoc in *. split; [|done].
    intros Hu. apply Hd. unfold unique_ids. rewrite tbl_set, fmap_app. apply NoDup_app.
    split; [done|]. split; [|apply NoDup_singleton].
    intros x (y & -> & Hy)%list_elem_of_fmap Heq%list_elem_of_singleton.
    rewrite existsb_false_iff in Hc. specialize (Hc y Hy).
    by rewrite (conflict_id r' y) in Hc.
Qed.

Lemma flush_table_Ok w w' :
  flush_table (R:=R) w = (Ok tt, w') →
  ∃ rs', Forall2 stored (tbl (w_new w)) rs' ∧
    (unique_ids R (w_tx w) → NoDup (row_id <$> tbl (w_tx w) ++ rs')) ∧
    w' = set_new (set_tbl [] (w_new w))
           (set_tx (set_tbl (tbl (w_tx w) ++ rs') (w_tx w)) w).
Proof.
  intros E. unfold flush_table in E. apply bind_Ok_inv in E as (rs & w1 & [= <- <-] & E).
  apply bind_Ok_inv in E as ([] & w2 & (rs' & Hrs & Hd & ->)%insert_rows_Ok & [= <-]). eauto.
Qed.

Lemma flush_table_Raise w e w' : flush_table (R:=R) w = (Raise e, w') → db_failure e = true.
Proof.
  unfold flush_table. rewrite run_bind. cbn.
  assert (∀ rs w, match (insert_rows (R:=R) rs w).1 with Raise e => db_failure e = true | Ok _ => True end)
    as Hins.
  { intros rs. induction rs as [|r rs IH]; intros w0; cbn; [done|]. rewrite run_bind.
    destruct (insert_row r w0) as [[u|e0] w1] eqn:E; [apply IH|]. unfold insert_row in E.
    destruct (row_store _ r); [destruct (existsb _ _); [|done]|]; by injection E as <- <-. }
  rewrite run_bind. specialize (Hins (tbl (w_new w)) w).
  destruct (insert_rows _ w) as [[u|e0] w1]; cbn; [done|]. intros [= <- <-]. done.
Qed.
End flushing.

(** What a successful flush does to one table: the pending rows, as stored, are
    appended. *)
Definition flushed `{Database} (R : Type) `{Table R} (w w' : World) : Prop :=
  (∃ rs, Forall2 stored (tbl (w_new w)) rs ∧ tbl (R:=R) (w_tx w') = tbl (w_tx w) ++ rs) ∧
  tbl (R:=R) (w_new w') = [] ∧ (unique_ids R (w_tx w) → unique_ids R (w_tx w')).

(** What no flush changes. *)
Definition same_rest (w w' : World) : Prop :=
  w_committed w' = w_committed w ∧ w_next w' = w_next w ∧ w_now w' = w_now w ∧
  w_trace w' = w_trace w.

Ltac each_table tac :=
  unfold flush_order; cbn [drop take app];
  repeat (apply Forall_cons_2; [tac|]); apply Forall_nil_2.

Section flush_order.
Context `{Database}.

Lemma frames_run_all {V} (view : Db → V) (ms : list (M unit)) :
  Forall (frames view) ms → frames view (run_all ms).
Proof.
  induction 1 as [|m ms Hm Hms IH]; cbn; [apply frames_gets|]. by apply frames_bind.
Qed.

Lemma run_all_app ms ms' w :
  run_all (ms ++ ms') w = (run_all ms ;; run_all ms') w.
Proof.
  revert w. induction ms as [|m ms IH]; intros w; cbn; [done|].
  rewrite !run_bind. destruct (m w) as [[[]|e] w1]; [|done]. rewrite IH. by rewrite run_bind.
Qed.

Lemma run_all_Raise ms (P : Exn → Prop) w e w' :
  Forall (λ m, ∀ w e w', m w = (Raise e, w') → P e) ms →
  run_all ms w = (Raise e, w') → P e.
Proof.
  intros Hms. revert w. induction Hms as [|m ms Hm _ IH]; intros w; cbn; [done|].
  rewrite run_bind. destruct (m w) as [[[]|e0] w1] eqn:E; [apply IH|].
  intros [= <- <-]. eauto.
Qed.

(** The flush of one table among the others. *)
Lemma flush_split {R} `{Table R} `{!TableLaws R} pre post w w' :
  flush_order = pre ++ flush_table (R:=R) :: post →
  Forall (frames (tbl (R:=R))) pre → Forall (frames (tbl (R:=R))) post →
  flush w = (Ok tt, w') → flushed R w w'.
Proof.
  intros Heq Hpre Hpost E. unfold flush in E. rewrite Heq, run_all_app in E.
  apply bind_Ok_inv in E as ([] & w1 & E1 & E). cbn in E.
  apply bind_Ok_inv in E as ([] & w2 & E2 & E).
  pose proof (frames_run_all _ _ Hpre w) as (Ht1 & Hn1 & _). rewrite E1 in Ht1, Hn1.
  pose proof (frames_run_all _ _ Hpost w2) as (Ht2 & Hn2 & _). rewrite E in Ht2, Hn2.
  apply flush_table_Ok in E2 as (rs & Hrs & Hd & ->). cbn in *. rewrite tbl_set in Ht2, Hn2.
  unfold flushed, unique_ids in *. rewrite Ht2, Ht1. rewrite Hn1 in Hrs. rewrite Ht1 in Hd.
  split; [by exists rs | done].
Qed.

Lemma flush_same_rest w : same_rest w (flush w).2.
Proof.
  assert (frames (λ _, tt) flush) as Hf.
  { apply frames_run_all. each_table ltac:(apply frames_flush_table; intros ? ?; reflexivity). }
  destruct (Hf w) as (_ & _ & ? & ? & ? & ?). done.
Qed.

Lemma flush_Raise w e w' : flush w = (Raise e, w') → db_failure e = true.
Proof.
  apply (run_all_Raise _ (λ e, db_failure e = true)). each_table ltac:(intros ? ? ?; apply flush_table_Raise).
Qed.
End flush_order.

Class Flushed (R : Type) `{Table R} :=
  flush_flushed `{Database} w w' : flush w = (Ok tt, w') → flushed R w w'.

(** The table at position [n] of [flush_order]. *)
Ltac flushed_at n :=
  intros D w w'; apply (flush_split (take n flush_order) (drop (S n) flush_order) _ _ eq_refl);
  each_table ltac:(apply frames_flush_table; intros ? ?; reflexivity).

#[export] Instance User_flushed : Flushed User.
Proof. flushed_at 0. Qed.
#[export] Instance UserPermission_flushed : Flushed UserPermission.
Proof. flushed_at 1. Qed.
#[export] Instance ExchangeAccount_flushed : Flushed ExchangeAccount.
Proof. flushed_at 2. Qed.
#[export] Instance ApiKeySecret_flushed : Flushed ApiKeySecret.
Proof. flushed_at 3. Qed.
#[export] Instance TradingSignal_flushed : Flushed TradingSignal.
Proof. flushed_at 4. Qed.
#[export] Instance RiskSetting_flushed : Flushed RiskSetting.
Proof. flushed_at 5. Qed.
#[export] Instance Balance_flushed : Flushed Balance.
Proof. flushed_at 6. Qed.
#[export] Instance Position_flushed : Flushed Position.
Proof. flushed_at 7. Qed.
#[export] Instance OrderExecution_flushed : Flushed OrderExecution.
Proof. flushed_at 8. Qed.
#[export] Instance OrderExecutionTransition_flushed : Flushed OrderExecutionTransition.
Proof. flushed_at 9. Qed.
#[export] Instance AuditLog_flushed : Flushed AuditLog.
Proof. flushed_at 10. Qed.
#[export] Instance SystemEvent_flushed : Flushed SystemEvent.
Proof. flushed_at 11. Qed.
#[export] Instance InternalNotification_flushed : Flushed InternalNotification.
Proof. flushed_at 12. Qed.
#[export] Instance NotificationPreference_flushed : Flushed NotificationPreference.
Proof. flushed_at 13. Qed.
#[export] Instance SystemControl_flushed : Flushed SystemControl.
Proof. flushed_at 14. Qed.

(** After a successful flush nothing is pending. *)
Lemma flush_Ok_empty `{Database} w w' : flush w = (Ok tt, w') → w_new w' = empty_db.
Proof.
  intros E.
  pose proof (flush_flushed (R:=User) _ _ E) as (_ & H1 & _).
  pose proof (flush_flushed (R:=UserPermission) _ _ E) as (_ & H2 & _).
  pose proof (flush_flushed (R:=ExchangeAccount) _ _ E) as (_ & H3 & _).
  pose proof (flush_flushed (R:=ApiKeySecret) _ _ E) as (_ & H4 & _).
  pose proof (flush_flushed (R:=TradingSignal) _ _ E) as (_ & H5 & _).
  pose proof (flush_flushed (R:=RiskSetting) _ _ E) as (_ & H6 & _).
  pose proof (flush_flushed (R:=Balance) _ _ E) as (_ & H7 & _).
  pose proof (flush_flushed (R:=Position) _ _ E) as (_ & H8 & _).
  pose proof (flush_flushed (R:=OrderExecution) _ _ E) as (_ & H9 & _).
  pose proof (flush_flushed (R:=OrderExecutionTransition) _ _ E) as (_ & H10 & _).
  pose proof (flush_flushed (R:=AuditLog) _ _ E) as (_ & H11 & _).
  pose proof (flush_flushed (R:=SystemEvent) _ _ E) as (_ & H12 & _).
  pose proof (flush_flushed (R:=InternalNotification) _ _ E) as (_ & H13 & _).
  pose proof (flush_flushed (R:=NotificationPreference) _ _ E) as (_ & H14 & _).
  pose proof (flush_flushed (R:=SystemControl) _ _ E) as (_ & H15 & _).
  destruct (w_new w'). cbn in *. by subst.
Qed.

(** A successful commit makes the open transaction the committed database. *)
Lemma commit_Ok `{Database} w w' :
  commit w = (Ok tt, w') →
  ∃ w1, flush w = (Ok tt, w1) ∧ w' = set_committed (w_tx w1) w1.
Proof. intros E. apply bind_Ok_inv in E as ([] & w1 & E1 & [= <-]). eauto. Qed.

Lemma commit_Raise `{Database} w e w' :
  commit w = (Raise e, w') → flush w = (Raise e, w').
Proof.
  unfold commit. rewrite run_bind. destruct (flush w) as [[[]|e0] w1]; [done|]. by intros [= -> ->].
Qed.

Section updates.
Context `{Database}.

Lemma db_update_Ok {R} `{Table R} `{!TableLaws R} id (f : R → R) w w' :
  db_update id f w = (Ok tt, w') →
  ∃ r r', find_first (λ x, String.eqb (row_id x) id) (tbl (w_tx w)) = Some r ∧
    stored (f r) r' ∧
    w' = set_tx (set_tbl (update_where (λ x, String.eqb (row_id x) id) (λ _, r') (tbl (w_tx w)))
                  (w_tx w)) w.
Proof.
  unfold db_update, stored. destruct (find_first _ _) as [r|]; [|done].
  destruct (row_store _ (f r)) as [r'|] eqn:E; [|done]. intros [= <-]. eauto.
Qed.

(** What was appended to a table that had nothing pending but these rows. *)
Lemma flushed_rows {R} `{Table R} w w' rs :
  flushed R w w' → tbl (R:=R) (w_new w) = rs → Forall (λ r, row_store numeric_column r = Some r) rs →
  tbl (R:=R) (w_tx w') = tbl (w_tx w) ++ rs.
Proof.
  intros ((rs' & Hrs & ->) & _) <- Hid. f_equal.
  induction Hrs as [|r r' rs rs' Hr _ IH]; [done|].
  apply Forall_cons in Hid as [Hr' Hid]. unfold stored in Hr. rewrite Hr' in Hr.
  injection Hr as <-. f_equal. auto.
Qed.
End updates.

(** ** A flush with rows of one table pending *)

Section flush_only.
Context `{Database}.

Lemma flush_table_idle {R} `{Table R} `{!TableLaws R} w :
  tbl (R:=R) (w_new w) = [] → flush_table (R:=R) w = (Ok tt, w).
Proof.
  intros Hn. unfold flush_table. rewrite run_bind. cbn. rewrite Hn, run_bind. cbn.
  unfold modify. rewrite <- Hn, set_tbl_tbl. by destruct w.
Qed.

Definition idle (ts : Db) (m : M unit) : Prop := ∀ w, w_new w = ts → m w = (Ok tt, w).

Lemma run_all_idle ts ms w : Forall (idle ts) ms → w_new w = ts → run_all ms w = (Ok tt, w).
Proof.
  intros Hms Hw. induction Hms as [|m ms Hm _ IH]; cbn; [done|].
  rewrite run_bind, Hm by done. apply IH.
Qed.

Lemma flush_only_split {R} `{Table R} `{!TableLaws R} pre post rs w :
  flush_order = pre ++ flush_table (R:=R) :: post →
  Forall (idle (set_tbl rs empty_db)) pre → Forall (idle empty_db) post →
  tbl (R:=R) empty_db = [] →
  w_new w = set_tbl rs empty_db → flush w = flush_table (R:=R) w.
Proof.
  intros Heq Hpre Hpost Hemp Hw. unfold flush. rewrite Heq, run_all_app, run_bind.
  rewrite (run_all_idle _ _ _ Hpre Hw). cbn [run_all]. rewrite run_bind.
  destruct (flush_table w) as [[[]|e] w1] eqn:E; [|done].
  rewrite (run_all_idle empty_db _ _ Hpost); [done|].
  apply flush_table_Ok in E as (rs' & _ & _ & ->). cbn.
  rewrite Hw, set_tbl_set. by rewrite <- Hemp, set_tbl_tbl.
Qed.
End flush_only.

Class FlushOnly (R : Type) `{Table R} :=
  flush_only `{Database} rs w : w_new w = set_tbl (R:=R) rs empty_db → flush w = flush_table (R:=R) w.

Ltac flush_only_at n :=
  intros D rs w;
  apply (flush_only_split (take n flush_order) (drop (S n) flush_order) rs w eq_refl);
  [each_table ltac:(intros ? Hw; apply flush_table_idle; rewrite Hw; reflexivity) ..| reflexivity].

#[export] Instance User_flush_only : FlushOnly User.
Proof. flush_only_at 0. Qed.
#[export] Instance UserPermission_flush_only : FlushOnly UserPermission.
Proof. flush_only_at 1. Qed.
#[export] Instance ExchangeAccount_flush_only : FlushOnly ExchangeAccount.
Proof. flush_only_at 2. Qed.
#[export] Instance ApiKeySecret_flush_only : FlushOnly ApiKeySecret.
Proof. flush_only_at 3. Qed.
#[export] Instance TradingSignal_flush_only : FlushOnly TradingSignal.
Proof. flush_only_at 4. Qed.
#[export] Instance RiskSetting_flush_only : FlushOnly RiskSetting.
Proof. flush_only_at 5. Qed.
#[export] Instance Balance_flush_only : FlushOnly Balance.
Proof. flush_only_at 6. Qed.
#[export] Instance Position_flush_only : FlushOnly Position.
Proof. flush_only_at 7. Qed.
#[export] Instance OrderExecution_flush_only : FlushOnly OrderExecution.
Proof. flush_only_at 8. Qed.
#[export] Instance OrderExecutionTransition_flush_only : FlushOnly OrderExecutionTransition.
Proof. flush_only_at 9. Qed.
#[export] Instance AuditLog_flush_only : FlushOnly AuditLog.
Proof. flush_only_at 10. Qed.
#[export] Instance SystemEvent_flush_only : FlushOnly SystemEvent.
Proof. flush_only_at 11. Qed.
#[export] Instance InternalNotification_flush_only : FlushOnly InternalNotification.
Proof. flush_only_at 12. Qed.
#[export] Instance NotificationPreference_flush_only : FlushOnly NotificationPreference.
Proof. flush_only_at 13. Qed.
#[export] Instance SystemControl_flush_only : FlushOnly SystemControl.
Proof. flush_only_at 14. Qed.

(** ** Commits of a single table *)

(** The world after a commit whose transaction became [d]. *)
Definition committed_world (d : Db) (w : World) : World :=
  mkWorld d d empty_db (w_next w) (w_now w) (w_trace w).

Lemma commit_only_Ok `{Database} {R} `{Table R} `{!TableLaws R} `{!FlushOnly R} rs w w' :
  w_new w = set_tbl (R:=R) rs empty_db → tbl (R:=R) empty_db = [] →
  commit w = (Ok tt, w') →
  ∃ rs', Forall2 stored rs rs' ∧
    (unique_ids R (w_tx w) → NoDup (row_id <$> tbl (w_tx w) ++ rs')) ∧
    w' = committed_world (set_tbl (tbl (w_tx w) ++ rs') (w_tx w)) w.
Proof.
  intros Hn Hemp E. apply commit_Ok in E as (w1 & E & ->).
  rewrite (flush_only rs _ Hn) in E. apply flush_table_Ok in E as (rs' & Hrs & Hd & ->).
  rewrite Hn, tbl_set in Hrs. exists rs'. split; [done|]. split; [done|].
  unfold committed_world, set_committed, set_new, set_tx. cbn.
  by rewrite Hn, set_tbl_set, <- Hemp, set_tbl_tbl.
Qed.

Lemma commit_empty_Ok `{Database} w w' :
  w_new w = empty_db → commit w = (Ok tt, w') → w' = committed_world (w_tx w) w.
Proof.
  intros Hn E. pose proof (commit_only_Ok (R:=OrderExecutionTransition) [] w w') as Hc.
  destruct (Hc Hn eq_refl E) as (rs' & ->%Forall2_nil_inv_l & _ & ->).
  by rewrite app_nil_r, set_tbl_tbl.
Qed.

(** A commit leaves the tables alone that have nothing pending. *)
Lemma commit_untouched `{Database} {R} `{!Table R} `{!Flushed R} w w' :
  tbl (R:=R) (w_new w) = [] → commit w = (Ok tt, w') →
  tbl (R:=R) (w_tx w') = tbl (w_tx w) ∧ tbl (R:=R) (w_new w') = [].
Proof.
  intros Hn E. apply commit_Ok in E as (w1 & E & ->).
  destruct (flush_flushed (R:=R) _ _ E) as (Hf & He & _). split; [|done].
  destruct Hf as (rs & Hrs & Ht). cbn. rewrite Hn in Hrs. apply Forall2_nil_inv_l in Hrs as ->.
  by rewrite Ht, app_nil_r.
Qed.

(** ** Case analysis along a program *)

Lemma run_cases {A B} (m : M A) (k : A → M B) w (P : Outcome B → World → Prop) :
  (∀ e w1, m w = (Raise e, w1) → P (Raise e) w1) →
  (∀ a w1, m w = (Ok a, w1) → P (k a w1).1 (k a w1).2) →
  P ((m ≫= k) w).1 ((m ≫= k) w).2.
Proof. intros He Ha. rewrite run_bind. destruct (m w) as [[a|e] w1] eqn:E; [by apply Ha | by apply He]. Qed.

(** A row added on its own leaves the other tables alone. *)
Lemma add_flush_Ok `{Database} {R} `{Table R} (r : R) w w' :
  w_new w = empty_db → add_flush r w = (Ok tt, w') →
  w_new w' = empty_db ∧ w_committed w' = w_committed w ∧ w_trace w' = w_trace w ∧ w_now w' = w_now w.
Proof.
  intros Hn E. unfold add_flush in E. apply bind_Ok_inv in E as ([] & w1 & Ea & E). injection Ea as <-.
  split; [by eapply flush_Ok_empty|]. match type of E with flush ?x = _ => pose proof (flush_same_rest x) as Hr end.
  rewrite E in Hr. destruct Hr as (Hc & _ & Hnow & Ht). done.
Qed.

Lemma add_flush_others `{Database} {R R'} `{Table R} `{!Table R'} `{!Flushed R'} (r : R) w w' :
  w_new w = empty_db → tbl (R:=R') (set_tbl [r] empty_db) = [] → tbl (R:=R) empty_db = [] →
  add_flush r w = (Ok tt, w') →
  tbl (R:=R') (w_tx w') = tbl (w_tx w).
Proof.
  intros Hn Ho He E. unfold add_flush in E. apply bind_Ok_inv in E as ([] & w1 & Ea & E). injection Ea as <-.
  apply (flush_flushed (R:=R')) in E. apply (flushed_rows _ _ []) in E; [|by cbn; rewrite Hn, He|constructor].
  by rewrite app_nil_r in E.
Qed.

(** ** What a program does to the outside

    [emits P m]: [m] only appends events that satisfy [P] to the trace. *)

Section emits.
Context `{Database} (P : Event → Prop).

Definition emits {A} (m : M A) : Prop :=
  ∀ w, ∃ evs, w_trace (m w).2 = w_trace w ++ evs ∧ Forall P evs.

Lemma emits_silent {A} (m : M A) : (∀ w, w_trace (m w).2 = w_trace w) → emits m.
Proof. intros Hm w. exists []. rewrite Hm, app_nil_r. split; [done|constructor]. Qed.

Lemma emits_ret {A} (a : A) : emits (mret a).
Proof. by apply emits_silent. Qed.
Lemma emits_gets {A} (f : World → A) : emits (gets f).
Proof. by apply emits_silent. Qed.
Lemma emits_raise {A} (e : Exn) : emits (A:=A) (raise e).
Proof. by apply emits_silent. Qed.
Lemma emits_new_id : emits new_id.
Proof. by apply emits_silent. Qed.
Lemma emits_emit ev : P ev → emits (emit ev).
Proof. intros Hev w. exists [ev]. split; [done|by repeat constructor]. Qed.

Lemma emits_bind {A B} (m : M A) (k : A → M B) : emits m → (∀ a, emits (k a)) → emits (m ≫= k).
Proof.
  intros Hm Hk w. rewrite run_bind. destruct (Hm w) as (evs & Ht & Hevs).
  destruct (m w) as [[a|e] w1]; cbn in *; [|eauto].
  destruct (Hk a w1) as (evs' & -> & Hevs'). exists (evs ++ evs').
  rewrite Ht, app_assoc. split; [done|by apply Forall_app_2].
Qed.

Lemma emits_try {A} (m : M A) (h : Exn → option (M A)) :
  emits m → (∀ e k, h e = Some k → emits k) → emits (try_except m h).
Proof.
  intros Hm Hh w. unfold try_except. destruct (Hm w) as (evs & Ht & Hevs).
  destruct (m w) as [[a|e] w1]; cbn in *; [eauto|].
  destruct (h e) as [k|] eqn:E; [|eauto]. destruct (Hh e k E w1) as (evs' & -> & Hevs').
  exists (evs ++ evs'). rewrite Ht, app_assoc. split; [done|by apply Forall_app_2].
Qed.

Lemma emits_mapM {A B} (f : A → M B) (l : list A) : (∀ x, emits (f x)) → emits (mapM f l).
Proof.
  intros Hf. induction l as [|x l IH]; cbn; [apply emits_ret|].
  apply emits_bind; [apply Hf|]. intros y. apply emits_bind; [done|]. intros ys. apply emits_ret.
Qed.

Lemma emits_run_all (ms : list (M unit)) : (∀ m, m ∈ ms → emits m) → emits (run_all ms).
Proof.
  intros Hms. induction ms as [|m ms IH]; cbn; [apply emits_ret|].
  apply emits_bind; [apply Hms; by left|]. intros _. apply IH. intros m' Hm'. apply Hms. by right.
Qed.

Lemma emits_lift {A} (o : Outcome A) : emits (lift o).
Proof. by apply emits_silent. Qed.

Lemma emits_lift_bind {A B} (o : Outcome A) (k : A → M B) :
  (∀ a, o = Ok a → emits (k a)) → emits (lift o ≫= k).
Proof. intros Hk. destruct o as [a|x]; [by apply Hk|by apply emits_silent]. Qed.

Lemma emits_add {R} `{Table R} (r : R) : emits (db_add r).
Proof. by apply emits_silent. Qed.
Lemma emits_update {R} `{Table R} id (f : R → R) : emits (db_update id f).
Proof.
  apply emits_silent. intros w. unfold db_update. destruct (find_first _ _); [|done]. by destruct (row_store _ _).
Qed.
Lemma emits_update_all {R} `{Table R} (f : R → R) : emits (db_update_all f).
Proof. by apply emits_silent. Qed.
Lemma emits_delete {R} `{Table R} id : emits (db_delete (R:=R) id).
Proof. by apply emits_silent. Qed.
Lemma emits_flush : emits flush.
Proof. apply emits_silent. intros w. apply (flush_same_rest w). Qed.
Lemma emits_commit : emits commit.
Proof. apply emits_bind; [apply emits_flush|]. intros _. by apply emits_silent. Qed.
Lemma emits_add_commit {R} `{Table R} (r : R) : emits (add_commit r).
Proof. apply emits_bind; [apply emits_add|intros _; apply emits_commit]. Qed.
Lemma emits_add_flush {R} `{Table R} (r : R) : emits (add_flush r).
Proof. apply emits_bind; [apply emits_add|intros _; apply emits_flush]. Qed.
End emits.

Create HintDb emits.
#[export] Hint Resolve emits_ret emits_gets emits_raise emits_new_id emits_flush emits_commit emits_lift
  emits_add emits_update emits_update_all emits_delete emits_add_commit emits_add_flush : emits.

(** Decompose a program along its syntax. *)
Ltac emits_step :=
  match goal with
  | |- emits _ (mret _) => apply emits_ret
  | |- emits _ (gets _) => apply emits_gets
  | |- emits _ (raise _) => apply emits_raise
  | |- emits _ (db_scalar _) => apply emits_gets
  | |- emits _ (db_scalars _) => apply emits_gets
  | |- emits _ (db_get _) => apply emits_gets
  | |- emits _ now_utc => apply emits_gets
  | |- emits _ (mapM _ _) => apply emits_mapM; intros ?
  | |- emits _ (_ ≫= _) => apply emits_bind; [|intros ?]
  | |- emits _ (match ?x with _ => _ end) => destruct x eqn:?
  end.
Ltac emits_tac := repeat first [emits_step | solve [eauto 3 with emits]].

(** ** What a program returns

    [yields Q m]: every value [m] returns satisfies [Q]. *)
Definition yields {A} (Q : A → Prop) (m : M A) : Prop := ∀ w a w', m w = (Ok a, w') → Q a.

Lemma yields_ret {A} (Q : A → Prop) a : Q a → yields Q (mret a).
Proof. intros Ha w b w' [= <- _]. done. Qed.

Lemma yields_any {A} (m : M A) : yields (λ _, True) m.
Proof. done. Qed.

Lemma yields_bind {A B} (P : A → Prop) (Q : B → Prop) (m : M A) (k : A → M B) :
  yields P m → (∀ a, P a → yields Q (k a)) → yields Q (m ≫= k).
Proof. intros Hm Hk w b w2 E. apply bind_Ok_inv in E as (a & w1 & E1 & E2). eapply Hk; eauto. Qed.

Lemma yields_then {A B} (Q : B → Prop) (m : M A) (k : A → M B) :
  (∀ a, yields Q (k a)) → yields Q (m ≫= k).
Proof. intros Hk. apply (yields_bind (λ _, True)); [apply yields_any|auto]. Qed.

(** ** What a program leaves alone

    [preserves f m]: [m] does not change the observation [f] of the world. *)
Section preserves.
Context {V : Type} (f : World → V).

Definition preserves {A} (m : M A) : Prop := ∀ w, f (m w).2 = f w.

Lemma preserves_ret {A} (a : A) : preserves (mret a).
Proof. done. Qed.
Lemma preserves_gets {A} (g : World → A) : preserves (gets g).
Proof. done. Qed.
Lemma preserves_raise {A} (e : Exn) : preserves (A:=A) (raise e).
Proof. done. Qed.
Lemma preserves_lift {A} (o : Outcome A) : preserves (lift o).
Proof. done. Qed.
Lemma preserves_bind {A B} (m : M A) (k : A → M B) :
  preserves m → (∀ a, preserves (k a)) → preserves (m ≫= k).
Proof.
  intros Hm Hk w. rewrite run_bind. specialize (Hm w). destruct (m w) as [[a|e] w1]; cbn in *; [|done].
  by rewrite Hk.
Qed.
Lemma preserves_try {A} (m : M A) (h : Exn → option (M A)) :
  preserves m → (∀ e k, h e = Some k → preserves k) → preserves (try_except m h).
Proof.
  intros Hm Hh w. unfold try_except. specialize (Hm w). destruct (m w) as [[a|e] w1]; cbn in *; [done|].
  destruct (h e) as [k|] eqn:E; [|done]. by rewrite (Hh e k E).
Qed.
Lemma preserves_mapM {A B} (g : A → M B) l : (∀ x, preserves (g x)) → preserves (mapM g l).
Proof.
  intros Hg. induction l as [|x l IH]; cbn; [done|].
  apply preserves_bind; [apply Hg|]. intros y. apply preserves_bind; [done|]. done.
Qed.
End preserves.

Section uncommitted.
Context `{Database}.

Lemma uncommitted_add {R} `{Table R} (r : R) : preserves w_committed (db_add r).
Proof. done. Qed.
Lemma uncommitted_update {R} `{Table R} id (f : R → R) : preserves w_committed (db_update id f).
Proof. intros w. unfold db_update. by repeat case_match. Qed.
Lemma uncommitted_delete {R} `{Table R} id : preserves w_committed (db_delete (R:=R) id).
Proof. done. Qed.
Lemma uncommitted_new_id : preserves w_committed new_id.
Proof. done. Qed.
Lemma uncommitted_emit ev : preserves w_committed (emit ev).
Proof. done. Qed.
Lemma uncommitted_flush : preserves w_committed flush.
Proof. intros w. apply (flush_same_rest w). Qed.
Lemma uncommitted_add_flush {R} `{Table R} (r : R) : preserves w_committed (add_flush r).
Proof. apply preserves_bind; [apply uncommitted_add|intros _; apply uncommitted_flush]. Qed.
End uncommitted.

Create HintDb preserves.
#[export] Hint Resolve preserves_ret preserves_gets preserves_raise preserves_lift uncommitted_add uncommitted_update
  uncommitted_delete uncommitted_new_id uncommitted_emit uncommitted_flush uncommitted_add_flush : preserves.

Ltac preserves_step :=
  match goal with
  | |- preserves _ (mret _) => apply preserves_ret
  | |- preserves _ (db_scalar _) => apply preserves_gets
  | |- preserves _ (db_scalars _) => apply preserves_gets
  | |- preserves _ (db_get _) => apply preserves_gets
  | |- preserves _ now_utc => apply preserves_gets
  | |- preserves _ (mapM _ _) => apply preserves_mapM; intros ?
  | |- preserves _ (_ ≫= _) => apply preserves_bind; [|intros ?]
  | |- preserves _ (match ?x with _ => _ end) => destruct x eqn:?
  end.
Ltac preserves_tac := repeat first [preserves_step | solve [eauto 3 with preserves]].

(** ** The rows of a table, pending ones included

    Where rows are stored as given, a flush moves them and loses none. *)
Class AsGiven (R : Type) `{Table R} := as_given num (r : R) : row_store num r = Some r.
#[export] Hint Extern 0 (AsGiven _) => (intros ? ?; reflexivity) : typeclass_instances.

Definition all_rows (R : Type) `{Table R} (w : World) : list R := tbl (w_tx w) ++ tbl (w_new w).

(** Nothing is pending for the table and it holds what it held in [w]. *)
Definition settled (R : Type) `{Table R} (w w' : World) : Prop :=
  tbl (R:=R) (w_tx w') = tbl (w_tx w) ∧ tbl (R:=R) (w_new w') = [].

Section all_rows.
Context `{Database} {R : Type} `{Table R} `{!TableLaws R} `{!Flushed R}.

Lemma flush_all_rows `{!AsGiven R} w w' : flush w = (Ok tt, w') → all_rows R w' = all_rows R w.
Proof.
  intros E. apply (flush_flushed (R:=R)) in E. pose proof E as (_ & Hn' & _). unfold all_rows. rewrite Hn', app_nil_r.
  apply (flushed_rows _ _ (tbl (w_new w)) E eq_refl), Forall_true. intros r. apply as_given.
Qed.

Lemma flush_settled w0 w w' : settled R w0 w → flush w = (Ok tt, w') → settled R w0 w'.
Proof.
  intros [Ht Hn] E. apply (flush_flushed (R:=R)) in E. pose proof E as (_ & Hn' & _). split; [|done].
  rewrite (flushed_rows _ _ [] E Hn) by constructor. by rewrite app_nil_r.
Qed.

Lemma add_all_rows (r : R) w : all_rows R (db_add r w).2 = all_rows R w ++ [r].
Proof. unfold all_rows. cbn. by rewrite tbl_set, app_assoc. Qed.

Context {R' : Type} `{Table R'} `{!Untouched R' (tbl (R:=R))}.

Lemma add_all_rows_other (r : R') w : all_rows R (db_add r w).2 = all_rows R w.
Proof. unfold all_rows. cbn. by rewrite untouched. Qed.
Lemma add_settled w0 (r : R') w : settled R w0 w → settled R w0 (db_add r w).2.
Proof. unfold settled. cbn. by rewrite untouched. Qed.
End all_rows.

Lemma all_rows_clean R `{Table R} w : w_new w = empty_db → tbl (R:=R) empty_db = [] → all_rows R w = tbl (w_tx w).
Proof. unfold all_rows. intros -> ->. by rewrite app_nil_r. Qed.

(** ** What a program raises

    [raises P m]: every exception [m] ends with satisfies [P]. *)
Section raises.
Context `{Database} (P : Exn → Prop).

Definition raises {A} (m : M A) : Prop := ∀ w e w', m w = (Raise e, w') → P e.

Lemma raises_ret {A} (a : A) : raises (mret a).
Proof. done. Qed.
Lemma raises_gets {A} (f : World → A) : raises (gets f).
Proof. done. Qed.
Lemma raises_new_id : raises new_id.
Proof. done. Qed.
Lemma raises_raise {A} e : P e → raises (A:=A) (raise e).
Proof. intros He w e' w' [= <- _]. done. Qed.
Lemma raises_lift {A} (o : Outcome A) : (∀ e, o = Raise e → P e) → raises (lift o).
Proof. intros Ho w e w' [= -> _]. by apply Ho. Qed.
Lemma raises_bind {A B} (m : M A) (k : A → M B) : raises m → (∀ a, raises (k a)) → raises (m ≫= k).
Proof.
  intros Hm Hk w e w'. rewrite run_bind. destruct (m w) as [[a|x] w1] eqn:E; [apply Hk|].
  intros [= <- _]. by eapply Hm.
Qed.
Lemma raises_mapM {A B} (f : A → M B) l : (∀ x, x ∈ l → raises (f x)) → raises (mapM f l).
Proof.
  intros Hf. induction l as [|x l IH]; cbn; [done|]. apply raises_bind; [apply Hf; by left|]. intros y.
  apply raises_bind; [|done]. apply IH. intros z Hz. apply Hf. by right.
Qed.
Lemma raises_add {R} `{Table R} (r : R) : raises (db_add r).
Proof. done. Qed.

Context (Hdb : ∀ e, db_failure e = true → P e).

Lemma raises_flush : raises flush.
Proof using Hdb. intros w e w' E. by eapply Hdb, flush_Raise. Qed.
Lemma raises_add_flush {R} `{Table R} (r : R) : raises (add_flush r).
Proof using Hdb. apply raises_bind; [done|]. intros _. apply raises_flush. Qed.
End raises.

Ltac raises_step :=
  match goal with
  | |- raises _ (mret _) => apply raises_ret
  | |- raises _ (gets _) => apply raises_gets
  | |- raises _ (db_scalar _) => apply raises_gets
  | |- raises _ (db_scalars _) => apply raises_gets
  | |- raises _ (db_get _) => apply raises_gets
  | |- raises _ now_utc => apply raises_gets
  | |- raises _ new_id => apply raises_new_id
  | |- raises _ (db_add _) => apply raises_add
  | |- raises _ flush => apply raises_flush; try done
  | |- raises _ (add_flush _) => apply raises_add_flush; try done
  | |- raises _ (_ ≫= _) => apply raises_bind; [|intros ?]
  | |- raises _ (match ?x with _ => _ end) => destruct x eqn:?
  end.
Ltac raises_tac := repeat raises_step.
