(* ===== verification/OrderStateMachine.v ===== *)
(** [services/order_state_machine.py]: the allowed status changes of an order
    execution and the append-only log of its transitions.  An execution is named
    by its id: the identity map of the session makes every holder of the object
    see the same row. *)
From S2P Require Import Prelude PyStr PyDecimal PyValue Models Session Tables Logic.

Definition TERMINAL_ORDER_STATUSES : list OrderExecutionStatus :=
  [FILLED; CANCELLED; REJECTED; FAILED; TIMEOUT].

Definition ALLOWED_ORDER_TRANSITIONS : list (OrderExecutionStatus * list OrderExecutionStatus) :=
  [(CREATED, [RISK_PASSED; REJECTED; FAILED]);
   (RISK_PASSED, [SUBMITTED; FAILED]);
   (SUBMITTED, [ACCEPTED; PARTIALLY_FILLED; FILLED; CANCELLED; REJECTED; FAILED; TIMEOUT]);
   (ACCEPTED, [PARTIALLY_FILLED; FILLED; CANCELLED; REJECTED; FAILED; TIMEOUT]);
   (PARTIALLY_FILLED, [PARTIALLY_FILLED; FILLED; CANCELLED; FAILED; TIMEOUT])].

(** [ALLOWED_ORDER_TRANSITIONS.get(from_status, frozenset())] *)
Fixpoint allowed_of (table : list (OrderExecutionStatus * list OrderExecutionStatus))
    (s : OrderExecutionStatus) : list OrderExecutionStatus :=
  match table with
  | [] => []
  | (k, v) :: t => if decide (k = s) then v else allowed_of t s
  end.

Definition transition_allowed (from to : OrderExecutionStatus) : bool :=
  bool_decide (to ∈ allowed_of ALLOWED_ORDER_TRANSITIONS from).

Definition exe_with_status (s : OrderExecutionStatus) (e : OrderExecution) : OrderExecution :=
  Build_OrderExecution (exe_id e) (exe_user e) (exe_signal e) (exe_execution_id e) (exe_account e)
    (exe_exchange_name e) (exe_client_order_id e) (exe_exchange_order_id e) (exe_symbol e)
    (exe_side e) (exe_order_type e) (exe_price e) (exe_quantity e) s (exe_risk_result e)
    (exe_exchange_response e) (exe_error_message e).

(** The transitions of one order in a list of them. *)
Definition log_of (order : string) (ts : list OrderExecutionTransition) :
    list OrderExecutionTransition :=
  List.filter (λ t, String.eqb (tr_order t) order) ts.

(** [max(...)] over sequence numbers, 0 where there are none *)
Definition max_sequence (ts : list OrderExecutionTransition) : Z :=
  foldr (λ t m, Z.max (tr_sequence t) m) 0%Z ts.

Section machine.
Context `{Database}.

(** The row behind an [OrderExecution] object. *)
Definition load_execution (execution : string) : M OrderExecution :=
  r ← db_get execution;
  match r with Some e => mret e | None => raise (RuntimeError "row is gone") end.

Definition _next_sequence_number (order_execution_id : string) : M Z :=
  persisted_max ← gets (λ w, max_sequence (log_of order_execution_id (db_transitions (w_tx w))));
  pending_max ← gets (λ w, max_sequence (log_of order_execution_id (db_transitions (w_new w))));
  mret (Z.max persisted_max pending_max + 1)%Z.

Definition _add_transition (execution : string) (from_status : option OrderExecutionStatus)
    (to_status : OrderExecutionStatus) (reason : string) (details : option dict) :
    M OrderExecutionTransition :=
  e ← load_execution execution;
  if String.eqb (exe_id e) ""
  then raise (InvalidOrderStateTransitionError "order execution must be persisted first")
  else
    id ← new_id;
    n ← _next_sequence_number (exe_id e);
    let transition :=
      {| tr_id := id; tr_user := exe_user e; tr_order := exe_id e; tr_sequence := n;
         tr_from := status_value <$> from_status; tr_to := status_value to_status;
         tr_reason := reason; tr_details := details |} in
    db_add transition ;;
    mret transition.

Definition record_initial_order_state (execution : string) (reason : string) :
    M OrderExecutionTransition :=
  e ← load_execution execution;
  if negb (bool_decide (exe_status e = CREATED))
  then raise (InvalidOrderStateTransitionError "initial order state must be CREATED")
  else _add_transition execution None CREATED reason None.

Definition transition_order_execution (execution : string) (to_status : OrderExecutionStatus)
    (reason : string) (details : option dict) : M OrderExecutionTransition :=
  e ← load_execution execution;
  let from_status := exe_status e in
  if negb (transition_allowed from_status to_status)
  then raise (InvalidOrderStateTransitionError
                ("order status transition " +:+ status_value from_status +:+ " -> " +:+
                 status_value to_status +:+ " is not allowed"))
  else
    db_update execution (exe_with_status to_status) ;;
    _add_transition execution (Some from_status) to_status reason details.
End machine.

(** ** The transition table *)

(** A status is terminal exactly when the table lists no way out of it. *)
Lemma terminal_iff_no_transition s :
  s ∈ TERMINAL_ORDER_STATUSES ↔ ∀ t, transition_allowed s t = false.
Proof.
  split.
  - intros Hs t. unfold TERMINAL_ORDER_STATUSES in Hs. repeat rewrite elem_of_cons in Hs.
    rewrite elem_of_nil in Hs.
    destruct Hs as [->|[->|[->|[->|[->|[]]]]]]; by destruct t.
  - intros Hall. unfold TERMINAL_ORDER_STATUSES. repeat rewrite elem_of_cons.
    destruct s; try tauto;
      [specialize (Hall FAILED) | specialize (Hall FAILED) | specialize (Hall FILLED)
      | specialize (Hall FILLED) | specialize (Hall FILLED)]; done.
Qed.

(** The only status that can follow itself is [PARTIALLY_FILLED], and nothing
    leads back to [CREATED]: the machine makes progress. *)
Definition status_rank (s : OrderExecutionStatus) : nat :=
  match s with
  | CREATED => 0 | RISK_PASSED => 1 | SUBMITTED => 2 | ACCEPTED => 3 | PARTIALLY_FILLED => 4
  | _ => 5
  end.

Lemma transition_rank s t :
  transition_allowed s t = true → status_rank s < status_rank t ∨ s = PARTIALLY_FILLED ∧ t = s.
Proof. destruct s, t; vm_compute; intros [=]; (left; lia) || (right; done). Qed.
