(* ===== verification/ExecutionLog.v ===== *)
(** The invariant that ties an order execution to its transition log: the log is
    numbered 1, 2, 3, ..., starts with the creation, follows the transition table
    and ends in the status the execution has.  It holds of the open transaction
    between operations and of the committed database always. *)
From S2P Require Import Prelude PyStr PyDecimal PyValue Models Session Tables Logic OrderStateMachine.

(** ** Well-formed logs *)

Inductive log_path : list OrderExecutionTransition → OrderExecutionStatus → Prop :=
| path_created t :
    tr_sequence t = 1%Z → tr_from t = None → tr_to t = status_value CREATED →
    log_path [t] CREATED
| path_step l s t s' :
    log_path l s →
    tr_sequence t = Z.of_nat (S (length l)) →
    tr_from t = Some (status_value s) → tr_to t = status_value s' →
    transition_allowed s s' = true →
    log_path (l ++ [t]) s'.

Definition log_db `{Database} (es : list OrderExecution) (ts : list OrderExecutionTransition)
    (next : nat) : Prop :=
  (∀ e, e ∈ es → log_path (log_of (exe_id e) ts) (exe_status e)) ∧
  (∀ t, t ∈ ts → ∃ e, e ∈ es ∧ exe_id e = tr_order t) ∧
  (∀ e, e ∈ es → ∃ k, k < next ∧ exe_id e = new_uuid k) ∧
  NoDup (exe_id <$> es).

Definition log_view (d : Db) := (db_executions d, db_transitions d).

Section invariant.
Context `{Database}.

(** The committed part and the whole invariant. *)
Definition log_committed (w : World) : Prop :=
  log_db (db_executions (w_committed w)) (db_transitions (w_committed w)) (w_next w).

Definition log_open (w : World) : Prop :=
  log_db (db_executions (w_tx w)) (db_transitions (w_tx w) ++ db_transitions (w_new w)) (w_next w).

Definition log_inv (w : World) : Prop :=
  log_open w ∧ db_executions (w_new w) = [] ∧ log_committed w.

(** A program that keeps the invariant: see [keeps]. *)
Definition keeps_log {A} (m : M A) : Prop := keeps log_inv log_committed m.
End invariant.

(** ** Facts about logs *)

Lemma log_of_app id a b : log_of id (a ++ b) = log_of id a ++ log_of id b.
Proof. apply List.filter_app. Qed.

Lemma max_sequence_app a b :
  max_sequence (a ++ b) = Z.max (max_sequence a) (max_sequence b).
Proof.
  assert (∀ l, 0 ≤ max_sequence l)%Z as Hpos by (induction l; simpl; lia).
  induction a as [|t a IH]; simpl; [specialize (Hpos b); lia | lia].
Qed.

Lemma log_path_sequence l s : log_path l s → max_sequence l = Z.of_nat (length l).
Proof.
  induction 1 as [t Ht| l s t s' Hp IH Ht]; [simpl; lia|].
  rewrite max_sequence_app, length_app, IH. simpl. lia.
Qed.

Lemma log_path_nonempty l s : log_path l s → l ≠ [].
Proof. destruct 1; [done | by intros []%app_nil]. Qed.

Lemma log_of_snoc_other id ts t : tr_order t ≠ id → log_of id (ts ++ [t]) = log_of id ts.
Proof.
  intros Hne. rewrite log_of_app. unfold log_of at 2. simpl.
  rewrite (proj2 (String.eqb_neq _ _) Hne). apply app_nil_r.
Qed.

Lemma log_of_snoc_same ts t : log_of (tr_order t) (ts ++ [t]) = log_of (tr_order t) ts ++ [t].
Proof. rewrite log_of_app. unfold log_of at 2. simpl. by rewrite String.eqb_refl. Qed.

Section facts.
Context `{Database}.
Implicit Types (es : list OrderExecution) (ts : list OrderExecutionTransition).

Lemma log_db_next es ts n n' : n ≤ n' → log_db es ts n → log_db es ts n'.
Proof.
  intros Hn (Hp & Ht & Hk & Hd). repeat split; auto.
  intros e He. destruct (Hk e He) as (k & ? & ?). exists k. split; [lia | done].
Qed.

(** The rows with a given id. *)
Lemma log_db_unique es ts n e e' :
  log_db es ts n → e ∈ es → e' ∈ es → exe_id e = exe_id e' → e = e'.
Proof.
  intros (_ & _ & _ & Hd). induction es as [|x es IH]; [by intros ?%elem_of_nil|].
  cbn in Hd. apply NoDup_cons in Hd as [Hx Hd]. rewrite !elem_of_cons.
  intros [->|He] [->|He'] Heq; auto.
  - exfalso. apply Hx. rewrite Heq. apply list_elem_of_fmap. eauto.
  - exfalso. apply Hx. rewrite <- Heq. apply list_elem_of_fmap. eauto.
Qed.

(** A status change together with its log entry: [e'] is the row after it. *)
Lemma log_db_step es ts n e e' t :
  log_db es ts n → e ∈ es →
  exe_id e' = exe_id e → transition_allowed (exe_status e) (exe_status e') = true →
  tr_order t = exe_id e → tr_sequence t = Z.of_nat (S (length (log_of (exe_id e) ts))) →
  tr_from t = Some (status_value (exe_status e)) → tr_to t = status_value (exe_status e') →
  log_db (update_where (λ x, String.eqb (exe_id x) (exe_id e)) (λ _, e') es) (ts ++ [t]) n.
Proof.
  intros Hlog He Hid' Hal Hto Hseq Hfrom Ht. pose proof Hlog as (Hp & Hts & Hk & Hd).
  repeat split.
  - intros x (y & Hy & ->)%elem_of_update_where.
    destruct (String.eqb_spec (exe_id y) (exe_id e)) as [Hid|Hid].
    + rewrite Hid', <- Hto, log_of_snoc_same, Hto. eapply path_step; eauto.
    + rewrite log_of_snoc_other by congruence. auto.
  - intros t' [Ht'|Ht']%elem_of_app.
    + destruct (Hts t' Ht') as (y & Hy & Hyid).
      eexists; split; [apply elem_of_update_where; eauto|].
      destruct (String.eqb_spec (exe_id y) (exe_id e)); congruence.
    + apply list_elem_of_singleton in Ht' as ->.
      eexists; split; [apply elem_of_update_where; eauto|].
      rewrite String.eqb_refl. congruence.
  - intros x (y & Hy & ->)%elem_of_update_where.
    destruct (String.eqb_spec (exe_id y) (exe_id e)); rewrite ?Hid'; auto.
  - rewrite map_update_where; [done|]. intros x Hx%String.eqb_eq. congruence.
Qed.

(** An identifier no execution has, has no log. *)
Lemma log_of_fresh es ts id :
  (∀ t, t ∈ ts → ∃ e, e ∈ es ∧ exe_id e = tr_order t) →
  (∀ e, e ∈ es → exe_id e ≠ id) → log_of id ts = [].
Proof.
  intros Hts Hfresh. unfold log_of. destruct (List.filter _ ts) as [|t l] eqn:E; [done|].
  assert (List.In t (List.filter (λ t, String.eqb (tr_order t) id) ts)) as Hin
    by (rewrite E; by left).
  apply List.filter_In in Hin as [Hin Heq%String.eqb_eq].
  destruct (Hts t (proj2 (list_elem_of_In _ _) Hin)) as (x & Hx & Hxid).
  exfalso. apply (Hfresh x Hx). congruence.
Qed.

(** A new execution together with the first entry of its log. *)
Lemma log_db_create es ts k n e t :
  (∀ i j, new_uuid i = new_uuid j → i = j) →
  log_db es ts k → k < n → exe_id e = new_uuid k → exe_status e = CREATED →
  tr_order t = exe_id e → tr_sequence t = 1%Z → tr_from t = None →
  tr_to t = status_value CREATED →
  log_db (es ++ [e]) (ts ++ [t]) n.
Proof.
  intros Hinj (Hp & Hts & Hk & Hd) Hn Hid Hst Ho Hseq Hfrom Hto.
  assert (∀ x, x ∈ es → exe_id x ≠ exe_id e) as Hfresh.
  { intros x Hx Heq. destruct (Hk x Hx) as (j & Hj & Hxj).
    assert (j = k) by (apply Hinj; congruence). lia. }
  pose proof (log_of_fresh es ts (exe_id e) Hts Hfresh) as Hnil.
  repeat split.
  - intros x [Hx| ->%list_elem_of_singleton]%elem_of_app.
    + rewrite log_of_snoc_other; [auto|]. intros ?. apply (Hfresh x Hx). congruence.
    + rewrite <- Ho, log_of_snoc_same, Ho, Hnil, Hst. by constructor.
  - intros t' [Ht'| ->%list_elem_of_singleton]%elem_of_app.
    + destruct (Hts t' Ht') as (x & Hx & ?). exists x. rewrite elem_of_app. auto.
    + exists e. rewrite elem_of_app, list_elem_of_singleton. auto.
  - intros x [Hx| ->%list_elem_of_singleton]%elem_of_app.
    + destruct (Hk x Hx) as (j & ? & ?). exists j. split; [lia|done].
    + eauto.
  - rewrite fmap_app. apply NoDup_app. split; [done|]. split.
    + intros x Hx Hx'. apply list_elem_of_fmap in Hx as (y & -> & Hy). cbn in Hx'.
      apply list_elem_of_singleton in Hx'. by apply (Hfresh y Hy).
    + cbn. apply NoDup_singleton.
Qed.
End facts.

Lemma store_execution_keeps num e e' :
  store_execution num e = Some e' →
  exe_id e' = exe_id e ∧ exe_status e' = exe_status e ∧ exe_account e' = exe_account e ∧
  exe_signal e' = exe_signal e ∧ exe_client_order_id e' = exe_client_order_id e.
Proof.
  unfold store_execution. destruct (store_opt _ _); [|done]. cbn.
  destruct (num _ _ _); [|done]. cbn. by intros [= <-].
Qed.

(** ** Programs that keep the invariant *)

Section programs.
Context `{Database} `{!DatabaseLaws}.

Lemma log_inv_committed w : log_inv w → log_committed w.
Proof. by intros (_ & _ & ?). Qed.

Lemma log_inv_view w w' : same_view log_view w w' → log_inv w → log_inv w'.
Proof.
  unfold same_view, log_inv, log_open, log_committed, log_view.
  intros (Htx & Hnew & -> & -> & _). injection Htx as -> ->. injection Hnew as -> ->. done.
Qed.

Lemma keeps_log_frames {A} (m : M A) : frames log_view m → keeps_log m.
Proof. intros Hm. eapply keeps_frames; [exact Hm | apply log_inv_committed | apply log_inv_view]. Qed.

(** What never touches executions or transitions keeps their log. *)
Section other_table.
Context {R : Type} `{Table R} `{!Untouched R log_view}.

Lemma keeps_log_add (r : R) : keeps_log (db_add r).
Proof. apply keeps_log_frames, (frames_add log_view). Qed.
Lemma keeps_log_flush_table : keeps_log (flush_table (R:=R)).
Proof. apply keeps_log_frames, (frames_flush_table log_view). Qed.
Lemma keeps_log_update id (f : R → R) : keeps_log (db_update id f).
Proof. apply keeps_log_frames, (frames_update log_view). Qed.
Lemma keeps_log_update_all (f : R → R) : keeps_log (db_update_all f).
Proof. apply keeps_log_frames, (frames_update_all log_view). Qed.
Lemma keeps_log_delete id : keeps_log (db_delete (R:=R) id).
Proof. apply keeps_log_frames, (frames_delete log_view). Qed.
End other_table.

Lemma keeps_log_new_id : keeps_log new_id.
Proof.
  intros w (Ho & Hn & Hc). cbn. unfold log_inv, log_open, log_committed.
  split; [|split; [done|]]; (eapply log_db_next; [|eassumption]); cbn; lia.
Qed.

Lemma keeps_log_emit ev : keeps_log (emit ev).
Proof. by intros w Hw. Qed.

Lemma stored_transitions (ts ts' : list OrderExecutionTransition) :
  Forall2 stored ts ts' → ts' = ts.
Proof. induction 1 as [|? ? ? ? Hx ? IH]; [done|]. injection Hx as ->. by f_equal. Qed.

(** What a successful flush does to executions and transitions. *)
Lemma flush_Ok w w' :
  flush w = (Ok tt, w') →
  ∃ es, Forall2 stored (db_executions (w_new w)) es ∧
    log_view (w_tx w') = (db_executions (w_tx w) ++ es,
                          db_transitions (w_tx w) ++ db_transitions (w_new w)) ∧
    log_view (w_new w') = ([], []) ∧
    w_committed w' = w_committed w ∧ w_next w' = w_next w.
Proof.
  intros E. destruct (flush_flushed (R:=OrderExecution) _ _ E) as ((es & Hes & Het) & Hen & _).
  destruct (flush_flushed (R:=OrderExecutionTransition) _ _ E)
    as ((ts & ->%stored_transitions & Htt) & Htn & _).
  pose proof (flush_same_rest w) as (Hc & Hx & _). rewrite E in Hc, Hx. cbn in *.
  exists es. unfold log_view. by rewrite Het, Htt, Hen, Htn.
Qed.

(** A failed flush has not touched what is committed. *)
Lemma flush_Raise_rest w e w' :
  flush w = (Raise e, w') →
  db_failure e = true ∧ w_committed w' = w_committed w ∧ w_next w' = w_next w.
Proof.
  intros E. split; [by eapply flush_Raise|].
  pose proof (flush_same_rest w) as (Hc & Hx & _). by rewrite E in Hc, Hx.
Qed.

Lemma keeps_log_flush : keeps_log flush.
Proof.
  intros w (Ho & Hn & Hc). destruct (flush w) as [[[]|e] w'] eqn:E; cbn.
  - apply flush_Ok in E as (es & Hes & Htx & Hnew & Hcm & Hnx). unfold log_view in *.
    rewrite Hn in Hes. apply Forall2_nil_inv_l in Hes as ->. rewrite app_nil_r in Htx.
    unfold log_inv, log_open, log_committed in *. rewrite Hcm, Hnx.
    injection Htx as -> ->. injection Hnew as -> ->. by rewrite app_nil_r.
  - apply flush_Raise_rest in E as (-> & Hcm & Hnx). unfold log_committed. by rewrite Hcm, Hnx.
Qed.

Lemma keeps_log_commit : keeps_log commit.
Proof.
  intros w Hw. unfold commit. rewrite run_bind. pose proof (keeps_log_flush w Hw) as Hf.
  destruct (flush w) as [[[]|e] w'] eqn:E; [|done]. cbn in *.
  destruct Hf as (Ho & Hn & _). apply flush_Ok in E as (_ & _ & _ & [= _ E] & _).
  split; [exact Ho|]. split; [done|]. unfold log_committed, log_open in *. cbn.
  by rewrite E, app_nil_r in Ho.
Qed.

Lemma keeps_log_add_commit {R} `{Table R} `{!Untouched R log_view} (r : R) :
  keeps_log (add_commit r).
Proof. apply keeps_bind; [apply keeps_log_add | intros _; apply keeps_log_commit]. Qed.

Lemma keeps_log_add_flush {R} `{Table R} `{!Untouched R log_view} (r : R) :
  keeps_log (add_flush r).
Proof. apply keeps_bind; [apply keeps_log_add | intros _; apply keeps_log_flush]. Qed.

Lemma keeps_log_load id : keeps_log (load_execution id).
Proof. unfold load_execution, keeps_log. keeps_tac. Qed.

(** Writes to an execution that leave its id and status alone. *)
Lemma keeps_log_update_execution id (f : OrderExecution → OrderExecution) :
  (∀ e, exe_id (f e) = exe_id e ∧ exe_status (f e) = exe_status e) →
  keeps_log (db_update id f).
Proof.
  intros Hf w Hw. unfold db_update. destruct (find_first _ _) as [e|] eqn:Efind; [|done].
  destruct (row_store _ (f e)) as [r|] eqn:Est; [|by apply log_inv_committed].
  apply find_first_Some in Efind as [He Hid%String.eqb_eq]. cbn in He, Hid.
  assert (exe_id r = exe_id e ∧ exe_status r = exe_status e) as [Hrid Hrst].
  { destruct (Hf e) as [<- <-]. apply store_execution_keeps in Est. tauto. }
  destruct Hw as (Ho & Hn & Hc). split; [|done]. unfold log_open in *. cbn in *.
  pose proof Ho as (Hp & Hts & Hk & Hd). repeat split.
  - intros x (y & Hy & ->)%elem_of_update_where. case_goal; [|auto].
    rewrite Hrid, Hrst. auto.
  - intros t Ht. destruct (Hts t Ht) as (y & Hy & Hyt).
    eexists. split; [apply elem_of_update_where; eauto|].
    destruct (String.eqb_spec (exe_id y) id); congruence.
  - intros x (y & Hy & ->)%elem_of_update_where. case_goal; [rewrite Hrid|]; auto.
  - refine (eq_ind_r NoDup Hd _). apply map_update_where. intros x Hx%String.eqb_eq. congruence.
Qed.

Lemma load_Ok id w e w' :
  load_execution id w = (Ok e, w') →
  w' = w ∧ find_first (λ r, String.eqb (exe_id r) id) (db_executions (w_tx w)) = Some e.
Proof.
  unfold load_execution. rewrite run_bind. cbn. destruct (find_first _ _); [|done].
  by intros [= -> ->].
Qed.

Lemma load_run id w e :
  find_first (λ r, String.eqb (exe_id r) id) (db_executions (w_tx w)) = Some e →
  load_execution id w = (Ok e, w).
Proof. intros E. unfold load_execution. rewrite run_bind. cbn. by rewrite E. Qed.

(** What [_add_transition] adds. *)
Lemma add_transition_run id from to reason details w e :
  find_first (λ r, String.eqb (exe_id r) id) (db_executions (w_tx w)) = Some e →
  exe_id e ≠ "" →
  ∃ t, _add_transition id from to reason details w =
    (Ok t, set_new (set_transitions (db_transitions (w_new w) ++ [t]) (w_new w))
             (set_next (S (w_next w)) w)) ∧
    tr_order t = exe_id e ∧ tr_from t = status_value <$> from ∧ tr_to t = status_value to ∧
    tr_reason t = reason ∧
    tr_sequence t = (max_sequence (log_of (exe_id e)
                       (db_transitions (w_tx w) ++ db_transitions (w_new w))) + 1)%Z.
Proof.
  intros Hf Hne. unfold _add_transition. rewrite (run_bind_Ok _ _ _ _ _ (load_run _ _ _ Hf)).
  rewrite (proj2 (String.eqb_neq _ _) Hne). eexists. split; [reflexivity|]. cbn.
  by rewrite log_of_app, max_sequence_app.
Qed.

Lemma keeps_log_transition id s reason details :
  keeps_log (transition_order_execution id s reason details).
Proof.
  intros w Hw. unfold transition_order_execution. rewrite run_bind.
  destruct (load_execution id w) as [[e|exn] w0] eqn:El.
  2:{ pose proof (keeps_log_load id w Hw) as Hl. by rewrite El in Hl. }
  apply load_Ok in El as [-> Hfind].
  destruct (transition_allowed (exe_status e) s) eqn:Hal; [|done]. cbn [negb].
  rewrite run_bind. unfold db_update. cbn [row_id OrderExecution_table tbl].
  rewrite Hfind. destruct (row_store _ _) as [r|] eqn:Est; [|by apply (log_inv_committed w)].
  apply store_execution_keeps in Est as (Hrid & Hrst & _). cbn in Hrid, Hrst.
  pose proof Hfind as [He Hid%String.eqb_eq]%find_first_Some.
  pose proof Hw as (Ho & Hn & Hc). pose proof Ho as (Hp & _ & Hk & _).
  destruct (Hk e He) as (k & Hlt & Hek).
  match goal with |- outcome_ok _ _ (_ ?w1).1 _ => set (w1' := w1) end.
  destruct (add_transition_run id (Some (exe_status e)) s reason details w1' r)
    as (t & -> & Hto & Hfrom & Htt & _ & Hseq).
  { subst w1'. cbn. rewrite find_first_update_found, Hfind; [done|].
    by rewrite Hrid, Hid, String.eqb_refl. }
  { rewrite Hrid, Hek. apply new_uuid_nonempty. }
  cbn [fmap option_fmap option_map] in Hfrom. split; [|split; [exact Hn|]].
  - unfold log_open. cbn. rewrite app_assoc. apply (log_db_next _ _ (w_next w)); [subst w1'; cbn; lia|].
    rewrite <- Hid. eapply log_db_step; rewrite ?Hrst; eauto; [congruence|].
    rewrite Hseq, Hrid. change (w_new w1') with (w_new w).
    change (db_transitions (w_tx w1')) with (db_transitions (w_tx w)).
    rewrite (log_path_sequence _ _ (Hp e He)). lia.
  - unfold log_committed in *. cbn. by apply (log_db_next _ _ (w_next w)); [subst w1'; cbn; lia|].
Qed.

(** The creation of an execution: the row is added and flushed, then the first
    entry of its log is added. *)
Lemma keeps_log_create {A} (row : string → OrderExecution) (reason : string)
    (k : string → M A) :
  (∀ id, exe_id (row id) = id ∧ exe_status (row id) = CREATED) →
  (∀ id, keeps_log (k id)) →
  keeps_log (id ← new_id; add_flush (row id) ;; record_initial_order_state id reason ;; k id).
Proof.
  intros Hrow Hk w Hw. pose proof Hw as (Ho & Hn & Hc).
  set (id := new_uuid (w_next w)). set (w1 := set_next (S (w_next w)) w).
  rewrite (run_bind_Ok new_id _ w id w1) by done.
  unfold add_flush. rewrite run_bind, run_bind. cbn [db_add modify].
  match goal with |- context [flush ?x] => set (w2 := x) end.
  destruct (flush w2) as [[[]|e] w3] eqn:E.
  2:{ apply flush_Raise_rest in E as (He & Hcm & Hnx). cbn. rewrite He. unfold log_committed.
      rewrite Hcm, Hnx. apply (log_db_next _ _ (w_next w)); [cbn; lia | exact Hc]. }
  apply flush_Ok in E as (es & Hes & Htx & Hnew & Hcm & Hnx).
  destruct (Hrow id) as [Hrid Hrst].
  cbn in Hes. rewrite Hn in Hes. apply Forall2_cons_inv_l in Hes as (r & es' & Hr & Hes & ->).
  apply Forall2_nil_inv_l in Hes as ->.
  apply store_execution_keeps in Hr as (Hid & Hst & _). rewrite Hrid in Hid. rewrite Hrst in Hst.
  unfold log_view in Htx, Hnew. injection Htx as Htxe Htxt. injection Hnew as Hnewe Hnewt.
  assert (find_first (λ r, String.eqb (exe_id r) id) (db_executions (w_tx w3)) = Some r) as Hfind.
  { rewrite Htxe, find_first_app. cbn.
    rewrite (proj2 (find_first_None _ _)).
    { unfold find_first. by rewrite Hid, String.eqb_refl. }
    intros x Hx. apply String.eqb_neq. destruct Ho as (_ & _ & Hks & _).
    destruct (Hks x Hx) as (j & Hj & ->). intros Heq%new_uuid_inj. lia. }
  rewrite run_bind. unfold record_initial_order_state. rewrite run_bind.
  rewrite (load_run _ _ _ Hfind), Hst. cbn [negb].
  rewrite bool_decide_eq_true_2 by done. cbn [negb].
  destruct (add_transition_run id None CREATED reason None w3 r Hfind)
    as (t & -> & Hto & Hfrom & Htt & _ & Hseq).
  { rewrite Hid. apply new_uuid_nonempty. }
  apply Hk. split; [|split; [exact Hnewe|]].
  - unfold log_open. cbn. rewrite Htxe, Htxt, Hnewt. cbn [app].
    eapply (log_db_create _ _ (w_next w)); eauto.
    + intros. by apply new_uuid_inj.
    + rewrite Hnx. cbn. lia.
    + rewrite Hseq, Htxt, Hnewt. cbn. rewrite app_nil_r, Hid.
      destruct Ho as (_ & Hts & Hks & _). rewrite (log_of_fresh _ _ id Hts); [done|].
      intros x Hx Heq. destruct (Hks x Hx) as (j & Hj & Hxj). rewrite Hxj in Heq.
      apply new_uuid_inj in Heq. lia.
  - unfold log_committed. cbn. rewrite Hcm, Hnx.
    apply (log_db_next _ _ (w_next w)); [cbn; lia | exact Hc].
Qed.
End programs.

(** At the end of a request only what was committed is left. *)
Lemma log_inv_close `{Database} w : log_committed w → log_inv (close w).
Proof. intros Hc. split; [|split; [done|exact Hc]]. unfold log_open. cbn. by rewrite app_nil_r. Qed.

(** A request run on a clean session leaves a clean session with a valid log,
    whatever its outcome. *)
Lemma keeps_log_request `{Database} {A} (m : M A) w :
  keeps_log m → log_inv w → log_inv (run_request m w).2.
Proof.
  intros Hm Hw. unfold run_request. specialize (Hm w Hw). destruct (m w) as [o w'].
  apply log_inv_close. destruct o as [a|e]; cbn in Hm; [by apply log_inv_committed|].
  destruct (db_failure e); [done | by apply log_inv_committed].
Qed.

(** A session at the start of a request. *)
Definition ready `{Database} (w : World) : Prop :=
  w_new w = empty_db ∧ w_tx w = w_committed w ∧ log_inv w.

Lemma ready_close `{Database} w : log_committed w → ready (close w).
Proof. intros Hc. split; [done|]. split; [done|]. by apply log_inv_close. Qed.

Lemma log_inv_unique `{Database} w : log_inv w → unique_ids OrderExecution (w_tx w).
Proof. by intros ((_ & _ & _ & Hd) & _). Qed.

Create HintDb keeps_log.
#[export] Hint Resolve keeps_log_new_id keeps_log_emit keeps_log_flush keeps_log_commit
  keeps_log_load keeps_log_transition : keeps_log.

(** One call of a program: a rule of the session, or a lemma of the database. *)
Ltac keeps_log_call :=
  match goal with
  | |- keeps log_inv log_committed ?m =>
      change (keeps_log m);
      lazymatch m with
      | add_commit _ => apply keeps_log_add_commit
      | add_flush _ => apply keeps_log_add_flush
      | db_add _ => apply keeps_log_add
      | db_update (R:=OrderExecution) _ _ => apply keeps_log_update_execution; intros []; done
      | db_update _ _ => apply keeps_log_update
      | db_update_all _ => apply keeps_log_update_all
      | db_delete _ => apply keeps_log_delete
      | _ => solve [eauto 3 with keeps_log]
      end
  end.

(** Walk through a program; what is left are the calls without a lemma. *)
Ltac keeps_log_tac := unfold keeps_log; repeat first [keeps_step | keeps_log_call].

(** A database without executions has a valid log. *)
Lemma ready_no_executions `{Database} d next now tr :
  db_executions d = [] → db_transitions d = [] → ready (mkWorld d d empty_db next now tr).
Proof.
  intros He Ht. split; [done|]. split; [done|]. unfold log_inv, log_open, log_committed, log_db. cbn.
  rewrite He, Ht. cbn. repeat split; try constructor; intros ? ?%elem_of_nil; done.
Qed.
