(* ===== verification/ExecutionRow.v ===== *)
(** Following one order execution through a session: [working] describes the world
    while a service handles the last row of the execution table, with only log
    entries pending. *)
From S2P Require Import Prelude PyStr PyDecimal PyValue Models Session Tables Logic OrderStateMachine ExecutionLog.

(** ** Attribute writes *)

Definition exe_with_risk_result (d : dict) (e : OrderExecution) : OrderExecution :=
  Build_OrderExecution (exe_id e) (exe_user e) (exe_signal e) (exe_execution_id e) (exe_account e)
    (exe_exchange_name e) (exe_client_order_id e) (exe_exchange_order_id e) (exe_symbol e)
    (exe_side e) (exe_order_type e) (exe_price e) (exe_quantity e) (exe_status e) (Some d)
    (exe_exchange_response e) (exe_error_message e).

Definition exe_with_error (m : string) (e : OrderExecution) : OrderExecution :=
  Build_OrderExecution (exe_id e) (exe_user e) (exe_signal e) (exe_execution_id e) (exe_account e)
    (exe_exchange_name e) (exe_client_order_id e) (exe_exchange_order_id e) (exe_symbol e)
    (exe_side e) (exe_order_type e) (exe_price e) (exe_quantity e) (exe_status e) (exe_risk_result e)
    (exe_exchange_response e) (Some m).

Definition exe_with_response (id : option string) (r : pyval) (e : OrderExecution) : OrderExecution :=
  Build_OrderExecution (exe_id e) (exe_user e) (exe_signal e) (exe_execution_id e) (exe_account e)
    (exe_exchange_name e) (exe_client_order_id e) id (exe_symbol e)
    (exe_side e) (exe_order_type e) (exe_price e) (exe_quantity e) (exe_status e) (exe_risk_result e)
    (Some r) (exe_error_message e).

(** ** The execution a call works on *)

(** [e] is the last execution row, [es] are the others; only log entries may be
    pending; [ps] is the position table and [tr] the trace. *)
Record working {V} (view : Db → V) (v : V)
   (es : list OrderExecution) (e : OrderExecution) (ps : list Position)
    (ts : list OrderExecutionTransition) (tr : list Event) (w : World) : Prop := {
  wk_new : w_new w = set_transitions ts empty_db;
  wk_rows : db_executions (w_tx w) = es ++ [e];
  wk_fresh : ∀ x, x ∈ es → exe_id x ≠ exe_id e;
  wk_positions : db_positions (w_tx w) = ps;
  wk_view : view (w_tx w) = v;
  wk_trace : w_trace w = tr }.

Lemma store_execution_fields num e r :
  store_execution num e = Some r →
  ∃ p q, num 28%Z 10%Z (exe_quantity e) = Some q ∧
    r = Build_OrderExecution (exe_id e) (exe_user e) (exe_signal e) (exe_execution_id e) (exe_account e)
      (exe_exchange_name e) (exe_client_order_id e) (exe_exchange_order_id e) (exe_symbol e)
      (exe_side e) (exe_order_type e) p q (exe_status e) (exe_risk_result e)
      (exe_exchange_response e) (exe_error_message e).
Proof.
  unfold store_execution. destruct (store_opt _ _) as [p|]; [|done]. cbn.
  destruct (num _ _ _) as [q|] eqn:Eq; [|done]. cbn. intros [= <-]. eauto.
Qed.

Section working.
Context `{Database} {V : Type} {view : Db → V}.
Context `{!Untouched OrderExecution view} `{!Untouched OrderExecutionTransition view}.

Lemma view_executions l d : view (set_executions l d) = view d.
Proof. exact (untouched (R:=OrderExecution) l d). Qed.
Lemma view_transitions l d : view (set_transitions l d) = view d.
Proof. exact (untouched (R:=OrderExecutionTransition) l d). Qed.

Lemma update_last (es : list OrderExecution) e r :
  (∀ x, x ∈ es → exe_id x ≠ exe_id e) →
  update_where (λ x, String.eqb (exe_id x) (exe_id e)) (λ _, r) (es ++ [e]) = es ++ [r].
Proof.
  intros Hf. unfold update_where. rewrite List.map_app. cbn. rewrite String.eqb_refl. f_equal.
  apply (update_where_none (λ x, String.eqb (exe_id x) (exe_id e))).
  intros x Hx. by apply String.eqb_neq, Hf.
Qed.

Lemma find_last (es : list OrderExecution) e :
  (∀ x, x ∈ es → exe_id x ≠ exe_id e) →
  find_first (λ x, String.eqb (exe_id x) (exe_id e)) (es ++ [e]) = Some e.
Proof.
  intros Hf. rewrite find_first_app. rewrite (proj2 (find_first_None _ _)).
  - unfold find_first. by rewrite String.eqb_refl.
  - intros x Hx. by apply String.eqb_neq, Hf.
Qed.

Lemma working_load {v es e ps ts tr w} : working view v es e ps ts tr w → load_execution (exe_id e) w = (Ok e, w).
Proof. intros []. apply load_run. rewrite wk_rows0. by apply find_last. Qed.

Lemma working_update {v es e ps ts tr w w'} f :
  (∀ x, exe_id (f x) = exe_id x) →
  working view v es e ps ts tr w → db_update (exe_id e) f w = (Ok tt, w') →
  ∃ r, stored (f e) r ∧ working view v es r ps ts tr w'.
Proof.
  intros Hf [] E. apply db_update_Ok in E as (e0 & r & He0 & Hr & ->). cbn in He0.
  rewrite wk_rows0, (find_last _ _ wk_fresh0) in He0. injection He0 as <-.
  exists r. split; [done|].
  assert (exe_id r = exe_id e) as Hid
    by (apply store_execution_keeps in Hr as (-> & _); apply Hf).
  split; cbn; try done.
  - rewrite wk_rows0. by apply update_last.
  - by rewrite Hid.
  - by rewrite view_executions.
Qed.

(** A log entry goes to the list of pending rows. *)
Lemma working_add_transition {v es e ps ts tr w w'} from to reason details t :
  working view v es e ps ts tr w →
  _add_transition (exe_id e) from to reason details w = (Ok t, w') →
  working view v es e ps (ts ++ [t]) tr w'.
Proof.
  intros Hw E. unfold _add_transition in E.
  rewrite (run_bind_Ok _ _ _ _ _ (working_load Hw)) in E. case_match; [done|].
  destruct Hw as [Hn1 Hr1 Hf1 Hp1 Hv1 Ht1].
  apply bind_Ok_inv in E as (tid & w2 & [= <- <-] & E).
  apply bind_Ok_inv in E as (n & w3 & Esn & E). injection Esn as <- <-.
  apply bind_Ok_inv in E as ([] & w4 & Ea & E). injection Ea as <-. injection E as <- <-.
  split; cbn; try done. by rewrite Hn1.
Qed.

Lemma working_transition {v es e ps ts tr w w'} s reason details t :
  working view v es e ps ts tr w →
  transition_order_execution (exe_id e) s reason details w = (Ok t, w') →
  ∃ r, stored (exe_with_status s e) r ∧ transition_allowed (exe_status e) s = true ∧
    working view v es r ps (ts ++ [t]) tr w'.
Proof.
  intros Hw E. unfold transition_order_execution in E.
  rewrite (run_bind_Ok _ _ _ _ _ (working_load Hw)) in E.
  destruct (transition_allowed (exe_status e) s) eqn:Hal; [|done]. cbn [negb] in E.
  apply bind_Ok_inv in E as ([] & w1 & Eu & E).
  destruct (working_update (exe_with_status s) (λ _, eq_refl) Hw Eu) as (r & Hr & Hw1).
  assert (exe_id r = exe_id e) as Hid by (apply store_execution_keeps in Hr as (-> & _); done).
  exists r. split; [done|]. split; [done|].
  rewrite <- Hid in E. exact (working_add_transition _ _ _ _ _ Hw1 E).
Qed.

Lemma working_commit {v es e ps ts tr w w'} :
  working view v es e ps ts tr w → commit w = (Ok tt, w') →
  working view v es e ps [] tr w' ∧ w_committed w' = w_tx w'.
Proof.
  intros [] E. pose proof (commit_only_Ok (R:=OrderExecutionTransition) ts w w') as Hc.
  destruct (Hc wk_new0 eq_refl E) as (rs' & _ & _ & ->).
  split; [|done]. split; cbn; try done. by rewrite view_transitions.
Qed.

(** None of these steps can fail but for a store the database refuses. *)
Lemma working_update_Raise {v es e ps ts tr w x w'} (f : OrderExecution → OrderExecution) :
  working view v es e ps ts tr w → db_update (exe_id e) f w = (Raise x, w') → db_failure x = true ∧ w' = w.
Proof.
  intros [] E. pose proof (find_last es e wk_fresh0) as Hf. rewrite <- wk_rows0 in Hf.
  unfold db_update in E. cbn in E, Hf. rewrite Hf in E.
  destruct (store_execution _ _); [done|]. by injection E as <- <-.
Qed.

Lemma working_transition_Raise {v es e ps ts tr w x w'} s reason details :
  working view v es e ps ts tr w → exe_id e ≠ "" → transition_allowed (exe_status e) s = true →
  transition_order_execution (exe_id e) s reason details w = (Raise x, w') → db_failure x = true ∧ w' = w.
Proof.
  intros Hw Hne Hal E. unfold transition_order_execution in E.
  rewrite (run_bind_Ok _ _ _ _ _ (working_load Hw)), Hal in E. cbn [negb] in E. rewrite run_bind in E.
  destruct (db_update _ _ w) as [[[]|x0] w1] eqn:Eu.
  - destruct (working_update (exe_with_status s) (λ _, eq_refl) Hw Eu) as (r & Hr & Hw1).
    assert (exe_id r = exe_id e) as Hid by (apply store_execution_keeps in Hr as (-> & _); done).
    unfold _add_transition in E. rewrite <- Hid in E, Hne.
    rewrite (run_bind_Ok _ _ _ _ _ (working_load Hw1)) in E.
    by rewrite (proj2 (String.eqb_neq _ _) Hne) in E.
  - injection E as <- <-. by eapply working_update_Raise.
Qed.

Lemma fresh_of_unique (es : list OrderExecution) e :
  NoDup (exe_id <$> es ++ [e]) → ∀ x, x ∈ es → exe_id x ≠ exe_id e.
Proof.
  rewrite fmap_app, NoDup_app. intros (_ & Hd & _) x Hx Heq.
  apply (Hd (exe_id x)); [apply list_elem_of_fmap; eauto|]. rewrite Heq. cbn. by left.
Qed.


(** A new row and the first entry of its log. *)
Lemma working_create {v es ps ts tr w w'} e reason t :
  w_new w = empty_db → unique_ids OrderExecution (w_tx w) →
  v = view (w_tx w) → es = db_executions (w_tx w) → ps = db_positions (w_tx w) →
  tr = w_trace w → ts = [t] → exe_status e = CREATED →
  (add_flush e ;; record_initial_order_state (exe_id e) reason) w = (Ok t, w') →
  ∃ r, stored e r ∧ exe_id r = exe_id e ∧ working view v es r ps ts tr w' ∧ w_committed w' = w_committed w.
Proof.
  intros Hnew Hu -> -> -> -> -> Hst E.
  apply bind_Ok_inv in E as ([] & w3 & Ef & E). unfold add_flush in Ef.
  apply bind_Ok_inv in Ef as ([] & w4 & Ea & Ef). injection Ea as <-.
  pose proof (flush_only (R:=OrderExecution)) as Ho.
  rewrite Hnew in Ef. erewrite Ho in Ef by reflexivity. clear Ho.
  apply flush_table_Ok in Ef as (rs & Hrs & Hd & ->). cbn in Hrs, Hd.
  apply Forall2_cons_inv_l in Hrs as (r & rs' & Hr & Hrs & ->).
  apply Forall2_nil_inv_l in Hrs as ->. specialize (Hd Hu). pose proof (fresh_of_unique _ _ Hd) as Hfr.
  pose proof Hr as (Hid & Hst' & _)%store_execution_keeps. rewrite Hst in Hst'.
  match type of E with _ ?w0 = _ => set (w5 := w0) in E end.
  assert (working view (view (w_tx w)) (db_executions (w_tx w)) r (db_positions (w_tx w)) []
            (w_trace w) w5) as Hw by (split; try done; cbn; by rewrite view_executions).
  assert (w_committed w5 = w_committed w) as Hcm by done. clearbody w5.
  unfold record_initial_order_state in E. rewrite <- Hid in E.
  rewrite (run_bind_Ok _ _ _ _ _ (working_load Hw)) in E. rewrite Hst' in E. cbn [negb] in E.
  rewrite bool_decide_eq_true_2 in E by done. cbn [negb] in E.
  exists r. split; [done|]. split; [done|]. split; [exact (working_add_transition _ _ _ _ _ Hw E)|].
  rewrite <- Hcm. unfold _add_transition in E. rewrite (run_bind_Ok _ _ _ _ _ (working_load Hw)) in E.
  case_match; [done|].
  apply bind_Ok_inv in E as (tid & w6 & [= <- <-] & E).
  apply bind_Ok_inv in E as (n & w7 & Esn & E). injection Esn as <- <-.
  apply bind_Ok_inv in E as ([] & w8 & Ea & E). injection Ea as <-. by injection E as _ <-.
Qed.
End working.

(** ** Programs that create no execution

    [rows_open] says which executions the open transaction and the committed database
    hold and what happened so far; [rows_committed] says it of the committed database
    only. *)

Definition rows_open (es : list OrderExecution) (tr : list Event) (w : World) : Prop :=
  db_executions (w_tx w) = es ∧ db_executions (w_new w) = [] ∧
  db_executions (w_committed w) = es ∧ w_trace w = tr.

Definition rows_committed (es : list OrderExecution) (tr : list Event) (w : World) : Prop :=
  db_executions (w_committed w) = es ∧ w_trace w = tr.

Section rows.
Context `{Database}.

Definition keeps_rows {A} (m : M A) : Prop :=
  ∀ es tr, keeps (rows_open es tr) (rows_committed es tr) m.

(** Programs that commit nothing. *)
Definition keeps_committed {A} (m : M A) : Prop :=
  ∀ es tr, keeps (rows_committed es tr) (rows_committed es tr) m.

Lemma rows_open_committed es tr w : rows_open es tr w → rows_committed es tr w.
Proof. intros (_ & _ & ? & ?). done. Qed.

Lemma keeps_rows_frames {A} (m : M A) : frames db_executions m → keeps_rows m.
Proof.
  intros Hm es tr. eapply keeps_frames; [exact Hm | apply rows_open_committed|].
  unfold same_view, rows_open. intros w w' (-> & -> & -> & _ & _ & ->). done.
Qed.

Section other_table.
Context {R : Type} `{Table R} `{!Untouched R db_executions}.

Lemma keeps_rows_add (r : R) : keeps_rows (db_add r).
Proof. apply keeps_rows_frames, (frames_add db_executions). Qed.
Lemma keeps_rows_update id (f : R → R) : keeps_rows (db_update id f).
Proof. apply keeps_rows_frames, (frames_update db_executions). Qed.
Lemma keeps_rows_update_all (f : R → R) : keeps_rows (db_update_all f).
Proof. apply keeps_rows_frames, (frames_update_all db_executions). Qed.
Lemma keeps_rows_delete id : keeps_rows (db_delete (R:=R) id).
Proof. apply keeps_rows_frames, (frames_delete db_executions). Qed.
End other_table.

Lemma keeps_rows_new_id : keeps_rows new_id.
Proof. by intros es tr w Hw. Qed.

Lemma keeps_committed_flush : keeps_committed flush.
Proof.
  intros es tr w (Hc & Ht). pose proof (flush_same_rest w) as (Hc' & _ & _ & Ht').
  destruct (flush w) as [[[]|e] w']; cbn in *; [|destruct (db_failure e)]; split; congruence.
Qed.

Lemma keeps_rows_flush : keeps_rows flush.
Proof.
  intros es tr w Hw. pose proof Hw as (Htx & Hn & Hc & Ht).
  pose proof (keeps_committed_flush es tr w (rows_open_committed _ _ _ Hw)) as Hk.
  destruct (flush w) as [[[]|e] w'] eqn:E; cbn in *.
  - destruct (flush_flushed (R:=OrderExecution) _ _ E) as ((rs & Hrs & Htx') & Hn' & _).
    cbn in *. rewrite Hn in Hrs. apply Forall2_nil_inv_l in Hrs as ->. rewrite app_nil_r in Htx'.
    destruct Hk. split; [congruence|]. done.
  - by rewrite (flush_Raise _ _ _ E) in *.
Qed.

Lemma keeps_rows_commit : keeps_rows commit.
Proof.
  intros es tr w Hw. unfold commit. rewrite run_bind. pose proof (keeps_rows_flush es tr w Hw) as Hf.
  destruct (flush w) as [[[]|e] w'] eqn:E; [|done]. cbn in *. destruct Hf as (Htx & Hn & _ & Ht). done.
Qed.

Lemma keeps_rows_add_commit {R} `{Table R} `{!Untouched R db_executions} (r : R) :
  keeps_rows (add_commit r).
Proof. intros es tr. apply keeps_bind; [apply keeps_rows_add | intros _; apply keeps_rows_commit]. Qed.

Lemma keeps_rows_add_flush {R} `{Table R} `{!Untouched R db_executions} (r : R) :
  keeps_rows (add_flush r).
Proof. intros es tr. apply keeps_bind; [apply keeps_rows_add | intros _; apply keeps_rows_flush]. Qed.

(** Whatever is done to the open transaction alone. *)
Lemma keeps_committed_add {R} `{Table R} (r : R) : keeps_committed (db_add r).
Proof. by intros es tr w Hw. Qed.

Lemma keeps_committed_new_id : keeps_committed new_id.
Proof. by intros es tr w Hw. Qed.

Lemma keeps_committed_update {R} `{Table R} id (f : R → R) : keeps_committed (db_update id f).
Proof.
  intros es tr w Hw. unfold db_update. destruct (find_first _ _); [|done].
  by destruct (row_store _ _).
Qed.

Lemma keeps_committed_add_flush {R} `{Table R} (r : R) : keeps_committed (add_flush r).
Proof. intros es tr. apply keeps_bind; [apply keeps_committed_add | intros _; apply keeps_committed_flush]. Qed.
End rows.

Lemma committed_after `{Database} {A} (m : M A) es tr w o w1 :
  keeps_committed m → rows_committed es tr w → m w = (o, w1) → rows_committed es tr w1.
Proof.
  intros Hm Hw E. specialize (Hm es tr w Hw). rewrite E in Hm.
  destruct o as [a|e]; cbn in Hm; [done|]. by destruct (db_failure e).
Qed.

Create HintDb keeps_rows.
#[export] Hint Resolve keeps_rows_new_id keeps_rows_flush keeps_rows_commit : keeps_rows.

Ltac keeps_rows_call :=
  match goal with
  | |- keeps (rows_open _ _) _ ?m =>
      lazymatch m with
      | add_commit _ => apply keeps_rows_add_commit
      | add_flush _ => apply keeps_rows_add_flush
      | db_add _ => apply keeps_rows_add
      | db_update _ _ => apply keeps_rows_update
      | db_update_all _ => apply keeps_rows_update_all
      | db_delete _ => apply keeps_rows_delete
      | _ => solve [match goal with |- keeps (rows_open ?es ?tr) _ ?m =>
               let H := fresh in assert (keeps_rows m) as H by eauto 3 with keeps_rows; apply H end]
      end
  | |- keeps (rows_committed _ _) _ ?m =>
      lazymatch m with
      | add_flush _ => apply keeps_committed_add_flush
      | db_add _ => apply keeps_committed_add
      | db_update _ _ => apply keeps_committed_update
      | new_id => apply keeps_committed_new_id
      | flush => apply keeps_committed_flush
      | _ => solve [match goal with |- keeps (rows_committed ?es ?tr) _ ?m =>
               let H := fresh in assert (keeps_committed m) as H by eauto 3 with keeps_rows; apply H end]
      end
  end.

Ltac keeps_rows_tac :=
  unfold keeps_rows, keeps_committed; try intros ? ?; repeat first [keeps_step | keeps_rows_call].

Section transitions.
Context `{Database}.

Lemma keeps_committed_add_transition id from to reason details :
  keeps_committed (_add_transition id from to reason details).
Proof. unfold _add_transition, load_execution, _next_sequence_number. keeps_rows_tac. Qed.

Lemma keeps_committed_transition id s reason details :
  keeps_committed (transition_order_execution id s reason details).
Proof.
  unfold transition_order_execution, _add_transition, load_execution, _next_sequence_number.
  keeps_rows_tac.
Qed.

Lemma keeps_committed_initial id reason : keeps_committed (record_initial_order_state id reason).
Proof.
  unfold record_initial_order_state, _add_transition, load_execution, _next_sequence_number.
  keeps_rows_tac.
Qed.
End transitions.
#[export] Hint Resolve keeps_committed_transition keeps_committed_initial : keeps_rows.
