(* ===== verification/Alerts.v ===== *)
(** Operational alerts: [services/operational_alerts.py] (what an alert says and
    when it is throttled), [services/external_alerts.py] (the channels and their
    redacted configuration) and [services/operational_alert_runtime.py], the
    object the engines notify.  The HTTP and SMTP transports are a parameter. *)
From S2P Require Import Prelude PyStr PyDecimal PyValue Models Session Tables Logic.
From Stdlib Require Import Ascii.

(** ** Events and allow lists *)

Record ExternalAlertEvent := {
  ev_severity : string; ev_title : string; ev_message : string;
  ev_metadata : list (string * string) }.

Definition SAFE_DEPENDENCY_NAMES : list string := ["database"; "redis"; "backend"; "frontend"; "caddy"].
Definition SAFE_DEPENDENCY_STATES : list string := ["ok"; "degraded"; "unavailable"; "unknown"].
Definition SAFE_EMERGENCY_STOP_SCOPES : list string := ["account"; "global"].
Definition SAFE_EXCHANGE_NAMES : list string := ["binance"; "bybit"; "mock"; "okx"].
Definition SAFE_ORDER_FAILURE_STATUSES : list string := ["FAILED"; "REJECTED"; "TIMEOUT"].
Definition SAFE_ORDER_FAILURE_TYPES : list string :=
  ["exchange_failed"; "exchange_rejected"; "rate_limited"; "risk_rejected"; "timeout"; "unknown"].
Definition SAFE_RATE_LIMIT_SCOPES : list string := ["account"; "global"; "ip"].
Definition SAFE_RATE_LIMIT_REQUEST_CATEGORIES : list string :=
  ["market_data"; "order"; "private"; "unknown"].
Definition SAFE_RECONCILIATION_SEVERITIES : list string := ["WARNING"; "CRITICAL"].
Definition SAFE_RECONCILIATION_STATUSES : list string := ["DRIFT_DETECTED"].

Definition str_mem (s : string) (l : list string) : bool := bool_decide (s ∈ l).

Definition safe_of (norm : string → string) (allowed : list string) (other : string)
    (value : string) : string :=
  let normalized := norm (str_strip value) in
  if str_mem normalized allowed then normalized else other.

Definition safe_opt (norm : string → string) (allowed : list string) (value : string) : option string :=
  let normalized := norm (str_strip value) in
  if str_mem normalized allowed then Some normalized else None.

Definition _safe_state := safe_of str_lower SAFE_DEPENDENCY_STATES "unknown".
Definition _safe_emergency_stop_scope := safe_of str_lower SAFE_EMERGENCY_STOP_SCOPES "unknown".
Definition _safe_exchange_name := safe_of str_lower SAFE_EXCHANGE_NAMES "unknown".
Definition _safe_order_failure_status := safe_opt str_upper SAFE_ORDER_FAILURE_STATUSES.
Definition _safe_order_failure_type := safe_of str_lower SAFE_ORDER_FAILURE_TYPES "unknown".
Definition _safe_rate_limit_scope := safe_of str_lower SAFE_RATE_LIMIT_SCOPES "unknown".
Definition _safe_rate_limit_request_category :=
  safe_of str_lower SAFE_RATE_LIMIT_REQUEST_CATEGORIES "unknown".
Definition _safe_reconciliation_status := safe_opt str_upper SAFE_RECONCILIATION_STATUSES.
Definition _safe_reconciliation_severity := safe_of str_upper SAFE_RECONCILIATION_SEVERITIES "WARNING".

(** ** Building the events *)

Definition build_dependency_health_alert (checks : list (string * string)) : option ExternalAlertEvent :=
  let status := _safe_state (default "unknown" (dict_lookup "status" checks)) in
  if String.eqb status "ok" then None
  else
    let affected :=
      map fst (List.filter (λ c, str_mem c.1 SAFE_DEPENDENCY_NAMES && negb (String.eqb (_safe_state c.2) "ok"))
                 (sort_by (λ a b, String.leb a.1 b.1) checks)) in
    let affected_value := match affected with [] => "unknown" | _ => str_join "," affected end in
    Some {| ev_severity := if String.eqb status "degraded" then "warning" else "critical";
            ev_title := "Service dependency health degraded";
            ev_message := "One or more platform dependencies are not healthy.";
            ev_metadata := [("component", "health_check"); ("status", status);
                            ("affected_dependencies", affected_value)] |}.

Definition build_emergency_stop_alert (scope : string) : ExternalAlertEvent :=
  {| ev_severity := "critical"; ev_title := "Emergency stop enabled";
     ev_message := "New trading, copy trading, and strategy execution are blocked.";
     ev_metadata := [("component", "kill_switch"); ("scope", _safe_emergency_stop_scope scope);
                     ("new_orders_blocked", "true")] |}.

Definition build_order_failure_alert (status failure_type : string) : option ExternalAlertEvent :=
  match _safe_order_failure_status status with
  | None => None
  | Some safe_status =>
      Some {| ev_severity := if str_mem safe_status ["FAILED"; "TIMEOUT"] then "critical" else "warning";
              ev_title := "Order execution failed";
              ev_message := "An order execution reached a failed terminal state.";
              ev_metadata := [("component", "order_execution"); ("status", safe_status);
                              ("failure_type", _safe_order_failure_type failure_type)] |}
  end.

Definition build_rate_limit_alert (exchange_name scope request_category : string)
    (retry_after_seconds : Z) : ExternalAlertEvent :=
  {| ev_severity := "warning"; ev_title := "Rate limit protection triggered";
     ev_message := "Runtime rate-limit protection blocked an outbound exchange request.";
     ev_metadata := [("component", "rate_limit"); ("exchange", _safe_exchange_name exchange_name);
                     ("scope", _safe_rate_limit_scope scope);
                     ("request_category", _safe_rate_limit_request_category request_category);
                     ("retry_after_seconds", str_of_Z (Z.max 1 (Z.min retry_after_seconds 3600)))] |}.

Definition build_reconciliation_drift_alert (status severity : string) (difference_count : Z) :
    option ExternalAlertEvent :=
  match _safe_reconciliation_status status with
  | None => None
  | Some safe_status =>
      let safe_severity := _safe_reconciliation_severity severity in
      Some {| ev_severity := if String.eqb safe_severity "CRITICAL" then "critical" else "warning";
              ev_title := "Position reconciliation drift detected";
              ev_message := "Position reconciliation detected drift that requires operator review.";
              ev_metadata := [("component", "position_reconciliation"); ("status", safe_status);
                              ("severity", safe_severity);
                              ("difference_count", str_of_Z (Z.max 0 (Z.min difference_count 1000)));
                              ("auto_fix_allowed", "false")] |}
  end.

(** ** The external channels *)

Inductive ExternalAlertChannel := TELEGRAM_CHANNEL | EMAIL_CHANNEL | WEBHOOK_CHANNEL.

Record ExternalAlertConfig := {
  telegram_enabled : bool; telegram_bot_token : string; telegram_chat_id : string;
  email_enabled : bool; smtp_host : string; smtp_port : Z; smtp_username : string;
  smtp_password : string; alert_email_from : string; alert_email_to : string;
  webhook_enabled : bool; webhook_url : string; webhook_secret : string }.

Record ExternalAlertDeliveryResult := {
  res_channel : ExternalAlertChannel; res_delivered : bool; res_error : string }.

Record ExternalAlertPlan := {
  enabled_channels : list ExternalAlertChannel; validation_errors : list string;
  redacted_summary : list (string * string) }.

Definition _require (field_name value : string) : bool * string :=
  (String.eqb value "", field_name +:+ " is required").
Definition _require_positive_port (field_name : string) (value : Z) : bool * string :=
  ((value <=? 0)%Z, field_name +:+ " must be positive").

Definition _redact (value : string) : string :=
  if String.eqb value "" then ""
  else if (String.length value <=? 4) then "***"
  else str_take 2 value +:+ "***" +:+ str_drop (String.length value - 2) value.

Definition _redact_url (value : string) : string :=
  if String.eqb value "" then "" else if str_contains "://" value then "***" else value.

Definition str_of_bool (b : bool) : string := if b then "True" else "False".

Definition _redacted_summary (c : ExternalAlertConfig) : list (string * string) :=
  [("telegram_enabled", str_of_bool (telegram_enabled c));
   ("telegram_bot_token", _redact (telegram_bot_token c));
   ("telegram_chat_id", _redact (telegram_chat_id c));
   ("email_enabled", str_of_bool (email_enabled c));
   ("smtp_host", smtp_host c); ("smtp_port", str_of_Z (smtp_port c));
   ("smtp_username", _redact (smtp_username c)); ("smtp_password", _redact (smtp_password c));
   ("alert_email_from", _redact (alert_email_from c)); ("alert_email_to", _redact (alert_email_to c));
   ("webhook_enabled", str_of_bool (webhook_enabled c)); ("webhook_url", _redact_url (webhook_url c));
   ("webhook_secret", _redact (webhook_secret c))].

Definition build_external_alert_plan (c : ExternalAlertConfig) : ExternalAlertPlan :=
  {| enabled_channels :=
       (if telegram_enabled c then [TELEGRAM_CHANNEL] else []) ++
       (if email_enabled c then [EMAIL_CHANNEL] else []) ++
       (if webhook_enabled c then [WEBHOOK_CHANNEL] else []);
     validation_errors :=
       (if telegram_enabled c
        then collect [_require "telegram_bot_token" (telegram_bot_token c);
                      _require "telegram_chat_id" (telegram_chat_id c)] else []) ++
       (if email_enabled c
        then collect [_require "smtp_host" (smtp_host c); _require_positive_port "smtp_port" (smtp_port c);
                      _require "smtp_username" (smtp_username c); _require "smtp_password" (smtp_password c);
                      _require "alert_email_from" (alert_email_from c);
                      _require "alert_email_to" (alert_email_to c)] else []) ++
       (if webhook_enabled c then collect [_require "webhook_url" (webhook_url c)] else []);
     redacted_summary := _redacted_summary c |}.

Definition _safe_text (value : string) : string :=
  str_take 500 (str_strip (replace_char "010"%char " " (replace_char "013"%char " " value))).

(** A dict comprehension keeps the last value of a repeated key. *)
Definition _sanitize_event (e : ExternalAlertEvent) : ExternalAlertEvent :=
  {| ev_severity := _safe_text (ev_severity e); ev_title := _safe_text (ev_title e);
     ev_message := _safe_text (ev_message e);
     ev_metadata := foldl (λ d kv, dict_set (_safe_text kv.1) (_safe_text kv.2) d) [] (ev_metadata e) |}.

(** A transport delivers, or fails with the class name and text of what it raised. *)
Definition transports := ExternalAlertConfig → ExternalAlertChannel → ExternalAlertEvent →
  option (string * string).

Definition _safe_error_message (exc : string * string) : string :=
  let text := _redact_url (_safe_text exc.2) in if String.eqb text "" then exc.1 else text.

(** [None] is the [ExternalAlertDeliveryError] of an invalid configuration. *)
Definition send_external_alert (c : ExternalAlertConfig) (e : ExternalAlertEvent) (t : transports) :
    option (list ExternalAlertDeliveryResult) :=
  let plan := build_external_alert_plan c in
  match enabled_channels plan, validation_errors plan with
  | [], _ => Some []
  | _, _ :: _ => None
  | channels, [] =>
      let safe_event := _sanitize_event e in
      Some (map (λ ch, match t c ch safe_event with
                       | None => Build_ExternalAlertDeliveryResult ch true ""
                       | Some exc => Build_ExternalAlertDeliveryResult ch false (_safe_error_message exc)
                       end) channels)
  end.

(** ** Throttling *)

Definition DISPATCH_THROTTLE_SECONDS : Z := 300.

Definition _is_throttled (state : list (string * Z)) (key : string)
    (now_seconds throttle_seconds : Z) : bool :=
  if (throttle_seconds <=? 0)%Z then false
  else match dict_lookup key state with
       | None => false
       | Some last_sent_at => (now_seconds - last_sent_at <? throttle_seconds)%Z
       end.

(** The common body of the [maybe_send_*] functions: throttle, send, remember.
    The result is what was sent and the new dispatch state; a configuration error
    leaves the state alone. *)
Definition maybe_send (key : string) (event : ExternalAlertEvent) (c : ExternalAlertConfig)
    (t : transports) (now_seconds throttle_seconds : Z) (state : list (string * Z)) :
    option (list ExternalAlertDeliveryResult) * list (string * Z) :=
  if _is_throttled state key now_seconds throttle_seconds then (Some [], state)
  else match send_external_alert c event t with
       | None => (None, state)
       | Some results => (Some results, dict_set key now_seconds state)
       end.

Definition metadata_of (k : string) (e : ExternalAlertEvent) : string :=
  default "" (dict_lookup k (ev_metadata e)).

Definition maybe_send_dependency_health_alert (checks : list (string * string)) :=
  λ c t now throttle state,
  match build_dependency_health_alert checks with
  | None => (Some [], state)
  | Some event => maybe_send "dependency_health" event c t now throttle state
  end.

Definition maybe_send_emergency_stop_alert (scope : string) :=
  λ c t now throttle state,
  let event := build_emergency_stop_alert scope in
  maybe_send ("emergency_stop:" +:+ metadata_of "scope" event) event c t now throttle state.

Definition maybe_send_order_failure_alert (status failure_type : string) :=
  λ c t now throttle state,
  match build_order_failure_alert status failure_type with
  | None => (Some [], state)
  | Some event =>
      maybe_send ("order_failure:" +:+ metadata_of "status" event +:+ ":" +:+
                  metadata_of "failure_type" event) event c t now throttle state
  end.

Definition maybe_send_rate_limit_alert (exchange_name scope request_category : string)
    (retry_after_seconds : Z) :=
  λ c t now throttle state,
  let event := build_rate_limit_alert exchange_name scope request_category retry_after_seconds in
  maybe_send (str_join ":" ["rate_limit"; metadata_of "exchange" event; metadata_of "scope" event;
                            metadata_of "request_category" event]) event c t now throttle state.

Definition maybe_send_reconciliation_drift_alert (status severity : string) (difference_count : Z) :=
  λ c t now throttle state,
  match build_reconciliation_drift_alert status severity difference_count with
  | None => (Some [], state)
  | Some event =>
      maybe_send ("reconciliation_drift:" +:+ metadata_of "severity" event) event c t now throttle state
  end.

(** ** The runtime the engines notify *)

(** The [Protocol] the engines take.  Every method of the runtime returns: it
    catches whatever the delivery raises. *)
Record AlertRuntime := {
  notify_order_failure : string → string → M unit;
  notify_emergency_stop_enabled : string → M unit;
  notify_reconciliation_drift : string → string → Z → M unit;
  notify_rate_limit : string → string → string → Z → M unit }.

(** A notification never fails and changes nothing but the record of alerts. *)
Definition quiet (m : M unit) : Prop :=
  ∀ w, ∃ evs, (∀ ev, ev ∈ evs → ∃ k f, ev = EvAlert k f) ∧
    m w = (Ok tt, mkWorld (w_committed w) (w_tx w) (w_new w) (w_next w) (w_now w) (w_trace w ++ evs)).

Class AlertRuntimeLaws (rt : AlertRuntime) := {
  quiet_order_failure status ft : quiet (notify_order_failure rt status ft);
  quiet_emergency_stop scope : quiet (notify_emergency_stop_enabled rt scope);
  quiet_drift status severity n : quiet (notify_reconciliation_drift rt status severity n);
  quiet_rate_limit e s c r : quiet (notify_rate_limit rt e s c r) }.

Definition alert_event (e : ExternalAlertEvent) : Event := EvAlert (ev_title e) (ev_metadata e).

Definition emit_event (e : option ExternalAlertEvent) : M unit :=
  match e with Some e => emit (alert_event e) | None => mret tt end.

(** [OperationalAlertRuntime] as the engines see it: the alert that is due, before
    throttling and delivery decide its fate. *)
Definition OperationalAlertRuntime : AlertRuntime := {|
  notify_order_failure status ft := emit_event (build_order_failure_alert status ft);
  notify_emergency_stop_enabled scope := emit_event (Some (build_emergency_stop_alert scope));
  notify_reconciliation_drift status severity n :=
    emit_event (build_reconciliation_drift_alert status severity n);
  notify_rate_limit e s c r := emit_event (Some (build_rate_limit_alert e s c r)) |}.

Lemma quiet_emit_event e : quiet (emit_event e).
Proof.
  intros w. destruct e as [e|].
  - exists [alert_event e]. split; [|done]. intros ev ->%list_elem_of_singleton.
    by eexists _, _.
  - exists []. split; [by intros ? ?%elem_of_nil|]. cbn. rewrite app_nil_r. by destruct w.
Qed.

#[export] Instance OperationalAlertRuntime_laws : AlertRuntimeLaws OperationalAlertRuntime.
Proof. split; intros; apply quiet_emit_event. Qed.

Lemma quiet_frames `{Database} {V} (view : Db → V) (m : M unit) w :
  quiet m → view (w_tx (m w).2) = view (w_tx w) ∧ view (w_new (m w).2) = view (w_new w) ∧
    w_committed (m w).2 = w_committed w ∧ w_next (m w).2 = w_next w.
Proof. intros Hq. destruct (Hq w) as (evs & _ & ->). done. Qed.

(** ** A series of alerts through one runtime *)

(** The alerts of a series of calls [(key, event, time)] that reached a channel. *)
Fixpoint dispatched (c : ExternalAlertConfig) (t : transports) (throttle : Z)
    (calls : list (string * ExternalAlertEvent * Z)) (state : list (string * Z)) :
    list (string * Z) :=
  match calls with
  | [] => []
  | (key, event, now) :: calls' =>
      let '(results, state') := maybe_send key event c t now throttle state in
      match results with
      | Some (_ :: _) => (key, now) :: dispatched c t throttle calls' state'
      | _ => dispatched c t throttle calls' state'
      end
  end.

Lemma maybe_send_throttle key e c t now throttle state r state' :
  (0 < throttle)%Z → maybe_send key e c t now throttle state = (r, state') →
  (∀ k last, dict_lookup k state = Some last → ∃ last', dict_lookup k state' = Some last' ∧ (last ≤ last')%Z) ∧
  (∀ x l, r = Some (x :: l) → dict_lookup key state' = Some now ∧
     ∀ last, dict_lookup key state = Some last → (last + throttle ≤ now)%Z).
Proof.
  intros Hpos. unfold maybe_send, _is_throttled. rewrite (proj2 (Z.leb_gt _ _) Hpos).
  set (thr := match dict_lookup key state with None => false | Some last => (now - last <? throttle)%Z end).
  destruct thr eqn:Ethr; subst thr.
  { intros [= <- <-]. split; [|done]. intros k last Hk. exists last. split; [done | lia]. }
  assert (∀ last, dict_lookup key state = Some last → (last + throttle ≤ now)%Z) as Hlast.
  { intros last Hk. rewrite Hk in Ethr. apply Z.ltb_ge in Ethr. lia. }
  destruct (send_external_alert c e t) as [l|]; intros [= <- <-].
  - split.
    + intros k last Hk. rewrite dict_lookup_set. destruct (String.eqb_spec key k) as [<-|].
      * exists now. split; [done|]. specialize (Hlast _ Hk). lia.
      * exists last. split; [done | lia].
    + intros _ _ _. rewrite dict_lookup_set, String.eqb_refl. done.
  - split; [|done]. intros k last Hk. exists last. split; [done | lia].
Qed.

Lemma dispatched_after c t throttle calls state key now last :
  (0 < throttle)%Z → dict_lookup key state = Some last →
  (key, now) ∈ dispatched c t throttle calls state → (last + throttle ≤ now)%Z.
Proof.
  intros Hpos. revert state last. induction calls as [|[[k e] n] calls IH]; simpl;
    intros state last Hlast; [by intros ?%elem_of_nil|].
  destruct (maybe_send k e c t n throttle state) as [r state'] eqn:E.
  destruct (maybe_send_throttle _ _ _ _ _ _ _ _ _ Hpos E) as [Hmono Hsent].
  destruct (Hmono _ _ Hlast) as (last' & Hlast' & Hle).
  assert ((key, now) ∈ dispatched c t throttle calls state' → (last + throttle ≤ now)%Z) as Hrest
    by (intros Hin; specialize (IH state' last' Hlast' Hin); lia).
  destruct r as [[|x l]|]; auto. intros [[= <- <-]|?]%elem_of_cons; auto.
  by apply (Hsent x l).
Qed.

(** Two alerts under one throttle key are at least the throttle interval apart,
    whatever else is sent in between and whatever the clock of the calls does. *)
Theorem alert_throttle_spacing c t throttle calls state :
  (0 < throttle)%Z →
  ForallOrdPairs (λ a b, a.1 = b.1 → (a.2 + throttle ≤ b.2)%Z) (dispatched c t throttle calls state).
Proof.
  intros Hpos. revert state. induction calls as [|[[k e] n] calls IH]; simpl; intros state;
    [constructor|].
  destruct (maybe_send k e c t n throttle state) as [r state'] eqn:E.
  destruct (maybe_send_throttle _ _ _ _ _ _ _ _ _ Hpos E) as [_ Hsent].
  destruct r as [[|x l]|]; auto. constructor; [|auto]. apply List.Forall_forall.
  intros [k' n'] Hin%list_elem_of_In. cbn. intros <-.
  eapply dispatched_after; [done | by apply (Hsent x l) | exact Hin].
Qed.

(** ** What an alert can say *)

Definition operational_events (checks : list (string * string)) (scope status failure_type
    exchange_name category severity : string) (retry count : Z) : list ExternalAlertEvent :=
  build_emergency_stop_alert scope :: build_rate_limit_alert exchange_name scope category retry ::
  option_list (build_dependency_health_alert checks) ++
  option_list (build_order_failure_alert status failure_type) ++
  option_list (build_reconciliation_drift_alert status severity count).

(** The words the alerts are made of. *)
Definition alert_words : list string :=
  ["health_check"; "kill_switch"; "order_execution"; "rate_limit"; "position_reconciliation";
   "true"; "false"; "unknown"] ++
  SAFE_DEPENDENCY_STATES ++ SAFE_EMERGENCY_STOP_SCOPES ++ SAFE_EXCHANGE_NAMES ++
  SAFE_ORDER_FAILURE_STATUSES ++ SAFE_ORDER_FAILURE_TYPES ++ SAFE_RATE_LIMIT_SCOPES ++
  SAFE_RATE_LIMIT_REQUEST_CATEGORIES ++ SAFE_RECONCILIATION_SEVERITIES ++
  SAFE_RECONCILIATION_STATUSES.

Definition alert_safe_value (v : string) : Prop :=
  v ∈ alert_words ∨ (∃ z, (0 ≤ z ≤ 3600)%Z ∧ v = str_of_Z z) ∨
  (∃ names, Forall (λ n, n ∈ SAFE_DEPENDENCY_NAMES) names ∧ v = str_join "," names).

Lemma safe_of_word norm allowed other v :
  (∀ x, x ∈ allowed → x ∈ alert_words) → other ∈ alert_words →
  alert_safe_value (safe_of norm allowed other v).
Proof.
  intros Hall Hother. left. unfold safe_of, str_mem.
  case_bool_decide; auto.
Qed.

Lemma safe_opt_word norm allowed v x :
  (∀ x, x ∈ allowed → x ∈ alert_words) → safe_opt norm allowed v = Some x → alert_safe_value x.
Proof.
  intros Hall. unfold safe_opt, str_mem. case_bool_decide; [|done]. intros [= <-]. left. auto.
Qed.

(** The word lists are parts of [alert_words]. *)
Ltac words := let H := fresh in intros ? H; unfold alert_words; rewrite !elem_of_app; tauto.
Ltac metadata_goals := cbn [ev_metadata]; repeat apply Forall_cons_2; [..|apply Forall_nil_2]; cbn [snd].
Ltac word := match goal with |- alert_safe_value (String _ _) =>
  left; apply (bool_decide_unpack _); vm_compute; exact I end.

Lemma alert_safe_number lo hi z :
  (0 ≤ lo)%Z → (lo ≤ hi ≤ 3600)%Z → alert_safe_value (str_of_Z (Z.max lo (Z.min z hi))).
Proof. intros ? ?. right; left. eexists. split; [|reflexivity]. lia. Qed.

(** Whatever the callers pass, the metadata of an operational alert is made of the
    words of the allow lists and of clamped counts: no identifier, key or message
    of the platform can leave through it. *)
Theorem alert_metadata_safe checks scope status failure_type exchange_name category severity
    retry count :
  Forall (λ e, Forall (λ kv, alert_safe_value kv.2) (ev_metadata e))
    (operational_events checks scope status failure_type exchange_name category severity retry count).
Proof.
  unfold operational_events. apply Forall_cons_2; [|apply Forall_cons_2; [|apply Forall_app_2; [|apply Forall_app_2]]].
  - metadata_goals; try word.
    apply safe_of_word; [words | by apply (bool_decide_unpack _)].
  - metadata_goals; try word;
      first [apply alert_safe_number; lia | apply safe_of_word; [words | by apply (bool_decide_unpack _)]].
  - unfold build_dependency_health_alert. case_goal; constructor; [|constructor].
    metadata_goals; try word.
    + apply safe_of_word; [words | by apply (bool_decide_unpack _)].
    + case_goal; [word|]. rewrite <- Heql. right; right. eexists. split; [|reflexivity].
      apply Forall_forall. intros n Hn. apply list_elem_of_In, List.in_map_iff in Hn as (kv & <- & Hin).
      apply List.filter_In in Hin as [_ [Hin _]%andb_true_iff]. by apply bool_decide_eq_true in Hin.
  - unfold build_order_failure_alert. destruct (_safe_order_failure_status status) eqn:E; [|constructor].
    constructor; [|constructor]. metadata_goals; try word.
    + eapply safe_opt_word; [|exact E]; words.
    + apply safe_of_word; [words | by apply (bool_decide_unpack _)].
  - unfold build_reconciliation_drift_alert.
    destruct (_safe_reconciliation_status status) eqn:E; [|constructor].
    constructor; [|constructor]. metadata_goals; try word.
    + eapply safe_opt_word; [|exact E]; words.
    + apply safe_of_word; [words | by apply (bool_decide_unpack _)].
    + apply alert_safe_number; lia.
Qed.

Definition webhook_config : ExternalAlertConfig :=
  {| telegram_enabled := false; telegram_bot_token := ""; telegram_chat_id := "";
     email_enabled := false; smtp_host := ""; smtp_port := 587; smtp_username := "";
     smtp_password := ""; alert_email_from := ""; alert_email_to := "";
     webhook_enabled := true; webhook_url := "https://alerts.example"; webhook_secret := "" |}.

Lemma alert_throttle_spacing_witness :
  let calls := map (λ n, ("emergency_stop:global", build_emergency_stop_alert "global", n))
                 [0; 100; 299; 300; 650]%Z in
  let sent := dispatched webhook_config (λ _ _ _, None) 300 calls [] in
  sent = [("emergency_stop:global", 0); ("emergency_stop:global", 300); ("emergency_stop:global", 650)]%Z ∧
  ForallOrdPairs (λ a b, a.1 = b.1 → (a.2 + 300 ≤ b.2)%Z) sent.
Proof. split; [vm_compute; reflexivity | apply (alert_throttle_spacing _ _ 300); lia]. Defined.
