(* ===== verification/Delivery.v ===== *)
(** How an alert leaves the service: the three senders of [services/external_alerts.py] up
    to the request or the mail that is handed to the network, which is an interface.  The
    timeout of a request is left out: it is passed on as it is. *)
From S2P Require Import Prelude PyStr Hash PyValue Json Models Session Alerts.
From Stdlib Require Import Ascii.

(** ** What is handed to the network *)

Record AlertRequest := { ar_url : string; ar_body : string; ar_headers : list (string * string) }.

Record EmailMessage := { em_from : string; em_to : string; em_subject : string; em_content : string }.

Inductive Delivery :=
| HttpPost (req : AlertRequest)
| SmtpMail (host : string) (port : Z) (username password : string) (message : EmailMessage).

(** [urllib.request.urlopen] answers with a status or raises; [smtplib] delivers or raises.
    An exception is its class name and its text. *)
Class AlertNetwork := {
  urlopen : AlertRequest → Z + string * string;
  smtp_session : string → Z → string → string → EmailMessage → option (string * string) }.

(** ** Standard library: [parse.quote], [str.splitlines] and header values *)

Definition quote_path_char (c : ascii) : string :=
  if Ascii.eqb c "/" then "/" else if Ascii.eqb c " " then "%20" else quote_char c.
Fixpoint quote (s : string) : string :=
  match s with "" => "" | String c r => quote_path_char c +:+ quote r end.

(** The line boundaries of [str.splitlines] in ASCII. *)
Definition is_break (c : ascii) : bool := between 10 13 c || between 28 30 c.
(** Text goes on after the first boundary ([\r\n] is one), so there are two lines. *)
Fixpoint many_lines (s : string) : bool :=
  match s with
  | "" => false
  | String c r =>
      if is_break c
      then match r with
           | "" => false
           | String d "" => negb (Ascii.eqb c "013" && Ascii.eqb d "010")
           | _ => true
           end
      else many_lines r
  end.

Definition header_value (v : string) : string + string * string :=
  if many_lines v
  then inr ("ValueError", "Header values may not contain linefeed or carriage return characters")
  else inl v.

(** ** The senders *)

Definition metadata_lines (e : ExternalAlertEvent) : list string :=
  map (λ kv, kv.1 +:+ ": " +:+ kv.2) (sort_by (λ a b, String.leb a.1 b.1) (ev_metadata e)).

Definition text_lines (e : ExternalAlertEvent) : list string :=
  ["severity: " +:+ ev_severity e; "title: " +:+ ev_title e; "message: " +:+ ev_message e] ++ metadata_lines e.

Definition _format_plain_text (e : ExternalAlertEvent) : string :=
  str_join (String "010" "") (text_lines e).

(** [request.Request] of [HttpAlertTransport.post_json] *)
Definition post_request (url : string) (payload : dict) (headers : list (string * string)) : AlertRequest :=
  {| ar_url := url; ar_body := json_dumps_ordered (VDict payload);
     ar_headers := ("Content-Type", "application/json") :: headers |}.

Definition _send_telegram (c : ExternalAlertConfig) (e : ExternalAlertEvent) : Delivery :=
  HttpPost (post_request ("https://api.telegram.org/bot" +:+ quote (telegram_bot_token c) +:+ "/sendMessage")
    [("chat_id", VStr (telegram_chat_id c)); ("text", VStr (_format_plain_text e))] []).

Definition _send_email (c : ExternalAlertConfig) (e : ExternalAlertEvent) : Delivery + string * string :=
  match header_value (alert_email_from c) with
  | inr x => inr x
  | inl sender =>
      match header_value (alert_email_to c) with
      | inr x => inr x
      | inl to =>
          match header_value ("[" +:+ str_upper (ev_severity e) +:+ "] " +:+ ev_title e) with
          | inr x => inr x
          | inl subject =>
              inl (SmtpMail (smtp_host c) (smtp_port c) (smtp_username c) (smtp_password c)
                     {| em_from := sender; em_to := to; em_subject := subject;
                        em_content := _format_plain_text e |})
          end
      end
  end.

Definition webhook_payload (e : ExternalAlertEvent) : dict :=
  [("severity", VStr (ev_severity e)); ("title", VStr (ev_title e)); ("message", VStr (ev_message e));
   ("metadata", VDict (map (λ kv, (kv.1, VStr kv.2)) (ev_metadata e)))].

Definition alert_signature (secret body : string) : string :=
  "sha256=" +:+ hex (hmac_sha256 (bytes_of_str secret) (bytes_of_str body)).

Definition _send_webhook (c : ExternalAlertConfig) (e : ExternalAlertEvent) : Delivery :=
  let payload := webhook_payload e in
  let headers :=
    if String.eqb (webhook_secret c) "" then []
    else [("X-Alert-Signature", alert_signature (webhook_secret c) (json_dumps_ordered (VDict payload)))] in
  HttpPost (post_request (webhook_url c) payload headers).

(** What a channel hands to the network for an event, or the exception on the way. *)
Definition prepare_delivery (c : ExternalAlertConfig) (ch : ExternalAlertChannel) (e : ExternalAlertEvent) :
    Delivery + string * string :=
  match ch with
  | TELEGRAM_CHANNEL => inl (_send_telegram c e)
  | EMAIL_CHANNEL => _send_email c e
  | WEBHOOK_CHANNEL => inl (_send_webhook c e)
  end.

Section network.
Context `{AlertNetwork}.

(** [HttpAlertTransport.post_json] *)
Definition post_json (req : AlertRequest) : option (string * string) :=
  match urlopen req with
  | inl status =>
      if (400 <=? status)%Z
      then Some ("ExternalAlertDeliveryError", "HTTP alert returned status " +:+ str_of_Z status) else None
  | inr exc => Some exc
  end.

(** [EmailAlertTransport.send_email] *)
Definition perform (d : Delivery) : option (string * string) :=
  match d with
  | HttpPost req => post_json req
  | SmtpMail host port username password message => smtp_session host port username password message
  end.

(** [ExternalAlertTransports()] *)
Definition real_transports : transports := λ c ch e,
  match prepare_delivery c ch e with inl d => perform d | inr exc => Some exc end.
End network.

(** ** One line per field *)

Definition no_char (x : ascii) (s : string) : bool := str_forall (λ c, negb (Ascii.eqb c x)) s.
Definition one_line (s : string) : Prop := no_char "010" s = true ∧ no_char "013" s = true.

Lemma no_char_app x a b : no_char x (a +:+ b) = no_char x a && no_char x b.
Proof. apply str_forall_app. Qed.

Lemma replace_char_removes x new s : no_char x new = true → no_char x (replace_char x new s) = true.
Proof.
  intros Hn. induction s as [|c r IH]; [done|]. cbn [replace_char]. rewrite no_char_app, IH, andb_true_r.
  destruct (Ascii.eqb c x) eqn:E; [done|]. unfold no_char. cbn. by rewrite E.
Qed.

Lemma replace_char_keeps x old new s : no_char x new = true → no_char x s = true → no_char x (replace_char old new s) = true.
Proof.
  intros Hn. induction s as [|c r IH]; [done|]. cbn [replace_char]. unfold no_char at 1. cbn.
  intros [Hc Hr]%andb_true_iff. rewrite no_char_app, (IH Hr), andb_true_r.
  destruct (Ascii.eqb c old); [done|]. unfold no_char. cbn. by rewrite Hc.
Qed.

Lemma lstrip_forall p s : str_forall p s = true → str_forall p (lstrip s) = true.
Proof. induction s as [|c r IH]; [done|]. cbn. intros [Hc Hr]%andb_true_iff. case_match; [auto|]. cbn. by rewrite Hc. Qed.

Lemma rstrip_forall p s : str_forall p s = true → str_forall p (rstrip s) = true.
Proof.
  induction s as [|c r IH]; [done|]. cbn. intros [Hc Hr]%andb_true_iff. specialize (IH Hr).
  repeat case_match; cbn in *; rewrite ?Hc, ?IH; done.
Qed.

Lemma safe_text_one_line s : one_line (_safe_text s).
Proof.
  unfold one_line, _safe_text. split; unfold no_char.
  all: apply str_forall_take, rstrip_forall, lstrip_forall.
  - by apply replace_char_removes.
  - apply replace_char_keeps; [done|]. by apply replace_char_removes.
Qed.

Definition one_line_event (e : ExternalAlertEvent) : Prop :=
  one_line (ev_severity e) ∧ one_line (ev_title e) ∧ one_line (ev_message e) ∧
  Forall (λ kv, one_line kv.1 ∧ one_line kv.2) (ev_metadata e).

Lemma Forall_dict_set {A} (P : string * A → Prop) k v (d : list (string * A)) :
  P (k, v) → Forall P d → Forall P (dict_set k v d).
Proof.
  intros Hk. induction 1 as [|[k' v'] d Hx Hd IH]; cbn; [by constructor|].
  destruct (String.eqb_spec k' k) as [->|]; by constructor.
Qed.

Lemma sanitized_one_line e : one_line_event (_sanitize_event e).
Proof.
  unfold one_line_event, _sanitize_event. cbn [ev_severity ev_title ev_message ev_metadata]. do 3 (split; [apply safe_text_one_line|]).
  assert (Forall (λ kv : string * string, one_line kv.1 ∧ one_line kv.2) []) as H0 by constructor.
  revert H0. generalize (@nil (string * string)). induction (ev_metadata e) as [|kv md IH]; intros d Hd; cbn [foldl]; [done|].
  apply IH, Forall_dict_set; [|done]. split; apply safe_text_one_line.
Qed.

Lemma no_char_join x sep l : no_char x sep = true → Forall (λ s, no_char x s = true) l → no_char x (str_join sep l) = true.
Proof.
  intros Hs. induction 1 as [|y l Hy Hl IH]; [done|]. destruct l as [|z l]; [done|].
  rewrite str_join_cons, !no_char_app, Hy, Hs. exact IH.
Qed.

Lemma split_on_app x a r :
  no_char x a = true → split_on x (a +:+ String x r) = a :: split_on x r.
Proof.
  unfold no_char. induction a as [|c a IH]; [intros _; rewrite app_str_nil_l; cbn [split_on]; by rewrite Ascii.eqb_refl|].
  cbn [str_forall]. intros [Hc Ha]%andb_true_iff. apply negb_true_iff in Hc. rewrite app_str_cons. cbn [split_on].
  by rewrite Hc, IH.
Qed.

Lemma split_on_single x a : no_char x a = true → split_on x a = [a].
Proof.
  unfold no_char. induction a as [|c a IH]; cbn; [done|]. intros [Hc Ha]%andb_true_iff. apply negb_true_iff in Hc.
  by rewrite Hc, IH.
Qed.

(** Splitting a joined list at the separator gives the list back. *)
Lemma split_on_join x l : l ≠ [] → Forall (λ s, no_char x s = true) l → split_on x (str_join (String x "") l) = l.
Proof.
  intros Hne Hl. induction Hl as [|y l Hy Hl IH]; [done|]. destruct l as [|z l]; [by apply split_on_single|].
  rewrite str_join_cons. change (String x "" +:+ ?r) with (String x r). rewrite split_on_app by done. by rewrite IH.
Qed.

Lemma text_lines_single e : one_line_event e → Forall (λ s, no_char "010" s = true) (text_lines e).
Proof.
  intros (Hs & Ht & Hm & Hmd). unfold text_lines, metadata_lines. cbn [app].
  do 3 (constructor; [cbn beta; rewrite no_char_app; by first [rewrite (proj1 Hs)|rewrite (proj1 Ht)|rewrite (proj1 Hm)]|]).
  apply Forall_fmap, Forall_forall. intros [k v] Hkv.
  change (no_char "010" (k +:+ ": " +:+ v) = true). rewrite !no_char_app.
  assert (one_line k ∧ one_line v) as [[Hk _] [Hv _]].
  { rewrite Forall_forall in Hmd. apply (Hmd (k, v)). by rewrite <- (sort_by_perm (λ a b : string * string, String.leb a.1 b.1)). }
  by rewrite Hk, Hv.
Qed.

(** The text of an alert says what the event says and nothing else: whatever the fields
    contain, splitting the text sent to a channel at its line ends gives back one line per
    field, so a field cannot forge another one. *)
Theorem alert_text_faithful e :
  let safe := _sanitize_event e in split_on "010" (_format_plain_text safe) = text_lines safe.
Proof.
  intros safe. apply split_on_join; [done|]. apply text_lines_single, sanitized_one_line.
Qed.

(** ** What is sent, and what is told about it *)

Section delivery.
Context `{AlertNetwork}.

(** The name of an exception class is an identifier. *)
Class AlertNetworkLaws := {
  urlopen_class req exc : urlopen req = inr exc → str_contains "://" exc.1 = false;
  smtp_class h p u pw m exc : smtp_session h p u pw m = Some exc → str_contains "://" exc.1 = false }.

Lemma transport_class `{!AlertNetworkLaws} c ch e exc :
  real_transports c ch e = Some exc → str_contains "://" exc.1 = false.
Proof.
  unfold real_transports. destruct (prepare_delivery c ch e) as [d|x] eqn:Ed.
  - destruct d as [req|h p u pw m]; cbn [perform]; [|apply smtp_class].
    unfold post_json. destruct (urlopen req) as [st|x] eqn:Eu; [|intros [= <-]; by eapply urlopen_class].
    case_match; [|done]. by intros [= <-].
  - intros [= <-]. destruct ch; try discriminate Ed. cbn in Ed. unfold _send_email, header_value in Ed.
    repeat case_match; simplify_eq; done.
Qed.

Lemma redacted_url v : str_contains "://" (_redact_url v) = false.
Proof. unfold _redact_url. repeat case_match; done. Qed.

Lemma error_redacted exc : str_contains "://" exc.1 = false → str_contains "://" (_safe_error_message exc) = false.
Proof. unfold _safe_error_message. intros Hc. case_match; [done|]. apply redacted_url. Qed.

(** An alert that is sent through a valid configuration is tried on every enabled
    channel, once each and in order, whatever happens on the others; a channel counts as
    delivered exactly when its message could be built and the network took it; no error
    text that is kept shows a URL (a webhook address or the bot token in it).  Only a
    configuration with a missing value refuses. *)
Theorem alert_delivery `{!AlertNetworkLaws} c e :
  let plan := build_external_alert_plan c in
  match send_external_alert c e real_transports with
  | None => enabled_channels plan ≠ [] ∧ validation_errors plan ≠ []
  | Some results =>
      map res_channel results = enabled_channels plan ∧
      Forall (λ r,
        (res_delivered r = true ↔
          ∃ d, prepare_delivery c (res_channel r) (_sanitize_event e) = inl d ∧ perform d = None) ∧
        (res_delivered r = true → res_error r = "") ∧ str_contains "://" (res_error r) = false) results
  end.
Proof.
  intros plan. unfold send_external_alert. fold plan. destruct (enabled_channels plan) as [|ch chs]; [done|].
  destruct (validation_errors plan) as [|x xs]; [|done]. split.
  - rewrite map_map. rewrite <- (map_id (ch :: chs)) at 2. apply map_ext. intros a. by destruct (real_transports c a _).
  - apply Forall_fmap, Forall_true. intros a. cbn. destruct (real_transports c a (_sanitize_event e)) as [exc|] eqn:E; cbn.
    + split; [split; [done|]|split; [done|by eapply error_redacted, transport_class]].
      unfold real_transports in E. intros (d & Hd & Hp). rewrite Hd in E. congruence.
    + split; [split; [intros _|done]|done]. unfold real_transports in E.
      destruct (prepare_delivery c a (_sanitize_event e)) as [d|]; [by exists d|done].
Qed.

(** What a webhook receives can be checked: the request goes to the configured address,
    its signature is the HMAC of exactly the bytes of the body under the shared secret, and
    the body reads back as the event. *)
Theorem webhook_verifiable `{PyFloat} c e :
  json_plain (VDict (webhook_payload e)) = true → webhook_secret c ≠ "" →
  ∃ req, prepare_delivery c WEBHOOK_CHANNEL e = inl (HttpPost req) ∧ ar_url req = webhook_url c ∧
    dict_lookup "X-Alert-Signature" (ar_headers req) = Some (alert_signature (webhook_secret c) (ar_body req)) ∧
    json_loads (ar_body req) = Some (VDict (webhook_payload e)).
Proof.
  intros Hp Hs. eexists. split; [reflexivity|]. split; [done|]. split.
  - rewrite (proj2 (String.eqb_neq _ _) Hs). reflexivity.
  - by apply json_roundtrip.
Qed.
End delivery.

(** ** A concrete configuration *)

Definition demo_alert_config : ExternalAlertConfig :=
  {| telegram_enabled := true; telegram_bot_token := "12:ab/c d"; telegram_chat_id := "99";
     email_enabled := true; smtp_host := "mail"; smtp_port := 587; smtp_username := "u"; smtp_password := "p";
     alert_email_from := "ops@example.com"; alert_email_to := "a@example.com" +:+ String "010" "Bcc: b@example.com";
     webhook_enabled := true; webhook_url := "https://hook.example.com/x"; webhook_secret := "s" |}.

(** Telegram answers, the webhook is down. *)
Definition demo_network : AlertNetwork :=
  {| urlopen req := if startswith "https://api.telegram.org" (ar_url req) then inl 200%Z
       else inr ("URLError", "<urlopen error https://hook.example.com/x>");
     smtp_session _ _ _ _ _ := None |}.

#[local] Existing Instance demo_network.
#[local] Instance demo_network_laws : AlertNetworkLaws.
Proof. split; [|done]. intros req exc. cbn. case_match; [done|]. by intros [= <-]. Qed.

(** The recipient with a line end in it is refused before anything is sent. *)
Example three_channels :
  send_external_alert demo_alert_config (build_emergency_stop_alert "global") real_transports =
  Some [Build_ExternalAlertDeliveryResult TELEGRAM_CHANNEL true "";
        Build_ExternalAlertDeliveryResult EMAIL_CHANNEL false
          "Header values may not contain linefeed or carriage return characters";
        Build_ExternalAlertDeliveryResult WEBHOOK_CHANNEL false "***"].
Proof. reflexivity. Qed.

Lemma alert_delivery_witness :
  enabled_channels (build_external_alert_plan demo_alert_config) = [TELEGRAM_CHANNEL; EMAIL_CHANNEL; WEBHOOK_CHANNEL] ∧
  ∀ results, send_external_alert demo_alert_config (build_emergency_stop_alert "global") real_transports = Some results →
  map res_channel results = [TELEGRAM_CHANNEL; EMAIL_CHANNEL; WEBHOOK_CHANNEL].
Proof.
  split; [reflexivity|]. intros results E.
  pose proof (alert_delivery demo_alert_config (build_emergency_stop_alert "global")) as Hd. cbv zeta in Hd.
  rewrite E in Hd. exact (proj1 Hd).
Defined.

#[local] Instance literal_float : PyFloat := {| float_of_literal s := s |}.

Lemma webhook_verifiable_witness :
  ∃ req, prepare_delivery demo_alert_config WEBHOOK_CHANNEL (build_emergency_stop_alert "global") = inl (HttpPost req) ∧
    json_loads (ar_body req) = Some (VDict (webhook_payload (build_emergency_stop_alert "global"))).
Proof.
  destruct (webhook_verifiable demo_alert_config (build_emergency_stop_alert "global")) as (req & Hr & _ & _ & Hb);
    [vm_compute; reflexivity|done|]. by exists req.
Defined.
