(* ===== verification/Health.v ===== *)
(** Health: the probes of [api/v1/health.py], the text of [api/metrics.py] and the monitor
    of [services/dependency_health_monitor.py] with its worker
    [workers/dependency_health_monitor.py], which turns a failing probe into an alert; the
    delivery test of [workers/external_alert_smoke_test.py].

    The database and Redis are an interface, the clock a list of readings. *)
From S2P Require Import Prelude PyStr PyValue Json Models Session Alerts Delivery.
From Stdlib Require Import Ascii.

(** ** Settings *)

(** The part of [core/config.py] these files read. *)
Record AppSettings := {
  s_app_name : string; s_app_version : string; s_environment : string; s_testnet_adapters_enabled : bool;
  s_telegram_alerts_enabled : bool; s_telegram_bot_token : string; s_telegram_chat_id : string;
  s_email_alerts_enabled : bool; s_smtp_host : string; s_smtp_port : Z; s_smtp_username : string;
  s_smtp_password : string; s_alert_email_from : string; s_alert_email_to : string;
  s_webhook_alerts_enabled : bool; s_alert_webhook_url : string; s_alert_webhook_secret : string;
  s_dependency_health_monitor_enabled : bool; s_dependency_health_monitor_interval_seconds : Z;
  s_dependency_health_alert_throttle_seconds : Z }.

Definition external_alert_config_from_settings (s : AppSettings) : ExternalAlertConfig :=
  {| telegram_enabled := s_telegram_alerts_enabled s; telegram_bot_token := s_telegram_bot_token s;
     telegram_chat_id := s_telegram_chat_id s; email_enabled := s_email_alerts_enabled s;
     smtp_host := s_smtp_host s; smtp_port := s_smtp_port s; smtp_username := s_smtp_username s;
     smtp_password := s_smtp_password s; alert_email_from := s_alert_email_from s;
     alert_email_to := s_alert_email_to s; webhook_enabled := s_webhook_alerts_enabled s;
     webhook_url := s_alert_webhook_url s; webhook_secret := s_alert_webhook_secret s |}.

(** ** Health *)

Definition health_check (s : AppSettings) : list (string * string) :=
  [("status", "ok"); ("service", s_app_name s); ("version", s_app_version s); ("environment", s_environment s)].

(** What a probe finds: whether [SELECT 1] succeeds, and whether [PING] does, unless the
    client cannot even be made from the URL (a [ValueError] with some text). *)
Record Probe := { database_up : bool; redis_up : string + bool }.

Definition state_word (up : bool) : string := if up then "ok" else "unavailable".

Definition checks_of (database redis : bool) : list (string * string) :=
  [("status", if database && redis then "ok" else "degraded"); ("database", state_word database);
   ("redis", state_word redis)].

Definition dependency_health_check (p : Probe) : Outcome (list (string * string)) :=
  match redis_up p with
  | inl m => Raise (ValueError m)
  | inr redis =>
      let checks := checks_of (database_up p) redis in
      if negb (String.eqb (default "" (dict_lookup "status" checks)) "ok")
      then Raise (HTTPException 503 (VDict (map (λ kv, (kv.1, VStr kv.2)) checks)) [])
      else Ok checks
  end.

(** ** Metrics *)

Definition _escape_label_value (value : string) : string :=
  replace_char double_quote (String "\" (String double_quote ""))
    (replace_char "010" "\n" (replace_char "\" "\\" value)).

Definition label (kv : string * string) : string :=
  kv.1 +:+ "=" +:+ String double_quote (_escape_label_value kv.2 +:+ String double_quote "").

Definition _labels (values : list (string * string)) : string := str_join "," (map label values).

Definition app_labels (s : AppSettings) : list (string * string) :=
  [("service", s_app_name s); ("version", s_app_version s); ("environment", s_environment s)].

Definition metrics_lines (s : AppSettings) : list string :=
  ["# HELP trading_app_info Application build and environment information.";
   "# TYPE trading_app_info gauge";
   "trading_app_info{" +:+ _labels (app_labels s) +:+ "} 1";
   "# HELP trading_real_trading_enabled Real trading enablement flag.";
   "# TYPE trading_real_trading_enabled gauge";
   "trading_real_trading_enabled 0";
   "# HELP trading_testnet_adapters_enabled Testnet adapter enablement flag.";
   "# TYPE trading_testnet_adapters_enabled gauge";
   "trading_testnet_adapters_enabled " +:+ (if s_testnet_adapters_enabled s then "1" else "0");
   ""].

Definition build_metrics_text (s : AppSettings) : string := str_join (String "010" "") (metrics_lines s).

(** ** The monitor *)

Record DependencyHealthMonitorConfig := { mon_enabled : bool; mon_interval : Z; mon_throttle : Z }.
Record DependencyHealthMonitorPlan := {
  plan_enabled : bool; plan_interval : Z; plan_throttle : Z; plan_errors : list string }.

Definition plan_ready (p : DependencyHealthMonitorPlan) : bool :=
  plan_enabled p && match plan_errors p with [] => true | _ => false end.

Definition build_dependency_health_monitor_plan (c : DependencyHealthMonitorConfig) : DependencyHealthMonitorPlan :=
  {| plan_enabled := mon_enabled c; plan_interval := mon_interval c; plan_throttle := mon_throttle c;
     plan_errors :=
       (if (mon_interval c <=? 0)%Z then ["dependency health monitor interval must be positive"] else []) ++
       (if (mon_throttle c <? 0)%Z then ["dependency health alert throttle must not be negative"] else []) |}.

Definition dependency_monitor_config_from_settings (s : AppSettings) : DependencyHealthMonitorConfig :=
  {| mon_enabled := s_dependency_health_monitor_enabled s;
     mon_interval := s_dependency_health_monitor_interval_seconds s;
     mon_throttle := s_dependency_health_alert_throttle_seconds s |}.

Definition dispatch := list (string * Z).

(** [maybe_send_dependency_health_alert]: an invalid configuration raises. *)
Definition send_health_alert (checks : list (string * string)) (c : ExternalAlertConfig) (t : transports)
    (now throttle : Z) (state : dispatch) : Outcome (list ExternalAlertDeliveryResult) * dispatch :=
  match maybe_send_dependency_health_alert checks c t now throttle state with
  | (Some results, state') => (Ok results, state')
  | (None, state') =>
      (Raise (ExternalAlertDeliveryError
         ("external alert config invalid: " +:+ str_join ", " (validation_errors (build_external_alert_plan c)))), state')
  end.

Definition run_dependency_health_monitor_tick (checks_provider : Outcome (list (string * string)))
    (c : ExternalAlertConfig) (m : DependencyHealthMonitorConfig) (t : transports) (now_seconds : Z)
    (state : dispatch) : Outcome (list ExternalAlertDeliveryResult) * dispatch :=
  let plan := build_dependency_health_monitor_plan m in
  if negb (plan_ready plan) then (Ok [], state)
  else match checks_provider with
       | Raise e => (Raise e, state)
       | Ok checks => send_health_alert checks c t now_seconds (plan_throttle plan) state
       end.

Definition text_items (d : dict) : list (string * string) :=
  flat_map (λ kv, match kv.2 with VStr v => [(kv.1, v)] | _ => [] end) d.

Definition collect_dependency_health (p : Probe) : Outcome (list (string * string)) :=
  match dependency_health_check p with
  | Ok checks => Ok checks
  | Raise (HTTPException _ (VDict detail) _) => Ok (text_items detail)
  | Raise (HTTPException _ _ _) => Ok [("status", "degraded"); ("backend", "unavailable")]
  | Raise e => Raise e
  end.

Definition run_dependency_health_monitor_once (s : AppSettings) (p : Probe) (t : transports) (now_seconds : Z)
    (state : dispatch) : Outcome (list ExternalAlertDeliveryResult) * dispatch :=
  run_dependency_health_monitor_tick (collect_dependency_health p) (external_alert_config_from_settings s)
    (dependency_monitor_config_from_settings s) t now_seconds state.

(** One turn of [run_dependency_health_monitor_forever]: what the clock and the probe
    show, and the clock again where the turn fails. *)
Record Turn := { tu_now : Z; tu_probe : Probe; tu_error_now : Z }.

(** The results of a turn, [None] where it failed, the seconds it sleeps and the state. *)
Definition monitor_turn (s : AppSettings) (t : transports) (tu : Turn) (state : dispatch) :
    option (list ExternalAlertDeliveryResult) * Z * dispatch :=
  let pause := Z.max (mon_interval (dependency_monitor_config_from_settings s)) 1 in
  match run_dependency_health_monitor_once s (tu_probe tu) t (tu_now tu) state with
  | (Ok results, state') => (Some results, pause, state')
  | (Raise _, state') => (None, pause, dict_set "last_monitor_error_at" (tu_error_now tu) state')
  end.

(** The times of the turns that sent an alert, over the first turns of the loop. *)
Fixpoint monitor_sends (s : AppSettings) (t : transports) (turns : list Turn) (state : dispatch) : list Z :=
  match turns with
  | [] => []
  | tu :: turns' =>
      let '(r, _, state') := monitor_turn s t tu state in
      match r with
      | Some (_ :: _) => tu_now tu :: monitor_sends s t turns' state'
      | _ => monitor_sends s t turns' state'
      end
  end.

(** ** The delivery test *)

Definition build_external_alert_smoke_test_event : ExternalAlertEvent :=
  {| ev_severity := "info"; ev_title := "External alert smoke test";
     ev_message := "Synthetic operational alert delivery test.";
     ev_metadata := [("component", "external_alerts"); ("event_type", "smoke_test")] |}.

Definition run_external_alert_smoke_test (s : AppSettings) (t : transports) :
    option (list ExternalAlertDeliveryResult) :=
  send_external_alert (external_alert_config_from_settings s) build_external_alert_smoke_test_event t.

Definition channel_value (ch : ExternalAlertChannel) : string :=
  match ch with TELEGRAM_CHANNEL => "telegram" | EMAIL_CHANNEL => "email" | WEBHOOK_CHANNEL => "webhook" end.

(** The exit code and what is printed; [None] is the exception of an invalid configuration. *)
Definition smoke_test_main (s : AppSettings) (t : transports) : option (Z * list string) :=
  match run_external_alert_smoke_test s t with
  | None => None
  | Some [] => Some (0%Z, ["No external alert channels are enabled."])
  | Some results =>
      Some (if existsb (λ r, negb (res_delivered r)) results then 1%Z else 0%Z,
            map (λ r, channel_value (res_channel r) +:+ ": " +:+
                      (if res_delivered r then "delivered" else "failed")) results)
  end.

(** ** The metrics can be read *)

(** The reader of label values in the exposition format: up to the closing quote, with
    the three escapes undone. *)
Fixpoint read_label_value (s : string) : option (string * string) :=
  match s with
  | "" => None
  | String c r =>
      if Ascii.eqb c double_quote then Some ("", r)
      else if Ascii.eqb c "\"
      then match r with
           | "" => None
           | String d r' =>
               '(v, rest) ← read_label_value r'; Some (String (if Ascii.eqb d "n" then "010" else d) v, rest)
           end
      else '(v, rest) ← read_label_value r; Some (String c v, rest)
  end.

Definition escape_char (c : ascii) : string :=
  if Ascii.eqb c "\" then "\\" else if Ascii.eqb c "010" then "\n"
  else if Ascii.eqb c double_quote then String "\" (String double_quote "") else String c "".

Lemma escape_replace_app x new a b : replace_char x new (a +:+ b) = replace_char x new a +:+ replace_char x new b.
Proof.
  induction a as [|c a IH]; [by rewrite !app_str_nil_l|]. rewrite app_str_cons. cbn [replace_char].
  by rewrite IH, app_str_assoc.
Qed.

Lemma escape_cons c r : _escape_label_value (String c r) = escape_char c +:+ _escape_label_value r.
Proof.
  unfold _escape_label_value. cbn [replace_char]. rewrite !escape_replace_app. f_equal.
  unfold escape_char. destruct (Ascii.eqb_spec c "\") as [->|H1]; [reflexivity|].
  cbn [replace_char]. destruct (Ascii.eqb_spec c "010") as [->|H2]; [reflexivity|].
  rewrite app_str_nil_r. cbn [replace_char]. by destruct (Ascii.eqb c double_quote).
Qed.

Lemma read_escaped v rest : read_label_value (_escape_label_value v +:+ String double_quote rest) = Some (v, rest).
Proof.
  induction v as [|c v IH]; [reflexivity|]. rewrite escape_cons, <- app_str_assoc. unfold escape_char.
  destruct (Ascii.eqb_spec c "\") as [->|H1];
    [|destruct (Ascii.eqb_spec c "010") as [->|H2]; [|destruct (Ascii.eqb_spec c double_quote) as [->|H3]]].
  1,2,3: rewrite !app_str_cons, app_str_nil_l; cbn [read_label_value]; rewrite IH; reflexivity.
  rewrite app_str_cons, app_str_nil_l. cbn [read_label_value].
  rewrite (proj2 (Ascii.eqb_neq _ _) H3), (proj2 (Ascii.eqb_neq _ _) H1), IH. done.
Qed.

Fixpoint read_label_name (s : string) : option (string * string) :=
  match s with
  | "" => None
  | String c r => if Ascii.eqb c "=" then Some ("", r) else '(k, rest) ← read_label_name r; Some (String c k, rest)
  end.

(** At most [n] labels. *)
Fixpoint read_labels (n : nat) (s : string) : option (list (string * string)) :=
  match n with
  | O => None
  | S n' =>
      '(k, r) ← read_label_name s;
      match r with
      | "" => None
      | String q r' =>
          if Ascii.eqb q double_quote
          then '(v, rest) ← read_label_value r';
               match rest with
               | "" => Some [(k, v)]
               | String c rest' => if Ascii.eqb c "," then l ← read_labels n' rest'; Some ((k, v) :: l) else None
               end
          else None
      end
  end.

Lemma read_name k r : no_char "=" k = true → read_label_name (k +:+ "=" +:+ r) = Some (k, r).
Proof.
  unfold no_char. induction k as [|c k IH]; [intros _; rewrite app_str_nil_l; reflexivity|].
  cbn [str_forall]. intros [Hc Hk]%andb_true_iff. apply negb_true_iff in Hc. rewrite app_str_cons. cbn [read_label_name].
  by rewrite Hc, (IH Hk).
Qed.

Lemma label_app kv rest :
  label kv +:+ rest = kv.1 +:+ "=" +:+ String double_quote (_escape_label_value kv.2 +:+ String double_quote rest).
Proof. unfold label. by rewrite <- !app_str_assoc, !app_str_cons, <- app_str_assoc, app_str_cons, !app_str_nil_l. Qed.

Lemma read_labels_text kvs :
  kvs ≠ [] → Forall (λ kv, no_char "=" kv.1 = true) kvs → read_labels (length kvs) (_labels kvs) = Some kvs.
Proof.
  intros Hne. induction 1 as [|[k v] kvs Hk Hkvs IH]; [done|]. unfold _labels in *.
  change (length ((k, v) :: kvs)) with (S (length kvs)). cbn [map] in *.
  destruct kvs as [|kv kvs].
  - cbn [map str_join length]. rewrite <- (app_str_nil_r (label (k, v))), label_app. cbn [read_labels fst snd].
    rewrite read_name by done. cbn. by rewrite read_escaped.
  - cbn [map] in IH |- *. rewrite str_join_cons, label_app. cbn [read_labels fst snd]. rewrite read_name by done.
    cbn [mbind option_bind]. rewrite Ascii.eqb_refl, app_str_cons, app_str_nil_l, read_escaped. cbn [mbind option_bind].
    by rewrite IH.
Qed.

Lemma escape_one_line v : no_char "010" (_escape_label_value v) = true.
Proof.
  unfold _escape_label_value. apply replace_char_keeps; [done|]. by apply replace_char_removes.
Qed.

Lemma label_one_line kv : no_char "010" kv.1 = true → no_char "010" (label kv) = true.
Proof.
  intros Hk. unfold label. rewrite !no_char_app, Hk.
  change (no_char "010" (_escape_label_value kv.2 +:+ String double_quote "") = true).
  by rewrite no_char_app, escape_one_line.
Qed.

(** Whatever the application's name, version and environment contain, the metrics have
    their ten lines and no other, and the labels read back, by the rules of the exposition
    format, as exactly those three values. *)
Theorem metrics_readable s :
  split_on "010" (build_metrics_text s) = metrics_lines s ∧
  metrics_lines s !! 2%nat = Some ("trading_app_info{" +:+ _labels (app_labels s) +:+ "} 1") ∧
  read_labels 3 (_labels (app_labels s)) = Some (app_labels s).
Proof.
  split; [|split; [done|by apply (read_labels_text (app_labels s)); [done|repeat constructor]]].
  apply split_on_join; [done|]. unfold metrics_lines. do 2 (constructor; [done|]). constructor; [|do 5 (constructor; [done|]); constructor; [|by repeat constructor]].
  - rewrite !no_char_app. unfold _labels. rewrite no_char_join; [done|done|]. apply Forall_fmap.
    repeat constructor; by apply label_one_line.
  - rewrite no_char_app. by destruct (s_testnet_adapters_enabled s).
Qed.

(** ** The monitor *)

(** The monitor is switched on and can deliver. *)
Definition watching (s : AppSettings) : Prop :=
  plan_ready (build_dependency_health_monitor_plan (dependency_monitor_config_from_settings s)) = true ∧
  enabled_channels (build_external_alert_plan (external_alert_config_from_settings s)) ≠ [] ∧
  validation_errors (build_external_alert_plan (external_alert_config_from_settings s)) = [].

(** The alert of an outage names what is down. *)
Definition outage_alert (database redis : bool) : ExternalAlertEvent :=
  {| ev_severity := "warning"; ev_title := "Service dependency health degraded";
     ev_message := "One or more platform dependencies are not healthy.";
     ev_metadata := [("component", "health_check"); ("status", "degraded");
       ("affected_dependencies", str_join "," ((if database then [] else ["database"]) ++ (if redis then [] else ["redis"])))] |}.

Lemma collect_checks p redis : redis_up p = inr redis → collect_dependency_health p = Ok (checks_of (database_up p) redis).
Proof.
  intros Hr. unfold collect_dependency_health, dependency_health_check. rewrite Hr. by destruct (database_up p), redis.
Qed.

Lemma outage_event database redis :
  build_dependency_health_alert (checks_of database redis) =
  if database && redis then None else Some (outage_alert database redis).
Proof. by destruct database, redis. Qed.

Lemma send_ready c e t :
  enabled_channels (build_external_alert_plan c) ≠ [] → validation_errors (build_external_alert_plan c) = [] →
  ∃ r rs, send_external_alert c e t = Some (r :: rs).
Proof.
  intros Hc Hv. unfold send_external_alert. rewrite Hv. destruct (enabled_channels _) as [|ch chs]; [done|]. cbn. eauto.
Qed.

(** One turn, in full. *)
Lemma once_outcome s p redis t now state :
  watching s → redis_up p = inr redis →
  run_dependency_health_monitor_once s p t now state =
    if database_up p && redis then (Ok [], state)
    else if _is_throttled state "dependency_health" now (s_dependency_health_alert_throttle_seconds s)
    then (Ok [], state)
    else (Ok (default [] (send_external_alert (external_alert_config_from_settings s)
                            (outage_alert (database_up p) redis) t)),
          dict_set "dependency_health" now state).
Proof.
  intros (Hp & Hc & Hv) Hr. unfold run_dependency_health_monitor_once, run_dependency_health_monitor_tick. rewrite Hp.
  cbn [negb]. rewrite (collect_checks p redis) by done.
  unfold send_health_alert, maybe_send_dependency_health_alert. rewrite outage_event.
  destruct (database_up p && redis); [done|]. unfold maybe_send. cbn [plan_throttle build_dependency_health_monitor_plan
    mon_throttle dependency_monitor_config_from_settings]. destruct (_is_throttled _ _ _ _); [done|].
  destruct (send_ready (external_alert_config_from_settings s) (outage_alert (database_up p) redis) t Hc Hv) as (r & rs & E).
  by rewrite E.
Qed.

(** A turn of a working monitor sends nothing while the database and Redis answer; in
    an outage it tries every enabled channel with an alert that names exactly what is down,
    unless an alert was sent within the throttle interval; it remembers when it sent. *)
Theorem monitor_turn_outcome s p redis t now state :
  watching s → redis_up p = inr redis →
  run_dependency_health_monitor_once s p t now state =
    if database_up p && redis then (Ok [], state)
    else if _is_throttled state "dependency_health" now (s_dependency_health_alert_throttle_seconds s)
    then (Ok [], state)
    else (Ok (default [] (send_external_alert (external_alert_config_from_settings s)
                            (outage_alert (database_up p) redis) t)),
          dict_set "dependency_health" now state).
Proof. apply once_outcome. Qed.

Definition degraded (p : Probe) : Prop := ∃ redis, redis_up p = inr redis ∧ database_up p && redis = false.

(** Whether the last alert of a run, or the one before it, is recent at some moment. *)
Definition recent (throttle now last : Z) : Prop := last = now ∨ (now - last < throttle)%Z.

Lemma turn_outage s t tu state :
  watching s → degraded (tu_probe tu) →
  let '(r, _, state') := monitor_turn s t tu state in
  (∃ x l, r = Some (x :: l)) ∨
  r = Some [] ∧ ∃ last, dict_lookup "dependency_health" state = Some last ∧
    recent (s_dependency_health_alert_throttle_seconds s) (tu_now tu) last.
Proof.
  intros Hw (redis & Hr & Hd). unfold monitor_turn. rewrite (once_outcome s _ redis) by done. rewrite Hd.
  destruct (_is_throttled _ _ _ _) eqn:Et.
  - right. split; [done|]. unfold _is_throttled in Et. destruct (_ <=? 0)%Z; [done|].
    destruct (dict_lookup _ _) as [last|]; [|done]. exists last. split; [done|right]. lia.
  - left. destruct Hw as (_ & Hc & Hv).
    destruct (send_ready _ (outage_alert (database_up (tu_probe tu)) redis) t Hc Hv) as (r & rs & ->). by eexists _, _.
Qed.

(** What the state remembers is an alert of the past. *)
Lemma turn_state s t tu state last :
  watching s →
  let '(r, _, state') := monitor_turn s t tu state in
  dict_lookup "dependency_health" state' = Some last →
  (∃ x l, r = Some (x :: l)) ∧ last = tu_now tu ∨ dict_lookup "dependency_health" state = Some last.
Proof.
  intros Hw. unfold monitor_turn. destruct (redis_up (tu_probe tu)) as [m|redis] eqn:Hr.
  - unfold run_dependency_health_monitor_once, run_dependency_health_monitor_tick. destruct Hw as (Hp & _). rewrite Hp.
    unfold collect_dependency_health, dependency_health_check. rewrite Hr. cbn. rewrite dict_lookup_set. by right.
  - rewrite (once_outcome s _ redis) by done. destruct (_ && _); [by right|]. destruct (_is_throttled _ _ _ _); [by right|].
    rewrite dict_lookup_set, String.eqb_refl. intros [= <-]. left. split; [|done].
    destruct Hw as (_ & Hc & Hv).
    destruct (send_ready _ (outage_alert (database_up (tu_probe tu)) redis) t Hc Hv) as (r & rs & ->). by eexists _, _.
Qed.


(** ** A concrete monitor *)

Definition demo_app_settings : AppSettings :=
  {| s_app_name := "Desk " +:+ String double_quote "A"; s_app_version := "0.1.0"; s_environment := "a\b" +:+ String "010" "c";
     s_testnet_adapters_enabled := true;
     s_telegram_alerts_enabled := true; s_telegram_bot_token := "12:ab"; s_telegram_chat_id := "99";
     s_email_alerts_enabled := false; s_smtp_host := ""; s_smtp_port := 587; s_smtp_username := "";
     s_smtp_password := ""; s_alert_email_from := ""; s_alert_email_to := "";
     s_webhook_alerts_enabled := true; s_alert_webhook_url := "https://hook.example.com/x"; s_alert_webhook_secret := "";
     s_dependency_health_monitor_enabled := true; s_dependency_health_monitor_interval_seconds := 60;
     s_dependency_health_alert_throttle_seconds := 300 |}.

Definition no_failure : transports := λ _ _ _, None.
Definition down (now : Z) : Turn := Build_Turn now (Build_Probe true (inr false)) now.
(** Redis goes down, its URL is broken for a while, the outage lasts. *)
Definition outage : list Turn :=
  [down 1000; down 1060; Build_Turn 1120 (Build_Probe false (inl "bad URL")) 1121; down 1180; down 1290; down 1350; down 1660].

Example outage_run :
  monitor_sends demo_app_settings no_failure outage [] = [1000; 1350; 1660]%Z ∧
  map fst (snd (monitor_turn demo_app_settings no_failure (Build_Turn 1120 (Build_Probe false (inl "bad URL")) 1121) [])) =
    ["last_monitor_error_at"].
Proof. by vm_compute. Qed.

Lemma demo_watching : watching demo_app_settings.
Proof. by repeat split. Qed.


Lemma monitor_turn_outcome_witness :
  run_dependency_health_monitor_once demo_app_settings (Build_Probe false (inr false)) no_failure 1000 [] =
  (Ok [Build_ExternalAlertDeliveryResult TELEGRAM_CHANNEL true ""; Build_ExternalAlertDeliveryResult WEBHOOK_CHANNEL true ""],
   [("dependency_health", 1000%Z)]).
Proof.
  etrans; [exact (monitor_turn_outcome demo_app_settings (Build_Probe false (inr false)) false no_failure 1000 []
    demo_watching eq_refl)|reflexivity].
Defined.
