(* ===== verification/Backups.v ===== *)
(** Backups of the database: the plan of a dump in [services/postgres_backup.py], the check
    of a dump file in [services/postgres_restore_drill.py] and the deletion of old ones in
    [scripts/backup/retention_cleanup.py], over a file system with symbolic links.

    [pg_dump] itself is an interface; printing is left out, and so is what [argparse] does.
    A path is a canonical directory and a name in it. *)
From S2P Require Import Prelude PyStr PyValue Json Models Session Alerts Delivery.
From Stdlib Require Import Ascii.
Open Scope Z_scope.

(** ** [datetime.date] *)

Record date := { year : Z; month : Z; day : Z }.

Definition is_leap (y : Z) : bool := (y mod 4 =? 0) && (negb (y mod 100 =? 0) || (y mod 400 =? 0)).

Definition days_in_month (y m : Z) : Z :=
  if m =? 2 then (if is_leap y then 29 else 28)
  else if (m =? 4) || (m =? 6) || (m =? 9) || (m =? 11) then 30 else 31.

(** What the constructor accepts. *)
Definition valid_date (d : date) : bool :=
  (1 <=? year d) && (year d <=? 9999) && (1 <=? month d) && (month d <=? 12) &&
  (1 <=? day d) && (day d <=? days_in_month (year d) (month d)).

Definition days_before_year (y : Z) : Z := (y - 1) * 365 + (y - 1) / 4 - (y - 1) / 100 + (y - 1) / 400.
Definition days_before_month (y m : Z) : Z :=
  foldr (λ k acc, (if Z.of_nat k <? m then days_in_month y (Z.of_nat k) else 0) + acc) 0 (seq 1 12).
Definition toordinal (d : date) : Z := days_before_year (year d) + days_before_month (year d) (month d) + day d.

(** [datetime.strptime(text, "%Y%m%d").date()] on eight digits: any other reading of the
    digits leaves some over, which is refused. *)
Definition strptime_ymd (text : string) : option date :=
  let number a n := Z.of_N (numeral_val (str_take n (str_drop a text))) in
  let d := Build_date (number 0%nat 4%nat) (number 4%nat 2%nat) (number 6%nat 2%nat) in
  if valid_date d then Some d else None.

(** [f"{d:%Y%m%d}"]; the C library does not pad the year. *)
Definition two_digits (z : Z) : string := if z <? 10 then "0" +:+ str_of_Z z else str_of_Z z.
Definition ymd_text (d : date) : string := str_of_Z (year d) +:+ two_digits (month d) +:+ two_digits (day d).

(** ** The file system *)

Definition path := (string * string)%type.
Definition path_str (p : path) : string := p.1 +:+ "/" +:+ p.2.

Inductive Node := File (content : string) | Directory | Symlink (target : path).

#[export] Instance Node_eq_dec : EqDecision Node.
Proof. solve_decision. Defined.

(** The directories by path ([false]: something else is there) and what is in them. *)
Record Fs := { fs_dirs : gmap string bool; fs_nodes : gmap path Node }.

Fixpoint follow_from (fuel : nat) (fs : Fs) (p : path) : option path :=
  match fuel with
  | O => None
  | S fuel' =>
      match fs_nodes fs !! p with
      | None => None
      | Some (Symlink q) => follow_from fuel' fs q
      | Some _ => Some p
      end
  end.

(** [path.resolve()] of a path that leads to something; a chain of links that does not end
    after as many as there are nodes is a loop. *)
Definition follow (fs : Fs) (p : path) : option path := follow_from (S (size (fs_nodes fs))) fs p.

Definition is_file (fs : Fs) (p : path) : option path :=
  match follow fs p with
  | Some q => match fs_nodes fs !! q with Some (File _) => Some q | _ => None end
  | None => None
  end.

(** [directory.iterdir()], in some order *)
Definition iterdir (fs : Fs) (directory : string) : list path :=
  List.filter (λ p, String.eqb p.1 directory) (map fst (map_to_list (fs_nodes fs))).

Definition unlink (fs : Fs) (p : path) : Outcome Fs :=
  match fs_nodes fs !! p with
  | None => Raise (OSError "No such file or directory")
  | Some _ => Ok {| fs_dirs := fs_dirs fs; fs_nodes := delete p (fs_nodes fs) |}
  end.

(** ** [scripts/backup/retention_cleanup.py] *)

(** [re.compile(r"^backup_(\d{8})\.sql$").match(name)]; [$] also matches before a line end
    that ends the text. *)
Definition match_backup_name (name : string) : option string :=
  if startswith "backup_" name then
    let digits := str_take 8 (str_drop 7 name) in
    let rest := str_drop 15 name in
    if (String.length digits =? 8)%nat && str_forall is_digit digits &&
       (String.eqb rest ".sql" || String.eqb rest (".sql" +:+ String "010" ""))
    then Some digits else None
  else None.

Definition parse_backup_date (p : path) : option date :=
  match match_backup_name p.2 with None => None | Some digits => strptime_ymd digits end.

Record BackupCleanupCandidate := { cand_path : path; cand_date : date; cand_age_days : Z }.
Record BackupCleanupResult := {
  clean_expired : list BackupCleanupCandidate; clean_deleted : list path; clean_dry_run : bool }.

Definition retention_error {A} (m : string) : Outcome A := Raise (BackupRetentionCleanupError m).

Definition candidate_of (fs : Fs) (reference : date) (p : path) : list BackupCleanupCandidate :=
  match is_file fs p with
  | None => []
  | Some q =>
      match parse_backup_date p with
      | None => []
      | Some d => [{| cand_path := q; cand_date := d; cand_age_days := toordinal reference - toordinal d |}]
      end
  end.

(** Dates are compared by their ordinals: see [toordinal_order]. *)
Definition find_backup_candidates (fs : Fs) (backup_dir : string) (reference : date) :
    Outcome (list BackupCleanupCandidate) :=
  match fs_dirs fs !! backup_dir with
  | None => retention_error ("Backup directory does not exist: " +:+ backup_dir)
  | Some false => retention_error ("Backup path is not a directory: " +:+ backup_dir)
  | Some true =>
      Ok (sort_by (λ a b, toordinal (cand_date a) <=? toordinal (cand_date b))
            (flat_map (candidate_of fs reference) (iterdir fs backup_dir)))
  end.

(** A [timedelta] has at most 999999999 days and a [date] is not before year 1. *)
Definition cutoff_ordinal (reference : date) (retention_days : Z) : Outcome Z :=
  if 999999999 <? retention_days then Raise (OverflowError "days out of range")
  else let cutoff := toordinal reference - retention_days in
       if cutoff <? 1 then Raise (OverflowError "date value out of range") else Ok cutoff.

Definition select_expired_backups (fs : Fs) (backup_dir : string) (retention_days : Z) (now : date) :
    Outcome (list BackupCleanupCandidate) :=
  if retention_days <? 1 then retention_error "Retention days must be at least 1"
  else
    outcome_bind (cutoff_ordinal now retention_days) (λ cutoff,
    outcome_bind (find_backup_candidates fs backup_dir now) (λ candidates,
    Ok (List.filter (λ c, toordinal (cand_date c) <? cutoff) candidates))).

(** The loop over the expired ones; the file system as it is when the loop ends. *)
Fixpoint delete_candidates (fs : Fs) (cs : list BackupCleanupCandidate) : Outcome unit * Fs :=
  match cs with
  | [] => (Ok tt, fs)
  | c :: cs' =>
      match parse_backup_date (cand_path c) with
      | None => (retention_error ("Refusing to delete non-backup file: " +:+ path_str (cand_path c)), fs)
      | Some _ =>
          match unlink fs (cand_path c) with
          | Raise e => (Raise e, fs)
          | Ok fs' => delete_candidates fs' cs'
          end
      end
  end.

Definition cleanup_expired_backups (fs : Fs) (backup_dir : string) (retention_days : Z) (dry_run : bool)
    (now : date) : Outcome BackupCleanupResult * Fs :=
  match select_expired_backups fs backup_dir retention_days now with
  | Raise e => (Raise e, fs)
  | Ok expired =>
      if dry_run then (Ok (Build_BackupCleanupResult expired [] true), fs)
      else match delete_candidates fs expired with
           | (Ok _, fs') => (Ok (Build_BackupCleanupResult expired (map cand_path expired) false), fs')
           | (Raise e, fs') => (Raise e, fs')
           end
  end.

(** The exit code of the command; [None] is an exception it does not catch. *)
Definition cleanup_main (fs : Fs) (backup_dir : string) (retention_days : Z) (apply : bool) (now : date) :
    option Z * Fs :=
  match cleanup_expired_backups fs backup_dir retention_days (negb apply) now with
  | (Ok _, fs') => (Some 0, fs')
  | (Raise (BackupRetentionCleanupError _), fs') => (Some 1, fs')
  | (Raise _, fs') => (None, fs')
  end.

(** ** [services/postgres_backup.py] *)

Record PostgresBackupConfig := {
  bk_host : string; bk_port : Z; bk_database : string; bk_username : string; bk_password : string;
  bk_output_dir : string; bk_filename_prefix : string }.

Definition DEFAULT_BACKUP_PREFIX : string := "backup".

Record PostgresBackupPlan := { bp_command : list string; bp_env : list (string * string); bp_output_path : path }.

Definition _validate_config (c : PostgresBackupConfig) : Outcome unit :=
  let missing := map fst (List.filter (λ kv, String.eqb kv.2 "")
    [("host", bk_host c); ("database", bk_database c); ("username", bk_username c);
     ("password", bk_password c); ("filename_prefix", bk_filename_prefix c)]) in
  match missing with
  | _ :: _ => Raise (ValueError ("missing PostgreSQL backup config: " +:+ str_join ", " missing))
  | [] => if bk_port c <=? 0 then Raise (ValueError "PostgreSQL backup port must be positive") else Ok tt
  end.

Definition plan_pg_dump_backup (c : PostgresBackupConfig) (selected_date : date) : Outcome PostgresBackupPlan :=
  outcome_bind (_validate_config c) (λ _,
    let output_path := (bk_output_dir c, bk_filename_prefix c +:+ "_" +:+ ymd_text selected_date +:+ ".sql") in
    Ok {| bp_command := ["pg_dump"; "--host"; bk_host c; "--port"; str_of_Z (bk_port c); "--username"; bk_username c;
                         "--dbname"; bk_database c; "--file"; path_str output_path; "--format"; "plain";
                         "--no-owner"; "--no-privileges"];
          bp_env := [("PGPASSWORD", bk_password c)];
          bp_output_path := output_path |}).

(** [subprocess.run] of the plan: the exit code, the standard error and what the file
    system is afterwards. *)
Definition runner := PostgresBackupPlan → Fs → Z * string * Fs.

Definition _redact_secret (value secret : string) : string :=
  if String.eqb secret "" then value else str_replace secret "***" value.

(** [output_path.parent.mkdir(parents=True, exist_ok=True)] *)
Definition make_dir (fs : Fs) (d : string) : Outcome Fs :=
  match fs_dirs fs !! d with
  | Some false => Raise (OSError "File exists")
  | _ => Ok {| fs_dirs := <[d := true]> (fs_dirs fs); fs_nodes := fs_nodes fs |}
  end.

Definition run_pg_dump_backup (c : PostgresBackupConfig) (backup_date : date) (run : runner) (fs : Fs) :
    Outcome path * Fs :=
  match plan_pg_dump_backup c backup_date with
  | Raise e => (Raise e, fs)
  | Ok plan =>
      match make_dir fs (bp_output_path plan).1 with
      | Raise e => (Raise e, fs)
      | Ok fs1 =>
          let '(returncode, stderr, fs2) := run plan fs1 in
          if negb (returncode =? 0)
          then (Raise (PostgresBackupError
                  (_redact_secret (if String.eqb stderr "" then "pg_dump failed" else stderr) (bk_password c))), fs2)
          else (Ok (bp_output_path plan), fs2)
      end
  end.

Definition exn_class (e : Exn) : string :=
  match e with PostgresBackupError _ => "PostgresBackupError" | ValueError _ => "ValueError" | _ => "Exception" end.

Definition build_postgres_backup_failure_alert (exc : Exn) : ExternalAlertEvent :=
  {| ev_severity := "critical"; ev_title := "PostgreSQL backup failed";
     ev_message := "The scheduled PostgreSQL backup job failed.";
     ev_metadata := [("component", "postgres_backup"); ("error_type", exn_class exc)] |}.

Definition postgres_backup_alerts_enabled (c : ExternalAlertConfig) : bool :=
  telegram_enabled c || email_enabled c || webhook_enabled c.

(** The command [scripts/backup/postgres_backup.py] with its settings: its exit code, the alert of a failure;
    an exception other than the two it expects leaves it ([None]). *)
Definition backup_main (c : PostgresBackupConfig) (ac : ExternalAlertConfig) (today : date) (run : runner) (t : transports)
    (fs : Fs) : option Z * option (list ExternalAlertDeliveryResult) * Fs :=
  match run_pg_dump_backup c today run fs with
  | (Ok _, fs') => (Some 0, None, fs')
  | (Raise e, fs') =>
      match e with
      | PostgresBackupError _ | ValueError _ =>
          (Some 1, if postgres_backup_alerts_enabled ac
                   then send_external_alert ac (build_postgres_backup_failure_alert e) t else None, fs')
      | _ => (None, None, fs')
      end
  end.

(** *** Its environment *)

Definition environ := string → option string.

Definition _env_bool (env : environ) (name : string) : bool :=
  str_mem (str_lower (str_strip (default "" (env name)))) ["1"; "true"; "yes"; "on"].

(** The same function is in both commands. *)
Definition _env_int (env : environ) (name : string) (d : Z) : Z :=
  match env name with
  | None => d
  | Some value => if String.eqb value "" then d else default d (int_of_str value)
  end.

Definition _required_env (env : environ) (name : string) : Outcome string :=
  match env name with
  | None => Raise (ValueError (name +:+ " is required"))
  | Some value => if String.eqb value "" then Raise (ValueError (name +:+ " is required")) else Ok value
  end.

Definition getenv (env : environ) (name d : string) : string := default d (env name).

Definition _external_alert_config_from_env (env : environ) : ExternalAlertConfig :=
  {| telegram_enabled := _env_bool env "TELEGRAM_ALERTS_ENABLED";
     telegram_bot_token := getenv env "TELEGRAM_BOT_TOKEN" ""; telegram_chat_id := getenv env "TELEGRAM_CHAT_ID" "";
     email_enabled := _env_bool env "EMAIL_ALERTS_ENABLED";
     smtp_host := getenv env "SMTP_HOST" ""; smtp_port := _env_int env "SMTP_PORT" 587;
     smtp_username := getenv env "SMTP_USERNAME" ""; smtp_password := getenv env "SMTP_PASSWORD" "";
     alert_email_from := getenv env "ALERT_EMAIL_FROM" ""; alert_email_to := getenv env "ALERT_EMAIL_TO" "";
     webhook_enabled := _env_bool env "WEBHOOK_ALERTS_ENABLED";
     webhook_url := getenv env "ALERT_WEBHOOK_URL" ""; webhook_secret := getenv env "ALERT_WEBHOOK_SECRET" "" |}.

Definition config_from_env (env : environ) (output_dir : string) : Outcome PostgresBackupConfig :=
  match int_of_str (getenv env "POSTGRES_PORT" "5432") with
  | None => Raise (ValueError ("invalid literal for int() with base 10: " +:+ str_repr (getenv env "POSTGRES_PORT" "5432")))
  | Some port =>
      outcome_bind (_required_env env "POSTGRES_DB") (λ database,
      outcome_bind (_required_env env "POSTGRES_USER") (λ username,
      outcome_bind (_required_env env "POSTGRES_PASSWORD") (λ password,
      Ok {| bk_host := getenv env "POSTGRES_HOST" "localhost"; bk_port := port; bk_database := database;
            bk_username := username; bk_password := password; bk_output_dir := output_dir;
            bk_filename_prefix := DEFAULT_BACKUP_PREFIX |})))
  end.

(** The configuration is read outside the [try]. *)
Definition backup_command (env : environ) (output_dir : string) (today : date) (run : runner) (t : transports) (fs : Fs) :
    option Z * option (list ExternalAlertDeliveryResult) * Fs :=
  match config_from_env env output_dir with
  | Raise _ => (None, None, fs)
  | Ok c => backup_main c (_external_alert_config_from_env env) today run t fs
  end.

(** ** [services/postgres_restore_drill.py] *)

Record PostgresBackupVerificationResult := {
  ver_path : path; ver_size_bytes : Z; ver_has_header : bool; ver_has_schema : bool }.

Definition ver_valid (r : PostgresBackupVerificationResult) : bool :=
  (0 <? ver_size_bytes r) && ver_has_header r && ver_has_schema r.

Definition max_sample : nat := Z.to_nat 1048576.

Definition _has_schema_statement (sample : string) : bool :=
  existsb (λ m, str_contains m sample) ["CREATE TABLE"; "CREATE SCHEMA"; "ALTER TABLE"; "COPY "; "INSERT INTO"].

Definition verify_plain_sql_backup (fs : Fs) (p : path) : Outcome PostgresBackupVerificationResult :=
  match follow fs p with
  | None => Raise (PostgresRestoreDrillError ("backup file does not exist: " +:+ path_str p))
  | Some q =>
      match fs_nodes fs !! q with
      | Some (File content) =>
          let size_bytes := Z.of_nat (String.length content) in
          if size_bytes <=? 0 then Raise (PostgresRestoreDrillError ("backup file is empty: " +:+ path_str q))
          else
            let sample := str_take max_sample content in
            let result := Build_PostgresBackupVerificationResult q size_bytes
              (str_contains "PostgreSQL database dump" sample) (_has_schema_statement sample) in
            if negb (ver_valid result)
            then Raise (PostgresRestoreDrillError "backup file failed plain SQL structure checks") else Ok result
      | _ => Raise (PostgresRestoreDrillError ("backup path is not a file: " +:+ path_str q))
      end
  end.

(** ** Dates *)

Definition earlier (a b : date) : Prop :=
  year a < year b ∨ year a = year b ∧ (month a < month b ∨ month a = month b ∧ day a < day b).

Lemma valid_date_iff d :
  valid_date d = true ↔
  1 <= year d <= 9999 ∧ 1 <= month d <= 12 ∧ 1 <= day d <= days_in_month (year d) (month d).
Proof. unfold valid_date. rewrite !andb_true_iff, !Z.leb_le. lia. Qed.

Definition year_days (y : Z) : Z := if is_leap y then 366 else 365.

Lemma days_before_year_step y : 1 <= y → days_before_year (y + 1) = days_before_year y + year_days y.
Proof.
  intros Hy. unfold days_before_year, year_days, is_leap.
  destruct (Z.eqb_spec (y mod 4) 0), (Z.eqb_spec (y mod 100) 0), (Z.eqb_spec (y mod 400) 0); cbn;
    Z.div_mod_to_equations; lia.
Qed.

Lemma days_before_year_mono y y' : 1 <= y → y < y' → days_before_year y + year_days y <= days_before_year y'.
Proof.
  intros Hy Hlt. replace y' with (y + 1 + Z.of_nat (Z.to_nat (y' - y - 1))) by lia.
  induction (Z.to_nat (y' - y - 1)) as [|k IH].
  - rewrite Z.add_0_r, days_before_year_step; lia.
  - rewrite Nat2Z.inj_succ. replace (y + 1 + Z.succ (Z.of_nat k)) with (y + 1 + Z.of_nat k + 1) by lia.
    rewrite (days_before_year_step (y + 1 + Z.of_nat k)) by lia. unfold year_days at 2. case_match; lia.
Qed.

Ltac month_cases m :=
  assert (m = 1 ∨ m = 2 ∨ m = 3 ∨ m = 4 ∨ m = 5 ∨ m = 6 ∨ m = 7 ∨ m = 8 ∨ m = 9 ∨ m = 10 ∨ m = 11 ∨ m = 12) as Hm by lia;
  repeat destruct Hm as [->|Hm]; try subst m.

Lemma days_before_month_mono y m m' :
  1 <= m <= 12 → 1 <= m' <= 12 → m < m' → days_before_month y m + days_in_month y m <= days_before_month y m'.
Proof.
  intros H1 H2 Hlt. unfold days_before_month, days_in_month. destruct (is_leap y).
  all: month_cases m; month_cases m'; first [lia|by vm_compute].
Qed.

Lemma days_before_month_year y m :
  1 <= m <= 12 → days_before_month y m + days_in_month y m <= year_days y.
Proof. intros H1. unfold days_before_month, days_in_month, year_days. destruct (is_leap y); month_cases m; by vm_compute. Qed.

Lemma days_before_month_nonneg y m : 0 <= days_before_month y m.
Proof.
  unfold days_before_month. induction (seq 1 12) as [|k l IH]; cbn [foldr]; [lia|].
  assert (0 <= days_in_month y (Z.of_nat k)) by (unfold days_in_month; repeat case_match; lia). case_match; lia.
Qed.

(** Comparing ordinals is comparing years, months and days. *)
Lemma toordinal_order a b : valid_date a = true → valid_date b = true → earlier a b → toordinal a < toordinal b.
Proof.
  intros (Hya & Hma & Hda)%valid_date_iff (Hyb & Hmb & Hdb)%valid_date_iff. unfold toordinal.
  pose proof (days_before_month_nonneg (year b) (month b)).
  intros [Hy|(Hy & [Hm|(Hm & Hd)])].
  - pose proof (days_before_year_mono (year a) (year b)). pose proof (days_before_month_year (year a) (month a)). lia.
  - rewrite <- Hy in *. pose proof (days_before_month_mono (year a) (month a) (month b)). lia.
  - rewrite <- Hy, <- Hm. lia.
Qed.

Example ordinals :
  toordinal (Build_date 1 1 1) = 1 ∧ toordinal (Build_date 2026 7 11) = 739808 ∧ toordinal (Build_date 9999 12 31) = 3652059.
Proof. by vm_compute. Qed.

(** ** Names of backups *)

Lemma str_take_app a b : str_take (String.length a) (a +:+ b) = a.
Proof. induction a as [|c a IH]; [by rewrite app_str_nil_l|]. rewrite app_str_cons. cbn [String.length str_take]. by rewrite IH. Qed.

(** A number of [n] digits. *)
Definition digits_ok (n : nat) (text : string) (z : Z) : bool :=
  (String.length text =? n)%nat && str_forall is_digit text && (Z.of_N (numeral_val text) =? z).

Lemma digits_ok_iff n text z :
  digits_ok n text z = true ↔ String.length text = n ∧ str_forall is_digit text = true ∧ Z.of_N (numeral_val text) = z.
Proof. unfold digits_ok. rewrite !andb_true_iff, Nat.eqb_eq, Z.eqb_eq. tauto. Qed.

Lemma two_digits_ok z : 1 <= z <= 31 → digits_ok 2 (two_digits z) z = true.
Proof.
  intros Hz. assert (forallb (λ k, digits_ok 2 (two_digits (Z.of_nat k)) (Z.of_nat k)) (seq 1 31) = true) as Hall
    by by vm_compute.
  rewrite forallb_forall in Hall. specialize (Hall (Z.to_nat z)). rewrite Z2Nat.id in Hall by lia. apply Hall, in_seq. lia.
Qed.


Lemma year_ok y : 1000 <= y <= 9999 → digits_ok 4 (str_of_Z y) y = true.
Proof.
  intros Hy. assert (forallb (λ k, digits_ok 4 (str_of_Z (1000 + Z.of_nat k)) (1000 + Z.of_nat k)) (seq 0 (90 * 100)) = true) as Hall
    by by vm_compute.
  rewrite forallb_forall in Hall. specialize (Hall (Z.to_nat (y - 1000))). rewrite Z2Nat.id in Hall by lia.
  replace (1000 + (y - 1000)) with y in Hall by lia. apply Hall, in_seq. lia.
Qed.

Lemma strptime_text d : valid_date d = true → 1000 <= year d → strptime_ymd (ymd_text d) = Some d.
Proof.
  intros Hv Hy. pose proof Hv as (Hyr & Hm & Hd)%valid_date_iff.
  assert (day d <= 31) by (unfold days_in_month in Hd; repeat case_match; lia).
  destruct (digits_ok_iff 4 (str_of_Z (year d)) (year d)) as [(L1 & _ & V1) _]; [apply year_ok; lia|].
  destruct (digits_ok_iff 2 (two_digits (month d)) (month d)) as [(L2 & _ & V2) _]; [apply two_digits_ok; lia|].
  destruct (digits_ok_iff 2 (two_digits (day d)) (day d)) as [(L3 & _ & V3) _]; [apply two_digits_ok; lia|].
  unfold strptime_ymd, ymd_text. set (a := str_of_Z (year d)) in *. set (b := two_digits (month d)) in *.
  set (c := two_digits (day d)) in *.
  assert (str_take 4 (str_drop 0 (a +:+ b +:+ c)) = a) as E1 by (rewrite <- L1; apply str_take_app).
  assert (str_take 2 (str_drop 4 (a +:+ b +:+ c)) = b) as E2 by (rewrite <- L1, <- L2, str_drop_app; apply str_take_app).
  assert (str_take 2 (str_drop 6 (a +:+ b +:+ c)) = c) as E3.
  { replace 6%nat with (String.length (a +:+ b)) by (rewrite str_length_app, L1, L2; done).
    rewrite app_str_assoc, str_drop_app, <- L3. rewrite <- (app_str_nil_r c) at 2. apply str_take_app. }
  rewrite E1, E2, E3, V1, V2, V3. destruct d; cbn in *. by rewrite Hv.
Qed.

Lemma ymd_text_digits d : valid_date d = true → 1000 <= year d →
  String.length (ymd_text d) = 8%nat ∧ str_forall is_digit (ymd_text d) = true.
Proof.
  intros (Hyr & Hm & Hd)%valid_date_iff Hy.
  assert (day d <= 31) by (unfold days_in_month in Hd; repeat case_match; lia).
  destruct (digits_ok_iff 4 (str_of_Z (year d)) (year d)) as [(L1 & D1 & _) _]; [apply year_ok; lia|].
  destruct (digits_ok_iff 2 (two_digits (month d)) (month d)) as [(L2 & D2 & _) _]; [apply two_digits_ok; lia|].
  destruct (digits_ok_iff 2 (two_digits (day d)) (day d)) as [(L3 & D3 & _) _]; [apply two_digits_ok; lia|].
  unfold ymd_text. by rewrite !str_length_app, L1, L2, L3, !str_forall_app, D1, D2, D3.
Qed.

Lemma backup_name_date directory d : valid_date d = true → 1000 <= year d →
  parse_backup_date (directory, "backup" +:+ "_" +:+ ymd_text d +:+ ".sql") = Some d.
Proof.
  intros Hv Hy. destruct (ymd_text_digits d Hv Hy) as [Hl Hd]. unfold parse_backup_date, match_backup_name. cbn [snd].
  change ("backup" +:+ "_" +:+ ?r) with ("backup_" +:+ r). unfold startswith at 1. rewrite prefix_app.
  change (str_drop 7 ("backup_" +:+ ?r)) with r. change (str_drop 15 ("backup_" +:+ ?r)) with (str_drop 8 r).
  rewrite <- Hl, str_take_app, str_drop_app, Nat.eqb_refl, Hd. cbn. by apply strptime_text.
Qed.

(** The name of a backup says when it was made: what the dump of a day is called under
    the default prefix, the cleanup reads as a backup of exactly that day. *)
Theorem backup_name_roundtrip c d plan :
  bk_filename_prefix c = DEFAULT_BACKUP_PREFIX → valid_date d = true → 1000 <= year d →
  plan_pg_dump_backup c d = Ok plan → parse_backup_date (bp_output_path plan) = Some d.
Proof.
  intros Hp Hv Hy. unfold plan_pg_dump_backup. destruct (_validate_config c) as [[]|]; [|done].
  cbn [outcome_bind]. intros [= <-]. cbn [bp_output_path]. rewrite Hp. by apply backup_name_date.
Qed.

(** ** What a cleanup deletes *)

Lemma follow_from_end fuel fs p q : follow_from fuel fs p = Some q → ∃ n, fs_nodes fs !! q = Some n ∧ ∀ r, n ≠ Symlink r.
Proof.
  revert p. induction fuel as [|fuel IH]; intros p; cbn; [done|].
  destruct (fs_nodes fs !! p) as [[content| |r]|] eqn:E; try done; [| |apply IH]; intros [= <-]; eauto.
Qed.

Lemma is_file_Some fs p q : is_file fs p = Some q → follow fs p = Some q ∧ ∃ content, fs_nodes fs !! q = Some (File content).
Proof.
  unfold is_file. destruct (follow fs p) as [r|] eqn:E; [|done]. destruct (fs_nodes fs !! r) as [[content| |]|] eqn:En; try done.
  intros [= <-]. split; [done|]. by exists content.
Qed.

(** The links and files that count as an expired backup, with the file they lead to. *)
Definition expired_entry (fs : Fs) (backup_dir : string) (retention_days : Z) (now : date) (p q : path) : Prop :=
  p.1 = backup_dir ∧ is_file fs p = Some q ∧
  ∃ d, parse_backup_date p = Some d ∧ toordinal d + retention_days < toordinal now.

Lemma select_expired fs backup_dir n now cs q :
  select_expired_backups fs backup_dir n now = Ok cs →
  (∃ c, c ∈ cs ∧ cand_path c = q) ↔ ∃ p, expired_entry fs backup_dir n now p q.
Proof.
  unfold select_expired_backups, cutoff_ordinal. repeat case_match; try done. cbn [outcome_bind].
  unfold find_backup_candidates. destruct (fs_dirs fs !! backup_dir) as [[]|]; try done. cbn [outcome_bind]. intros [= <-].
  split.
  - intros (c & [Hc Hlt%Z.ltb_lt]%list_elem_of_In%List.filter_In & <-).
    apply list_elem_of_In in Hc. rewrite sort_by_perm in Hc. apply list_elem_of_In, in_flat_map in Hc as (p & Hp & Hc).
    apply List.filter_In in Hp as [_ Hp%String.eqb_eq]. unfold candidate_of in Hc.
    destruct (is_file fs p) as [r|] eqn:Ef; [|done]. destruct (parse_backup_date p) as [d|] eqn:Ed; [|done].
    destruct Hc as [<-|[]]. cbn in *. exists p. split; [done|]. split; [done|]. exists d. split; [done|lia].
  - intros (p & Hp & Hf & d & Hd & Hlt).
    exists {| cand_path := q; cand_date := d; cand_age_days := toordinal now - toordinal d |}. split; [|done].
    apply list_elem_of_In, List.filter_In. split; [|cbn; apply Z.ltb_lt; lia]. apply list_elem_of_In. rewrite sort_by_perm.
    apply list_elem_of_In, in_flat_map. exists p. split.
    + apply List.filter_In. split; [|by apply String.eqb_eq]. apply list_elem_of_In, list_elem_of_fmap.
      assert (∃ n, fs_nodes fs !! p = Some n) as [nd Hnd].
      { unfold is_file, follow in Hf. cbn [follow_from] in Hf. destruct (fs_nodes fs !! p); [eauto|done]. }
      exists (p, nd). split; [done|]. by apply elem_of_map_to_list.
    + unfold candidate_of. rewrite Hf, Hd. by left.
Qed.

(** The loop only removes the files of its list whose own name is that of a backup. *)
Lemma delete_candidates_only cs fs o fs' p :
  delete_candidates fs cs = (o, fs') →
  fs_nodes fs' !! p = fs_nodes fs !! p ∨
  fs_nodes fs' !! p = None ∧ parse_backup_date p ≠ None ∧ ∃ c, c ∈ cs ∧ cand_path c = p.
Proof.
  revert fs. induction cs as [|c cs IH]; intros fs; cbn; [intros [= <- <-]; by left|].
  destruct (parse_backup_date (cand_path c)) as [d|] eqn:Ed; [|intros [= <- <-]; by left].
  unfold unlink. destruct (fs_nodes fs !! cand_path c) as [nd|] eqn:En; [|intros [= <- <-]; by left].
  intros E. destruct (IH _ E) as [Hp|(Hp & Hq & c' & Hc & <-)].
  - rewrite Hp. cbn. destruct (decide (cand_path c = p)) as [<-|Hne]; [|left; by rewrite lookup_delete_ne].
    right. rewrite lookup_delete_eq. split; [done|]. split; [congruence|]. exists c. split; [by left|done].
  - right. split; [done|]. split; [done|]. exists c'. split; [by right|done].
Qed.

Lemma cleanup_changes fs backup_dir n dry now o fs' p :
  cleanup_expired_backups fs backup_dir n dry now = (o, fs') → fs_nodes fs' !! p ≠ fs_nodes fs !! p →
  dry = false ∧ fs_nodes fs' !! p = None ∧ parse_backup_date p ≠ None ∧ ∃ link, expired_entry fs backup_dir n now link p.
Proof.
  unfold cleanup_expired_backups. destruct (select_expired_backups fs backup_dir n now) as [cs|e] eqn:Es;
    [|by intros [= _ <-]]. destruct dry; [by intros [= _ <-]|].
  destruct (delete_candidates fs cs) as [o1 fs1] eqn:Ed.
  assert (∀ fs2, (match o1 with Ok _ => (Ok (Build_BackupCleanupResult cs (map cand_path cs) false), fs1)
    | Raise e => (Raise e, fs1) end) = (o, fs2) → fs2 = fs1) as Hfs by (destruct o1; by intros ? [= _ ->]).
  intros E%Hfs Hne. subst fs'. destruct (delete_candidates_only _ _ _ _ p Ed) as [?|(Hp & Hq & c & Hc & Hcp)]; [done|].
  split; [done|]. split; [done|]. split; [done|]. apply (select_expired fs backup_dir n now cs p Es). by exists c.
Qed.

(** Whatever the directory holds, links included, and however the command ends, a
    cleanup changes nothing in a dry run, and otherwise removes only regular files whose own
    name is that of a backup and that an entry of the directory leads to whose name is older
    than the retention period. *)
Theorem cleanup_removes_backups_only fs backup_dir n dry now o fs' p :
  cleanup_expired_backups fs backup_dir n dry now = (o, fs') → fs_nodes fs' !! p ≠ fs_nodes fs !! p →
  dry = false ∧ fs_nodes fs' !! p = None ∧ (∃ content, fs_nodes fs !! p = Some (File content)) ∧
  parse_backup_date p ≠ None ∧ ∃ link, expired_entry fs backup_dir n now link p.
Proof.
  intros E Hne. destruct (cleanup_changes _ _ _ _ _ _ _ p E Hne) as (Hd & Hp & Hq & link & He).
  split; [done|]. split; [done|]. split; [|split; [done|by exists link]].
  destruct He as (_ & Hf & _). by apply is_file_Some in Hf as [_ ?].
Qed.

Definition plain_dir (fs : Fs) (backup_dir : string) : Prop :=
  ∀ p q : path, p.1 = backup_dir → fs_nodes fs !! p ≠ Some (Symlink q).

Lemma plain_is_file fs backup_dir (p q : path) : plain_dir fs backup_dir → p.1 = backup_dir → is_file fs p = Some q → q = p.
Proof.
  intros Hpl Hp. unfold is_file, follow. cbn [follow_from]. destruct (fs_nodes fs !! p) as [[content| |r]|] eqn:E; try done.
  - cbn. rewrite E. by intros [= <-].
  - cbn. by rewrite E.
  - by apply Hpl in E.
Qed.

Lemma NoDup_filter_list {A} (f : A → bool) l : NoDup l → NoDup (List.filter f l).
Proof.
  induction 1 as [|x l Hx Hl IH]; cbn; [constructor|]. destruct (f x); [|done]. constructor; [|done].
  intros [Hin _]%list_elem_of_In%List.filter_In. by apply Hx, list_elem_of_In.
Qed.

Lemma candidates_NoDup fs reference backup_dir l :
  plain_dir fs backup_dir → NoDup l → Forall (λ p, p.1 = backup_dir) l →
  NoDup (map cand_path (flat_map (candidate_of fs reference) l)).
Proof.
  intros Hpl. induction 1 as [|p l Hp Hl IH]; intros Hall; [constructor|].
  apply Forall_cons in Hall as [Hd Hall]. cbn [flat_map]. specialize (IH Hall). unfold candidate_of at 1.
  destruct (is_file fs p) as [q|] eqn:Ef; [|done]. apply plain_is_file with (backup_dir := backup_dir) in Ef as ->; [|done|done].
  destruct (parse_backup_date p) as [d|]; [|done]. cbn. constructor; [|done]. intros (c & Hcp & Hc)%list_elem_of_fmap.
  apply list_elem_of_In, in_flat_map in Hc as (p' & Hp' & Hc). apply list_elem_of_In in Hp'. unfold candidate_of in Hc.
  destruct (is_file fs p') as [q'|] eqn:Ef'; [|done]. destruct (parse_backup_date p'); [|done]. destruct Hc as [<-|[]].
  cbn in Hcp. subst q'. rewrite Forall_forall in Hall.
  apply plain_is_file with (backup_dir := backup_dir) in Ef'; [|done|by apply Hall]. by subst p'.
Qed.

Lemma sublist_NoDup_map {A B} (f : A → B) (g : A → bool) l : NoDup (map f l) → NoDup (map f (List.filter g l)).
Proof.
  induction l as [|x l IH]; cbn; [done|]. intros [Hx Hl]%NoDup_cons. destruct (g x); cbn; [|auto].
  apply NoDup_cons. split; [|auto]. intros (y & Hy & [Hin _]%list_elem_of_In%List.filter_In)%list_elem_of_fmap.
  apply Hx, list_elem_of_fmap. exists y. split; [done|by apply list_elem_of_In].
Qed.

Lemma delete_candidates_all cs fs :
  NoDup (map cand_path cs) →
  (∀ c, c ∈ cs → parse_backup_date (cand_path c) ≠ None ∧ fs_nodes fs !! cand_path c ≠ None) →
  ∃ fs', delete_candidates fs cs = (Ok tt, fs') ∧ fs_dirs fs' = fs_dirs fs ∧
    (∀ c, c ∈ cs → fs_nodes fs' !! cand_path c = None).
Proof.
  revert fs. induction cs as [|c cs IH]; intros fs Hnd Hcs.
  { exists fs. split; [done|]. split; [done|]. by intros c ?%elem_of_nil. }
  cbn in Hnd. apply NoDup_cons in Hnd as [Hx Hnd]. destruct (Hcs c) as [Hp Hn]; [by left|]. cbn [delete_candidates].
  destruct (parse_backup_date (cand_path c)) as [d|]; [|done]. unfold unlink.
  destruct (fs_nodes fs !! cand_path c) as [nd|]; [|done].
  destruct (IH (Build_Fs (fs_dirs fs) (delete (cand_path c) (fs_nodes fs))) Hnd) as (fs' & E & Hdirs & Hgone).
  { intros c' Hc'. destruct (Hcs c') as [Hp' Hn']; [by right|]. split; [done|]. cbn. rewrite lookup_delete_ne; [done|].
    intros Heq. apply Hx. rewrite Heq. by apply list_elem_of_fmap_2. }
  exists fs'. split; [done|]. split; [done|]. intros c' [->|Hc']%elem_of_cons; [|by apply Hgone].
  destruct (delete_candidates_only _ _ _ _ (cand_path c) E) as [->|[? _]]; [|done]. cbn. apply lookup_delete_eq.
Qed.

(** A backup of the directory that is past the retention period. *)
Definition expired_backup (fs : Fs) (backup_dir : string) (retention_days : Z) (now : date) (p : path) : Prop :=
  p.1 = backup_dir ∧ (∃ content, fs_nodes fs !! p = Some (File content)) ∧
  ∃ d, parse_backup_date p = Some d ∧ toordinal d + retention_days < toordinal now.

Lemma plain_expired fs backup_dir n now (p q : path) :
  plain_dir fs backup_dir → expired_entry fs backup_dir n now p q ↔ q = p ∧ expired_backup fs backup_dir n now p.
Proof.
  intros Hpl. unfold expired_entry, expired_backup. split.
  - intros (Hp & Hf & Hd). pose proof (plain_is_file _ _ _ _ Hpl Hp Hf) as ->. split; [done|]. split; [done|].
    by apply is_file_Some in Hf as [_ ?].
  - intros (-> & Hp & [content Hc] & Hd). split; [done|]. split; [|done]. unfold is_file, follow. cbn [follow_from].
    rewrite Hc. cbn. by rewrite Hc.
Qed.

Lemma cleanup_plain fs backup_dir n now :
  fs_dirs fs !! backup_dir = Some true → plain_dir fs backup_dir → 1 <= n <= 999999999 → n < toordinal now →
  ∃ r fs', cleanup_expired_backups fs backup_dir n false now = (Ok r, fs') ∧ fs_dirs fs' = fs_dirs fs ∧
    ∀ p, (p ∈ clean_deleted r ↔ expired_backup fs backup_dir n now p) ∧
      (expired_backup fs backup_dir n now p → fs_nodes fs' !! p = None) ∧
      (¬ expired_backup fs backup_dir n now p → fs_nodes fs' !! p = fs_nodes fs !! p).
Proof.
  intros Hdir Hpl Hn Hnow. destruct (select_expired_backups fs backup_dir n now) as [cs|e] eqn:Es.
  2:{ unfold select_expired_backups, cutoff_ordinal, find_backup_candidates in Es. rewrite Hdir in Es.
      rewrite (proj2 (Z.ltb_ge _ _)), (proj2 (Z.ltb_ge 999999999 _)) in Es by lia. cbn in Es.
      rewrite (proj2 (Z.ltb_ge _ 1)) in Es by lia. done. }
  assert (∀ q, (∃ c, c ∈ cs ∧ cand_path c = q) ↔ expired_backup fs backup_dir n now q) as Hcs.
  { intros q. rewrite (select_expired _ _ _ _ _ q Es). setoid_rewrite (plain_expired fs backup_dir n now _ q Hpl).
    split; [by intros (p & -> & ?)|by exists q]. }
  destruct (delete_candidates_all cs fs) as (fs' & Ed & Hdirs & Hgone).
  { unfold select_expired_backups, find_backup_candidates in Es. rewrite Hdir in Es. case_match; [done|].
    destruct (cutoff_ordinal now n) as [cut|]; [|done]. cbn in Es. injection Es as <-. apply sublist_NoDup_map.
    rewrite sort_by_perm. apply candidates_NoDup with (backup_dir := backup_dir); [done| |].
    - apply NoDup_filter_list, NoDup_fst_map_to_list.
    - apply Forall_forall. intros p [_ Hp%String.eqb_eq]%list_elem_of_In%List.filter_In. done. }
  { intros c Hc. destruct (proj1 (Hcs (cand_path c))) as (_ & [content E] & d & Hd & _); [by exists c|].
    by rewrite E, Hd. }
  exists (Build_BackupCleanupResult cs (map cand_path cs) false), fs'. unfold cleanup_expired_backups. rewrite Es, Ed.
  split; [done|]. split; [done|]. intros p. cbn. split; [|split].
  - rewrite <- Hcs, list_elem_of_fmap. naive_solver.
  - intros (c & Hc & <-)%Hcs. by apply Hgone.
  - intros Hne. destruct (delete_candidates_only _ _ _ _ p Ed) as [?|(_ & _ & Hc)]; [done|]. destruct Hne. by apply Hcs.
Qed.

(** C40. In a directory without links an applied cleanup removes exactly the backups that
    are more than the retention period old, reports exactly those, and leaves every other
    file there and elsewhere as it was. *)
Theorem cleanup_exact fs backup_dir n now :
  fs_dirs fs !! backup_dir = Some true → plain_dir fs backup_dir → 1 <= n <= 999999999 → n < toordinal now →
  ∃ r fs', cleanup_expired_backups fs backup_dir n false now = (Ok r, fs') ∧ fs_dirs fs' = fs_dirs fs ∧
    ∀ p, (p ∈ clean_deleted r ↔ expired_backup fs backup_dir n now p) ∧
      (expired_backup fs backup_dir n now p → fs_nodes fs' !! p = None) ∧
      (¬ expired_backup fs backup_dir n now p → fs_nodes fs' !! p = fs_nodes fs !! p).
Proof. apply cleanup_plain. Qed.

(** ** From the dump to its deletion *)

Lemma run_Ok c d run fs p fs1 :
  run_pg_dump_backup c d run fs = (Ok p, fs1) →
  p = (bk_output_dir c, bk_filename_prefix c +:+ "_" +:+ ymd_text d +:+ ".sql").
Proof.
  unfold run_pg_dump_backup, plan_pg_dump_backup. destruct (_validate_config c) as [[]|]; [|done]. cbn [outcome_bind].
  destruct (make_dir fs _) as [fs0|]; [|done]. destruct (run _ fs0) as [[code err] fs2]. case_match; [done|].
  by intros [= <- _].
Qed.


(** ** Redaction *)

Lemma prefix_replaced old p s k :
  no_char "*" p = true → startswith p (str_replace_from old "***" s k) = true → k = 0%nat → startswith p s = true.
Proof.
  intros Hp. revert s k. induction p as [|x p IH]; intros s k Hs Hk; [by destruct s|]. subst k.
  unfold no_char in Hp. cbn in Hp. apply andb_true_iff in Hp as [Hx Hp]. destruct s as [|c r]; [done|].
  cbn [str_replace_from] in Hs. destruct (startswith old (String c r)) eqn:Eo.
  - change ("***" +:+ ?t) with (String "*" (String "*" (String "*" t))) in Hs. unfold startswith in Hs. cbn in Hs.
    destruct (ascii_dec x "*") as [->|]; [discriminate Hx|discriminate Hs].
  - unfold startswith in *. cbn in Hs |- *. destruct (ascii_dec x c); [|done]. by apply (IH Hp r 0%nat).
Qed.

Lemma str_replace_clean old s k :
  old ≠ "" → no_char "*" old = true → str_contains old (str_replace_from old "***" s k) = false.
Proof.
  intros Hne Ho. revert k. induction s as [|c r IH]; intros k; [by destruct old|].
  destruct k as [|k]; [|apply IH]. destruct (startswith old (str_replace_from old "***" (String c r) 0)) eqn:Es.
  - pose proof (prefix_replaced old old (String c r) 0 Ho Es eq_refl) as Hp. cbn [str_replace_from] in Es. rewrite Hp in Es.
    destruct old as [|x old]; [done|]. change ("***" +:+ ?t) with (String "*" (String "*" (String "*" t))) in Es.
    unfold startswith in Es. unfold no_char in Ho. cbn in Ho, Es. apply andb_true_iff in Ho as [Hx _].
    destruct (ascii_dec x "*") as [->|]; [discriminate Hx|discriminate Es].
  - unfold startswith in Es. cbn [str_replace_from] in *. destruct (startswith old (String c r)).
    + change ("***" +:+ ?t) with (String "*" (String "*" (String "*" t))) in *. cbn [str_contains]. rewrite Es, IH.
      destruct old as [|x old]; [done|]. unfold no_char in Ho. cbn in Ho |- *. apply andb_true_iff in Ho as [Hx _].
      by destruct (ascii_dec x "*") as [->|].
    + cbn [str_contains]. by rewrite Es, IH.
Qed.

(** Whatever [pg_dump] prints, the error of a failed backup does not show the database
    password, provided that has no asterisk in it. *)
Theorem backup_error_hides_password c d run fs m fs' :
  no_char "*" (bk_password c) = true → run_pg_dump_backup c d run fs = (Raise (PostgresBackupError m), fs') →
  str_contains (bk_password c) m = false.
Proof.
  intros Hs. unfold run_pg_dump_backup, plan_pg_dump_backup. destruct (_validate_config c) as [[]|e] eqn:Ev.
  2:{ cbn [outcome_bind]. intros [= -> _]. unfold _validate_config in Ev. by repeat case_match. }
  cbn [outcome_bind]. destruct (make_dir fs _) as [fs0|e] eqn:Em.
  2:{ intros [= -> _]. unfold make_dir in Em. by repeat case_match. }
  destruct (run _ fs0) as [[code err] fs2]. case_match; [|done]. intros [= <- _]. unfold _redact_secret.
  assert (bk_password c ≠ "") as Hne.
  { intros E. unfold _validate_config in Ev. rewrite E in Ev. cbn in Ev. repeat case_match; simplify_eq/=. }
  rewrite (proj2 (String.eqb_neq _ _) Hne). by apply str_replace_clean.
Qed.

(** ** A concrete directory *)

Definition today : date := Build_date 2026 7 11.
Definition backups (name : string) : path := ("/backups", name).
Definition archive (name : string) : path := ("/archive", name).
Definition plain_fs : Fs :=
  {| fs_dirs := {["/backups" := true]};
     fs_nodes := list_to_map [((backups "backup_20260601.sql"), File "old"); ((backups "backup_20260611.sql"), File "kept");
       ((backups "backup_20261301.sql"), File "no month"); ((backups "notes.txt"), File "notes")] |}.

Definition with_link (name : string) (target : path) (fs : Fs) : Fs :=
  {| fs_dirs := fs_dirs fs; fs_nodes := <[(backups name) := Symlink target]> (fs_nodes fs) |}.

(** A link with an old name makes the cleanup delete a backup of two days ago elsewhere. *)
Definition linked_fs : Fs :=
  with_link "backup_20200101.sql" (archive "backup_20260709.sql")
    {| fs_dirs := fs_dirs plain_fs; fs_nodes := <[(archive "backup_20260709.sql") := File "recent"]> (fs_nodes plain_fs) |}.

Example link_takes_recent_backup :
  let fs' := (cleanup_main linked_fs "/backups" 30 true today).2 in
  fs_nodes linked_fs !! (archive "backup_20260709.sql") = Some (File "recent") ∧
  fs_nodes fs' !! (archive "backup_20260709.sql") = None.
Proof. by vm_compute. Qed.

(** Two names for one expired file end the command with an exception it does not catch,
    after the file is deleted. *)
Example two_names_for_one_file :
  let r := cleanup_main (with_link "backup_20200101.sql" (backups "backup_20260601.sql") plain_fs) "/backups" 30 true today in
  r.1 = None ∧ fs_nodes r.2 !! (backups "backup_20260601.sql") = None.
Proof. by vm_compute. Qed.

(** A link to something that is no backup is refused. *)
Example link_refused :
  cleanup_main (with_link "backup_20200101.sql" (backups "notes.txt") plain_fs) "/backups" 30 true today =
  (Some 1, with_link "backup_20200101.sql" (backups "notes.txt") plain_fs).
Proof. by vm_compute. Qed.

Lemma plain_fs_plain : plain_dir plain_fs "/backups".
Proof.
  intros p q _ Hp. unfold plain_fs in Hp. cbn [fs_nodes] in Hp. apply elem_of_list_to_map_2 in Hp.
  repeat (apply elem_of_cons in Hp as [Hp|Hp]; [done|]). by apply elem_of_nil in Hp.
Qed.

Lemma cleanup_exact_witness :
  ∃ r fs', cleanup_expired_backups plain_fs "/backups" 30 false today = (Ok r, fs') ∧
    (backups "backup_20260601.sql") ∈ clean_deleted r ∧
    fs_nodes fs' !! (backups "notes.txt") = Some (File "notes").
Proof.
  destruct (cleanup_exact plain_fs "/backups" 30 today) as (r & fs' & E & _ & Hall);
    [reflexivity|exact plain_fs_plain|lia|by vm_compute|].
  exists r, fs'. split; [exact E|]. split.
  - apply Hall. split; [reflexivity|]. split; [by exists "old"|]. exists (Build_date 2026 6 1). split; by vm_compute.
  - rewrite (proj2 (proj2 (Hall (backups "notes.txt")))); [reflexivity|]. by intros (_ & _ & d & Hd & _).
Defined.

Lemma cleanup_removes_backups_only_witness :
  ∃ o fs', cleanup_expired_backups linked_fs "/backups" 30 false today = (o, fs') ∧
    ∃ link, expired_entry linked_fs "/backups" 30 today link (archive "backup_20260709.sql").
Proof.
  destruct (cleanup_expired_backups linked_fs "/backups" 30 false today) as [o fs'] eqn:E. exists o, fs'. split; [reflexivity|].
  apply (cleanup_removes_backups_only linked_fs "/backups" 30 false today o fs' (archive "backup_20260709.sql") E).
  assert (fs' = (cleanup_expired_backups linked_fs "/backups" 30 false today).2) as -> by by rewrite E. by vm_compute.
Defined.

Definition demo_backup : PostgresBackupConfig :=
  {| bk_host := "db"; bk_port := 5432; bk_database := "trading"; bk_username := "trader"; bk_password := "pw1";
     bk_output_dir := "/backups"; bk_filename_prefix := "backup" |}.

Lemma backup_name_roundtrip_witness :
  ∃ plan, plan_pg_dump_backup demo_backup today = Ok plan ∧ parse_backup_date (bp_output_path plan) = Some today.
Proof.
  eexists. split; [reflexivity|].
  apply (backup_name_roundtrip demo_backup today); [reflexivity|reflexivity|cbn; lia|reflexivity].
Defined.

Definition writing_dump : runner := λ plan fs,
  (0, "", {| fs_dirs := fs_dirs fs; fs_nodes := <[bp_output_path plan := File "-- PostgreSQL database dump"]> (fs_nodes fs) |}).
Definition failing_dump : runner := λ plan fs, (1, "FATAL: password pw1 is wrong for trader", fs).

Definition dumped_fs : Fs :=
  {| fs_dirs := fs_dirs plain_fs;
     fs_nodes := <[backups "backup_20260711.sql" := File "-- PostgreSQL database dump"]> (fs_nodes plain_fs) |}.

Lemma dumped_plain : plain_dir dumped_fs "/backups".
Proof.
  intros p q Hp Hn. unfold dumped_fs in Hn. cbn [fs_nodes] in Hn.
  destruct (decide (backups "backup_20260711.sql" = p)) as [<-|Hne]; [by rewrite lookup_insert_eq in Hn|].
  rewrite lookup_insert_ne in Hn by done. by apply (plain_fs_plain p q).
Qed.


Lemma backup_error_hides_password_witness :
  run_pg_dump_backup demo_backup today failing_dump plain_fs =
    (Raise (PostgresBackupError "FATAL: password *** is wrong for trader"), plain_fs) ∧
  str_contains "pw1" "FATAL: password *** is wrong for trader" = false.
Proof.
  assert (run_pg_dump_backup demo_backup today failing_dump plain_fs =
    (Raise (PostgresBackupError "FATAL: password *** is wrong for trader"), plain_fs)) as E by (vm_compute; reflexivity).
  split; [exact E|]. exact (backup_error_hides_password demo_backup today failing_dump plain_fs _ _ eq_refl E).
Defined.

(** An asterisk in the password lets it reappear. *)
Example asterisk_shows : _redact_secret "aa***bb" "a***b" = "a***b".
Proof. by vm_compute. Qed.
