(* ===== verification/HostChecks.v ===== *)
(** The checks of a host: the timer of the backups and the latest dump
    ([scripts/backup/verify_systemd_backup_timer.py]), a dump by itself
    ([scripts/backup/verify_backup_file.py]), and the settings before a mock integration
    run ([scripts/integration/ubuntu_preflight.py]).

    [systemctl] and the times of files are parameters; arguments and printing are left
    out. *)
From S2P Require Import Prelude PyStr PyValue Json Models Session Alerts Delivery Backups.
From Stdlib Require Import Ascii.
Open Scope Z_scope.

#[local] Instance outcome_mbind : MBind Outcome := λ _ _ f o, outcome_bind o f.

(** ** Text *)

Definition is_line_end (c : ascii) : bool := between 10 13 c || between 28 30 c.

(** [text.splitlines()]; [cr]: a carriage return came just before, with which a line feed
    is one line end. *)
Fixpoint splitlines_from (cr : bool) (s : string) : list string :=
  match s with
  | "" => []
  | String c r =>
      if cr && (code c =? 10)%N then splitlines_from false r
      else if is_line_end c then "" :: splitlines_from (code c =? 13)%N r
      else match splitlines_from false r with [] => [String c ""] | x :: l => String c x :: l end
  end.
Definition splitlines (s : string) : list string := splitlines_from false s.

(** [line.split("=", 1)]; [None] where there is no sign. *)
Fixpoint split_pair (s : string) : option (string * string) :=
  match s with
  | "" => None
  | String c r => if Ascii.eqb c "=" then Some ("", r) else pr ← split_pair r; Some (String c pr.1, pr.2)
  end.

(** [text.strip(c)] *)
Fixpoint lstrip_char (q : ascii) (s : string) : string :=
  match s with "" => "" | String c r => if Ascii.eqb c q then lstrip_char q r else s end.
Fixpoint rstrip_char (q : ascii) (s : string) : string :=
  match s with
  | "" => ""
  | String c r => match rstrip_char q r with "" => if Ascii.eqb c q then "" else String c "" | r' => String c r' end
  end.
Definition strip_char (q : ascii) (s : string) : string := rstrip_char q (lstrip_char q s).

(** ** [verify_systemd_backup_timer.py] *)

Definition DEFAULT_SERVICE_UNIT : string := "trading-postgres-backup.service".
Definition DEFAULT_TIMER_UNIT : string := "trading-postgres-backup.timer".
Definition SYSTEMCTL_TIMER_PROPERTIES : list string :=
  ["LoadState"; "ActiveState"; "SubState"; "NextElapseUSecRealtime"; "LastTriggerUSec"].
Definition SYSTEMCTL_SERVICE_PROPERTIES : list string := ["LoadState"; "ActiveState"; "SubState"; "Result"; "ExecMainStatus"].

Record SystemdBackupTimerVerificationReport := {
  sbr_timer_unit : string; sbr_service_unit : string; sbr_timer_active_state : string;
  sbr_service_result : string; sbr_backup_file : path; sbr_backup_size_bytes : Z }.

Definition timer_error {A} (m : string) : Outcome A := Raise (SystemdBackupTimerVerificationError m).

(** A later line of the same name wins. *)
Definition add_property (properties : gmap string string) (line : string) : gmap string string :=
  match split_pair line with
  | None => properties
  | Some (key, value) => <[str_strip key := str_strip value]> properties
  end.
Definition parse_systemctl_show (output : string) : gmap string string := fold_left add_property (splitlines output) ∅.

Definition validate_systemd_properties (timer_properties service_properties : gmap string string) : Outcome unit :=
  if bool_decide (timer_properties !! "LoadState" ≠ Some "loaded") then timer_error "backup timer unit is not loaded"
  else if bool_decide (timer_properties !! "ActiveState" ≠ Some "active") then timer_error "backup timer unit is not active"
  else if bool_decide (service_properties !! "LoadState" ≠ Some "loaded") then timer_error "backup service unit is not loaded"
  else if bool_decide (service_properties !! "Result" ∉ [Some ""; Some "success"])
  then timer_error "backup service last result is not success"
  else Ok tt.

(** [max(candidates, key=...)]: the first of the greatest. *)
Fixpoint max_by {A} (gtb : A → A → bool) (best : A) (l : list A) : A :=
  match l with [] => best | x :: l' => max_by gtb (if gtb x best then x else best) l' end.

Section timer.
(** A command's return code and output; the time a file was changed. *)
Context (systemctl : list string → Z * string) (st_mtime : path → Z).

Definition run_systemctl_show (unit_ : string) (properties : list string) : Outcome string :=
  let '(returncode, stdout) := systemctl (["systemctl"; "show"; unit_] ++ map (λ p, "--property=" +:+ p) properties) in
  if negb (returncode =? 0) then Raise (CalledProcessError returncode) else Ok stdout.

(** [path.stat()] follows links. *)
Definition mtime (fs : Fs) (p : path) : Z := st_mtime (default p (is_file fs p)).
Definition newer (fs : Fs) (p q : path) : bool :=
  (mtime fs q <? mtime fs p) || ((mtime fs q =? mtime fs p) && negb (String.leb p.2 q.2)).

Definition backup_files (fs : Fs) (backup_dir : string) : list path :=
  List.filter (λ p, negb (is_none (is_file fs p)) && negb (is_none (match_backup_name p.2))) (iterdir fs backup_dir).

Definition find_latest_backup_file (fs : Fs) (backup_dir : string) : Outcome (option path) :=
  match fs_dirs fs !! backup_dir with
  | Some true =>
      Ok match backup_files fs backup_dir with [] => None | p :: ps => Some (max_by (newer fs) p ps) end
  | _ => timer_error ("backup directory does not exist: " +:+ backup_dir)
  end.

Definition verify_systemd_backup_timer (fs : Fs) (backup_dir timer_unit service_unit : string) :
    Outcome SystemdBackupTimerVerificationReport :=
  timer_text ← run_systemctl_show timer_unit SYSTEMCTL_TIMER_PROPERTIES;
  let timer_properties := parse_systemctl_show timer_text in
  service_text ← run_systemctl_show service_unit SYSTEMCTL_SERVICE_PROPERTIES;
  let service_properties := parse_systemctl_show service_text in
  _ ← validate_systemd_properties timer_properties service_properties;
  latest ← find_latest_backup_file fs backup_dir;
  match latest with
  | None => timer_error ("no backup_YYYYMMDD.sql files found in " +:+ backup_dir)
  | Some backup_file =>
      backup_result ← verify_plain_sql_backup fs backup_file;
      Ok {| sbr_timer_unit := timer_unit; sbr_service_unit := service_unit;
            sbr_timer_active_state := default "unknown" (timer_properties !! "ActiveState");
            sbr_service_result := default "unknown" (service_properties !! "Result");
            sbr_backup_file := ver_path backup_result; sbr_backup_size_bytes := ver_size_bytes backup_result |}
  end.

(** [main] returns 1 on the two errors it knows and lets others pass. *)
Definition timer_main (fs : Fs) (backup_dir timer_unit service_unit : string) : Outcome Z :=
  match verify_systemd_backup_timer fs backup_dir timer_unit service_unit with
  | Ok _ => Ok 0
  | Raise (PostgresRestoreDrillError _) | Raise (SystemdBackupTimerVerificationError _) => Ok 1
  | Raise x => Raise x
  end.
(** ** The latest dump *)

Lemma newer_trans fs p q r : newer fs p q = false → newer fs q r = false → newer fs p r = false.
Proof.
  unfold newer. rewrite !orb_false_iff, !andb_false_iff, !negb_false_iff, !Z.ltb_ge, !Z.eqb_neq.
  intros [Hpq Npq] [Hqr Nqr]. split; [lia|].
  destruct Npq as [Npq|Npq], Nqr as [Nqr|Nqr]; try (left; lia). right. by eapply str_leb_trans.
Qed.

Lemma newer_refl fs p : newer fs p p = false.
Proof.
  unfold newer. rewrite Z.ltb_irrefl, Z.eqb_refl. cbn. destruct (String.leb_total p.2 p.2) as [E|E]; unfold is_true in E; by rewrite E.
Qed.

Lemma newer_asym fs p q : newer fs p q = true → newer fs q p = false.
Proof.
  unfold newer. rewrite orb_true_iff, andb_true_iff, orb_false_iff, andb_false_iff, Z.ltb_lt, Z.eqb_eq, Z.ltb_ge, Z.eqb_neq,
    negb_true_iff, negb_false_iff.
  intros [Hlt|[He Hn]]; (split; [lia|]); [left; lia|]. right.
  destruct (String.leb_total p.2 q.2) as [E|E]; unfold is_true in E; congruence.
Qed.

Lemma max_by_spec fs p l : max_by (newer fs) p l ∈ p :: l ∧ ∀ q, q ∈ p :: l → newer fs q (max_by (newer fs) p l) = false.
Proof.
  revert p. induction l as [|x l IH]; intros p; cbn.
  - split; [by left|]. intros q [-> | []%elem_of_nil]%elem_of_cons. apply newer_refl.
  - destruct (newer fs x p) eqn:E.
    + destruct (IH x) as [Hin Hmax]. split; [by right|].
      intros q [-> | Hq]%elem_of_cons; [|by apply Hmax].
      eapply newer_trans; [by apply newer_asym|]. apply Hmax. by left.
    + destruct (IH p) as [Hin Hmax]. split; [set_solver|].
      intros q [-> |[-> | Hq]%elem_of_cons]%elem_of_cons; [apply Hmax; by left| |apply Hmax; by right].
      eapply newer_trans; [done|]. apply Hmax. by left.
Qed.

(** A [systemctl show] that exits normally. *)
Definition shows (unit_ : string) (properties : list string) (shown : gmap string string) : Prop :=
  ∃ text, run_systemctl_show unit_ properties = Ok text ∧ parse_systemctl_show text = shown.

(** A passing check vouches for this: systemd has the timer loaded and active and the service
    loaded, with a last run that succeeded or that has not been; and of the dumps in the
    directory the one changed last is a plain SQL dump, whose size is reported. *)
Theorem timer_check_sound fs backup_dir timer_unit service_unit r :
  verify_systemd_backup_timer fs backup_dir timer_unit service_unit = Ok r →
  ∃ timer service latest v,
    shows timer_unit SYSTEMCTL_TIMER_PROPERTIES timer ∧ shows service_unit SYSTEMCTL_SERVICE_PROPERTIES service ∧
    timer !! "LoadState" = Some "loaded" ∧ timer !! "ActiveState" = Some "active" ∧
    service !! "LoadState" = Some "loaded" ∧ service !! "Result" ∈ [Some ""; Some "success"] ∧
    latest ∈ backup_files fs backup_dir ∧ (∀ q, q ∈ backup_files fs backup_dir → newer fs q latest = false) ∧
    verify_plain_sql_backup fs latest = Ok v ∧
    sbr_backup_file r = ver_path v ∧ sbr_backup_size_bytes r = ver_size_bytes v.
Proof.
  unfold verify_systemd_backup_timer. destruct (run_systemctl_show timer_unit _) as [tt_|] eqn:Et; [|done]. cbn.
  destruct (run_systemctl_show service_unit _) as [st|] eqn:Es; [|done]. cbn. unfold validate_systemd_properties.
  do 4 (case_bool_decide; [done|]).
  cbn. unfold find_latest_backup_file. destruct (fs_dirs fs !! backup_dir) as [[]|]; [|done..].
  destruct (backup_files fs backup_dir) as [|p ps] eqn:Eb; [done|]. cbn.
  destruct (verify_plain_sql_backup fs (max_by (newer fs) p ps)) as [v|] eqn:Ev; [|done]. intros [= <-].
  destruct (max_by_spec fs p ps) as [Hin Hmax].
  exists (parse_systemctl_show tt_), (parse_systemctl_show st), (max_by (newer fs) p ps), v.
  by split_and!; try (by eexists).
Qed.
End timer.

(** [main] of [verify_backup_file.py] *)
Definition verify_file_main (fs : Fs) (backup_file : path) : Outcome Z :=
  match verify_plain_sql_backup fs backup_file with
  | Ok _ => Ok 0
  | Raise (PostgresRestoreDrillError _) => Ok 1
  | Raise x => Raise x
  end.

(** ** [ubuntu_preflight.py] *)

Definition REQUIRED_REPO_FILES : list string :=
  ["docker-compose.yml"; ".env.example"; "backend/Dockerfile"; "frontend/Dockerfile";
   "scripts/integration/mock_compose_check.py"].
Definition FORBIDDEN_COMMANDS : list string :=
  ["docker system prune"; "docker volume prune"; "docker network prune"; "docker compose down -v"].
Definition SAFE_TESTNET_VALUES : list string := [""; "0"; "false"; "no"; "off"].

Record UbuntuIntegrationPreflightResult := {
  upr_checked_files : list string; upr_env_file : string; upr_testnet_adapters_enabled : bool }.

Definition preflight_error {A} (m : string) : Outcome A := Raise (UbuntuIntegrationPreflightError m).

Definition quote : ascii := ascii_of_nat 34.
Definition apostrophe : ascii := ascii_of_nat 39.
Definition hash_sign : string := "#".

Definition add_env_line (values : gmap string string) (raw_line : string) : gmap string string :=
  let line := str_strip raw_line in
  if String.eqb line "" || startswith hash_sign line then values
  else match split_pair line with
       | None => values
       | Some (key, value) => <[str_strip key := strip_char apostrophe (strip_char quote (str_strip value))]> values
       end.
Definition parse_env_text (text : string) : gmap string string := fold_left add_env_line (splitlines text) ∅.

Definition testnet_value (values : gmap string string) : string :=
  str_lower (str_strip (default "false" (values !! "TESTNET_ADAPTERS_ENABLED"))).
Definition environment (values : gmap string string) : string :=
  str_lower (str_strip (default "development" (values !! "ENVIRONMENT"))).

Definition validate_env_values (values : gmap string string) : Outcome bool :=
  if negb (existsb (String.eqb (testnet_value values)) SAFE_TESTNET_VALUES)
  then preflight_error "TESTNET_ADAPTERS_ENABLED must stay false during Ubuntu mock integration"
  else if String.eqb (environment values) "production"
  then preflight_error "Use the development/mock compose environment for phase 2 integration"
  else Ok (negb (existsb (String.eqb (testnet_value values)) SAFE_TESTNET_VALUES)).

Section preflight.
(** The text of a regular file. *)
Context (read_text : string → option string).

Definition exists_ (file : string) : bool := negb (is_none (read_text file)).
Definition in_repo (repo_root file : string) : string := repo_root +:+ "/" +:+ file.

Definition validate_required_files (repo_root : string) : Outcome (list string) :=
  match List.filter (λ f, negb (exists_ (in_repo repo_root f))) REQUIRED_REPO_FILES with
  | [] => Ok REQUIRED_REPO_FILES
  | missing => preflight_error ("Missing required repository files: " +:+ str_join ", " missing)
  end.

Definition validate_compose_safety (compose_text : string) : Outcome unit :=
  match find (λ command, str_contains command (str_lower compose_text)) FORBIDDEN_COMMANDS with
  | Some command => preflight_error ("Forbidden destructive Docker command found: " +:+ command)
  | None => Ok tt
  end.

Definition run_preflight (repo_root env_file : string) : Outcome UbuntuIntegrationPreflightResult :=
  checked_files ← validate_required_files repo_root;
  match read_text env_file with
  | None => preflight_error ("Environment file does not exist: " +:+ env_file +:+ ". Copy .env.example to .env first.")
  | Some text =>
      testnet_enabled ← validate_env_values (parse_env_text text);
      _ ← validate_compose_safety (default "" (read_text (in_repo repo_root "docker-compose.yml")));
      Ok {| upr_checked_files := checked_files; upr_env_file := env_file; upr_testnet_adapters_enabled := testnet_enabled |}
  end.

Definition preflight_main (repo_root env_file : string) : Outcome Z :=
  let env_file := if startswith "/" env_file then env_file else in_repo repo_root env_file in
  match run_preflight repo_root env_file with
  | Ok _ => Ok 0
  | Raise (UbuntuIntegrationPreflightError _) => Ok 1
  | Raise x => Raise x
  end.

(** ** The preflight *)

(** What a host must have to pass. *)
Definition mock_host (repo_root env_file : string) : Prop :=
  (∀ f, f ∈ REQUIRED_REPO_FILES → is_Some (read_text (in_repo repo_root f))) ∧
  (∃ text, read_text env_file = Some text ∧ testnet_value (parse_env_text text) ∈ SAFE_TESTNET_VALUES ∧
     environment (parse_env_text text) ≠ "production") ∧
  (∀ compose command, read_text (in_repo repo_root "docker-compose.yml") = Some compose →
     command ∈ FORBIDDEN_COMMANDS → str_contains command (str_lower compose) = false).

Lemma validate_required_files_Ok repo_root fs :
  validate_required_files repo_root = Ok fs ↔
  fs = REQUIRED_REPO_FILES ∧ ∀ f, f ∈ REQUIRED_REPO_FILES → is_Some (read_text (in_repo repo_root f)).
Proof.
  unfold validate_required_files. destruct (List.filter _ _) as [|f l] eqn:E.
  - split; [|by intros [-> _]]. intros [= <-]. split; [done|]. intros f Hf%list_elem_of_In.
    destruct (read_text (in_repo repo_root f)) eqn:Er; [done|].
    assert (In f (List.filter (λ f, negb (exists_ (in_repo repo_root f))) REQUIRED_REPO_FILES)) as Hin
      by (apply filter_In; unfold exists_; by rewrite Er).
    by rewrite E in Hin.
  - split; [done|]. intros [_ Hall]. assert (In f (f :: l)) as Hf by by left. rewrite <- E in Hf.
    apply filter_In in Hf as [Hf Hn]. destruct (Hall f (proj2 (list_elem_of_In _ _) Hf)) as [x Hx].
    unfold exists_ in Hn. by rewrite Hx in Hn.
Qed.

Lemma validate_compose_safety_Ok text :
  validate_compose_safety text = Ok tt ↔ ∀ c, c ∈ FORBIDDEN_COMMANDS → str_contains c (str_lower text) = false.
Proof.
  unfold validate_compose_safety. destruct (find _ _) as [c|] eqn:E; split; try done.
  - apply find_some in E as [Hc Hs]. intros Hall. rewrite Hall in Hs; [done|by apply list_elem_of_In].
  - intros _ c Hc%list_elem_of_In. by apply (find_none _ _ E).
Qed.

Lemma validate_env_values_Ok values b :
  validate_env_values values = Ok b ↔
  b = false ∧ testnet_value values ∈ SAFE_TESTNET_VALUES ∧ environment values ≠ "production".
Proof.
  unfold validate_env_values. destruct (existsb (String.eqb (testnet_value values)) SAFE_TESTNET_VALUES) eqn:E; cbn [negb].
  - apply existsb_exists in E as (v & Hv & ->%String.eqb_eq). apply list_elem_of_In in Hv.
    destruct (String.eqb_spec (environment values) "production"); split; try done; naive_solver.
  - split; [done|]. intros (_ & Hv & _). rewrite existsb_false_iff in E. specialize (E _ Hv).
    by rewrite String.eqb_refl in E.
Qed.

(** The preflight passes exactly on a host whose repository is complete, whose settings keep
    the testnet adapters off and name no production, and whose compose file spells none of
    the destructive commands; it then reports the adapters off, always. *)
Theorem preflight_exact repo_root env_file r :
  run_preflight repo_root env_file = Ok r ↔
  mock_host repo_root env_file ∧
  r = {| upr_checked_files := REQUIRED_REPO_FILES; upr_env_file := env_file; upr_testnet_adapters_enabled := false |}.
Proof.
  unfold run_preflight, mock_host. set (compose := in_repo repo_root "docker-compose.yml"). split.
  - destruct (validate_required_files repo_root) as [fs|] eqn:Ef; [|done]. cbn.
    apply validate_required_files_Ok in Ef as [-> Hf]. destruct (read_text env_file) as [text|] eqn:Et; [|done].
    destruct (validate_env_values (parse_env_text text)) as [b|] eqn:Eb; [|done].
    apply validate_env_values_Ok in Eb as (-> & Hv & He). cbn.
    destruct (validate_compose_safety _) as [[]|] eqn:Ec; [|done]. intros [= <-].
    split; [|done]. split_and!; [done|by exists text|]. intros c command Hc Hin. rewrite Hc in Ec. cbn in Ec.
    by apply (proj1 (validate_compose_safety_Ok c) Ec).
  - intros [(Hf & (text & Et & Hv & He) & Hc) ->].
    rewrite (proj2 (validate_required_files_Ok repo_root REQUIRED_REPO_FILES) (conj eq_refl Hf)). cbn. rewrite Et.
    rewrite (proj2 (validate_env_values_Ok _ false) (conj eq_refl (conj Hv He))). cbn.
    destruct (Hf "docker-compose.yml") as [c Ec]; [unfold REQUIRED_REPO_FILES; set_solver|]. fold compose in Ec.
    rewrite Ec. cbn. rewrite (proj2 (validate_compose_safety_Ok c)); [done|]. intros command. by apply Hc.
Qed.
End preflight.

(** ** Examples *)

Definition line_end : string := String (ascii_of_nat 10) "".

Definition healthy_timer : list string → Z * string := λ command,
  (0, match command with
      | _ :: _ :: u :: _ =>
          if String.eqb u DEFAULT_TIMER_UNIT then "LoadState=loaded" +:+ line_end +:+ "ActiveState=active" +:+ line_end
          else "LoadState=loaded" +:+ line_end +:+ "Result=success" +:+ line_end
      | _ => ""
      end).

Definition old_dump : Fs :=
  {| fs_dirs := {[ "/backups" := true ]};
     fs_nodes := {[ backups "backup_20190101.sql" := File "-- PostgreSQL database dump
CREATE TABLE users ();" ]} |}.

(** The age of the latest dump is not looked at. *)
Example old_dump_passes :
  timer_main healthy_timer (λ _, 0) old_dump "/backups" DEFAULT_TIMER_UNIT DEFAULT_SERVICE_UNIT = Ok 0.
Proof. vm_compute. reflexivity. Qed.

(** Quotes are taken off, comments behind a value are not. *)
Example env_text :
  let values := parse_env_text ("# settings" +:+ line_end +:+ " ENVIRONMENT = 'staging' " +:+ line_end +:+
    "TESTNET_ADAPTERS_ENABLED=false # off") in
  values !! "ENVIRONMENT" = Some "staging" ∧ testnet_value values = "false # off" ∧
  validate_env_values values = preflight_error "TESTNET_ADAPTERS_ENABLED must stay false during Ubuntu mock integration".
Proof. by vm_compute. Qed.
