(* ===== verification/Accounts.v ===== *)
(** [services/exchange_accounts.py], [core/encryption.py] and the settings of
    [core/config.py]: exchange accounts, their API keys at rest, and the endpoints of
    [api/v1/exchange_accounts.py] that manage them.  The Fernet cipher of the
    [cryptography] package is a parameter with its documented law. *)
From S2P Require Import Prelude PyStr PyDecimal PyValue Models Hash Session PgDatabase Tables Demo Logic.
From Stdlib Require Import Ascii.

(** ** Settings and the cipher *)

Class Settings := {
  testnet_adapters_enabled : bool;
  secret_encryption_key : string;
  jwt_secret_key : string;
  jwt_expires_minutes : Z }.

Class Fernet := {
  fernet_encrypt : string → nat → string → string;
  fernet_decrypt : string → string → option string }.

(** A token decrypts, under its key, to what was encrypted. *)
Class FernetLaws `{Fernet} := {
  fernet_decrypt_encrypt key nonce s : fernet_decrypt key (fernet_encrypt key nonce s) = Some s }.

Definition b64url (bs : list Z) : string := str_of_codes (b64_codes 45 95 bs).

Record ExchangeCredentials := {
  cred_api_key : string; cred_api_secret : string; cred_passphrase : option string }.

Section accounts.
Context `{Database} `{Settings} `{Fernet}.

Definition _fernet : string := b64url (sha256 (bytes_of_str secret_encryption_key)).

(** The token holds a fresh initialisation vector, drawn from the supply of
    identifiers. *)
Definition encrypt_secret (secret : string) : M string :=
  nonce ← gets w_next;
  modify (set_next (S nonce)) ;;
  mret (fernet_encrypt _fernet nonce secret).

Definition decrypt_secret (encrypted_secret : string) : M string :=
  match fernet_decrypt _fernet encrypted_secret with
  | Some s => mret s
  | None => raise InvalidToken
  end.

(** ** Accounts *)

Definition list_accounts (user : string) : M (list ExchangeAccount) :=
  db_scalars (λ a, String.eqb (acct_user a) user && acct_is_active a).

Definition create_account (user : string) (exchange : ExchangeName) (label : string)
    (mode : AccountMode) (trading_enabled : bool) : M ExchangeAccount :=
  id ← new_id;
  let account := Build_ExchangeAccount id user exchange mode label trading_enabled true in
  add_commit account ;;
  mret account.

Definition get_owned_account (user account : string) : M (option ExchangeAccount) :=
  db_scalar (λ a, String.eqb (acct_id a) account && String.eqb (acct_user a) user).

(** The keys of a partial update that are not [null]. *)
Record ExchangeAccountUpdate := {
  upd_label : option string; upd_mode : option AccountMode; upd_trading_enabled : option bool;
  upd_is_active : option bool }.

Definition account_with (u : ExchangeAccountUpdate) (a : ExchangeAccount) : ExchangeAccount :=
  Build_ExchangeAccount (acct_id a) (acct_user a) (acct_exchange a)
    (default (acct_mode a) (upd_mode u)) (default (acct_label a) (upd_label u))
    (default (acct_trading_enabled a) (upd_trading_enabled u))
    (default (acct_is_active a) (upd_is_active u)).

Definition update_account (account : string) (u : ExchangeAccountUpdate) : M unit :=
  db_update account (account_with u) ;; commit.

Definition account_closed (a : ExchangeAccount) : ExchangeAccount :=
  Build_ExchangeAccount (acct_id a) (acct_user a) (acct_exchange a) (acct_mode a) (acct_label a)
    false false.

Definition delete_account (account : string) : M unit :=
  db_update account account_closed ;; commit.

(** ** API keys *)

Definition key_with (k s : string) (p : option string) (r : ApiKeySecret) : ApiKeySecret :=
  Build_ApiKeySecret (key_id r) (key_user r) (key_account r) k s p.

(** [encrypt_secret(passphrase) if passphrase else None] *)
Definition encrypt_passphrase (passphrase : option string) : M (option string) :=
  match passphrase with
  | Some p => if String.eqb p "" then mret None else t ← encrypt_secret p; mret (Some t)
  | None => mret None
  end.

Definition upsert_api_key_secret (user exchange_account api_key api_secret : string)
    (passphrase : option string) : M unit :=
  secret ← db_scalar (λ k, String.eqb (key_account k) exchange_account);
  encrypted_passphrase ← encrypt_passphrase passphrase;
  k ← encrypt_secret api_key;
  s ← encrypt_secret api_secret;
  match secret with
  | None =>
      id ← new_id;
      add_commit (Build_ApiKeySecret id user exchange_account k s encrypted_passphrase)
  | Some r => db_update (key_id r) (key_with k s encrypted_passphrase) ;; commit
  end.

Definition get_api_key_secret_metadata (user exchange_account : string) : M (option ApiKeySecret) :=
  db_scalar (λ k, String.eqb (key_user k) user && String.eqb (key_account k) exchange_account).

Definition get_exchange_credentials (user exchange_account : string) : M (option ExchangeCredentials) :=
  secret ← get_api_key_secret_metadata user exchange_account;
  match secret with
  | None => mret None
  | Some r =>
      passphrase ← match key_passphrase r with
                   | Some p => t ← decrypt_secret p; mret (Some t)
                   | None => mret None
                   end;
      k ← decrypt_secret (key_api_key r);
      s ← decrypt_secret (key_api_secret r);
      mret (Some (Build_ExchangeCredentials k s passphrase))
  end.

Definition delete_api_key_secret (r : ApiKeySecret) : M unit :=
  db_delete (R:=ApiKeySecret) (key_id r) ;; commit.

(** ** Endpoints *)

Definition not_found {A} (detail : string) : M A := raise (HTTPException 404 (VStr detail) []).

Definition require_account (current_user : User) (account : string) : M ExchangeAccount :=
  r ← get_owned_account (user_id current_user) account;
  match r with Some a => mret a | None => not_found "account not found" end.

Definition read_account (current_user : User) (account : string) : M ExchangeAccount :=
  require_account current_user account.

Definition patch_account (current_user : User) (account : string) (u : ExchangeAccountUpdate) : M unit :=
  a ← require_account current_user account; update_account (acct_id a) u.

Definition remove_account (current_user : User) (account : string) : M unit :=
  a ← require_account current_user account; delete_account (acct_id a).

(** Returns whether the stored key has a passphrase. *)
Definition set_api_key (current_user : User) (account api_key api_secret : string)
    (passphrase : option string) : M bool :=
  a ← require_account current_user account;
  upsert_api_key_secret (user_id current_user) (acct_id a) api_key api_secret passphrase ;;
  r ← db_scalar (λ k, String.eqb (key_account k) (acct_id a));
  match r with
  | Some k => mret (bool_decide (key_passphrase k ≠ None))
  | None => raise (RuntimeError "row is gone")
  end.

Definition remove_api_key (current_user : User) (account : string) : M unit :=
  a ← require_account current_user account;
  r ← get_api_key_secret_metadata (user_id current_user) (acct_id a);
  match r with
  | None => not_found "api key not found"
  | Some k => delete_api_key_secret k
  end.
End accounts.

(** ** The key comes back as it was given *)

Section roundtrip.
Context `{Database} `{Settings} `{FernetLaws}.

Lemma encrypt_secret_run s w :
  encrypt_secret s w = (Ok (fernet_encrypt _fernet (w_next w) s), set_next (S (w_next w)) w).
Proof. done. Qed.

Lemma decrypt_encrypt_run n s w : decrypt_secret (fernet_encrypt _fernet n s) w = (Ok s, w).
Proof. unfold decrypt_secret. by rewrite fernet_decrypt_encrypt. Qed.

(** What is kept of a passphrase: an empty one counts as none. *)
Definition kept_passphrase (p : option string) : option string :=
  match p with Some s => if String.eqb s "" then None else Some s | None => None end.

Lemma encrypt_passphrase_run p w :
  ∃ ep w', encrypt_passphrase p w = (Ok ep, w') ∧ w_tx w' = w_tx w ∧ w_new w' = w_new w ∧
    ∀ w1, match ep with Some t => x ← decrypt_secret t; mret (Some x) | None => mret None end w1 =
          (Ok (kept_passphrase p), w1).
Proof.
  unfold encrypt_passphrase, kept_passphrase. destruct p as [s|]; [destruct (String.eqb s "")|].
  - by exists None, w.
  - eexists _, _. split; [reflexivity|]. split; [done|]. split; [done|]. intros w1.
    by rewrite (run_bind_Ok _ _ _ _ _ (decrypt_encrypt_run _ _ _)).
  - by exists None, w.
Qed.

(** C32. The credentials read back after a key was stored are the ones that were given,
    whether the account had a key before or not. *)
Theorem api_key_roundtrip user account api_key api_secret passphrase w w' :
  w_new w = empty_db → unique_ids ApiKeySecret (w_tx w) →
  (∀ k, k ∈ db_secrets (w_tx w) → key_account k = account → key_user k = user) →
  upsert_api_key_secret user account api_key api_secret passphrase w = (Ok tt, w') →
  get_exchange_credentials user account w' =
    (Ok (Some (Build_ExchangeCredentials api_key api_secret (kept_passphrase passphrase))), w').
Proof.
  intros Hn Hu Hown E. unfold upsert_api_key_secret in E.
  apply bind_Ok_inv in E as (r & w1 & [= <- <-] & E).
  destruct (encrypt_passphrase_run passphrase w) as (ep & w1 & Eep & Htx & Hnew & Hdec).
  rewrite (run_bind_Ok _ _ _ _ _ Eep) in E.
  rewrite (run_bind_Ok _ _ _ _ _ (encrypt_secret_run _ _)) in E.
  rewrite (run_bind_Ok _ _ _ _ _ (encrypt_secret_run _ _)) in E.
  assert (∀ k w2, find_first (λ k, String.eqb (key_user k) user && String.eqb (key_account k) account)
      (db_secrets (w_tx w2)) = Some k →
      key_api_key k = fernet_encrypt _fernet (w_next w1) api_key →
      key_api_secret k = fernet_encrypt _fernet (S (w_next w1)) api_secret → key_passphrase k = ep →
      get_exchange_credentials user account w2 =
      (Ok (Some (Build_ExchangeCredentials api_key api_secret (kept_passphrase passphrase))), w2)) as Hget.
  { intros k w2 Hf Hk Hs Hp. unfold get_exchange_credentials, get_api_key_secret_metadata.
    rewrite run_bind. cbn. rewrite Hf, Hk, Hs, Hp.
    rewrite (run_bind_Ok _ _ _ _ _ (Hdec w2)).
    rewrite (run_bind_Ok _ _ _ _ _ (decrypt_encrypt_run _ _ _)).
    by rewrite (run_bind_Ok _ _ _ _ _ (decrypt_encrypt_run _ _ _)). }
  destruct (find_first _ _) as [r|] eqn:Ef; cbn in Ef, E.
  - apply bind_Ok_inv in E as ([] & w2 & (r0 & r' & Hr0 & Hst & ->)%db_update_Ok & E).
    cbn in Hst. injection Hst as <-. cbn in Hr0. rewrite Htx in Hr0.
    pose proof Ef as Ef'. apply find_first_Some in Ef as [Hin Hacc%String.eqb_eq].
    rewrite (find_first_key key_id _ r) in Hr0 by done. injection Hr0 as <-.
    apply commit_empty_Ok in E as ->; [|cbn; by rewrite Hnew].
    eapply (Hget (key_with _ _ ep r)); try reflexivity. cbn [w_tx committed_world db_secrets].
    rewrite <- Hacc. apply find_first_replaced with r.
    + cbn. rewrite Htx, Hacc. rewrite <- Ef'. apply find_first_ext. intros k Hk.
      destruct (String.eqb_spec (key_account k) account) as [Heq|]; [|by rewrite andb_false_r].
      by rewrite (Hown k Hk Heq), String.eqb_refl.
    + cbn. rewrite Htx. intros k Hk Hid%String.eqb_eq. by apply (unique_key key_id (db_secrets (w_tx w))).
    + apply String.eqb_refl.
    + cbn. by rewrite (Hown r Hin Hacc), Hacc, !String.eqb_refl.
  - apply bind_Ok_inv in E as (id & w2 & [= <- <-] & E).
    unfold add_commit in E. apply bind_Ok_inv in E as ([] & w2 & Ea & E). injection Ea as <-.
    match type of E with commit ?w0 = _ =>
      pose proof (commit_only_Ok (R:=ApiKeySecret) [Build_ApiKeySecret (new_uuid (S (S (w_next w1)))) user account
        (fernet_encrypt _fernet (w_next w1) api_key) (fernet_encrypt _fernet (S (w_next w1)) api_secret) ep] w0 w')
        as Hc end.
    destruct Hc as (rs & Hrs & _ & ->); [cbn; by rewrite Hnew, Hn | done | done |].
    apply Forall2_cons_inv_l in Hrs as (k & rs' & [= <-] & Hrs & ->).
    apply Forall2_nil_inv_l in Hrs as ->.
    refine (Hget (Build_ApiKeySecret (new_uuid (S (S (w_next w1)))) user account _ _ ep) _ _
      eq_refl eq_refl eq_refl). cbn. rewrite Htx, find_first_app.
    rewrite (proj2 (find_first_None _ _)).
    + unfold find_first. cbn. by rewrite !String.eqb_refl.
    + intros k Hk. rewrite find_first_None in Ef. by rewrite (Ef k Hk), andb_false_r.
Qed.
End roundtrip.

(** The store opens with a key that is set, read back and replaced. *)
#[export] Instance demo_settings : Settings :=
  {| testnet_adapters_enabled := true; secret_encryption_key := "demo-key"; jwt_secret_key := "demo"; jwt_expires_minutes := 60 |}.

(** A cipher for the examples: the token is the key, the nonce and the text. *)
#[export] Instance demo_fernet : Fernet :=
  {| fernet_encrypt key nonce s := key +:+ digits_of_N (N.of_nat nonce) +:+ ":" +:+ s;
     fernet_decrypt key t :=
       if startswith key t
       then match span_digits (str_drop (String.length key) t) with
            | (_, String ":"%char s) => Some s
            | _ => None
            end
       else None |}.

#[export] Instance demo_fernet_laws : FernetLaws.
Proof.
  split. intros key n s. cbn. rewrite prefix_app, str_drop_app.
  rewrite span_digits_app; [done | apply digits_of_N_digits|done].
Qed.

Lemma api_key_roundtrip_witness :
  ∃ w', upsert_api_key_secret "user-1" "acct-sim" "K" "S" (Some "P") demo_world = (Ok tt, w') ∧
    get_exchange_credentials "user-1" "acct-sim" w' =
      (Ok (Some (Build_ExchangeCredentials "K" "S" (Some "P"))), w').
Proof.
  eexists. split; [vm_compute; reflexivity|].
  apply (api_key_roundtrip "user-1" "acct-sim" "K" "S" (Some "P") demo_world);
    [reflexivity | apply (bool_decide_unpack _); vm_compute; exact I | | vm_compute; reflexivity].
  intros k Hk. cbn in Hk. apply list_elem_of_singleton in Hk as ->. done.
Defined.

(** Before a window the adapters are off. *)
Definition closed_settings : Settings :=
  {| testnet_adapters_enabled := false; secret_encryption_key := "demo-key"; jwt_secret_key := "demo"; jwt_expires_minutes := 60 |}.
