(* ===== verification/Security.v ===== *)
(** [core/security.py]: passwords (PBKDF2 over the SHA-256 of [Hash]) and signed access
    tokens.  Text is ASCII, so [encode("utf-8")] gives the codes of the characters;
    random bytes come from a parameter. *)
From S2P Require Import Prelude PyStr PyDecimal PyValue Json Base64 Models Hash Session PgDatabase Tables Demo Logic Accounts.
From Stdlib Require Import Ascii.
Open Scope Z_scope.

(** [secrets.token_bytes(k)], the [n]-th draw. *)
Class Secrets := { token_bytes : nat → nat → list Z }.
Class SecretsLaws `{Secrets} := { token_bytes_byte n k : Forall byte (token_bytes n k) }.

Definition draw : M nat := λ w, (Ok (w_next w), set_next (S (w_next w)) w).

(** ** Passwords *)

Definition _HASH_ITERATIONS : Z := 390000.

(** [hashlib.pbkdf2_hmac("sha256", password, salt, iterations)]: one block of 32 bytes. *)
Definition pbkdf2_hmac (password salt : list Z) (iterations : Z) : list Z :=
  let u1 := hmac_sha256 password (salt ++ [0; 0; 0; 1]) in
  snd (N.iter (Z.to_N (iterations - 1))
         (λ ut, let u := hmac_sha256 password ut.1 in (u, zip_with Z.lxor ut.2 u)) (u1, u1)).

(** The text before the first [sep] and the text after it. *)
Fixpoint partition_at (sep : ascii) (s : string) : option (string * string) :=
  match s with
  | "" => None
  | String c r =>
      if Ascii.eqb c sep then Some ("", r)
      else match partition_at sep r with Some (a, b) => Some (String c a, b) | None => None end
  end.

Definition password_text (iterations : Z) (salt digest : list Z) : string :=
  "pbkdf2_sha256$" +:+ str_of_Z iterations +:+ "$" +:+ _b64encode salt +:+ "$" +:+ _b64encode digest.

Definition hash_password `{Secrets} (password : string) : M string :=
  n ← draw;
  let salt := token_bytes n 16 in
  mret (password_text _HASH_ITERATIONS salt (pbkdf2_hmac (bytes_of_str password) salt _HASH_ITERATIONS)).

(** [password_hash.split("$", 3)] into four parts. *)
Definition split_hash (password_hash : string) : option (string * string * string * string) :=
  '(algorithm, r) ← partition_at "$" password_hash;
  '(iterations, r) ← partition_at "$" r;
  '(salt, expected) ← partition_at "$" r;
  Some (algorithm, iterations, salt, expected).

Definition verify_password (password password_hash : string) : Outcome bool :=
  match split_hash password_hash with
  | None => Ok false
  | Some (algorithm, iterations, salt, expected) =>
      if negb (String.eqb algorithm "pbkdf2_sha256") then Ok false
      else
        match _b64decode salt with
        | None => Raise (ValueError "Incorrect padding")
        | Some salt =>
            match int_of_str iterations with
            | None => Raise (ValueError "invalid literal for int()")
            | Some n =>
                if n <? 1 then Raise (ValueError "iteration value must be greater than 0.")
                else Ok (String.eqb (_b64encode (pbkdf2_hmac (bytes_of_str password) salt n)) expected)
            end
        end
  end.

(** ** Tokens *)

Section tokens.
Context `{Settings} `{PyFloat}.

Definition _json_b64 (value : dict) : string := _b64encode (bytes_of_str (json_dumps_ordered (VDict value))).

Definition _sign (value : string) : string :=
  _b64encode (hmac_sha256 (bytes_of_str jwt_secret_key) (bytes_of_str value)).

Definition unix_seconds (now : Z) : Z := now / 1000000.

Definition token_header : dict := [("alg", VStr "HS256"); ("typ", VStr "JWT")].
Definition token_payload (subject : string) (auth_version : Z) (purpose : string) (exp : Z) : dict :=
  [("sub", VStr subject); ("ver", VInt auth_version); ("purpose", VStr purpose); ("exp", VInt exp)].

Definition token_text (payload : dict) : string :=
  let signing_input := _json_b64 token_header +:+ "." +:+ _json_b64 payload in
  signing_input +:+ "." +:+ _sign signing_input.

(** The lifetime is in microseconds, as the clock. *)
Definition _create_token (subject : string) (auth_version : Z) (purpose : string) (expires_delta : Z) : M string :=
  now ← now_utc;
  let expires_at := now + expires_delta in
  mret (token_text (token_payload subject auth_version purpose (unix_seconds expires_at))).

Definition minutes (n : Z) : Z := n * 60000000.

Definition create_access_token (subject : string) (auth_version : Z) : M string :=
  _create_token subject auth_version "access" (minutes jwt_expires_minutes).

Definition _REAUTHENTICATION_TOKEN_MINUTES : Z := 5.
Definition create_reauthentication_token (subject : string) (auth_version : Z) : M string :=
  _create_token subject auth_version "reauthentication" (minutes _REAUTHENTICATION_TOKEN_MINUTES).

(** [int(value)] *)
Definition int_of_value (v : pyval) : Outcome Z :=
  match v with
  | VInt z => Ok z
  | VBool b => Ok (if b then 1 else 0)
  | VFloat r =>
      match decimal_of_str r with
      | Some (PFin d) => Ok (if d_exp d <? 0 then Z.quot (sval d) (10 ^ (- d_exp d)) else sval d * 10 ^ d_exp d)
      | Some (PInf _) => Raise (OverflowError "cannot convert float infinity to integer")
      | _ => Raise (ValueError "cannot convert float NaN to integer")
      end
  | VStr s => match int_of_str s with Some z => Ok z | None => Raise (ValueError "invalid literal for int()") end
  | _ => Raise (TypeError "int() argument must be a string, a bytes-like object or a real number")
  end.

(** [json.loads] of the decoded payload, and [payload.get] of something else than a
    dictionary. *)
Definition read_payload (payload_b64 : string) : Outcome dict :=
  match _b64decode payload_b64 with
  | None => Raise (ValueError "Incorrect padding")
  | Some bytes =>
      match json_loads (str_of_codes bytes) with
      | None => Raise (ValueError "JSONDecodeError")
      | Some (VDict payload) => Ok payload
      | Some _ => Raise (AttributeError "get")
      end
  end.

Definition decode_access_token (token : string) : M (option dict) :=
  match ('(header_b64, r) ← partition_at "." token;
         '(payload_b64, signature) ← partition_at "." r;
         Some (header_b64, payload_b64, signature)) with
  | None => mret None
  | Some (header_b64, payload_b64, signature) =>
      let signing_input := header_b64 +:+ "." +:+ payload_b64 in
      if negb (String.eqb (_sign signing_input) signature) then mret None
      else
        payload ← lift (read_payload payload_b64);
        expires_at ← lift (int_of_value (dict_get_default "exp" (VInt 0) payload));
        now ← now_utc;
        if expires_at <? unix_seconds now then mret None else mret (Some payload)
  end.
End tokens.

(** ** Bytes and separators *)

Lemma be_bytes_byte n z : Forall byte (be_bytes n z).
Proof.
  revert z. induction n as [|n IH]; intros z; cbn; [constructor|]. apply Forall_app. split; [done|].
  constructor; [|constructor]. unfold byte. pose proof (Z.mod_pos_bound z 256 ltac:(lia)). lia.
Qed.

Lemma sha256_byte msg : Forall byte (sha256 msg).
Proof.
  unfold sha256. induction (foldl sha_block _ _) as [|x l IH]; cbn [flat_map]; [constructor|].
  apply Forall_app. split; [apply be_bytes_byte|done].
Qed.

Lemma hmac_byte key msg : Forall byte (hmac_sha256 key msg).
Proof. apply sha256_byte. Qed.

Lemma lxor_byte a b : byte a → byte b → byte (Z.lxor a b).
Proof.
  unfold byte. intros Ha Hb. assert (0 <= Z.lxor a b) as Hn by (apply Z.lxor_nonneg; lia). split; [done|].
  destruct (Z.eq_dec (Z.lxor a b) 0) as [->|Hz]; [lia|]. change 256 with (2 ^ 8). apply Z.log2_lt_pow2; [lia|].
  pose proof (Z.log2_lxor a b ltac:(lia) ltac:(lia)) as Hl.
  assert (∀ c, 0 <= c < 256 → Z.log2 c < 8) as Hc.
  { intros c Hc. destruct (Z.eq_dec c 0) as [->|]; [done|]. apply Z.log2_lt_pow2; lia. }
  pose proof (Hc a Ha). pose proof (Hc b Hb). lia.
Qed.

Lemma zip_lxor_byte a b : Forall byte a → Forall byte b → Forall byte (zip_with Z.lxor a b).
Proof.
  intros Ha. revert b. induction Ha as [|x a Hx _ IH]; intros b Hb; [constructor|].
  destruct b as [|y b]; [constructor|]. apply Forall_cons in Hb as [Hy Hb].
  constructor; [by apply lxor_byte|by apply IH].
Qed.

Lemma pbkdf2_byte password salt n : Forall byte (pbkdf2_hmac password salt n).
Proof.
  unfold pbkdf2_hmac. apply (N.iter_invariant _ _ _ (λ ut, Forall byte ut.1 ∧ Forall byte ut.2));
    [|split; apply hmac_byte].
  intros [u t] [_ Ht]. cbn. split; [apply hmac_byte|]. cbn in Ht.
  apply zip_lxor_byte; [done|apply hmac_byte].
Qed.

Lemma b64_inj a b : Forall byte a → Forall byte b → _b64encode a = _b64encode b → a = b.
Proof. intros Ha Hb E. apply (f_equal _b64decode) in E. rewrite !b64_roundtrip in E by done. by injection E. Qed.

Lemma partition_at_app sep a b :
  str_forall (λ c, negb (Ascii.eqb c sep)) a = true → partition_at sep (a +:+ String sep b) = Some (a, b).
Proof.
  induction a as [|c a IH]; cbn [str_forall].
  - intros _. rewrite app_str_nil_l. cbn. by rewrite Ascii.eqb_refl.
  - intros [Hc Ha]%andb_true_iff. rewrite app_str_cons. cbn [partition_at].
    apply negb_true_iff in Hc. by rewrite Hc, IH.
Qed.

Lemma partition_at_inv sep s a b : partition_at sep s = Some (a, b) → s = a +:+ String sep b.
Proof.
  revert a. induction s as [|c s IH]; intros a; cbn; [done|].
  destruct (Ascii.eqb_spec c sep) as [->|]; [by intros [= <- <-]|].
  destruct (partition_at sep s) as [[a' b']|]; [|done]. intros [= <- <-]. by rewrite (IH a').
Qed.

Lemma b64_without c bs : b64_letter c = false → Forall byte bs →
  str_forall (λ d, negb (Ascii.eqb d c)) (_b64encode bs) = true.
Proof.
  intros Hc Hb. eapply str_forall_impl; [|by apply b64_letters]. intros d Hd. apply negb_true_iff.
  destruct (Ascii.eqb_spec d c); [congruence|done].
Qed.

(** ** Passwords *)

Lemma verify_password_text q iterations salt digest :
  1 <= iterations → Forall byte salt → Forall byte digest →
  verify_password q (password_text iterations salt digest) =
  Ok (bool_decide (pbkdf2_hmac (bytes_of_str q) salt iterations = digest)).
Proof.
  intros Hi Hs Hd. unfold verify_password, password_text.
  assert (split_hash ("pbkdf2_sha256" +:+ String "$" (str_of_Z iterations +:+ String "$" (_b64encode salt +:+ String "$" (_b64encode digest)))) =
    Some ("pbkdf2_sha256", str_of_Z iterations, _b64encode salt, _b64encode digest)) as Hs'.
  { unfold split_hash. rewrite partition_at_app by done. cbn [mbind option_bind].
    rewrite partition_at_app.
    - cbn [mbind option_bind]. rewrite partition_at_app; [done|]. by apply b64_without.
    - unfold str_of_Z. rewrite (proj2 (Z.ltb_ge iterations 0)) by lia.
      eapply str_forall_impl; [|apply digits_of_N_digits]. intros c Hc. by rewrite (is_digit_neqb c "$"). }
  match goal with |- context [split_hash ?x] => change x with ("pbkdf2_sha256" +:+ String "$" (str_of_Z iterations +:+
    String "$" (_b64encode salt +:+ String "$" (_b64encode digest)))) end. rewrite Hs'. clear Hs'.
  rewrite String.eqb_refl, b64_roundtrip by done. cbn [negb].
  rewrite int_of_str_of_Z by lia. rewrite (proj2 (Z.ltb_ge iterations 1)) by lia. f_equal.
  apply Bool.eq_true_iff_eq. rewrite String.eqb_eq, bool_decide_eq_true. split; [|by intros ->].
  apply b64_inj; [apply pbkdf2_byte|done].
Qed.

Lemma hash_password_Ok `{SecretsLaws} password candidate w hash w' :
  hash_password password w = (Ok hash, w') →
  let digest p := pbkdf2_hmac (bytes_of_str p) (token_bytes (w_next w) 16) 390000 in
  verify_password candidate hash = Ok (bool_decide (digest candidate = digest password)) ∧
  verify_password password hash = Ok true.
Proof.
  intros E digest. unfold hash_password in E. rewrite run_bind in E. cbn [draw mret M_ret] in E.
  injection E as <- _. unfold _HASH_ITERATIONS.
  rewrite !verify_password_text by (lia || apply token_bytes_byte || apply pbkdf2_byte).
  split; [done|]. by rewrite bool_decide_eq_true_2.
Qed.

(** A stored password hash accepts exactly the passwords with the same PBKDF2 digest
    under its salt, so always the one it was made of; checking never fails. *)
Theorem password_roundtrip `{SecretsLaws} password candidate w hash w' :
  hash_password password w = (Ok hash, w') →
  let digest p := pbkdf2_hmac (bytes_of_str p) (token_bytes (w_next w) 16) 390000 in
  verify_password candidate hash = Ok (bool_decide (digest candidate = digest password)) ∧
  verify_password password hash = Ok true.
Proof. apply hash_password_Ok. Qed.

(** ** Tokens *)

Section token_lemmas.
Context `{Settings} `{PyFloat}.

Lemma json_b64_bytes s : Forall byte (bytes_of_str s).
Proof.
  induction s as [|c s IH]; cbn; constructor; [|done]. unfold byte, code.
  pose proof (N_ascii_bounded c). lia.
Qed.

Lemma codes_of_bytes s : str_of_codes (bytes_of_str s) = s.
Proof.
  induction s as [|c s IH]; [done|]. cbn [bytes_of_str]. rewrite str_of_codes_cons, IH. f_equal.
  unfold code. rewrite N2Z.id. apply ascii_N_embedding.
Qed.

Lemma read_payload_json payload : json_plain (VDict payload) = true → read_payload (_json_b64 payload) = Ok payload.
Proof.
  intros Hp. unfold read_payload, _json_b64. rewrite b64_roundtrip by apply json_b64_bytes.
  by rewrite codes_of_bytes, json_roundtrip.
Qed.

Lemma decode_token_text payload w :
  json_plain (VDict payload) = true →
  decode_access_token (token_text payload) w =
  (expires_at ← lift (int_of_value (dict_get_default "exp" (VInt 0) payload));
   now ← now_utc;
   if expires_at <? unix_seconds now then mret None else mret (Some payload)) w.
Proof.
  intros Hp. unfold decode_access_token.
  assert (∀ x, Forall byte x → str_forall (λ d, negb (Ascii.eqb d ".")) (_b64encode x) = true) as Hd
    by (intros x Hx; by apply b64_without).
  assert (token_text payload = _json_b64 token_header +:+ String "." (_json_b64 payload +:+ String "."
    (_sign (_json_b64 token_header +:+ "." +:+ _json_b64 payload)))) as ->.
  { unfold token_text. by rewrite <- !app_str_assoc. }
  rewrite partition_at_app by (apply Hd, json_b64_bytes). cbn [mbind option_bind].
  rewrite partition_at_app by (apply Hd, json_b64_bytes). cbn [mbind option_bind]. rewrite String.eqb_refl. cbn [negb].
  by rewrite read_payload_json.
Qed.

Lemma token_payload_plain subject ver purpose exp :
  ascii_text subject = true → ascii_text purpose = true →
  json_plain (VDict (token_payload subject ver purpose exp)) = true.
Proof. intros Hs Hp. cbn. by rewrite Hs, Hp. Qed.

(** A token is read back with every claim it was made with until it expires, and not a
    second longer. *)
Theorem token_roundtrip subject ver purpose lifetime w token w1 w2 :
  ascii_text subject = true → ascii_text purpose = true →
  _create_token subject ver purpose lifetime w = (Ok token, w1) →
  let exp := (w_now w + lifetime) / 1000000 in
  decode_access_token token w2 =
    (Ok (if exp <? w_now w2 / 1000000 then None else Some (token_payload subject ver purpose exp)), w2).
Proof.
  intros Hs Hp E exp. unfold _create_token in E. rewrite run_bind in E. cbn [now_utc gets mret M_ret] in E.
  injection E as <- <-. rewrite decode_token_text by (by apply token_payload_plain).
  change (int_of_value _) with (Ok (A:=Z) exp). rewrite run_bind. cbn [lift]. rewrite run_bind.
  cbn [now_utc gets]. fold exp. unfold unix_seconds. destruct (exp <? _); done.
Qed.

Lemma decode_inv token payload w w' :
  decode_access_token token w = (Ok (Some payload), w') →
  w' = w ∧
  ∃ signing_input payload_b64 exp, token = signing_input +:+ "." +:+ _sign signing_input ∧
    (∃ header_b64, signing_input = header_b64 +:+ "." +:+ payload_b64) ∧ read_payload payload_b64 = Ok payload ∧
    int_of_value (dict_get_default "exp" (VInt 0) payload) = Ok exp ∧ w_now w / 1000000 <= exp.
Proof.
  unfold decode_access_token. destruct (partition_at "." token) as [[h r]|] eqn:E1; [|done]. cbn [mbind option_bind].
  destruct (partition_at "." r) as [[b s]|] eqn:E2; [|done]. cbn [mbind option_bind].
  destruct (String.eqb_spec (_sign (h +:+ "." +:+ b)) s) as [Hs|]; [|done]. cbn [negb].
  intros E. apply bind_Ok_inv in E as (p & w1 & Ep & E). unfold lift in Ep. injection Ep as Ep <-.
  apply bind_Ok_inv in E as (exp & w1 & Ex & E). unfold lift in Ex. injection Ex as Ex <-.
  apply bind_Ok_inv in E as (now & w1 & En & E). injection En as <- <-.
  destruct (Z.ltb_spec exp (unix_seconds (w_now w))) as [|Hle]; [done|]. injection E as <- <-. split; [done|].
  exists (h +:+ "." +:+ b), b, exp. apply partition_at_inv in E1 as ->. apply partition_at_inv in E2 as ->.
  split; [rewrite Hs, <- !app_str_assoc; done|]. split; [by exists h|]. done.
Qed.
(** C33. Whatever is accepted as a token carries the HMAC of everything before its last part
    under the server's key, and claims to be still valid. *)
Theorem token_authentic token payload w w' :
  decode_access_token token w = (Ok (Some payload), w') →
  w' = w ∧
  ∃ signing_input payload_b64 exp, token = signing_input +:+ "." +:+ _sign signing_input ∧
    (∃ header_b64, signing_input = header_b64 +:+ "." +:+ payload_b64) ∧ read_payload payload_b64 = Ok payload ∧
    int_of_value (dict_get_default "exp" (VInt 0) payload) = Ok exp ∧ w_now w / 1000000 <= exp.
Proof. apply decode_inv. Qed.
End token_lemmas.

(** ** Concrete runs *)

#[export] Instance demo_float : PyFloat := {| float_of_literal s := s |}.
#[export] Instance demo_secrets : Secrets :=
  {| token_bytes n k := map (λ i, Z.of_nat (n + i) mod 256) (seq 0 k) |}.
#[export] Instance demo_secrets_laws : SecretsLaws.
Proof.
  split. intros n k. apply Forall_forall. intros z Hz%list_elem_of_fmap. destruct Hz as (i & -> & _).
  unfold byte. pose proof (Z.mod_pos_bound (Z.of_nat (n + i)) 256 ltac:(lia)). lia.
Qed.

Lemma password_roundtrip_witness :
  ∃ hash w', hash_password "correct horse" demo_world = (Ok hash, w') ∧
    verify_password "correct horse" hash = Ok true.
Proof.
  eexists _, _. assert (hash_password "correct horse" demo_world = _) as E by reflexivity. split; [exact E|].
  exact (proj2 (password_roundtrip "correct horse" "correct horse" demo_world _ _ E)).
Defined.

(** One iteration is enough for an example that runs. *)
Example wrong_password :
  let hash := password_text 1 [1; 2; 3] (pbkdf2_hmac (bytes_of_str "right") [1; 2; 3] 1) in
  verify_password "right" hash = Ok true ∧ verify_password "wrong" hash = Ok false ∧
  verify_password "right" "pbkdf2_sha256$1$abc" = Ok false.
Proof. vm_compute. done. Qed.

Definition demo_token : string := token_text (token_payload "user-1" 0 "access" 1780003600).

Lemma token_roundtrip_witness :
  decode_access_token demo_token demo_world =
    (Ok (Some (token_payload "user-1" 0 "access" 1780003600)), demo_world).
Proof.
  assert (create_access_token "user-1" 0 demo_world = (Ok demo_token, demo_world)) as E by reflexivity.
  pose proof (token_roundtrip "user-1" 0 "access" _ demo_world demo_token _ demo_world eq_refl eq_refl E) as Hr.
  exact Hr.
Defined.

Lemma token_authentic_witness :
  ∃ signing_input, demo_token = signing_input +:+ "." +:+ _sign signing_input.
Proof.
  assert (decode_access_token demo_token demo_world =
    (Ok (Some (token_payload "user-1" 0 "access" 1780003600)), demo_world)) as E by (vm_compute; reflexivity).
  destruct (token_authentic _ _ _ _ E) as (_ & signing_input & _ & _ & Ht & _). exists signing_input. exact Ht.
Defined.
