(* ===== verification/Mfa.v ===== *)
(** [services/mfa.py]: enrolment, confirmation and removal of a second factor, and the
    challenge a login has to pass: a time-based code or a recovery code.  The [pyotp]
    package is a parameter: the secret it draws, the code of a secret at a moment and the
    enrolment URI. *)
From S2P Require Import Prelude PyStr PyDecimal PyValue Json Base64 Models Hash Session PgDatabase Tables Demo Logic Accounts Security.
From Stdlib Require Import Ascii.
Open Scope Z_scope.

Class Pyotp := {
  random_base32 : nat → string;
  totp_at : string → Z → string;
  provisioning_uri : string → string → string → string }.

Definition _TOTP_INTERVAL_SECONDS : Z := 30.
Definition _TOTP_VALID_WINDOW : Z := 1.
Definition _RECOVERY_CODE_COUNT : nat := 8.

Definition get_mfa_status (user : User) : bool * bool :=
  (user_mfa_enabled user, bool_decide (user_mfa_pending_secret user ≠ None)).

(** ** Attribute writes on a user *)

Definition user_enrolling (pending : string) (u : User) : User :=
  Build_User (user_id u) (user_email u) (user_username u) (user_password_hash u) (user_auth_version u)
    (user_mfa_enabled u) (user_mfa_secret u) (Some pending) (user_mfa_last_used_step u)
    (user_mfa_recovery_code_hashes u) (user_role u) (user_is_active u).

Definition user_enrolled (secret : string) (step : Z) (hashes : list string) (u : User) : User :=
  Build_User (user_id u) (user_email u) (user_username u) (user_password_hash u) (user_auth_version u + 1)
    true (Some secret) None (Some step) hashes (user_role u) (user_is_active u).

Definition user_without_mfa (u : User) : User :=
  Build_User (user_id u) (user_email u) (user_username u) (user_password_hash u) (user_auth_version u + 1)
    false None None None [] (user_role u) (user_is_active u).

Definition user_used_step (step : Z) (u : User) : User :=
  Build_User (user_id u) (user_email u) (user_username u) (user_password_hash u) (user_auth_version u)
    (user_mfa_enabled u) (user_mfa_secret u) (user_mfa_pending_secret u) (Some step)
    (user_mfa_recovery_code_hashes u) (user_role u) (user_is_active u).

Definition user_with_codes (hashes : list string) (u : User) : User :=
  Build_User (user_id u) (user_email u) (user_username u) (user_password_hash u) (user_auth_version u)
    (user_mfa_enabled u) (user_mfa_secret u) (user_mfa_pending_secret u) (user_mfa_last_used_step u)
    hashes (user_role u) (user_is_active u).

(** ** Codes *)

Definition _normalize_recovery_code (code : string) : string :=
  str_upper (replace_char " " "" (replace_char "-" "" code)).

(** The groups of four, joined. *)
Definition _recovery_code_text (value : string) : string :=
  str_join "-" (map (λ i, str_take 4 (str_drop (4 * i) value)) (seq 0 4)).

Definition _generate_recovery_code `{Secrets} : M string :=
  n ← draw;
  mret (_recovery_code_text (str_upper (hex (token_bytes n 8)))).

Definition _hash_recovery_code `{Settings} (code : string) : string :=
  hex (hmac_sha256 (bytes_of_str secret_encryption_key) (bytes_of_str (_normalize_recovery_code code))).

Section mfa.
Context `{Database} `{Settings} `{Fernet} `{Secrets} `{Pyotp}.

Definition _match_totp (secret code : string) (last_used_step : option Z) (now : Z) : option Z :=
  if negb (String.length code =? 6)%nat || negb (isdigit code) then None
  else
    let current_step := unix_seconds now / _TOTP_INTERVAL_SECONDS in
    find_first (λ candidate_step,
        negb (match last_used_step with Some last => candidate_step <=? last | None => false end) &&
        String.eqb (totp_at secret (candidate_step * _TOTP_INTERVAL_SECONDS)) code)
      (map (λ i, current_step + (Z.of_nat i - _TOTP_VALID_WINDOW))
         (seq 0 (Z.to_nat (2 * _TOTP_VALID_WINDOW + 1)))).

Definition user_audit (user : User) (action severity : string) (payload : dict) : M unit :=
  id ← new_id;
  now ← now_utc;
  db_add (Build_AuditLog id (user_id user) None action severity payload now).

(** ** Enrolment *)

Definition start_mfa_enrollment (user : User) (issuer_name : string) : M (string * string) :=
  if user_mfa_enabled user then raise (MfaEnrollmentError "mfa is already enabled")
  else
    n ← draw;
    let secret := random_base32 n in
    pending ← encrypt_secret secret;
    db_update (user_id user) (user_enrolling pending) ;;
    user_audit user "user.mfa.enrollment.started" "INFO" [("user_id", VStr (user_id user))] ;;
    commit ;;
    mret (secret, provisioning_uri secret (user_email user) issuer_name).

(** [now or datetime.now(UTC)] *)
Definition moment (now : option Z) : M Z := match now with Some t => mret t | None => now_utc end.

Definition confirm_mfa_enrollment (user : User) (code : string) (now : option Z) : M (list string) :=
  match user_mfa_enabled user, user_mfa_pending_secret user with
  | true, _ | _, None => raise (MfaEnrollmentError "mfa enrollment is not pending")
  | false, Some encrypted_secret =>
      secret ← decrypt_secret encrypted_secret;
      t ← moment now;
      match _match_totp secret code None t with
      | None => raise (MfaVerificationError "invalid mfa code")
      | Some matched_step =>
          recovery_codes ← mapM (λ _, _generate_recovery_code) (seq 0 _RECOVERY_CODE_COUNT);
          db_update (user_id user)
            (user_enrolled encrypted_secret matched_step (map _hash_recovery_code recovery_codes)) ;;
          user_audit user "user.mfa.enabled" "WARNING"
            [("user_id", VStr (user_id user)); ("recovery_code_count", VInt (Z.of_nat (length recovery_codes)));
             ("new_auth_version", VInt (user_auth_version user + 1))] ;;
          commit ;;
          mret recovery_codes
      end
  end.

(** ** The challenge *)

Definition verify_mfa_challenge (user : User) (code : string) (now : option Z) : M bool :=
  match user_mfa_enabled user, user_mfa_secret user with
  | false, _ | _, None => mret false
  | true, Some encrypted_secret =>
      let normalized := _normalize_recovery_code code in
      if negb (isdigit code) then
        let candidate_hash := _hash_recovery_code normalized in
        let stored_hashes := user_mfa_recovery_code_hashes user in
        let remaining := List.filter (λ h, negb (String.eqb h candidate_hash)) stored_hashes in
        if (length remaining =? length stored_hashes)%nat then mret false
        else
          db_update (user_id user) (user_with_codes remaining) ;;
          user_audit user "user.mfa.recovery_code.used" "WARNING"
            [("user_id", VStr (user_id user)); ("remaining_recovery_codes", VInt (Z.of_nat (length remaining)))] ;;
          mret true
      else
        secret ← decrypt_secret encrypted_secret;
        t ← moment now;
        match _match_totp secret code (user_mfa_last_used_step user) t with
        | None => mret false
        | Some matched_step => db_update (user_id user) (user_used_step matched_step) ;; mret true
        end
  end.

Definition disable_mfa (user : User) (code : string) (now : option Z) : M unit :=
  if negb (user_mfa_enabled user) then raise (MfaEnrollmentError "mfa is not enabled")
  else
    ok ← verify_mfa_challenge user code now;
    if negb ok then raise (MfaVerificationError "invalid mfa code")
    else
      db_update (user_id user) user_without_mfa ;;
      user_audit user "user.mfa.disabled" "CRITICAL"
        [("user_id", VStr (user_id user)); ("new_auth_version", VInt (user_auth_version user + 1))] ;;
      commit.
End mfa.

(** ** What an accepted challenge proves *)

(** The factor a code is: the time step whose code it shows, later than the last one used
    and at most one step off the clock, or an unused recovery code. *)
Definition code_hash `{Settings} (code : string) : string := _hash_recovery_code (_normalize_recovery_code code).

Definition proves `{Settings} `{Fernet} `{Pyotp} (u : User) (code : string) (now : Z) (u' : User) : Prop :=
  if isdigit code then
    ∃ token secret step, user_mfa_secret u = Some token ∧ fernet_decrypt _fernet token = Some secret ∧
      String.length code = 6%nat ∧
      (∀ last, user_mfa_last_used_step u = Some last → last < step) ∧
      unix_seconds now / 30 - 1 <= step <= unix_seconds now / 30 + 1 ∧
      totp_at secret (step * 30) = code ∧ u' = user_used_step step u
  else
    code_hash code ∈ user_mfa_recovery_code_hashes u ∧
    u' = user_with_codes (List.filter (λ h, negb (String.eqb h (code_hash code)))
                            (user_mfa_recovery_code_hashes u)) u.

(** The user as the open transaction holds it. *)
Definition loaded (u : User) (w : World) : Prop :=
  find_first (λ x, String.eqb (user_id x) (user_id u)) (db_users (w_tx w)) = Some u.

Section challenge.
Context `{Database} `{Settings} `{Fernet} `{Secrets} `{Pyotp}.

Lemma match_totp_Some secret code last now step :
  _match_totp secret code last now = Some step →
  String.length code = 6%nat ∧ isdigit code = true ∧ (∀ l, last = Some l → l < step) ∧
  unix_seconds now / 30 - 1 <= step <= unix_seconds now / 30 + 1 ∧ totp_at secret (step * 30) = code.
Proof.
  unfold _match_totp. destruct (Nat.eqb_spec (String.length code) 6), (isdigit code); cbn [negb orb]; try done.
  intros (Hin & Hp)%find_first_Some. apply andb_true_iff in Hp as [Hl Ht%String.eqb_eq].
  apply list_elem_of_fmap in Hin as (i & -> & Hi%elem_of_seq).
  change (Z.to_nat (2 * _TOTP_VALID_WINDOW + 1)) with 3%nat in Hi. unfold _TOTP_INTERVAL_SECONDS, _TOTP_VALID_WINDOW in *.
  split; [done|]. split; [done|]. split; [|split; [lia|done]].
  intros l ->. apply negb_true_iff, Z.leb_gt in Hl. done.
Qed.

Lemma match_totp_None secret code last now step :
  _match_totp secret code last now = None → String.length code = 6%nat → isdigit code = true →
  (∀ l, last = Some l → l < step) → unix_seconds now / 30 - 1 <= step <= unix_seconds now / 30 + 1 →
  totp_at secret (step * 30) ≠ code.
Proof.
  unfold _match_totp. intros E Hl Hd Hlast Hs Ht. rewrite Hl, Hd in E. cbn [negb orb Nat.eqb] in E.
  rewrite find_first_None in E. specialize (E step). rewrite andb_false_iff in E.
  unfold _TOTP_INTERVAL_SECONDS, _TOTP_VALID_WINDOW in E. destruct E as [E|E].
  - apply list_elem_of_fmap. exists (Z.to_nat (step - (unix_seconds now / 30 - 1))). split; [lia|].
    apply elem_of_seq. change (Z.to_nat (2 * 1 + 1)) with 3%nat. lia.
  - apply negb_false_iff in E. destruct last as [l|]; [|done]. apply Z.leb_le in E. specialize (Hlast l eq_refl). lia.
  - by rewrite Ht, String.eqb_refl in E.
Qed.

Lemma filter_length_eq {A} (p : A → bool) l : length (List.filter p l) = length l → ∀ x, x ∈ l → p x = true.
Proof.
  induction l as [|y l IH]; cbn; [by intros _ x ?%elem_of_nil|]. pose proof (List.filter_length_le p l).
  destruct (p y) eqn:E; cbn; [|lia]. intros [= Hl] x [->|Hx]%elem_of_cons; [done|by apply IH].
Qed.

Lemma filter_absent (h : string) l : h ∉ l → List.filter (λ x, negb (String.eqb x h)) l = l.
Proof.
  induction l as [|y l IH]; cbn; [done|]. rewrite not_elem_of_cons. intros [Hy Hn].
  destruct (String.eqb_spec y h); [by subst|]. cbn. by rewrite IH.
Qed.

Lemma db_update_loaded u f w w' :
  loaded u w → user_id (f u) = user_id u → db_update (user_id u) f w = (Ok tt, w') →
  loaded (f u) w' ∧ w_new w' = w_new w ∧ w_committed w' = w_committed w ∧ w_trace w' = w_trace w.
Proof.
  intros Hu Hid (r & r' & Hr & Hst & ->)%db_update_Ok. cbn in Hr, Hst. unfold loaded in Hu. rewrite Hu in Hr.
  injection Hr as <-. injection Hst as <-. cbn. split; [|done]. unfold loaded. cbn.
  rewrite Hid. etrans; [apply (find_first_update_found (λ x, String.eqb (user_id x) (user_id u)))|by rewrite Hu].
  rewrite Hid. apply String.eqb_refl.
Qed.

(** A challenge is decided by whether the code proves a factor; then the factor is spent. *)
Lemma verify_cases u code now w b w' :
  loaded u w → verify_mfa_challenge u code now w = (Ok b, w') →
  let t := default (w_now w) now in
  if b then user_mfa_enabled u = true ∧ (∃ u', proves u code t u' ∧ loaded u' w') ∧ w_committed w' = w_committed w
  else w' = w ∧ (user_mfa_enabled u = true → user_mfa_secret u ≠ None → ∀ u', ¬ proves u code t u').
Proof.
  intros Hu E t. unfold verify_mfa_challenge in E.
  destruct (user_mfa_enabled u) eqn:Een; [|by injection E as <- <-].
  destruct (user_mfa_secret u) as [token|] eqn:Es; [|by injection E as <- <-].
  unfold proves, code_hash. destruct (isdigit code) eqn:Ed; cbn [negb] in E.
  - apply bind_Ok_inv in E as (secret & w1 & Edec & E). unfold decrypt_secret in Edec.
    destruct (fernet_decrypt _fernet token) as [x|] eqn:Ef; [|done]. injection Edec as <- <-.
    apply bind_Ok_inv in E as (t' & w1 & Et & E).
    assert (t' = t ∧ w1 = w) as [-> ->] by (destruct now; injection Et as <- <-; done).
    destruct (_match_totp x code _ t) as [step|] eqn:Em.
    + apply bind_Ok_inv in E as ([] & w1 & E1 & E). injection E as <- <-.
      apply match_totp_Some in Em as (Hl & _ & Hlast & Hr & Ht).
      apply (db_update_loaded u) in E1 as (Hl' & _ & Hc & _); [|done|done]. split; [done|]. split; [|done].
      exists (user_used_step step u). split; [|done]. by exists token, x, step.
    + injection E as <- <-. split; [done|]. intros _ _ u' (tk & s & step & Htk & Hs & Hl & Hlast & Hr & Ht & _).
      rewrite Es in Htk. injection Htk as <-. rewrite Ef in Hs. injection Hs as <-. by apply (match_totp_None _ _ _ _ step) in Em.
  - set (h := _hash_recovery_code _) in *. set (rem := List.filter _ _) in *.
    destruct (Nat.eqb_spec (length rem) (length (user_mfa_recovery_code_hashes u))) as [Hl|Hl].
    + injection E as <- <-. split; [done|]. intros _ _ u' [Hin _].
      apply (filter_length_eq _ _ Hl) in Hin. by rewrite String.eqb_refl in Hin.
    + apply bind_Ok_inv in E as ([] & w1 & E1 & E). apply bind_Ok_inv in E as ([] & w2 & E2 & E). injection E as <- <-.
      apply (db_update_loaded u) in E1 as (Hl' & _ & Hc & _); [|done|done].
      unfold user_audit in E2. apply bind_Ok_inv in E2 as (id & w3 & [= <- <-] & E2).
      apply bind_Ok_inv in E2 as (n & w3 & [= <- <-] & E2). injection E2 as <-.
      split; [done|]. split; [|done]. exists (user_with_codes rem u). split; [|done]. split; [|done].
      destruct (decide (h ∈ user_mfa_recovery_code_hashes u)) as [|Hn]; [done|]. destruct Hl. f_equal.
      by apply filter_absent.
Qed.

(** A challenge adds rows to the audit log only. *)
Lemma verify_frame u code now w b w' :
  verify_mfa_challenge u code now w = (Ok b, w') →
  tbl (R:=User) (w_new w') = tbl (w_new w) ∧ w_now w' = w_now w.
Proof.
  intros E. unfold verify_mfa_challenge in E. destruct (user_mfa_enabled u); [|by injection E as <- <-].
  destruct (user_mfa_secret u) as [token|]; [|by injection E as <- <-]. destruct (isdigit code); cbn [negb] in E.
  - apply bind_Ok_inv in E as (secret & w1 & Edec & E). unfold decrypt_secret in Edec.
    destruct (fernet_decrypt _fernet token); [|done]. injection Edec as <- <-.
    apply bind_Ok_inv in E as (t & w1 & Et & E). assert (w1 = w) as -> by (destruct now; by injection Et as <- <-).
    destruct (_match_totp _ _ _ _); [|by injection E as <- <-].
    apply bind_Ok_inv in E as ([] & w1 & (r & r' & _ & _ & ->)%db_update_Ok & E). by injection E as <- <-.
  - destruct (_ =? _)%nat; [by injection E as <- <-|].
    apply bind_Ok_inv in E as ([] & w1 & (r & r' & _ & _ & ->)%db_update_Ok & E).
    apply bind_Ok_inv in E as ([] & w2 & E2 & E). injection E as <- <-. unfold user_audit in E2.
    apply bind_Ok_inv in E2 as (id & w3 & [= <- <-] & E2). apply bind_Ok_inv in E2 as (n & w3 & [= <- <-] & E2).
    by injection E2 as <-.
Qed.

(** C22. A second factor is accepted once.  After a challenge was passed, the next one with a
    time-based code needs a strictly later step of the same secret, and the next one with
    a recovery code another recovery code, however it is written. *)
Theorem second_factor_once u code now w w1 u1 code' now' w2 w3 :
  loaded u w → verify_mfa_challenge u code now w = (Ok true, w1) →
  loaded u1 w1 → user_id u1 = user_id u → loaded u1 w2 → verify_mfa_challenge u1 code' now' w2 = (Ok true, w3) →
  (isdigit code = true → isdigit code' = true →
   ∃ secret s1 s2, s1 < s2 ∧ totp_at secret (s1 * 30) = code ∧ totp_at secret (s2 * 30) = code') ∧
  (isdigit code = false → isdigit code' = false → _normalize_recovery_code code ≠ _normalize_recovery_code code').
Proof.
  intros Hu E1 Hu1 Hid Hu2 E2.
  apply (verify_cases u) in E1 as (_ & (u' & Hp & Hl') & _); [|done].
  apply (verify_cases u1) in E2 as (_ & (u'' & Hp2 & _) & _); [|done].
  assert (u1 = u') as ->.
  { assert (user_id u' = user_id u) as Hi.
    { unfold proves in Hp. destruct (isdigit code); [|by destruct Hp as [_ ->]].
      by destruct Hp as (? & ? & ? & _ & _ & _ & _ & _ & _ & ->). }
    unfold loaded in *. rewrite Hid in Hu1. rewrite Hi in Hl'. congruence. }
  unfold proves in *. split; intros Hd Hd'; rewrite Hd in Hp; rewrite Hd' in Hp2.
  - destruct Hp as (tk & s & s1 & Htk & Hs & _ & _ & _ & Hc & ->).
    destruct Hp2 as (tk' & s' & s2 & Htk' & Hs' & _ & Hlast & _ & Hc' & _). cbn in Htk', Hlast.
    rewrite Htk in Htk'. injection Htk' as <-. rewrite Hs in Hs'. injection Hs' as <-.
    exists s, s1, s2. split; [by apply Hlast|done].
  - destruct Hp as [_ ->], Hp2 as [Hin _]. intros Heq. cbn in Hin. unfold code_hash in Hin. rewrite <- Heq in Hin.
    apply list_elem_of_In, List.filter_In in Hin as [_ Hin]. by rewrite String.eqb_refl in Hin.
Qed.
End challenge.

(** ** A concrete user with a second factor *)

#[export] Instance demo_pyotp : Pyotp :=
  {| random_base32 n := "SECRET" +:+ str_of_Z (Z.of_nat n);
     totp_at secret t := str_drop 1 (str_of_Z (1000000 + t / 30 mod 1000000));
     provisioning_uri secret name issuer := "otpauth://totp/" +:+ name |}.

Definition demo_password_hash : string :=
  Eval vm_compute in password_text 1 [1; 2; 3] (pbkdf2_hmac (bytes_of_str "right") [1; 2; 3] 1).

Definition demo_recovery_hashes : list string :=
  Eval vm_compute in [code_hash "AAAA-BBBB-CCCC-DDDD"; code_hash "1111-2222-3333-444F"].

Definition mfa_user : User :=
  {| user_id := "user-2"; user_email := "bob@example.com"; user_username := "bob";
     user_password_hash := demo_password_hash; user_auth_version := 3; user_mfa_enabled := true;
     user_mfa_secret := Some (fernet_encrypt _fernet 0 "S3CRET"); user_mfa_pending_secret := None;
     user_mfa_last_used_step := Some 59333332;
     user_mfa_recovery_code_hashes := demo_recovery_hashes;
     user_role := SUPER_ADMIN; user_is_active := true |}.
Definition mfa_db : Db := set_users [demo_user; mfa_user] demo_db.
Definition mfa_world : World := mkWorld mfa_db mfa_db empty_db 7 1780000000000000 [].

(** The current step is good once, the one before was used, the next one is a little early
    but good; a recovery code is good once in any spelling. *)
Example challenges :
  (verify_mfa_challenge mfa_user "333333" None mfa_world).1 = Ok true ∧
  (verify_mfa_challenge mfa_user "333332" None mfa_world).1 = Ok false ∧
  (verify_mfa_challenge mfa_user "333334" None mfa_world).1 = Ok true ∧
  (verify_mfa_challenge mfa_user "333335" None mfa_world).1 = Ok false ∧
  (verify_mfa_challenge mfa_user "aaaabbbb ccccdddd" None mfa_world).1 = Ok true ∧
  (verify_mfa_challenge mfa_user "aaaabbbb cccceeee" None mfa_world).1 = Ok false.
Proof. vm_compute. repeat split. Qed.

Definition mfa_world_spent (u : User) : World :=
  let d := set_users [demo_user; u] demo_db in mkWorld d d empty_db 9 1780000030000000 [].

Lemma second_factor_once_witness :
  (∃ w1, verify_mfa_challenge mfa_user "333333" None mfa_world = (Ok true, w1)) ∧
  ∃ secret s1 s2, s1 < s2 ∧ totp_at secret (s1 * 30) = "333333" ∧ totp_at secret (s2 * 30) = "333334".
Proof.
  assert (∃ w1, verify_mfa_challenge mfa_user "333333" None mfa_world = (Ok true, w1) ∧
    loaded (user_used_step 59333333 mfa_user) w1) as (w1 & E1 & Hl1)
    by (eexists; split; [vm_compute; reflexivity|vm_compute; reflexivity]).
  assert (∃ w3, verify_mfa_challenge (user_used_step 59333333 mfa_user) "333334" None
    (mfa_world_spent (user_used_step 59333333 mfa_user)) = (Ok true, w3)) as (w3 & E3)
    by (eexists; vm_compute; reflexivity).
  split; [by exists w1|].
  assert (loaded mfa_user mfa_world) as Hl0 by (vm_compute; reflexivity).
  assert (loaded (user_used_step 59333333 mfa_user) (mfa_world_spent (user_used_step 59333333 mfa_user))) as Hl2
    by (vm_compute; reflexivity).
  exact (proj1 (second_factor_once mfa_user "333333" None mfa_world w1 (user_used_step 59333333 mfa_user) "333334" None
    (mfa_world_spent (user_used_step 59333333 mfa_user)) w3 Hl0 E1 Hl1 eq_refl Hl2 E3) eq_refl eq_refl).
Defined.
