(* ===== verification/Users.v ===== *)
(** [services/users.py], [api/deps.py], [api/v1/auth.py] and [api/v1/users.py]: accounts of
    users, login with password and second factor, the tokens that admit a request, and
    the endpoints a user changes their own credentials with. *)
From S2P Require Import Prelude PyStr PyDecimal PyValue Json Base64 Models Hash Session PgDatabase Tables Demo Logic Accounts Security Mfa.
From Stdlib Require Import Ascii.
Open Scope Z_scope.

Section users.
Context `{Database} `{Settings} `{PyFloat} `{Fernet} `{Secrets} `{Pyotp}.

(** ** The service *)

Definition goes_by (email username : string) (u : User) : bool :=
  String.eqb (user_email u) email || String.eqb (user_username u) username.

(** The defaults of the columns. *)
Definition create_user (email username password : string) : M User :=
  existing ← db_scalar (goes_by email username);
  match existing with
  | Some _ => raise (DuplicateUserError "email or username already exists")
  | None =>
      hash ← hash_password password;
      id ← new_id;
      let user := Build_User id email username hash 0 false None None None [] NORMAL_USER true in
      add_commit user ;;
      mret user
  end.

Definition authenticate_user (username_or_email password : string) (mfa_code : option string) : M (option User) :=
  found ← db_scalar (goes_by username_or_email username_or_email);
  match found with
  | None => mret None
  | Some user =>
      if negb (user_is_active user) then mret None
      else
        password_ok ← lift (verify_password password (user_password_hash user));
        if negb password_ok then mret None
        else if user_mfa_enabled user then
          match mfa_code with
          | None => raise (MfaRequiredError "mfa code required")
          | Some code =>
              ok ← verify_mfa_challenge user code None;
              if negb ok then mret None else commit ;; mret (Some user)
          end
        else mret (Some user)
  end.

Definition record_reauthentication (user : User) (password : string) : M unit :=
  password_ok ← lift (verify_password password (user_password_hash user));
  if negb password_ok then
    user_audit user "user.reauthentication.failed" "WARNING"
      [("user_id", VStr (user_id user)); ("reason", VStr "invalid_password")] ;;
    commit ;;
    raise (ReauthenticationError "password reauthentication failed")
  else
    user_audit user "user.reauthentication.succeeded" "INFO" [("user_id", VStr (user_id user))] ;;
    commit.

Definition user_with_password (hash : string) (u : User) : User :=
  Build_User (user_id u) (user_email u) (user_username u) hash (user_auth_version u + 1) (user_mfa_enabled u)
    (user_mfa_secret u) (user_mfa_pending_secret u) (user_mfa_last_used_step u)
    (user_mfa_recovery_code_hashes u) (user_role u) (user_is_active u).

Definition change_password (user : User) (current_password new_password : string) : M unit :=
  current_ok ← lift (verify_password current_password (user_password_hash user));
  if negb current_ok then raise (PasswordChangeError "current password is invalid")
  else
    same ← lift (verify_password new_password (user_password_hash user));
    if (same : bool) then raise (PasswordChangeError "new password must differ from current password")
    else
      hash ← hash_password new_password;
      db_update (user_id user) (user_with_password hash) ;;
      user_audit user "user.password.changed" "WARNING"
        [("user_id", VStr (user_id user)); ("revoked_auth_version", VInt (user_auth_version user));
         ("new_auth_version", VInt (user_auth_version user + 1))] ;;
      commit.

Definition get_user_by_id (id : string) : M (option User) := db_get id.

(** ** Who a request comes from *)

Definition unauthorized {A} (detail : string) : M A := raise (HTTPException 401 (VStr detail) []).
Definition forbidden {A} (detail : string) : M A := raise (HTTPException 403 (VStr detail) []).

(** [value == number] *)
Definition py_eq_int (v : pyval) (z : Z) : bool :=
  match v with
  | VInt n => n =? z
  | VBool b => (if b then 1 else 0) =? z
  | VFloat r => match decimal_of_str r with Some (PFin d) => dec_eqb d (dec_of_Z z) | _ => false end
  | _ => false
  end.

Definition get_current_user (token : string) : M User :=
  payload ← decode_access_token token;
  match payload with
  | Some p =>
      if truthy (dict_get "sub" p) && py_eq_str (dict_get_default "purpose" (VStr "access") p) "access" then
        user ← get_user_by_id (py_str (dict_get "sub" p));
        match user with
        | Some u =>
            if negb (user_is_active u) then unauthorized "inactive or missing user"
            else if negb (py_eq_int (dict_get "ver" p) (user_auth_version u))
            then unauthorized "authentication token has been revoked"
            else mret u
        | None => unauthorized "inactive or missing user"
        end
      else unauthorized "invalid authentication token"
  | None => unauthorized "invalid authentication token"
  end.

Definition get_current_admin_user (token : string) : M User :=
  u ← get_current_user token;
  if bool_decide (user_role u = SUPER_ADMIN) || bool_decide (user_role u = ADMIN) then mret u
  else forbidden "admin privileges required".

Definition get_current_super_admin_user (token : string) : M User :=
  u ← get_current_user token;
  if bool_decide (user_role u = SUPER_ADMIN) then mret u else forbidden "super admin privileges required".

Definition get_reauthenticated_user (token : string) (x_reauth_token : option string) : M User :=
  current_user ← get_current_user token;
  payload ← decode_access_token (default "" x_reauth_token);
  match payload with
  | Some p =>
      if py_eq_str (dict_get "purpose" p) "reauthentication" && py_eq_str (dict_get "sub" p) (user_id current_user) &&
         py_eq_int (dict_get "ver" p) (user_auth_version current_user)
      then mret current_user
      else unauthorized "recent password reauthentication required"
  | None => unauthorized "recent password reauthentication required"
  end.

(** ** Endpoints *)

Definition register (email username password : string) : M User :=
  try_except (create_user email username password)
    (λ x, match x with
          | DuplicateUserError m => Some (raise (HTTPException 409 (VStr m) []))
          | _ => None
          end).

Definition login (username_or_email password : string) (mfa_code : option string) : M string :=
  user ← try_except (authenticate_user username_or_email password mfa_code)
           (λ x, match x with MfaRequiredError _ => Some (unauthorized "mfa code required") | _ => None end);
  match user with
  | None => unauthorized "invalid username/email, password, or mfa code"
  | Some u => create_access_token (user_id u) (user_auth_version u)
  end.

Definition reauthenticate (token password : string) : M string :=
  current_user ← get_current_user token;
  try_except (record_reauthentication current_user password)
    (λ x, match x with ReauthenticationError _ => Some (unauthorized "password reauthentication failed") | _ => None end) ;;
  create_reauthentication_token (user_id current_user) (user_auth_version current_user).

Definition update_password (token current_password new_password : string) : M unit :=
  current_user ← get_current_user token;
  try_except (change_password current_user current_password new_password)
    (λ x, match x with
          | PasswordChangeError _ => Some (raise (HTTPException 400 (VStr "password change rejected") []))
          | _ => None
          end).

Definition _require_super_admin (user : User) : M unit :=
  if bool_decide (user_role user = SUPER_ADMIN) then mret tt else forbidden "super admin privileges required".

Definition read_me (current_user : User) : M User := mret current_user.

Definition read_mfa_status (token : string) : M (bool * bool) :=
  current_user ← get_current_user token; mret (get_mfa_status current_user).

Definition mfa_rejected {A} (status : Z) (detail : string) (x : Exn) : option (M A) :=
  match x with
  | MfaEnrollmentError _ | MfaVerificationError _ => Some (raise (HTTPException status (VStr detail) []))
  | _ => None
  end.

Definition enroll_mfa (token : string) (reauth : option string) : M (string * string) :=
  current_user ← get_reauthenticated_user token reauth;
  _require_super_admin current_user ;;
  try_except (start_mfa_enrollment current_user "Crypto Trading Platform")
    (λ x, match x with
          | MfaEnrollmentError _ => Some (raise (HTTPException 409 (VStr "mfa enrollment rejected") []))
          | _ => None
          end).

Definition confirm_mfa (token : string) (reauth : option string) (code : string) : M (list string) :=
  current_user ← get_reauthenticated_user token reauth;
  _require_super_admin current_user ;;
  try_except (confirm_mfa_enrollment current_user code None) (mfa_rejected 400 "mfa confirmation rejected").

Definition remove_mfa (token : string) (reauth : option string) (code : string) : M unit :=
  current_user ← get_reauthenticated_user token reauth;
  _require_super_admin current_user ;;
  try_except (disable_mfa current_user code None) (mfa_rejected 400 "mfa disable rejected").
End users.

(** ** Admission *)

Section admission.
Context `{Database} `{Settings} `{PyFloat} `{Fernet} `{Secrets} `{SecretsLaws} `{Pyotp}.

Definition refused {A} (detail : string) (w : World) : Outcome A * World :=
  (Raise (HTTPException 401 (VStr detail) []), w).

(** The user a request may act for, of the users stored. *)
Definition admitted (id : string) (ver : Z) (w : World) : Outcome User * World :=
  match find_first (λ u, String.eqb (user_id u) id) (db_users (w_tx w)) with
  | Some u =>
      if negb (user_is_active u) then refused "inactive or missing user" w
      else if user_auth_version u =? ver then (Ok u, w)
      else refused "authentication token has been revoked" w
  | None => refused "inactive or missing user" w
  end.

Lemma decode_issued id ver purpose exp w :
  ascii_text id = true → ascii_text purpose = true →
  decode_access_token (token_text (token_payload id ver purpose exp)) w =
    (Ok (if exp <? unix_seconds (w_now w) then None else Some (token_payload id ver purpose exp)), w).
Proof.
  intros Hi Hp. rewrite decode_token_text by (by apply token_payload_plain).
  change (int_of_value _) with (Ok (A:=Z) exp). rewrite run_bind. cbn [lift]. rewrite run_bind.
  cbn [now_utc gets]. destruct (exp <? _); done.
Qed.

Lemma issued_token id ver purpose exp w :
  ascii_text id = true → ascii_text purpose = true → id ≠ "" →
  get_current_user (token_text (token_payload id ver purpose exp)) w =
    if (exp <? w_now w / 1000000) || negb (String.eqb purpose "access")
    then refused "invalid authentication token" w else admitted id ver w.
Proof.
  intros Hi Hp Hne. unfold get_current_user. rewrite run_bind, decode_issued by done. unfold unix_seconds.
  destruct (exp <? _); cbn [orb]; [done|]. unfold token_payload at 1 2 3.
  change (truthy (dict_get "sub" _)) with (negb (String.eqb id "")).
  change (py_eq_str (dict_get_default "purpose" _ _) "access") with (String.eqb purpose "access").
  destruct (String.eqb_spec id "") as [|_]; [done|]. cbn [negb andb].
  destruct (String.eqb purpose "access"); cbn [negb]; [|done]. rewrite run_bind.
  change (py_str (dict_get "sub" _)) with id. unfold get_user_by_id, db_get, admitted. cbn [db_scalar gets].
  change (find_first (λ r : User, String.eqb (row_id r) id) (tbl (w_tx w)))
    with (find_first (λ u, String.eqb (user_id u) id) (db_users (w_tx w))).
  destruct (find_first _ _) as [u|]; [|done]. destruct (user_is_active u); cbn [negb]; [|done].
  change (py_eq_int (dict_get "ver" _) _) with (ver =? user_auth_version u). rewrite Z.eqb_sym.
  destruct (user_auth_version u =? ver); done.
Qed.

(** A token the server issued admits exactly the stored, active user it names, as long as
    it has not expired, was issued for access and not for reauthentication, and the
    user's credentials have not changed since. *)
Theorem token_admission id ver purpose exp w :
  ascii_text id = true → ascii_text purpose = true → id ≠ "" →
  get_current_user (token_text (token_payload id ver purpose exp)) w =
    if (exp <? w_now w / 1000000) || negb (String.eqb purpose "access")
    then refused "invalid authentication token" w else admitted id ver w.
Proof. apply issued_token. Qed.

Lemma current_user_Ok token w u w' : get_current_user token w = (Ok u, w') → w' = w ∧ loaded u w ∧ user_is_active u = true.
Proof.
  unfold get_current_user. intros E. apply bind_Ok_inv in E as (p & w1 & Ed & E).
  destruct p as [p|]; [|done]. apply decode_inv in Ed as [-> _]. destruct (_ && _); [|done].
  apply bind_Ok_inv in E as (r & w1 & Er & E). injection Er as <- <-.
  destruct (find_first _ _) as [x|] eqn:Ef; [|done]. destruct (user_is_active x) eqn:Ea; [|done]. cbn [negb] in E.
  destruct (py_eq_int _ _); [|done]. injection E as <- <-. split; [done|]. split; [|done].
  unfold loaded. rewrite <- Ef. apply find_first_Some in Ef as [_ Hid%String.eqb_eq]. cbn in Hid. by rewrite Hid.
Qed.

(** ** Login *)

Lemma commit_loaded u w w' :
  loaded u w → tbl (R:=User) (w_new w) = [] → commit w = (Ok tt, w') →
  loaded u w' ∧ w_committed w' = w_tx w'.
Proof.
  intros Hl Hn E. pose proof (commit_untouched (R:=User) w w' Hn E) as [Ht _].
  split; [unfold loaded in *; cbn in Ht; by rewrite Ht|]. by apply commit_Ok in E as (w1 & _ & ->).
Qed.

Lemma try_Ok {A} (m : M A) h w a w' :
  (∀ x k w1, h x = Some k → (k w1).1 ≠ Ok a) → try_except m h w = (Ok a, w') → m w = (Ok a, w').
Proof.
  intros Hh. unfold try_except. destruct (m w) as [[b|x] w1]; [by intros [= -> ->]|].
  destruct (h x) as [k|] eqn:E; [|done]. intros Ek. by destruct (Hh x k w1 E); rewrite Ek.
Qed.

(** C20. A login that answers with a token names a stored, active user by email or name, with
    the password that is stored for it and, where the user has a second factor, a code
    that proves it and is thereby spent; the token is that user's, for access, at the
    current version of the credentials. *)
Theorem login_proves_identity name password mfa_code w token w' :
  w_new w = empty_db → unique_ids User (w_tx w) → login name password mfa_code w = (Ok token, w') →
  ∃ u, u ∈ db_users (w_tx w) ∧ goes_by name name u = true ∧ user_is_active u = true ∧
    verify_password password (user_password_hash u) = Ok true ∧
    (user_mfa_enabled u = true →
       ∃ code u', mfa_code = Some code ∧ proves u code (w_now w) u' ∧ loaded u' w' ∧ w_committed w' = w_tx w') ∧
    token = token_text (token_payload (user_id u) (user_auth_version u) "access"
              ((w_now w + minutes jwt_expires_minutes) / 1000000)).
Proof.
  intros Hn Hu E. unfold login in E. apply bind_Ok_inv in E as (found & w1 & Ea & E).
  destruct found as [u|]; [|done]. apply try_Ok in Ea; [|by intros [] k ? [= <-]].
  unfold create_access_token, _create_token in E. apply bind_Ok_inv in E as (now & w2 & [= <- <-] & E).
  injection E as <- <-. unfold authenticate_user in Ea.
  apply bind_Ok_inv in Ea as (r & w2 & Ef & Ea). injection Ef as <- <-.
  destruct (find_first _ _) as [v|] eqn:Ef; [|done]. apply find_first_Some in Ef as [Hin Hby].
  destruct (user_is_active v) eqn:Eact; cbn [negb] in Ea; [|done].
  apply bind_Ok_inv in Ea as (ok & w2 & Ev & Ea). unfold lift in Ev. injection Ev as Ev <-.
  destruct ok; cbn [negb] in Ea; [|done]. exists v.
  destruct (user_mfa_enabled v) eqn:Em.
  - destruct mfa_code as [code|]; [|done]. apply bind_Ok_inv in Ea as (ok & w2 & Ec & Ea).
    destruct ok; cbn [negb] in Ea; [|done]. apply bind_Ok_inv in Ea as ([] & w3 & Ecm & Ea). injection Ea as <- <-.
    assert (loaded v w) as Hl by (by apply (find_first_key user_id)).
    pose proof (verify_frame v code None w _ _ Ec) as (Hw1 & Hnow).
    apply (verify_cases v) in Ec as (_ & (u' & Hp & Hl') & _); [|done].
    pose proof (commit_Ok _ _ Ecm) as (w4 & Efl & Hw3). pose proof (flush_same_rest w2) as (_ & _ & Hnow' & _).
    rewrite Efl in Hnow'. cbn in Hnow'.
    apply (commit_loaded u') in Ecm as [Hl'' Hc]; [|done|by rewrite Hw1, Hn].
    split; [done|]. split; [done|]. split; [done|]. split; [done|]. split; [intros _; by exists code, u'|].
    unfold unix_seconds. rewrite Hw3. cbn. by rewrite Hnow', Hnow.
  - injection Ea as <- <-. split; [done|]. split; [done|]. split; [done|]. split; [done|]. split; [done|].
    reflexivity.
Qed.

(** ** Changing credentials *)

Lemma user_audit_Ok u action severity payload w w' :
  user_audit u action severity payload w = (Ok tt, w') →
  w_tx w' = w_tx w ∧ tbl (R:=User) (w_new w') = tbl (w_new w).
Proof.
  intros E. unfold user_audit in E. apply bind_Ok_inv in E as (id & w1 & [= <- <-] & E).
  apply bind_Ok_inv in E as (n & w1 & [= <- <-] & E). by injection E as <-.
Qed.

(** The tail of every change: the row is written, the change is logged and committed. *)
Lemma change_Ok {A} u u1 f action severity payload (a a' : A) w w' :
  loaded u1 w → user_id u1 = user_id u → user_id (f u1) = user_id u1 → tbl (R:=User) (w_new w) = [] →
  (db_update (user_id u) f ;; user_audit u action severity payload ;; commit ;; mret a) w = (Ok a', w') →
  loaded (f u1) w' ∧ w_committed w' = w_tx w' ∧ a' = a.
Proof.
  intros Hl Hid Hf Hn E. rewrite <- Hid in E. apply bind_Ok_inv in E as ([] & w1 & E1 & E).
  apply (db_update_loaded u1) in E1 as (Hl1 & Hn1 & _ & _); [|done|done].
  apply bind_Ok_inv in E as ([] & w2 & (Ht & Hn2)%user_audit_Ok & E).
  apply bind_Ok_inv in E as ([] & w3 & Ec & E). injection E as <- <-.
  apply (commit_loaded (f u1)) in Ec as [Hl2 Hc]; [done| |by rewrite Hn2, Hn1].
  unfold loaded in *. by rewrite Ht.
Qed.

Lemma seq_ret_unit (m : M unit) w : (m ;; mret tt) w = m w.
Proof. rewrite run_bind. by destruct (m w) as [[[]|e] w1]. Qed.

Lemma change_unit_Ok u u1 f action severity payload w w' :
  loaded u1 w → user_id u1 = user_id u → user_id (f u1) = user_id u1 → tbl (R:=User) (w_new w) = [] →
  (db_update (user_id u) f ;; user_audit u action severity payload ;; commit) w = (Ok tt, w') →
  loaded (f u1) w' ∧ w_committed w' = w_tx w'.
Proof.
  intros Hl Hid Hf Hn E.
  destruct (change_Ok u u1 f action severity payload tt tt w w' Hl Hid Hf Hn) as (? & ? & _); [|done].
  rewrite <- E, !run_bind. destruct (db_update _ _ w) as [[[]|e] w1]; [|done].
  rewrite !run_bind. destruct (user_audit _ _ _ _ w1) as [[[]|e] w2]; [|done]. apply seq_ret_unit.
Qed.

Definition credentials_changed (u : User) (w w' : World) : Prop :=
  (∃ current new, change_password u current new w = (Ok tt, w')) ∨
  (∃ code now codes, confirm_mfa_enrollment u code now w = (Ok codes, w')) ∨
  (∃ code now, disable_mfa u code now w = (Ok tt, w')).

Lemma change_stored u w w' :
  loaded u w → w_new w = empty_db → credentials_changed u w w' →
  ∃ u', loaded u' w' ∧ user_id u' = user_id u ∧ user_auth_version u' = user_auth_version u + 1 ∧
    w_committed w' = w_tx w'.
Proof.
  intros Hl Hn [(cur & new & E)|[(code & now & codes & E)|(code & now & E)]].
  - unfold change_password in E. apply bind_Ok_inv in E as (ok & w1 & Ev & E). unfold lift in Ev. injection Ev as Ev <-.
    destruct ok; cbn [negb] in E; [|done]. apply bind_Ok_inv in E as (same & w1 & Es & E). unfold lift in Es.
    injection Es as Es <-. destruct same; [done|]. apply bind_Ok_inv in E as (hash & w1 & Eh & E).
    unfold hash_password in Eh. apply bind_Ok_inv in Eh as (n & w2 & [= <- <-] & Eh). injection Eh as _ <-.
    apply (change_unit_Ok u u) in E as [? ?]; [|done|done|done|by cbn; rewrite Hn]. eexists. split; [done|]. done.
  - unfold confirm_mfa_enrollment in E. destruct (user_mfa_enabled u); [done|].
    destruct (user_mfa_pending_secret u) as [tk|]; [|done]. apply bind_Ok_inv in E as (secret & w1 & Ed & E).
    unfold decrypt_secret in Ed. destruct (fernet_decrypt _ tk); [|done]. injection Ed as <- <-.
    apply bind_Ok_inv in E as (t & w1 & Et & E). assert (w1 = w) as -> by (destruct now; by injection Et as <- <-).
    destruct (_match_totp _ _ _ _) as [step|]; [|done]. apply bind_Ok_inv in E as (rcs & w1 & Er & E).
    assert (w_tx w1 = w_tx w ∧ w_new w1 = w_new w) as [Ht1 Hn1].
    { assert (∀ V (f : World → V), (∀ n w, f (set_next n w) = f w) →
        preserves f (mapM (λ _ : nat, _generate_recovery_code) (seq 0 _RECOVERY_CODE_COUNT))) as Hp.
      { intros V f Hf. apply preserves_mapM. intros _ w0. apply Hf. }
      split; [rewrite <- (Hp _ w_tx (λ _ _, eq_refl) w)|rewrite <- (Hp _ w_new (λ _ _, eq_refl) w)]; by rewrite Er. }
    apply (change_Ok u u) in E as (? & ? & _);
      [|unfold loaded in *; by rewrite Ht1|done|done|by rewrite Hn1, Hn]. eexists. split; [done|]. done.
  - unfold disable_mfa in E. destruct (user_mfa_enabled u); [|done]. cbn [negb] in E.
    apply bind_Ok_inv in E as (ok & w1 & Ev & E). destruct ok; [|done]. cbn [negb] in E.
    pose proof (verify_frame _ _ _ _ _ _ Ev) as [Hw1 _].
    apply (verify_cases u) in Ev as (_ & (u1 & Hp & Hl1) & _); [|done].
    assert (user_id u1 = user_id u ∧ user_auth_version u1 = user_auth_version u) as [Hid Hver].
    { unfold proves in Hp. destruct (isdigit code); [|by destruct Hp as [_ ->]].
      by destruct Hp as (? & ? & ? & _ & _ & _ & _ & _ & _ & ->). }
    apply (change_unit_Ok u u1) in E as [? ?]; [|done|done|done|by rewrite Hw1, Hn].
    eexists. split; [done|]. cbn. rewrite Hid, Hver. done.
Qed.

End admission.

(** ** Concrete runs *)

Lemma token_admission_witness :
  get_current_user (token_text (token_payload "user-2" 3 "access" 1780000060)) mfa_world = (Ok mfa_user, mfa_world) ∧
  get_current_user (token_text (token_payload "user-2" 2 "access" 1780000060)) mfa_world =
    refused "authentication token has been revoked" mfa_world.
Proof.
  split; (etrans; [apply token_admission; [reflexivity|reflexivity|discriminate]|vm_compute; reflexivity]).
Defined.

Lemma login_proves_identity_witness :
  ∃ token w', login "bob" "right" (Some "333333") mfa_world = (Ok token, w') ∧
    ∃ u, u ∈ db_users mfa_db ∧ goes_by "bob" "bob" u = true.
Proof.
  assert (∃ token w', login "bob" "right" (Some "333333") mfa_world = (Ok token, w')) as (token & w' & E)
    by (eexists _, _; vm_compute; reflexivity).
  exists token, w'. split; [exact E|].
  destruct (login_proves_identity "bob" "right" (Some "333333") mfa_world token w') as (u & Hu & Hb & _);
    [reflexivity|apply (bool_decide_unpack _); vm_compute; exact I|exact E|].
  exists u. split; [exact Hu|exact Hb].
Defined.

