(* ===== verification/Permissions.v ===== *)
(** [services/permissions.py] with its endpoints in [api/v1/permissions.py] and the
    schemas of [schemas/permission.py]: what a user lets another user do with their
    accounts. *)
From S2P Require Import Prelude PyStr PyDecimal PyValue Models Session PgDatabase Tables Demo Logic.

Record PermissionCreate := {
  pc_grantee : string; pc_view_only : bool; pc_copy_follow : bool; pc_pause_follow : bool;
  pc_edit_copy_rule : bool; pc_trade_manual : bool }.

(** [require_one_permission], the validator of the request. *)
Definition permission_create_valid (p : PermissionCreate) : bool :=
  existsb id [pc_view_only p; pc_copy_follow p; pc_pause_follow p; pc_edit_copy_rule p; pc_trade_manual p].

(** [None]: absent or [null], both of which leave the field as it is. *)
Record PermissionUpdate := {
  pu_view_only : option bool; pu_copy_follow : option bool; pu_pause_follow : option bool;
  pu_edit_copy_rule : option bool; pu_trade_manual : option bool }.

Definition permission_with (u : PermissionUpdate) (p : UserPermission) : UserPermission :=
  Build_UserPermission (perm_id p) (perm_owner p) (perm_grantee p) (default (perm_view_only p) (pu_view_only u))
    (default (perm_copy_follow p) (pu_copy_follow u)) (default (perm_pause_follow p) (pu_pause_follow u))
    (default (perm_edit_copy_rule p) (pu_edit_copy_rule u)) (default (perm_trade_manual p) (pu_trade_manual u)).

Section permissions.
Context `{Database}.

Definition list_permissions_for_owner (owner : string) : M (list UserPermission) :=
  db_scalars (λ p, String.eqb (perm_owner p) owner).

Definition create_permission (owner : string) (data : PermissionCreate) : M UserPermission :=
  id ← new_id;
  let permission := Build_UserPermission id owner (pc_grantee data) (pc_view_only data) (pc_copy_follow data)
                      (pc_pause_follow data) (pc_edit_copy_rule data) (pc_trade_manual data) in
  add_commit permission ;;
  mret permission.

Definition get_owned_permission (owner permission : string) : M (option UserPermission) :=
  db_scalar (λ p, String.eqb (perm_id p) permission && String.eqb (perm_owner p) owner).

Definition update_permission (permission : UserPermission) (data : PermissionUpdate) : M UserPermission :=
  db_update (perm_id permission) (permission_with data) ;;
  commit ;;
  mret (permission_with data permission).

Definition delete_permission (permission : UserPermission) : M unit :=
  db_delete (R:=UserPermission) (perm_id permission) ;; commit.

(** ** Endpoints *)

Definition list_permissions (current_user : User) : M (list UserPermission) :=
  list_permissions_for_owner (user_id current_user).

Definition add_permission (current_user : User) (payload : PermissionCreate) : M UserPermission :=
  if String.eqb (pc_grantee payload) (user_id current_user)
  then raise (HTTPException 400 (VStr "cannot share with self") [])
  else create_permission (user_id current_user) payload.

Definition require_permission (current_user : User) (permission : string) : M UserPermission :=
  r ← get_owned_permission (user_id current_user) permission;
  match r with
  | Some p => mret p
  | None => raise (HTTPException 404 (VStr "permission not found") [])
  end.

Definition patch_permission (current_user : User) (permission : string) (payload : PermissionUpdate) :
    M UserPermission :=
  p ← require_permission current_user permission; update_permission p payload.

Definition remove_permission (current_user : User) (permission : string) : M unit :=
  p ← require_permission current_user permission; delete_permission p.
End permissions.

(** ** A user manages their own permissions only *)

Section isolation.
Context `{Database}.

Definition others (owner : string) (d : Db) : list UserPermission :=
  List.filter (λ p, negb (String.eqb (perm_owner p) owner)) (db_permissions d).

(** Every permission of the table is for somebody else than its owner. *)
Definition no_self_grant (d : Db) : Prop := ∀ p, p ∈ db_permissions d → perm_owner p ≠ perm_grantee p.

Lemma others_app owner a b d :
  List.filter (λ p, negb (String.eqb (perm_owner p) owner)) (a ++ b) =
  List.filter (λ p, negb (String.eqb (perm_owner p) owner)) a ++ others owner (set_permissions b d).
Proof. apply List.filter_app. Qed.

Lemma require_permission_Ok u permission p w w' :
  require_permission u permission w = (Ok p, w') → w' = w ∧ p ∈ db_permissions (w_tx w) ∧ perm_owner p = user_id u.
Proof.
  unfold require_permission. intros E. apply bind_Ok_inv in E as (r & w1 & Er & E). injection Er as <- <-.
  destruct (find_first _ _) as [x|] eqn:Ef; [|done]. injection E as <- <-.
  apply find_first_Some in Ef as [Hin [_ Ho%String.eqb_eq]%andb_true_iff]. done.
Qed.

Definition managed (u : User) (w w' : World) : Prop :=
  w_committed w' = w_tx w' ∧ others (user_id u) (w_tx w') = others (user_id u) (w_tx w) ∧
  (no_self_grant (w_tx w) → no_self_grant (w_tx w')).

Lemma others_update owner pid p' l :
  (∀ x, x ∈ l → perm_id x = pid → perm_owner x = owner) → perm_owner p' = owner →
  List.filter (λ p, negb (String.eqb (perm_owner p) owner))
    (update_where (λ x, String.eqb (perm_id x) pid) (λ _, p') l) =
  List.filter (λ p, negb (String.eqb (perm_owner p) owner)) l.
Proof.
  intros Hl Hp. induction l as [|x l IH]; [done|]. cbn [update_where map List.filter].
  fold (update_where (λ x, String.eqb (perm_id x) pid) (λ _, p') l).
  rewrite IH by (intros y Hy; apply Hl; by right).
  destruct (String.eqb_spec (perm_id x) pid) as [Hid|]; [|done].
  by rewrite Hp, (Hl x ltac:(left) Hid), String.eqb_refl.
Qed.

Lemma others_delete owner pid l :
  (∀ x, x ∈ l → perm_id x = pid → perm_owner x = owner) →
  List.filter (λ p, negb (String.eqb (perm_owner p) owner)) (List.filter (λ x, negb (String.eqb (perm_id x) pid)) l) =
  List.filter (λ p, negb (String.eqb (perm_owner p) owner)) l.
Proof.
  intros Hl. induction l as [|x l IH]; [done|]. cbn [List.filter].
  specialize (IH (λ y Hy, Hl y (list_elem_of_further _ _ _ Hy))).
  destruct (String.eqb_spec (perm_id x) pid) as [Hid|]; cbn [negb List.filter]; rewrite IH; [|done].
  by rewrite (Hl x ltac:(left) Hid), String.eqb_refl.
Qed.

(** C34. Whatever a user adds, changes or removes, the permissions other users granted stay
    exactly as they are, nobody grants themselves anything, and the change is committed. *)
Theorem permissions_isolated u w w' :
  w_new w = empty_db → unique_ids UserPermission (w_tx w) →
  (∃ payload p, add_permission u payload w = (Ok p, w')) ∨
  (∃ permission payload p, patch_permission u permission payload w = (Ok p, w')) ∨
  (∃ permission, remove_permission u permission w = (Ok tt, w')) →
  managed u w w'.
Proof.
  intros Hn Hu [(payload & p & E)|[(permission & payload & p & E)|(permission & E)]].
  - unfold add_permission in E. destruct (String.eqb_spec (pc_grantee payload) (user_id u)) as [|Hne]; [done|].
    unfold create_permission in E. apply bind_Ok_inv in E as (id & w1 & [= <- <-] & E).
    apply bind_Ok_inv in E as ([] & w2 & Ea & E). injection E as <- <-. unfold add_commit in Ea.
    apply bind_Ok_inv in Ea as ([] & w3 & Eadd & Ea). injection Eadd as <-.
    match type of Ea with commit ?w0 = (_, ?w1) =>
      pose proof (commit_only_Ok (R:=UserPermission) [Build_UserPermission (new_uuid (w_next w)) (user_id u)
        (pc_grantee payload) (pc_view_only payload) (pc_copy_follow payload) (pc_pause_follow payload)
        (pc_edit_copy_rule payload) (pc_trade_manual payload)] w0 w1) as Hc end.
    destruct Hc as (rs & Hrs & _ & ->); [cbn; by rewrite Hn|done|exact Ea|].
    apply Forall2_cons_inv_l in Hrs as (r & rs' & [= <-] & Hrs & ->). apply Forall2_nil_inv_l in Hrs as ->.
    split; [done|]. split.
    + cbn. unfold others. cbn. rewrite List.filter_app. cbn. rewrite String.eqb_refl. cbn. by rewrite app_nil_r.
    + intros Hs x [Hx| ->%list_elem_of_singleton]%elem_of_app; [by apply Hs|]. cbn. congruence.
  - unfold patch_permission in E. apply bind_Ok_inv in E as (q & w1 & (-> & Hin & Ho)%require_permission_Ok & E).
    unfold update_permission in E. apply bind_Ok_inv in E as ([] & w1 & (r & r' & Hr & Hst & ->)%db_update_Ok & E).
    apply bind_Ok_inv in E as ([] & w2 & Ec & E). injection E as <- <-. apply commit_empty_Ok in Ec as ->; [|done].
    cbn in Hr, Hst. injection Hst as <-. rewrite (find_first_key perm_id _ q) in Hr by done. injection Hr as <-.
    assert (∀ x, x ∈ db_permissions (w_tx w) → perm_id x = perm_id q → x = q) as Hq
      by (intros x Hx Hid; by apply (unique_key perm_id (db_permissions (w_tx w)))).
    split; [done|]. split.
    + apply others_update; [|done]. intros x Hx Hid. by rewrite (Hq x Hx Hid).
    + intros Hs x (y & Hy & ->)%elem_of_update_where. case_goal; [|by apply Hs]. cbn. by apply Hs.
  - unfold remove_permission in E. apply bind_Ok_inv in E as (q & w1 & (-> & Hin & Ho)%require_permission_Ok & E).
    unfold delete_permission in E. apply bind_Ok_inv in E as ([] & w1 & Ed & E). injection Ed as <-.
    apply commit_empty_Ok in E as ->; [|done]. split; [done|]. split.
    + apply others_delete. intros x Hx Hid.
      by rewrite (unique_key perm_id (db_permissions (w_tx w)) x q Hu Hx Hin Hid).
    + intros Hs x Hx. apply Hs. cbn in Hx. apply list_elem_of_In, List.filter_In in Hx as [Hx _].
      by apply list_elem_of_In.
Qed.
End isolation.

(** The request that creates a permission must enable one; the one that changes it need
    not leave any. *)
Example permission_emptied :
  let p := Build_UserPermission "perm-1" "user-1" "user-2" true false false false false in
  let d := set_permissions [p] demo_db in
  match patch_permission demo_user "perm-1" (Build_PermissionUpdate (Some false) None None None None)
          (mkWorld d d empty_db 0 0 []) with
  | (Ok q, w) => db_permissions (w_committed w) = [q] ∧ perm_view_only q = false ∧ perm_trade_manual q = false
  | _ => False
  end.
Proof. vm_compute. done. Qed.

Lemma permissions_isolated_witness :
  ∃ p w', add_permission demo_user (Build_PermissionCreate "user-2" true false false false false) demo_world = (Ok p, w') ∧
    managed demo_user demo_world w'.
Proof.
  eexists _, _. split; [vm_compute; reflexivity|].
  apply permissions_isolated; [reflexivity|apply (bool_decide_unpack _); vm_compute; exact I|].
  left. exists (Build_PermissionCreate "user-2" true false false false false). eexists. vm_compute. reflexivity.
Defined.
