(* ===== verification/Notifications.v ===== *)
(** [services/notification_service.py] with its endpoints in
    [api/v1/notifications.py]: internal notifications, the preferences that mute them,
    and the payload filter that refuses secrets.  The keys of a payload are strings
    and, as in every dictionary, distinct. *)
From S2P Require Import Prelude PyStr PyDecimal PyValue Models Session PgDatabase Tables Demo Logic.
From Stdlib Require Import Ascii.

Definition SENSITIVE_PAYLOAD_KEY_FRAGMENTS : list string :=
  ["api_key"; "passphrase"; "password"; "secret"; "signature"; "token"].
Definition MAX_NOTIFICATION_PAGE_SIZE : Z := 100.

Inductive NotificationEventType := POSITION_DRIFT | RISK_REJECTION | ORDER_FAILURE.

Record InternalNotificationInput := {
  nin_user : string; nin_account : option string; nin_severity : string; nin_title : string;
  nin_message : string; nin_payload : dict; nin_channel : NotificationChannel;
  nin_event_type : option NotificationEventType }.

(** [None]: the field is left as it is. *)
Record NotificationPreferenceUpdate := {
  npu_internal : option bool; npu_telegram : option bool; npu_email : option bool;
  npu_webhook : option bool; npu_position_drift : option bool; npu_risk_rejection : option bool;
  npu_order_failure : option bool }.

(** ** The payload filter *)

Definition sensitive_payload_key (key : string) : bool :=
  existsb (λ fragment, str_contains fragment (str_lower key)) SENSITIVE_PAYLOAD_KEY_FRAGMENTS.

Definition _raise_if_sensitive_key (key : string) (key_path : list string) : Outcome unit :=
  if sensitive_payload_key key
  then Raise (SensitiveNotificationPayloadError (str_join "." (key_path ++ [key])))
  else Ok tt.

(** Tuples come back as lists. *)
Fixpoint _copy_safe_value (v : pyval) (key_path : list string) : Outcome pyval :=
  match v with
  | VDict l =>
      outcome_bind (outcome_map (λ kv,
          outcome_bind (_raise_if_sensitive_key kv.1 key_path) (λ _,
          outcome_bind (_copy_safe_value kv.2 (key_path ++ [kv.1])) (λ y, Ok (kv.1, y)))) l)
        (λ d, Ok (VDict d))
  | VList l | VTuple l =>
      outcome_bind (outcome_map (λ x, _copy_safe_value x key_path) l) (λ ys, Ok (VList ys))
  | _ => Ok v
  end.

Definition _safe_payload (payload : dict) : Outcome dict :=
  outcome_bind (_copy_safe_value (VDict payload) []) (λ v, Ok (mapping v)).

(** ** The service *)

Definition _preferences_allow_internal_notification (p : NotificationPreference)
    (event_type : option NotificationEventType) : bool :=
  prf_internal p &&
  match event_type with
  | None => true
  | Some POSITION_DRIFT => prf_position_drift p
  | Some RISK_REJECTION => prf_risk_rejection p
  | Some ORDER_FAILURE => prf_order_failure p
  end.

Definition _reject_external_delivery_enablement (u : NotificationPreferenceUpdate) : Outcome unit :=
  match npu_telegram u, npu_email u, npu_webhook u with
  | Some true, _, _ => Raise (ExternalNotificationPreferenceDisabledError TELEGRAM)
  | _, Some true, _ => Raise (ExternalNotificationPreferenceDisabledError EMAIL)
  | _, _, Some true => Raise (ExternalNotificationPreferenceDisabledError WEBHOOK)
  | _, _, _ => Ok tt
  end.

Definition preference_with (u : NotificationPreferenceUpdate) (p : NotificationPreference) :
    NotificationPreference :=
  Build_NotificationPreference (prf_id p) (prf_user p) (default (prf_internal p) (npu_internal u))
    (default (prf_telegram p) (npu_telegram u)) (default (prf_email p) (npu_email u))
    (default (prf_webhook p) (npu_webhook u)) (default (prf_position_drift p) (npu_position_drift u))
    (default (prf_risk_rejection p) (npu_risk_rejection u))
    (default (prf_order_failure p) (npu_order_failure u)).

Definition notification_read (now : Z) (n : InternalNotification) : InternalNotification :=
  Build_InternalNotification (ntf_id n) (ntf_user n) (ntf_account n) (ntf_channel n) (ntf_severity n)
    (ntf_title n) (ntf_message n) (ntf_payload n) true (ntf_created_at n) (Some now).

(** [ORDER BY created_at DESC, id DESC] *)
Definition newest_first (a b : InternalNotification) : bool :=
  (ntf_created_at b <? ntf_created_at a)%Z ||
  ((ntf_created_at a =? ntf_created_at b)%Z && String.leb (ntf_id b) (ntf_id a)).

Section service.
Context `{Database}.

Definition create_internal_notification (n : InternalNotificationInput) : M InternalNotification :=
  if negb (bool_decide (nin_channel n = INTERNAL))
  then raise (ExternalNotificationChannelDisabledError (nin_channel n))
  else
    payload ← lift (_safe_payload (nin_payload n));
    id ← new_id;
    now ← now_utc;
    let record := Build_InternalNotification id (nin_user n) (nin_account n) (channel_value INTERNAL)
                    (nin_severity n) (nin_title n) (nin_message n) payload false now None in
    add_flush record ;;
    mret record.

Definition create_internal_notifications (l : list InternalNotificationInput) : M (list InternalNotification) :=
  mapM create_internal_notification (List.filter (λ n, bool_decide (nin_channel n = INTERNAL)) l).

(** The defaults of the columns. *)
Definition get_or_create_preferences (user : string) : M NotificationPreference :=
  preferences ← db_scalar (λ p, String.eqb (prf_user p) user);
  match preferences with
  | Some p => mret p
  | None =>
      id ← new_id;
      let p := Build_NotificationPreference id user true false false false true true true in
      add_flush p ;;
      mret p
  end.

Definition create_preference_aware_internal_notification (n : InternalNotificationInput) :
    M (option InternalNotification) :=
  if negb (bool_decide (nin_channel n = INTERNAL))
  then raise (ExternalNotificationChannelDisabledError (nin_channel n))
  else
    preferences ← get_or_create_preferences (nin_user n);
    if negb (_preferences_allow_internal_notification preferences (nin_event_type n)) then mret None
    else r ← create_internal_notification n; mret (Some r).

Definition create_preference_aware_internal_notifications (l : list InternalNotificationInput) :
    M (list InternalNotification) :=
  rs ← mapM create_preference_aware_internal_notification
         (List.filter (λ n, bool_decide (nin_channel n = INTERNAL)) l);
  mret (omap id rs).

Definition list_internal_notifications (user : string) (unread_only : bool) (limit : Z) :
    M (list InternalNotification) :=
  let bounded_limit := Z.min (Z.max limit 1) MAX_NOTIFICATION_PAGE_SIZE in
  rows ← db_scalars (λ n, String.eqb (ntf_user n) user && (negb unread_only || negb (ntf_is_read n)));
  mret (take (Z.to_nat bounded_limit) (sort_by newest_first rows)).

Definition get_owned_internal_notification (user notification : string) : M (option InternalNotification) :=
  db_scalar (λ n, String.eqb (ntf_id n) notification && String.eqb (ntf_user n) user).

Definition mark_internal_notification_read (user notification : string) : M (option InternalNotification) :=
  r ← get_owned_internal_notification user notification;
  match r with
  | None => mret None
  | Some n =>
      if ntf_is_read n then mret (Some n)
      else
        now ← now_utc;
        db_update (ntf_id n) (notification_read now) ;;
        flush ;;
        mret (Some (notification_read now n))
  end.

Definition update_preferences (user : string) (u : NotificationPreferenceUpdate) : M NotificationPreference :=
  lift (_reject_external_delivery_enablement u) ;;
  p ← get_or_create_preferences user;
  db_update (prf_id p) (preference_with u) ;;
  flush ;;
  mret (preference_with u p).

(** ** Endpoints *)

Definition list_notifications (current_user : User) (unread_only : bool) (limit : Z) :
    M (list InternalNotification) :=
  list_internal_notifications (user_id current_user) unread_only limit.

Definition get_notification_preferences (current_user : User) : M NotificationPreference :=
  get_or_create_preferences (user_id current_user).

Definition update_notification_preferences (current_user : User) (u : NotificationPreferenceUpdate) :
    M NotificationPreference :=
  try_except (update_preferences (user_id current_user) u)
    (λ x, match x with
          | ExternalNotificationPreferenceDisabledError c =>
              Some (raise (HTTPException 400
                (VStr (channel_value c +:+ " delivery is not enabled in this phase")) []))
          | _ => None
          end).

Definition mark_notification_read (current_user : User) (notification : string) : M InternalNotification :=
  r ← mark_internal_notification_read (user_id current_user) notification;
  match r with
  | Some n => mret n
  | None => raise (HTTPException 404 (VStr "notification not found") [])
  end.
End service.

(** ** The filter refuses exactly the payloads with a sensitive key *)

Fixpoint untuple (v : pyval) : pyval :=
  match v with
  | VList l | VTuple l => VList (map untuple l)
  | VDict l => VDict (map (λ kv, (kv.1, untuple kv.2)) l)
  | _ => v
  end.

(** A copy is the payload itself, free of sensitive keys; a refusal names one. *)
Definition filtered (v : pyval) (o : Outcome pyval) : Prop :=
  match o with
  | Ok v' => v' = untuple v ∧ ∀ k, sensitive_payload_key k = true → ¬ has_key k v'
  | Raise x =>
      (∃ path, x = SensitiveNotificationPayloadError path) ∧
      ∃ k, sensitive_payload_key k = true ∧ has_key k (untuple v)
  end.

Lemma filtered_list l path :
  Forall (λ x, ∀ path, filtered x (_copy_safe_value x path)) l →
  filtered (VList l)
    (outcome_bind (outcome_map (λ x, _copy_safe_value x path) l) (λ ys, Ok (VList ys))).
Proof.
  induction 1 as [|x l Hx _ IH]; cbn [outcome_map]; [by split; [|intros k _; inversion 1; set_solver]|].
  specialize (Hx path). destruct (_copy_safe_value x path) as [y|e]; cbn [outcome_bind filtered] in *.
  - destruct Hx as [-> Hy]. destruct (outcome_map _ l) as [ys|e]; cbn [outcome_bind filtered untuple map] in *.
    + destruct IH as [[= ->] Hys]. split; [done|]. intros k Hk Hh.
      inversion Hh as [| |l' z Hz Hzk]; subst. apply elem_of_cons in Hz as [->|Hz]; [by apply (Hy k)|].
      apply (Hys k Hk). by econstructor.
    + destruct IH as [He (k & Hk & Hh)]. split; [done|]. exists k. split; [done|].
      inversion Hh as [| |l' z Hz Hzk]; subst. econstructor; [right; exact Hz|done].
  - destruct Hx as [He (k & Hk & Hh)]. split; [done|]. exists k. split; [done|].
    cbn [untuple map]. econstructor; [left|done].
Qed.

Lemma copy_filtered v : ∀ path, filtered v (_copy_safe_value v path).
Proof.
  induction v as [|b|z|r|s|d|l IH|l IH|l IH] using pyval_ind'; intros path;
    try (by split; [|intros ? ?; inversion 1]).
  - by apply (filtered_list l).
  - by apply (filtered_list l).
  - cbn [_copy_safe_value]. induction IH as [|[k0 x] l Hx _ IHl]; cbn [outcome_map];
      [by split; [|intros k _; inversion 1; set_solver]|].
    cbn [fst snd] in *. unfold _raise_if_sensitive_key at 1.
    destruct (sensitive_payload_key k0) eqn:Es; cbn [outcome_bind].
    { split; [eauto|]. exists k0. split; [done|]. cbn [untuple map fst]. econstructor. left. }
    specialize (Hx (path ++ [k0])).
    destruct (_copy_safe_value x (path ++ [k0])) as [y|e]; cbn [outcome_bind filtered] in *.
    + destruct Hx as [-> Hy]. destruct (outcome_map _ l) as [ys|e];
        cbn [outcome_bind filtered untuple map fst snd] in *.
      * destruct IHl as [[= ->] Hys]. split; [done|]. intros k Hk Hh.
        inversion Hh as [l' z Hz|l' k' z Hz Hzk|]; subst; apply elem_of_cons in Hz as [Hz|Hz].
        -- injection Hz as -> ->. congruence.
        -- apply (Hys k Hk). by econstructor.
        -- injection Hz as -> ->. by apply (Hy k).
        -- apply (Hys k Hk). by eapply key_in_dict.
      * destruct IHl as [He (k & Hk & Hh)]. split; [done|]. exists k. split; [done|].
        inversion Hh as [l' z Hz|l' k' z Hz Hzk|]; subst; [eapply key_here|eapply key_in_dict]; eauto; by right.
    + destruct Hx as [He (k & Hk & Hh)]. split; [done|]. exists k. split; [done|].
      cbn [untuple map fst snd]. eapply key_in_dict; [left|done].
Qed.

(** A payload is stored exactly when no key of it, at any depth, names a credential;
    then it is stored unchanged but for tuples that become lists.  Any other payload
    is refused with the sensitive-field error. *)
Theorem notification_payload_filter payload :
  match _safe_payload payload with
  | Ok stored => VDict stored = untuple (VDict payload) ∧
      ∀ k, sensitive_payload_key k = true → ¬ has_key k (VDict stored)
  | Raise x => (∃ path, x = SensitiveNotificationPayloadError path) ∧
      ∃ k, sensitive_payload_key k = true ∧ has_key k (untuple (VDict payload))
  end.
Proof.
  pose proof (copy_filtered (VDict payload) []) as Hf. unfold _safe_payload.
  destruct (_copy_safe_value (VDict payload) []) as [v|x]; cbn [outcome_bind filtered] in *; [|done].
  by destruct Hf as [-> Hf].
Qed.

(** ** What the endpoints leave in the database *)

Section endpoints.
Context `{Database}.

Lemma newest_first_total a b : newest_first a b = true ∨ newest_first b a = true.
Proof.
  unfold newest_first. destruct (Z.lt_trichotomy (ntf_created_at a) (ntf_created_at b)) as [Hl|[He|Hg]].
  - right. apply orb_true_iff. left. lia.
  - rewrite He, Z.ltb_irrefl, Z.eqb_refl. cbn. destruct (String.leb_total (ntf_id b) (ntf_id a)); auto.
  - left. apply orb_true_iff. left. lia.
Qed.

Lemma newest_first_trans a b c : newest_first a b = true → newest_first b c = true → newest_first a c = true.
Proof.
  unfold newest_first. rewrite !orb_true_iff, !andb_true_iff. intros [?|[? Hab]] [?|[? Hbc]]; try (left; lia).
  right. split; [lia|]. by eapply str_leb_trans.
Qed.

(** A page of notifications holds only the user's own (only unread ones where asked),
    newest first, at most [limit] and never more than 100 of them; it is full where
    something is left out, and everything left out is older than everything on it. *)
Theorem notification_page user unread_only limit w :
  let mine n := String.eqb (ntf_user n) user && (negb unread_only || negb (ntf_is_read n)) in
  ∃ page rest, list_internal_notifications user unread_only limit w = (Ok page, w) ∧
    page ++ rest ≡ₚ List.filter mine (db_notifications (w_tx w)) ∧
    (Z.of_nat (length page) ≤ Z.min (Z.max limit 1) 100)%Z ∧
    (rest ≠ [] → Z.of_nat (length page) = Z.min (Z.max limit 1) 100) ∧
    Sorted (λ a b, newest_first a b = true) (page ++ rest) ∧
    ∀ a b, a ∈ page → b ∈ rest → newest_first a b = true.
Proof.
  intros mine. unfold list_internal_notifications, MAX_NOTIFICATION_PAGE_SIZE. cbv zeta. rewrite run_bind.
  cbn [db_scalars gets tbl InternalNotification_table].
  set (n := Z.to_nat (Z.min (Z.max limit 1) 100)). set (rows := List.filter _ _).
  exists (take n (sort_by newest_first rows)), (drop n (sort_by newest_first rows)).
  split; [done|]. rewrite take_drop. split; [by rewrite sort_by_perm|].
  rewrite length_take. split; [lia|]. split.
  { intros Hr. enough (n < length (sort_by newest_first rows))%nat by lia.
    apply Nat.nle_gt. intros Hle. by apply Hr, drop_ge. }
  split; [apply sort_by_sorted, newest_first_total|].
  apply sort_by_take_drop; [apply newest_first_total|apply newest_first_trans].
Qed.

(** The endpoints flush and never commit, and the session rolls back when the request
    ends: whatever a client is answered, changed preferences and read marks are gone. *)
Theorem notification_changes_lost current_user u notification w :
  w_committed (run_request (update_notification_preferences current_user u) w).2 = w_committed w ∧
  w_tx (run_request (update_notification_preferences current_user u) w).2 = w_committed w ∧
  w_committed (run_request (mark_notification_read current_user notification) w).2 = w_committed w ∧
  w_tx (run_request (mark_notification_read current_user notification) w).2 = w_committed w.
Proof.
  assert (preserves w_committed (update_notification_preferences current_user u)) as Hu.
  { unfold update_notification_preferences, update_preferences, get_or_create_preferences.
    apply preserves_try; [preserves_tac|]. intros [] k; intros [= <-]; preserves_tac. }
  assert (preserves w_committed (mark_notification_read current_user notification)) as Hm.
  { unfold mark_notification_read, mark_internal_notification_read, get_owned_internal_notification. preserves_tac. }
  specialize (Hu w). specialize (Hm w). unfold run_request.
  destruct (update_notification_preferences current_user u w) as [o1 w1], (mark_notification_read current_user notification w) as [o2 w2].
  cbn in *. by rewrite Hu, Hm.
Qed.
End endpoints.
