(* ===== verification/PositionReconciliation.v ===== *)
(** [services/position_reconciliation.py] and [services/reconciliation_repair.py]: the
    positions of the exchange, the database and the target are compared symbol by
    symbol, and the drift found is turned into repair proposals. *)
From S2P Require Import Prelude PyStr PyDecimal PyValue.
Open Scope Z_scope.

(** ** The report *)

Inductive PositionReconciliationStatus := MATCHED | DRIFT_DETECTED.
Inductive PositionReconciliationSeverity := SEV_OK | SEV_WARNING | SEV_CRITICAL.

#[export] Instance PositionReconciliationStatus_eq_dec : EqDecision PositionReconciliationStatus.
Proof. solve_decision. Defined.
#[export] Instance PositionReconciliationSeverity_eq_dec : EqDecision PositionReconciliationSeverity.
Proof. solve_decision. Defined.

Record PositionQuantitySnapshot := { snap_symbol : string; snap_quantity : dec }.

Record PositionReconciliationDifference := {
  diff_symbol : string; diff_exchange : dec; diff_database : dec; diff_target : dec;
  diff_exchange_database : dec; diff_exchange_target : dec; diff_database_target : dec;
  diff_severity : PositionReconciliationSeverity; diff_reasons : list string }.

Record PositionReconciliationReport := {
  rep_user : string; rep_account : string; rep_status : PositionReconciliationStatus;
  rep_severity : PositionReconciliationSeverity;
  rep_differences : list PositionReconciliationDifference; rep_auto_fix_allowed : bool }.

(** [normalized.get(symbol, Decimal("0"))] *)
Definition quantity_of (symbol : string) (m : list (string * dec)) : dec := default dec0 (dict_lookup symbol m).

Definition add_snapshot (m : list (string * dec)) (s : PositionQuantitySnapshot) : list (string * dec) :=
  let symbol := str_upper (snap_symbol s) in
  dict_set symbol (dec_add (quantity_of symbol m) (snap_quantity s)) m.

Definition _normalize_snapshots (snapshots : list PositionQuantitySnapshot) : list (string * dec) :=
  foldl add_snapshot [] snapshots.

Definition _outside_tolerance (delta tolerance : dec) : bool := dec_gtb (dec_abs delta) tolerance.

Definition _difference_reasons (exchange_database exchange_target database_target tolerance : dec) :
    list string :=
  collect
    [(_outside_tolerance exchange_database tolerance, "exchange position differs from database position");
     (_outside_tolerance exchange_target tolerance, "exchange position differs from target position");
     (_outside_tolerance database_target tolerance, "database position differs from target position")].

Definition _difference_severity (deltas : list dec) (reasons : list string) (critical : dec) :
    PositionReconciliationSeverity :=
  match reasons with
  | [] => SEV_OK
  | _ => if existsb (λ delta, dec_geb (dec_abs delta) critical) deltas then SEV_CRITICAL else SEV_WARNING
  end.

Definition _difference_for_symbol (symbol : string) (exchange database target tolerance critical : dec) :
    PositionReconciliationDifference :=
  let exchange_database := dec_sub exchange database in
  let exchange_target := dec_sub exchange target in
  let database_target := dec_sub database target in
  let reasons := _difference_reasons exchange_database exchange_target database_target tolerance in
  {| diff_symbol := symbol; diff_exchange := exchange; diff_database := database; diff_target := target;
     diff_exchange_database := exchange_database; diff_exchange_target := exchange_target;
     diff_database_target := database_target;
     diff_severity := _difference_severity [exchange_database; exchange_target; database_target] reasons critical;
     diff_reasons := reasons |}.

Definition is_drifted (d : PositionReconciliationDifference) : bool :=
  negb (bool_decide (diff_severity d = SEV_OK)).

Definition _report_severity (differences : list PositionReconciliationDifference) :
    PositionReconciliationSeverity :=
  if existsb (λ d, bool_decide (diff_severity d = SEV_CRITICAL)) differences then SEV_CRITICAL
  else match differences with [] => SEV_OK | _ => SEV_WARNING end.

Definition reconcile_position_snapshots (user account : string)
    (exchange_positions database_positions target_positions : list PositionQuantitySnapshot)
    (tolerance critical : dec) : PositionReconciliationReport :=
  let exchange := _normalize_snapshots exchange_positions in
  let database := _normalize_snapshots database_positions in
  let target := _normalize_snapshots target_positions in
  let symbols := sorted_set (exchange.*1 ++ database.*1 ++ target.*1) in
  let differences := map (λ symbol, _difference_for_symbol symbol (quantity_of symbol exchange)
      (quantity_of symbol database) (quantity_of symbol target) tolerance critical) symbols in
  let drifted := List.filter is_drifted differences in
  {| rep_user := user; rep_account := account;
     rep_status := match drifted with [] => MATCHED | _ => DRIFT_DETECTED end;
     rep_severity := _report_severity drifted; rep_differences := drifted; rep_auto_fix_allowed := false |}.

(** ** The repair plan *)

Inductive ReconciliationRepairStatus := REPAIR_DISABLED | NO_DRIFT | PROPOSAL_CREATED | EXECUTION_BLOCKED.
Inductive ReconciliationRepairAction := BUY_TO_TARGET | SELL_TO_TARGET | REVIEW_DATABASE_POSITION.

Record ReconciliationRepairSettings := { proposal_generation_enabled : bool; execution_enabled : bool }.

Record ReconciliationRepairProposal := {
  prop_symbol : string; prop_action : ReconciliationRepairAction; prop_quantity_delta : dec;
  prop_exchange : dec; prop_database : dec; prop_target : dec;
  prop_severity : PositionReconciliationSeverity; prop_reasons : list string }.

Record ReconciliationRepairPlan := {
  plan_user : string; plan_account : string; plan_status : ReconciliationRepairStatus;
  plan_proposals : list ReconciliationRepairProposal; plan_auto_fix_allowed : bool;
  plan_execution_allowed : bool }.

Definition _proposal (d : PositionReconciliationDifference) (action : ReconciliationRepairAction)
    (quantity_delta : dec) : ReconciliationRepairProposal :=
  {| prop_symbol := diff_symbol d; prop_action := action; prop_quantity_delta := quantity_delta;
     prop_exchange := diff_exchange d; prop_database := diff_database d; prop_target := diff_target d;
     prop_severity := diff_severity d; prop_reasons := diff_reasons d |}.

Definition _proposal_for_difference (d : PositionReconciliationDifference) :
    option ReconciliationRepairProposal :=
  let target_exchange_delta := dec_sub (diff_target d) (diff_exchange d) in
  if dec_gtb target_exchange_delta dec0
  then Some (_proposal d BUY_TO_TARGET target_exchange_delta)
  else if dec_ltb target_exchange_delta dec0
  then Some (_proposal d SELL_TO_TARGET (dec_abs target_exchange_delta))
  else if negb (dec_eqb (diff_database_target d) dec0)
  then Some (_proposal d REVIEW_DATABASE_POSITION (dec_abs (diff_database_target d)))
  else None.

Definition _plan (r : PositionReconciliationReport) (status : ReconciliationRepairStatus)
    (proposals : list ReconciliationRepairProposal) : ReconciliationRepairPlan :=
  {| plan_user := rep_user r; plan_account := rep_account r; plan_status := status;
     plan_proposals := proposals; plan_auto_fix_allowed := false; plan_execution_allowed := false |}.

Definition build_reconciliation_repair_plan (r : PositionReconciliationReport)
    (settings : ReconciliationRepairSettings) : ReconciliationRepairPlan :=
  if negb (proposal_generation_enabled settings) then _plan r REPAIR_DISABLED []
  else if bool_decide (rep_status r = MATCHED) then _plan r NO_DRIFT []
  else
    let proposals := omap _proposal_for_difference (rep_differences r) in
    if execution_enabled settings then _plan r EXECUTION_BLOCKED proposals
    else _plan r PROPOSAL_CREATED proposals.

(** ** Quantities as integers

    Quantities with at most ten decimals, counted in units of [10 ^ -10]. *)
Definition units (d : dec) : Z := scaled (-10) d.
Definition ten_places (d : dec) : Prop := -10 ≤ d_exp d.

Lemma units_scaled e d : -10 ≤ e ≤ d_exp d → units d = scaled e d * 10 ^ (e + 10).
Proof. intros He. unfold units, scaled. rewrite <- Z.mul_assoc, <- Z.pow_add_r by lia. f_equal. f_equal. lia. Qed.

Lemma units_bound e z : -10 ≤ e → Z.abs (z * 10 ^ (e + 10)) < 10 ^ 28 → Z.abs z < 10 ^ 28.
Proof. intros He Hz. assert (1 ≤ 10 ^ (e + 10)) by (apply (Z.pow_le_mono_r 10 0); lia). nia. Qed.

Lemma units_add a b :
  ten_places a → ten_places b → Z.abs (units a + units b) < 10 ^ 28 →
  ten_places (dec_add a b) ∧ units (dec_add a b) = units a + units b.
Proof.
  unfold ten_places. intros Ha Hb Hs. pose proof (dec_add_exact a b) as Hx. cbv zeta in Hx.
  assert (-10 ≤ common_exp a b ≤ d_exp a ∧ common_exp a b ≤ d_exp b) as (He & He') by (unfold common_exp; lia).
  rewrite (units_scaled (common_exp a b) a), (units_scaled (common_exp a b) b) in * by lia.
  rewrite <- Z.mul_add_distr_r in *. apply units_bound in Hs as Hs'; [|lia].
  destruct (Hx Hs') as [Hd Hv]. split; [lia|].
  rewrite (units_scaled (common_exp a b)) by lia. f_equal. by rewrite <- Hv, <- Hd, scaled_same_exp.
Qed.

Lemma units_negate d : units (dec_copy_negate d) = - units d.
Proof. apply scaled_copy_negate. Qed.

Lemma units_sub a b :
  ten_places a → ten_places b → Z.abs (units a - units b) < 10 ^ 28 →
  ten_places (dec_sub a b) ∧ units (dec_sub a b) = units a - units b.
Proof.
  intros Ha Hb Hs. unfold dec_sub. rewrite <- Z.add_opp_r, <- units_negate in *. by apply units_add.
Qed.

Lemma units_coeff d : ten_places d → Z.abs (units d) < 10 ^ 28 → (d_coeff d < prec_limit)%N.
Proof.
  unfold ten_places, units, scaled. intros Hd Hu.
  replace (d_exp d - -10) with (d_exp d + 10) in Hu by lia.
  apply units_bound in Hu; [|lia]. unfold sval in Hu. unfold prec_limit. destruct (d_neg d); lia.
Qed.

Lemma units_abs d :
  ten_places d → Z.abs (units d) < 10 ^ 28 → ten_places (dec_abs d) ∧ units (dec_abs d) = Z.abs (units d).
Proof.
  intros Hd Hu. rewrite dec_abs_exact by (by apply units_coeff). split; [done|].
  unfold units, scaled, sval. cbn. unfold ten_places in Hd.
  assert (0 < 10 ^ (d_exp d - -10)) by (apply Z.pow_pos_nonneg; lia). destruct (d_neg d); nia.
Qed.

Lemma units_gtb a b : ten_places a → ten_places b → dec_gtb a b = (units b <? units a).
Proof.
  intros Ha Hb. apply Bool.eq_true_iff_eq. unfold dec_gtb.
  by rewrite (dec_ltb_spec (-10)), Z.ltb_lt.
Qed.

Lemma units_geb a b : ten_places a → ten_places b → dec_geb a b = (units b <=? units a).
Proof.
  intros Ha Hb. apply Bool.eq_true_iff_eq. unfold dec_geb.
  by rewrite (dec_leb_spec (-10)), Z.leb_le.
Qed.

Lemma units_eqb a b : ten_places a → ten_places b → dec_eqb a b = (units a =? units b).
Proof.
  intros Ha Hb. apply Bool.eq_true_iff_eq. by rewrite (dec_eqb_spec (-10)), Z.eqb_eq.
Qed.

Lemma ten_places_zero : ten_places dec0.
Proof. unfold ten_places. cbn. lia. Qed.

(** ** What a list of snapshots says about a symbol *)

Definition about (symbol : string) (s : PositionQuantitySnapshot) : bool :=
  String.eqb (str_upper (snap_symbol s)) symbol.

Definition total (symbol : string) (l : list PositionQuantitySnapshot) : Z :=
  foldr (λ s acc, units (snap_quantity s) + acc) 0 (List.filter (about symbol) l).

Definition gross (l : list PositionQuantitySnapshot) : Z :=
  foldr (λ s acc, Z.abs (units (snap_quantity s)) + acc) 0 l.

(** Quantities of a side that the decimal context adds without rounding. *)
Definition exact_side (l : list PositionQuantitySnapshot) : Prop :=
  Forall (λ s, ten_places (snap_quantity s)) l ∧ gross l < 10 ^ 27.

Lemma total_app symbol a b : total symbol (a ++ b) = total symbol a + total symbol b.
Proof.
  unfold total. rewrite List.filter_app. induction (List.filter (about symbol) a) as [|x l IH]; cbn; [done|].
  rewrite IH. lia.
Qed.

Lemma gross_app a b : gross (a ++ b) = gross a + gross b.
Proof. unfold gross. induction a as [|x l IH]; cbn in *; [done|]. rewrite IH. lia. Qed.

Lemma total_gross symbol l : Z.abs (total symbol l) ≤ gross l.
Proof.
  unfold total, gross. induction l as [|x l IH]; cbn; [done|]. destruct (about symbol x); cbn; lia.
Qed.

Lemma gross_nonneg l : 0 ≤ gross l.
Proof. unfold gross. induction l; cbn; lia. Qed.

Lemma exact_side_app a b : exact_side (a ++ b) → exact_side a ∧ exact_side b.
Proof.
  unfold exact_side. rewrite Forall_app, gross_app. intros [[Ha Hb] Hg].
  pose proof (gross_nonneg a). pose proof (gross_nonneg b). repeat split; done || lia.
Qed.

Lemma normalize_total l : exact_side l →
  ∀ symbol, ten_places (quantity_of symbol (_normalize_snapshots l)) ∧
    units (quantity_of symbol (_normalize_snapshots l)) = total symbol l.
Proof.
  unfold _normalize_snapshots. induction l as [|x l IH] using rev_ind; intros Hl symbol.
  { split; [apply ten_places_zero|done]. }
  rewrite foldl_app, total_app. cbn [foldl]. unfold add_snapshot at 1 3. unfold quantity_of at 1 3.
  rewrite dict_lookup_set. pose proof (exact_side_app _ _ Hl) as [Ha Hx].
  assert (total symbol [x] = if String.eqb (str_upper (snap_symbol x)) symbol then units (snap_quantity x) else 0)
    as -> by (unfold total, about; cbn; destruct (String.eqb _ _); cbn; lia).
  destruct (String.eqb_spec (str_upper (snap_symbol x)) symbol) as [->|_]; cbn [default from_option].
  - destruct (IH Ha symbol) as [Hq Hu]. rewrite <- Hu. apply units_add; [done| |].
    + destruct Hx as [Hx _]. by apply Forall_cons in Hx as [Hx _].
    + destruct Hl as [_ Hg]. rewrite gross_app in Hg. pose proof (total_gross symbol l). rewrite Hu.
      unfold gross in Hg at 2. cbn in Hg. lia.
  - rewrite Z.add_0_r. by apply IH.
Qed.

Lemma dict_set_keys {A} (k : string) (v : A) l s : s ∈ (dict_set k v l).*1 ↔ s = k ∨ s ∈ l.*1.
Proof.
  induction l as [|[k' v'] l IH]; cbn; [set_solver|].
  destruct (String.eqb_spec k' k) as [->|]; cbn; rewrite ?elem_of_cons, ?IH; set_solver.
Qed.

Lemma normalize_keys l symbol :
  symbol ∈ (_normalize_snapshots l).*1 ↔ ∃ s, s ∈ l ∧ about symbol s = true.
Proof.
  unfold _normalize_snapshots, about. induction l as [|x l IH] using rev_ind; cbn; [set_solver|].
  rewrite foldl_app. cbn. unfold add_snapshot at 1. rewrite dict_set_keys, IH.
  setoid_rewrite elem_of_app. setoid_rewrite list_elem_of_singleton. setoid_rewrite String.eqb_eq. naive_solver.
Qed.

Lemma total_missing l symbol : symbol ∉ (_normalize_snapshots l).*1 → total symbol l = 0.
Proof.
  rewrite normalize_keys. intros Hn. unfold total.
  enough (List.filter (about symbol) l = []) as -> by done.
  destruct (List.filter (about symbol) l) as [|x l'] eqn:E; [done|]. destruct Hn.
  exists x. assert (In x (List.filter (about symbol) l)) as Hx by (rewrite E; by left).
  apply List.filter_In in Hx as [Hx ?]. split; [by apply list_elem_of_In|done].
Qed.

(** ** The report finds exactly the drift *)

Definition drift (tolerance e d t : Z) : Prop :=
  tolerance < Z.abs (e - d) ∨ tolerance < Z.abs (e - t) ∨ tolerance < Z.abs (d - t).
Definition at_least (threshold e d t : Z) : Prop :=
  threshold ≤ Z.abs (e - d) ∨ threshold ≤ Z.abs (e - t) ∨ threshold ≤ Z.abs (d - t).

(** A quantity of a report. *)
Definition exact_quantity (d : dec) (z : Z) : Prop := ten_places d ∧ units d = z ∧ Z.abs z < 10 ^ 27.

Lemma exact_sub a b x y : exact_quantity a x → exact_quantity b y →
  ten_places (dec_sub a b) ∧ units (dec_sub a b) = x - y ∧
  ten_places (dec_abs (dec_sub a b)) ∧ units (dec_abs (dec_sub a b)) = Z.abs (x - y).
Proof.
  intros (Ha & <- & Hx) (Hb & <- & Hy). destruct (units_sub a b Ha Hb) as [Hp Hu]; [lia|].
  split; [done|]. split; [done|]. rewrite <- Hu. apply units_abs; [done|]. rewrite Hu. lia.
Qed.

Section difference.
Context (symbol : string) (e d t tolerance critical : dec) (ze zd zt : Z).
Context (He : exact_quantity e ze) (Hd : exact_quantity d zd) (Ht : exact_quantity t zt).
Context (Htol : ten_places tolerance) (Hcrit : ten_places critical).
Let x := _difference_for_symbol symbol e d t tolerance critical.

Lemma outside_iff a b za zb : exact_quantity a za → exact_quantity b zb →
  _outside_tolerance (dec_sub a b) tolerance = (units tolerance <? Z.abs (za - zb)).
Proof.
  intros Ha Hb. destruct (exact_sub a b za zb Ha Hb) as (_ & _ & Hp & Hu).
  unfold _outside_tolerance. by rewrite units_gtb, Hu.
Qed.

Lemma reasons_nil : diff_reasons x = [] ↔ ¬ drift (units tolerance) ze zd zt.
Proof.
  unfold x, drift, _difference_for_symbol, _difference_reasons. cbn [diff_reasons].
  rewrite collect_nil_iff, !Forall_cons, Forall_nil. cbn [fst].
  rewrite (outside_iff e d ze zd), (outside_iff e t ze zt), (outside_iff d t zd zt) by done.
  rewrite !Z.ltb_ge. lia.
Qed.

Lemma critical_iff :
  existsb (λ delta, dec_geb (dec_abs delta) critical) [dec_sub e d; dec_sub e t; dec_sub d t] = true ↔
  at_least (units critical) ze zd zt.
Proof.
  destruct (exact_sub e d ze zd He Hd) as (_ & _ & Hp1 & Hu1), (exact_sub e t ze zt He Ht) as (_ & _ & Hp2 & Hu2),
    (exact_sub d t zd zt Hd Ht) as (_ & _ & Hp3 & Hu3).
  unfold at_least. cbn [existsb]. rewrite !orb_true_iff, !units_geb, Hu1, Hu2, Hu3, !Z.leb_le by done. naive_solver.
Qed.

Lemma is_drifted_iff : is_drifted x = true ↔ drift (units tolerance) ze zd zt.
Proof.
  assert (diff_severity x = SEV_OK ↔ diff_reasons x = []) as Hs.
  { unfold x, _difference_for_symbol, _difference_severity. cbn [diff_severity diff_reasons].
    destruct (_difference_reasons _ _ _ _); [done|]. by destruct (existsb _ _). }
  unfold is_drifted. rewrite negb_true_iff, bool_decide_eq_false, Hs, reasons_nil.
  unfold drift. split; [lia|]. tauto.
Qed.

Lemma severity_critical :
  diff_severity x = SEV_CRITICAL ↔ drift (units tolerance) ze zd zt ∧ at_least (units critical) ze zd zt.
Proof.
  rewrite <- critical_iff. rewrite <- is_drifted_iff. unfold is_drifted, x, _difference_for_symbol,
    _difference_severity. cbn [diff_severity]. destruct (_difference_reasons _ _ _ _) as [|r l].
  - rewrite bool_decide_eq_true_2 by done. naive_solver.
  - destruct (existsb _ _); rewrite bool_decide_eq_false_2 by done; naive_solver.
Qed.
End difference.

Section report.
Context (user account : string) (exchange database target : list PositionQuantitySnapshot).
Context (tolerance critical : dec).
Context (He : exact_side exchange) (Hd : exact_side database) (Ht : exact_side target).
Context (Htol : ten_places tolerance) (Htol0 : 0 ≤ units tolerance) (Hcrit : ten_places critical).
Let r := reconcile_position_snapshots user account exchange database target tolerance critical.

Lemma side_exact l symbol : exact_side l → exact_quantity (quantity_of symbol (_normalize_snapshots l)) (total symbol l).
Proof.
  intros Hl. destruct (normalize_total l Hl symbol) as [Hp Hu]. split; [done|]. split; [done|].
  pose proof (total_gross symbol l). destruct Hl as [_ Hg]. lia.
Qed.

(** A difference of the report is the comparison of one drifted symbol. *)
Lemma report_difference x : x ∈ rep_differences r →
  exact_quantity (diff_exchange x) (total (diff_symbol x) exchange) ∧
  exact_quantity (diff_database x) (total (diff_symbol x) database) ∧
  exact_quantity (diff_target x) (total (diff_symbol x) target) ∧
  x = _difference_for_symbol (diff_symbol x) (diff_exchange x) (diff_database x) (diff_target x) tolerance critical ∧
  drift (units tolerance) (total (diff_symbol x) exchange) (total (diff_symbol x) database)
    (total (diff_symbol x) target).
Proof.
  unfold r, reconcile_position_snapshots. cbn [rep_differences].
  rewrite list_elem_of_In, List.filter_In, <- list_elem_of_In, list_elem_of_fmap.
  intros [(s & -> & _) Hdr]. cbn [diff_symbol diff_exchange diff_database diff_target _difference_for_symbol].
  pose proof (side_exact exchange s He). pose proof (side_exact database s Hd). pose proof (side_exact target s Ht).
  split; [done|]. split; [done|]. split; [done|]. split; [done|]. by eapply is_drifted_iff in Hdr.
Qed.

Lemma report_symbols symbol :
  symbol ∈ map diff_symbol (rep_differences r) ↔
  drift (units tolerance) (total symbol exchange) (total symbol database) (total symbol target).
Proof.
  split.
  { intros (x & -> & Hx)%list_elem_of_fmap. by apply report_difference in Hx as (_ & _ & _ & _ & ?). }
  intros Hdr. unfold r, reconcile_position_snapshots. cbn [rep_differences].
  apply list_elem_of_fmap. eexists. rewrite list_elem_of_In, List.filter_In, <- list_elem_of_In, list_elem_of_fmap.
  split; [|split; [exists symbol; split; [reflexivity|]|]]; [done| |].
  - rewrite elem_of_sorted_set, !elem_of_app.
    destruct (decide (symbol ∈ (_normalize_snapshots exchange).*1)) as [?|H1]; [by left|].
    destruct (decide (symbol ∈ (_normalize_snapshots database).*1)) as [?|H2]; [by right; left|].
    destruct (decide (symbol ∈ (_normalize_snapshots target).*1)) as [?|H3]; [by right; right|].
    rewrite !total_missing in Hdr by done. unfold drift in Hdr. lia.
  - by apply (is_drifted_iff _ _ _ _ _ _ _ _ _ (side_exact exchange symbol He) (side_exact database symbol Hd)
      (side_exact target symbol Ht)).
Qed.

Lemma report_nodup : NoDup (map diff_symbol (rep_differences r)).
Proof.
  unfold r, reconcile_position_snapshots. cbn [rep_differences].
  assert (∀ l, map diff_symbol (map (λ s, _difference_for_symbol s (quantity_of s (_normalize_snapshots exchange))
    (quantity_of s (_normalize_snapshots database)) (quantity_of s (_normalize_snapshots target)) tolerance critical) l) = l)
    as Hm by (induction l; cbn; congruence).
  match goal with |- NoDup (map diff_symbol (List.filter _ ?l)) => assert (NoDup (map diff_symbol l)) as Hl end.
  { rewrite Hm. apply NoDup_sorted_set. }
  clear Hm. revert Hl. generalize (map (λ s, _difference_for_symbol s (quantity_of s (_normalize_snapshots exchange))
    (quantity_of s (_normalize_snapshots database)) (quantity_of s (_normalize_snapshots target)) tolerance critical)
    (sorted_set ((_normalize_snapshots exchange).*1 ++ (_normalize_snapshots database).*1 ++ (_normalize_snapshots target).*1))).
  induction l as [|x l IH]; cbn; [done|]. rewrite NoDup_cons. intros [Hx Hl].
  destruct (is_drifted x); cbn; [|by apply IH]. apply NoDup_cons. split; [|by apply IH].
  intros (y & Hy & Hin)%list_elem_of_fmap. apply Hx. rewrite Hy. apply list_elem_of_fmap. exists y. split; [done|].
  apply list_elem_of_In in Hin. apply List.filter_In in Hin as [Hin _]. by apply list_elem_of_In.
Qed.
End report.

(** The report names exactly the symbols whose three positions are not within the
    tolerance of each other, once each and with the summed quantities of every side; it
    is [MATCHED] when there is none, and [CRITICAL] exactly when a drifted symbol is off
    by the critical threshold.  It never allows an automatic fix. *)
Theorem position_report_exact user account exchange database target tolerance critical :
  exact_side exchange → exact_side database → exact_side target →
  ten_places tolerance → 0 ≤ units tolerance → ten_places critical →
  let r := reconcile_position_snapshots user account exchange database target tolerance critical in
  let drifted s := drift (units tolerance) (total s exchange) (total s database) (total s target) in
  NoDup (map diff_symbol (rep_differences r)) ∧
  (∀ s, s ∈ map diff_symbol (rep_differences r) ↔ drifted s) ∧
  (∀ x, x ∈ rep_differences r →
     units (diff_exchange x) = total (diff_symbol x) exchange ∧
     units (diff_database x) = total (diff_symbol x) database ∧
     units (diff_target x) = total (diff_symbol x) target) ∧
  (rep_status r = MATCHED ↔ ∀ s, ¬ drifted s) ∧
  (rep_severity r = SEV_CRITICAL ↔ ∃ s, drifted s ∧
     at_least (units critical) (total s exchange) (total s database) (total s target)) ∧
  rep_auto_fix_allowed r = false.
Proof.
  intros He Hd Ht Htol Htol0 Hcrit r drifted.
  pose proof (report_symbols user account exchange database target tolerance critical He Hd Ht Htol Htol0) as Hs.
  fold r drifted in Hs. change (∀ s, s ∈ map diff_symbol (rep_differences r) ↔ drifted s) in Hs.
  assert (∀ x, x ∈ rep_differences r → _) as Hdiff
    by exact (report_difference user account exchange database target tolerance critical He Hd Ht Htol).
  split; [by apply report_nodup|]. split; [done|]. split; [|split; [|split]].
  - intros x Hx. apply Hdiff in Hx as ((_ & ? & _) & (_ & ? & _) & (_ & ? & _) & _). done.
  - assert (rep_status r = MATCHED ↔ rep_differences r = []) as ->.
    { unfold r, reconcile_position_snapshots. cbn. by destruct (List.filter _ _). }
    setoid_rewrite <- Hs. destruct (rep_differences r) as [|x l]; cbn; [set_solver|].
    split; [done|]. intros Hn. destruct (Hn (diff_symbol x)). by left.
  - assert (rep_severity r = SEV_CRITICAL ↔ ∃ x, x ∈ rep_differences r ∧ diff_severity x = SEV_CRITICAL) as ->.
    { unfold r, reconcile_position_snapshots, _report_severity. cbn [rep_severity rep_differences].
      set (l := List.filter _ _). destruct (existsb _ l) eqn:E.
      - apply List.existsb_exists in E as (x & Hx & Hc). split; [intros _|done]. exists x.
        split; [by apply list_elem_of_In|by apply bool_decide_eq_true in Hc].
      - split; [by destruct l|]. intros (x & Hx & Hc). rewrite existsb_false_iff in E.
        specialize (E x Hx). by rewrite bool_decide_eq_false in E. }
    split.
    + intros (x & Hx & Hc). pose proof (Hdiff x Hx) as (H1 & H2 & H3 & H4 & H5).
      exists (diff_symbol x). split; [done|]. rewrite H4 in Hc. by eapply severity_critical in Hc as [_ Hc].
    + intros (s & Hdr & Hc). apply Hs in Hdr as Hin. apply list_elem_of_fmap in Hin as (x & -> & Hx).
      exists x. split; [done|]. pose proof (Hdiff x Hx) as (H1 & H2 & H3 & H4 & H5). rewrite H4.
      by eapply severity_critical.
  - done.
Qed.

(** ** Proposals *)

Lemma proposal_some x ze zd zt tolerance critical :
  exact_quantity (diff_exchange x) ze → exact_quantity (diff_database x) zd → exact_quantity (diff_target x) zt →
  x = _difference_for_symbol (diff_symbol x) (diff_exchange x) (diff_database x) (diff_target x) tolerance critical →
  drift (units tolerance) ze zd zt → 0 ≤ units tolerance →
  ∃ p, _proposal_for_difference x = Some p ∧ prop_symbol p = diff_symbol x ∧
    match prop_action p with
    | BUY_TO_TARGET => 0 < units (prop_quantity_delta p) ∧ ze + units (prop_quantity_delta p) = zt
    | SELL_TO_TARGET => 0 < units (prop_quantity_delta p) ∧ ze - units (prop_quantity_delta p) = zt
    | REVIEW_DATABASE_POSITION => ze = zt ∧ 0 < units (prop_quantity_delta p) ∧ units (prop_quantity_delta p) = Z.abs (zd - zt)
    end.
Proof.
  intros He Hd Ht Hx Hdr Htol. unfold _proposal_for_difference.
  destruct (exact_sub _ _ _ _ Ht He) as (Hp & Hu & Hpa & Hua).
  destruct (exact_sub _ _ _ _ Hd Ht) as (Hq & Hv & Hqa & Hva).
  assert (diff_database_target x = dec_sub (diff_database x) (diff_target x)) as -> by (rewrite Hx at 1; done).
  rewrite units_gtb by (done || apply ten_places_zero).
  change (dec_ltb (dec_sub (diff_target x) (diff_exchange x)) dec0)
    with (dec_gtb dec0 (dec_sub (diff_target x) (diff_exchange x))).
  rewrite units_gtb, units_eqb by (done || apply ten_places_zero). rewrite Hu, Hv. change (units dec0) with 0.
  unfold drift in Hdr.
  destruct (Z.ltb_spec 0 (zt - ze)); [eexists; split; [reflexivity|]; cbn; rewrite Hu; split; [done|lia]|].
  destruct (Z.ltb_spec (zt - ze) 0); [eexists; split; [reflexivity|]; cbn; rewrite Hua; split; [done|lia]|].
  destruct (Z.eqb_spec (zd - zt) 0); cbn [negb]; [lia|].
  eexists. split; [reflexivity|]. cbn. rewrite Hva. split; [done|lia].
Qed.

(** The proposals of a plan bring every drifted symbol to its target: one proposal per
    symbol of the report, to buy or sell exactly the missing quantity on the exchange,
    or to review the database where the exchange is right.  No plan may be executed, and
    a disabled or matched one proposes nothing. *)
Theorem repair_plan_reaches_target user account exchange database target tolerance critical settings :
  exact_side exchange → exact_side database → exact_side target →
  ten_places tolerance → 0 ≤ units tolerance → ten_places critical →
  let r := reconcile_position_snapshots user account exchange database target tolerance critical in
  let plan := build_reconciliation_repair_plan r settings in
  plan_execution_allowed plan = false ∧ plan_auto_fix_allowed plan = false ∧
  map prop_symbol (plan_proposals plan) =
    (if proposal_generation_enabled settings then map diff_symbol (rep_differences r) else []) ∧
  ∀ p, p ∈ plan_proposals plan →
    let s := prop_symbol p in let q := units (prop_quantity_delta p) in
    0 < q ∧
    match prop_action p with
    | BUY_TO_TARGET => total s exchange + q = total s target
    | SELL_TO_TARGET => total s exchange - q = total s target
    | REVIEW_DATABASE_POSITION =>
        total s exchange = total s target ∧ q = Z.abs (total s database - total s target)
    end.
Proof.
  intros He Hd Ht Htol Htol0 Hcrit r plan.
  assert (∀ x, x ∈ rep_differences r → _) as Hdiff
    by exact (report_difference user account exchange database target tolerance critical He Hd Ht Htol).
  assert (rep_status r = MATCHED → rep_differences r = []) as Hm.
  { unfold r, reconcile_position_snapshots. cbn. by destruct (List.filter _ _). }
  assert (plan_proposals plan = if proposal_generation_enabled settings
    then omap _proposal_for_difference (rep_differences r) else []) as Hp.
  { unfold plan, build_reconciliation_repair_plan. destruct (proposal_generation_enabled settings); cbn [negb]; [|done].
    case_bool_decide as Hs; [by rewrite (Hm Hs)|]. by destruct (execution_enabled settings). }
  assert (∀ x, x ∈ rep_differences r → ∃ p, _proposal_for_difference x = Some p ∧ prop_symbol p = diff_symbol x ∧
    let s := diff_symbol x in let q := units (prop_quantity_delta p) in
    match prop_action p with
    | BUY_TO_TARGET => 0 < q ∧ total s exchange + q = total s target
    | SELL_TO_TARGET => 0 < q ∧ total s exchange - q = total s target
    | REVIEW_DATABASE_POSITION =>
        total s exchange = total s target ∧ 0 < q ∧ q = Z.abs (total s database - total s target)
    end) as Hprop.
  { intros x Hx. destruct (Hdiff x Hx) as (H1 & H2 & H3 & H4 & H5).
    by apply (proposal_some x _ _ _ tolerance critical). }
  clearbody r. split; [|split; [|split]].
  1,2: unfold plan, build_reconciliation_repair_plan; by repeat case_match.
  - rewrite Hp. destruct (proposal_generation_enabled settings); [|done].
    clear Hdiff Hm Hp. induction (rep_differences r) as [|x l IH]; [done|]. cbn [omap list_omap map].
    destruct (Hprop x) as (p & -> & Hsym & _); [by left|]. cbn [map]. rewrite Hsym, IH; [done|].
    intros y Hy. apply Hprop. by right.
  - rewrite Hp. destruct (proposal_generation_enabled settings); [|by intros ? ?%elem_of_nil].
    intros p (x & Hx & Hpx)%list_elem_of_omap. destruct (Hprop x Hx) as (p' & Hp' & Hsym & Hact).
    rewrite Hp' in Hpx. injection Hpx as ->. cbv zeta. rewrite Hsym.
    destruct (prop_action p); [| |destruct Hact as (? & ? & ?)]; done.
Qed.

(** ** A concrete account *)

Definition snap (symbol : string) (z : Z) : PositionQuantitySnapshot := Build_PositionQuantitySnapshot symbol (dec_of_Z z).
Definition demo_exchange : list PositionQuantitySnapshot := [snap "btcusdt" 3; snap "BTCUSDT" 2; snap "ETHUSDT" 4].
Definition demo_database : list PositionQuantitySnapshot := [snap "BTCUSDT" 5; snap "ETHUSDT" 1].
Definition demo_target : list PositionQuantitySnapshot := [snap "BTCUSDT" 5; snap "ETHUSDT" 7].
Definition demo_report : PositionReconciliationReport :=
  reconcile_position_snapshots "user-1" "acct-sim" demo_exchange demo_database demo_target dec0 dec1.

Lemma demo_sides_exact : exact_side demo_exchange ∧ exact_side demo_database ∧ exact_side demo_target.
Proof. repeat split; repeat constructor; done. Qed.

Lemma position_report_exact_witness :
  map diff_symbol (rep_differences demo_report) = ["ETHUSDT"] ∧
  (rep_status demo_report = MATCHED ↔
   ∀ s, ¬ drift 0 (total s demo_exchange) (total s demo_database) (total s demo_target)).
Proof.
  split; [reflexivity|].
  destruct demo_sides_exact as (He & Hd & Ht).
  apply (position_report_exact "user-1" "acct-sim" demo_exchange demo_database demo_target dec0 dec1 He Hd Ht);
    vm_compute; discriminate.
Defined.

Lemma repair_plan_reaches_target_witness :
  let plan := build_reconciliation_repair_plan demo_report (Build_ReconciliationRepairSettings true false) in
  map prop_action (plan_proposals plan) = [BUY_TO_TARGET] ∧ plan_execution_allowed plan = false ∧
  map prop_symbol (plan_proposals plan) = ["ETHUSDT"].
Proof.
  intros plan. destruct demo_sides_exact as (He & Hd & Ht). split; [reflexivity|].
  assert (ten_places dec0 ∧ 0 ≤ units dec0 ∧ ten_places dec1) as (H0 & H1 & H2) by (split; [|split]; vm_compute; discriminate).
  destruct (repair_plan_reaches_target "user-1" "acct-sim" demo_exchange demo_database demo_target dec0 dec1
    (Build_ReconciliationRepairSettings true false) He Hd Ht H0 H1 H2) as (Hx & _ & Hs & _).
  split; [exact Hx|exact Hs].
Defined.
