(* ===== verification/ReconciliationWorker.v ===== *)
(** [services/reconciliation_worker.py], [services/reconciliation_hooks.py] and
    [services/reconciliation_persistence.py]: the positions of one account are loaded
    from three providers, compared, and the outcome is alerted and recorded.  The
    exchange and target providers are a [Protocol] of the source without an
    implementation: they are arguments. *)
From S2P Require Import Prelude PyStr PyDecimal PyValue Models Session PgDatabase Tables Demo Logic Alerts Notifications PositionReconciliation.

(** ** The plan of the hooks *)

Inductive ReconciliationNotificationChannel := RC_INTERNAL | RC_TELEGRAM | RC_EMAIL | RC_WEBHOOK.

Record ReconciliationAuditEntryPlan := {
  rae_user : string; rae_account : string; rae_action : string;
  rae_severity : PositionReconciliationSeverity; rae_payload : dict }.

Record ReconciliationSystemEventPlan := {
  rse_event_type : string; rse_severity : PositionReconciliationSeverity; rse_payload : dict }.

Record ReconciliationNotificationPlan := {
  rnp_channel : ReconciliationNotificationChannel; rnp_severity : PositionReconciliationSeverity;
  rnp_title : string; rnp_message : string; rnp_payload : dict }.

Record ReconciliationHookPlan := {
  hook_audit_entry : ReconciliationAuditEntryPlan;
  hook_system_event : option ReconciliationSystemEventPlan;
  hook_notifications : list ReconciliationNotificationPlan; hook_auto_fix_allowed : bool }.

Definition report_status_value (s : PositionReconciliationStatus) : string :=
  match s with MATCHED => "MATCHED" | DRIFT_DETECTED => "DRIFT_DETECTED" end.
Definition report_severity_value (s : PositionReconciliationSeverity) : string :=
  match s with SEV_OK => "OK" | SEV_WARNING => "WARNING" | SEV_CRITICAL => "CRITICAL" end.

Definition _difference_payload (d : PositionReconciliationDifference) : pyval :=
  VDict [("symbol", VStr (diff_symbol d));
         ("exchange_quantity", VStr (dec_str (diff_exchange d)));
         ("database_quantity", VStr (dec_str (diff_database d)));
         ("target_quantity", VStr (dec_str (diff_target d)));
         ("exchange_database_delta", VStr (dec_str (diff_exchange_database d)));
         ("exchange_target_delta", VStr (dec_str (diff_exchange_target d)));
         ("database_target_delta", VStr (dec_str (diff_database_target d)));
         ("severity", VStr (report_severity_value (diff_severity d)));
         ("reasons", VList (map VStr (diff_reasons d)))].

Definition difference_count (r : PositionReconciliationReport) : Z := Z.of_nat (length (rep_differences r)).

Definition _report_payload (r : PositionReconciliationReport) : dict :=
  [("user_id", VStr (rep_user r)); ("exchange_account_id", VStr (rep_account r));
   ("status", VStr (report_status_value (rep_status r)));
   ("severity", VStr (report_severity_value (rep_severity r)));
   ("difference_count", VInt (difference_count r)); ("auto_fix_allowed", VBool false);
   ("differences", VList (map _difference_payload (rep_differences r)))].

Definition _system_event_for_drift (r : PositionReconciliationReport) (payload : dict) :
    ReconciliationSystemEventPlan :=
  Build_ReconciliationSystemEventPlan "position_reconciliation.drift_detected" (rep_severity r) payload.

Definition _notification_for_channel (channel : ReconciliationNotificationChannel)
    (r : PositionReconciliationReport) (payload : dict) : ReconciliationNotificationPlan :=
  {| rnp_channel := channel; rnp_severity := rep_severity r;
     rnp_title := "Position reconciliation " +:+ report_severity_value (rep_severity r);
     rnp_message := "Position reconciliation detected " +:+ str_of_Z (difference_count r) +:+
       " drifted symbol(s) for account " +:+ rep_account r +:+ ".";
     rnp_payload := payload |}.

Definition _notify_reconciliation_drift (alert_runtime : option AlertRuntime)
    (r : PositionReconciliationReport) : M unit :=
  match alert_runtime with
  | None => mret tt
  | Some rt => notify_reconciliation_drift rt (report_status_value (rep_status r))
                 (report_severity_value (rep_severity r)) (difference_count r)
  end.

Definition is_drift (r : PositionReconciliationReport) : bool := bool_decide (rep_status r = DRIFT_DETECTED).

Definition build_reconciliation_hook_plan (r : PositionReconciliationReport)
    (channels : list ReconciliationNotificationChannel) (alert_runtime : option AlertRuntime) :
    M ReconciliationHookPlan :=
  let payload := _report_payload r in
  let action := if is_drift r then "position_reconciliation.drift_detected"
                else "position_reconciliation.matched" in
  let audit_entry := Build_ReconciliationAuditEntryPlan (rep_user r) (rep_account r) action
                       (rep_severity r) payload in
  let system_event := if is_drift r then Some (_system_event_for_drift r payload) else None in
  let notifications := map (λ c, _notification_for_channel c r payload)
                         (List.filter (λ _, is_drift r) channels) in
  (if is_drift r then _notify_reconciliation_drift alert_runtime r else mret tt) ;;
  mret (Build_ReconciliationHookPlan audit_entry system_event notifications false).

(** ** What is stored *)

(** [NotificationChannel(notification.channel.value)] *)
Definition notification_channel (c : ReconciliationNotificationChannel) : NotificationChannel :=
  match c with RC_INTERNAL => INTERNAL | RC_TELEGRAM => TELEGRAM | RC_EMAIL => EMAIL | RC_WEBHOOK => WEBHOOK end.

Definition notification_input (e : ReconciliationAuditEntryPlan) (n : ReconciliationNotificationPlan) :
    InternalNotificationInput :=
  {| nin_user := rae_user e; nin_account := Some (rae_account e);
     nin_severity := report_severity_value (rnp_severity n); nin_title := rnp_title n;
     nin_message := rnp_message n; nin_payload := rnp_payload n;
     nin_channel := notification_channel (rnp_channel n); nin_event_type := Some POSITION_DRIFT |}.

Record PersistedReconciliationHookPlan := {
  per_audit_log : AuditLog; per_system_event : option SystemEvent;
  per_internal_notifications : list InternalNotification }.

Section worker.
Context `{Database}.

Definition persist_reconciliation_hook_plan (plan : ReconciliationHookPlan) :
    M PersistedReconciliationHookPlan :=
  let entry := hook_audit_entry plan in
  audit_id ← new_id;
  now ← now_utc;
  let audit_log := Build_AuditLog audit_id (rae_user entry) (Some (rae_account entry)) (rae_action entry)
                     (report_severity_value (rae_severity entry)) (rae_payload entry) now in
  db_add audit_log ;;
  system_event ← match hook_system_event plan with
                 | None => mret None
                 | Some e =>
                     event_id ← new_id;
                     let row := Build_SystemEvent event_id (Some (rae_user entry)) (Some (rae_account entry))
                                  (rse_event_type e) (report_severity_value (rse_severity e)) (rse_payload e) now in
                     db_add row ;; mret (Some row)
                 end;
  internal_notifications ← create_preference_aware_internal_notifications
                             (map (notification_input entry) (hook_notifications plan));
  flush ;;
  mret (Build_PersistedReconciliationHookPlan audit_log system_event internal_notifications).

(** ** The worker *)

Definition PositionSnapshotProvider : Type := string → string → M (list PositionQuantitySnapshot).

Record ReconciliationSnapshotProviders := {
  pvd_exchange : PositionSnapshotProvider; pvd_database : PositionSnapshotProvider;
  pvd_target : PositionSnapshotProvider }.

Definition DatabasePositionSnapshotProvider : PositionSnapshotProvider := λ user account,
  rows ← db_scalars (λ p, String.eqb (pos_user p) user && String.eqb (pos_account p) account);
  mret (map (λ p, Build_PositionQuantitySnapshot (pos_symbol p) (pos_quantity p))
          (sort_by (λ a b, String.leb (pos_symbol a) (pos_symbol b)) rows)).

Record PositionReconciliationWorker := {
  wrk_providers : ReconciliationSnapshotProviders; wrk_quantity_tolerance : dec;
  wrk_critical_threshold : dec; wrk_notification_channels : list ReconciliationNotificationChannel;
  wrk_alert_runtime : option AlertRuntime }.

Record ReconciliationWorkerResult := {
  wrr_report : PositionReconciliationReport; wrr_hook_plan : ReconciliationHookPlan;
  wrr_persisted : PersistedReconciliationHookPlan; wrr_auto_fix_allowed : bool }.

Definition run_account (wk : PositionReconciliationWorker) (user account : string) :
    M ReconciliationWorkerResult :=
  exchange_positions ← pvd_exchange (wrk_providers wk) user account;
  database_positions ← pvd_database (wrk_providers wk) user account;
  target_positions ← pvd_target (wrk_providers wk) user account;
  let report := reconcile_position_snapshots user account exchange_positions database_positions
                  target_positions (wrk_quantity_tolerance wk) (wrk_critical_threshold wk) in
  hook_plan ← build_reconciliation_hook_plan report (wrk_notification_channels wk) (wrk_alert_runtime wk);
  persisted ← persist_reconciliation_hook_plan hook_plan;
  mret (Build_ReconciliationWorkerResult report hook_plan persisted false).
End worker.

(** ** What a run leaves alone

    Creating notifications touches no other table; of the tables the worker writes
    first, it may only flush what is pending. *)
Definition only_notifies (w w' : World) : Prop :=
  all_rows AuditLog w' = all_rows AuditLog w ∧ all_rows SystemEvent w' = all_rows SystemEvent w ∧
  (tbl (R:=Position) (w_new w) = [] → settled Position w w') ∧
  (tbl (R:=OrderExecution) (w_new w) = [] → settled OrderExecution w w') ∧ w_trace w' = w_trace w.

#[export] Instance only_notifies_preorder : PreOrder only_notifies.
Proof.
  split.
  - intros w. by repeat split.
  - intros w1 w2 w3 (A1 & B1 & P1 & E1 & T1) (A2 & B2 & P2 & E2 & T2). unfold only_notifies.
    split; [congruence|]. split; [congruence|]. split; [|split; [|congruence]]; unfold settled in *.
    + intros Hn. destruct (P1 Hn) as [Ht1 Hn1], (P2 Hn1) as [Ht2 Hn2]. split; [congruence|done].
    + intros Hn. destruct (E1 Hn) as [Ht1 Hn1], (E2 Hn1) as [Ht2 Hn2]. split; [congruence|done].
Qed.

(** Whether the user's stored preferences let a drift notification through; a user
    without preferences gets the default ones, which do. *)
Definition drift_allowed (user : string) (d : Db) : bool :=
  match find_first (λ p, String.eqb (prf_user p) user) (db_preferences d) with
  | Some p => _preferences_allow_internal_notification p (Some POSITION_DRIFT)
  | None => true
  end.

Section notifying.
Context `{Database}.

Lemma only_notifies_flush w w' : flush w = (Ok tt, w') → only_notifies w w'.
Proof.
  intros E. split; [by apply flush_all_rows|]. split; [by apply flush_all_rows|].
  split; [intros Hn; by apply (flush_settled _ w)|]. split; [intros Hn; by apply (flush_settled _ w)|].
  pose proof (flush_same_rest w) as (_ & _ & _ & Ht). by rewrite E in Ht.
Qed.

Lemma only_notifies_add_flush {R} `{Table R} (r : R) w w' :
  Untouched R (tbl (R:=AuditLog)) → Untouched R (tbl (R:=SystemEvent)) →
  Untouched R (tbl (R:=Position)) → Untouched R (tbl (R:=OrderExecution)) →
  add_flush r w = (Ok tt, w') → only_notifies w w'.
Proof.
  intros Ha Hs Hp He E. unfold add_flush in E. apply bind_Ok_inv in E as ([] & w1 & Ew & E). injection Ew as <-.
  etrans; [|by apply only_notifies_flush]. unfold only_notifies, settled, all_rows. cbn.
  by rewrite (Ha _ _), (Hs _ _), (Hp _ _), (He _ _).
Qed.

Lemma preferences_Ok user w p w' :
  tbl (R:=NotificationPreference) (w_new w) = [] → get_or_create_preferences user w = (Ok p, w') →
  only_notifies w w' ∧ all_rows InternalNotification w' = all_rows InternalNotification w ∧
  tbl (R:=NotificationPreference) (w_new w') = [] ∧
  _preferences_allow_internal_notification p (Some POSITION_DRIFT) = drift_allowed user (w_tx w) ∧
  drift_allowed user (w_tx w') = drift_allowed user (w_tx w).
Proof.
  intros Hn E. unfold get_or_create_preferences in E. apply bind_Ok_inv in E as (r & w1 & [= <- <-] & E).
  unfold drift_allowed. cbn [tbl NotificationPreference_table] in E. destruct (find_first _ _) as [q|] eqn:Ef.
  { injection E as <- <-. by rewrite Ef. }
  apply bind_Ok_inv in E as (id & w1 & [= <- <-] & E). apply bind_Ok_inv in E as ([] & w1 & Ea & E).
  injection E as <- <-.
  match type of Ea with add_flush ?q _ = _ => set (q0 := q) in * end.
  split; [|split; [|split; [|split]]].
  - by apply only_notifies_add_flush in Ea.
  - unfold add_flush in Ea. apply bind_Ok_inv in Ea as ([] & w2 & Ew & Ea). injection Ew as <-.
    by apply (flush_all_rows (R:=InternalNotification)) in Ea.
  - unfold add_flush in Ea. apply bind_Ok_inv in Ea as ([] & w2 & Ew & Ea). injection Ew as <-.
    apply (flush_flushed (R:=NotificationPreference)) in Ea as (_ & Ha & _). done.
  - done.
  - unfold add_flush in Ea. apply bind_Ok_inv in Ea as ([] & w2 & Ew & Ea). injection Ew as <-.
    apply (flush_flushed (R:=NotificationPreference)) in Ea. apply (flushed_rows _ _ [q0]) in Ea.
    + cbn in Ea. rewrite Ea, find_first_app, Ef. subst q0. unfold find_first. cbn. rewrite String.eqb_refl. reflexivity.
    + cbn. cbn in Hn. by rewrite Hn.
    + by repeat constructor.
Qed.
End notifying.

(** ** The payload of a report passes the filter *)

Lemma outcome_map_same {A} (f : A → Outcome A) l : (∀ x, x ∈ l → f x = Ok x) → outcome_map f l = Ok l.
Proof.
  intros Hf. induction l as [|x l IH]; cbn; [done|]. rewrite Hf by (by left). cbn.
  rewrite IH; [done|]. intros y Hy. apply Hf. by right.
Qed.

Lemma copy_difference d path : _copy_safe_value (_difference_payload d) path = Ok (_difference_payload d).
Proof.
  assert (∀ path, _copy_safe_value (VList (map VStr (diff_reasons d))) path = Ok (VList (map VStr (diff_reasons d))))
    as Hr.
  { intros p. cbn [_copy_safe_value]. rewrite outcome_map_same; [done|]. by intros x (s & -> & _)%list_elem_of_fmap. }
  unfold _difference_payload. revert Hr. generalize (VList (map VStr (diff_reasons d))). intros v Hr.
  cbn [_copy_safe_value outcome_map fst snd]. unfold _raise_if_sensitive_key.
  repeat match goal with |- context [sensitive_payload_key ?k] =>
    change (sensitive_payload_key k) with false end.
  cbn [outcome_bind]. by rewrite Hr.
Qed.

Lemma report_payload_safe r : _safe_payload (_report_payload r) = Ok (_report_payload r).
Proof.
  assert (∀ path, _copy_safe_value (VList (map _difference_payload (rep_differences r))) path =
    Ok (VList (map _difference_payload (rep_differences r)))) as Hr.
  { intros p. cbn [_copy_safe_value]. rewrite outcome_map_same; [done|].
    intros x (d & -> & _)%list_elem_of_fmap. apply copy_difference. }
  unfold _safe_payload, _report_payload. revert Hr. generalize (VList (map _difference_payload (rep_differences r))).
  intros v Hr. cbn [_copy_safe_value outcome_map fst snd]. unfold _raise_if_sensitive_key.
  repeat match goal with |- context [sensitive_payload_key ?k] =>
    change (sensitive_payload_key k) with false end.
  cbn [outcome_bind]. by rewrite Hr.
Qed.

(** ** Drift notifications *)

Section notifications.
Context `{Database}.

(** An internal drift notification whose payload the filter lets through. *)
Definition drift_input (n : InternalNotificationInput) : Prop :=
  nin_channel n = INTERNAL ∧ nin_event_type n = Some POSITION_DRIFT ∧
  _safe_payload (nin_payload n) = Ok (nin_payload n).

Definition announces (n : InternalNotificationInput) (x : InternalNotification) : Prop :=
  ntf_user x = nin_user n ∧ ntf_account x = nin_account n ∧ ntf_severity x = nin_severity n ∧
  ntf_title x = nin_title n ∧ ntf_message x = nin_message n ∧ ntf_payload x = nin_payload n ∧
  ntf_is_read x = false.

(** What a stretch of notifications to [user] does: [news] are appended. *)
Definition notified (user : string) (news : list InternalNotification) (w w' : World) : Prop :=
  only_notifies w w' ∧ all_rows InternalNotification w' = all_rows InternalNotification w ++ news ∧
  tbl (R:=NotificationPreference) (w_new w') = [] ∧
  drift_allowed user (w_tx w') = drift_allowed user (w_tx w).

Lemma notification_Ok n w r w' :
  drift_input n → tbl (R:=NotificationPreference) (w_new w) = [] →
  create_preference_aware_internal_notification n w = (Ok r, w') →
  ∃ news, notified (nin_user n) news w w' ∧ Forall (announces n) news ∧
    length news = (if drift_allowed (nin_user n) (w_tx w) then 1 else 0)%nat.
Proof.
  intros (Hc & He & Hs) Hn E. unfold create_preference_aware_internal_notification in E.
  rewrite Hc in E. cbn [bool_decide negb decide_rel] in E. rewrite bool_decide_eq_true_2 in E by done. cbn [negb] in E.
  apply bind_Ok_inv in E as (p & w1 & Ep & E). apply preferences_Ok in Ep as (Ho & Ha & Hn1 & Hp & Hd); [|done].
  rewrite He, Hp in E. destruct (drift_allowed _ (w_tx w)) eqn:Eal; cbn [negb] in E.
  - apply bind_Ok_inv in E as (x & w2 & Ex & E). injection E as <- <-.
    unfold create_internal_notification in Ex. rewrite Hc, bool_decide_eq_true_2 in Ex by done. cbn [negb] in Ex.
    apply bind_Ok_inv in Ex as (pl & w3 & El & Ex). unfold lift in El. rewrite Hs in El. injection El as <- <-.
    apply bind_Ok_inv in Ex as (id & w3 & [= <- <-] & Ex). apply bind_Ok_inv in Ex as (now & w3 & [= <- <-] & Ex).
    apply bind_Ok_inv in Ex as ([] & w3 & Ea & Ex). injection Ex as <- <-.
    match type of Ea with add_flush ?q _ = _ => exists [q] end. split; [|by repeat constructor].
    pose proof Ea as Eo. apply only_notifies_add_flush in Eo; try (intros ? ?; reflexivity).
    unfold add_flush in Ea. apply bind_Ok_inv in Ea as ([] & w4 & Ew & Ea). injection Ew as <-.
    split; [etrans; [exact Ho|exact Eo]|]. split; [|split].
    + apply (flush_all_rows (R:=InternalNotification)) in Ea. rewrite Ea, <- Ha.
      unfold all_rows. cbn. by rewrite app_assoc.
    + by apply (flush_flushed (R:=NotificationPreference)) in Ea as (_ & Ha' & _).
    + rewrite Eal, <- Hd. unfold drift_allowed. f_equal.
      apply (flush_flushed (R:=NotificationPreference)) in Ea. apply (flushed_rows _ _ []) in Ea; [|done|constructor].
      cbn in Ea. by rewrite Ea, app_nil_r.
  - injection E as <- <-. exists []. split; [|done]. split; [done|]. by rewrite app_nil_r, Eal.
Qed.

Lemma notifications_Ok user ns w rs w' :
  Forall (λ n, drift_input n ∧ nin_user n = user) ns → tbl (R:=NotificationPreference) (w_new w) = [] →
  mapM create_preference_aware_internal_notification ns w = (Ok rs, w') →
  ∃ news, notified user news w w' ∧ Forall (λ x, ∃ n, n ∈ ns ∧ announces n x) news ∧
    length news = (if drift_allowed user (w_tx w) then length ns else 0)%nat.
Proof.
  intros Hns. revert w rs. induction Hns as [|n ns [Hi Hu] _ IH]; intros w rs Hn E.
  { injection E as <- <-. exists []. split; [|split; [constructor|by destruct (drift_allowed _ _)]].
    split; [done|]. by rewrite app_nil_r. }
  cbn in E. apply bind_Ok_inv in E as (r & w1 & E1 & E). apply bind_Ok_inv in E as (rs' & w2 & E2 & E).
  injection E as <- <-. apply notification_Ok in E1 as (news1 & (Ho1 & Ha1 & Hn1 & Hd1) & Hf1 & Hl1); [|done|done].
  destruct (IH w1 rs' Hn1 E2) as (news2 & (Ho2 & Ha2 & Hn2 & Hd2) & Hf2 & Hl2). subst user.
  exists (news1 ++ news2). split; [|split].
  - split; [by etrans|]. split; [by rewrite Ha2, Ha1, app_assoc|]. split; [done|congruence].
  - apply Forall_app. split; (eapply Forall_impl; [eassumption|]); cbn.
    + intros x Hx. exists n. split; [by left|done].
    + intros x (n' & Hn' & Hx). exists n'. split; [by right|done].
  - rewrite length_app, Hl1, Hl2, Hd1. destruct (drift_allowed (nin_user n) (w_tx w)); cbn [length]; lia.
Qed.

Lemma notification_raises n :
  drift_input n → raises (λ e, db_failure e = true) (create_preference_aware_internal_notification n).
Proof.
  intros (Hc & _ & Hs). unfold create_preference_aware_internal_notification, create_internal_notification,
    get_or_create_preferences.
  rewrite Hc, bool_decide_eq_true_2, Hs by done. cbn [negb]. raises_tac. by apply raises_lift.
Qed.
End notifications.

(** ** A run *)

Section run.
Context `{Database}.
Context (exchange target : list PositionQuantitySnapshot) (tolerance critical : dec).
Context (channels : list ReconciliationNotificationChannel) (alerting : bool).

(** A worker whose two outside providers answer without touching the session. *)
Definition worker : PositionReconciliationWorker :=
  {| wrk_providers := {| pvd_exchange := λ _ _, mret exchange; pvd_database := DatabasePositionSnapshotProvider;
                         pvd_target := λ _ _, mret target |};
     wrk_quantity_tolerance := tolerance; wrk_critical_threshold := critical;
     wrk_notification_channels := channels;
     wrk_alert_runtime := if alerting then Some OperationalAlertRuntime else None |}.

Definition stored_positions (user account : string) (d : Db) : list PositionQuantitySnapshot :=
  map (λ p, Build_PositionQuantitySnapshot (pos_symbol p) (pos_quantity p))
    (sort_by (λ a b, String.leb (pos_symbol a) (pos_symbol b))
       (List.filter (λ p, String.eqb (pos_user p) user && String.eqb (pos_account p) account) (db_positions d))).

Definition run_report (user account : string) (w : World) : PositionReconciliationReport :=
  reconcile_position_snapshots user account exchange (stored_positions user account (w_tx w)) target
    tolerance critical.

Definition drift_alerts (r : PositionReconciliationReport) : list Event :=
  if is_drift r && alerting
  then map alert_event (option_list (build_reconciliation_drift_alert (report_status_value (rep_status r))
         (report_severity_value (rep_severity r)) (difference_count r)))
  else [].

Definition hook_plan_of (r : PositionReconciliationReport) : ReconciliationHookPlan :=
  Build_ReconciliationHookPlan
    (Build_ReconciliationAuditEntryPlan (rep_user r) (rep_account r)
       (if is_drift r then "position_reconciliation.drift_detected" else "position_reconciliation.matched")
       (rep_severity r) (_report_payload r))
    (if is_drift r then Some (_system_event_for_drift r (_report_payload r)) else None)
    (map (λ c, _notification_for_channel c r (_report_payload r)) (List.filter (λ _, is_drift r) channels)) false.

Lemma run_hook_plan r w :
  build_reconciliation_hook_plan r channels (if alerting then Some OperationalAlertRuntime else None) w =
  (Ok (hook_plan_of r), mkWorld (w_committed w) (w_tx w) (w_new w) (w_next w) (w_now w) (w_trace w ++ drift_alerts r)).
Proof.
  unfold build_reconciliation_hook_plan, drift_alerts, hook_plan_of. cbv zeta. rewrite run_bind.
  destruct (is_drift r), alerting; cbn -[build_reconciliation_drift_alert _report_payload];
    try (rewrite app_nil_r; by destruct w).
  destruct (build_reconciliation_drift_alert _ _ _); cbn; [done|]. rewrite app_nil_r. by destruct w.
Qed.
(** The part of the run that stores the plan. *)
Lemma persist_silent p w : w_trace (persist_reconciliation_hook_plan p w).2 = w_trace w.
Proof.
  assert (emits (λ _, False) (persist_reconciliation_hook_plan p)) as He.
  { unfold persist_reconciliation_hook_plan, create_preference_aware_internal_notifications,
      create_preference_aware_internal_notification, create_internal_notification, get_or_create_preferences.
    emits_tac. }
  destruct (He w) as (evs & -> & Hf). destruct evs as [|ev evs]; [by rewrite app_nil_r|].
  by apply Forall_cons in Hf as [[] _].
Qed.

Lemma persist_uncommitted p : preserves w_committed (persist_reconciliation_hook_plan p).
Proof.
  unfold persist_reconciliation_hook_plan, create_preference_aware_internal_notifications,
    create_preference_aware_internal_notification, create_internal_notification, get_or_create_preferences.
  preserves_tac.
Qed.

Lemma hook_inputs r :
  let ns := List.filter (λ n, bool_decide (nin_channel n = INTERNAL))
    (map (notification_input (hook_audit_entry (hook_plan_of r))) (hook_notifications (hook_plan_of r))) in
  Forall (λ n, drift_input n ∧ nin_user n = rep_user r) ns ∧
  Forall (λ n, nin_account n = Some (rep_account r) ∧ nin_payload n = _report_payload r ∧
    nin_severity n = report_severity_value (rep_severity r)) ns ∧
  length ns = (if is_drift r then length (List.filter (λ c, bool_decide (notification_channel c = INTERNAL)) channels)
               else 0)%nat.
Proof.
  cbn [hook_audit_entry hook_notifications hook_plan_of]. generalize channels. intros cs. cbv zeta.
  destruct (is_drift r).
  2:{ induction cs as [|c cs IH]; [by repeat split|exact IH]. }
  induction cs as [|c cs (Hf & Hg & Hl)]; [by repeat split|]. cbn [List.filter map notification_input nin_channel].
  cbn [_notification_for_channel rnp_channel].
  case_bool_decide as Hc; [|done]. split; [|split; [|cbn [length]; by rewrite Hl]].
  - constructor; [|done]. split; [|done]. split; [done|]. split; [done|]. apply report_payload_safe.
  - by constructor.
Qed.

(** Storing the plan of a report. *)
Definition recorded (r : PositionReconciliationReport) (w w' : World) : Prop :=
  db_positions (w_tx w') = db_positions (w_tx w) ∧ db_executions (w_tx w') = db_executions (w_tx w) ∧
  (∃ row, db_audit (w_tx w') = db_audit (w_tx w) ++ [row] ∧ aud_user row = rep_user r ∧
     aud_account row = Some (rep_account r) ∧ aud_payload row = _report_payload r ∧
     aud_severity row = report_severity_value (rep_severity r) ∧
     aud_action row = (if is_drift r then "position_reconciliation.drift_detected"
                       else "position_reconciliation.matched")) ∧
  (∃ evs, db_events (w_tx w') = db_events (w_tx w) ++ evs ∧ length evs = (if is_drift r then 1 else 0)%nat ∧
     Forall (λ e, evt_user e = Some (rep_user r) ∧ evt_payload e = _report_payload r) evs) ∧
  (∃ news, db_notifications (w_tx w') = db_notifications (w_tx w) ++ news ∧
     length news = (if is_drift r && drift_allowed (rep_user r) (w_tx w)
       then length (List.filter (λ c, bool_decide (notification_channel c = INTERNAL)) channels) else 0)%nat ∧
     Forall (λ n, ntf_user n = rep_user r ∧ ntf_payload n = _report_payload r ∧ ntf_is_read n = false) news).

Lemma persist_Ok r w p w' :
  w_new w = empty_db → persist_reconciliation_hook_plan (hook_plan_of r) w = (Ok p, w') → recorded r w w'.
Proof.
  intros Hn E. unfold persist_reconciliation_hook_plan in E. cbv zeta in E.
  apply bind_Ok_inv in E as (aid & w1 & [= <- <-] & E). apply bind_Ok_inv in E as (now & w1 & [= <- <-] & E).
  apply bind_Ok_inv in E as ([] & w1 & Ea & E). injection Ea as <-.
  set (row := Build_AuditLog _ _ _ _ _ _ _) in E.
  apply bind_Ok_inv in E as (ev & w1 & Ee & E).
  assert (∃ evs, w_tx w1 = w_tx w ∧ w_new w1 = set_audit [row] (set_events evs empty_db) ∧
    length evs = (if is_drift r then 1 else 0)%nat ∧
    Forall (λ e, evt_user e = Some (rep_user r) ∧ evt_payload e = _report_payload r) evs) as (evs & Ht1 & Hn1 & Hl & Hf).
  { destruct (is_drift r) eqn:Ed; unfold hook_plan_of in Ee; rewrite Ed in Ee; cbn [hook_system_event] in Ee.
    - apply bind_Ok_inv in Ee as (eid & w2 & [= <- <-] & Ee). apply bind_Ok_inv in Ee as ([] & w2 & Ea & Ee).
      injection Ea as <-. injection Ee as <- <-. cbn. rewrite Hn. eexists [_]. split; [done|]. split; [reflexivity|].
      split; [done|]. by repeat constructor.
    - injection Ee as <- <-. exists []. cbn. by rewrite Hn. }
  apply bind_Ok_inv in E as (ns & w2 & Ens & E). apply bind_Ok_inv in E as ([] & w3 & Ef & E). injection E as <- <-.
  unfold create_preference_aware_internal_notifications in Ens. apply bind_Ok_inv in Ens as (rs & w4 & Em & Ens).
  injection Ens as <- <-. destruct (hook_inputs r) as (Hin & Hacc & Hlen).
  apply (notifications_Ok (rep_user r)) in Em as (news & (Ho & Han & _ & _) & Hfn & Hln); [|exact Hin|by rewrite Hn1].
  pose proof (only_notifies_flush _ _ Ef) as Hfl. assert (only_notifies w1 w3) as (Ra & Rs & Rp & Re & _) by (by etrans).
  pose proof (flush_Ok_empty _ _ Ef) as Hn3.
  apply (flush_all_rows (R:=InternalNotification)) in Ef. rewrite Han in Ef.
  rewrite !(all_rows_clean _ w3) in * by done. unfold all_rows in Ra, Rs, Ef. rewrite Ht1, Hn1 in Ra, Rs, Ef.
  cbn in Ra, Rs, Ef. rewrite app_nil_r in Ef.
  destruct Rp as [Rp _]; [by rewrite Hn1|]. destruct Re as [Re _]; [by rewrite Hn1|]. rewrite Ht1 in Rp, Re.
  split; [exact Rp|]. split; [exact Re|]. split; [by exists row|]. split; [by exists evs|].
  exists news. split; [done|]. split.
  - rewrite Hln, Hlen, Ht1. by destruct (is_drift r), (drift_allowed (rep_user r) (w_tx w)).
  - eapply Forall_impl; [exact Hfn|]. cbn. intros x (n & Hnin & (Hu & _ & _ & _ & _ & Hp & Hr)).
    rewrite Forall_forall in Hin, Hacc. destruct (Hin n Hnin) as [_ Hun], (Hacc n Hnin) as (_ & Hpn & _).
    by rewrite Hu, Hp, Hr.
Qed.

Lemma persist_raises r : raises (λ e, db_failure e = true) (persist_reconciliation_hook_plan (hook_plan_of r)).
Proof.
  unfold persist_reconciliation_hook_plan, create_preference_aware_internal_notifications. raises_tac.
  destruct (hook_inputs r) as (Hin & _). rewrite Forall_forall in Hin.
  apply raises_mapM. intros n Hn. by apply notification_raises, Hin.
Qed.
End run.

(** A run records the report it computed and decides nothing: one audit row with the
    report, a system event and the alert exactly when there is drift, and a notification
    per internal channel exactly when the user's preferences allow drift notifications;
    positions and executions stay as they are, nothing is committed, and only the
    database can make the run fail. *)
Theorem reconciliation_run_recorded `{Database} exchange target tolerance critical channels alerting user account w :
  w_new w = empty_db →
  let r := run_report exchange target tolerance critical user account w in
  let '(o, w') := run_account (worker exchange target tolerance critical channels alerting) user account w in
  w_committed w' = w_committed w ∧ w_trace w' = w_trace w ++ drift_alerts alerting r ∧
  match o with
  | Ok res => wrr_report res = r ∧ wrr_auto_fix_allowed res = false ∧ recorded channels r w w'
  | Raise e => db_failure e = true
  end.
Proof.
  intros Hn r. destruct (run_account _ user account w) as [o w'] eqn:E. unfold run_account in E.
  rewrite run_bind in E. cbn [worker wrk_providers pvd_exchange mret M_ret] in E.
  rewrite run_bind in E. cbn [worker wrk_providers pvd_database] in E.
  unfold DatabasePositionSnapshotProvider at 1 in E. rewrite run_bind in E. cbn [db_scalars gets mret M_ret] in E.
  rewrite run_bind in E. cbn [pvd_target mret M_ret] in E. cbv zeta in E. rewrite run_bind in E.
  cbn [wrk_quantity_tolerance wrk_critical_threshold wrk_notification_channels wrk_alert_runtime worker] in E.
  match type of E with context [reconcile_position_snapshots ?a ?b ?c ?d ?e ?f ?g] =>
    change (reconcile_position_snapshots a b c d e f g) with r in E end.
  rewrite run_hook_plan in E. match type of E with _ ?w1 = _ => set (w1' := w1) in E end.
  pose proof (persist_uncommitted (hook_plan_of channels r) w1') as Hc.
  pose proof (persist_silent (hook_plan_of channels r) w1') as Ht.
  rewrite run_bind in E. destruct (persist_reconciliation_hook_plan _ w1') as [[p|e] w2] eqn:Ep; cbn [snd] in *.
  - injection E as <- <-. split; [done|]. split; [done|]. split; [done|]. split; [done|].
    apply persist_Ok in Ep; [exact Ep|done].
  - injection E as <- <-. split; [done|]. split; [done|]. by eapply persist_raises.
Qed.

(** The demo account holds 5 BTC in the database and on the exchange, which also has 4
    ETH nobody asked for: one internal notification, one alert, one event. *)
Definition demo_run : M ReconciliationWorkerResult :=
  run_account (worker [snap "btcusdt" 5; snap "ETHUSDT" 4] [snap "BTCUSDT" 5] dec0 dec1 [RC_INTERNAL; RC_EMAIL] true)
    "user-1" "acct-sim".

Lemma reconciliation_run_recorded_witness :
  ∃ res w', demo_run demo_world = (Ok res, w') ∧ length (db_notifications (w_tx w')) = 1%nat ∧
    length (w_trace w') = 1%nat ∧ w_committed w' = demo_db ∧ db_positions (w_tx w') = [demo_position].
Proof.
  eexists _, _. split; [vm_compute; reflexivity|]. split; [reflexivity|]. split; [reflexivity|].
  pose proof (reconciliation_run_recorded [snap "btcusdt" 5; snap "ETHUSDT" 4] [snap "BTCUSDT" 5] dec0 dec1
    [RC_INTERNAL; RC_EMAIL] true "user-1" "acct-sim" demo_world eq_refl) as Hr.
  cbv zeta in Hr. destruct (run_account _ _ _ _) as [o w'] eqn:E in Hr.
  assert (demo_run demo_world = (o, w')) as E' by exact E. clear E. vm_compute in E'. injection E' as <- <-.
  destruct Hr as (Hc & _ & _ & _ & Hp & _). split; [exact Hc|exact Hp].
Defined.
