(* ===== verification/TestnetGate.v ===== *)
(** The conditions of a testnet order: [exchanges/testnet_config.py],
    [services/testnet_order_gate.py], and the two read-only reports made of them,
    [services/testnet_order_admission.py] and [services/testnet_order_window.py]. *)
From S2P Require Import Prelude PyStr PyDecimal PyValue Models Session PgDatabase Tables Demo Logic Accounts.

(** ** Endpoints *)

Record ExchangeEndpointConfig := {
  ep_exchange : ExchangeName; ep_rest_base_url : string; ep_public_ws_url : option string;
  ep_private_ws_url : option string; ep_demo_header_required : bool }.

Definition TESTNET_ENDPOINTS : list ExchangeEndpointConfig :=
  [{| ep_exchange := BINANCE; ep_rest_base_url := "https://testnet.binance.vision";
      ep_public_ws_url := Some "wss://stream.testnet.binance.vision/ws"; ep_private_ws_url := None;
      ep_demo_header_required := false |};
   {| ep_exchange := BYBIT; ep_rest_base_url := "https://api-testnet.bybit.com";
      ep_public_ws_url := Some "wss://stream-testnet.bybit.com/v5/public/spot";
      ep_private_ws_url := Some "wss://stream-testnet.bybit.com/v5/private";
      ep_demo_header_required := false |};
   {| ep_exchange := OKX; ep_rest_base_url := "https://www.okx.com";
      ep_public_ws_url := Some "wss://wspap.okx.com:8443/ws/v5/public";
      ep_private_ws_url := Some "wss://wspap.okx.com:8443/ws/v5/private";
      ep_demo_header_required := true |}].

(** [TESTNET_ENDPOINTS[exchange_name]]; [None] is the [KeyError]. *)
Definition get_testnet_endpoint_config (exchange : ExchangeName) : option ExchangeEndpointConfig :=
  find_first (λ c, bool_decide (ep_exchange c = exchange)) TESTNET_ENDPOINTS.

Definition in_testnet_endpoints (exchange : ExchangeName) : bool :=
  match get_testnet_endpoint_config exchange with Some _ => true | None => false end.

(** A check's verdict is a list of reasons; none means it passed. *)
Definition check_testnet_readiness (exchange : ExchangeName) (mode : AccountMode)
    (trading_enabled api_key_configured : bool) : list string :=
  collect
    [(negb (in_testnet_endpoints exchange), "exchange does not have a configured testnet endpoint");
     (negb (bool_decide (mode = TESTNET)), "account mode must be TESTNET");
     (trading_enabled, "trading must remain disabled for testnet readiness checks");
     (negb api_key_configured, "testnet API key metadata must be configured")].

(** ** The order gate *)

Record TestnetOrderGateResult := { gate_reasons : list string }.
Definition approved (g : TestnetOrderGateResult) : bool :=
  match gate_reasons g with [] => true | _ => false end.

Definition check_testnet_order_gate (exchange : ExchangeName) (mode : AccountMode)
    (adapters_enabled account_trading_enabled risk_trading_enabled api_key_configured
     manual_confirmed : bool) : TestnetOrderGateResult :=
  {| gate_reasons := collect
    [(negb (in_testnet_endpoints exchange), "exchange does not support testnet order routing");
     (negb (bool_decide (mode = TESTNET)), "account mode must be TESTNET before testnet orders");
     (negb adapters_enabled, "TESTNET_ADAPTERS_ENABLED must be true before testnet orders");
     (negb account_trading_enabled,
      "exchange account trading_enabled must be true before testnet orders");
     (negb risk_trading_enabled, "risk settings trading_enabled must be true before testnet orders");
     (negb api_key_configured, "testnet API key metadata must be configured before testnet orders");
     (negb manual_confirmed, "manual testnet order enable confirmation must be recorded")] |}.

(** What the gate stands for. *)
Definition gate_open (exchange : ExchangeName) (mode : AccountMode)
    (adapters account_trading risk_trading key confirmed : bool) : Prop :=
  exchange ≠ MOCK ∧ mode = TESTNET ∧ adapters = true ∧ account_trading = true ∧
  risk_trading = true ∧ key = true ∧ confirmed = true.

Lemma in_testnet_endpoints_iff e : in_testnet_endpoints e = true ↔ e ≠ MOCK.
Proof. by destruct e; vm_compute; split. Qed.

Lemma gate_approved_iff exchange mode adapters account_trading risk_trading key confirmed :
  approved (check_testnet_order_gate exchange mode adapters account_trading risk_trading key confirmed)
    = true ↔
  gate_open exchange mode adapters account_trading risk_trading key confirmed.
Proof.
  unfold approved, gate_open. cbn [gate_reasons check_testnet_order_gate].
  rewrite <- in_testnet_endpoints_iff.
  destruct (in_testnet_endpoints exchange), mode, adapters, account_trading, risk_trading, key, confirmed;
    vm_compute; split; try done; naive_solver.
Qed.

(** The gate approves exactly when all seven conditions hold. *)
Theorem testnet_order_gate_spec exchange mode adapters account_trading risk_trading key confirmed :
  approved (check_testnet_order_gate exchange mode adapters account_trading risk_trading key confirmed)
    = true ↔
  gate_open exchange mode adapters account_trading risk_trading key confirmed.
Proof. apply gate_approved_iff. Qed.

(** ** The admission report *)

Record TestnetOrderAdmissionCheck := {
  adm_name : string; adm_passed : bool; adm_required : bool; adm_detail : string }.

Record TestnetOrderAdmissionReport := {
  adm_account : string; adm_exchange : ExchangeName; adm_mode : AccountMode;
  adm_overall_passed : bool; adm_checks : list TestnetOrderAdmissionCheck;
  adm_gate_reasons : list string; adm_read_only : bool; adm_order_submission_authorized : bool }.

Definition _check (name : string) (condition : bool) (pass_detail fail_detail : string) :
    TestnetOrderAdmissionCheck :=
  {| adm_name := name; adm_passed := condition; adm_required := true;
     adm_detail := if condition then pass_detail else fail_detail |}.

Definition admission_checks (account : ExchangeAccount) (risk_settings : option RiskSetting)
    (key_configured adapters_enabled audit_readable gate_approved : bool) :
    list TestnetOrderAdmissionCheck :=
  [_check "exchange_supports_testnet_order_routing" (in_testnet_endpoints (acct_exchange account))
     "exchange has a configured testnet/demo endpoint"
     "exchange is not supported for testnet order routing";
   _check "account_mode_is_testnet" (bool_decide (acct_mode account = TESTNET))
     "account mode is TESTNET" "account mode must be TESTNET";
   _check "testnet_adapters_disabled_before_window" (negb adapters_enabled)
     "TESTNET_ADAPTERS_ENABLED is false before an approved order window"
     "TESTNET_ADAPTERS_ENABLED is already true; verify rollback before proceeding";
   _check "exchange_account_trading_disabled_before_window" (negb (acct_trading_enabled account))
     "exchange account trading is disabled before an approved order window"
     "exchange account trading is already enabled";
   _check "risk_settings_exist" (bool_decide (risk_settings ≠ None))
     "risk settings exist for the account" "risk settings must exist before admission";
   _check "risk_trading_disabled_before_window"
     (match risk_settings with Some r => negb (risk_trading_enabled r) | None => false end)
     "risk setting trading is disabled before an approved order window"
     "risk setting trading is enabled or missing";
   _check "encrypted_api_key_metadata_configured" key_configured
     "encrypted API key metadata exists without exposing secret material"
     "encrypted API key metadata is missing";
   _check "audit_log_table_readable" audit_readable
     "audit log table is readable; this probe does not write audit rows"
     "audit log table is not readable";
   _check "current_order_gate_blocks_submission" (negb gate_approved)
     "current gate blocks submission because no manual order approval is accepted here"
     "current gate unexpectedly approves order submission"].

Section reports.
Context `{Database} `{Settings}.

Definition find_risk_settings (user account : string) : M (option RiskSetting) :=
  db_scalar (λ r, String.eqb (risk_user r) user && String.eqb (risk_account r) account).

(** The table of the audit log answers every query of this model. *)
Definition build_testnet_order_admission_report (user exchange_account : string) :
    M TestnetOrderAdmissionReport :=
  account ← get_owned_account user exchange_account;
  match account with
  | None => raise (ValueError "account not found")
  | Some account =>
      risk_settings ← find_risk_settings user (acct_id account);
      secret_metadata ← get_api_key_secret_metadata user (acct_id account);
      let key := bool_decide (secret_metadata ≠ None) in
      let gate := check_testnet_order_gate (acct_exchange account) (acct_mode account)
        testnet_adapters_enabled (acct_trading_enabled account)
        (match risk_settings with Some r => risk_trading_enabled r | None => false end) key false in
      let checks := admission_checks account risk_settings key testnet_adapters_enabled true (approved gate) in
      mret {| adm_account := acct_id account; adm_exchange := acct_exchange account;
              adm_mode := acct_mode account;
              adm_overall_passed := forallb (λ c, negb (adm_required c) || adm_passed c) checks;
              adm_checks := checks; adm_gate_reasons := gate_reasons gate; adm_read_only := true;
              adm_order_submission_authorized := false |}
  end.

(** ** The window plan *)

Record OrderWindowPlanState := {
  pls_exchange : ExchangeName; pls_mode : AccountMode; pls_adapters_enabled : bool;
  pls_account_trading_enabled : bool; pls_risk_settings_exist : bool; pls_risk_trading_enabled : bool;
  pls_api_key_configured : bool }.

Record OrderWindowPlan := {
  plan_account : string; plan_ready : bool; plan_state : OrderWindowPlanState;
  plan_blocked_reasons : list string; plan_required_operator_steps : list string;
  plan_mutations_allowed : bool; plan_order_submission_authorized : bool }.

Definition _pre_window_blocked_reasons (mode : AccountMode) (risk_exist key : bool) : list string :=
  collect
    [(negb (bool_decide (mode = TESTNET)), "account mode must be TESTNET before preparing an order window");
     (negb risk_exist, "risk settings must exist before preparing an order window");
     (negb key, "encrypted API key metadata must exist before preparing an order window")].

Definition _required_operator_steps (reasons : list string) : list string :=
  ["complete docs/phase-3-testnet-order-admission-checklist.md";
   "record a separate explicit approval for a bounded TESTNET order window";
   "temporarily set TESTNET_ADAPTERS_ENABLED=true only during the approved window";
   "temporarily enable exchange_account.trading_enabled for the selected account only";
   "temporarily enable risk_settings.trading_enabled for the selected account only";
   "record manual testnet order enable confirmation in append-only audit logs";
   "submit at most the separately approved test order with an idempotent client_order_id";
   "restore TESTNET_ADAPTERS_ENABLED=false and both trading_enabled flags to false";
   "current gate still blocks submission: " +:+ str_join "; " reasons].

Definition build_testnet_order_window_plan (user exchange_account : string) : M OrderWindowPlan :=
  account ← get_owned_account user exchange_account;
  match account with
  | None => raise (ValueError "account not found")
  | Some account =>
      risk_settings ← find_risk_settings user (acct_id account);
      secret_metadata ← get_api_key_secret_metadata user (acct_id account);
      let risk_trading := match risk_settings with Some r => risk_trading_enabled r | None => false end in
      let key := bool_decide (secret_metadata ≠ None) in
      let gate := check_testnet_order_gate (acct_exchange account) (acct_mode account)
        testnet_adapters_enabled (acct_trading_enabled account) risk_trading key false in
      let blocked := _pre_window_blocked_reasons (acct_mode account)
                       (bool_decide (risk_settings ≠ None)) key in
      mret {| plan_account := acct_id account;
              plan_ready := match blocked with [] => true | _ => false end;
              plan_state :=
                {| pls_exchange := acct_exchange account; pls_mode := acct_mode account;
                   pls_adapters_enabled := testnet_adapters_enabled;
                   pls_account_trading_enabled := acct_trading_enabled account;
                   pls_risk_settings_exist := bool_decide (risk_settings ≠ None);
                   pls_risk_trading_enabled := risk_trading; pls_api_key_configured := key |};
              plan_blocked_reasons := blocked;
              plan_required_operator_steps := _required_operator_steps (gate_reasons gate);
              plan_mutations_allowed := false; plan_order_submission_authorized := false |}
  end.

(** Admission and the gate exclude each other: where the report passes, the gate
    refuses an order, confirmed or not; and neither report writes anything. *)
Theorem admission_excludes_gate user exchange_account w report w' confirmed :
  build_testnet_order_admission_report user exchange_account w = (Ok report, w') →
  w' = w ∧ adm_read_only report = true ∧ adm_order_submission_authorized report = false ∧
  (adm_overall_passed report = true →
   ∃ account risk, account ∈ db_accounts (w_tx w) ∧ acct_id account = exchange_account ∧
     risk ∈ db_risk (w_tx w) ∧ risk_account risk = exchange_account ∧
     acct_trading_enabled account = false ∧ risk_trading_enabled risk = false ∧
     approved (check_testnet_order_gate (acct_exchange account) (acct_mode account)
       testnet_adapters_enabled (acct_trading_enabled account) (risk_trading_enabled risk) true confirmed)
     = false).
Proof.
  unfold build_testnet_order_admission_report. intros E.
  apply bind_Ok_inv in E as (r & w1 & [= <- <-] & E).
  cbn [tbl ExchangeAccount_table] in E.
  destruct (find_first _ (db_accounts (w_tx w))) as [account|] eqn:Ea; [|done].
  apply bind_Ok_inv in E as (risk & w1 & [= <- <-] & E).
  apply bind_Ok_inv in E as (key & w1 & [= <- <-] & E). injection E as <- <-.
  split; [done|]. split; [done|]. split; [done|]. cbn [adm_overall_passed].
  intros Hall. rewrite !andb_true_iff in Hall. destruct Hall as (_ & _ & _ & Htr & _ & Hrt & _).
  apply negb_true_iff in Htr.
  destruct (find_first _ (db_risk (w_tx w))) as [risk|] eqn:Er; [|done]. apply negb_true_iff in Hrt.
  apply find_first_Some in Ea as [Hina Hpa]. apply find_first_Some in Er as [Hinr Hpr].
  apply andb_true_iff in Hpa as [Hpa%String.eqb_eq _]. apply andb_true_iff in Hpr as [_ Hpr%String.eqb_eq].
  exists account, risk. repeat (split; [congruence || done|]).
  rewrite Htr. unfold approved, check_testnet_order_gate. cbn [gate_reasons].
  by destruct (in_testnet_endpoints _), (acct_mode account), testnet_adapters_enabled,
    (risk_trading_enabled risk), confirmed.
Qed.
End reports.

Lemma admission_excludes_gate_witness :
  ∃ report, build_testnet_order_admission_report (H0:=closed_settings) "user-1" "acct-test" closed_world =
      (Ok report, closed_world) ∧ adm_overall_passed report = true ∧ adm_read_only report = true.
Proof.
  eexists. split; [vm_compute; reflexivity|]. split; [reflexivity|].
  eapply (admission_excludes_gate (H0:=closed_settings) "user-1" "acct-test" closed_world _ _ true).
  vm_compute. reflexivity.
Defined.
