(* ===== verification/WindowApproval.v ===== *)
(** [services/testnet_order_window_approval.py]: an administrator records a bounded
    order window in the audit log, and every testnet order is checked against the
    latest record.  Moments are microseconds; the overflow of [timedelta] for
    durations no approval can record is left out. *)
From S2P Require Import Prelude PyStr PyDecimal PyValue Models Session PgDatabase Tables Demo Logic Accounts TestnetGate.

Definition TESTNET_ORDER_WINDOW_APPROVAL_ACK : string := "APPROVE_TESTNET_ORDER_WINDOW_ONLY".
Definition WINDOW_ACTION : string := "testnet.order_window.approval_recorded".

Record TestnetOrderWindowApproval := {
  appr_audit_log_id : string; appr_account : string; appr_exchange : ExchangeName;
  appr_symbol : string; appr_side : OrderSide; appr_max_quantity : dec; appr_max_notional : dec;
  appr_duration_minutes : Z; appr_order_submission_authorized : bool;
  appr_trading_flags_changed : bool }.

Record TestnetOrderWindowAuthorization := { auth_audit_log_id : string; auth_expires_at : Z }.

Definition microseconds_per_minute : Z := 60000000.

(** ** Recording an approval *)

Definition is_admin (r : UserRole) : bool := bool_decide (r = SUPER_ADMIN ∨ r = ADMIN).

Definition _approval_blocked_reasons (role : UserRole) (account : ExchangeAccount)
    (adapters_enabled : bool) (risk_settings : option RiskSetting) (api_key_configured : bool)
    (duration_minutes : Z) (acknowledgement : string) : list string :=
  collect
    [(negb (is_admin role), "admin privileges are required to approve a testnet order window");
     (negb (in_testnet_endpoints (acct_exchange account)), "exchange does not support testnet order routing");
     (negb (acct_is_active account), "exchange account must be active before approving an order window");
     (negb (bool_decide (acct_mode account = TESTNET)),
      "account mode must be TESTNET before approving an order window");
     (adapters_enabled, "TESTNET_ADAPTERS_ENABLED must still be false before approval is recorded");
     (acct_trading_enabled account,
      "exchange account trading_enabled must still be false before approval");
     (bool_decide (risk_settings = None), "risk settings must exist before approving an order window");
     (match risk_settings with Some r => risk_trading_enabled r | None => false end,
      "risk settings trading_enabled must still be false before approval");
     (negb api_key_configured, "encrypted API key metadata must exist before approving an order window");
     ((duration_minutes <? 1)%Z || (10 <? duration_minutes)%Z,
      "testnet order window duration must be between 1 and 10 minutes");
     (negb (String.eqb acknowledgement TESTNET_ORDER_WINDOW_APPROVAL_ACK),
      "explicit testnet order window acknowledgement is required")].

Definition window_payload (account : ExchangeAccount) (symbol : string) (side : OrderSide)
    (max_quantity max_notional : dec) (duration_minutes : Z) (acknowledgement : string) : dict :=
  [("exchange_name", VStr (exchange_value (acct_exchange account)));
   ("account_mode", VStr (mode_value (acct_mode account)));
   ("symbol", VStr symbol); ("side", VStr (side_value side));
   ("max_quantity", VStr (dec_str max_quantity)); ("max_notional", VStr (dec_str max_notional));
   ("duration_minutes", VInt duration_minutes); ("acknowledgement", VStr acknowledgement);
   ("order_submission_authorized", VBool false); ("trading_flags_changed", VBool false)].

(** ** Reading the record back *)

(** [quantity > limit]; [None] where the limit is a NaN and the comparison
    raises. *)
Definition exceeds (q : dec) (limit : pydec) : option bool :=
  match limit with
  | PFin m => Some (dec_gtb q m)
  | PInf neg => Some neg
  | _ => None
  end.

Definition _decimal_from_payload (v : pyval) : option pydec := decimal_of_str (py_str v).
Definition _int_from_payload (v : pyval) : option Z := int_of_str (py_str v).

(** The comparison with a limit that may be missing: [Some false] then. *)
Definition exceeds_opt (q : dec) (limit : option pydec) : option bool :=
  match limit with Some m => exceeds q m | None => Some false end.

Definition approval_log (user account : string) (l : AuditLog) : bool :=
  String.eqb (aud_user l) user && bool_decide (aud_account l = Some account) &&
  String.eqb (aud_action l) WINDOW_ACTION.

(** The reasons found in a record; [None] is the [InvalidOperation] of a NaN. *)
Definition authorization_reasons (l : AuditLog) (symbol : string) (side : OrderSide) (quantity : dec)
    (price : option dec) (now : Z) : option (list string) :=
  let payload := aud_payload l in
  let max_quantity := _decimal_from_payload (dict_get "max_quantity" payload) in
  let max_notional := _decimal_from_payload (dict_get "max_notional" payload) in
  let duration := _int_from_payload (dict_get "duration_minutes" payload) in
  let expires_at := (aud_created_at l + default 0 duration * microseconds_per_minute)%Z in
  let bad_duration := match duration with Some d => (d <? 1)%Z || (10 <? d)%Z | None => true end in
  over_quantity ← exceeds_opt quantity max_quantity;
  over_notional ← match price with
                  | Some p => exceeds_opt (dec_mul quantity p) max_notional
                  | None => Some false
                  end;
  Some (collect
    [(is_none price, "limit price is required for approved testnet order windows");
     (is_none max_quantity, "testnet order window audit max_quantity is invalid");
     (is_none max_notional, "testnet order window audit max_notional is invalid");
     (is_none duration, "testnet order window audit duration_minutes is invalid");
     (negb (String.eqb (str_upper (str_strip (py_str (dict_get_default "symbol" (VStr "") payload))))
              (str_upper (str_strip symbol))), "testnet order symbol must match the approved window");
     (negb (String.eqb (py_str (dict_get_default "side" (VStr "") payload)) (side_value side)),
      "testnet order side must match the approved window");
     (over_quantity, "testnet order quantity exceeds the approved window");
     (over_notional, "testnet order notional exceeds the approved window");
     (bad_duration, "testnet order window audit duration is invalid");
     (negb bad_duration && (expires_at <? now)%Z, "testnet order window approval has expired")]).

Section window.
Context `{Database} `{Settings}.

Definition record_testnet_order_window_approval (user : string) (role : UserRole)
    (exchange_account symbol : string) (side : OrderSide) (max_quantity max_notional : dec)
    (duration_minutes : Z) (acknowledgement : string) : M TestnetOrderWindowApproval :=
  account ← get_owned_account user exchange_account;
  match account with
  | None => raise (ValueError "account not found")
  | Some account =>
      risk_settings ← find_risk_settings user (acct_id account);
      secret_metadata ← get_api_key_secret_metadata user (acct_id account);
      match _approval_blocked_reasons role account testnet_adapters_enabled risk_settings
              (bool_decide (secret_metadata ≠ None)) duration_minutes acknowledgement with
      | (_ :: _) as reasons => raise (TestnetOrderWindowApprovalBlockedError reasons)
      | [] =>
          id ← new_id;
          now ← now_utc;
          add_commit (Build_AuditLog id user (Some (acct_id account)) WINDOW_ACTION "WARNING"
            (window_payload account symbol side max_quantity max_notional duration_minutes acknowledgement)
            now) ;;
          mret {| appr_audit_log_id := id; appr_account := acct_id account;
                  appr_exchange := acct_exchange account; appr_symbol := symbol; appr_side := side;
                  appr_max_quantity := max_quantity; appr_max_notional := max_notional;
                  appr_duration_minutes := duration_minutes;
                  appr_order_submission_authorized := false; appr_trading_flags_changed := false |}
      end
  end.

Definition require_valid_testnet_order_window_authorization (user exchange_account symbol : string)
    (side : OrderSide) (quantity : dec) (price : option dec) : M TestnetOrderWindowAuthorization :=
  logs ← db_scalars (approval_log user exchange_account);
  now ← now_utc;
  match latest aud_created_at logs with
  | None =>
      raise (TestnetOrderWindowAuthorizationError (collect
        [(is_none price, "limit price is required for approved testnet order windows");
         (true, "valid testnet order window approval audit log is required")]))
  | Some l =>
      match authorization_reasons l symbol side quantity price now with
      | None => raise InvalidOperation
      | Some ((_ :: _) as reasons) => raise (TestnetOrderWindowAuthorizationError reasons)
      | Some [] =>
          mret {| auth_audit_log_id := aud_id l;
                  auth_expires_at := (aud_created_at l +
                    default 0 (_int_from_payload (dict_get "duration_minutes" (aud_payload l))) *
                    microseconds_per_minute)%Z |}
      end
  end.

(** The endpoint [approve_testnet_order_window]. *)
Definition approve_testnet_order_window (current_user : User) (exchange_account symbol : string)
    (side : OrderSide) (max_quantity max_notional : dec) (duration_minutes : Z)
    (acknowledgement : string) : M TestnetOrderWindowApproval :=
  try_except
    (record_testnet_order_window_approval (user_id current_user) (user_role current_user)
       exchange_account symbol side max_quantity max_notional duration_minutes acknowledgement)
    (λ exn, match exn with
            | ValueError m => Some (raise (HTTPException 404 (VStr m) []))
            | TestnetOrderWindowApprovalBlockedError reasons =>
                Some (raise (HTTPException 400 (VDict [("reasons", VList (map VStr reasons))]) []))
            | _ => None
            end).
End window.

(** ** What an authorization stands for *)

(** A record that covers an order at a moment. *)
Definition covers (l : AuditLog) (symbol : string) (side : OrderSide) (quantity price : dec) (now : Z) : Prop :=
  ∃ max_quantity max_notional minutes,
    _decimal_from_payload (dict_get "max_quantity" (aud_payload l)) = Some max_quantity ∧
    exceeds quantity max_quantity = Some false ∧
    _decimal_from_payload (dict_get "max_notional" (aud_payload l)) = Some max_notional ∧
    exceeds (dec_mul quantity price) max_notional = Some false ∧
    _int_from_payload (dict_get "duration_minutes" (aud_payload l)) = Some minutes ∧
    (1 ≤ minutes ≤ 10)%Z ∧ (now ≤ aud_created_at l + minutes * microseconds_per_minute)%Z ∧
    str_upper (str_strip (py_str (dict_get_default "symbol" (VStr "") (aud_payload l)))) =
      str_upper (str_strip symbol) ∧
    py_str (dict_get_default "side" (VStr "") (aud_payload l)) = side_value side.

Lemma authorization_reasons_nil l symbol side quantity price now :
  authorization_reasons l symbol side quantity price now = Some [] ↔
  ∃ p, price = Some p ∧ covers l symbol side quantity p now.
Proof.
  unfold authorization_reasons, covers.
  set (mq := _decimal_from_payload _). set (mn := _decimal_from_payload _).
  set (du := _int_from_payload _). cbv zeta. split.
  - intros E. destruct (exceeds_opt quantity mq) as [oq|] eqn:Eq; [|done]. cbn [mbind option_bind] in E.
    destruct (match price with Some p => _ | None => _ end) as [on|] eqn:En; [|done]. cbn [mbind option_bind] in E.
    apply (inj Some) in E. rewrite collect_nil_iff, !Forall_cons in E. cbn [fst snd] in E.
    destruct E as (Hp & Hmq & Hmn & Hdu & Hsym & Hside & Hoq & Hon & Hbad & Hexp & _).
    apply is_none_false in Hp as (p & ->), Hmq as (q & Hq), Hmn as (n & Hn), Hdu as (d & Hd).
    rewrite Hd in *. rewrite Hq in Eq. rewrite Hn in En. cbn in Eq, En. subst oq on.
    apply orb_false_iff in Hbad as [H1%Z.ltb_ge H10%Z.ltb_ge].
    apply negb_false_iff in Hsym, Hside. apply String.eqb_eq in Hsym, Hside.
    exists p. split; [done|]. exists q, n, d. repeat (split; [done || lia|]).
    split; [|done]. apply Z.ltb_ge in H1, H10. rewrite H1, H10 in Hexp. apply Z.ltb_ge in Hexp. exact Hexp.
  - intros (p & -> & q & n & d & -> & Hq & -> & Hn & -> & Hd & Hnow & Hsym & Hside).
    cbn [exceeds_opt]. rewrite Hq, Hn. cbn [mbind option_bind]. f_equal.
    rewrite collect_nil_iff, !Forall_cons, Forall_nil. cbn [fst snd is_none default].
    rewrite Hsym, Hside, !String.eqb_refl.
    assert (((d <? 1)%Z || (10 <? d)%Z) = false) as -> by (apply orb_false_iff; split; apply Z.ltb_ge; lia).
    cbn. repeat (split; [done|]). split; [|done]. apply Z.ltb_ge. exact Hnow.
Qed.

Section authorization.
Context `{Database} `{Settings}.

Lemma authorization_Ok user account symbol side quantity price w auth w' :
  require_valid_testnet_order_window_authorization user account symbol side quantity price w =
    (Ok auth, w') →
  w' = w ∧ ∃ l p, l ∈ db_audit (w_tx w) ∧ aud_id l = auth_audit_log_id auth ∧
    approval_log user account l = true ∧ price = Some p ∧
    covers l symbol side quantity p (w_now w) ∧
    (w_now w ≤ auth_expires_at auth ≤ aud_created_at l + 10 * microseconds_per_minute)%Z ∧
    (∀ l', l' ∈ db_audit (w_tx w) → approval_log user account l' = true →
       (aud_created_at l' ≤ aud_created_at l)%Z).
Proof.
  unfold require_valid_testnet_order_window_authorization. intros E.
  apply bind_Ok_inv in E as (logs & w1 & El & E). injection El as <- <-.
  apply bind_Ok_inv in E as (now & w1 & [= <- <-] & E). cbn [tbl AuditLog_table] in E.
  destruct (latest _ _) as [l|] eqn:El; [|done].
  destruct (authorization_reasons l symbol side quantity price (w_now w)) as [[|]|] eqn:Er; try done.
  injection E as <- <-. split; [done|].
  apply authorization_reasons_nil in Er as (p & Hp & Hc).
  apply latest_Some in El as [Hin Hmax].
  apply list_elem_of_In, List.filter_In in Hin as [Hin Hlog].
  exists l, p. split; [by apply list_elem_of_In|]. split; [done|]. split; [done|]. split; [done|].
  split; [done|]. split.
  - destruct Hc as (q & n & d & _ & _ & _ & _ & Hd & Hrange & Hnow & _).
    cbn [auth_expires_at]. rewrite Hd. change (default 0%Z (Some d)) with d. unfold microseconds_per_minute in *. lia.
  - intros l' Hin' Hlog'. apply Hmax. apply list_elem_of_In, List.filter_In.
    split; [by apply list_elem_of_In | done].
Qed.

(** An order is authorized only by the latest recorded approval of the same user for
    the account, and only while that record covers it: the symbol and the side are
    the approved ones, quantity and notional are within the limits, and the window
    of at most ten minutes is still open. *)
Theorem authorization_sound user account symbol side quantity price w auth w' :
  require_valid_testnet_order_window_authorization user account symbol side quantity price w =
    (Ok auth, w') →
  w' = w ∧ ∃ l p, l ∈ db_audit (w_tx w) ∧ aud_id l = auth_audit_log_id auth ∧
    approval_log user account l = true ∧ price = Some p ∧
    covers l symbol side quantity p (w_now w) ∧
    (w_now w ≤ auth_expires_at auth ≤ aud_created_at l + 10 * microseconds_per_minute)%Z ∧
    (∀ l', l' ∈ db_audit (w_tx w) → approval_log user account l' = true →
       (aud_created_at l' ≤ aud_created_at l)%Z).
Proof. apply authorization_Ok. Qed.
End authorization.

(** ** An approval authorizes the order it was given for *)

Section roundtrip.
Context `{Database} `{Settings}.

Lemma int_of_small d : (1 ≤ d ≤ 10)%Z → _int_from_payload (VInt d) = Some d.
Proof.
  intros Hd. assert (d ∈ [1;2;3;4;5;6;7;8;9;10]%Z) as Hin.
  { rewrite !elem_of_cons. lia. }
  repeat (apply elem_of_cons in Hin as [->|Hin]; [vm_compute; reflexivity|]). by apply elem_of_nil in Hin.
Qed.

(** C24. Right after an approval is recorded, and for as long as it lasts, an order on the
    account for the approved symbol and side, within both limits and with a price, is
    authorized by that very record. *)
Theorem approval_roundtrip user role account symbol side max_quantity max_notional minutes ack w a w'
    later symbol' quantity price :
  w_new w = empty_db →
  (∀ l, l ∈ db_audit (w_tx w) → (aud_created_at l < w_now w)%Z) →
  record_testnet_order_window_approval user role account symbol side max_quantity max_notional minutes ack w
    = (Ok a, w') →
  (w_now w ≤ later ≤ w_now w + minutes * microseconds_per_minute)%Z →
  str_upper (str_strip symbol') = str_upper (str_strip symbol) →
  dec_leb quantity max_quantity = true → dec_leb (dec_mul quantity price) max_notional = true →
  require_valid_testnet_order_window_authorization user account symbol' side quantity (Some price)
    (set_now later w') =
  (Ok (Build_TestnetOrderWindowAuthorization (appr_audit_log_id a)
         (w_now w + minutes * microseconds_per_minute)), set_now later w').
Proof.
  intros Hn Hold E Hlater Hsym Hq Hnot. unfold record_testnet_order_window_approval in E.
  apply bind_Ok_inv in E as (r & w1 & [= <- <-] & E). cbn [tbl ExchangeAccount_table] in E.
  destruct (find_first _ (db_accounts (w_tx w))) as [acc|] eqn:Ea; [|done].
  apply bind_Ok_inv in E as (risk & w1 & [= <- <-] & E).
  apply bind_Ok_inv in E as (key & w1 & [= <- <-] & E).
  destruct (_approval_blocked_reasons _ _ _ _ _ _ _) as [|] eqn:Er; [|done].
  assert (1 ≤ minutes ≤ 10)%Z as Hmin.
  { unfold _approval_blocked_reasons in Er. rewrite collect_nil_iff, !Forall_cons in Er. cbn [fst] in Er.
    destruct Er as (_ & _ & _ & _ & _ & _ & _ & _ & _ & Hd & _).
    apply orb_false_iff in Hd as [H1%Z.ltb_ge H2%Z.ltb_ge]. lia. }
  apply bind_Ok_inv in E as (id & w1 & Eid & E). injection Eid as <- <-.
  apply bind_Ok_inv in E as (now & w1 & Enow & E). injection Enow as <- <-.
  apply bind_Ok_inv in E as ([] & w2 & Ec & E). injection E as <- <-.
  unfold add_commit in Ec. apply bind_Ok_inv in Ec as ([] & w3 & Eadd & Ec). injection Eadd as <-.
  apply find_first_Some in Ea as [_ Hid]. apply andb_true_iff in Hid as [Hid%String.eqb_eq _].
  set (l := Build_AuditLog _ _ _ _ _ _ _) in Ec.
  match type of Ec with commit ?w0 = (_, ?w1) =>
    pose proof (commit_only_Ok (R:=AuditLog) [l] w0 w1) as Hc end.
  destruct Hc as (rs & Hrs & _ & ->); [cbn; by rewrite Hn | done | done |].
  apply Forall2_cons_inv_l in Hrs as (l' & rs' & [= <-] & Hrs & ->).
  apply Forall2_nil_inv_l in Hrs as ->.
  unfold require_valid_testnet_order_window_authorization.
  rewrite run_bind. unfold db_scalars, gets. cbn [tbl AuditLog_table w_tx committed_world set_now
    db_audit set_audit set_next set_new set_tbl].
  assert (approval_log user account l = true) as Hl.
  { unfold approval_log. cbn. by rewrite !String.eqb_refl, Hid, bool_decide_eq_true_2. }
  rewrite List.filter_app. cbn [List.filter]. rewrite Hl. rewrite run_bind. unfold now_utc, gets.
  rewrite latest_snoc.
  2:{ intros y Hy. apply list_elem_of_In, List.filter_In in Hy as [Hy _]. apply Hold.
      by apply list_elem_of_In. }
  cbn [w_now set_now].
  rewrite (proj2 (authorization_reasons_nil l symbol' side quantity (Some price) later)).
  - assert (_int_from_payload (dict_get "duration_minutes" (aud_payload l)) = Some minutes) as ->
      by exact (int_of_small minutes Hmin). done.
  - exists price. split; [done|]. exists (PFin max_quantity), (PFin max_notional), minutes.
    split; [apply dec_str_parses|]. rewrite dec_leb_negb_ltb, negb_true_iff in Hq, Hnot.
    split; [cbn; unfold dec_gtb; by f_equal|]. split; [apply dec_str_parses|].
    split; [cbn; unfold dec_gtb; by f_equal|]. split; [by apply int_of_small|].
    split; [done|]. split; [cbn; lia|]. split; [by rewrite Hsym | done].
Qed.
End roundtrip.

Lemma approval_roundtrip_witness :
  ∃ a w', record_testnet_order_window_approval (H0:=closed_settings) "user-1" SUPER_ADMIN "acct-test"
            "btcusdt" BUY (d10 2) (d10 1000) 5 TESTNET_ORDER_WINDOW_APPROVAL_ACK closed_world = (Ok a, w') ∧
    require_valid_testnet_order_window_authorization "user-1" "acct-test" " BTCUSDT" BUY (d10 1)
      (Some (d10 500)) (set_now 1780000300000000 w') =
    (Ok (Build_TestnetOrderWindowAuthorization (appr_audit_log_id a) 1780000300000000),
     set_now 1780000300000000 w').
Proof.
  eexists _, _. split; [vm_compute; reflexivity|].
  eapply (approval_roundtrip (H0:=closed_settings) "user-1" SUPER_ADMIN "acct-test" "btcusdt" BUY (d10 2)
    (d10 1000) 5 TESTNET_ORDER_WINDOW_APPROVAL_ACK closed_world);
    [reflexivity | intros l Hl; by apply elem_of_nil in Hl | vm_compute; reflexivity
    | split; vm_compute; discriminate | vm_compute; reflexivity | vm_compute; reflexivity
    | vm_compute; reflexivity].
Defined.

Lemma authorization_sound_witness :
  ∃ a w' auth w2,
    record_testnet_order_window_approval (H0:=closed_settings) "user-1" SUPER_ADMIN "acct-test"
            "btcusdt" BUY (d10 2) (d10 1000) 5 TESTNET_ORDER_WINDOW_APPROVAL_ACK closed_world = (Ok a, w') ∧
    require_valid_testnet_order_window_authorization "user-1" "acct-test" "BTCUSDT" BUY (d10 1)
      (Some (d10 500)) w' = (Ok auth, w2) ∧ w2 = w'.
Proof.
  eexists _, _, _, _. split; [vm_compute; reflexivity|]. split; [vm_compute; reflexivity|].
  eapply (authorization_sound "user-1" "acct-test" "BTCUSDT" BUY (d10 1) (Some (d10 500))).
  vm_compute. reflexivity.
Defined.
