(* ===== verification/RateLimit.v ===== *)
(** Rate limits of outgoing testnet orders: the table of [exchanges/rate_limit.py]
    and the counters of [services/rate_limit_service.py].  The monotonic clock is
    read in microseconds.  The in-memory store is modelled as the code has it; the
    Redis server behind the other store is a parameter whose replies may depend on
    everything that happened before. *)
From S2P Require Import Prelude PyStr PyDecimal PyValue Models Session Tables Logic Alerts.
From Stdlib Require Import Ascii.

(** ** The configured limits *)

Inductive RateLimitScope := IP | ACCOUNT | USER_ID | CONNECTION | DYNAMIC.

#[export] Instance RateLimitScope_eq_dec : EqDecision RateLimitScope.
Proof. solve_decision. Defined.

Record RateLimitRule := {
  rl_name : string; rl_scope : RateLimitScope; rl_limit : option Z; rl_interval : option Z;
  rl_applies_to : list string }.

Record ExchangeRateLimitConfig := {
  rlc_retry_after_header : option string; rlc_usage_headers : list string;
  rlc_rules : list RateLimitRule }.

(** [EXCHANGE_RATE_LIMITS[exchange_name]]; [None] is the [KeyError]. *)
Definition get_exchange_rate_limit_config (e : ExchangeName) : option ExchangeRateLimitConfig :=
  match e with
  | BINANCE => Some
      {| rlc_retry_after_header := Some "Retry-After";
         rlc_usage_headers := ["X-MBX-USED-WEIGHT-*"; "X-MBX-ORDER-COUNT-*"];
         rlc_rules :=
           [Build_RateLimitRule "REQUEST_WEIGHT" IP None None ["REST"; "WebSocket API"];
            Build_RateLimitRule "RAW_REQUESTS" IP (Some 300000%Z) (Some 300%Z) ["REST"];
            Build_RateLimitRule "ORDERS" ACCOUNT None None ["REST"; "WebSocket API"]] |}
  | BYBIT => Some
      {| rlc_retry_after_header := None;
         rlc_usage_headers := ["X-Bapi-Limit"; "X-Bapi-Limit-Status"; "X-Bapi-Limit-Reset-Timestamp"];
         rlc_rules :=
           [Build_RateLimitRule "HTTP_IP" IP (Some 600%Z) (Some 5%Z) ["REST"];
            Build_RateLimitRule "WEBSOCKET_CONNECTIONS" IP (Some 500%Z) (Some 300%Z) ["WebSocket"];
            Build_RateLimitRule "MARKET_DATA_CONNECTIONS" IP (Some 1000%Z) None ["WebSocket market data"]] |}
  | OKX => Some
      {| rlc_retry_after_header := None; rlc_usage_headers := [];
         rlc_rules :=
           [Build_RateLimitRule "PUBLIC_REST" IP None None ["REST public"];
            Build_RateLimitRule "PRIVATE_REST" USER_ID None None ["REST private"];
            Build_RateLimitRule "ORDER_MANAGEMENT" USER_ID None None ["REST order"; "WebSocket order"]] |}
  | MOCK => None
  end.

(** [config.rule(name)]; [None] is the [KeyError]. *)
Definition config_rule (c : ExchangeRateLimitConfig) (name : string) : option RateLimitRule :=
  find_first (λ r, String.eqb (rl_name r) name) (rlc_rules c).

(** ** The rules of a testnet order *)

Record RuntimeRateLimitRule := {
  rr_name : string; rr_scope : RateLimitScope; rr_limit : Z; rr_interval_seconds : Z }.

Record RateLimitWindow := { win_count : Z; win_retry_after : Z }.

Definition account_safety_rule : RuntimeRateLimitRule :=
  Build_RuntimeRateLimitRule "TESTNET_ORDER_ACCOUNT_SAFETY" ACCOUNT 1 1.

Definition rest_rule (r : RateLimitRule) : option RuntimeRateLimitRule :=
  match rl_limit r, rl_interval r with
  | Some l, Some i =>
      if str_mem "REST" (rl_applies_to r)
      then Some (Build_RuntimeRateLimitRule (rl_name r) (rl_scope r) l i) else None
  | _, _ => None
  end.

(** [None] is the [KeyError] of an exchange without a configuration. *)
Definition _testnet_order_rules (e : ExchangeName) : option (list RuntimeRateLimitRule) :=
  config ← get_exchange_rate_limit_config e;
  Some (account_safety_rule :: omap rest_rule (rlc_rules config)).

Abbreviation rate_key := (string * string * string)%type.

Definition _rate_limit_key (rule : RuntimeRateLimitRule) (e : ExchangeName)
    (account path : string) : rate_key :=
  let scope_key := if bool_decide (rr_scope rule = IP) then "global" else account in
  (exchange_value e, rr_name rule, scope_key +:+ ":" +:+ path).

Definition _safe_alert_scope (s : RateLimitScope) : string :=
  match s with IP => "ip" | ACCOUNT => "account" | _ => "global" end.

(** ** The in-memory store *)

Record WindowState := { ws_started_at : Z; ws_count : Z }.
Abbreviation memory_store := (gmap (string * string * string) WindowState).

Definition second : Z := 1000000.

Definition _retry_after_seconds (now started_at interval : Z) : Z :=
  Z.max 1 (interval - (now - started_at) / second).

(** A window that is over, or that never was, starts again. *)
Definition _active_window (store : memory_store) (key : rate_key) (now interval : Z) : WindowState :=
  match store !! key with
  | Some w => if (interval * second <=? now - ws_started_at w)%Z then Build_WindowState now 0 else w
  | None => Build_WindowState now 0
  end.

Definition memory_acquire (store : memory_store) (key : rate_key) (interval now : Z) :
    RateLimitWindow * memory_store :=
  let w := _active_window store key now interval in
  let w' := Build_WindowState (ws_started_at w) (ws_count w + 1) in
  (Build_RateLimitWindow (ws_count w') (_retry_after_seconds now (ws_started_at w') interval),
   <[key := w']> store).

(** The loop over the rules: it stops at the first one that is exceeded, with the
    counters of the rules before it spent. *)
Fixpoint memory_acquire_rules (store : memory_store) (rules : list RuntimeRateLimitRule)
    (e : ExchangeName) (account path : string) (now : Z) :
    option (RuntimeRateLimitRule * Z) * memory_store :=
  match rules with
  | [] => (None, store)
  | rule :: rules' =>
      let '(w, store') := memory_acquire store (_rate_limit_key rule e account path)
                            (rr_interval_seconds rule) now in
      if (rr_limit rule <? win_count w)%Z then (Some (rule, win_retry_after w), store')
      else memory_acquire_rules store' rules' e account path now
  end.

(** [acquire_testnet_order] on the in-memory store: [Some] of the rule and the delay
    is the [RateLimitExceededError]. *)
Definition memory_acquire_testnet_order (store : memory_store) (e : ExchangeName)
    (account path : string) (now : Z) : option (option (RuntimeRateLimitRule * Z) * memory_store) :=
  rules ← _testnet_order_rules e;
  Some (memory_acquire_rules store rules e account path now).

(** ** The Redis store *)

Class Redis := {
  (** replies of the server; [None] is a [RedisError] *)
  redis_incr : list Event → string → option Z;
  redis_expire : list Event → string → Z → option bool;
  redis_ttl : list Event → string → option Z }.

Definition _escape_key_part (value : string) : string :=
  replace_char "/"%char "_" (replace_char ":"%char "_" value).

Definition _redis_key (prefix : string) (key : rate_key) : string :=
  let '(a, b, c) := key in
  str_join ":" [prefix; _escape_key_part a; _escape_key_part b; _escape_key_part c].

Definition REDIS_PREFIX : string := "trading:rate_limit".

Section redis.
Context `{Redis}.

Definition redis_command {A} (command key : string) (reply : list Event → option A) : M A :=
  r ← gets (λ w, reply (w_trace w));
  emit (EvRedis command key) ;;
  match r with Some a => mret a | None => raise RateLimitStoreUnavailableError end.

Definition redis_acquire (key : rate_key) (interval : Z) : M RateLimitWindow :=
  let k := _redis_key REDIS_PREFIX key in
  count ← redis_command "INCR" k (λ tr, redis_incr tr k);
  (if (count =? 1)%Z
   then redis_command "EXPIRE" k (λ tr, redis_expire tr k interval) ;; mret tt
   else mret tt) ;;
  ttl ← redis_command "TTL" k (λ tr, redis_ttl tr k);
  mret (Build_RateLimitWindow count (Z.max 1 (if (0 <? ttl)%Z then ttl else interval))).

Definition _notify_rate_limit_blocked (rt : option AlertRuntime) (e : ExchangeName)
    (rule : RuntimeRateLimitRule) (retry_after : Z) : M unit :=
  match rt with
  | None => mret tt
  | Some rt => notify_rate_limit rt (exchange_value e) (_safe_alert_scope (rr_scope rule)) "order" retry_after
  end.

Fixpoint acquire_rules (rt : option AlertRuntime) (e : ExchangeName) (account path : string)
    (rules : list RuntimeRateLimitRule) : M unit :=
  match rules with
  | [] => mret tt
  | rule :: rules' =>
      w ← redis_acquire (_rate_limit_key rule e account path) (rr_interval_seconds rule);
      if (rr_limit rule <? win_count w)%Z
      then _notify_rate_limit_blocked rt e rule (win_retry_after w) ;;
           raise (RateLimitExceededError (rr_name rule) (win_retry_after w))
      else acquire_rules rt e account path rules'
  end.

(** [RuntimeRateLimitService.acquire_testnet_order] with the Redis store. *)
Definition acquire_testnet_order (rt : option AlertRuntime) (e : ExchangeName)
    (account path : string) : M unit :=
  match _testnet_order_rules e with
  | None => raise (KeyError (exchange_value e))
  | Some rules => acquire_rules rt e account path rules
  end.
End redis.

(** ** Spacing of orders *)

(** A series of calls [(exchange, account, path, time)] and the accepted ones. *)
Fixpoint accepted_orders (store : memory_store) (calls : list (ExchangeName * string * string * Z)) :
    list (ExchangeName * string * string * Z) :=
  match calls with
  | [] => []
  | (e, account, path, now) :: calls' =>
      match memory_acquire_testnet_order store e account path now with
      | None => accepted_orders store calls'
      | Some (None, store') => (e, account, path, now) :: accepted_orders store' calls'
      | Some (Some _, store') => accepted_orders store' calls'
      end
  end.

Definition safety_key (e : ExchangeName) (account path : string) : rate_key :=
  _rate_limit_key account_safety_rule e account path.

(** Every window of a store has admitted or refused something. *)
Definition counted (store : memory_store) : Prop :=
  ∀ k w, store !! k = Some w → (1 ≤ ws_count w)%Z.

(** The account's window started at [t] or later. *)
Definition spent (store : memory_store) (key : rate_key) (t : Z) : Prop :=
  ∃ w, store !! key = Some w ∧ (t ≤ ws_started_at w)%Z.

Lemma memory_acquire_spent store key key' interval now t w store' :
  counted store → memory_acquire store key' interval now = (w, store') →
  (key = key' → interval = 1%Z) →
  counted store' ∧
  (key = key' → (win_count w ≤ 1)%Z → spent store' key now) ∧
  (spent store key t →
   spent store' key t ∧ (key = key' → (win_count w ≤ 1)%Z → (t + second ≤ now)%Z)).
Proof.
  unfold memory_acquire. intros Hok [= <- <-] Hint. unfold _active_window.
  assert (∀ w0, store !! key' = Some w0 → (1 ≤ ws_count w0)%Z) as Hok' by (intros; eapply Hok; eauto).
  split.
  { intros k w0. destruct (decide (k = key')) as [->|Hne].
    - rewrite lookup_insert_eq. intros [= <-]. destruct (store !! key') as [w1|] eqn:E; cbn; [|lia].
      specialize (Hok' w1 eq_refl). case_match; cbn; lia.
    - rewrite lookup_insert_ne by done. apply Hok. }
  split.
  { intros -> Hle. eexists. rewrite lookup_insert_eq. split; [reflexivity|].
    destruct (store !! key') as [w1|] eqn:E; cbn in *; [|lia].
    specialize (Hok' w1 eq_refl). case_match; cbn in *; lia. }
  intros (w0 & Hw & Ht). destruct (decide (key = key')) as [->|Hne].
  - rewrite Hw, (Hint eq_refl), Z.mul_1_l. specialize (Hok' w0 Hw). split.
    + eexists. rewrite lookup_insert_eq. split; [reflexivity|]. unfold second.
      destruct (Z.leb_spec 1000000 (now - ws_started_at w0)); cbn; lia.
    + intros _. cbn. destruct (Z.leb_spec second (now - ws_started_at w0)); cbn; lia.
  - split; [|done]. exists w0. by rewrite lookup_insert_ne.
Qed.

(** The rules an exchange adds have names of their own. *)
Lemma rest_rules_names e config r :
  get_exchange_rate_limit_config e = Some config → r ∈ omap rest_rule (rlc_rules config) →
  rr_name r ≠ rr_name account_safety_rule.
Proof.
  intros Hc Hr. destruct e; try done; injection Hc as <-; vm_compute in Hr;
    repeat (apply elem_of_cons in Hr as [->|Hr]; [done|]); by apply elem_of_nil in Hr.
Qed.

Lemma memory_acquire_rest store rules e account path now key t r store' :
  counted store → (∀ rule, rule ∈ rules → rr_name rule ≠ rr_name account_safety_rule) →
  key.1.2 = rr_name account_safety_rule →
  memory_acquire_rules store rules e account path now = (r, store') →
  counted store' ∧ (spent store key t → spent store' key t).
Proof.
  revert store. induction rules as [|rule rules IH]; intros store Hok Hn Hkey E; cbn [memory_acquire_rules] in E.
  - by injection E as _ <-.
  - destruct (memory_acquire store _ _ now) as [w store1] eqn:Ea.
    assert (key ≠ _rate_limit_key rule e account path) as Hne.
    { intros ->. apply (Hn rule); [by left | done]. }
    destruct (memory_acquire_spent store key _ _ _ t _ _ Hok Ea ltac:(done)) as (Hok1 & _ & Hsp).
    case_match.
    + injection E as _ <-. split; [done|]. intros H1. by apply Hsp.
    + destruct (IH store1 Hok1 ltac:(intros; apply Hn; by right) Hkey E) as [? Hsp'].
      split; [done|]. intros H1. apply Hsp'. by apply Hsp.
Qed.

(** One call: what is spent stays spent; an accepted call spends its own window, a
    second after any earlier one. *)
Lemma memory_order_spent store e account path now key t r store' :
  counted store → key.1.2 = rr_name account_safety_rule →
  memory_acquire_testnet_order store e account path now = Some (r, store') →
  counted store' ∧ (spent store key t → spent store' key t) ∧
  (r = None → key = safety_key e account path →
   spent store' key now ∧ (spent store key t → (t + second ≤ now)%Z)).
Proof.
  intros Hok Hkey. unfold memory_acquire_testnet_order, _testnet_order_rules.
  destruct (get_exchange_rate_limit_config e) as [config|] eqn:Ec; [|done]. cbn [mbind option_bind memory_acquire_rules].
  fold (safety_key e account path).
  change (rr_interval_seconds account_safety_rule) with 1%Z.
  change (rr_limit account_safety_rule) with 1%Z.
  destruct (memory_acquire store (safety_key e account path) 1 now) as [w store1] eqn:Ea.
  intros [= E].
  destruct (memory_acquire_spent store key _ _ _ t _ _ Hok Ea ltac:(done)) as (Hok1 & Hnow & Hsp).
  destruct (Z.ltb_spec 1 (win_count w)).
  { injection E as <- <-. split; [done|]. split; [|done]. intros Ht. by apply Hsp. }
  destruct (memory_acquire_rest _ _ _ _ _ _ key t _ _ Hok1
    (λ rule Hr, rest_rules_names e config rule Ec Hr) Hkey E) as [Hok2 Hrest].
  destruct (memory_acquire_rest _ _ _ _ _ _ key now _ _ Hok1
    (λ rule Hr, rest_rules_names e config rule Ec Hr) Hkey E) as [_ Hrest'].
  split; [done|]. split; [intros Ht; by apply Hrest, Hsp|].
  intros _ Hk. split; [by apply Hrest', Hnow|]. intros Ht. by apply Hsp.
Qed.

Definition same_window (a b : ExchangeName * string * string * Z) : Prop :=
  let '(e, account, path, _) := a in
  let '(e', account', path', _) := b in
  safety_key e account path = safety_key e' account' path'.

Lemma accepted_after store calls key t e account path now :
  counted store → key = safety_key e account path → spent store key t →
  (e, account, path, now) ∈ accepted_orders store calls → (t + second ≤ now)%Z.
Proof.
  revert store t. induction calls as [|[[[e' account'] path'] now'] calls IH]; intros store t Hok Hk Hsp;
    cbn; [by intros ?%elem_of_nil|].
  destruct (memory_acquire_testnet_order store e' account' path' now') as [[r store']|] eqn:E; [|by eauto].
  destruct (memory_order_spent _ _ _ _ _ key t _ _ Hok ltac:(by subst) E) as (Hok' & Hsp' & Hacc).
  destruct r as [r|]; [by eauto|].
  intros [[= -> -> -> ->]|Hin]%elem_of_cons; [by apply Hacc | by eauto].
Qed.

