(* ===== verification/HttpClient.v ===== *)
(** [exchanges/http_client.py]: signed requests to the exchanges.  The transport is
    the network: the reply of the exchange is a parameter that may depend on
    everything that happened before.  Text is ASCII; a reply's body is given as the
    value [json.loads] makes of it. *)
From S2P Require Import Prelude PyStr PyDecimal PyValue Json Models Hash Session Tables Logic Accounts.
From Stdlib Require Import Ascii.

(** ** Time texts *)

(** The civil date of a day since 1970-01-01, in the proleptic Gregorian calendar. *)
Definition civil_from_days (days : Z) : Z * Z * Z :=
  let z := (days + 719468)%Z in
  let era := (z / 146097)%Z in
  let doe := (z mod 146097)%Z in
  let yoe := ((doe - doe / 1460 + doe / 36524 - doe / 146096) / 365)%Z in
  let doy := (doe - (365 * yoe + yoe / 4 - yoe / 100))%Z in
  let mp := ((5 * doy + 2) / 153)%Z in
  let d := (doy - (153 * mp + 2) / 5 + 1)%Z in
  let m := (if mp <? 10 then mp + 3 else mp - 9)%Z in
  ((yoe + era * 400 + (if m <=? 2 then 1 else 0))%Z, m, d).

(** A number in at least [n] digits. *)
Definition pad_digits (n : nat) (z : Z) : string :=
  let s := str_of_Z z in str_repeat "0" (n - String.length s) +:+ s.

Definition iso_seconds (micros : Z) : string :=
  let secs := (micros / 1000000)%Z in
  let '(y, m, d) := civil_from_days (secs / 86400) in
  let t := (secs mod 86400)%Z in
  pad_digits 4 y +:+ "-" +:+ pad_digits 2 m +:+ "-" +:+ pad_digits 2 d +:+ "T" +:+
  pad_digits 2 (t / 3600) +:+ ":" +:+ pad_digits 2 (t / 60 mod 60) +:+ ":" +:+ pad_digits 2 (t mod 60).

(** [datetime.isoformat()] in UTC *)
Definition isoformat (micros : Z) : string :=
  let us := (micros mod 1000000)%Z in
  iso_seconds micros +:+ (if Z.eqb us 0 then "" else "." +:+ pad_digits 6 us) +:+ "+00:00".

Definition _default_timestamp_ms (now : Z) : Z := (now / 1000)%Z.
Definition _default_iso_timestamp (now : Z) : string :=
  iso_seconds now +:+ "." +:+ pad_digits 3 (now mod 1000000 / 1000) +:+ "Z".

Example iso_demo : _default_iso_timestamp 1780000000123456 = "2026-05-28T20:26:40.123Z".
Proof. vm_compute. reflexivity. Qed.

(** ** Signing *)

Definition _canonical_query (params : list (string * string)) : string :=
  urlencode (sort_by (λ a b, String.leb a.1 b.1) params).
Definition _json_body (body : option dict) : string := json_dumps (VDict (default [] body)).
Definition _hmac_sha256_hex (secret payload : string) : string :=
  hex (hmac_sha256 (bytes_of_str secret) (bytes_of_str payload)).
Definition _hmac_sha256_base64 (secret payload : string) : string :=
  b64encode (hmac_sha256 (bytes_of_str secret) (bytes_of_str payload)).

Inductive ExchangeSecurityType := PUBLIC | SIGNED | OKX_DEMO_SIGNED.

(** The client of one exchange; its recv window is the default. *)
Record SignedExchangeHttpClient := { hc_exchange : ExchangeName; hc_rest_base_url : string }.
Definition recv_window : string := "5000".

Fixpoint rstrip_slash (s : string) : string :=
  match s with
  | "" => ""
  | String c r =>
      match rstrip_slash r with
      | "" => if Ascii.eqb c "/" then "" else String c ""
      | r' => String c r'
      end
  end.

Definition make_client (e : ExchangeName) (url : string) : SignedExchangeHttpClient :=
  Build_SignedExchangeHttpClient e (rstrip_slash url).

Definition prepare_public_request (client : SignedExchangeHttpClient) (path : string)
    (params : list (string * string)) : PreparedExchangeRequest :=
  Build_PreparedExchangeRequest "GET" (hc_rest_base_url client +:+ path) path params [] None.

Definition _prepare_binance_request (client : SignedExchangeHttpClient) (now : Z)
    (method path : string) (c : ExchangeCredentials) (params : list (string * string)) :
    PreparedExchangeRequest :=
  let signed_params := dict_set "recvWindow" recv_window
                         (dict_set "timestamp" (str_of_Z (_default_timestamp_ms now)) params) in
  let query := _canonical_query signed_params in
  Build_PreparedExchangeRequest method (hc_rest_base_url client +:+ path) path
    (dict_set "signature" (_hmac_sha256_hex (cred_api_secret c) query) signed_params)
    [("X-MBX-APIKEY", cred_api_key c)] None.

(** [dict(body or {}) if method == "POST" else None] *)
Definition request_body_of (method : string) (body : option dict) : option dict :=
  if String.eqb method "POST" then Some (default [] body) else None.

Definition json_header (body : option dict) : list (string * string) :=
  match body with Some _ => [("Content-Type", "application/json")] | None => [] end.

Definition _prepare_bybit_request (client : SignedExchangeHttpClient) (now : Z)
    (method path : string) (c : ExchangeCredentials) (params : list (string * string))
    (body : option dict) : PreparedExchangeRequest :=
  let request_body := request_body_of method body in
  let timestamp := str_of_Z (_default_timestamp_ms now) in
  let payload_data := match request_body with
                      | Some _ => _json_body request_body
                      | None => _canonical_query params
                      end in
  let payload := timestamp +:+ cred_api_key c +:+ recv_window +:+ payload_data in
  Build_PreparedExchangeRequest method (hc_rest_base_url client +:+ path) path params
    ([("X-BAPI-API-KEY", cred_api_key c); ("X-BAPI-TIMESTAMP", timestamp);
      ("X-BAPI-RECV-WINDOW", recv_window);
      ("X-BAPI-SIGN", _hmac_sha256_hex (cred_api_secret c) payload)] ++ json_header request_body)
    request_body.

Definition _prepare_okx_request (client : SignedExchangeHttpClient) (now : Z)
    (method path : string) (c : ExchangeCredentials) (params : list (string * string))
    (body : option dict) (security_type : ExchangeSecurityType) : Outcome PreparedExchangeRequest :=
  match cred_passphrase c with
  | None => Raise (ValueError "OKX signed requests require an API passphrase")
  | Some passphrase =>
      let request_body := request_body_of method body in
      let timestamp := _default_iso_timestamp now in
      let query := _canonical_query params in
      let path_with_query := if String.eqb query "" then path else path +:+ "?" +:+ query in
      let body_payload := match request_body with Some _ => _json_body request_body | None => "" end in
      let signature_payload := timestamp +:+ method +:+ path_with_query +:+ body_payload in
      Ok (Build_PreparedExchangeRequest method (hc_rest_base_url client +:+ path) path params
            ([("OK-ACCESS-KEY", cred_api_key c);
              ("OK-ACCESS-SIGN", _hmac_sha256_base64 (cred_api_secret c) signature_payload);
              ("OK-ACCESS-TIMESTAMP", timestamp); ("OK-ACCESS-PASSPHRASE", passphrase)] ++
             json_header request_body ++
             match security_type with OKX_DEMO_SIGNED => [("x-simulated-trading", "1")] | _ => [] end)
            request_body)
  end.

Definition _prepare_private_request (client : SignedExchangeHttpClient) (now : Z)
    (method path : string) (c : ExchangeCredentials) (params : list (string * string))
    (body : option dict) (security_type : ExchangeSecurityType) : Outcome PreparedExchangeRequest :=
  match hc_exchange client with
  | BINANCE => Ok (_prepare_binance_request client now method path c params)
  | BYBIT => Ok (_prepare_bybit_request client now method path c params body)
  | OKX => _prepare_okx_request client now method path c params body security_type
  | MOCK => Raise (ValueError ("signed HTTP client is not supported for " +:+ exchange_value MOCK))
  end.

Definition prepare_private_request client now path c params sec :=
  _prepare_private_request client now "GET" path c params None sec.
Definition prepare_private_post_request client now path c params body sec :=
  _prepare_private_request client now "POST" path c params body sec.

(** ** Sending *)

(** What the exchange answers: a body ([None]: not JSON), an error status with its
    body, or nothing at all. *)
Inductive HttpReply :=
| HttpOk (payload : option pyval)
| HttpEmpty
| HttpStatus (code : Z) (body : option pyval)
| HttpTransportError.

Class Exchange := { exchange_reply : list Event → PreparedExchangeRequest → HttpReply }.

Definition _http_failure_type (status_code : Z) : string :=
  if Z.eqb status_code 401 || Z.eqb status_code 403 then "authentication_failed"
  else if Z.eqb status_code 429 then "rate_limited"
  else if (500 <=? status_code)%Z then "exchange_unavailable"
  else "request_rejected".

Definition _read_exchange_error_code (body : option pyval) : option string :=
  match body with
  | Some (VDict l) =>
      match dict_get "code" l with
      | VNone => None
      | v => let s := py_str v in if String.eqb s "" then None else Some (str_take 40 s)
      end
  | _ => None
  end.

(** [UrllibExchangeHttpTransport.request]: a body that is not JSON makes
    [json.loads] raise a [ValueError]. *)
Definition transport_request `{Exchange} (req : PreparedExchangeRequest) : M pyval :=
  reply ← gets (λ w, exchange_reply (w_trace w) req);
  committed ← gets w_committed;
  emit (EvHttp committed req) ;;
  match reply with
  | HttpOk (Some v) => mret v
  | HttpOk None => raise (ValueError "Expecting value")
  | HttpEmpty => mret (VDict [])
  | HttpStatus code body =>
      raise (ExchangeHttpRequestError (_http_failure_type code) (Some code) (_read_exchange_error_code body))
  | HttpTransportError => raise (ExchangeHttpRequestError "transport_error" None None)
  end.

Definition get_public `{Exchange} (client : SignedExchangeHttpClient) (path : string)
    (params : list (string * string)) : M pyval :=
  transport_request (prepare_public_request client path params).

Definition get_private `{Exchange} (client : SignedExchangeHttpClient) (path : string)
    (c : ExchangeCredentials) (params : list (string * string)) (sec : ExchangeSecurityType) : M pyval :=
  now ← now_utc;
  match prepare_private_request client now path c params sec with
  | Ok req => transport_request req
  | Raise e => raise e
  end.
