(* ===== verification/TestnetRequest.v ===== *)
(** [services/testnet_order_request.py], [services/testnet_http_client.py] and
    [services/testnet_order_execution.py]: an approved order becomes a signed request,
    passes the rate limit and is sent. *)
From S2P Require Import Prelude PyStr PyDecimal PyValue Models Session Tables Logic Alerts Accounts TestnetGate RateLimit HttpClient.
From Stdlib Require Import Ascii.

Record TestnetOrderRequestInput := {
  ord_exchange : ExchangeName; ord_symbol : string; ord_side : OrderSide; ord_type : OrderType;
  ord_quantity : dec; ord_client_order_id : string; ord_price : option dec }.

Definition _decimal_text (d : dec) : string := dec_format_f (dec_normalize d).
Definition _title_side (s : OrderSide) : string := match s with BUY => "Buy" | SELL => "Sell" end.
Definition _title_order_type (t : OrderType) : string :=
  match t with MARKET => "Market" | LIMIT => "Limit" end.

Definition _okx_symbol (symbol : string) : string :=
  let normalized := str_upper symbol in
  if str_contains "-" normalized then normalized
  else if endswith "USDT" normalized
  then str_take (String.length normalized - 4) normalized +:+ "-USDT"
  else normalized.

Definition _required_price (o : TestnetOrderRequestInput) : Outcome string :=
  match ord_price o with
  | None => Raise (ValueError "limit orders require price")
  | Some p => Ok (_decimal_text p)
  end.

(** [params], with [key] set to the price where the order is a limit order. *)
Definition with_limit_price {A} (o : TestnetOrderRequestInput) (params : list (string * A))
    (set_price : string → list (string * A) → list (string * A)) : Outcome (list (string * A)) :=
  match ord_type o with
  | MARKET => Ok params
  | LIMIT => match _required_price o with Ok p => Ok (set_price p params) | Raise e => Raise e end
  end.

Definition _binance_order_params (o : TestnetOrderRequestInput) : Outcome (list (string * string)) :=
  with_limit_price o
    [("symbol", str_upper (ord_symbol o)); ("side", side_value (ord_side o));
     ("type", order_type_value (ord_type o)); ("quantity", _decimal_text (ord_quantity o));
     ("newClientOrderId", ord_client_order_id o)]
    (λ p l, dict_set "price" p (dict_set "timeInForce" "GTC" l)).

Definition _bybit_order_body (o : TestnetOrderRequestInput) : Outcome dict :=
  with_limit_price o
    [("category", VStr "spot"); ("symbol", VStr (str_upper (ord_symbol o)));
     ("side", VStr (_title_side (ord_side o))); ("orderType", VStr (_title_order_type (ord_type o)));
     ("qty", VStr (_decimal_text (ord_quantity o))); ("orderLinkId", VStr (ord_client_order_id o))]
    (λ p l, dict_set "price" (VStr p) l).

Definition _okx_order_body (o : TestnetOrderRequestInput) : Outcome dict :=
  with_limit_price o
    [("instId", VStr (_okx_symbol (ord_symbol o))); ("tdMode", VStr "cash");
     ("side", VStr (str_lower (side_value (ord_side o))));
     ("ordType", VStr (str_lower (order_type_value (ord_type o))));
     ("sz", VStr (_decimal_text (ord_quantity o))); ("clOrdId", VStr (ord_client_order_id o))]
    (λ p l, dict_set "px" (VStr p) l).

Definition prepare_testnet_order_request (o : TestnetOrderRequestInput) (gate : TestnetOrderGateResult)
    (client : SignedExchangeHttpClient) (c : ExchangeCredentials) (now : Z) :
    Outcome PreparedExchangeRequest :=
  if negb (approved gate)
  then Raise (TestnetOrderRequestBlockedError
                "testnet order request preparation is blocked by the preflight gate")
  else match ord_exchange o with
       | BINANCE => outcome_bind (_binance_order_params o) (λ params,
           prepare_private_post_request client now "/api/v3/order" c params None SIGNED)
       | BYBIT => outcome_bind (_bybit_order_body o) (λ body,
           prepare_private_post_request client now "/v5/order/create" c [] (Some body) SIGNED)
       | OKX => outcome_bind (_okx_order_body o) (λ body,
           prepare_private_post_request client now "/api/v5/trade/order" c [] (Some body) OKX_DEMO_SIGNED)
       | MOCK => Raise (ValueError ("unsupported testnet order exchange: " +:+ exchange_value MOCK))
       end.

Definition create_testnet_signed_http_client (e : ExchangeName) : Outcome SignedExchangeHttpClient :=
  match get_testnet_endpoint_config e with
  | None => Raise (KeyError (exchange_value e))
  | Some cfg => Ok (make_client e (ep_rest_base_url cfg))
  end.

Record TestnetOrderExecutionResult := {
  txr_exchange : ExchangeName; txr_client_order_id : string; txr_request_method : string;
  txr_request_path : string; txr_exchange_response : pyval }.

Section execution.
Context `{Exchange} `{Redis}.

Definition execute_testnet_order (o : TestnetOrderRequestInput) (gate : TestnetOrderGateResult)
    (client : SignedExchangeHttpClient) (c : ExchangeCredentials) (exchange_account : string) :
    M TestnetOrderExecutionResult :=
  now ← now_utc;
  prepared ← lift (prepare_testnet_order_request o gate client c now);
  acquire_testnet_order None (ord_exchange o) exchange_account (req_path prepared) ;;
  response ← transport_request prepared;
  mret {| txr_exchange := ord_exchange o; txr_client_order_id := ord_client_order_id o;
          txr_request_method := req_method prepared; txr_request_path := req_path prepared;
          txr_exchange_response := response |}.
End execution.

(** ** What the request says *)

(** The quantity the prepared request of an exchange carries. *)
Definition request_quantity (e : ExchangeName) (req : PreparedExchangeRequest) : option string :=
  match e with
  | BINANCE => dict_lookup "quantity" (req_params req)
  | BYBIT => match dict_lookup "qty" (default [] (req_body req)) with Some (VStr s) => Some s | _ => None end
  | OKX => match dict_lookup "sz" (default [] (req_body req)) with Some (VStr s) => Some s | _ => None end
  | MOCK => None
  end.

Definition request_client_order_id (e : ExchangeName) (req : PreparedExchangeRequest) : option string :=
  match e with
  | BINANCE => dict_lookup "newClientOrderId" (req_params req)
  | BYBIT => match dict_lookup "orderLinkId" (default [] (req_body req)) with Some (VStr s) => Some s | _ => None end
  | OKX => match dict_lookup "clOrdId" (default [] (req_body req)) with Some (VStr s) => Some s | _ => None end
  | MOCK => None
  end.

(** The text of a quantity denotes the quantity, as long as it has at most the 28
    digits of the decimal context. *)
Lemma decimal_text_value d :
  (d_coeff d < prec_limit)%N → ∃ d', decimal_of_str (_decimal_text d) = Some (PFin d') ∧ dec_eq d' d.
Proof.
  intros Hd. destruct (format_f_parses (dec_normalize d)) as (d' & Hp & Heq).
  exists d'. split; [done|]. etrans; [exact Heq | by apply dec_normalize_value].
Qed.

Lemma with_limit_price_Ok {A} o (params l : list (string * A)) f :
  with_limit_price o params f = Ok l → l = params ∨ ∃ p, l = f p params.
Proof.
  unfold with_limit_price. destruct (ord_type o); [intros [= <-]; by left|].
  destruct (_required_price o); [|done]. intros [= <-]. right. eauto.
Qed.

Lemma prepared_order o gate c client now req :
  create_testnet_signed_http_client (ord_exchange o) = Ok client →
  (d_coeff (ord_quantity o) < prec_limit)%N →
  prepare_testnet_order_request o gate client c now = Ok req →
  approved gate = true ∧ req_method req = "POST" ∧
  (∃ cfg, get_testnet_endpoint_config (ord_exchange o) = Some cfg ∧
     req_url req = rstrip_slash (ep_rest_base_url cfg) +:+ req_path req ∧
     (ep_demo_header_required cfg = true → ("x-simulated-trading", "1") ∈ req_headers req)) ∧
  request_client_order_id (ord_exchange o) req = Some (ord_client_order_id o) ∧
  ∃ text q, request_quantity (ord_exchange o) req = Some text ∧
    decimal_of_str text = Some (PFin q) ∧ dec_eq q (ord_quantity o).
Proof.
  intros Hc Hq. unfold prepare_testnet_order_request. destruct (approved gate) eqn:Hg; [|done].
  cbn [negb]. destruct (decimal_text_value _ Hq) as (q & Hp & Heq).
  assert (∃ cfg, get_testnet_endpoint_config (ord_exchange o) = Some cfg ∧
            client = make_client (ord_exchange o) (ep_rest_base_url cfg)) as (cfg & Hcfg & ->).
  { unfold create_testnet_signed_http_client in Hc.
    destruct (get_testnet_endpoint_config (ord_exchange o)) as [cfg|]; [|done].
    injection Hc as <-. eauto. }
  intros E. split; [done|]. destruct (ord_exchange o) eqn:Ee; [| | |done].
  - destruct (_binance_order_params o) as [params|] eqn:Ep; [|done]. cbn in E. injection E as <-.
    split; [done|]. split; [exists cfg; split; [done|split; [done|by injection Hcfg as <-]]|].
    apply with_limit_price_Ok in Ep as [->|[p ->]];
      (split; [reflexivity | exists (_decimal_text (ord_quantity o)), q; done]).
  - destruct (_okx_order_body o) as [body|] eqn:Ep; [|done]. cbn [outcome_bind] in E.
    unfold prepare_private_post_request, _prepare_private_request, make_client in E. cbn [hc_exchange] in E.
    unfold _prepare_okx_request in E. destruct (cred_passphrase c) as [pass|]; [|done].
    injection E as <-. split; [done|]. split.
    { exists cfg. split; [done|]. split; [done|]. intros _. cbn [req_headers]. do 5 right. left. }
    apply with_limit_price_Ok in Ep as [->|[p ->]];
      (split; [reflexivity | exists (_decimal_text (ord_quantity o)), q; done]).
  - destruct (_bybit_order_body o) as [body|] eqn:Ep; [|done]. cbn in E. injection E as <-.
    split; [done|]. split; [exists cfg; split; [done|split; [done|by injection Hcfg as <-]]|].
    apply with_limit_price_Ok in Ep as [->|[p ->]];
      (split; [reflexivity | exists (_decimal_text (ord_quantity o)), q; done]).
Qed.


Definition demo_okx_order : TestnetOrderRequestInput :=
  Build_TestnetOrderRequestInput OKX "btcusdt" BUY LIMIT (Dec false 1500 (-3)) "order-1" (Some (Dec false 4 2)).
Definition demo_okx_client : SignedExchangeHttpClient := make_client OKX "https://www.okx.com".
Definition demo_okx_prepared : Outcome PreparedExchangeRequest :=
  Eval vm_compute in prepare_testnet_order_request demo_okx_order (Build_TestnetOrderGateResult [])
    demo_okx_client (Build_ExchangeCredentials "key" "secret" (Some "pass")) 0.

Lemma demo_okx_prepared_eq :
  prepare_testnet_order_request demo_okx_order (Build_TestnetOrderGateResult [])
    demo_okx_client (Build_ExchangeCredentials "key" "secret" (Some "pass")) 0 = demo_okx_prepared.
Proof. vm_compute. reflexivity. Qed.

