(* ===== verification/RiskEngine.v ===== *)
(** [services/risk_engine.py]: the per-account risk settings and the check every
    order passes before it leaves. *)
From S2P Require Import Prelude PyStr PyDecimal PyValue Models Session Tables Logic Alerts.

(** ** The check *)

Record RiskCheckResult := { rc_decision : RiskDecision; rc_reasons : list string }.

Definition risk_result_to_dict (r : RiskCheckResult) : dict :=
  [("decision", VStr (decision_value (rc_decision r))); ("reasons", VList (map VStr (rc_reasons r)))].

Record RiskOrderInput := {
  in_symbol : string; in_side : OrderSide; in_quantity : dec; in_price : option dec }.

(** [order.price or Decimal("1")]: a zero price counts as no price. *)
Definition price_or_one (p : option dec) : dec :=
  match p with Some d => if dec_is_zero d then dec1 else d | None => dec1 end.

Definition below (limit : option dec) (q : dec) : bool :=
  match limit with Some l => dec_ltb q l | None => false end.
Definition above (limit : option dec) (q : dec) : bool :=
  match limit with Some l => dec_gtb q l | None => false end.

Definition check_order_risk (account : ExchangeAccount) (settings : RiskSetting)
    (order : RiskOrderInput) (allow_non_simulation : bool) : RiskCheckResult :=
  let reasons := collect
    [(negb (bool_decide (acct_mode account = SIMULATION)) && negb allow_non_simulation,
      "only SIMULATION mode is enabled in V1");
     (negb (acct_trading_enabled account), "exchange account trading is disabled");
     (negb (risk_trading_enabled settings), "risk settings trading is disabled");
     (str_mem (in_symbol order) (risk_blocked_symbols settings), "symbol is blocked");
     (below (risk_min_order_quantity settings) (in_quantity order), "quantity is below minimum");
     (above (risk_max_order_quantity settings) (in_quantity order), "quantity is above maximum");
     (above (risk_max_single_order_notional settings)
        (dec_mul (in_quantity order) (price_or_one (in_price order))),
      "single order notional exceeds limit")] in
  {| rc_decision := match reasons with [] => PASSED | _ => RISK_REJECTED end; rc_reasons := reasons |}.

(** What the check promises: the order is one the settings allow. *)
Definition risk_allows (account : ExchangeAccount) (settings : RiskSetting)
    (order : RiskOrderInput) (allow_non_simulation : bool) : Prop :=
  (acct_mode account = SIMULATION ∨ allow_non_simulation = true) ∧
  acct_trading_enabled account = true ∧ risk_trading_enabled settings = true ∧
  ¬ (in_symbol order ∈ risk_blocked_symbols settings) ∧
  (∀ l, risk_min_order_quantity settings = Some l → dec_leb l (in_quantity order) = true) ∧
  (∀ l, risk_max_order_quantity settings = Some l → dec_leb (in_quantity order) l = true) ∧
  (∀ l, risk_max_single_order_notional settings = Some l →
     dec_leb (dec_mul (in_quantity order) (price_or_one (in_price order))) l = true).

Lemma above_false limit q : (above limit q = false) ↔ ∀ l, limit = Some l → dec_leb q l = true.
Proof.
  destruct limit as [l|]; simpl; [|naive_solver]. unfold dec_gtb.
  rewrite <- negb_true_iff, <- dec_leb_negb_ltb. naive_solver.
Qed.

Lemma below_false limit q : (below limit q = false) ↔ ∀ l, limit = Some l → dec_leb l q = true.
Proof.
  destruct limit as [l|]; simpl; [|naive_solver].
  rewrite <- negb_true_iff, <- dec_leb_negb_ltb. naive_solver.
Qed.

Lemma check_order_risk_iff account settings order allow :
  ((rc_decision (check_order_risk account settings order allow) = PASSED) ↔
     risk_allows account settings order allow) ∧
  ((rc_decision (check_order_risk account settings order allow) = PASSED) ↔
     rc_reasons (check_order_risk account settings order allow) = []).
Proof.
  unfold check_order_risk. cbn [rc_decision rc_reasons].
  match goal with |- context [match ?l with [] => _ | _ => _ end = PASSED] => set (reasons := l) end.
  assert ((match reasons with [] => PASSED | _ => RISK_REJECTED end = PASSED) ↔ reasons = []) as ->
    by (destruct reasons; done).
  split; [|done]. subst reasons. rewrite collect_nil_iff, !Forall_cons, Forall_nil. simpl.
  unfold risk_allows, str_mem. rewrite !above_false, below_false.
  rewrite andb_false_iff, !negb_false_iff, bool_decide_eq_true, bool_decide_eq_false.
  naive_solver.
Qed.


(** ** The settings *)

(** The keys of a partial update, in the order of the payload; [None] is an
    explicit [null]. *)
Inductive RiskSettingChange :=
| set_trading_enabled (v : option bool)
| set_max_single_order_notional (v : option dec)
| set_max_position_notional (v : option dec)
| set_max_leverage (v : option dec)
| set_min_order_quantity (v : option dec)
| set_max_order_quantity (v : option dec)
| set_blocked_symbols (v : option (list string)).

Definition with_risk (r : RiskSetting) (t : bool) (a b c d e : option dec) (l : list string) : RiskSetting :=
  Build_RiskSetting (risk_id r) (risk_user r) (risk_account r) t a b c d e l.

(** One [setattr]; the symbols are upper-cased, sorted and made unique. *)
Definition set_risk_attr (r : RiskSetting) (change : RiskSettingChange) : RiskSetting :=
  let '(Build_RiskSetting _ _ _ t a b c d e l) := r in
  match change with
  | set_trading_enabled v => with_risk r (default t v) a b c d e l
  | set_max_single_order_notional v => with_risk r t v b c d e l
  | set_max_position_notional v => with_risk r t a v c d e l
  | set_max_leverage v => with_risk r t a b v d e l
  | set_min_order_quantity v => with_risk r t a b c v e l
  | set_max_order_quantity v => with_risk r t a b c d v l
  | set_blocked_symbols v =>
      with_risk r t a b c d e (match v with Some s => sorted_set (map str_upper s) | None => l end)
  end.

(** [null] for a column that is NOT NULL makes the commit fail. *)
Definition violates_not_null (change : RiskSettingChange) : bool :=
  match change with set_trading_enabled None | set_blocked_symbols None => true | _ => false end.

Definition is_disabling (change : RiskSettingChange) : bool :=
  match change with set_trading_enabled (Some false) => true | _ => false end.

Definition _risk_trading_was_disabled (was_trading_enabled : bool) (data : list RiskSettingChange) : bool :=
  was_trading_enabled && existsb is_disabling data.

Section settings.
Context `{Database}.

Definition get_or_create_risk_settings (user exchange_account : string) : M RiskSetting :=
  r ← db_scalar (λ s, String.eqb (risk_user s) user && String.eqb (risk_account s) exchange_account);
  match r with
  | Some settings => mret settings
  | None =>
      id ← new_id;
      let settings := Build_RiskSetting id user exchange_account false None None None None None [] in
      add_commit settings ;;
      mret settings
  end.

Definition _notify_emergency_stop_enabled (alert_runtime : option AlertRuntime) : M unit :=
  match alert_runtime with
  | None => mret tt
  | Some rt => notify_emergency_stop_enabled rt "account"
  end.

Definition update_risk_settings (settings : RiskSetting) (data : list RiskSettingChange)
    (alert_runtime : option AlertRuntime) : M unit :=
  let was_trading_enabled := risk_trading_enabled settings in
  db_update (risk_id settings) (λ r, foldl set_risk_attr r data) ;;
  (if existsb violates_not_null data then raise IntegrityError else commit) ;;
  if _risk_trading_was_disabled was_trading_enabled data
  then _notify_emergency_stop_enabled alert_runtime
  else mret tt.
End settings.

(** The block list a change leaves behind is upper case, sorted and without
    duplicates, and blocks exactly the given symbols. *)
Lemma set_blocked_symbols_spec r l s :
  let r' := set_risk_attr r (set_blocked_symbols (Some l)) in
  NoDup (risk_blocked_symbols r') ∧
  Sorted (λ x y, String.leb x y = true) (risk_blocked_symbols r') ∧
  (s ∈ risk_blocked_symbols r' ↔ ∃ t, t ∈ l ∧ s = str_upper t).
Proof.
  destruct r. cbn. rewrite elem_of_sorted_set, list_elem_of_fmap.
  split; [apply NoDup_sorted_set|]. split; [apply sorted_set_sorted|]. naive_solver.
Qed.
