(* ===== verification/PositionEngine.v ===== *)
(** [services/position_engine.py]: the position of an account in a symbol, the
    order that moves it to a target, and the fill that moves it. *)
From S2P Require Import Prelude PyStr PyDecimal PyValue Models Session Tables Logic.

Record PositionDelta := {
  delta_symbol : string; delta_current : dec; delta_target : dec; delta_quantity : dec;
  delta_side : option OrderSide }.

Definition calculate_delta (symbol : string) (current_quantity target_quantity : dec) : PositionDelta :=
  let delta := dec_sub target_quantity current_quantity in
  let side := if dec_gtb delta dec0 then Some BUY
              else if dec_ltb delta dec0 then Some SELL else None in
  {| delta_symbol := symbol; delta_current := current_quantity; delta_target := target_quantity;
     delta_quantity := dec_abs delta; delta_side := side |}.

(** [position.quantity += quantity] or [-= quantity] *)
Definition filled_quantity (side : OrderSide) (position quantity : dec) : dec :=
  match side with BUY => dec_add position quantity | SELL => dec_sub position quantity end.

Definition pos_with_quantity (q : dec) (p : Position) : Position :=
  Build_Position (pos_id p) (pos_user p) (pos_account p) (pos_symbol p) q.

Definition is_position (user account symbol : string) (p : Position) : bool :=
  String.eqb (pos_user p) user && String.eqb (pos_account p) account && String.eqb (pos_symbol p) symbol.

Section positions.
Context `{Database}.

Definition get_or_create_position (user account symbol : string) : M Position :=
  r ← db_scalar (is_position user account symbol);
  match r with
  | Some position => mret position
  | None =>
      id ← new_id;
      add_commit (Build_Position id user account symbol dec0) ;;
      (* db.refresh(position) *)
      r' ← db_get id;
      match r' with Some position => mret position | None => raise (RuntimeError "row is gone") end
  end.

Definition apply_fill (user account symbol : string) (side : OrderSide) (quantity : dec) : M unit :=
  position ← get_or_create_position user account symbol;
  db_update (pos_id position) (λ p, pos_with_quantity (filled_quantity side (pos_quantity p) quantity) p) ;;
  commit.
End positions.

(** ** Reaching a target *)

(** The order the engine places for a target and the fill of that order, on
    quantities as the NUMERIC(28, 10) columns hold them, in units of 10^-10. *)
Definition order_side_of (signal_side : OrderSide) (d : PositionDelta) : OrderSide :=
  default signal_side (delta_side d).

Open Scope Z_scope.

Lemma canonical_scaled s z : scaled (- s) (canonical_numeric s z) = z.
Proof.
  unfold scaled, canonical_numeric, sval. cbn. rewrite Z.sub_diag. cbn.
  destruct (Z.ltb_spec z 0); lia.
Qed.

Lemma canonical_exp s z : d_exp (canonical_numeric s z) = - s.
Proof. done. Qed.

Lemma canonical_coeff s z : Z.of_N (d_coeff (canonical_numeric s z)) = Z.abs z.
Proof. cbn. lia. Qed.

(** The difference of two stored values is exact when it fits the context of the
    decimal module. *)
Lemma canonical_sub s a b :
  Z.abs (a - b) < 10 ^ 28 →
  d_exp (dec_sub (canonical_numeric s a) (canonical_numeric s b)) = - s ∧
  sval (dec_sub (canonical_numeric s a) (canonical_numeric s b)) = a - b.
Proof.
  intros Hab. pose proof (dec_sub_exact (canonical_numeric s a) (canonical_numeric s b)) as Hd.
  unfold common_exp in Hd. rewrite !canonical_exp, Z.min_id, !canonical_scaled in Hd. auto.
Qed.

(** Adding or subtracting a quantity of the same scale. *)
Lemma filled_exact s a side q :
  d_exp q = - s →
  let total := match side with BUY => a + sval q | SELL => a - sval q end in
  Z.abs total < 10 ^ 28 →
  d_exp (filled_quantity side (canonical_numeric s a) q) = - s ∧
  sval (filled_quantity side (canonical_numeric s a) q) = total.
Proof.
  intros Hq total Hlt.
  assert (scaled (- s) q = sval q) as Hs by (rewrite <- Hq; apply scaled_same_exp).
  assert (common_exp (canonical_numeric s a) q = - s) as Hc
    by (unfold common_exp; rewrite canonical_exp, Hq; lia).
  destruct side; cbn [filled_quantity];
    [pose proof (dec_add_exact (canonical_numeric s a) q) as H
    | pose proof (dec_sub_exact (canonical_numeric s a) q) as H];
    cbv zeta in H; rewrite Hc, Hs, canonical_scaled in H; auto.
Qed.

(** The quantity and the side of the order for a target. *)
Lemma calculate_delta_exact s symbol a b side :
  Z.abs (b - a) < 10 ^ 28 →
  let d := calculate_delta symbol (canonical_numeric s a) (canonical_numeric s b) in
  d_exp (delta_quantity d) = - s ∧ sval (delta_quantity d) = Z.abs (b - a) ∧
  (a < b → order_side_of side d = BUY) ∧ (b < a → order_side_of side d = SELL).
Proof.
  intros Hlt. destruct (canonical_sub s b a Hlt) as [He Hs].
  unfold calculate_delta, order_side_of. cbn [delta_quantity delta_side].
  set (d := dec_sub _ _) in *.
  assert (Z.of_N (d_coeff d) = Z.abs (b - a)) as Hc.
  { rewrite <- Hs. unfold sval. destruct (d_neg d); lia. }
  rewrite dec_abs_exact by (unfold prec_limit; lia).
  assert (scaled (Z.min (- s) 0) d = (b - a) * 10 ^ (- s - Z.min (- s) 0)) as Hsc
    by (unfold scaled; by rewrite Hs, He).
  assert (0 < 10 ^ (- s - Z.min (- s) 0)) by (apply Z.pow_pos_nonneg; lia).
  assert (dec_gtb d dec0 = (0 <? b - a)) as ->.
  { unfold dec_gtb. apply Bool.eq_true_iff_eq.
    rewrite (dec_ltb_spec (Z.min (- s) 0)), Z.ltb_lt, Hsc by (cbn; lia).
    change (scaled _ dec0) with 0. nia. }
  assert (dec_ltb d dec0 = (b - a <? 0)) as ->.
  { apply Bool.eq_true_iff_eq.
    rewrite (dec_ltb_spec (Z.min (- s) 0)), Z.ltb_lt, Hsc by (cbn; lia).
    change (scaled _ dec0) with 0. nia. }
  split; [done|]. split; [unfold sval; cbn; lia|].
  destruct (Z.ltb_spec 0 (b - a)), (Z.ltb_spec (b - a) 0); cbn; split; intros; lia || done.
Qed.

(** The fill of the order for a target gives exactly the target: no rounding on the
    way through the decimal context and the column. *)
Lemma target_fill_exact `{DatabaseLaws} symbol signal_side a b :
  Z.abs a < 10 ^ 28 → Z.abs b < 10 ^ 28 → Z.abs (b - a) < 10 ^ 28 →
  let current := canonical_numeric 10 a in
  let target := canonical_numeric 10 b in
  let d := calculate_delta symbol current target in
  numeric_column 28 10 (filled_quantity (order_side_of signal_side d) current (delta_quantity d)) =
    Some target.
Proof.
  intros Ha Hb Hab current target d.
  destruct (calculate_delta_exact 10 symbol a b signal_side Hab) as (Hqe & Hqs & Hbuy & Hsell).
  fold current target d in Hqe, Hqs, Hbuy, Hsell.
  set (side := order_side_of signal_side d) in *.
  assert ((match side with BUY => a + sval (delta_quantity d) | SELL => a - sval (delta_quantity d) end) = b)
    as Htotal.
  { rewrite Hqs. destruct (Z.lt_trichotomy a b) as [?|[?|?]];
      [rewrite Hbuy by done | | rewrite Hsell by done]; try destruct side; lia. }
  destruct (filled_exact 10 a side (delta_quantity d) Hqe) as [He Hs]; [lia|].
  rewrite numeric_column_fits; fold current in He, Hs; rewrite ?He; [|lia|].
  - f_equal. unfold target. f_equal. unfold scaled. rewrite He, Hs, Z.sub_diag. lia.
  - unfold scaled. rewrite He, Hs, Z.sub_diag. lia.
Qed.
Close Scope Z_scope.

(** ** What a fill does to the table *)

Section fill.
Context `{Database}.

(** The position a query finds, or the one it creates. *)
Lemma get_or_create_position_Ok user account symbol w p w' :
  db_positions (w_new w) = [] → unique_ids Position (w_tx w) →
  get_or_create_position user account symbol w = (Ok p, w') →
  unique_ids Position (w_tx w') ∧ p ∈ db_positions (w_tx w') ∧
  is_position user account symbol p = true ∧
  db_positions (w_new w') = [] ∧ w_trace w' = w_trace w ∧
  ((find_first (is_position user account symbol) (db_positions (w_tx w)) = Some p ∧ w' = w) ∨
   (find_first (is_position user account symbol) (db_positions (w_tx w)) = None ∧
    numeric_column 28 10 dec0 = Some (pos_quantity p) ∧
    db_positions (w_tx w') = db_positions (w_tx w) ++ [p] ∧ w_new w' = empty_db)).
Proof.
  intros Hnew Hu. unfold get_or_create_position. intros E.
  apply bind_Ok_inv in E as (r & w1 & [= <- <-] & E). cbn in E.
  destruct (find_first _ (db_positions (w_tx w))) as [p0|] eqn:Ef.
  { injection E as -> <-. apply find_first_Some in Ef as [Hin Hp].
    repeat (split; [done|]). by left. }
  apply bind_Ok_inv in E as (id & w1 & [= <- <-] & E).
  apply bind_Ok_inv in E as ([] & w2 & Ec & E).
  unfold add_commit in Ec. apply bind_Ok_inv in Ec as ([] & w3 & [= <-] & Ec).
  apply commit_Ok in Ec as (w4 & Ef' & ->).
  destruct (flush_flushed (R:=Position) _ _ Ef') as ((rs & Hrs & Ht) & Hn & Hu').
  match type of Ef' with flush ?x = _ => pose proof (flush_same_rest x) as (_ & _ & _ & Htr) end.
  rewrite Ef' in Htr. cbn in Htr, Hrs, Ht, Hn. rewrite Hnew in Hrs.
  apply Forall2_cons_inv_l in Hrs as (r & rs' & Hr & Hrs & ->).
  apply Forall2_nil_inv_l in Hrs as ->.
  unfold stored, row_store, Position_table, store_position in Hr. cbn in Hr.
  destruct (numeric_column 28 10 dec0) as [zero|] eqn:Ez; [|done]. injection Hr as <-.
  specialize (Hu' Hu).
  apply bind_Ok_inv in E as (r & w5 & [= <- <-] & E). cbn in E.
  match type of Ht with _ = _ ++ [?row] => assert (row ∈ db_positions (w_tx w4)) as Hin
    by (rewrite Ht, elem_of_app, list_elem_of_singleton; auto) end.
  pose proof (find_first_key pos_id _ _ Hu' Hin) as Hf. cbn in Hf. rewrite Hf in E.
  injection E as <- <-. cbn. split; [done|]. split; [done|]. split.
  { unfold is_position. cbn. by rewrite !String.eqb_refl. }
  repeat (split; [done|]). right. split; [done|]. split; [done|]. split; [done|].
  by eapply flush_Ok_empty.
Qed.

(** A successful fill moves exactly one row, found or created with quantity
    zero, and commits it together with everything that was pending. *)
Lemma apply_fill_Ok user account symbol side q w w' :
  db_positions (w_new w) = [] → unique_ids Position (w_tx w) →
  apply_fill user account symbol side q w = (Ok tt, w') →
  ∃ p w1 q', get_or_create_position user account symbol w = (Ok p, w1) ∧
    is_position user account symbol p = true ∧
    numeric_column 28 10 (filled_quantity side (pos_quantity p) q) = Some q' ∧
    db_positions (w_tx w') =
      update_where (λ x, String.eqb (pos_id x) (pos_id p)) (λ _, pos_with_quantity q' p)
        (db_positions (w_tx w1)) ∧
    w_committed w' = w_tx w' ∧ w_new w' = empty_db ∧ w_trace w' = w_trace w.
Proof.
  intros Hnew Hu E. unfold apply_fill in E. apply bind_Ok_inv in E as (p & w1 & Ep & E).
  destruct (get_or_create_position_Ok _ _ _ _ _ _ Hnew Hu Ep)
    as (Hu1 & Hin & His & Hn1 & Htr & _).
  apply bind_Ok_inv in E as ([] & w2 & (r & r' & Hr & Hst & ->)%db_update_Ok & E).
  cbn in Hr. rewrite (find_first_key pos_id _ p) in Hr by done. injection Hr as <-.
  unfold stored, row_store, Position_table, store_position in Hst. cbn in Hst.
  destruct (numeric_column 28 10 _) as [q'|] eqn:Eq; [|done]. injection Hst as <-.
  apply commit_Ok in E as (w3 & Ef & ->).
  destruct (flush_flushed (R:=Position) _ _ Ef) as ((rs & Hrs & Ht) & _).
  match type of Ef with flush ?x = _ => pose proof (flush_same_rest x) as (_ & _ & _ & Htr') end.
  rewrite Ef in Htr'. cbn in Hrs, Ht, Htr'. rewrite Hn1 in Hrs.
  apply Forall2_nil_inv_l in Hrs as ->. rewrite app_nil_r in Ht.
  exists p, w1, q'. split; [done|]. split; [done|]. split; [done|]. cbn. rewrite Ht, Htr', Htr.
  split; [done|]. split; [done|]. split; [|done]. by eapply flush_Ok_empty.
Qed.

(** A fill leaves every other table alone that has nothing pending. *)
Section others.
Context {R : Type} `{!Table R} `{!Flushed R} `{!Untouched Position (tbl (R:=R))}.

Lemma get_or_create_position_others user account symbol w p w' :
  tbl (R:=R) (w_new w) = [] → get_or_create_position user account symbol w = (Ok p, w') →
  tbl (R:=R) (w_tx w') = tbl (w_tx w) ∧ tbl (R:=R) (w_new w') = [].
Proof.
  intros Hn E. unfold get_or_create_position in E.
  apply bind_Ok_inv in E as (r & w1 & [= <- <-] & E).
  destruct (find_first _ _); [by injection E as _ <-|].
  apply bind_Ok_inv in E as (id & w1 & [= <- <-] & E).
  apply bind_Ok_inv in E as ([] & w2 & Ec & E).
  apply bind_Ok_inv in E as (r & w3 & [= <- <-] & E).
  assert (w' = w2) as -> by (destruct (find_first _ _); [by injection E | done]).
  unfold add_commit in Ec. apply bind_Ok_inv in Ec as ([] & w4 & Ea & Ec).
  pose proof (frames_add (R:=Position) (tbl (R:=R))) as Hadd.
  match type of Ea with db_add ?r ?w0 = _ => specialize (Hadd r w0) end.
  rewrite Ea in Hadd. destruct Hadd as (Ht & Hn' & _). cbn in Ht, Hn'.
  apply (commit_untouched (R:=R)) in Ec; [|by rewrite Hn'].
  destruct Ec as [-> ->]. by rewrite Ht.
Qed.

Lemma apply_fill_others user account symbol side q w w' :
  tbl (R:=R) (w_new w) = [] → apply_fill user account symbol side q w = (Ok tt, w') →
  tbl (R:=R) (w_tx w') = tbl (w_tx w).
Proof.
  intros Hn E. unfold apply_fill in E. apply bind_Ok_inv in E as (p & w1 & Ep & E).
  destruct (get_or_create_position_others _ _ _ _ _ _ Hn Ep) as [Ht1 Hn1].
  apply bind_Ok_inv in E as ([] & w2 & Eu & E).
  pose proof (frames_update (R:=Position) (tbl (R:=R))) as Hup.
  match type of Eu with db_update ?i ?f ?w0 = _ => specialize (Hup i f w0) end.
  rewrite Eu in Hup. destruct Hup as (Ht2 & Hn2 & _). cbn in Ht2, Hn2.
  apply (commit_untouched (R:=R)) in E; [|by rewrite Hn2]. destruct E as [-> _].
  by rewrite Ht2.
Qed.
End others.
End fill.
