(* ===== verification/EmergencyStop.v ===== *)
(** [services/emergency_stop.py] and the endpoints of
    [api/v1/admin_system_control.py] that call it: the global switch that blocks
    new orders and forces every trading flag off. *)
From S2P Require Import Prelude PyStr PyDecimal PyValue Models Session PgDatabase Tables Demo Logic Alerts.

Record EmergencyStopState := {
  st_enabled : bool; st_reason : option string; st_changed_by : option string; st_changed_at : Z }.

Definition _to_state (c : SystemControl) : EmergencyStopState :=
  {| st_enabled := ctl_emergency_stop c; st_reason := ctl_reason c;
     st_changed_by := ctl_changed_by c; st_changed_at := ctl_changed_at c |}.

Definition clean_reason (reason : string) : string := str_take 500 (str_join " " (split_ws reason)).

(** Attribute writes; [changed_at] is refreshed by the UPDATE they cause, if any. *)
Definition control_set (enabled : bool) (reason actor : string) (now : Z) (c : SystemControl) : SystemControl :=
  let same := Bool.eqb (ctl_emergency_stop c) enabled && bool_decide (ctl_reason c = Some reason) &&
              bool_decide (ctl_changed_by c = Some actor) in
  Build_SystemControl (ctl_id c) enabled (Some reason) (Some actor)
    (if same then ctl_changed_at c else now).

Definition account_trading_off (a : ExchangeAccount) : ExchangeAccount :=
  Build_ExchangeAccount (acct_id a) (acct_user a) (acct_exchange a) (acct_mode a) (acct_label a)
    false (acct_is_active a).

Definition risk_trading_off (r : RiskSetting) : RiskSetting :=
  Build_RiskSetting (risk_id r) (risk_user r) (risk_account r) false
    (risk_max_single_order_notional r) (risk_max_position_notional r) (risk_max_leverage r)
    (risk_min_order_quantity r) (risk_max_order_quantity r) (risk_blocked_symbols r).

Definition stop_action (enabled : bool) : string :=
  if enabled then "system.emergency_stop.activated" else "system.emergency_stop.deactivated".
Definition stop_severity (enabled : bool) : string := if enabled then "CRITICAL" else "WARNING".
Definition stop_payload (enabled changed : bool) (reason : string) : dict :=
  [("scope", VStr "global"); ("enabled", VBool enabled); ("reason", VStr reason);
   ("state_changed", VBool changed); ("trading_flags_forced_off", VBool enabled)].

Section stop.
Context `{Database}.

Definition get_emergency_stop_state : M EmergencyStopState :=
  control ← db_get (R:=SystemControl) GLOBAL_SYSTEM_CONTROL_ID;
  match control with
  | None => now ← now_utc; mret (Build_EmergencyStopState false None None now)
  | Some c => mret (_to_state c)
  end.

Definition assert_new_orders_allowed : M unit :=
  control ← db_get (R:=SystemControl) GLOBAL_SYSTEM_CONTROL_ID;
  match control with
  | Some c =>
      if ctl_emergency_stop c
      then raise (EmergencyStopEnabledError "global emergency stop is enabled")
      else mret tt
  | None => mret tt
  end.

(** [SELECT ... FOR UPDATE], or the row made on first use. *)
Definition lock_control : M SystemControl :=
  control ← db_scalar (R:=SystemControl) (λ c, String.eqb (ctl_id c) GLOBAL_SYSTEM_CONTROL_ID);
  match control with
  | Some c => mret c
  | None =>
      now ← now_utc;
      let c := Build_SystemControl GLOBAL_SYSTEM_CONTROL_ID false None None now in
      add_flush c ;;
      mret c
  end.

Definition force_flags_off (enabled : bool) : M unit :=
  if enabled
  then db_update_all account_trading_off ;; db_update_all risk_trading_off
  else mret tt.

Definition record_stop (actor action severity : string) (payload : dict) : M unit :=
  aid ← new_id;
  now ← now_utc;
  db_add (Build_AuditLog aid actor None action severity payload now) ;;
  eid ← new_id;
  db_add (Build_SystemEvent eid (Some actor) None action severity payload now).

Definition set_emergency_stop (enabled : bool) (actor : User) (reason : string) : M EmergencyStopState :=
  let clean := clean_reason reason in
  c ← lock_control;
  now ← now_utc;
  let changed := negb (Bool.eqb (ctl_emergency_stop c) enabled) in
  db_update (ctl_id c) (control_set enabled clean (user_id actor) now) ;;
  force_flags_off enabled ;;
  record_stop (user_id actor) (stop_action enabled) (stop_severity enabled)
    (stop_payload enabled changed clean) ;;
  commit ;;
  get_emergency_stop_state.

(** The endpoints. *)
Definition activate_emergency_stop (current_user : User) (reason : string) (rt : AlertRuntime) :
    M EmergencyStopState :=
  state ← set_emergency_stop true current_user reason;
  notify_emergency_stop_enabled rt "global" ;;
  mret state.

Definition deactivate_emergency_stop (current_user : User) (reason : string) : M EmergencyStopState :=
  if negb (bool_decide (user_role current_user = SUPER_ADMIN))
  then raise (HTTPException 403 (VStr "super admin privileges required") [])
  else set_emergency_stop false current_user reason.
End stop.

(** ** What activation guarantees *)

Definition stop_active (d : Db) : Prop :=
  ∃ c, find_first (λ c, String.eqb (ctl_id c) GLOBAL_SYSTEM_CONTROL_ID) (db_controls d) = Some c ∧
    ctl_emergency_stop c = true.

(** All trading flags of a database are off. *)
Definition flags_off (d : Db) : Prop :=
  Forall (λ a, acct_trading_enabled a = false) (db_accounts d) ∧
  Forall (λ r, risk_trading_enabled r = false) (db_risk d).

Section theorems.
Context `{Database}.

(** With the stop active the guard of the order paths raises, and does nothing
    else. *)
Lemma assert_new_orders_blocked w :
  stop_active (w_tx w) →
  assert_new_orders_allowed w =
    (Raise (EmergencyStopEnabledError "global emergency stop is enabled"), w).
Proof.
  intros (c & Hc & He). unfold assert_new_orders_allowed. rewrite run_bind. cbn.
  by rewrite Hc, He.
Qed.

Lemma assert_new_orders_pass w w' :
  assert_new_orders_allowed w = (Ok tt, w') → w' = w ∧ ¬ stop_active (w_tx w).
Proof.
  unfold assert_new_orders_allowed. rewrite run_bind. cbn. intros E.
  destruct (find_first _ _) as [c|] eqn:Ef.
  - destruct (ctl_emergency_stop c) eqn:Ec; [done|]. injection E as <-. split; [done|].
    intros (c' & Hc' & He'). congruence.
  - injection E as <-. split; [done|]. intros (c' & Hc' & _). congruence.
Qed.

Lemma lock_control_Ok w c w' :
  w_new w = empty_db → lock_control w = (Ok c, w') →
  w_new w' = empty_db ∧
  db_accounts (w_tx w') = db_accounts (w_tx w) ∧ db_risk (w_tx w') = db_risk (w_tx w) ∧
  ctl_id c = GLOBAL_SYSTEM_CONTROL_ID ∧ w_trace w' = w_trace w.
Proof.
  intros Hnew. unfold lock_control. rewrite run_bind. cbn. intros E.
  destruct (find_first _ _) as [c0|] eqn:Ef.
  - injection E as -> <-. apply find_first_Some in Ef as [_ Hid%String.eqb_eq]. done.
  - apply bind_Ok_inv in E as (now & w1 & [= <- <-] & E).
    unfold add_flush in E. apply bind_Ok_inv in E as ([] & w1 & E & [= <- <-]).
    apply bind_Ok_inv in E as ([] & w2 & [= <-] & E).
    pose proof (flush_Ok_empty _ _ E) as He.
    pose proof (flush_flushed (R:=ExchangeAccount) _ _ E) as Ha.
    pose proof (flush_flushed (R:=RiskSetting) _ _ E) as Hr.
    match type of E with flush ?x = _ => pose proof (flush_same_rest x) as (_ & _ & _ & Ht) end.
    rewrite E in Ht. rewrite Hnew in *. cbn in Ht.
    apply (flushed_rows _ _ []) in Ha; [|done|constructor].
    apply (flushed_rows _ _ []) in Hr; [|done|constructor]. cbn in Ha, Hr.
    rewrite app_nil_r in Ha, Hr. done.
Qed.

(** What [record_stop] and the final commit leave of the other tables. *)
Lemma record_commit_Ok actor action severity payload w w' :
  w_new w = empty_db →
  (record_stop actor action severity payload ;; commit) w = (Ok tt, w') →
  w_committed w' = w_tx w' ∧ w_new w' = empty_db ∧
  db_accounts (w_tx w') = db_accounts (w_tx w) ∧ db_risk (w_tx w') = db_risk (w_tx w) ∧
  db_controls (w_tx w') = db_controls (w_tx w).
Proof.
  intros Hnew E. apply bind_Ok_inv in E as ([] & w1 & Er & E).
  injection Er as <-. apply commit_Ok in E as (w2 & E & ->).
  pose proof (flush_Ok_empty _ _ E) as He.
  pose proof (flush_flushed (R:=ExchangeAccount) _ _ E) as Ha.
  pose proof (flush_flushed (R:=RiskSetting) _ _ E) as Hr.
  pose proof (flush_flushed (R:=SystemControl) _ _ E) as Hc.
  rewrite Hnew in *.
  apply (flushed_rows _ _ []) in Ha; [|done|constructor].
  apply (flushed_rows _ _ []) in Hr; [|done|constructor].
  apply (flushed_rows _ _ []) in Hc; [|done|constructor].
  cbn in Ha, Hr, Hc. rewrite app_nil_r in Ha, Hr, Hc. done.
Qed.

Lemma flags_off_forced accounts risks :
  Forall (λ a, acct_trading_enabled a = false) (map account_trading_off accounts) ∧
  Forall (λ r, risk_trading_enabled r = false) (map risk_trading_off risks).
Proof.
  split; apply Forall_forall; intros x (y & -> & _)%list_elem_of_fmap; done.
Qed.

(** C23. A successful activation is committed, blocks every new order and leaves no
    account and no risk setting with its trading flag on. *)
Theorem emergency_stop_activates actor reason w st w' :
  w_new w = empty_db →
  set_emergency_stop true actor reason w = (Ok st, w') →
  st_enabled st = true ∧ st_reason st = Some (clean_reason reason) ∧
  st_changed_by st = Some (user_id actor) ∧
  w_committed w' = w_tx w' ∧ stop_active (w_committed w') ∧ flags_off (w_committed w').
Proof.
  intros Hnew. unfold set_emergency_stop. intros E.
  apply bind_Ok_inv in E as (c & w1 & Hl & E).
  apply lock_control_Ok in Hl as (Hnew1 & _ & _ & Hid & _); [|done].
  apply bind_Ok_inv in E as (now & w2 & [= <- <-] & E).
  apply bind_Ok_inv in E as ([] & w2 & (c0 & c1 & Hc0 & [= <-] & ->)%db_update_Ok & E).
  apply bind_Ok_inv in E as ([] & w3 & [= <-] & E).
  rewrite <- run_seq_assoc in E.
  apply bind_Ok_inv in E as ([] & w4 & Er & E).
  apply record_commit_Ok in Er as (Hcm & Hnew4 & Ha & Hr & Hc); [|done].
  unfold get_emergency_stop_state in E. apply bind_Ok_inv in E as (r & w5 & [= <- <-] & E).
  cbn in Ha, Hr, Hc, Hc0, E.
  assert (find_first (λ c, String.eqb (ctl_id c) GLOBAL_SYSTEM_CONTROL_ID) (db_controls (w_tx w4)) =
    Some (control_set true (clean_reason reason) (user_id actor) (w_now w1) c0)) as Hfind.
  { rewrite Hc, <- Hid. rewrite find_first_update_found, Hc0; [done|].
    apply find_first_Some in Hc0 as [_ Heq]. done. }
  rewrite Hfind in E. injection E as <- <-.
  split; [done|]. split; [done|]. split; [done|]. split; [done|]. rewrite Hcm. split.
  - eexists. split; [exact Hfind | done].
  - unfold flags_off. rewrite Ha, Hr. apply flags_off_forced.
Qed.
End theorems.

Lemma emergency_stop_activates_witness :
  ∃ st w', set_emergency_stop true demo_user "  flash   crash " demo_world = (Ok st, w') ∧
    st_reason st = Some "flash crash" ∧ stop_active (w_committed w') ∧ flags_off (w_committed w').
Proof.
  eexists _, _. split; [vm_compute; reflexivity|]. split; [reflexivity|].
  eapply (emergency_stop_activates demo_user "  flash   crash " demo_world); [reflexivity|].
  vm_compute. reflexivity.
Defined.
