(* ===== verification/SignalEngine.v ===== *)
(** [services/signal_engine.py]: manual trading signals, with the validation their
    request schema ([schemas/trading.py]) does before. *)
From S2P Require Import Prelude PyStr PyDecimal PyValue Models Session Tables Logic.

Record ManualSignalCreate := {
  msc_symbol : string; msc_side : OrderSide; msc_order_type : OrderType; msc_price : option dec;
  msc_quantity : option dec; msc_target : option dec }.

Definition dec_positive (d : dec) : bool := dec_gtb d dec0.

(** [Field(min_length=1, max_length=40)], [Field(gt=0)], [Field(ge=0)] and
    [require_quantity_or_target] *)
Definition manual_signal_valid (p : ManualSignalCreate) : bool :=
  (1 <=? String.length (msc_symbol p)) && (String.length (msc_symbol p) <=? 40) &&
  match msc_quantity p with Some q => dec_positive q | None => true end &&
  match msc_target p with Some t => dec_geb t dec0 | None => true end &&
  match msc_quantity p, msc_target p with None, None => false | _, _ => true end.

Definition create_manual_signal `{Database} (user symbol : string) (side : OrderSide)
    (order_type : OrderType) (price quantity target_position_quantity : option dec) :
    M TradingSignal :=
  id ← new_id;
  add_commit (Build_TradingSignal id user MANUAL (str_upper symbol) side order_type price quantity
                target_position_quantity (Some [("source", VStr (source_value MANUAL))])) ;;
  r ← db_get id;
  match r with Some signal => mret signal | None => raise (RuntimeError "row is gone") end.

(** The endpoint of [api/v1/signals.py]; an invalid payload never reaches it. *)
Definition create_manual_trading_signal `{Database} (current_user : User) (p : ManualSignalCreate) :
    M TradingSignal :=
  if negb (manual_signal_valid p) then raise (HTTPException 422 VNone [])
  else create_manual_signal (user_id current_user) (msc_symbol p) (msc_side p) (msc_order_type p)
         (msc_price p) (msc_quantity p) (msc_target p).
