(* ===== verification/MockExchange.v ===== *)
(** [exchanges/mock.py]: the exchange of the simulation mode.  It fills every order
    at once; its orders are a dictionary from exchange order id to response. *)
From S2P Require Import Prelude PyStr PyDecimal PyValue Models.

Definition mock_orders := list (string * dict).

Definition mock_response (client_order_id symbol : string) (side : OrderSide) (order_type : OrderType)
    (quantity : dec) (price : option dec) : dict :=
  [("exchange_order_id", VStr ("mock-" +:+ client_order_id));
   ("client_order_id", VStr client_order_id); ("symbol", VStr symbol);
   ("side", VStr (side_value side)); ("order_type", VStr (order_type_value order_type));
   ("quantity", VStr (dec_str quantity));
   ("price", match price with Some p => VStr (dec_str p) | None => VNone end);
   ("status", VStr (status_value FILLED))].

Definition mock_place_order (orders : mock_orders) (client_order_id symbol : string)
    (side : OrderSide) (order_type : OrderType) (quantity : dec) (price : option dec) :
    dict * mock_orders :=
  let response := mock_response client_order_id symbol side order_type quantity price in
  (response, dict_set ("mock-" +:+ client_order_id) response orders).

(** [KeyError] for an unknown order. *)
Definition mock_cancel_order (orders : mock_orders) (exchange_order_id : string) :
    option (dict * mock_orders) :=
  match dict_lookup exchange_order_id orders with
  | None => None
  | Some order =>
      let order' := dict_set "status" (VStr (status_value CANCELLED)) order in
      Some (order', dict_set exchange_order_id order' orders)
  end.

Definition mock_get_order_status (orders : mock_orders) (exchange_order_id : string) : option dict :=
  dict_lookup exchange_order_id orders.

Definition mock_get_open_orders (orders : mock_orders) : list dict :=
  List.filter (λ o, negb (py_eq_str (dict_get "status" o) (status_value FILLED))) (map snd orders).

(** What was placed can be read back, and is never among the open orders. *)
Lemma mock_place_status orders c s side ty q p :
  let '(response, orders') := mock_place_order orders c s side ty q p in
  mock_get_order_status orders' ("mock-" +:+ c) = Some response ∧
  dict_get "exchange_order_id" response = VStr ("mock-" +:+ c).
Proof.
  cbn [mock_place_order]. unfold mock_get_order_status. split; [|done].
  by rewrite dict_lookup_set, String.eqb_refl.
Qed.
