(* ===== verification/OrderEngine.v ===== *)
(** [services/order_engine.py]: the execution of a signal on an account, from the
    emergency stop to the fill of the simulated exchange. *)
From S2P Require Import Prelude PyStr PyDecimal PyValue Models Session PgDatabase Tables Demo Logic OrderStateMachine ExecutionLog ExecutionRow Alerts RiskEngine PositionEngine EmergencyStop MockExchange.

Definition simulated_client_order_id (signal account : string) : string :=
  "sig-" +:+ str_take 8 signal +:+ "-acct-" +:+ str_take 8 account.

Section engine.
Context `{Database}.

Definition _get_owned_signal (user signal : string) : M TradingSignal :=
  r ← db_scalar (λ s, String.eqb (sig_id s) signal && String.eqb (sig_user s) user);
  match r with Some s => mret s | None => raise (ValueError "signal not found") end.

Definition _get_owned_account (user exchange_account : string) : M ExchangeAccount :=
  r ← db_scalar (λ a, String.eqb (acct_id a) exchange_account && String.eqb (acct_user a) user);
  match r with Some a => mret a | None => raise (ValueError "exchange account not found") end.

Definition _resolve_side_and_quantity (signal : TradingSignal) (account : ExchangeAccount) :
    M (OrderSide * dec) :=
  match sig_target signal with
  | None =>
      match sig_quantity signal with
      | None => raise (ValueError "signal quantity is required")
      | Some q => mret (sig_side signal, q)
      end
  | Some target =>
      position ← get_or_create_position (sig_user signal) (acct_id account) (sig_symbol signal);
      let delta := calculate_delta (sig_symbol signal) (pos_quantity position) target in
      mret (default (sig_side signal) (delta_side delta), delta_quantity delta)
  end.

Definition _notify_order_failure (alert_runtime : option AlertRuntime)
    (status : OrderExecutionStatus) (failure_type : string) : M unit :=
  match alert_runtime with
  | None => mret tt
  | Some rt => notify_order_failure rt (status_value status) failure_type
  end.

(** The execution row of a signal and its first log entry, committed. *)
Definition create_execution (user : string) (signal : TradingSignal) (account : ExchangeAccount)
    (side : OrderSide) (quantity : dec) : M string :=
  execution_id ← new_id;
  id ← new_id;
  add_flush
    (Build_OrderExecution id user (sig_id signal) execution_id (acct_id account)
       (exchange_value (acct_exchange account))
       (simulated_client_order_id (sig_id signal) (acct_id account)) None (sig_symbol signal) side
       (sig_order_type signal) (sig_price signal) quantity CREATED None None None) ;;
  record_initial_order_state id "execution_created" ;;
  commit ;;
  mret id.

(** The branch of a rejected or empty order. *)
Definition fail_execution (execution : string) (risk_result : RiskCheckResult)
    (alert_runtime : option AlertRuntime) : M unit :=
  let rejected := negb (bool_decide (rc_decision risk_result = PASSED)) in
  let text := str_join "; " (rc_reasons risk_result) in
  db_update execution (exe_with_error (if String.eqb text "" then "zero quantity order" else text)) ;;
  transition_order_execution execution FAILED
    (if rejected then "risk_rejected" else "zero_quantity") None ;;
  commit ;;
  _notify_order_failure alert_runtime FAILED (if rejected then "risk_rejected" else "unknown").

(** The branch of an accepted order: submit it to the simulated exchange and
    apply its fill. *)
Definition submit_and_fill (user : string) (signal : TradingSignal) (account : ExchangeAccount)
    (execution : string) (side : OrderSide) (quantity : dec) : M unit :=
  transition_order_execution execution RISK_PASSED "risk_passed" None ;;
  commit ;;
  transition_order_execution execution SUBMITTED "mock_order_submitted" None ;;
  commit ;;
  let client_order_id := simulated_client_order_id (sig_id signal) (acct_id account) in
  let '(response, _) := mock_place_order [] client_order_id (sig_symbol signal) side
                          (sig_order_type signal) quantity (sig_price signal) in
  emit (EvMockOrder response) ;;
  db_update execution (exe_with_response (Some (py_str (dict_get "exchange_order_id" response)))
                         (VDict response)) ;;
  transition_order_execution execution FILLED "mock_order_filled" None ;;
  apply_fill user (acct_id account) (sig_symbol signal) side quantity ;;
  commit.

(** What follows once no execution of the signal on the account exists. *)
Definition execute_new (user exchange_account : string) (signal : TradingSignal)
    (account : ExchangeAccount) (alert_runtime : option AlertRuntime) : M OrderExecution :=
  '(side, quantity) ← _resolve_side_and_quantity signal account;
  execution ← create_execution user signal account side quantity;
  risk_settings ← get_or_create_risk_settings user exchange_account;
  let risk_result := check_order_risk account risk_settings
      (Build_RiskOrderInput (sig_symbol signal) side quantity (sig_price signal)) false in
  db_update execution (exe_with_risk_result (risk_result_to_dict risk_result)) ;;
  (if negb (bool_decide (rc_decision risk_result = PASSED)) || dec_leb quantity dec0
   then fail_execution execution risk_result alert_runtime
   else submit_and_fill user signal account execution side quantity) ;;
  load_execution execution.

Definition execute_signal_for_account (user signal_id exchange_account : string)
    (alert_runtime : option AlertRuntime) : M OrderExecution :=
  assert_new_orders_allowed ;;
  signal ← _get_owned_signal user signal_id;
  account ← _get_owned_account user exchange_account;
  existing ← db_scalar (λ e, String.eqb (exe_signal e) (sig_id signal) &&
                             String.eqb (exe_account e) (acct_id account));
  match existing with
  | Some e => mret e
  | None => execute_new user exchange_account signal account alert_runtime
  end.

(** The endpoint of [api/v1/orders.py]. *)
Definition execute_signal (current_user : User) (signal exchange_account : string)
    (alert_runtime : AlertRuntime) : M OrderExecution :=
  try_except (execute_signal_for_account (user_id current_user) signal exchange_account
                (Some alert_runtime))
    (λ exn, match exn with
            | EmergencyStopEnabledError m => Some (raise (HTTPException 423 (VStr m) []))
            | ValueError m => Some (raise (HTTPException 404 (VStr m) []))
            | _ => None
            end).
End engine.

(** ** The steps of the engine *)

(** The tables the engine reads besides the executions and positions. *)
Definition engine_view (d : Db) := (db_signals d, db_accounts d, db_controls d).

Abbreviation working := (ExecutionRow.working engine_view).

Section working.
Context `{Database}.

Lemma create_execution_Ok user signal account side q w id w' :
  w_new w = empty_db → unique_ids OrderExecution (w_tx w) →
  create_execution user signal account side q w = (Ok id, w') →
  ∃ e, exe_id e = id ∧ exe_status e = CREATED ∧ exe_signal e = sig_id signal ∧
    exe_account e = acct_id account ∧ exe_side e = side ∧ exe_user e = user ∧
    working (engine_view (w_tx w)) (db_executions (w_tx w)) e (db_positions (w_tx w)) []
      (w_trace w) w'.
Proof.
  intros Hnew Hu E. unfold create_execution in E.
  apply bind_Ok_inv in E as (xid & w1 & [= <- <-] & E).
  apply bind_Ok_inv in E as (eid & w2 & [= <- <-] & E). rewrite <- run_seq_assoc in E.
  apply bind_Ok_inv in E as (t & w3 & Ec & E).
  match type of Ec with ((add_flush ?r ;; _) _) = _ => set (e := r) in Ec end.
  change (new_uuid (w_next (set_next (S (w_next w)) w))) with (exe_id e) in Ec, E.
  pose proof (λ Hn Hu, working_create (view:=engine_view) e _ t Hn Hu eq_refl eq_refl eq_refl eq_refl eq_refl eq_refl Ec) as Hc.
  destruct (Hc Hnew Hu) as (r & Hr & Hid & Hw & _).
  apply store_execution_fields in Hr as (p & q' & _ & ->).
  apply bind_Ok_inv in E as ([] & w7 & Ecm & E). injection E as <- <-.
  destruct (working_commit Hw Ecm) as [Hw7 _].
  eexists. split; [|split; [|split; [|split; [|split; [|split; [|exact Hw7]]]]]]; done.
Qed.

Lemma working_risk_settings {v es e ps tr w w'} user account settings :
  working v es e ps [] tr w →
  get_or_create_risk_settings user account w = (Ok settings, w') →
  working v es e ps [] tr w'.
Proof.
  intros Hw E. unfold get_or_create_risk_settings in E.
  apply bind_Ok_inv in E as (r & w1 & [= <- <-] & E).
  destruct (find_first _ _) as [s|]; [by injection E as _ <-|].
  apply bind_Ok_inv in E as (id & w1 & [= <- <-] & E).
  apply bind_Ok_inv in E as ([] & w2 & Ec & E). injection E as _ <-.
  unfold add_commit in Ec. apply bind_Ok_inv in Ec as ([] & w3 & Ea & Ec). injection Ea as <-.
  destruct Hw as [Hn Hr Hf Hp Hv Ht].
  match type of Ec with commit ?w0 = (_, ?w1) =>
    pose proof (commit_only_Ok (R:=RiskSetting) (db_risk (w_new w) ++ [Build_RiskSetting
      (new_uuid (w_next w)) user account false None None None None None []]) w0 w1) as Hc end.
  destruct Hc as (rs' & _ & _ & ->); [cbn; by rewrite Hn | done | done |].
  split; done.
Qed.

(** The branch of a rejected or empty order ends in [FAILED]; nothing reaches an
    exchange and no position moves. *)
Lemma fail_execution_Ok {v es e ps ts tr w w'} result rt :
  (∀ r, rt = Some r → AlertRuntimeLaws r) →
  working v es e ps ts tr w →
  fail_execution (exe_id e) result rt w = (Ok tt, w') →
  ∃ e' evs, working v es e' ps [] (tr ++ evs) w' ∧ w_committed w' = w_tx w' ∧
    exe_id e' = exe_id e ∧ exe_status e' = FAILED ∧ exe_error_message e' ≠ None ∧
    exe_risk_result e' = exe_risk_result e ∧ exe_signal e' = exe_signal e ∧
    exe_account e' = exe_account e ∧
    (∀ ev, ev ∈ evs → ∃ k f, ev = EvAlert k f).
Proof.
  intros Hrt Hw E. unfold fail_execution in E.
  apply bind_Ok_inv in E as ([] & w1 & Eu & E).
  destruct (working_update (exe_with_error _) (λ _, eq_refl) Hw Eu) as (e1 & Hst & Hw1).
  apply store_execution_fields in Hst as (p1 & q1 & _ & He1).
  assert (exe_id e1 = exe_id e) as Hid1 by (by rewrite He1). rewrite <- Hid1 in E.
  apply bind_Ok_inv in E as (t & w2 & Et & E).
  destruct (working_transition _ _ _ _ Hw1 Et) as (e2 & Hst2 & _ & Hw2).
  apply store_execution_fields in Hst2 as (p2 & q2 & _ & He2).
  apply bind_Ok_inv in E as ([] & w3 & Ec & E).
  destruct (working_commit Hw2 Ec) as [Hw3 Hcm].
  assert (∃ evs, (∀ ev, ev ∈ evs → ∃ k f, ev = EvAlert k f) ∧
    w' = mkWorld (w_committed w3) (w_tx w3) (w_new w3) (w_next w3) (w_now w3) (w_trace w3 ++ evs))
    as (evs & Hevs & ->).
  { unfold _notify_order_failure in E. destruct rt as [r|].
    - destruct (quiet_order_failure (AlertRuntimeLaws:=Hrt r eq_refl) (status_value FAILED)
        (if negb (bool_decide (rc_decision result = PASSED)) then "risk_rejected" else "unknown") w3)
        as (evs & Hevs & Eq). rewrite Eq in E. injection E as <-. eauto.
    - injection E as <-. exists []. split; [by intros ? ?%elem_of_nil|].
      rewrite app_nil_r. by destruct w3. }
  destruct Hw3 as [Hn Hr Hf Hp Hv Ht].
  exists e2, evs. split; [split; cbn; try done; by rewrite Ht|]. split; [done|].
  subst e2 e1. done.
Qed.

(** How a fill moves the positions: one row, found or created, to the stored
    value of the old quantity plus or minus the filled one. *)
Definition position_moved (user account symbol : string) (side : OrderSide) (q : dec)
    (before after : list Position) : Prop :=
  ∃ p q' base,
    is_position user account symbol p = true ∧
    (find_first (is_position user account symbol) before = Some p ∧ base = before ∨
     find_first (is_position user account symbol) before = None ∧ base = before ++ [p] ∧
     numeric_column 28 10 dec0 = Some (pos_quantity p)) ∧
    numeric_column 28 10 (filled_quantity side (pos_quantity p) q) = Some q' ∧
    after = update_where (λ x, String.eqb (pos_id x) (pos_id p)) (λ _, pos_with_quantity q' p) base.

(** The branch of an accepted order ends in [FILLED], with one order placed and
    one position moved by the quantity of the order. *)
Lemma submit_and_fill_Ok {v es e ps ts tr w w'} user signal account side q :
  working v es e ps ts tr w → unique_ids Position (w_tx w) →
  submit_and_fill user signal account (exe_id e) side q w = (Ok tt, w') →
  let response := mock_response (simulated_client_order_id (sig_id signal) (acct_id account))
                    (sig_symbol signal) side (sig_order_type signal) q (sig_price signal) in
  ∃ e' ps', working v es e' ps' [] (tr ++ [EvMockOrder response]) w' ∧ w_committed w' = w_tx w' ∧
    exe_id e' = exe_id e ∧ exe_status e' = FILLED ∧
    exe_exchange_response e' = Some (VDict response) ∧
    exe_risk_result e' = exe_risk_result e ∧ exe_signal e' = exe_signal e ∧
    exe_account e' = exe_account e ∧
    position_moved user (acct_id account) (sig_symbol signal) side q ps ps'.
Proof.
  intros Hw Hu E response. unfold submit_and_fill in E.
  apply bind_Ok_inv in E as (t1 & w1 & Et & E).
  destruct (working_transition _ _ _ _ Hw Et) as (e1 & Hst & _ & Hw1).
  apply store_execution_fields in Hst as (p1 & q1 & _ & He1).
  assert (exe_id e1 = exe_id e) as Hid1 by (by rewrite He1). rewrite <- Hid1 in E.
  apply bind_Ok_inv in E as ([] & w2 & Ec & E). destruct (working_commit Hw1 Ec) as [Hw2 _].
  apply bind_Ok_inv in E as (t2 & w3 & Et2 & E).
  destruct (working_transition _ _ _ _ Hw2 Et2) as (e2 & Hst2 & _ & Hw3).
  apply store_execution_fields in Hst2 as (p2 & q2 & _ & He2).
  assert (exe_id e2 = exe_id e1) as Hid2 by (by rewrite He2). rewrite <- Hid2 in E.
  apply bind_Ok_inv in E as ([] & w4 & Ec2 & E). destruct (working_commit Hw3 Ec2) as [Hw4 _].
  cbn [mock_place_order] in E. fold response in E.
  apply bind_Ok_inv in E as ([] & w5 & Ee & E). injection Ee as <-.
  assert (working v es e2 ps [] (tr ++ [EvMockOrder response]) (push_event (EvMockOrder response) w4))
    as Hw5 by (destruct Hw4; split; cbn; try done; congruence).
  apply bind_Ok_inv in E as ([] & w6 & Eu & E).
  destruct (working_update (exe_with_response _ _) (λ _, eq_refl) Hw5 Eu) as (e3 & Hst3 & Hw6).
  apply store_execution_fields in Hst3 as (p3 & q3 & _ & He3).
  assert (exe_id e3 = exe_id e2) as Hid3 by (by rewrite He3). rewrite <- Hid3 in E.
  apply bind_Ok_inv in E as (t3 & w7 & Et3 & E).
  destruct (working_transition _ _ _ _ Hw6 Et3) as (e4 & Hst4 & _ & Hw7).
  apply store_execution_fields in Hst4 as (p4 & q4 & _ & He4).
  apply bind_Ok_inv in E as ([] & w8 & Ef & E).
  destruct Hw7 as [Hn Hr Hf Hp Hv Ht].
  assert (unique_ids Position (w_tx w7)) as Hu7.
  { unfold unique_ids. cbn. rewrite Hp, <- (wk_positions _ _ _ _ _ _ _ _ Hw). exact Hu. }
  destruct (apply_fill_Ok _ _ _ _ _ _ _ ltac:(by rewrite Hn) Hu7 Ef)
    as (p & w71 & q' & Eg & His & Hq & Hps & _ & Hn8 & Ht8).
  apply commit_empty_Ok in E as ->; [|done].
  assert (engine_view (w_tx w8) = v ∧ db_executions (w_tx w8) = es ++ [e4]) as [Hv8 Hr8].
  { pose proof (apply_fill_others (R:=TradingSignal) _ _ _ _ _ _ _ ltac:(by rewrite Hn) Ef) as H1.
    pose proof (apply_fill_others (R:=ExchangeAccount) _ _ _ _ _ _ _ ltac:(by rewrite Hn) Ef) as H2.
    pose proof (apply_fill_others (R:=SystemControl) _ _ _ _ _ _ _ ltac:(by rewrite Hn) Ef) as H3.
    pose proof (apply_fill_others (R:=OrderExecution) _ _ _ _ _ _ _ ltac:(by rewrite Hn) Ef) as H4.
    cbn in H1, H2, H3, H4. unfold engine_view in *. by rewrite H1, H2, H3, H4. }
  exists e4, (db_positions (w_tx w8)). split.
  { split; cbn; try done. by rewrite Ht8. }
  split; [done|]. split; [by rewrite He4; cbn; rewrite Hid3, Hid2|].
  split; [by rewrite He4|]. split; [by rewrite He4, He3|].
  split; [by rewrite He4, He3, He2, He1|]. split; [by rewrite He4, He3, He2, He1|].
  split; [by rewrite He4, He3, He2, He1|].
  destruct (get_or_create_position_Ok _ _ _ _ _ _ ltac:(by rewrite Hn) Hu7 Eg)
    as (_ & _ & _ & _ & _ & [[Hfind ->]|(Hnone & Hz & Happ & _)]); rewrite Hp in *.
  - exists p, q', ps. split; [done|]. split; [by left|]. done.
  - exists p, q', (db_positions (w_tx w71)). split; [done|]. split; [by right|]. done.
Qed.

Lemma resolve_Ok signal account side q w w' :
  w_new w = empty_db → unique_ids Position (w_tx w) →
  _resolve_side_and_quantity signal account w = (Ok (side, q), w') →
  w_new w' = empty_db ∧ unique_ids Position (w_tx w') ∧ w_trace w' = w_trace w ∧
  engine_view (w_tx w') = engine_view (w_tx w) ∧
  db_executions (w_tx w') = db_executions (w_tx w).
Proof.
  intros Hn Hu E. unfold _resolve_side_and_quantity in E.
  destruct (sig_target signal) as [target|].
  - apply bind_Ok_inv in E as (p & w1 & Eg & E). injection E as _ _ <-.
    pose proof (get_or_create_position_others (R:=TradingSignal) _ _ _ _ _ _ ltac:(by rewrite Hn) Eg) as [H1 _].
    pose proof (get_or_create_position_others (R:=ExchangeAccount) _ _ _ _ _ _ ltac:(by rewrite Hn) Eg) as [H2 _].
    pose proof (get_or_create_position_others (R:=SystemControl) _ _ _ _ _ _ ltac:(by rewrite Hn) Eg) as [H3 _].
    pose proof (get_or_create_position_others (R:=OrderExecution) _ _ _ _ _ _ ltac:(by rewrite Hn) Eg) as [H4 _].
    destruct (get_or_create_position_Ok _ _ _ _ _ _ ltac:(by rewrite Hn) Hu Eg)
      as (Hu1 & _ & _ & _ & Ht & Hcase).
    cbn in H1, H2, H3, H4. unfold engine_view. rewrite H1, H2, H3, H4.
    split; [|done]. destruct Hcase as [[_ ->]|(_ & _ & _ & ?)]; done.
  - destruct (sig_quantity signal) as [q0|]; [|done]. injection E as _ _ <-. done.
Qed.

(** The whole of [execute_new]: what the call did, told from the stored state. *)
Definition executed (user : string) (signal : TradingSignal) (account : ExchangeAccount)
    (e : OrderExecution) (w w' : World) : Prop :=
  ∃ side q settings wr,
    let risk := check_order_risk account settings
        (Build_RiskOrderInput (sig_symbol signal) side q (sig_price signal)) false in
    _resolve_side_and_quantity signal account w = (Ok (side, q), wr) ∧
    exe_risk_result e = Some (risk_result_to_dict risk) ∧
    if bool_decide (rc_decision risk = PASSED) && dec_gtb q dec0 then
      let response := mock_response (simulated_client_order_id (sig_id signal) (acct_id account))
                        (sig_symbol signal) side (sig_order_type signal) q (sig_price signal) in
      exe_status e = FILLED ∧ exe_exchange_response e = Some (VDict response) ∧
      w_trace w' = w_trace w ++ [EvMockOrder response] ∧
      position_moved user (acct_id account) (sig_symbol signal) side q
        (db_positions (w_tx wr)) (db_positions (w_tx w'))
    else
      exe_status e = FAILED ∧ exe_error_message e ≠ None ∧
      db_positions (w_tx w') = db_positions (w_tx wr) ∧
      ∃ evs, w_trace w' = w_trace w ++ evs ∧ ∀ ev, ev ∈ evs → ∃ k f, ev = EvAlert k f.

Lemma execute_new_Ok user acct signal account rt w e w' :
  (∀ r, rt = Some r → AlertRuntimeLaws r) →
  w_new w = empty_db → unique_ids OrderExecution (w_tx w) → unique_ids Position (w_tx w) →
  execute_new user acct signal account rt w = (Ok e, w') →
  db_executions (w_tx w') = db_executions (w_tx w) ++ [e] ∧ engine_view (w_tx w') = engine_view (w_tx w) ∧
  exe_signal e = sig_id signal ∧ exe_account e = acct_id account ∧
  w_committed w' = w_tx w' ∧ w_new w' = empty_db ∧ executed user signal account e w w'.
Proof.
  intros Hrt Hn Hue Hup E. unfold execute_new in E.
  apply bind_Ok_inv in E as ([side q] & wr & Eres & E).
  destruct (resolve_Ok _ _ _ _ _ _ Hn Hup Eres) as (Hn1 & Hup1 & Ht1 & Hv1 & He1).
  apply bind_Ok_inv in E as (id & w1 & Ecr & E).
  destruct (create_execution_Ok _ _ _ _ _ _ _ _ Hn1 ltac:(by unfold unique_ids; cbn; rewrite He1) Ecr)
    as (e1 & Hid1 & _ & Hsig1 & Hacc1 & _ & _ & Hw1). subst id.
  apply bind_Ok_inv in E as (settings & w2 & Ers & E).
  pose proof (working_risk_settings _ _ _ Hw1 Ers) as Hw2.
  apply bind_Ok_inv in E as ([] & w3 & Eu & E).
  destruct (working_update (exe_with_risk_result _) (λ _, eq_refl) Hw2 Eu) as (e2 & Hst & Hw3).
  apply store_execution_fields in Hst as (p2 & q2 & _ & He2).
  assert (exe_id e2 = exe_id e1) as Hid2 by (by rewrite He2). rewrite <- Hid2 in E.
  apply bind_Ok_inv in E as ([] & w4 & Eb & E).
  assert (dec_leb q dec0 = negb (dec_gtb q dec0)) as Hq by apply dec_leb_negb_ltb.
  rewrite Hq in Eb. set (risk := check_order_risk _ _ _ _) in *.
  set (ok := bool_decide (rc_decision risk = PASSED) && dec_gtb q dec0).
  assert (negb (bool_decide (rc_decision risk = PASSED)) || negb (dec_gtb q dec0) = negb ok) as Hok
    by (subst ok; by rewrite negb_andb).
  rewrite Hok in Eb.
  assert (unique_ids Position (w_tx w3)) as Hup3.
  { unfold unique_ids in *. cbn in *. by rewrite (wk_positions _ _ _ _ _ _ _ _ Hw3). }
  destruct ok eqn:Eok; cbn [negb] in Eb.
  - destruct (submit_and_fill_Ok _ _ _ _ _ Hw3 Hup3 Eb)
      as (e' & ps' & Hw4 & Hcm & Hid & Hst & Hresp & Hrr & Hsg & Hac & Hmv).
    rewrite <- Hid, (working_load Hw4) in E. injection E as <- <-.
    destruct Hw4 as [Hn4 Hr4 Hf4 Hp4 Hv4 Ht4]. rewrite Hr4, He1, Hv4, Hv1.
    repeat (split; [first [done | by rewrite Hsg, He2 | by rewrite Hac, He2]|]).
    exists side, q, settings, wr. fold risk. split; [done|]. split; [by rewrite Hrr, He2|].
    fold ok. rewrite Eok. split; [done|]. split; [done|]. rewrite Ht4, Ht1. split; [done|].
    by rewrite Hp4.
  - destruct (fail_execution_Ok _ _ Hrt Hw3 Eb)
      as (e' & evs & Hw4 & Hcm & Hid & Hst & Herr & Hrr & Hsg & Hac & Hevs).
    rewrite <- Hid, (working_load Hw4) in E. injection E as <- <-.
    destruct Hw4 as [Hn4 Hr4 Hf4 Hp4 Hv4 Ht4]. rewrite Hr4, He1, Hv4, Hv1.
    repeat (split; [first [done | by rewrite Hsg, He2 | by rewrite Hac, He2]|]).
    exists side, q, settings, wr. fold risk. split; [done|]. split; [by rewrite Hrr, He2|].
    fold ok. rewrite Eok. split; [done|]. split; [done|]. split; [done|].
    exists evs. by rewrite Ht4, Ht1.
Qed.
End working.

(** ** The guarantees of the engine *)

Section guarantees.
Context `{DatabaseLaws}.

Lemma owned_signal_Ok user sid w s w' :
  _get_owned_signal user sid w = (Ok s, w') →
  w' = w ∧ find_first (λ s, String.eqb (sig_id s) sid && String.eqb (sig_user s) user)
             (db_signals (w_tx w)) = Some s ∧ sig_id s = sid ∧ sig_user s = user.
Proof.
  unfold _get_owned_signal. rewrite run_bind. cbn. destruct (find_first _ _) as [s0|] eqn:Ef; [|done].
  intros [= -> ->]. pose proof (find_first_Some _ _ _ Ef) as [_ Hp]. cbn in Hp.
  apply andb_true_iff in Hp as [?%String.eqb_eq ?%String.eqb_eq]. done.
Qed.

Lemma owned_account_Ok user aid w a w' :
  _get_owned_account user aid w = (Ok a, w') →
  w' = w ∧ find_first (λ a, String.eqb (acct_id a) aid && String.eqb (acct_user a) user)
             (db_accounts (w_tx w)) = Some a ∧ acct_id a = aid ∧ acct_user a = user.
Proof.
  unfold _get_owned_account. rewrite run_bind. cbn. destruct (find_first _ _) as [s0|] eqn:Ef; [|done].
  intros [= -> ->]. pose proof (find_first_Some _ _ _ Ef) as [_ Hp]. cbn in Hp.
  apply andb_true_iff in Hp as [?%String.eqb_eq ?%String.eqb_eq]. done.
Qed.

(** A successful call either found the execution or made it. *)
Lemma execute_signal_cases user sid aid rt w e w' :
  execute_signal_for_account user sid aid rt w = (Ok e, w') →
  ∃ signal account,
    assert_new_orders_allowed w = (Ok tt, w) ∧
    _get_owned_signal user sid w = (Ok signal, w) ∧ _get_owned_account user aid w = (Ok account, w) ∧
    ((find_first (λ x, String.eqb (exe_signal x) (sig_id signal) && String.eqb (exe_account x) (acct_id account))
        (db_executions (w_tx w)) = Some e ∧ w' = w) ∨
     (find_first (λ x, String.eqb (exe_signal x) (sig_id signal) && String.eqb (exe_account x) (acct_id account))
        (db_executions (w_tx w)) = None ∧ execute_new user aid signal account rt w = (Ok e, w'))).
Proof.
  unfold execute_signal_for_account. intros E.
  apply bind_Ok_inv in E as ([] & w1 & Ea & E).
  pose proof Ea as Ea'. apply assert_new_orders_pass in Ea' as [-> _].
  apply bind_Ok_inv in E as (signal & w1 & Es & E). pose proof Es as Es'.
  apply owned_signal_Ok in Es' as [-> _].
  apply bind_Ok_inv in E as (account & w1 & Ec & E). pose proof Ec as Ec'.
  apply owned_account_Ok in Ec' as [-> _].
  apply bind_Ok_inv in E as (r & w1 & [= <- <-] & E).
  exists signal, account. split; [done|]. split; [done|]. split; [done|].
  destruct (find_first _ _) as [e0|] eqn:Ef; [|by right].
  injection E as -> <-. by left.
Qed.

(** C16. Executing the same signal on the same account again returns the same
    execution and changes nothing: no row, no order, no position, no alert. *)
Theorem execute_signal_idempotent user sid aid rt rt' w e w' :
  (∀ r, rt = Some r → AlertRuntimeLaws r) →
  w_new w = empty_db → unique_ids OrderExecution (w_tx w) → unique_ids Position (w_tx w) →
  execute_signal_for_account user sid aid rt w = (Ok e, w') →
  execute_signal_for_account user sid aid rt' w' = (Ok e, w').
Proof.
  intros Hrt Hn Hue Hup E.
  destruct (execute_signal_cases _ _ _ _ _ _ _ E) as (signal & account & Ea & Es & Ec & Hcase).
  assert (∀ w1, engine_view (w_tx w1) = engine_view (w_tx w) →
    find_first (λ x, String.eqb (exe_signal x) (sig_id signal) && String.eqb (exe_account x) (acct_id account))
      (db_executions (w_tx w1)) = Some e →
    execute_signal_for_account user sid aid rt' w1 = (Ok e, w1)) as Hreplay.
  { intros w1 Hv Hf. injection Hv as Hv1 Hv2 Hv3. unfold execute_signal_for_account.
    rewrite (run_bind_Ok assert_new_orders_allowed _ w1 tt w1).
    2:{ unfold assert_new_orders_allowed in *. rewrite run_bind in *. cbn in *. rewrite Hv3.
        destruct (find_first _ _) as [c|]; [destruct (ctl_emergency_stop c)|]; done. }
    rewrite (run_bind_Ok (_get_owned_signal user sid) _ w1 signal w1).
    2:{ unfold _get_owned_signal in *. rewrite run_bind in *. cbn in *. rewrite Hv1.
        destruct (find_first _ _); [by injection Es as ->|done]. }
    rewrite (run_bind_Ok (_get_owned_account user aid) _ w1 account w1).
    2:{ unfold _get_owned_account in *. rewrite run_bind in *. cbn in *. rewrite Hv2.
        destruct (find_first _ _); [by injection Ec as ->|done]. }
    rewrite run_bind. cbn. by rewrite Hf. }
  destruct Hcase as [[Hf ->]|[Hf Enew]]; [by apply Hreplay|].
  destruct (execute_new_Ok _ _ _ _ _ _ _ _ Hrt Hn Hue Hup Enew)
    as (Hrows & Hv & Hsig & Hacc & _). apply Hreplay; [done|].
  rewrite Hrows, find_first_app, Hf. unfold find_first. by rewrite Hsig, Hacc, !String.eqb_refl.
Qed.

(** C15. What a first call does.  It adds exactly one execution and commits it.  An
    order the risk settings allow, with a positive quantity, is [FILLED]: one
    order is placed on the simulated exchange and one position moves by its
    quantity.  Any other is [FAILED]: nothing is placed and no position moves. *)
Theorem execute_signal_outcome user sid aid rt w e w' :
  (∀ r, rt = Some r → AlertRuntimeLaws r) →
  w_new w = empty_db → unique_ids OrderExecution (w_tx w) → unique_ids Position (w_tx w) →
  ¬ (∃ x, x ∈ db_executions (w_tx w) ∧ exe_signal x = sid ∧ exe_account x = aid) →
  execute_signal_for_account user sid aid rt w = (Ok e, w') →
  ¬ stop_active (w_tx w) ∧
  db_executions (w_tx w') = db_executions (w_tx w) ++ [e] ∧ w_committed w' = w_tx w' ∧
  ∃ signal account, signal ∈ db_signals (w_tx w) ∧ sig_id signal = sid ∧ sig_user signal = user ∧
    account ∈ db_accounts (w_tx w) ∧ acct_id account = aid ∧ acct_user account = user ∧
    executed user signal account e w w'.
Proof.
  intros Hrt Hn Hue Hup Hnone E.
  destruct (execute_signal_cases _ _ _ _ _ _ _ E) as (signal & account & Ea & Es & Ec & Hcase).
  apply owned_signal_Ok in Es as (_ & Hfs & Hsid & Hsu).
  apply owned_account_Ok in Ec as (_ & Hfa & Haid & Hau).
  destruct Hcase as [[Hf _]|[Hf Enew]].
  - exfalso. apply find_first_Some in Hf as [Hin Hp]. cbn in Hp.
    apply andb_true_iff in Hp as [Hp1%String.eqb_eq Hp2%String.eqb_eq].
    apply Hnone. exists e. split; [done|]. by rewrite Hp1, Hp2.
  - destruct (execute_new_Ok _ _ _ _ _ _ _ _ Hrt Hn Hue Hup Enew)
      as (Hrows & _ & _ & _ & Hcm & _ & Hex).
    split; [by apply assert_new_orders_pass in Ea as [_ ?]|].
    split; [done|]. split; [done|]. exists signal, account.
    apply find_first_Some in Hfs as [? _]. apply find_first_Some in Hfa as [? _].
    by repeat (split; [done|]).
Qed.

(** A stored quantity, in units of 10^-10, from which a target is reachable within
    the 28 digits of the decimal context. *)
Definition within (target a : Z) : Prop :=
  (Z.abs a < 10 ^ 28 ∧ Z.abs (target - a) < 10 ^ 28)%Z.

(** C19. A filled order for a target position leaves the position exactly at the
    target, whether the position existed before or not. *)
Theorem execute_reaches_target aid signal account rt w e w' target :
  (∀ r, rt = Some r → AlertRuntimeLaws r) →
  w_new w = empty_db → unique_ids OrderExecution (w_tx w) → unique_ids Position (w_tx w) →
  sig_target signal = Some (canonical_numeric 10 target) → within target 0 → (Z.abs target < 10 ^ 28)%Z →
  (∀ p, find_first (is_position (sig_user signal) (acct_id account) (sig_symbol signal))
          (db_positions (w_tx w)) = Some p →
     ∃ a, pos_quantity p = canonical_numeric 10 a ∧ within target a) →
  execute_new (sig_user signal) aid signal account rt w = (Ok e, w') →
  exe_status e = FILLED →
  ∃ p, find_first (is_position (sig_user signal) (acct_id account) (sig_symbol signal))
         (db_positions (w_tx w')) = Some p ∧ pos_quantity p = canonical_numeric 10 target.
Proof.
  intros Hrt Hn Hue Hup Htgt Hz Hb Hpos E Hfilled.
  destruct (execute_new_Ok _ _ _ _ _ _ _ _ Hrt Hn Hue Hup E) as (_ & _ & _ & _ & _ & _ & Hex).
  destruct Hex as (side & q & settings & wr & Hres & _ & Hbranch). cbv zeta in Hbranch.
  case_match; [|destruct Hbranch as [? _]; congruence].
  destruct Hbranch as (_ & _ & _ & (p & q' & base & His & Hcase & Hq & Hafter)).
  destruct (resolve_Ok _ _ _ _ _ _ Hn Hup Hres) as (_ & Hupr & _).
  unfold _resolve_side_and_quantity in Hres. rewrite Htgt in Hres.
  apply bind_Ok_inv in Hres as (p0 & w1 & Eg & Hres).
  set (d := calculate_delta (sig_symbol signal) (pos_quantity p0) (canonical_numeric 10 target)) in Hres.
  assert (order_side_of (sig_side signal) d = side ∧ delta_quantity d = q ∧ w1 = wr)
    as (Hside & Hqty & <-) by (injection Hres as Hr1 Hr2 Hr3; exact (conj Hr1 (conj Hr2 Hr3))).
  destruct (get_or_create_position_Ok _ _ _ _ _ _ ltac:(by rewrite Hn) Hup Eg)
    as (_ & Hin0 & His0 & _ & _ & Hcase0).
  assert (find_first (is_position (sig_user signal) (acct_id account) (sig_symbol signal))
            (db_positions (w_tx w1)) = Some p0) as Hf0.
  { destruct Hcase0 as [[Hf ->]|(Hf & _ & Happ & _)]; [done|].
    rewrite Happ, find_first_app, Hf. unfold find_first. by rewrite His0. }
  destruct Hcase as [[Hf ->]|[Hf _]]; [|congruence].
  rewrite Hf in Hf0. injection Hf0 as <-.
  assert (∃ a, pos_quantity p = canonical_numeric 10 a ∧ within target a) as (a & Ha & Hw).
  { destruct Hcase0 as [[Hf' _]|(_ & Hzero & _)]; [by apply Hpos|].
    exists 0%Z. rewrite numeric_column_fits in Hzero; [by injection Hzero|done|done]. }
  pose proof (target_fill_exact (sig_symbol signal) (sig_side signal) a target
    (proj1 Hw) Hb (proj2 Hw)) as Hexact.
  cbv zeta in Hexact. rewrite <- Ha in Hexact. fold d in Hexact.
  rewrite Hside, Hqty, Hq in Hexact.
  injection Hexact as ->.
  exists (pos_with_quantity (canonical_numeric 10 target) p). split; [|done].
  rewrite Hafter. apply find_first_replaced with p; [done| |apply String.eqb_refl|done].
  intros y Hy Hid%String.eqb_eq. by apply (unique_key pos_id (db_positions (w_tx w1))).
Qed.
End guarantees.

Lemma execute_reaches_target_witness :
  ∃ e w' p,
    execute_new (sig_user demo_target_signal) "acct-sim" demo_target_signal demo_account None demo_world =
      (Ok e, w') ∧ exe_side e = SELL ∧
    find_first (is_position (sig_user demo_target_signal) (acct_id demo_account)
                  (sig_symbol demo_target_signal)) (db_positions (w_tx w')) = Some p ∧
    pos_quantity p = canonical_numeric 10 (3 * 10 ^ 10).
Proof.
  assert (∃ e w', execute_new (sig_user demo_target_signal) "acct-sim" demo_target_signal demo_account
                    None demo_world = (Ok e, w') ∧ exe_side e = SELL ∧ exe_status e = FILLED)
    as (e & w' & E & Hs & Hst) by (eexists _, _; split; [vm_compute; reflexivity | done]).
  exists e, w'.
  assert (∀ p, find_first (is_position (sig_user demo_target_signal) (acct_id demo_account)
                  (sig_symbol demo_target_signal)) (db_positions (w_tx demo_world)) = Some p →
       ∃ a, pos_quantity p = canonical_numeric 10 a ∧ within (3 * 10 ^ 10) a) as Hp.
  { intros p Hf. vm_compute in Hf. injection Hf as <-. exists (5 * 10 ^ 10)%Z.
    split; [vm_compute; reflexivity | split; vm_compute; reflexivity]. }
  destruct (execute_reaches_target "acct-sim" demo_target_signal demo_account None demo_world e w'
    (3 * 10 ^ 10) ltac:(done) eq_refl ltac:(apply (bool_decide_unpack _); vm_compute; exact I)
    ltac:(apply (bool_decide_unpack _); vm_compute; exact I) eq_refl
    ltac:(split; vm_compute; reflexivity) ltac:(vm_compute; reflexivity) Hp E Hst) as (p & Hf & Hq).
  exists p. exact (conj E (conj Hs (conj Hf Hq))).
Defined.

(** On the demo database the call succeeds, and its repetition is a replay. *)
Lemma execute_signal_idempotent_witness :
  ∃ e w', execute_signal_for_account "user-1" "signal-1" "acct-sim" None demo_world = (Ok e, w') ∧
    exe_status e = FILLED ∧
    execute_signal_for_account "user-1" "signal-1" "acct-sim" None w' = (Ok e, w').
Proof.
  eexists _, _. split; [vm_compute; reflexivity|]. split; [reflexivity|].
  eapply (execute_signal_idempotent "user-1" "signal-1" "acct-sim" None None demo_world);
    [done | reflexivity | apply (bool_decide_unpack _); vm_compute; exact I
    | apply (bool_decide_unpack _); vm_compute; exact I | vm_compute; reflexivity].
Defined.

Lemma execute_signal_outcome_witness :
  ∃ e w', execute_signal_for_account "user-1" "signal-1" "acct-sim" None demo_world = (Ok e, w') ∧
    db_executions (w_tx w') = db_executions (w_tx demo_world) ++ [e].
Proof.
  eexists _, _. split; [vm_compute; reflexivity|].
  eapply (execute_signal_outcome "user-1" "signal-1" "acct-sim" None demo_world);
    [done | reflexivity | apply (bool_decide_unpack _); vm_compute; exact I
    | apply (bool_decide_unpack _); vm_compute; exact I
    | intros (x & Hx & _); vm_compute in Hx; by apply elem_of_nil in Hx | vm_compute; reflexivity].
Defined.

(** ** The log of the executions *)

Section log.
Context `{DatabaseLaws}.

Lemma keeps_log_quiet m : quiet m → keeps_log m.
Proof.
  intros Hq w Hw. destruct (Hq w) as (evs & _ & ->). exact Hw.
Qed.

Lemma keeps_log_risk_settings user account : keeps_log (get_or_create_risk_settings user account).
Proof. unfold get_or_create_risk_settings. keeps_log_tac. Qed.

Lemma keeps_log_position user account symbol : keeps_log (get_or_create_position user account symbol).
Proof. unfold get_or_create_position. keeps_log_tac. Qed.
#[local] Hint Resolve keeps_log_risk_settings keeps_log_position : keeps_log.

Lemma keeps_log_apply_fill user account symbol side q :
  keeps_log (apply_fill user account symbol side q).
Proof. unfold apply_fill. keeps_log_tac. Qed.
#[local] Hint Resolve keeps_log_apply_fill : keeps_log.

Lemma keeps_log_create_execution user signal account side q :
  keeps_log (create_execution user signal account side q).
Proof.
  unfold create_execution. apply keeps_bind; [apply keeps_log_new_id|]. intros xid.
  apply (keeps_log_create (λ id, _) "execution_created" (λ id, commit ;; mret id)); [done|].
  intros id. keeps_log_tac.
Qed.
#[local] Hint Resolve keeps_log_create_execution : keeps_log.

Lemma keeps_log_notify rt st ft :
  (∀ r, rt = Some r → AlertRuntimeLaws r) → keeps_log (_notify_order_failure rt st ft).
Proof.
  intros Hrt. unfold _notify_order_failure. destruct rt as [r|]; [|apply keeps_ret].
  apply keeps_log_quiet, (Hrt r eq_refl).
Qed.
#[local] Hint Resolve keeps_log_notify : keeps_log.

Lemma keeps_log_execute_signal user sid aid rt :
  (∀ r, rt = Some r → AlertRuntimeLaws r) →
  keeps_log (execute_signal_for_account user sid aid rt).
Proof.
  intros Hrt. unfold execute_signal_for_account, execute_new, assert_new_orders_allowed,
    _get_owned_signal, _get_owned_account, _resolve_side_and_quantity, submit_and_fill,
    fail_execution.
  keeps_log_tac.
Qed.
End log.
