(* ===== verification/TestnetPersistence.v ===== *)
(** [services/testnet_order_api.py] and [services/testnet_order_persistence.py]: the
    context a testnet order is submitted in, the execution row that is committed before
    anything is sent, and what becomes of it afterwards. *)
From S2P Require Import Prelude PyStr PyDecimal PyValue Models Session PgDatabase Tables Demo Logic OrderStateMachine ExecutionLog ExecutionRow Alerts Accounts TestnetGate WindowApproval RateLimit HttpClient TestnetRequest RiskEngine.

From Stdlib Require Import Ascii.
(** ** What is kept of an exchange's answer *)

Definition _SENSITIVE_RESPONSE_KEYS : list string :=
  ["api_key"; "apikey"; "api_secret"; "apisecret"; "passphrase"; "authorization"; "signature"; "sign"].

Definition sensitive_key (k : string) : bool :=
  str_mem (str_lower (replace_char "-"%char "_" k)) _SENSITIVE_RESPONSE_KEYS.

(** The keys of a JSON object are distinct strings, so filtering before or after the
    values are cleaned is the same. *)
Fixpoint _safe_value (v : pyval) : pyval :=
  match v with
  | VDict l => VDict (List.filter (λ kv, negb (sensitive_key kv.1)) (map (λ kv, (kv.1, _safe_value kv.2)) l))
  | VList l => VList (map _safe_value l)
  | VDecimal d => VStr (dec_str d)
  | VTuple _ => VStr (py_str v)
  | _ => v
  end.

Definition _safe_exchange_response (v : pyval) : pyval := _safe_value v.

(** [response.get(key)]: only a dictionary has the method. *)
Definition response_get (key : string) (response : pyval) : Outcome pyval :=
  match response with
  | VDict l => Ok (dict_get key l)
  | _ => Raise (AttributeError "get")
  end.

Definition _raise_for_exchange_rejection (exchange_name : string) (response : pyval) : Outcome unit :=
  let reject key message :=
    outcome_bind (response_get key response) (λ v,
      if none_or_zero v then Ok tt else Raise (TestnetExchangeOrderRejectedError message)) in
  if String.eqb exchange_name "bybit" then reject "retCode" "Bybit rejected the testnet order"
  else if String.eqb exchange_name "okx" then reject "code" "OKX rejected the testnet order"
  else if String.eqb exchange_name "binance" then reject "code" "Binance rejected the testnet order"
  else Ok tt.

Definition _exchange_order_id (exchange_name : string) (response : pyval) : Outcome (option string) :=
  if String.eqb exchange_name "binance"
  then outcome_bind (response_get "orderId" response) (λ v, Ok (optional_text v))
  else if String.eqb exchange_name "bybit"
  then outcome_bind (response_get "result" response) (λ v, Ok (optional_text (dict_get "orderId" (mapping v))))
  else if String.eqb exchange_name "okx"
  then outcome_bind (response_get "data" response) (λ v,
         match v with
         | VList (row :: _) => Ok (optional_text (dict_get "ordId" (mapping row)))
         | _ => Ok None
         end)
  else Ok None.

(** ** The context of a submission *)

Record TestnetOrderSubmitRequest := {
  pl_account : string; pl_symbol : string; pl_side : OrderSide; pl_order_type : OrderType;
  pl_quantity : dec; pl_price : option dec; pl_client_order_id : string;
  pl_confirmed : bool }.

Record TestnetOrderApiContext := {
  ctx_account : ExchangeAccount; ctx_order : TestnetOrderRequestInput;
  ctx_gate : TestnetOrderGateResult; ctx_credentials : ExchangeCredentials;
  ctx_authorization : TestnetOrderWindowAuthorization }.

Definition order_of (account : ExchangeAccount) (p : TestnetOrderSubmitRequest) : TestnetOrderRequestInput :=
  Build_TestnetOrderRequestInput (acct_exchange account) (pl_symbol p) (pl_side p) (pl_order_type p)
    (pl_quantity p) (pl_client_order_id p) (pl_price p).

Section context.
Context `{Database} `{Settings} `{Fernet}.

Definition blocked_authorization (e : Exn) : option (M TestnetOrderWindowAuthorization) :=
  match e with
  | TestnetOrderWindowAuthorizationError reasons => Some (raise (TestnetOrderApiBlockedError reasons))
  | _ => None
  end.

Definition build_testnet_order_api_context (user : string) (payload : TestnetOrderSubmitRequest) :
    M TestnetOrderApiContext :=
  account ← get_owned_account user (pl_account payload);
  match account with
  | None => raise (ValueError "account not found")
  | Some account =>
      risk_settings ← get_or_create_risk_settings user (acct_id account);
      secret_metadata ← get_api_key_secret_metadata user (acct_id account);
      let gate := check_testnet_order_gate (acct_exchange account) (acct_mode account)
        testnet_adapters_enabled (acct_trading_enabled account) (risk_trading_enabled risk_settings)
        (bool_decide (secret_metadata ≠ None)) (pl_confirmed payload) in
      if negb (approved gate)
      then raise (TestnetOrderApiBlockedError (gate_reasons gate))
      else
        authorization ← try_except
          (require_valid_testnet_order_window_authorization user (acct_id account) (pl_symbol payload)
             (pl_side payload) (pl_quantity payload) (pl_price payload))
          blocked_authorization;
        credentials ← get_exchange_credentials user (acct_id account);
        match credentials with
        | None => raise (TestnetOrderApiBlockedError ["testnet API key metadata must be configured"])
        | Some credentials =>
            mret (Build_TestnetOrderApiContext account (order_of account payload) gate credentials authorization)
        end
  end.

(** ** The execution row *)

Record TestnetSubmissionRecord := { sub_execution : OrderExecution; sub_replay : bool }.

Definition testnet_signal (id user : string) (ctx : TestnetOrderApiContext) : TradingSignal :=
  let o := ctx_order ctx in
  Build_TradingSignal id user MANUAL (str_upper (ord_symbol o)) (ord_side o) (ord_type o) (ord_price o)
    (Some (ord_quantity o)) None
    (Some [("source", VStr "testnet_order_submit");
           ("approval_audit_log_id", VStr (auth_audit_log_id (ctx_authorization ctx)))]).

Definition testnet_execution (execution_id signal user : string) (ctx : TestnetOrderApiContext) (id : string) :
    OrderExecution :=
  let o := ctx_order ctx in
  Build_OrderExecution id user signal execution_id (acct_id (ctx_account ctx))
    (exchange_value (acct_exchange (ctx_account ctx))) (ord_client_order_id o) None
    (str_upper (ord_symbol o)) (ord_side o) (ord_type o) (ord_price o) (ord_quantity o) CREATED
    None None None.

Definition testnet_risk_input (ctx : TestnetOrderApiContext) : RiskOrderInput :=
  let o := ctx_order ctx in
  Build_RiskOrderInput (str_upper (ord_symbol o)) (ord_side o) (ord_quantity o) (ord_price o).

(** What follows the creation of the row: the risk check decides. *)
Definition decide_submission (user : string) (ctx : TestnetOrderApiContext) (execution : string) :
    M TestnetSubmissionRecord :=
  settings ← get_or_create_risk_settings user (acct_id (ctx_account ctx));
  let risk_result := check_order_risk (ctx_account ctx) settings (testnet_risk_input ctx) true in
  db_update execution (exe_with_risk_result (risk_result_to_dict risk_result)) ;;
  if negb (bool_decide (rc_decision risk_result = PASSED))
  then
    db_update execution (exe_with_error (str_join "; " (rc_reasons risk_result))) ;;
    transition_order_execution execution REJECTED "testnet_risk_rejected" None ;;
    commit ;;
    raise (TestnetOrderRiskRejectedError "testnet order risk checks rejected the request")
  else
    transition_order_execution execution RISK_PASSED "testnet_risk_passed" None ;;
    transition_order_execution execution SUBMITTED "testnet_order_submission_started" None ;;
    commit ;;
    e ← load_execution execution;
    mret (Build_TestnetSubmissionRecord e false).

Definition create_submission (user : string) (ctx : TestnetOrderApiContext) : M TestnetSubmissionRecord :=
  signal ← new_id;
  add_flush (testnet_signal signal user ctx) ;;
  execution_id ← new_id;
  id ← new_id;
  add_flush (testnet_execution execution_id signal user ctx id) ;;
  record_initial_order_state id "testnet_execution_created" ;;
  decide_submission user ctx id.

Definition create_or_get_testnet_submission_execution (user : string) (ctx : TestnetOrderApiContext) :
    M TestnetSubmissionRecord :=
  existing ← db_scalar (λ e, String.eqb (exe_client_order_id e) (ord_client_order_id (ctx_order ctx)));
  match existing with
  | Some e =>
      if negb (String.eqb (exe_user e) user) || negb (String.eqb (exe_account e) (acct_id (ctx_account ctx))) ||
         negb (String.eqb (exe_exchange_name e) (exchange_value (acct_exchange (ctx_account ctx))))
      then raise (TestnetOrderIdempotencyConflictError "client order id is already in use")
      else mret (Build_TestnetSubmissionRecord e true)
  | None => create_submission user ctx
  end.

(** ** After the exchange has answered *)

Definition exe_with_order_id (id : option string) (e : OrderExecution) : OrderExecution :=
  match id with
  | None => e
  | Some _ => exe_with_response id (default VNone (exe_exchange_response e)) e
  end.

Definition record_testnet_submission_accepted (execution : string) (result : TestnetOrderExecutionResult) :
    M OrderExecution :=
  e ← load_execution execution;
  let response := _safe_exchange_response (txr_exchange_response result) in
  lift (_raise_for_exchange_rejection (exe_exchange_name e) response) ;;
  if negb (bool_decide (exe_status e = SUBMITTED))
  then raise (InvalidOrderStateTransitionError "testnet execution is not awaiting exchange acceptance")
  else
    db_update execution (λ e, exe_with_response (exe_exchange_order_id e) response e) ;;
    exchange_order_id ← lift (_exchange_order_id (exe_exchange_name e) response);
    db_update execution (exe_with_order_id exchange_order_id) ;;
    transition_order_execution execution ACCEPTED "testnet_exchange_accepted"
      (Some [("exchange", VStr (exe_exchange_name e))]) ;;
    commit ;;
    load_execution execution.

Definition record_testnet_submission_failure (execution failure_type : string) : M unit :=
  e ← load_execution execution;
  if negb (bool_decide (exe_status e = SUBMITTED)) then mret tt
  else
    db_update execution (exe_with_error "testnet exchange request failed") ;;
    transition_order_execution execution FAILED "testnet_exchange_request_failed"
      (Some [("failure_type", VStr failure_type)]) ;;
    commit.
End context.

(** ** No secret survives in a stored answer *)

Lemma elem_of_safe_dict k v l :
  (k, v) ∈ List.filter (λ kv, negb (sensitive_key kv.1)) (map (λ kv, (kv.1, _safe_value kv.2)) l) ↔
  sensitive_key k = false ∧ ∃ x, (k, x) ∈ l ∧ v = _safe_value x.
Proof.
  rewrite list_elem_of_In, List.filter_In, <- list_elem_of_In, list_elem_of_fmap, negb_true_iff. cbn.
  split.
  - intros [([k' x] & [= -> ->] & Hx) Hs]. eauto.
  - intros (Hs & x & Hx & ->). split; [exists (k, x) |]; done.
Qed.

Lemma safe_value_keys v k : has_key k (_safe_value v) → sensitive_key k = false.
Proof.
  induction v as [|b|z|r|s|d|l IH|l IH|l IH] using pyval_ind'; cbn [_safe_value]; try by inversion 1.
  - inversion 1 as [| |l' x Hx Hk]; subst. apply list_elem_of_fmap in Hx as (y & -> & Hy).
    rewrite Forall_forall in IH. by apply (IH y).
  - rewrite Forall_forall in IH. inversion 1 as [l' x Hx|l' k' x Hx Hk|]; subst.
    + by apply elem_of_safe_dict in Hx as [? _].
    + apply elem_of_safe_dict in Hx as (_ & y & Hy & ->). by apply (IH (k', y)).
Qed.

Lemma safe_value_idem v : _safe_value (_safe_value v) = _safe_value v.
Proof.
  induction v as [|b|z|r|s|d|l IH|l IH|l IH] using pyval_ind'; cbn [_safe_value]; try done.
  - f_equal. rewrite List.map_map. apply List.map_ext_in. intros x Hx%list_elem_of_In.
    rewrite Forall_forall in IH. auto.
  - f_equal. induction IH as [|[k v] l Hv _ IHl]; cbn [map List.filter fst snd]; [done|].
    cbn in Hv. destruct (sensitive_key k) eqn:E; cbn [negb]; [done|].
    cbn [map List.filter fst snd]. rewrite E, Hv. cbn [negb]. by f_equal.
Qed.

Lemma safe_dict_lookup k l :
  sensitive_key k = false →
  dict_lookup k (List.filter (λ kv, negb (sensitive_key kv.1)) (map (λ kv, (kv.1, _safe_value kv.2)) l)) =
  _safe_value <$> dict_lookup k l.
Proof.
  intros Hk. induction l as [|[k' v] l IH]; cbn [map List.filter fst snd dict_lookup]; [done|].
  destruct (sensitive_key k') eqn:E; cbn [negb].
  - destruct (String.eqb_spec k' k) as [->|]; [congruence | done].
  - cbn [dict_lookup]. by destruct (String.eqb k' k).
Qed.


Example safe_response_example :
  _safe_exchange_response (VDict [("orderId", VInt 7); ("apiKey", VStr "K");
    ("meta", VList [VDict [("Api-Secret", VStr "S"); ("ok", VBool true)]])]) =
  VDict [("orderId", VInt 7); ("meta", VList [VDict [("ok", VBool true)]])].
Proof. reflexivity. Qed.

(** ** The context *)

(** The tables the checks of a submission read. *)
Definition gate_view (d : Db) := (db_accounts d, db_audit d, db_risk d, db_controls d, db_secrets d).

Section checks.
Context `{Database} `{Settings} `{Fernet}.

Lemma keeps_rows_risk_settings user account : keeps_rows (get_or_create_risk_settings user account).
Proof. unfold get_or_create_risk_settings. keeps_rows_tac. Qed.
#[local] Hint Resolve keeps_rows_risk_settings : keeps_rows.

Lemma keeps_rows_authorization user account symbol side q p :
  keeps_rows (require_valid_testnet_order_window_authorization user account symbol side q p).
Proof. unfold require_valid_testnet_order_window_authorization. keeps_rows_tac. Qed.

Lemma keeps_rows_credentials user account : keeps_rows (get_exchange_credentials user account).
Proof. unfold get_exchange_credentials, get_api_key_secret_metadata, decrypt_secret. keeps_rows_tac. Qed.
#[local] Hint Resolve keeps_rows_credentials : keeps_rows.

Lemma keeps_rows_context user payload : keeps_rows (build_testnet_order_api_context user payload).
Proof.
  unfold build_testnet_order_api_context, get_owned_account, get_api_key_secret_metadata.
  keeps_rows_tac. apply keeps_try; [apply keeps_rows_authorization|].
  intros [] k; cbn; intros [= <-]; (split; [done|apply keeps_raise; done]).
Qed.

Lemma risk_settings_Ok user account w settings w' :
  w_new w = empty_db → get_or_create_risk_settings user account w = (Ok settings, w') →
  w_new w' = empty_db ∧ w_now w' = w_now w ∧ (w_tx w = w_committed w → w_tx w' = w_committed w') ∧
  db_accounts (w_tx w') = db_accounts (w_tx w) ∧ db_audit (w_tx w') = db_audit (w_tx w) ∧
  db_controls (w_tx w') = db_controls (w_tx w) ∧ db_secrets (w_tx w') = db_secrets (w_tx w) ∧
  (risk_trading_enabled settings = true → find_first (λ s, String.eqb (risk_user s) user && String.eqb (risk_account s) account)
    (db_risk (w_tx w')) = Some settings).
Proof.
  intros Hn E. unfold get_or_create_risk_settings in E. apply bind_Ok_inv in E as (r & w1 & [= <- <-] & E).
  cbn [tbl RiskSetting_table] in E. destruct (find_first _ _) as [s|] eqn:Ef.
  - by injection E as <- <-.
  - apply bind_Ok_inv in E as (id & w1 & [= <- <-] & E).
    apply bind_Ok_inv in E as ([] & w2 & Ec & E). injection E as <- <-.
    unfold add_commit in Ec. apply bind_Ok_inv in Ec as ([] & w3 & Ea & Ec). injection Ea as <-.
    match type of Ec with commit ?w0 = (_, ?w1) =>
      pose proof (commit_only_Ok (R:=RiskSetting) [Build_RiskSetting (new_uuid (w_next w)) user account
        false None None None None None []] w0 w1) as Hc end.
    destruct Hc as (rs & _ & _ & ->); [cbn; by rewrite Hn | done | done |]. done.
Qed.

Lemma credentials_Ok user account w c w' :
  get_exchange_credentials user account w = (Ok c, w') → w' = w.
Proof.
  unfold get_exchange_credentials, get_api_key_secret_metadata, decrypt_secret. intros E.
  apply bind_Ok_inv in E as (r & w1 & [= <- <-] & E). destruct (find_first _ _) as [k|]; [|by injection E as _ <-].
  apply bind_Ok_inv in E as (p & w1 & Ep & E). assert (w1 = w) as ->.
  { destruct (key_passphrase k); [|by injection Ep as _ <-]. apply bind_Ok_inv in Ep as (t & w2 & Ed & Ep).
    destruct (fernet_decrypt _ _); [|done]. injection Ed as _ <-. by injection Ep as _ <-. }
  apply bind_Ok_inv in E as (a & w1 & Ed & E). destruct (fernet_decrypt _ _); [|done]. injection Ed as _ <-.
  apply bind_Ok_inv in E as (b & w1 & Ed & E). destruct (fernet_decrypt _ _); [|done]. injection Ed as _ <-.
  by injection E as _ <-.
Qed.

(** What holds of the database where a context was built. *)
Definition context_valid (user : string) (payload : TestnetOrderSubmitRequest) (now : Z)
    (ctx : TestnetOrderApiContext) (settings : RiskSetting) (d : Db) : Prop :=
  let account := ctx_account ctx in
  account ∈ db_accounts d ∧ acct_id account = pl_account payload ∧ acct_user account = user ∧
  ctx_order ctx = order_of account payload ∧ approved (ctx_gate ctx) = true ∧
  find_first (λ s, String.eqb (risk_user s) user && String.eqb (risk_account s) (acct_id account))
    (db_risk d) = Some settings ∧
  gate_open (acct_exchange account) (acct_mode account) testnet_adapters_enabled
    (acct_trading_enabled account) (risk_trading_enabled settings) true (pl_confirmed payload) ∧
  ∃ l p, l ∈ db_audit d ∧ approval_log user (acct_id account) l = true ∧ pl_price payload = Some p ∧
    aud_id l = auth_audit_log_id (ctx_authorization ctx) ∧
    covers l (pl_symbol payload) (pl_side payload) (pl_quantity payload) p now.

Lemma context_Ok user payload w ctx w' :
  w_new w = empty_db → build_testnet_order_api_context user payload w = (Ok ctx, w') →
  w_new w' = empty_db ∧ db_controls (w_tx w') = db_controls (w_tx w) ∧ db_audit (w_tx w') = db_audit (w_tx w) ∧
  w_now w' = w_now w ∧ (w_tx w = w_committed w → w_tx w' = w_committed w') ∧
  ∃ settings, context_valid user payload (w_now w) ctx settings (w_tx w').
Proof.
  intros Hn E. unfold build_testnet_order_api_context in E.
  apply bind_Ok_inv in E as (r & w1 & [= <- <-] & E). cbn [tbl ExchangeAccount_table] in E.
  destruct (find_first _ (db_accounts (w_tx w))) as [account|] eqn:Ea; [|done].
  apply bind_Ok_inv in E as (settings & w1 & Er & E).
  destruct (risk_settings_Ok _ _ _ _ _ Hn Er) as (Hn1 & Hnow & Hcm & Hacc & Haud & Hctl & Hsec & Hfind).
  apply bind_Ok_inv in E as (key & w2 & [= <- <-] & E).
  destruct (approved _) eqn:Hg; [|done]. cbn [negb] in E. pose proof Hg as Hgo.
  apply gate_approved_iff in Hgo as (Hex & Hmode & Had & Htr & Hrt & Hk & Hconf).
  apply bind_Ok_inv in E as (auth & w2 & Et & E). unfold try_except in Et.
  destruct (require_valid_testnet_order_window_authorization _ _ _ _ _ _ w1) as [[au|exn] w3] eqn:Eau.
  2:{ destruct exn; cbn in Et; done. }
  injection Et as <- <-. apply authorization_Ok in Eau as [-> (l & p & Hl & Hid & Hlog & Hp & Hcov & _)].
  apply bind_Ok_inv in E as (c & w2 & Ecr & E). apply credentials_Ok in Ecr as ->.
  destruct c as [c|]; [|done]. injection E as <- <-.
  apply find_first_Some in Ea as [Hin [Hida%String.eqb_eq Hus%String.eqb_eq]%andb_true_iff].
  do 5 (split; [done|]). exists settings. unfold context_valid. cbn.
  rewrite Hacc, Haud. do 6 (split; [done || auto|]). split; [unfold gate_open; done|].
  exists l, p. rewrite Hnow in Hcov. rewrite Haud in Hl. done.
Qed.

(** ** The creation of the row *)

(** The execution a submission of [ctx] works on. *)
Definition submitted_for (user : string) (ctx : TestnetOrderApiContext) (e : OrderExecution) : Prop :=
  exe_user e = user ∧ exe_account e = acct_id (ctx_account ctx) ∧
  exe_exchange_name e = exchange_value (acct_exchange (ctx_account ctx)) ∧
  exe_client_order_id e = ord_client_order_id (ctx_order ctx) ∧ exe_side e = ord_side (ctx_order ctx).

Lemma submitted_for_stored user ctx e r : stored e r → submitted_for user ctx e → submitted_for user ctx r.
Proof. intros (p & q & _ & ->)%store_execution_fields. done. Qed.

(** How the creation of a submission can end, the committed executions having been
    [es] before. *)
Definition creation_outcome (user : string) (ctx : TestnetOrderApiContext) (settings : RiskSetting)
    (g : list ExchangeAccount * list AuditLog * list RiskSetting * list SystemControl * list ApiKeySecret)
    (es : list OrderExecution) (tr : list Event) (o : Outcome TestnetSubmissionRecord) (w : World) : Prop :=
  match o with
  | Ok sub =>
      sub_replay sub = false ∧ (∃ ps, working gate_view g es (sub_execution sub) ps [] tr w) ∧
      w_committed w = w_tx w ∧ exe_status (sub_execution sub) = SUBMITTED ∧
      submitted_for user ctx (sub_execution sub) ∧ exe_id (sub_execution sub) ≠ "" ∧
      risk_allows (ctx_account ctx) settings (testnet_risk_input ctx) true
  | Raise exn =>
      rows_committed es tr w ∨
      exn = TestnetOrderRiskRejectedError "testnet order risk checks rejected the request" ∧
      ∃ e, rows_committed (es ++ [e]) tr w ∧ exe_status e = REJECTED ∧ submitted_for user ctx e
  end.

(** One step that commits nothing: if it raises, nothing was committed; if not, the
    execution is still the last row. *)
Ltac submission_step Hrows :=
  apply run_cases;
  [intros ? ? ?; left; eapply committed_after; [|exact Hrows|eassumption]; keeps_rows_tac|].

Lemma decide_submission_cases user ctx settings g es e ps ts tr w :
  working gate_view g es e ps ts tr w → rows_committed es tr w →
  find_first (λ s, String.eqb (risk_user s) user && String.eqb (risk_account s) (acct_id (ctx_account ctx)))
    (db_risk (w_tx w)) = Some settings →
  submitted_for user ctx e → exe_id e ≠ "" →
  creation_outcome user ctx settings g es tr (decide_submission user ctx (exe_id e) w).1
    (decide_submission user ctx (exe_id e) w).2.
Proof.
  intros Hw Hrows Hrisk Hsub Hne. unfold decide_submission.
  assert (get_or_create_risk_settings user (acct_id (ctx_account ctx)) w = (Ok settings, w)) as Hset.
  { unfold get_or_create_risk_settings. rewrite run_bind. cbn. by rewrite Hrisk. }
  rewrite (run_bind_Ok _ _ _ _ _ Hset). cbv zeta.
  set (risk := check_order_risk _ _ _ _).
  assert (∀ b, submitted_for user ctx b → ∀ d m s, submitted_for user ctx (exe_with_risk_result d b) ∧
    submitted_for user ctx (exe_with_error m b) ∧ submitted_for user ctx (exe_with_status s b)) as Hkeep
    by done.
  submission_step Hrows. intros [] w1 Eu. pose proof (committed_after _ _ _ _ _ _ (keeps_committed_update _ _) Hrows Eu) as Hr1.
  destruct (working_update (exe_with_risk_result _) (λ _, eq_refl) Hw Eu) as (e1 & Hst1 & Hw1).
  assert (exe_id e1 = exe_id e) as Hid1 by (by apply store_execution_keeps in Hst1 as (-> & _)).
  pose proof (submitted_for_stored _ _ _ _ Hst1 Hsub) as Hs1. rewrite <- Hid1. clear Hw Hrows Eu Hst1 Hsub.
  destruct (bool_decide (rc_decision risk = PASSED)) eqn:Hd; cbn [negb].
  - submission_step Hr1. intros t2 w2 E2. pose proof (committed_after _ _ _ _ _ _ (keeps_committed_transition _ _ _ _) Hr1 E2) as Hr2.
    destruct (working_transition _ _ _ _ Hw1 E2) as (e2 & Hst2 & _ & Hw2).
    assert (exe_id e2 = exe_id e1) as Hid2 by (by apply store_execution_keeps in Hst2 as (-> & _)).
    pose proof (submitted_for_stored _ _ _ _ Hst2 Hs1) as Hs2. rewrite <- Hid2.
    submission_step Hr2. intros t3 w3 E3. pose proof (committed_after _ _ _ _ _ _ (keeps_committed_transition _ _ _ _) Hr2 E3) as Hr3.
    destruct (working_transition _ _ _ _ Hw2 E3) as (e3 & Hst3 & _ & Hw3).
    assert (exe_id e3 = exe_id e2) as Hid3 by (by apply store_execution_keeps in Hst3 as (-> & _)).
    assert (exe_status e3 = SUBMITTED) as Hst by (by apply store_execution_keeps in Hst3 as (_ & -> & _)).
    pose proof (submitted_for_stored _ _ _ _ Hst3 Hs2) as Hs3. rewrite <- Hid3.
    apply run_cases.
    { intros exn w4 Ec%commit_Raise. left. eapply committed_after; [apply keeps_committed_flush|exact Hr3|exact Ec]. }
    intros [] w4 Ec. destruct (working_commit Hw3 Ec) as [Hw4 Hcm].
    rewrite (run_bind_Ok _ _ _ _ _ (working_load Hw4)). cbn.
    split; [done|]. split; [by exists ps|]. split; [done|]. split; [done|]. split; [done|].
    split; [congruence|]. apply bool_decide_eq_true in Hd. exact (proj1 (proj1 (check_order_risk_iff _ _ _ _)) Hd).
  - submission_step Hr1. intros [] w2 E2. pose proof (committed_after _ _ _ _ _ _ (keeps_committed_update _ _) Hr1 E2) as Hr2.
    destruct (working_update (exe_with_error _) (λ _, eq_refl) Hw1 E2) as (e2 & Hst2 & Hw2).
    assert (exe_id e2 = exe_id e1) as Hid2 by (by apply store_execution_keeps in Hst2 as (-> & _)).
    pose proof (submitted_for_stored _ _ _ _ Hst2 Hs1) as Hs2. rewrite <- Hid2.
    submission_step Hr2. intros t3 w3 E3. pose proof (committed_after _ _ _ _ _ _ (keeps_committed_transition _ _ _ _) Hr2 E3) as Hr3.
    destruct (working_transition _ _ _ _ Hw2 E3) as (e3 & Hst3 & _ & Hw3).
    assert (exe_status e3 = REJECTED) as Hst by (by apply store_execution_keeps in Hst3 as (_ & -> & _)).
    pose proof (submitted_for_stored _ _ _ _ Hst3 Hs2) as Hs3.
    apply run_cases.
    { intros exn w4 Ec%commit_Raise. left. eapply committed_after; [apply keeps_committed_flush|exact Hr3|exact Ec]. }
    intros [] w4 Ec. destruct (working_commit Hw3 Ec) as [[_ Hrw _ _ _ Htr] Hcm]. cbn. right.
    split; [done|]. exists e3. split; [split; [by rewrite Hcm|done]|]. done.
Qed.

Lemma create_submission_cases `{!DatabaseLaws} user ctx settings w :
  w_new w = empty_db → w_committed w = w_tx w → unique_ids OrderExecution (w_tx w) →
  find_first (λ s, String.eqb (risk_user s) user && String.eqb (risk_account s) (acct_id (ctx_account ctx)))
    (db_risk (w_tx w)) = Some settings →
  creation_outcome user ctx settings (gate_view (w_tx w)) (db_executions (w_tx w)) (w_trace w)
    (create_submission user ctx w).1 (create_submission user ctx w).2.
Proof.
  intros Hn Hcm Hu Hrisk. unfold create_submission.
  assert (rows_committed (db_executions (w_tx w)) (w_trace w) w) as Hrows by (by rewrite <- Hcm).
  rewrite run_bind. cbn [new_id]. set (w0 := set_next _ w).
  assert (rows_committed (db_executions (w_tx w)) (w_trace w) w0) as Hr0 by exact Hrows.
  submission_step Hr0. intros [] w1 Ef.
  pose proof (committed_after _ _ _ _ _ _ (keeps_committed_add_flush _) Hr0 Ef) as Hr1.
  destruct (add_flush_Ok _ w0 _ Hn Ef) as (Hn1 & _ & Ht1 & _).
  pose proof (add_flush_others (R:=TradingSignal) (R':=ExchangeAccount) _ w0 _ Hn eq_refl eq_refl Ef) as Ha.
  pose proof (add_flush_others (R:=TradingSignal) (R':=AuditLog) _ w0 _ Hn eq_refl eq_refl Ef) as Hb.
  pose proof (add_flush_others (R:=TradingSignal) (R':=RiskSetting) _ w0 _ Hn eq_refl eq_refl Ef) as Hc.
  pose proof (add_flush_others (R:=TradingSignal) (R':=SystemControl) _ w0 _ Hn eq_refl eq_refl Ef) as Hd.
  pose proof (add_flush_others (R:=TradingSignal) (R':=ApiKeySecret) _ w0 _ Hn eq_refl eq_refl Ef) as He.
  pose proof (add_flush_others (R:=TradingSignal) (R':=OrderExecution) _ w0 _ Hn eq_refl eq_refl Ef) as Hx.
  cbn in Ha, Hb, Hc, Hd, He, Hx, Ht1. clear Ef.
  assert (gate_view (w_tx w1) = gate_view (w_tx w)) as Hg by (unfold gate_view; by rewrite Ha, Hb, Hc, Hd, He).
  rewrite run_bind. cbn [new_id]. set (w2 := set_next _ w1). rewrite run_bind. cbn [new_id]. set (w3 := set_next _ w2).
  rewrite <- run_seq_assoc.
  assert (rows_committed (db_executions (w_tx w)) (w_trace w) w3) as Hr3 by exact Hr1.
  submission_step Hr3.
  intros t w4 Ec. match type of Ec with ((add_flush ?r ;; _) _) = _ => set (e := r) in Ec end.
  set (id := new_uuid (w_next w2)) in *. change id with (exe_id e) in Ec.
  assert (keeps_committed (add_flush e ;; record_initial_order_state (exe_id e) "testnet_execution_created")) as Hk
    by keeps_rows_tac.
  pose proof (committed_after _ _ _ _ _ _ Hk Hr3 Ec) as Hr4.
  pose proof (λ H1 H2, working_create (view:=gate_view) e _ t H1 H2 eq_refl eq_refl eq_refl eq_refl eq_refl eq_refl Ec) as Hw.
  destruct Hw as (r & Hst & Hid & Hw & _); [done | by unfold unique_ids; cbn; rewrite Hx|].
  cbn [w_tx w_trace set_next w2 w3] in Hw. rewrite Hg, Hx, Ht1 in Hw.
  pose proof Hw as [Hwn _ _ _ Hwv _].
  change id with (exe_id e). rewrite <- Hid. eapply decide_submission_cases; [exact Hw | done | | |].
  - unfold gate_view in Hwv. injection Hwv as _ _ -> _ _. done.
  - eapply submitted_for_stored; [exact Hst|]. done.
  - rewrite Hid. apply new_uuid_nonempty.
Qed.
End checks.

(** ** After the answer *)

Section recording.
Context `{Database} {V : Type} {view : Db → V}.
Context `{!Untouched OrderExecution view} `{!Untouched OrderExecutionTransition view}.

(** The rows after a step that was to end in [status]. *)
Definition recorded (v : V) (es : list OrderExecution) (ps : list Position) (tr : list Event)
    (status : OrderExecutionStatus) (e e' : OrderExecution) (w : World) : Prop :=
  working view v es e' ps [] tr w ∧ w_committed w = w_tx w ∧ exe_status e' = status ∧
  exe_id e' = exe_id e ∧ ∀ user ctx, submitted_for user ctx e → submitted_for user ctx e'.

Lemma stored_status_step f s e r :
  stored (f e) r → (∀ x, exe_id (f x) = exe_id x) → (∀ x, exe_status (f x) = s x) →
  (∀ x user ctx, submitted_for user ctx x → submitted_for user ctx (f x)) →
  exe_id r = exe_id e ∧ exe_status r = s e ∧ ∀ user ctx, submitted_for user ctx e → submitted_for user ctx r.
Proof.
  intros Hst Hid Hs Hsub. pose proof Hst as (-> & -> & _)%store_execution_keeps.
  split; [done|]. split; [done|]. intros user ctx Hx. eapply submitted_for_stored; [exact Hst|auto].
Qed.

Lemma failure_cases v es e ps tr w failure_type :
  working view v es e ps [] tr w → rows_committed (es ++ [e]) tr w → exe_id e ≠ "" → exe_status e = SUBMITTED →
  match record_testnet_submission_failure (exe_id e) failure_type w with
  | (Ok _, w') => ∃ e', recorded v es ps tr FAILED e e' w'
  | (Raise x, w') => db_failure x = true ∧ rows_committed (es ++ [e]) tr w'
  end.
Proof.
  intros Hw Hr Hne Hs. unfold record_testnet_submission_failure.
  rewrite (run_bind_Ok _ _ _ _ _ (working_load Hw)), Hs. rewrite bool_decide_eq_true_2 by done. cbn [negb].
  rewrite run_bind. destruct (db_update _ _ w) as [[[]|x] w1] eqn:E1.
  2:{ by destruct (working_update_Raise _ Hw E1) as [? ->]. }
  destruct (working_update (exe_with_error _) (λ _, eq_refl) Hw E1) as (e1 & Hst1 & Hw1).
  destruct (stored_status_step (exe_with_error _) exe_status _ _ Hst1) as (Hid1 & Hs1 & Hf1); [done..|].
  pose proof (committed_after _ _ _ _ _ _ (keeps_committed_update _ _) Hr E1) as Hr1.
  rewrite run_bind, <- Hid1. rewrite <- Hid1 in Hne.
  destruct (transition_order_execution _ _ _ _ w1) as [[t|x] w2] eqn:E2.
  2:{ destruct (working_transition_Raise FAILED _ _ Hw1 Hne ltac:(by rewrite Hs1, Hs) E2) as [? ->]. done. }
  destruct (working_transition _ _ _ _ Hw1 E2) as (e2 & Hst2 & _ & Hw2).
  destruct (stored_status_step (exe_with_status FAILED) (λ _, FAILED) _ _ Hst2) as (Hid2 & Hs2 & Hf2); [done..|].
  pose proof (committed_after _ _ _ _ _ _ (keeps_committed_transition _ _ _ _) Hr1 E2) as Hr2.
  destruct (commit w2) as [[[]|x] w3] eqn:E3.
  - destruct (working_commit Hw2 E3) as [Hw3 Hcm]. exists e2. split; [done|]. split; [done|]. split; [done|].
    split; [congruence|]. auto.
  - apply commit_Raise in E3. split; [by eapply flush_Raise|].
    by eapply committed_after; [apply keeps_committed_flush| |].
Qed.

Lemma accepted_cases v es e ps tr w result :
  working view v es e ps [] tr w → rows_committed (es ++ [e]) tr w → exe_id e ≠ "" → exe_status e = SUBMITTED →
  match record_testnet_submission_accepted (exe_id e) result w with
  | (Ok e', w') => recorded v es ps tr ACCEPTED e e' w'
  | (Raise x, w') => db_failure x = true ∧ rows_committed (es ++ [e]) tr w' ∨
      w' = w ∧ (x = AttributeError "get" ∨ ∃ m, x = TestnetExchangeOrderRejectedError m)
  end.
Proof.
  intros Hw Hr Hne Hs. unfold record_testnet_submission_accepted.
  rewrite (run_bind_Ok _ _ _ _ _ (working_load Hw)). cbv zeta.
  set (response := _safe_exchange_response _).
  assert (∀ x, _raise_for_exchange_rejection (exe_exchange_name e) response = Raise x →
    x = AttributeError "get" ∨ ∃ m, x = TestnetExchangeOrderRejectedError m) as Hx.
  { unfold _raise_for_exchange_rejection, response_get. intros x.
    repeat case_match; cbn; try done; try (intros [= <-]; eauto);
      match goal with |- context [none_or_zero ?v] => destruct (none_or_zero v) end;
      intros [= <-]; eauto. }
  rewrite run_bind. unfold lift at 1.
  destruct (_raise_for_exchange_rejection _ response) as [[]|x] eqn:Er; [|right; split; [done|by apply Hx]].
  rewrite Hs, bool_decide_eq_true_2 by done. cbn [negb]. rewrite run_bind.
  destruct (db_update _ _ w) as [[[]|x] w1] eqn:E1.
  2:{ left. by destruct (working_update_Raise _ Hw E1) as [? ->]. }
  destruct (working_update (λ e, exe_with_response (exe_exchange_order_id e) response e) (λ _, eq_refl) Hw E1)
    as (e1 & Hst1 & Hw1).
  destruct (stored_status_step (λ e, exe_with_response (exe_exchange_order_id e) response e) exe_status _ _ Hst1) as (Hid1 & Hs1 & Hf1); [done..|].
  pose proof (committed_after _ _ _ _ _ _ (keeps_committed_update _ _) Hr E1) as Hr1.
  rewrite run_bind. unfold lift at 1.
  assert (∃ oid, _exchange_order_id (exe_exchange_name e) response = Ok oid) as [oid ->].
  { revert Er. unfold _raise_for_exchange_rejection, _exchange_order_id, response_get.
    destruct (String.eqb_spec (exe_exchange_name e) "bybit") as [->|]; cbn [String.eqb Ascii.eqb Bool.eqb].
    - destruct response; cbn; try done; eauto.
    - destruct (String.eqb_spec (exe_exchange_name e) "okx") as [->|].
      + destruct response as [| | | | | | | |l]; cbn; try done. intros _. destruct (dict_get "data" l); eauto.
        destruct l0; eauto.
      + destruct (String.eqb (exe_exchange_name e) "binance"); [|eauto].
        destruct response; cbn; try done; eauto. }
  rewrite run_bind, <- Hid1. destruct (db_update _ _ w1) as [[[]|x] w2] eqn:E2.
  2:{ left. by destruct (working_update_Raise _ Hw1 E2) as [? ->]. }
  assert (∀ x, exe_id (exe_with_order_id oid x) = exe_id x) as Hidf by (by destruct oid).
  destruct (working_update (exe_with_order_id oid) Hidf Hw1 E2) as (e2 & Hst2 & Hw2).
  destruct (stored_status_step (exe_with_order_id oid) exe_status _ _ Hst2) as (Hid2 & Hs2 & Hf2); [by destruct oid..|].
  pose proof (committed_after _ _ _ _ _ _ (keeps_committed_update _ _) Hr1 E2) as Hr2.
  rewrite run_bind, <- Hid2. rewrite <- Hid1, <- Hid2 in Hne.
  destruct (transition_order_execution _ _ _ _ w2) as [[t|x] w3] eqn:E3.
  2:{ left. destruct (working_transition_Raise ACCEPTED _ _ Hw2 Hne ltac:(by rewrite Hs2, Hs1, Hs) E3) as [? ->]. done. }
  destruct (working_transition _ _ _ _ Hw2 E3) as (e3 & Hst3 & _ & Hw3).
  destruct (stored_status_step (exe_with_status ACCEPTED) (λ _, ACCEPTED) _ _ Hst3) as (Hid3 & Hs3 & Hf3); [done..|].
  pose proof (committed_after _ _ _ _ _ _ (keeps_committed_transition _ _ _ _) Hr2 E3) as Hr3.
  rewrite run_bind. destruct (commit w3) as [[[]|x] w4] eqn:E4.
  - destruct (working_commit Hw3 E4) as [Hw4 Hcm]. rewrite <- Hid3, (working_load Hw4).
    split; [done|]. split; [done|]. split; [done|]. split; [congruence|]. auto.
  - left. apply commit_Raise in E4. split; [by eapply flush_Raise|].
    by eapply committed_after; [apply keeps_committed_flush| |].
Qed.
End recording.
