(* ===== verification/TestnetSubmit.v ===== *)
(** The endpoint [submit_testnet_order] of [api/v1/orders.py]: every check, the row
    committed before the request goes out, the request, and what each way of failing
    leaves behind. *)
From S2P Require Import Prelude PyStr PyDecimal PyValue Models Hash Session PgDatabase Tables Demo Logic OrderStateMachine ExecutionLog ExecutionRow Alerts Accounts TestnetGate WindowApproval RateLimit HttpClient TestnetRequest RiskEngine EmergencyStop TestnetPersistence.
From Stdlib Require Import Ascii.

Record TestnetOrderSubmitResponse := {
  rsp_execution_id : string; rsp_order_status : OrderExecutionStatus; rsp_idempotent_replay : bool;
  rsp_account : string; rsp_exchange : ExchangeName; rsp_client_order_id : string;
  rsp_request_method : string; rsp_request_path : string; rsp_approval_audit_log_id : string;
  rsp_approval_expires_at : Z; rsp_exchange_response : pyval }.

(** [None] is the [KeyError]. *)
Definition _testnet_order_request_path (e : ExchangeName) : option string :=
  match e with
  | BINANCE => Some "/api/v3/order"
  | BYBIT => Some "/v5/order/create"
  | OKX => Some "/api/v5/trade/order"
  | MOCK => None
  end.

Definition _testnet_submit_response (ctx : TestnetOrderApiContext) (e : OrderExecution) (replay : bool) :
    M TestnetOrderSubmitResponse :=
  match _testnet_order_request_path (acct_exchange (ctx_account ctx)) with
  | None => raise (KeyError (exchange_value (acct_exchange (ctx_account ctx))))
  | Some path =>
      mret {| rsp_execution_id := exe_execution_id e; rsp_order_status := exe_status e;
              rsp_idempotent_replay := replay; rsp_account := acct_id (ctx_account ctx);
              rsp_exchange := acct_exchange (ctx_account ctx);
              rsp_client_order_id := exe_client_order_id e; rsp_request_method := "POST";
              rsp_request_path := path;
              rsp_approval_audit_log_id := auth_audit_log_id (ctx_authorization ctx);
              rsp_approval_expires_at := auth_expires_at (ctx_authorization ctx);
              rsp_exchange_response :=
                match exe_exchange_response e with
                | Some v => if truthy v then v else VDict []
                | None => VDict []
                end |}
  end.

Definition exn_message (e : Exn) : string :=
  match e with
  | ValueError m | TestnetOrderIdempotencyConflictError m | TestnetOrderRiskRejectedError m
  | EmergencyStopEnabledError m => m
  | _ => ""
  end.

Section submit.
Context `{Database} `{Settings} `{Fernet} `{Redis} `{X : Exchange}.

Definition _record_testnet_submission_failure (submission : option TestnetSubmissionRecord)
    (failure_type : string) : M unit :=
  match submission with
  | Some sub =>
      if negb (sub_replay sub)
      then record_testnet_submission_failure (exe_id (sub_execution sub)) failure_type
      else mret tt
  | None => mret tt
  end.

(** The [except] clauses, in their order. *)
Definition submit_errors {A} (submission : option TestnetSubmissionRecord) (e : Exn) : option (M A) :=
  match e with
  | EmergencyStopEnabledError m => Some (raise (HTTPException 423 (VStr m) []))
  | _ =>
  if is_ValueError e then Some (raise (HTTPException 404 (VStr (exn_message e)) []))
  else match e with
  | TestnetOrderIdempotencyConflictError m => Some (raise (HTTPException 409 (VStr m) []))
  | TestnetOrderRiskRejectedError m => Some (raise (HTTPException 400 (VStr m) []))
  | TestnetOrderApiBlockedError reasons =>
      Some (raise (HTTPException 400 (VDict [("reasons", VList (map VStr reasons))]) []))
  | RateLimitStoreUnavailableError =>
      Some (_record_testnet_submission_failure submission "rate_limit_store_unavailable" ;;
            raise (HTTPException 503 (VStr "testnet order rate limit service unavailable") []))
  | RateLimitExceededError _ retry_after =>
      Some (_record_testnet_submission_failure submission "rate_limited" ;;
            raise (HTTPException 429 (VStr "testnet order rate limit exceeded")
                     [("Retry-After", str_of_Z retry_after)]))
  | _ =>
      if is_RuntimeError e
      then Some (_record_testnet_submission_failure submission "exchange_request_failed" ;;
                 raise (HTTPException 502 (VStr "testnet exchange request failed") []))
      else None
  end end.

(** Up to the row that is committed before anything is sent; [submission] is [None]
    whenever this part raises. *)
Definition prepare_submission (user : string) (payload : TestnetOrderSubmitRequest) :
    M (TestnetOrderApiContext * TestnetSubmissionRecord) :=
  assert_new_orders_allowed ;;
  context ← build_testnet_order_api_context user payload;
  submission ← create_or_get_testnet_submission_execution user context;
  mret (context, submission).

Definition send_submission (ctx : TestnetOrderApiContext) (execution : string) : M OrderExecution :=
  http_client ← lift (create_testnet_signed_http_client (acct_exchange (ctx_account ctx)));
  result ← execute_testnet_order (ctx_order ctx) (ctx_gate ctx) http_client (ctx_credentials ctx)
             (acct_id (ctx_account ctx));
  record_testnet_submission_accepted execution result.

Definition submit_testnet_order (current_user : User) (payload : TestnetOrderSubmitRequest) :
    M TestnetOrderSubmitResponse :=
  '(context, submission) ← try_except (prepare_submission (user_id current_user) payload) (submit_errors None);
  if sub_replay submission
  then try_except (_testnet_submit_response context (sub_execution submission) true)
         (submit_errors (Some submission))
  else
    execution ← try_except (send_submission context (exe_id (sub_execution submission)))
                  (submit_errors (Some submission));
    _testnet_submit_response context execution false.
End submit.

(** ** Sending *)

(** The world after some events. *)
Definition with_events (evs : list Event) (w : World) : World :=
  mkWorld (w_committed w) (w_tx w) (w_new w) (w_next w) (w_now w) (w_trace w ++ evs).

Definition is_redis (ev : Event) : Prop := ∃ c k, ev = EvRedis c k.

(** What the rate limiter may raise. *)
Definition rate_limit_exn (x : Exn) : Prop :=
  x = RateLimitStoreUnavailableError ∨ (∃ n r, x = RateLimitExceededError n r) ∨ ∃ m, x = KeyError m.

Section sending.
Context `{Database} `{Settings} `{Fernet} `{Redis} `{Exchange}.

Lemma with_events_app a b w : with_events b (with_events a w) = with_events (a ++ b) w.
Proof. unfold with_events. cbn. by rewrite app_assoc. Qed.

Lemma with_events_nil w : with_events [] w = w.
Proof. unfold with_events. rewrite app_nil_r. by destruct w. Qed.

(** A call of the limiter talks to Redis only. *)
Definition redis_only {A} (m : M A) : Prop :=
  ∀ w, ∃ evs o, m w = (o, with_events evs w) ∧ Forall is_redis evs ∧
    ∀ x, o = Raise x → rate_limit_exn x.

Lemma redis_only_ret {A} (a : A) : redis_only (mret a).
Proof. intros w. exists [], (Ok a). by rewrite with_events_nil. Qed.

Lemma redis_only_raise {A} x : rate_limit_exn x → redis_only (A:=A) (raise x).
Proof. intros Hx w. exists [], (Raise x). rewrite with_events_nil. repeat split; [done|]. by intros ? [= <-]. Qed.

Lemma redis_only_bind {A B} (m : M A) (k : A → M B) :
  redis_only m → (∀ a, redis_only (k a)) → redis_only (m ≫= k).
Proof.
  intros Hm Hk w. destruct (Hm w) as (evs & o & E & Hevs & Hx). rewrite run_bind, E.
  destruct o as [a|x].
  - destruct (Hk a (with_events evs w)) as (evs' & o & E' & Hevs' & Hx'). rewrite E', with_events_app.
    exists (evs ++ evs'), o. split; [done|]. split; [by apply Forall_app_2|done].
  - exists evs, (Raise x). split; [done|]. split; [done|]. intros y [= <-]. by apply Hx.
Qed.

Lemma redis_only_command {A} c k (reply : list Event → option A) : redis_only (redis_command c k reply).
Proof.
  intros w. exists [EvRedis c k]. unfold redis_command. rewrite run_bind. cbn.
  destruct (reply (w_trace w)) as [a|].
  - exists (Ok a). split; [done|]. split; [repeat constructor; by eexists _, _|done].
  - exists (Raise RateLimitStoreUnavailableError). split; [done|].
    split; [repeat constructor; by eexists _, _|]. intros x [= <-]. by left.
Qed.

Lemma redis_only_acquire e account path : redis_only (acquire_testnet_order None e account path).
Proof.
  unfold acquire_testnet_order. destruct (_testnet_order_rules e) as [rules|].
  2:{ apply redis_only_raise. right. right. eauto. }
  induction rules as [|rule rules IH]; cbn [acquire_rules]; [apply redis_only_ret|].
  apply redis_only_bind.
  - unfold redis_acquire. apply redis_only_bind; [apply redis_only_command|]. intros n.
    apply redis_only_bind.
    + destruct (n =? 1)%Z; [|apply redis_only_ret].
      apply redis_only_bind; [apply redis_only_command|]. intros _. apply redis_only_ret.
    + intros _. apply redis_only_bind; [apply redis_only_command|]. intros t. apply redis_only_ret.
  - intros win. destruct (rr_limit rule <? win_count win)%Z; [|done].
    cbn [_notify_rate_limit_blocked]. apply redis_only_bind; [apply redis_only_ret|].
    intros _. apply redis_only_raise. right. left. eauto.
Qed.
End sending.

(** Exceptions of sending an order. *)
Definition send_exn (x : Exn) : Prop :=
  rate_limit_exn x ∨ (∃ m, x = ValueError m) ∨ (∃ m, x = TestnetOrderRequestBlockedError m) ∨
  (∃ a b c, x = ExchangeHttpRequestError a b c).

Lemma prepare_exn o gate client c now x :
  prepare_testnet_order_request o gate client c now = Raise x → send_exn x.
Proof.
  unfold prepare_testnet_order_request, send_exn. destruct (approved gate); cbn [negb]; [|intros [= <-]; eauto].
  assert (∀ A (l : list (string * A)) f y, with_limit_price o l f = Raise y → ∃ m, y = ValueError m) as Hp.
  { unfold with_limit_price, _required_price. intros A l f y. destruct (ord_type o); [done|].
    destruct (ord_price o); [done|]. intros [= <-]. eauto. }
  assert (∀ now method path params body sec y, _prepare_private_request client now method path c params body sec = Raise y →
    ∃ m, y = ValueError m) as Hq.
  { unfold _prepare_private_request, _prepare_okx_request. intros. repeat case_match; simplify_eq; eauto. }
  destruct (ord_exchange o).
  - destruct (_binance_order_params o) eqn:E; cbn; [intros ?%Hq; eauto|]. intros [= <-]. apply Hp in E. eauto.
  - destruct (_okx_order_body o) eqn:E; cbn; [intros ?%Hq; eauto|]. intros [= <-]. apply Hp in E. eauto.
  - destruct (_bybit_order_body o) eqn:E; cbn; [intros ?%Hq; eauto|]. intros [= <-]. apply Hp in E. eauto.
  - intros [= <-]. eauto.
Qed.

Section outcome.
Context `{Database} `{Settings} `{Fernet} `{Redis} `{Exchange}.

(** The request of a submission, prepared at a moment. *)
Definition submission_request (ctx : TestnetOrderApiContext) (now : Z) (req : PreparedExchangeRequest) : Prop :=
  ∃ client, create_testnet_signed_http_client (acct_exchange (ctx_account ctx)) = Ok client ∧
    prepare_testnet_order_request (ctx_order ctx) (ctx_gate ctx) client (ctx_credentials ctx) now = Ok req.

(** The events of a submission: calls of the rate limiter, and at most one request,
    at the end, with what is committed at that moment. *)
Definition submission_events (ctx : TestnetOrderApiContext) (now : Z) (c : Db) (evs : list Event) : Prop :=
  Forall is_redis evs ∨
  ∃ evs1 req, Forall is_redis evs1 ∧ evs = evs1 ++ [EvHttp c req] ∧ submission_request ctx now req.

Lemma execute_cases ctx client w :
  create_testnet_signed_http_client (acct_exchange (ctx_account ctx)) = Ok client →
  ∃ evs o, execute_testnet_order (ctx_order ctx) (ctx_gate ctx) client (ctx_credentials ctx)
      (acct_id (ctx_account ctx)) w = (o, with_events evs w) ∧
    submission_events ctx (w_now w) (w_committed w) evs ∧
    match o with Ok _ => ¬ Forall is_redis evs | Raise x => send_exn x end.
Proof.
  intros Hclient. unfold execute_testnet_order. rewrite run_bind. cbn [now_utc gets]. rewrite run_bind. unfold lift at 1.
  destruct (prepare_testnet_order_request _ _ _ _ _) as [req|x] eqn:Ep.
  2:{ exists [], (Raise x). rewrite with_events_nil. split; [done|]. split; [by left|]. by eapply prepare_exn. }
  destruct (redis_only_acquire (ord_exchange (ctx_order ctx)) (acct_id (ctx_account ctx)) (req_path req) w)
    as (evs & o & Ea & Hevs & Hx).
  rewrite run_bind, Ea. destruct o as [[]|x].
  2:{ exists evs, (Raise x). split; [done|]. split; [by left|]. left. by apply Hx. }
  exists (evs ++ [EvHttp (w_committed w) req]). unfold transport_request. rewrite run_bind. 
  assert (submission_events ctx (w_now w) (w_committed w) (evs ++ [EvHttp (w_committed w) req])) as Hse.
  { right. exists evs, req. split; [done|]. split; [done|]. by exists client. }
  assert (¬ Forall is_redis (evs ++ [EvHttp (w_committed w) req])) as Hno.
  { rewrite Forall_app, Forall_singleton. by intros (_ & ? & ? & ?). }
  rewrite !run_bind. cbn [gets emit modify]. rewrite !run_bind. cbn [gets emit modify w_trace with_events w_committed].
  rewrite run_bind. cbn [emit modify]. 
  assert (∀ x : World, with_events [EvHttp (w_committed w) req] (with_events evs w) =
    with_events (evs ++ [EvHttp (w_committed w) req]) w) as Hwe by (intros; apply with_events_app).
  destruct (exchange_reply _ req) as [[v|]| |code body|]; cbn;
    (eexists; split; [f_equal; exact (Hwe w)|]; split; [done|]); unfold send_exn; eauto 10.
Qed.

(** How the sending of a submission can end, whose row [e] is committed as
    [SUBMITTED]. *)
Definition sending_outcome (ctx : TestnetOrderApiContext) (es : list OrderExecution) (ps : list Position)
    (tr : list Event) (e : OrderExecution) (w : World) (o : Outcome OrderExecution) (w' : World) : Prop :=
  ∃ evs e', submission_events ctx (w_now w) (w_committed w) evs ∧
    rows_committed (es ++ [e']) (tr ++ evs) w' ∧
    (∀ user ctx, submitted_for user ctx e → submitted_for user ctx e') ∧
    match o with
    | Ok x => x = e' ∧ exe_status e' = ACCEPTED ∧ ¬ Forall is_redis evs
    | Raise (HTTPException code _ _) =>
        code ∈ [429; 502; 503]%Z ∧ exe_status e' = FAILED ∨ code = 404%Z ∧ exe_status e' = SUBMITTED
    | Raise _ => exe_status e' = SUBMITTED
    end.

Lemma working_events {V} {view : Db → V} {v es e ps ts tr w} evs :
  working view v es e ps ts tr w → working view v es e ps ts (tr ++ evs) (with_events evs w).
Proof. intros []. split; try done. cbn. by f_equal. Qed.

(** The clauses that record a failure. *)
Lemma recording_clause {V} {view : Db → V} `{!Untouched OrderExecution view}
    `{!Untouched OrderExecutionTransition view} v es e ps tr w sub ft code detail headers :
  sub_execution sub = e → sub_replay sub = false → code ∈ [429; 502; 503]%Z →
  working view v es e ps [] tr w → rows_committed (es ++ [e]) tr w → exe_id e ≠ "" → exe_status e = SUBMITTED →
  match (_record_testnet_submission_failure (Some sub) ft ;; raise (A:=OrderExecution) (HTTPException code detail headers)) w with
  | (o, w') => ∃ e', rows_committed (es ++ [e']) tr w' ∧
      (∀ user ctx, submitted_for user ctx e → submitted_for user ctx e') ∧
      (o = Raise (HTTPException code detail headers) ∧ exe_status e' = FAILED ∨
       (o = Raise IntegrityError ∨ o = Raise DataError) ∧ exe_status e' = SUBMITTED)
  end.
Proof.
  intros <- Hrep Hcode Hw Hr Hne Hs. rewrite run_bind. unfold _record_testnet_submission_failure. rewrite Hrep.
  cbn [negb]. pose proof (failure_cases v es _ ps tr w ft Hw Hr Hne Hs) as Hc.
  destruct (record_testnet_submission_failure _ _ w) as [[[]|x] w'].
  - destruct Hc as (e' & [_ Hrw _ _ _ Htr] & Hcm & Hst & _ & Hsub). cbn. exists e'.
    split; [split; [by rewrite Hcm|done]|]. split; [done|]. left. done.
  - destruct Hc as [Hx Hc]. exists (sub_execution sub). split; [done|]. split; [done|]. right. split; [|done].
    destruct x; try done; auto.
Qed.

Lemma sending_cases {V} {view : Db → V} `{!Untouched OrderExecution view} `{!Untouched OrderExecutionTransition view}
    v es e ps tr w ctx sub :
  sub_execution sub = e → sub_replay sub = false →
  working view v es e ps [] tr w → rows_committed (es ++ [e]) tr w → exe_id e ≠ "" → exe_status e = SUBMITTED →
  sending_outcome ctx es ps tr e w
    (try_except (send_submission ctx (exe_id e)) (submit_errors (Some sub)) w).1
    (try_except (send_submission ctx (exe_id e)) (submit_errors (Some sub)) w).2.
Proof.
  intros Hsub Hrep Hw Hr Hne Hs. unfold try_except, send_submission, lift. rewrite run_bind.
  destruct (create_testnet_signed_http_client _) as [client|x] eqn:Ecl.
  2:{ unfold create_testnet_signed_http_client in Ecl. destruct (get_testnet_endpoint_config _); [done|].
      injection Ecl as <-. cbn. exists [], e. rewrite app_nil_r. split; [by left; constructor|]. done. }
  rewrite run_bind. destruct (execute_cases ctx client w Ecl) as (evs & o & -> & Hevs & Ho).
  pose proof (working_events evs Hw) as Hwe.
  assert (rows_committed (es ++ [e]) (tr ++ evs) (with_events evs w)) as Hre
    by (destruct Hr as [Hra Hrb]; split; [exact Hra|]; cbn; by rewrite Hrb).
  assert (∀ ft code detail headers, code ∈ [429; 502; 503]%Z →
    ∀ p, p = (_record_testnet_submission_failure (Some sub) ft ;;
       raise (A:=OrderExecution) (HTTPException code detail headers)) (with_events evs w) →
    sending_outcome ctx es ps tr e w p.1 p.2) as Hrec.
  { intros ft code detail headers Hc [o' w'] Hp.
    pose proof (recording_clause v es e ps _ _ sub ft code detail headers Hsub Hrep Hc Hwe Hre Hne Hs) as Hrc.
    rewrite <- Hp in Hrc. destruct Hrc as (e' & ? & ? & Hcase).
    exists evs, e'. split; [done|]. split; [done|]. split; [done|].
    destruct Hcase as [[-> ?]|[[-> | ->] ?]]; cbn; auto. }
  destruct o as [result|x].
  - pose proof (accepted_cases v es e ps _ _ result Hwe Hre Hne Hs) as Hacc.
    destruct (record_testnet_submission_accepted _ _ _) as [[e'|x] w'].
    + destruct Hacc as ([_ Hrw _ _ _ Htr] & Hcm & Hst & _ & Hf). exists evs, e'.
      split; [done|]. split; [split; cbn; [by rewrite Hcm|done]|]. done.
    + destruct Hacc as [[Hx Hrx]|[-> Hx]].
      * assert (submit_errors (A:=OrderExecution) (Some sub) x = None) as -> by (by destruct x).
        exists evs, e. split; [done|]. split; [done|]. split; [done|]. cbn. by destruct x.
      * destruct Hx as [->|[m ->]]; cbn.
        -- exists evs, e. done.
        -- refine (Hrec "exchange_request_failed" 502%Z _ [] _ _ eq_refl). set_solver.
  - destruct Ho as [[->|[(n & r & ->)|(m & ->)]]|[(m & ->)|[(m & ->)|(a & b & c & ->)]]]; cbn [submit_errors is_ValueError is_RuntimeError].
    + refine (Hrec "rate_limit_store_unavailable" 503%Z _ [] _ _ eq_refl). set_solver.
    + refine (Hrec "rate_limited" 429%Z _ _ _ _ eq_refl). set_solver.
    + exists evs, e. done.
    + exists evs, e. split; [done|]. split; [done|]. split; [done|]. right. done.
    + refine (Hrec "exchange_request_failed" 502%Z _ [] _ _ eq_refl). set_solver.
    + refine (Hrec "exchange_request_failed" 502%Z _ [] _ _ eq_refl). set_solver.
Qed.
End outcome.

(** ** A whole submission *)

Section submission.
Context `{Database} `{!DatabaseLaws} `{Settings} `{Fernet} `{Redis} `{Exchange}.

Definition unused (coid : string) (es : list OrderExecution) : Prop :=
  ∀ e, e ∈ es → exe_client_order_id e ≠ coid.

(** A submission that passed every check, on the database [d] the checks read. *)
Definition checked (user : string) (payload : TestnetOrderSubmitRequest) (w : World)
    (ctx : TestnetOrderApiContext) (settings : RiskSetting) (d : Db) : Prop :=
  unused (pl_client_order_id payload) (db_executions (w_committed w)) ∧ ¬ stop_active d ∧
  db_audit d = db_audit (w_committed w) ∧ context_valid user payload (w_now w) ctx settings d.

Lemma prepare_cases user payload w o w1 :
  ready w → prepare_submission user payload w = (o, w1) →
  let es := db_executions (w_committed w) in
  match o with
  | Raise x =>
      rows_committed es (w_trace w) w1 ∨
      ∃ ctx settings d e, checked user payload w ctx settings d ∧
        x = TestnetOrderRiskRejectedError "testnet order risk checks rejected the request" ∧
        rows_committed (es ++ [e]) (w_trace w) w1 ∧ exe_status e = REJECTED ∧ submitted_for user ctx e
  | Ok (ctx, sub) =>
      sub_replay sub = true ∧ rows_committed es (w_trace w) w1 ∧ sub_execution sub ∈ es ∧
        exe_client_order_id (sub_execution sub) = pl_client_order_id payload ∨
      ∃ settings d, checked user payload w ctx settings d ∧
        creation_outcome user ctx settings (gate_view d) es (w_trace w) (Ok sub) w1
  end.
Proof.
  intros (Hn & Hc & Hlog) E es. unfold prepare_submission in E.
  assert (rows_open es (w_trace w) w) as Hopen by (split; [by rewrite Hc|]; split; [by rewrite Hn|done]).
  rewrite run_bind in E. destruct (assert_new_orders_allowed w) as [[[]|x] w0] eqn:Ea.
  2:{ injection E as <- <-. left. assert (keeps_rows assert_new_orders_allowed) as Hk
        by (unfold assert_new_orders_allowed; keeps_rows_tac).
      specialize (Hk es (w_trace w) w Hopen). rewrite Ea in Hk. cbn in Hk. destruct (db_failure x); [done|].
      by apply rows_open_committed. }
  apply assert_new_orders_pass in Ea as [-> Hstop]. rewrite run_bind in E.
  pose proof (keeps_rows_context user payload es (w_trace w) w Hopen) as Hk.
  destruct (build_testnet_order_api_context user payload w) as [[ctx|x] w2] eqn:Ec; cbn in Hk.
  2:{ injection E as <- <-. left. destruct (db_failure x); [done|]. by apply rows_open_committed. }
  destruct (context_Ok _ _ _ _ _ Hn Ec) as (Hn2 & Hctl & Haud & Hnow & Hcm2 & settings & Hvalid).
  assert (¬ stop_active (w_tx w2)) as Hstop2 by (unfold stop_active in *; by rewrite Hctl).
  pose proof Hk as (Htx2 & _ & Hc2 & Ht2).
  pose proof Hvalid as (_ & _ & _ & Hord & _ & Hrisk & _).
  unfold create_or_get_testnet_submission_execution in E. rewrite run_bind, run_bind in E. cbn [db_scalar gets] in E.
  cbn [tbl OrderExecution_table] in E. rewrite Htx2, Hord in E. cbn [ord_client_order_id order_of] in E.
  destruct (find_first _ es) as [old|] eqn:Ef.
  - apply find_first_Some in Ef as [Hin Hcoid%String.eqb_eq].
    destruct (_ || _ || _).
    + injection E as <- <-. left. by apply rows_open_committed.
    + injection E as <- <-. left. split; [done|]. split; [by apply rows_open_committed|]. done.
  - assert (unused (pl_client_order_id payload) es) as Hunused.
    { intros e He Heq. rewrite find_first_None in Ef. specialize (Ef e He). by apply String.eqb_neq in Ef. }
    specialize (Hcm2 Hc). assert (unique_ids OrderExecution (w_tx w2)) as Hu2.
    { unfold unique_ids. cbn. rewrite Htx2. subst es. rewrite <- Hc. by apply log_inv_unique in Hlog. }
    pose proof (create_submission_cases user ctx settings w2 Hn2 (eq_sym Hcm2) Hu2 Hrisk) as Hcreate.
    rewrite Ht2, Htx2 in Hcreate.
    assert (checked user payload w ctx settings (w_tx w2)) as Hch
      by (split; [exact Hunused|]; split; [done|]; split; [by rewrite Haud, Hc|done]).
    destruct (create_submission user ctx w2) as [[sub|x] w3]; cbn [fst snd] in Hcreate; injection E as <- <-.
    + right. eauto.
    + destruct Hcreate as [Hr|(-> & e & Hr & Hst & Hsub)]; [by left|]. right.
      exists ctx, settings, (w_tx w2), e. done.
Qed.

Lemma submit_errors_none {A} x (h : M A) w : submit_errors None x = Some h → ∃ y, h w = (Raise y, w).
Proof.
  unfold submit_errors, _record_testnet_submission_failure.
  destruct x; cbn; try done; intros [= <-]; eauto.
Qed.

(** What a first submission leaves behind: its row, in a status that tells how far it
    came, and the events. *)
Definition first_submission (user : string) (payload : TestnetOrderSubmitRequest) (w : World)
    (o : Outcome TestnetOrderSubmitResponse) (w' : World) : Prop :=
  let es := db_executions (w_committed w) in
  ∃ ctx settings d e, checked user payload w ctx settings d ∧ submitted_for user ctx e ∧
    ((∃ detail h, o = Raise (HTTPException 400 detail h)) ∧ rows_committed (es ++ [e]) (w_trace w) w' ∧
       exe_status e = REJECTED ∨
     risk_allows (ctx_account ctx) settings (testnet_risk_input ctx) true ∧
     ∃ c e0 now evs, gate_view c = gate_view d ∧ db_executions c = es ++ [e0] ∧ exe_status e0 = SUBMITTED ∧
       submitted_for user ctx e0 ∧ submission_events ctx now c evs ∧
       rows_committed (es ++ [e]) (w_trace w ++ evs) w' ∧
       match o with
       | Ok r => rsp_order_status r = ACCEPTED ∧ rsp_execution_id r = exe_execution_id e ∧
           rsp_idempotent_replay r = false ∧ exe_status e = ACCEPTED ∧ ¬ Forall is_redis evs
       | Raise (HTTPException code _ _) =>
           code ∈ [429; 502; 503]%Z ∧ exe_status e = FAILED ∨ code = 404%Z ∧ exe_status e = SUBMITTED
       | Raise _ => exe_status e = SUBMITTED
       end).

Lemma submit_cases current_user payload w o w' :
  ready w → submit_testnet_order current_user payload w = (o, w') →
  let es := db_executions (w_committed w) in
  rows_committed es (w_trace w) w' ∧
    (∀ r, o = Ok r → rsp_idempotent_replay r = true ∧ ∃ e, e ∈ es ∧
       exe_client_order_id e = pl_client_order_id payload ∧ rsp_execution_id r = exe_execution_id e ∧
       rsp_order_status r = exe_status e) ∨
  first_submission (user_id current_user) payload w o w'.
Proof.
  intros Hready E es. unfold submit_testnet_order in E. rewrite run_bind in E. unfold try_except at 1 in E.
  pose proof (prepare_cases (user_id current_user) payload w) as Hp.
  destruct (prepare_submission _ _ w) as [[[ctx sub]|x] w1] eqn:Ep; specialize (Hp _ _ Hready eq_refl); cbv zeta in Hp; fold es in Hp.
  - destruct Hp as [(Hrep & Hrows & Hin & Hcoid)|(settings & d & Hch & Hrep & (ps & Hw) & Hcm & Hst & Hsub & Hne & Hrisk)].
    + left. rewrite Hrep in E. unfold try_except, _testnet_submit_response in E.
      destruct (_testnet_order_request_path _); cbn in E; injection E as <- <-; [|done].
      split; [done|]. intros r [= <-]. cbn. eauto 10.
    + right. rewrite Hrep in E. rewrite run_bind in E. pose proof Hw as [_ Hrw _ _ Hview Htr].
      assert (rows_committed (es ++ [sub_execution sub]) (w_trace w) w1) as Hr1 by (split; [by rewrite Hcm|done]).
      destruct (sending_cases _ _ _ _ _ _ ctx sub eq_refl Hrep Hw Hr1 Hne Hst) as (evs & e & Hevs & Hr2 & Hf & Hout).
      exists ctx, settings, d, e. split; [done|]. split; [auto|]. right. split; [done|].
      exists (w_committed w1), (sub_execution sub), (w_now w1), evs. rewrite Hcm at 1.
      split; [done|]. split; [by rewrite Hcm|]. do 3 (split; [done|]).
      destruct (try_except _ _ w1) as [[x|x] w2]; cbn [fst snd] in Hout, Hr2.
      * destruct Hout as (-> & Hacc & Hno). unfold _testnet_submit_response in E.
        destruct (_testnet_order_request_path _) eqn:Epath; injection E as <- <-; [done|].
        destruct Hch as (_ & _ & _ & _ & _ & _ & _ & _ & _ & (Hmock & _) & _).
        by destruct (acct_exchange (ctx_account ctx)).
      * injection E as <- <-. done.
  - assert (∃ y, o = Raise y ∧ w' = w1 ∧
      (x = TestnetOrderRiskRejectedError "testnet order risk checks rejected the request" →
       ∃ detail h, y = HTTPException 400 detail h)) as (y & -> & -> & Hy).
    { destruct (submit_errors None x) as [h|] eqn:Eh.
      - destruct (submit_errors_none _ _ w1 Eh) as [y Ey]. rewrite Ey in E. injection E as <- <-.
        exists y. split; [done|]. split; [done|]. intros ->. injection Eh as <-. injection Ey as <-. eauto.
      - injection E as <- <-. exists x. split; [done|]. split; [done|]. by intros ->. }
    destruct Hp as [Hr|(ctx & settings & d & e & Hch & Hx & Hr & Hst & Hsub)]; [by left|]. right.
    exists ctx, settings, d, e. split; [done|]. split; [done|]. left. split; [|done].
    destruct (Hy Hx) as (detail & h & ->). eauto.
Qed.
End submission.

(** ** The guarantees *)

Definition is_http (ev : Event) : bool := match ev with EvHttp _ _ => true | _ => false end.

(** What another session can read about an order at the moment its request goes out. *)
Definition request_allowed `{Settings} (user : string) (payload : TestnetOrderSubmitRequest)
    (before : Db) (now : Z) (c : Db) (req : PreparedExchangeRequest) : Prop :=
  ∃ account settings l p e,
    account ∈ db_accounts c ∧ acct_id account = pl_account payload ∧ acct_user account = user ∧
    ¬ stop_active c ∧
    gate_open (acct_exchange account) (acct_mode account) testnet_adapters_enabled
      (acct_trading_enabled account) (risk_trading_enabled settings) true (pl_confirmed payload) ∧
    settings ∈ db_risk c ∧ risk_account settings = acct_id account ∧
    risk_allows account settings (Build_RiskOrderInput (str_upper (pl_symbol payload)) (pl_side payload)
      (pl_quantity payload) (pl_price payload)) true ∧
    db_audit c = db_audit before ∧ l ∈ db_audit c ∧ approval_log user (acct_id account) l = true ∧
    pl_price payload = Some p ∧
    covers l (pl_symbol payload) (pl_side payload) (pl_quantity payload) p now ∧
    unused (pl_client_order_id payload) (db_executions before) ∧ db_executions c = db_executions before ++ [e] ∧
    exe_status e = SUBMITTED ∧ exe_client_order_id e = pl_client_order_id payload ∧
    exe_account e = acct_id account ∧
    (∃ cfg, get_testnet_endpoint_config (acct_exchange account) = Some cfg ∧
       req_url req = rstrip_slash (ep_rest_base_url cfg) +:+ req_path req) ∧
    request_client_order_id (acct_exchange account) req = Some (pl_client_order_id payload) ∧
    ∃ text q, request_quantity (acct_exchange account) req = Some text ∧
      decimal_of_str text = Some (PFin q) ∧ dec_eq q (pl_quantity payload).

Section guarantees.
Context `{Database} `{!DatabaseLaws} `{Settings} `{Fernet} `{Redis} `{X : Exchange}.

Lemma redis_no_http evs : Forall is_redis evs → List.filter is_http evs = [].
Proof. induction 1 as [|ev evs (c & k & ->) _ IH]; [done|exact IH]. Qed.

Lemma redis_not_http evs c req : Forall is_redis evs → EvHttp c req ∉ evs.
Proof. rewrite Forall_forall. intros Hevs Hin. by destruct (Hevs _ Hin) as (? & ? & ?). Qed.

(** A testnet order request goes out at most once per submission, and only when every
    guard holds on the committed data of that very moment: the stop is off, the gate is
    open for the user's own account, an unexpired recorded approval covers the order,
    the risk settings allow it, the client order id is new and its row is already
    committed as [SUBMITTED].  The request names that id and exactly the quantity. *)
Lemma testnet_request_guarded current_user payload w o w' :
  ready w → (d_coeff (pl_quantity payload) < prec_limit)%N →
  submit_testnet_order current_user payload w = (o, w') →
  ∃ evs, w_trace w' = w_trace w ++ evs ∧ (length (List.filter is_http evs) ≤ 1)%nat ∧
    ∀ c req, EvHttp c req ∈ evs →
      request_allowed (user_id current_user) payload (w_committed w) (w_now w) c req.
Proof.
  intros Hready Hq E.
  assert (∀ tr es, rows_committed es (w_trace w) tr → w_trace tr = w_trace w ++ []) as Hnil
    by (intros tr es [_ ->]; by rewrite app_nil_r).
  destruct (submit_cases _ _ _ _ _ Hready E)
    as [[Hr _]|(ctx & settings & d & e & (Hun & Hstop & Haud & Hval) & _ & [(_ & Hr & _)|(Hrisk & c & e0 & now & evs & Hg & Hrows & Hst & Hsub & Hevs & [_ Htr] & _)])].
  { exists []. split; [by eapply Hnil|]. cbn. split; [lia|]. by intros ? ? ?%elem_of_nil. }
  { exists []. split; [by eapply Hnil|]. cbn. split; [lia|]. by intros ? ? ?%elem_of_nil. }
  exists evs. split; [done|]. destruct Hevs as [Hred|(evs1 & req & Hred & -> & client & Hcl & Hprep)].
  { split; [by rewrite redis_no_http; [cbn; lia|]|]. intros c' req Hin. by apply redis_not_http in Hin. }
  rewrite List.filter_app, redis_no_http by done. split; [cbn; lia|].
  intros c' req' [Hin|Hin]%elem_of_app; [by apply redis_not_http in Hin|].
  apply list_elem_of_singleton in Hin. injection Hin as -> ->.
  unfold gate_view in Hg. injection Hg as Hga Hgu Hgr Hgc _. rewrite Haud in Hgu.
  destruct Hval as (Hacc & Hid & Hus & Hord & _ & Hfind & Hgate & l & p & Hl & Hlog & Hp & _ & Hcov).
  destruct Hsub as (_ & Hsacc & _ & Hscoid & _). rewrite Hord in Hscoid, Hprep. unfold testnet_risk_input in Hrisk.
  rewrite Hord in Hrisk.
  apply find_first_Some in Hfind as [Hset [_ Hseta%String.eqb_eq]%andb_true_iff].
  destruct (prepared_order (order_of (ctx_account ctx) payload) _ _ _ _ _ Hcl Hq Hprep)
    as (_ & _ & (cfg & Hcfg & Hurl & _) & Hrcoid & Hrq).
  exists (ctx_account ctx), settings, l, p, e0. rewrite Hga, Hgu, Hgr, <- Haud. unfold stop_active in *. rewrite Hgc.
  repeat (split; [done|]). split; [by exists cfg|done].
Qed.

(** C14. How a submission can end.  Either the committed executions are as before, and an
    answer is the replay of an earlier execution with the same client order id; or
    exactly one execution was added, and its status tells the outcome: [ACCEPTED] with
    the answer, [REJECTED] with 400, [FAILED] with 429, 502 or 503.  Only a 404 or an
    error that is no HTTP answer leaves it [SUBMITTED]. *)
Theorem testnet_submission_outcome current_user payload w o w' :
  ready w → submit_testnet_order current_user payload w = (o, w') →
  let es := db_executions (w_committed w) in
  db_executions (w_committed w') = es ∧
    (∀ r, o = Ok r → rsp_idempotent_replay r = true ∧ ∃ e, e ∈ es ∧
       exe_client_order_id e = pl_client_order_id payload ∧ rsp_execution_id r = exe_execution_id e ∧
       rsp_order_status r = exe_status e) ∨
  unused (pl_client_order_id payload) es ∧
  ∃ e, db_executions (w_committed w') = es ++ [e] ∧ exe_client_order_id e = pl_client_order_id payload ∧
    exe_user e = user_id current_user ∧ exe_account e = pl_account payload ∧
    match o with
    | Ok r => rsp_idempotent_replay r = false ∧ rsp_execution_id r = exe_execution_id e ∧
        rsp_order_status r = ACCEPTED ∧ exe_status e = ACCEPTED
    | Raise (HTTPException code _ _) =>
        code = 400%Z ∧ exe_status e = REJECTED ∨ code ∈ [429; 502; 503]%Z ∧ exe_status e = FAILED ∨
        code = 404%Z ∧ exe_status e = SUBMITTED
    | Raise _ => exe_status e = SUBMITTED
    end.
Proof.
  intros Hready E es.
  destruct (submit_cases _ _ _ _ _ Hready E)
    as [[[Hr _] Hrep]|(ctx & settings & d & e & (Hun & _ & _ & Hval) & (Hus & Hacc & _ & Hcoid & _) & Hcase)]; [by left|right].
  destruct Hval as (_ & Hid & _ & Hord & _). rewrite Hord in Hcoid. rewrite Hid in Hacc.
  split; [done|]. exists e.
  destruct Hcase as [((detail & h & ->) & [Hr _] & Hst)|(_ & c & e0 & now & evs & _ & _ & _ & _ & _ & [Hr _] & Hout)];
    (split; [exact Hr|]; do 3 (split; [done|])).
  - by left.
  - destruct o as [r|x]; [tauto|]. destruct x; try done. tauto.
Qed.

(** C18. A client order id that is taken is never submitted again: nothing is sent, no
    execution is added or changed, and an answer repeats the one that has the id. *)
Theorem testnet_submission_replay current_user payload w o w' e :
  ready w → submit_testnet_order current_user payload w = (o, w') →
  e ∈ db_executions (w_committed w) → exe_client_order_id e = pl_client_order_id payload →
  w_trace w' = w_trace w ∧ db_executions (w_committed w') = db_executions (w_committed w) ∧
  ∀ r, o = Ok r → rsp_idempotent_replay r = true ∧ ∃ e', e' ∈ db_executions (w_committed w) ∧
    exe_client_order_id e' = pl_client_order_id payload ∧ rsp_execution_id r = exe_execution_id e'.
Proof.
  intros Hready E Hin Hcoid.
  destruct (submit_cases _ _ _ _ _ Hready E) as [[[Hr Ht] Hrep]|(ctx & settings & d & e' & (Hun & _) & _)].
  - split; [done|]. split; [done|]. intros r Hr'. destruct (Hrep r Hr') as (? & e' & ? & ? & ? & _). eauto.
  - by destruct (Hun e Hin).
Qed.

Lemma keeps_log_context user payload : keeps_log (build_testnet_order_api_context user payload).
Proof.
  unfold build_testnet_order_api_context, get_owned_account, get_or_create_risk_settings,
    get_exchange_credentials, get_api_key_secret_metadata, decrypt_secret,
    require_valid_testnet_order_window_authorization.
  keeps_log_tac. apply keeps_try; [keeps_log_tac|].
  intros [] k; cbn; intros [= <-]; (split; [done|apply keeps_raise; done]).
Qed.

Lemma keeps_log_redis {A} (m : M A) : redis_only m → keeps_log m.
Proof.
  intros Hm w Hw. destruct (Hm w) as (evs & o & -> & _). cbn.
  destruct o as [a|x]; cbn; [done|]. destruct (db_failure x); [by apply log_inv_committed in Hw|done].
Qed.

Lemma keeps_log_submission user ctx : keeps_log (create_or_get_testnet_submission_execution user ctx).
Proof.
  unfold create_or_get_testnet_submission_execution, create_submission.
  apply keeps_bind; [apply keeps_gets|]. intros [e|]; [keeps_log_tac|].
  apply keeps_bind; [apply keeps_log_new_id|]. intros signal.
  apply keeps_bind; [apply keeps_log_add_flush|]. intros _.
  apply keeps_bind; [apply keeps_log_new_id|]. intros execution_id.
  apply (keeps_log_create (testnet_execution execution_id signal user ctx)); [done|]. intros id. unfold decide_submission, get_or_create_risk_settings. keeps_log_tac.
Qed.

Lemma keeps_log_accepted execution result : keeps_log (record_testnet_submission_accepted execution result).
Proof.
  unfold record_testnet_submission_accepted. apply keeps_bind; [apply keeps_log_load|]. intros e. cbv zeta.
  apply keeps_bind; [|intros _; case_match; [keeps_log_tac|]].
  { apply keeps_lift. unfold _raise_for_exchange_rejection, response_get. benign_tac. }
  keeps_log_tac.
  - apply keeps_lift. unfold _exchange_order_id, response_get. benign_tac.
  - apply keeps_log_update_execution. intros []. by match goal with |- context [exe_with_order_id ?o] => destruct o end.
Qed.

Lemma keeps_log_failure execution ft : keeps_log (record_testnet_submission_failure execution ft).
Proof. unfold record_testnet_submission_failure. keeps_log_tac. Qed.
#[local] Hint Resolve keeps_log_failure keeps_log_accepted : keeps_log.

Lemma keeps_log_submit_errors {A} sub x (h : M A) :
  submit_errors sub x = Some h → db_failure x = false ∧ keeps_log h.
Proof.
  unfold submit_errors, _record_testnet_submission_failure. destruct x; cbn; try done; intros [= <-];
    (split; [done|]); destruct sub as [s|]; cbn; try destruct (sub_replay s); cbn; keeps_log_tac.
Qed.

Lemma keeps_log_send ctx execution : keeps_log (send_submission ctx execution).
Proof.
  unfold send_submission, execute_testnet_order. apply keeps_bind.
  { apply keeps_lift. unfold create_testnet_signed_http_client. benign_tac. }
  intros client. apply keeps_bind; [|intros result; apply keeps_log_accepted].
  apply keeps_bind; [apply keeps_gets|]. intros now. apply keeps_bind.
  { apply keeps_lift. intros x Hx%prepare_exn.
    by destruct Hx as [[->|[(?&?& ->)|(? & ->)]]|[(? & ->)|[(? & ->)|(? & ? & ? & ->)]]]. }
  intros req. apply keeps_bind; [apply keeps_log_redis, redis_only_acquire|]. intros _.
  unfold transport_request. keeps_log_tac.
Qed.

Lemma keeps_log_submit current_user payload : keeps_log (submit_testnet_order current_user payload).
Proof.
  unfold submit_testnet_order. apply keeps_bind.
  - apply keeps_try; [|apply keeps_log_submit_errors]. unfold prepare_submission.
    apply keeps_bind; [unfold assert_new_orders_allowed; keeps_log_tac|]. intros _.
    apply keeps_bind; [apply keeps_log_context|]. intros ctx.
    apply keeps_bind; [apply keeps_log_submission|]. intros sub. apply keeps_ret.
  - intros [ctx sub]. destruct (sub_replay sub).
    + apply keeps_try; [|apply keeps_log_submit_errors]. unfold _testnet_submit_response. keeps_log_tac.
    + apply keeps_bind; [apply keeps_try; [apply keeps_log_send|apply keeps_log_submit_errors]|].
      intros e. unfold _testnet_submit_response. keeps_log_tac.
Qed.
End guarantees.

(** ** A concrete submission *)

(** A Redis server that counts nothing, and an exchange that accepts every order. *)
Definition demo_redis : Redis :=
  {| redis_incr _ _ := Some 1%Z; redis_expire _ _ _ := Some true; redis_ttl _ _ := Some 1%Z |}.
Definition accepting_exchange : Exchange :=
  {| exchange_reply _ _ := HttpOk (Some (VDict [("orderId", VInt 7); ("apiKey", VStr "K")])) |}.
(** An exchange whose answer is not JSON. *)
Definition garbled_exchange : Exchange := {| exchange_reply _ _ := HttpOk None |}.

#[local] Existing Instance demo_redis.

Definition open_key : ApiKeySecret :=
  Eval vm_compute in Build_ApiKeySecret "key-1" "user-1" "acct-test" (fernet_encrypt _fernet 0 "K")
    (fernet_encrypt _fernet 1 "S") None.
Definition open_log : AuditLog :=
  Build_AuditLog "audit-1" "user-1" (Some "acct-test") WINDOW_ACTION "WARNING"
    (window_payload demo_testnet_account "BTCUSDT" BUY (d10 1) (d10 100000) 5 TESTNET_ORDER_WINDOW_APPROVAL_ACK)
    1779999990000000.
Definition open_db : Db :=
  set_accounts [demo_testnet_account] (set_risk [demo_risk "risk-2" "acct-test"]
    (set_secrets [open_key] (set_audit [open_log] demo_db))).
Definition open_world : World := mkWorld open_db open_db empty_db 0 1780000000000000 [].
Definition demo_payload : TestnetOrderSubmitRequest :=
  Build_TestnetOrderSubmitRequest "acct-test" "BTCUSDT" BUY LIMIT (Dec false 1 (-1)) (Some (Dec false 60000 0))
    "order-1" true.

Lemma open_world_ready : ready open_world.
Proof. by apply ready_no_executions. Qed.

(** The decisions of a run, without its requests and rows. *)
Definition run_summary (p : Outcome TestnetOrderSubmitResponse * World) :
    option OrderExecutionStatus * option Z * list OrderExecutionStatus * nat :=
  (match p.1 with Ok r => Some (rsp_order_status r) | Raise _ => None end,
   match p.1 with Raise (HTTPException c _ _) => Some c | _ => None end,
   map exe_status (db_executions (w_committed p.2)), length (List.filter is_http (w_trace p.2))).

Example submission_accepted :
  run_summary (submit_testnet_order (X:=accepting_exchange) demo_user demo_payload open_world) =
  (Some ACCEPTED, None, [ACCEPTED], 1%nat).
Proof. vm_compute. reflexivity. Qed.

(** The answer is not JSON: the request was sent, the caller reads 404 and the row
    stays [SUBMITTED]. *)
Example submission_left_open :
  run_summary (submit_testnet_order (X:=garbled_exchange) demo_user demo_payload open_world) =
  (None, Some 404%Z, [SUBMITTED], 1%nat).
Proof. vm_compute. reflexivity. Qed.

(** The run of an accepted submission, and the session after it. *)
Definition accepted_run : Outcome TestnetOrderSubmitResponse * World :=
  Eval vm_compute in submit_testnet_order (X:=accepting_exchange) demo_user demo_payload open_world.

Lemma accepted_run_eq :
  submit_testnet_order (X:=accepting_exchange) demo_user demo_payload open_world = (accepted_run.1, accepted_run.2).
Proof. vm_compute. reflexivity. Qed.

Definition submitted_world : World := close accepted_run.2.

Lemma submitted_world_ready : ready submitted_world.
Proof.
  pose proof (keeps_log_submit (X:=accepting_exchange) demo_user demo_payload _ (proj2 (proj2 open_world_ready))) as Hlog.
  rewrite accepted_run_eq in Hlog. apply ready_close, log_inv_committed. exact Hlog.
Qed.

Lemma testnet_submission_outcome_witness :
  ∃ e, db_executions (w_committed accepted_run.2) = [e] ∧ exe_status e = ACCEPTED.
Proof.
  destruct (testnet_submission_outcome (X:=accepting_exchange) demo_user demo_payload open_world _ _ open_world_ready
    accepted_run_eq) as [[Hsame _]|(_ & e & He & _ & _ & _ & Hst)].
  - discriminate Hsame.
  - exists e. split; [exact He|apply Hst].
Defined.

Definition replayed_run : Outcome TestnetOrderSubmitResponse * World :=
  Eval vm_compute in submit_testnet_order (X:=garbled_exchange) demo_user demo_payload submitted_world.

Lemma replayed_run_eq :
  submit_testnet_order (X:=garbled_exchange) demo_user demo_payload submitted_world = (replayed_run.1, replayed_run.2).
Proof. vm_compute. reflexivity. Qed.

Lemma testnet_submission_replay_witness :
  ∃ r, replayed_run.1 = Ok r ∧ rsp_order_status r = ACCEPTED ∧ rsp_idempotent_replay r = true ∧
    w_trace replayed_run.2 = w_trace submitted_world.
Proof.
  eexists. split; [reflexivity|]. split; [reflexivity|]. split; [reflexivity|].
  eapply (testnet_submission_replay (X:=garbled_exchange) demo_user demo_payload submitted_world _ _ _
    submitted_world_ready replayed_run_eq); [left|reflexivity].
Defined.
