(* ===== verification/Lifecycle.v ===== *)
(** [services/testnet_order_lifecycle.py] and the event classification of
    [services/testnet_user_stream_runtime.py]: what an exchange reports about an order,
    from a private stream or a REST lookup, is normalised and applied to the execution
    it belongs to.  The digits a NaN may carry are not kept. *)
From S2P Require Import Prelude PyStr PyDecimal PyValue Models Session PgDatabase Tables Demo Logic OrderStateMachine ExecutionLog ExecutionRow TestnetRequest TestnetSubmit.
From Stdlib Require Import Ascii.

(** ** Events of a private stream *)

Inductive TestnetUserStreamEventType := EV_ORDER | EV_BALANCE | EV_POSITION | EV_UNKNOWN.

#[export] Instance TestnetUserStreamEventType_eq_dec : EqDecision TestnetUserStreamEventType.
Proof. solve_decision. Defined.

Record TestnetUserStreamEvent := {
  use_exchange : ExchangeName; use_type : TestnetUserStreamEventType; use_payload : dict }.

(** Testing an unhashable value for membership in a set raises [TypeError]. *)
Definition _binance_event_type (payload : dict) : Outcome TestnetUserStreamEventType :=
  let name := dict_get "e" payload in
  if negb (hashable name) then Raise (TypeError "unhashable type")
  else if py_eq_str name "executionReport" || py_eq_str name "listStatus" then Ok EV_ORDER
  else if py_eq_str name "outboundAccountPosition" || py_eq_str name "balanceUpdate" then Ok EV_BALANCE
  else Ok EV_UNKNOWN.

Definition _bybit_event_type (payload : dict) : TestnetUserStreamEventType :=
  let topic := py_str (dict_get_default "topic" (VStr "") payload) in
  if startswith "order" topic || startswith "execution" topic then EV_ORDER
  else if startswith "wallet" topic then EV_BALANCE
  else if startswith "position" topic then EV_POSITION
  else EV_UNKNOWN.

Definition _okx_event_type (payload : dict) : TestnetUserStreamEventType :=
  match dict_get "arg" payload with
  | VDict arg =>
      let channel := dict_get "channel" arg in
      if py_eq_str channel "orders" then EV_ORDER
      else if py_eq_str channel "account" then EV_BALANCE
      else if py_eq_str channel "positions" then EV_POSITION
      else EV_UNKNOWN
  | _ => EV_UNKNOWN
  end.

Definition _event_type (e : ExchangeName) (payload : dict) : Outcome TestnetUserStreamEventType :=
  match e with
  | BINANCE => _binance_event_type payload
  | BYBIT => Ok (_bybit_event_type payload)
  | OKX => Ok (_okx_event_type payload)
  | MOCK => Ok EV_UNKNOWN
  end.

Definition parse_testnet_user_stream_event (e : ExchangeName) (payload : dict) : Outcome TestnetUserStreamEvent :=
  outcome_bind (_event_type e payload) (λ t, Ok (Build_TestnetUserStreamEvent e t payload)).

(** ** Normalisation *)

Record NormalizedTestnetOrderEvent := {
  nev_exchange : ExchangeName; nev_client_order_id : option string;
  nev_exchange_order_id : option string; nev_status : OrderExecutionStatus;
  nev_event_id : option string; nev_filled_quantity : option pydec }.

Definition invalid_event {A} (m : string) : Outcome A := Raise (TestnetOrderEventValidationError m).

Definition _status (raw : pyval) (mapping : list (string * OrderExecutionStatus)) : Outcome OrderExecutionStatus :=
  match dict_lookup (py_str raw) mapping with
  | Some s => Ok s
  | None => invalid_event "unsupported testnet order status"
  end.

Definition _first_mapping (v : pyval) : Outcome dict :=
  match v with
  | VList (VDict row :: _) => Ok row
  | _ => invalid_event "testnet order event data is missing"
  end.

Definition _optional_decimal (v : pyval) : Outcome (option pydec) :=
  match v with
  | VNone => Ok None
  | _ =>
      if py_eq_str v "" then Ok None
      else match decimal_of_str (py_str v) with
           | Some d => Ok (Some d)
           | None => invalid_event "invalid filled quantity"
           end
  end.

Definition BINANCE_STATUSES : list (string * OrderExecutionStatus) :=
  [("NEW", ACCEPTED); ("PENDING_NEW", SUBMITTED); ("PARTIALLY_FILLED", PARTIALLY_FILLED);
   ("FILLED", FILLED); ("CANCELED", CANCELLED); ("REJECTED", REJECTED); ("EXPIRED", TIMEOUT);
   ("EXPIRED_IN_MATCH", TIMEOUT)].
Definition BYBIT_STATUSES : list (string * OrderExecutionStatus) :=
  [("New", ACCEPTED); ("PartiallyFilled", PARTIALLY_FILLED); ("Filled", FILLED);
   ("Cancelled", CANCELLED); ("Rejected", REJECTED); ("Deactivated", CANCELLED)].
Definition OKX_STATUSES : list (string * OrderExecutionStatus) :=
  [("live", ACCEPTED); ("partially_filled", PARTIALLY_FILLED); ("filled", FILLED);
   ("canceled", CANCELLED); ("mmp_canceled", CANCELLED)].

(** The fields of an event, in the order the constructor's arguments are evaluated. *)
Definition normalized (e : ExchangeName) (client exchange status : pyval)
    (table : list (string * OrderExecutionStatus)) (event_id filled : pyval) :
    Outcome NormalizedTestnetOrderEvent :=
  outcome_bind (_status status table) (λ s,
  outcome_bind (_optional_decimal filled) (λ q,
    Ok (Build_NormalizedTestnetOrderEvent e (optional_text client) (optional_text exchange) s
          (optional_text event_id) q))).

(** [a or b] *)
Definition py_or (a b : pyval) : pyval := if truthy a then a else b.

Definition _normalize_binance (payload : dict) : Outcome NormalizedTestnetOrderEvent :=
  if negb (py_eq_str (dict_get "e" payload) "executionReport") then invalid_event "invalid Binance order event"
  else normalized BINANCE (dict_get "c" payload) (dict_get "i" payload) (dict_get "X" payload)
         BINANCE_STATUSES (dict_get "E" payload) (dict_get "z" payload).

Definition _normalize_bybit (payload : dict) : Outcome NormalizedTestnetOrderEvent :=
  outcome_bind (_first_mapping (dict_get "data" payload)) (λ row,
    normalized BYBIT (dict_get "orderLinkId" row) (dict_get "orderId" row) (dict_get "orderStatus" row)
      BYBIT_STATUSES (py_or (dict_get "id" payload) (dict_get "creationTime" payload))
      (dict_get "cumExecQty" row)).

Definition _normalize_okx (payload : dict) : Outcome NormalizedTestnetOrderEvent :=
  outcome_bind (_first_mapping (dict_get "data" payload)) (λ row,
    normalized OKX (dict_get "clOrdId" row) (dict_get "ordId" row) (dict_get "state" row)
      OKX_STATUSES (py_or (dict_get "uTime" row) (dict_get "cTime" row)) (dict_get "accFillSz" row)).

Definition normalize_testnet_user_stream_order_event (e : ExchangeName) (payload : dict) :
    Outcome NormalizedTestnetOrderEvent :=
  match e with
  | BINANCE => _normalize_binance payload
  | BYBIT => _normalize_bybit payload
  | OKX => _normalize_okx payload
  | MOCK => invalid_event "unsupported testnet order event exchange"
  end.

Definition _normalize_binance_rest (payload : dict) : Outcome NormalizedTestnetOrderEvent :=
  normalized BINANCE (dict_get "clientOrderId" payload) (dict_get "orderId" payload)
    (dict_get "status" payload) BINANCE_STATUSES (dict_get "updateTime" payload)
    (dict_get "executedQty" payload).

Definition _normalize_bybit_rest (payload : dict) : Outcome NormalizedTestnetOrderEvent :=
  if negb (none_or_zero (dict_get "retCode" payload))
  then invalid_event "Bybit REST order lookup was rejected"
  else _normalize_bybit [("data", dict_get "list" (mapping (dict_get "result" payload)))].

Definition _normalize_okx_rest (payload : dict) : Outcome NormalizedTestnetOrderEvent :=
  if negb (none_or_zero (dict_get "code" payload))
  then invalid_event "OKX REST order lookup was rejected"
  else _normalize_okx [("data", dict_get "data" payload)].

(** A REST answer may be any JSON value; only a dictionary has [get]. *)
Definition normalize_testnet_rest_order_status (e : ExchangeName) (payload : pyval) :
    Outcome NormalizedTestnetOrderEvent :=
  match e with
  | MOCK => invalid_event "unsupported testnet REST order exchange"
  | _ =>
      match payload with
      | VDict l =>
          match e with
          | BINANCE => _normalize_binance_rest l
          | BYBIT => _normalize_bybit_rest l
          | _ => _normalize_okx_rest l
          end
      | _ => Raise (AttributeError "get")
      end
  end.

(** ** Applying an event *)

Record TestnetOrderLifecycleResult := {
  lcr_matched : bool; lcr_transitioned : bool; lcr_duplicate : bool; lcr_ignored : bool;
  lcr_execution_id : option string; lcr_status : option OrderExecutionStatus; lcr_reason : string }.

Definition pydec_str (d : pydec) : string :=
  match d with
  | PFin d => dec_str d
  | PInf neg => sign_text neg +:+ "Infinity"
  | PNaN neg quiet => sign_text neg +:+ (if quiet then "NaN" else "sNaN")
  end.

(** [if text:] *)
Definition some_text (o : option string) : bool :=
  match o with Some s => negb (String.eqb s "") | None => false end.

Definition _safe_transition_details (ev : NormalizedTestnetOrderEvent) : dict :=
  [("exchange", VStr (exchange_value (nev_exchange ev)))] ++
  (if some_text (nev_event_id ev) then [("event_id", VStr (default "" (nev_event_id ev)))] else []) ++
  match nev_filled_quantity ev with
  | Some q => [("filled_quantity", VStr (pydec_str q))]
  | None => []
  end.

Definition _ignored_result (reason : string) : TestnetOrderLifecycleResult :=
  Build_TestnetOrderLifecycleResult false false false true None None reason.

Definition _execution_result (e : OrderExecution) (transitioned duplicate ignored : bool) (reason : string) :
    TestnetOrderLifecycleResult :=
  Build_TestnetOrderLifecycleResult true transitioned duplicate ignored (Some (exe_execution_id e))
    (Some (exe_status e)) reason.

(** Which executions an event of the user's account is about. *)
Definition event_matches (user account : string) (ev : NormalizedTestnetOrderEvent) (e : OrderExecution) : bool :=
  String.eqb (exe_user e) user && String.eqb (exe_account e) account &&
  String.eqb (exe_exchange_name e) (exchange_value (nev_exchange ev)) &&
  (some_text (nev_client_order_id ev) && bool_decide (nev_client_order_id ev = Some (exe_client_order_id e)) ||
   some_text (nev_exchange_order_id ev) && bool_decide (nev_exchange_order_id ev = exe_exchange_order_id e)).

Definition exe_with_exchange_order_id (id : option string) (e : OrderExecution) : OrderExecution :=
  Build_OrderExecution (exe_id e) (exe_user e) (exe_signal e) (exe_execution_id e) (exe_account e)
    (exe_exchange_name e) (exe_client_order_id e) id (exe_symbol e) (exe_side e) (exe_order_type e)
    (exe_price e) (exe_quantity e) (exe_status e) (exe_risk_result e) (exe_exchange_response e)
    (exe_error_message e).

(** The exchange's own id is taken over where the row has none. *)
Definition take_order_id (id : option string) (e : OrderExecution) : OrderExecution :=
  if some_text id && negb (some_text (exe_exchange_order_id e)) then exe_with_exchange_order_id id e else e.

Section lifecycle.
Context `{Database}.

Definition _find_execution (user account : string) (ev : NormalizedTestnetOrderEvent) :
    M (option OrderExecution) :=
  if negb (some_text (nev_client_order_id ev)) && negb (some_text (nev_exchange_order_id ev))
  then raise (TestnetOrderEventValidationError "order event has no usable identifier")
  else db_scalar (event_matches user account ev).

(** [try: transition_order_execution(...) except InvalidOrderStateTransitionError],
    [true] where it went through. *)
Definition try_transition (execution : string) (s : OrderExecutionStatus) (reason : string) (details : dict) :
    M bool :=
  try_except (transition_order_execution execution s reason (Some details) ;; mret true)
    (λ x, match x with InvalidOrderStateTransitionError _ => Some (mret false) | _ => None end).

Definition apply_order_event (user account : string) (ev : NormalizedTestnetOrderEvent)
    (transition_reason : string) : M TestnetOrderLifecycleResult :=
  execution ← _find_execution user account ev;
  match execution with
  | None => mret (_ignored_result "owned_order_execution_not_found")
  | Some e =>
      if bool_decide (exe_status e = nev_status ev)
      then mret (_execution_result e false true true "duplicate_order_event")
      else
        transitioned ← try_transition (exe_id e) (nev_status ev) transition_reason
                         (_safe_transition_details ev);
        if negb transitioned
        then mret (_execution_result e false false true "stale_or_invalid_order_event")
        else
          db_update (exe_id e) (take_order_id (nev_exchange_order_id ev)) ;;
          commit ;;
          e' ← load_execution (exe_id e);
          mret (_execution_result e' true false false "order_status_transitioned")
  end.

Definition handle_user_stream_event (user account : string) (event : TestnetUserStreamEvent) :
    M TestnetOrderLifecycleResult :=
  if negb (bool_decide (use_type event = EV_ORDER)) then mret (_ignored_result "non_order_event")
  else
    ev ← lift (normalize_testnet_user_stream_order_event (use_exchange event) (use_payload event));
    apply_order_event user account ev "testnet_user_stream_event".
End lifecycle.

Lemma benign_normalized e a b s t i q : benign (normalized e a b s t i q).
Proof. unfold normalized, _status, _optional_decimal, invalid_event. benign_tac. Qed.
#[export] Hint Resolve benign_normalized : benign.

Lemma benign_bybit p : benign (_normalize_bybit p).
Proof. unfold _normalize_bybit, _first_mapping, invalid_event. benign_tac. Qed.
Lemma benign_okx p : benign (_normalize_okx p).
Proof. unfold _normalize_okx, _first_mapping, invalid_event. benign_tac. Qed.
#[export] Hint Resolve benign_bybit benign_okx : benign.

Lemma benign_stream e p : benign (normalize_testnet_user_stream_order_event e p).
Proof. unfold normalize_testnet_user_stream_order_event, _normalize_binance, invalid_event. benign_tac. Qed.
Lemma benign_rest e v : benign (normalize_testnet_rest_order_status e v).
Proof.
  unfold normalize_testnet_rest_order_status, _normalize_binance_rest, _normalize_bybit_rest,
    _normalize_okx_rest, invalid_event. benign_tac.
Qed.
Lemma benign_parse e p : benign (parse_testnet_user_stream_event e p).
Proof. unfold parse_testnet_user_stream_event, _event_type, _binance_event_type. benign_tac. Qed.
#[export] Hint Resolve benign_stream benign_rest benign_parse : benign.

(** ** What an event does *)

Section effects.
Context `{Database} `{!DatabaseLaws}.

Definition by_id (id : string) (x : OrderExecution) : bool := String.eqb (exe_id x) id.

(** Fields an event never changes. *)
Definition same_order (e e' : OrderExecution) : Prop :=
  exe_id e' = exe_id e ∧ exe_user e' = exe_user e ∧ exe_signal e' = exe_signal e ∧
  exe_execution_id e' = exe_execution_id e ∧ exe_account e' = exe_account e ∧
  exe_exchange_name e' = exe_exchange_name e ∧ exe_client_order_id e' = exe_client_order_id e ∧
  exe_symbol e' = exe_symbol e ∧ exe_side e' = exe_side e ∧
  exe_exchange_response e' = exe_exchange_response e.

Lemma try_transition_run w e s reason details o w' :
  w_new w = empty_db → find_first (by_id (exe_id e)) (db_executions (w_tx w)) = Some e → exe_id e ≠ "" →
  try_transition (exe_id e) s reason details w = (o, w') →
  if transition_allowed (exe_status e) s
  then o = Raise DataError ∧ w' = w ∨
    ∃ r t, o = Ok true ∧ stored (exe_with_status s e) r ∧
      w' = set_new (set_transitions [t] empty_db) (set_next (S (w_next w))
             (set_tx (set_executions (update_where (by_id (exe_id e)) (λ _, r) (db_executions (w_tx w))) (w_tx w)) w))
  else o = Ok false ∧ w' = w.
Proof.
  intros Hn Hf Hne E. unfold try_transition, try_except, transition_order_execution in E.
  rewrite !run_bind, (load_run _ _ _ Hf) in E.
  destruct (transition_allowed (exe_status e) s); cbn [negb] in E; [|by injection E as <- <-].
  rewrite run_bind in E. unfold db_update in E at 1. cbn [tbl OrderExecution_table row_id] in E. fold (by_id (exe_id e)) in E.
  change (λ r : OrderExecution, String.eqb (exe_id r) (exe_id e)) with (by_id (exe_id e)) in E.
  rewrite Hf in E. destruct (row_store numeric_column (exe_with_status s e)) as [r|] eqn:Est.
  2:{ injection E as <- <-. by left. }
  right. assert (exe_id r = exe_id e) as Hid by (by apply store_execution_keeps in Est as (-> & _)).
  cbn [set_tbl OrderExecution_table] in E.
  match type of E with context [_add_transition _ _ _ _ _ ?w0] => set (w1 := w0) in E end.
  assert (find_first (by_id (exe_id e)) (db_executions (w_tx w1)) = Some r) as Hf1.
  { subst w1. unfold by_id in *. cbn. rewrite find_first_update_found, Hf; [done|]. by rewrite Hid, String.eqb_refl. }
  destruct (add_transition_run (exe_id e) (Some (exe_status e)) s reason (Some details) w1 r Hf1) as (t & Et & _);
    [by rewrite Hid|].
  rewrite Et in E. cbn in E. injection E as <- <-. exists r, t. split; [done|]. split; [done|].
  subst w1. unfold set_tx, set_new. cbn. by rewrite Hn.
Qed.

Lemma ready_unique w : ready w → NoDup (exe_id <$> db_executions (w_tx w)).
Proof. intros (_ & _ & Hlog). by apply log_inv_unique in Hlog. Qed.

Lemma ready_id w e : ready w → e ∈ db_executions (w_tx w) → exe_id e ≠ "".
Proof. intros (_ & _ & (_ & _ & Hk & _) & _) He. destruct (Hk e He) as (k & _ & ->). apply new_uuid_nonempty. Qed.

(** What is committed when an event moves execution [e]. *)
Definition moved_execution (ev : NormalizedTestnetOrderEvent) (e e' : OrderExecution) (w w' : World) : Prop :=
  same_order e e' ∧ exe_status e' = nev_status ev ∧
  (some_text (nev_exchange_order_id ev) = true → some_text (exe_exchange_order_id e) = false →
   exe_exchange_order_id e' = nev_exchange_order_id ev) ∧
  (some_text (exe_exchange_order_id e) = true → exe_exchange_order_id e' = exe_exchange_order_id e) ∧
  w_new w' = empty_db ∧ w_tx w' = w_committed w' ∧ db_positions (w_tx w') = db_positions (w_tx w) ∧
  db_executions (w_tx w') = update_where (by_id (exe_id e)) (λ _, e') (db_executions (w_tx w)).

Lemma update_where_twice id (r r' : OrderExecution) l :
  exe_id r = id →
  update_where (by_id id) (λ _, r') (update_where (by_id id) (λ _, r) l) = update_where (by_id id) (λ _, r') l.
Proof.
  intros Hid. unfold update_where. rewrite List.map_map. apply List.map_ext. intros x. unfold by_id.
  destruct (String.eqb (exe_id x) id) eqn:E; [by rewrite Hid, String.eqb_refl | by rewrite E].
Qed.

Lemma apply_cases user account ev reason w r w' :
  ready w → apply_order_event user account ev reason w = (Ok r, w') →
  w_trace w' = w_trace w ∧
  match find_first (event_matches user account ev) (db_executions (w_tx w)) with
  | None => w' = w ∧ r = _ignored_result "owned_order_execution_not_found"
  | Some e =>
      if bool_decide (exe_status e = nev_status ev)
      then w' = w ∧ r = _execution_result e false true true "duplicate_order_event"
      else if transition_allowed (exe_status e) (nev_status ev)
      then ∃ e', r = _execution_result e' true false false "order_status_transitioned" ∧
             moved_execution ev e e' w w'
      else w' = w ∧ r = _execution_result e false false true "stale_or_invalid_order_event"
  end.
Proof.
  intros Hready E. pose proof Hready as (Hn & Hc & Hlog). unfold apply_order_event in E.
  apply bind_Ok_inv in E as (found & w1 & Ef & E). unfold _find_execution in Ef.
  destruct (_ && _) in Ef; [done|]. injection Ef as <- <-. cbn [tbl OrderExecution_table] in E.
  destruct (find_first (event_matches user account ev) _) as [e|] eqn:Ef; [|by injection E as <- <-].
  case_bool_decide; [by injection E as <- <-|].
  apply find_first_Some in Ef as [He Hm]. pose proof (ready_id _ _ Hready He) as Hne.
  assert (find_first (by_id (exe_id e)) (db_executions (w_tx w)) = Some e) as Hf
    by (apply (find_first_key exe_id); [by apply ready_unique|done]).
  apply bind_Ok_inv in E as (b & w1 & Et & E). apply try_transition_run in Et; [|done..].
  destruct (transition_allowed (exe_status e) (nev_status ev)).
  2:{ destruct Et as [[= ->] ->]. by injection E as <- <-. }
  destruct Et as [[[=] _]|(r1 & t & [= ->] & Hst1 & ->)]. cbn [negb] in E.
  assert (exe_id r1 = exe_id e) as Hid1 by (by apply store_execution_keeps in Hst1 as (-> & _)).
  apply bind_Ok_inv in E as ([] & w2 & Eu & E). apply db_update_Ok in Eu as (r1' & e' & Hf1 & Hst2 & ->).
  cbn in Hf1. unfold by_id in Hf1, Hf. rewrite find_first_update_found, Hf in Hf1 by (by rewrite Hid1, String.eqb_refl).
  injection Hf1 as <-.
  apply bind_Ok_inv in E as ([] & w3 & Ec & E).
  match type of Ec with commit ?w0 = (_, ?w1) =>
    pose proof (commit_only_Ok (R:=OrderExecutionTransition) [t] w0 w1) as Hc' end.
  destruct Hc' as (ts & _ & _ & ->); [done..|].
  apply bind_Ok_inv in E as (e2 & w4 & El & E). injection E as <- <-.
  apply load_Ok in El as [-> Hf2]. split; [done|]. cbn in Hf2.
  apply store_execution_fields in Hst1 as (p1 & q1 & _ & ->). cbn in Hid1.
  apply store_execution_fields in Hst2 as (p2 & q2 & _ & Hst2).
  assert (exe_id e' = exe_id e) as Hid' by (rewrite Hst2; unfold take_order_id; by case_match).
  fold (by_id (exe_id e)) in *. 
  match type of Hst2 with e' = Build_OrderExecution (exe_id (take_order_id _ ?r)) _ _ _ _ _ _ _ _ _ _ _ _ _ _ _ _ =>
    set (r1 := r) in Hst2 end.
  assert (find_first (by_id (exe_id e)) (update_where (by_id (exe_id e)) (λ _, e')
    (update_where (by_id (exe_id e)) (λ _, r1) (db_executions (w_tx w)))) = Some e2) as Hf3 by exact Hf2.
  clear Hf2. rename Hf3 into Hf2. rewrite (update_where_twice (exe_id e) r1 e') in Hf2 by done.
  rewrite find_first_update_found in Hf2 by (unfold by_id; by rewrite Hid', String.eqb_refl).
  change (find_first (by_id (exe_id e)) (db_executions (w_tx w)) = Some e) in Hf.
  rewrite Hf in Hf2. injection Hf2 as <-. exists e'. split; [done|].
  assert (exe_id r1 = exe_id e) as Hr1 by done.
  assert (same_order e e' ∧ exe_status e' = nev_status ev ∧
    exe_exchange_order_id e' = exe_exchange_order_id (take_order_id (nev_exchange_order_id ev) r1)) as (Hso & Hs & Ho).
  { rewrite Hst2. unfold take_order_id. destruct (some_text _ && _); done. }
  split; [done|]. split; [done|].
  split; [intros Ha Hb; rewrite Ho; unfold take_order_id; change (exe_exchange_order_id r1) with (exe_exchange_order_id e); by rewrite Ha, Hb|].
  split; [intros Hb; rewrite Ho; unfold take_order_id; change (exe_exchange_order_id r1) with (exe_exchange_order_id e); rewrite Hb; by rewrite andb_false_r|].
  split; [done|]. split; [done|]. split; [done|]. cbn. by apply (update_where_twice (exe_id e) r1 e').
Qed.

(** C17. An event does one of five things, told by the result: it finds no execution of
    the user's account, repeats the status the execution has, is refused by the
    transition table, or moves exactly the execution it matches - keeping everything
    that identifies the order and every position - and commits that. *)
Theorem lifecycle_apply_spec user account ev reason w r w' :
  ready w → apply_order_event user account ev reason w = (Ok r, w') →
  w_trace w' = w_trace w ∧
  match find_first (event_matches user account ev) (db_executions (w_tx w)) with
  | None => w' = w ∧ r = _ignored_result "owned_order_execution_not_found"
  | Some e =>
      if bool_decide (exe_status e = nev_status ev)
      then w' = w ∧ r = _execution_result e false true true "duplicate_order_event"
      else if transition_allowed (exe_status e) (nev_status ev)
      then ∃ e', r = _execution_result e' true false false "order_status_transitioned" ∧
             moved_execution ev e e' w w'
      else w' = w ∧ r = _execution_result e false false true "stale_or_invalid_order_event"
  end.
Proof. apply apply_cases. Qed.

Lemma moved_matches user account ev e e' w w' :
  event_matches user account ev e = true → moved_execution ev e e' w w' →
  event_matches user account ev e' = true.
Proof.
  unfold event_matches. rewrite !andb_true_iff, !orb_true_iff, !andb_true_iff, !bool_decide_eq_true.
  intros ([[Hu Ha] Hx] & Hid) ((_ & -> & _ & _ & -> & -> & -> & _) & _ & Hnew & Hold & _).
  split; [done|]. destruct Hid as [Hid|[Ht Heq]]; [by left|]. right. split; [done|].
  rewrite Heq. symmetry. apply Hold. by rewrite <- Heq.
Qed.

(** Delivering an event a second time changes nothing. *)
Theorem lifecycle_idempotent user account ev reason w r w' :
  ready w → apply_order_event user account ev reason w = (Ok r, w') →
  ∃ r', apply_order_event user account ev reason w' = (Ok r', w') ∧ lcr_transitioned r' = false ∧
    lcr_execution_id r' = lcr_execution_id r ∧ lcr_status r' = lcr_status r.
Proof.
  intros Hready E. pose proof (apply_cases _ _ _ _ _ _ _ Hready E) as [_ Hcase].
  destruct (find_first _ (db_executions (w_tx w))) as [e|] eqn:Ef.
  2:{ destruct Hcase as [-> ->]. eauto. }
  destruct (bool_decide _); [destruct Hcase as [-> ->]; eauto|].
  destruct (transition_allowed _ _); [|destruct Hcase as [-> ->]; eauto].
  destruct Hcase as (e' & -> & Hm). pose proof Hm as ((Hid & _) & Hst & _ & _ & _ & _ & _ & Hrows).
  pose proof Ef as [Hin Hmatch]%find_first_Some.
  assert (find_first (event_matches user account ev) (db_executions (w_tx w')) = Some e') as Hf'.
  { rewrite Hrows. apply find_first_replaced with e; [done| | |].
    - intros y Hy Hyid%String.eqb_eq. by apply (unique_key exe_id (db_executions (w_tx w))); [apply ready_unique|..].
    - apply String.eqb_refl.
    - by eapply moved_matches. }
  eexists. split; [|split; [|split; [|]]].
  - unfold apply_order_event, _find_execution in E |- *. destruct (_ && _); [done|].
    rewrite run_bind. cbn [db_scalar gets tbl OrderExecution_table]. rewrite Hf', bool_decide_eq_true_2 by done. reflexivity.
  - done.
  - done.
  - done.
Qed.

Lemma keeps_log_apply user account ev reason : keeps_log (apply_order_event user account ev reason).
Proof.
  unfold apply_order_event, _find_execution, try_transition. keeps_log_tac.
  - apply keeps_try; [keeps_log_tac|]. intros [] k; cbn; intros [= <-]; (split; [done|apply keeps_ret]).
  - apply keeps_log_update_execution. intros x. unfold take_order_id. by case_match.
Qed.

Lemma keeps_log_handle user account event : keeps_log (handle_user_stream_event user account event).
Proof.
  unfold handle_user_stream_event. destruct (negb _); [apply keeps_ret|].
  apply keeps_bind; [apply keeps_lift, benign_stream|]. intros ev. apply keeps_log_apply.
Qed.

(** Applying an event sends nothing. *)
Lemma emits_load P id : emits P (load_execution id).
Proof. unfold load_execution. emits_tac. Qed.

Lemma emits_apply P user account ev reason : emits P (apply_order_event user account ev reason).
Proof.
  unfold apply_order_event, _find_execution, try_transition, transition_order_execution, _add_transition,
    _next_sequence_number, load_execution. emits_tac.
  apply emits_try; [emits_tac|]. intros [] k; cbn; intros [= <-]; emits_tac.
Qed.

Lemma apply_ready user account ev reason w r w' :
  ready w → apply_order_event user account ev reason w = (Ok r, w') → ready w'.
Proof.
  intros Hready E. pose proof (keeps_log_apply user account ev reason w (proj2 (proj2 Hready))) as Hlog.
  rewrite E in Hlog. cbn in Hlog.
  pose proof (apply_cases _ _ _ _ _ _ _ Hready E) as [_ Hcase].
  destruct (find_first _ _) as [e|]; [|by destruct Hcase as [-> _]].
  destruct (bool_decide _); [by destruct Hcase as [-> _]|].
  destruct (transition_allowed _ _); [|by destruct Hcase as [-> _]].
  destruct Hcase as (e' & _ & _ & _ & _ & _ & Hn & Hc & _). done.
Qed.

(** An event that raises has committed nothing. *)
Lemma apply_Raise user account ev reason w x w' :
  ready w → apply_order_event user account ev reason w = (Raise x, w') →
  w' = w ∨ db_failure x = true ∧ w_committed w' = w_committed w ∧ (w_next w ≤ w_next w')%nat.
Proof.
  intros Hready E. pose proof Hready as (Hn & Hc & Hlog). unfold apply_order_event in E.
  rewrite run_bind in E. unfold _find_execution in E.
  destruct (_ && _) in E; [injection E as _ <-; by left|]. cbn [db_scalar gets tbl OrderExecution_table] in E.
  destruct (find_first (event_matches user account ev) _) as [e|] eqn:Ef; [|done].
  destruct (bool_decide _); [done|].
  apply find_first_Some in Ef as [He Hm]. pose proof (ready_id _ _ Hready He) as Hne.
  assert (find_first (by_id (exe_id e)) (db_executions (w_tx w)) = Some e) as Hf
    by (apply (find_first_key exe_id); [by apply ready_unique|done]).
  rewrite run_bind in E. destruct (try_transition _ _ _ _ w) as [o w1] eqn:Et. apply try_transition_run in Et; [|done..].
  destruct (transition_allowed (exe_status e) (nev_status ev)).
  2:{ destruct Et as [-> ->]. by cbn in E. }
  destruct Et as [[-> ->]|(r1 & t & -> & Hst1 & ->)]; [injection E as _ <-; by left|]. cbn [negb] in E. right.
  assert (exe_id r1 = exe_id e) as Hid1 by (by apply store_execution_keeps in Hst1 as (-> & _)).
  rewrite run_bind in E. 
  match type of E with context [db_update _ _ ?w0] => set (w1 := w0) in E end.
  assert (w_committed w1 = w_committed w ∧ (w_next w ≤ w_next w1)%nat) as [Hcm Hnx] by (split; [done|cbn; lia]).
  assert (find_first (by_id (exe_id e)) (db_executions (w_tx w1)) = Some r1) as Hf1.
  { subst w1. cbn. rewrite find_first_update_found by (unfold by_id; by rewrite Hid1, String.eqb_refl). by rewrite Hf. }
  unfold db_update in E. cbn [tbl OrderExecution_table row_id] in E.
  change (λ r : OrderExecution, String.eqb (exe_id r) (exe_id e)) with (by_id (exe_id e)) in E. rewrite Hf1 in E.
  destruct (row_store numeric_column (take_order_id (nev_exchange_order_id ev) r1)) as [r2|] eqn:Est; [|by injection E as <- <-].
  assert (exe_id r2 = exe_id e) as Hid2.
  { apply store_execution_keeps in Est as (-> & _). unfold take_order_id. by case_match. }
  match type of E with (_ ?w0) = _ => set (w2 := w0) in E end.
  rewrite run_bind in E. pose proof (flush_same_rest w2) as (Hfc & Hfn & _).
  destruct (commit w2) as [[[]|y] w3] eqn:Ec.
  - exfalso. pose proof (commit_only_Ok (R:=OrderExecutionTransition) [t] w2 w3) as Hc'.
    destruct Hc' as (ts & _ & _ & ->); [done..|]. rewrite run_bind in E.
    rewrite (load_run _ _ r2) in E; [done|]. subst w2. cbn.
    change (find_first (by_id (exe_id e)) (update_where (by_id (exe_id e)) (λ _, r2)
      (update_where (by_id (exe_id e)) (λ _, r1) (db_executions (w_tx w)))) = Some r2).
    rewrite update_where_twice by done.
    rewrite find_first_update_found by (unfold by_id; by rewrite Hid2, String.eqb_refl). by rewrite Hf.
  - injection E as <- <-. apply commit_Raise in Ec. rewrite Ec in Hfc, Hfn. cbn in Hfc, Hfn.
    split; [by eapply flush_Raise|]. split; [by rewrite Hfc|]. rewrite Hfn. cbn. lia.
Qed.

Definition status_path : OrderExecutionStatus → OrderExecutionStatus → Prop :=
  rtc (λ s t, transition_allowed s t = true).

(** How events move a list of executions: none appears or disappears, each keeps its
    identity and moves along the transition table. *)
Definition rows_evolve (es es' : list OrderExecution) : Prop :=
  Forall2 (λ e e', same_order e e' ∧ status_path (exe_status e) (exe_status e')) es es'.

#[export] Instance same_order_preorder : PreOrder same_order.
Proof.
  unfold same_order. split; [intros e; by repeat split|].
  intros a b c (?&?&?&?&?&?&?&?&?&?) (?&?&?&?&?&?&?&?&?&?). repeat split; congruence.
Qed.

#[export] Instance rows_evolve_preorder : PreOrder rows_evolve.
Proof.
  split.
  - intros es. apply Forall2_same_length_lookup_2; [done|]. intros i x y Hx Hy. rewrite Hx in Hy. injection Hy as <-.
    split; [reflexivity|apply rtc_refl].
  - intros a b c Hab. revert c. induction Hab as [|x y a b [Hxy Hp] _ IH]; intros c Hbc.
    + apply Forall2_nil_inv_l in Hbc as ->. constructor.
    + apply Forall2_cons_inv_l in Hbc as (z & c' & [Hyz Hq] & Hbc & ->). constructor; [|by apply IH].
      split; [by etrans|]. unfold status_path in *. by etrans.
Qed.

Lemma apply_evolves user account ev reason w r w' :
  ready w → apply_order_event user account ev reason w = (Ok r, w') →
  rows_evolve (db_executions (w_tx w)) (db_executions (w_tx w')).
Proof.
  intros Hready E. pose proof (apply_cases _ _ _ _ _ _ _ Hready E) as [_ Hcase].
  destruct (find_first _ _) as [x|] eqn:Ef; [|by destruct Hcase as [-> _]].
  destruct (bool_decide _); [by destruct Hcase as [-> _]|].
  destruct (transition_allowed (exe_status x) (nev_status ev)) eqn:Hal; [|by destruct Hcase as [-> _]].
  destruct Hcase as (e' & _ & Hso & Hst & _ & _ & _ & _ & _ & ->).
  apply find_first_Some in Ef as [Hx _]. pose proof (ready_unique _ Hready) as Hd.
  assert (∀ y, y ∈ db_executions (w_tx w) → by_id (exe_id x) y = true → y = x) as Huniq.
  { intros y Hy Heq%String.eqb_eq. by apply (unique_key exe_id (db_executions (w_tx w))). }
  clear Hd Hready E. unfold update_where. revert Huniq. clear Hx.
  induction (db_executions (w_tx w)) as [|y l IH]; intros Hl; cbn; constructor.
  - destruct (by_id (exe_id x) y) eqn:Eb.
    + rewrite (Hl y ltac:(left) Eb). split; [done|]. rewrite Hst. by apply rtc_once.
    + split; [reflexivity|apply rtc_refl].
  - apply IH. intros z Hz. apply Hl. by right.
Qed.

(** One event is delivered and handled. *)
Definition event_step (user account : string) (w w' : World) : Prop :=
  ∃ ev reason r, apply_order_event user account ev reason w = (Ok r, w').

(** Whatever events arrive, in whatever order and however often: an execution that
    has reached a terminal status is left exactly as it is. *)
Theorem lifecycle_terminal_stable user account w w' e :
  ready w → star (event_step user account) w w' →
  e ∈ db_executions (w_committed w) → exe_status e ∈ TERMINAL_ORDER_STATUSES →
  e ∈ db_executions (w_committed w').
Proof.
  intros Hready Hstar He Hterm.
  enough (ready w' ∧ e ∈ db_executions (w_committed w')) by tauto.
  refine (star_invariant (event_step user account) (λ w, ready w ∧ e ∈ db_executions (w_committed w))
    _ w w' Hstar (conj Hready He)).
  clear w w' Hready He Hstar. intros w w' [Hready He] (ev & reason & r & E).
  split; [by eapply apply_ready|].
  pose proof (apply_cases _ _ _ _ _ _ _ Hready E) as [_ Hcase].
  destruct (find_first _ _) as [x|] eqn:Ef; [|by destruct Hcase as [-> _]].
  destruct (bool_decide _); [by destruct Hcase as [-> _]|].
  destruct (transition_allowed (exe_status x) (nev_status ev)) eqn:Hal; [|by destruct Hcase as [-> _]].
  destruct Hcase as (e' & _ & _ & _ & _ & _ & _ & Hc & _ & Hrows).
  rewrite <- Hc, Hrows. apply elem_of_update_where. exists e.
  pose proof Hready as (_ & Hcw & _). rewrite <- Hcw in He. split; [done|].
  unfold by_id. destruct (String.eqb_spec (exe_id e) (exe_id x)) as [Heq|]; [|done].
  apply find_first_Some in Ef as [Hx _].
  assert (e = x) as -> by (by apply (unique_key exe_id (db_executions (w_tx w))); [apply ready_unique|..]).
  apply terminal_iff_no_transition with (t := nev_status ev) in Hterm. congruence.
Qed.
End effects.

(** ** A concrete order *)

Definition filled_payload : dict :=
  [("e", VStr "executionReport"); ("c", VStr "order-1"); ("i", VInt 7); ("X", VStr "FILLED");
   ("E", VInt 1780000001000); ("z", VStr "0.1")].
Definition filled_event : NormalizedTestnetOrderEvent :=
  Build_NormalizedTestnetOrderEvent BINANCE (Some "order-1") (Some "7") FILLED (Some "1780000001000")
    (Some (PFin (Dec false 1 (-1)))).

Example filled_payload_normalized :
  normalize_testnet_user_stream_order_event BINANCE filled_payload = Ok filled_event.
Proof. vm_compute. reflexivity. Qed.

Definition filled_run : Outcome TestnetOrderLifecycleResult * World :=
  Eval vm_compute in apply_order_event "user-1" "acct-test" filled_event "testnet_user_stream_event" submitted_world.

Lemma filled_run_eq :
  apply_order_event "user-1" "acct-test" filled_event "testnet_user_stream_event" submitted_world =
  (Ok (match filled_run.1 with Ok r => r | Raise _ => _ignored_result "" end), filled_run.2).
Proof. vm_compute. reflexivity. Qed.

Lemma lifecycle_apply_spec_witness :
  ∃ e', moved_execution filled_event (hd e' (db_executions (w_tx submitted_world))) e' submitted_world filled_run.2 ∧
    exe_status e' = FILLED.
Proof.
  destruct (lifecycle_apply_spec _ _ _ _ _ _ _ submitted_world_ready filled_run_eq) as [_ Hcase].
  destruct Hcase as (e' & _ & Hm). exists e'. split; [exact Hm|apply Hm].
Defined.

Lemma lifecycle_idempotent_witness :
  ∃ r', apply_order_event "user-1" "acct-test" filled_event "testnet_user_stream_event" filled_run.2 =
    (Ok r', filled_run.2) ∧ lcr_transitioned r' = false.
Proof.
  destruct (lifecycle_idempotent _ _ _ _ _ _ _ submitted_world_ready filled_run_eq) as (r' & E & Ht & _).
  exists r'. split; [exact E|exact Ht].
Defined.

Lemma lifecycle_terminal_stable_witness :
  ∃ e w', star (event_step "user-1" "acct-test") filled_run.2 w' ∧
    e ∈ db_executions (w_committed w') ∧ exe_status e = FILLED.
Proof.
  eexists _, filled_run.2. split; [|split].
  - destruct (lifecycle_idempotent _ _ _ _ _ _ _ submitted_world_ready filled_run_eq) as (r' & E & _).
    eapply star_snoc; [apply star_refl|]. eexists _, _, _. exact E.
  - eapply (lifecycle_terminal_stable "user-1" "acct-test" filled_run.2).
    + eapply apply_ready; [apply submitted_world_ready | apply filled_run_eq].
    + apply star_refl.
    + unfold filled_run. cbn [snd w_committed db_executions]. left.
    + vm_compute. left.
  - reflexivity.
Defined.
