(* ===== verification/AccountSync.v ===== *)
(** [services/testnet_account_state_sync.py]: balances and positions reported on the
    private stream of a testnet account are checked and stored. *)
From S2P Require Import Prelude PyStr PyDecimal PyValue Models Session PgDatabase Tables Demo Logic ExecutionLog TestnetRequest Lifecycle.
From Stdlib Require Import Ascii.
Open Scope Z_scope.

Record BalanceStateUpdate := {
  bu_asset : string; bu_available : dec; bu_locked : dec; bu_total : dec }.
Record PositionStateUpdate := { pu_symbol : string; pu_quantity : dec }.

Record TestnetAccountStateSyncResult := {
  syn_synced : bool; syn_balances : nat; syn_positions : nat }.

Definition sync_error {A} (m : string) : Outcome A := Raise (TestnetAccountStateSyncError m).

(** ** Reading the payload *)

Definition as_dict (v : pyval) : option dict := match v with VDict l => Some l | _ => None end.

Definition _dict_list (v : pyval) (field : string) : Outcome (list dict) :=
  match v with
  | VList l =>
      match mapM as_dict l with
      | Some ds => Ok ds
      | None => sync_error (field +:+ " must be a list of objects")
      end
  | _ => sync_error (field +:+ " must be a list of objects")
  end.

Definition identifier_char (c : ascii) : bool := is_alnum c || Ascii.eqb c "-" || Ascii.eqb c "_".

Definition _identifier (v : pyval) (field : string) : Outcome string :=
  match v with
  | VStr s =>
      let normalized := str_upper (str_strip s) in
      if String.eqb normalized "" || (40 <? String.length normalized)%nat
      then sync_error (field +:+ " is invalid")
      else if negb (str_forall identifier_char normalized) then sync_error (field +:+ " is invalid")
      else Ok normalized
  | _ => sync_error (field +:+ " must be a string")
  end.

Definition _quantity (v : pyval) (field : string) (nonnegative : bool) : Outcome dec :=
  match decimal_of_str (py_str v) with
  | None => sync_error (field +:+ " must be numeric")
  | Some (PFin q) =>
      if d_exp q <? -10 then sync_error (field +:+ " exceeds database precision")
      else if negb (dec_is_zero q) && (18 <=? dec_adjusted q)
      then sync_error (field +:+ " exceeds database precision")
      else if nonnegative && dec_ltb q dec0 then sync_error (field +:+ " must not be negative")
      else Ok q
  | Some _ => sync_error (field +:+ " must be finite")
  end.

Definition binance_balance (b : dict) : Outcome BalanceStateUpdate :=
  outcome_bind (_quantity (dict_get "f" b) "free" true) (λ available,
  outcome_bind (_quantity (dict_get "l" b) "locked" true) (λ locked,
  outcome_bind (_identifier (dict_get "a" b) "asset") (λ asset,
    Ok (Build_BalanceStateUpdate asset available locked (dec_add available locked))))).

Definition _binance_balance_updates (payload : dict) : Outcome (list BalanceStateUpdate) :=
  outcome_bind (_dict_list (dict_get "B" payload) "B") (outcome_map binance_balance).

Definition bybit_coin (c : dict) : Outcome BalanceStateUpdate :=
  outcome_bind (_quantity (dict_get "walletBalance" c) "walletBalance" true) (λ total,
  outcome_bind (_quantity (dict_get_default "locked" (VStr "0") c) "locked" true) (λ locked,
  if dec_gtb locked total then sync_error "locked balance exceeds total balance"
  else outcome_bind (_identifier (dict_get "coin" c) "coin") (λ asset,
    Ok (Build_BalanceStateUpdate asset (dec_sub total locked) locked total)))).

(** The rows of nested lists, in order; the inner list is read when its turn comes. *)
Definition nested_updates (outer inner : string) (f : dict → Outcome BalanceStateUpdate) (payload : dict) :
    Outcome (list BalanceStateUpdate) :=
  outcome_bind (_dict_list (dict_get outer payload) outer) (λ accounts,
  outcome_bind (outcome_map (λ a,
      outcome_bind (_dict_list (dict_get inner a) inner) (outcome_map f)) accounts) (λ ls, Ok (concat ls))).

Definition _bybit_balance_updates : dict → Outcome (list BalanceStateUpdate) :=
  nested_updates "data" "coin" bybit_coin.

Definition okx_detail (d : dict) : Outcome BalanceStateUpdate :=
  outcome_bind (_quantity (dict_get "availBal" d) "availBal" true) (λ available,
  outcome_bind (_quantity (dict_get_default "frozenBal" (VStr "0") d) "frozenBal" true) (λ locked,
  outcome_bind (_quantity (dict_get "cashBal" d) "cashBal" true) (λ total,
  if dec_gtb (dec_add available locked) total
  then sync_error "available and locked balance exceed total balance"
  else outcome_bind (_identifier (dict_get "ccy" d) "ccy") (λ asset,
    Ok (Build_BalanceStateUpdate asset available locked total))))).

Definition _okx_balance_updates : dict → Outcome (list BalanceStateUpdate) :=
  nested_updates "data" "details" okx_detail.

Definition bybit_position (p : dict) : Outcome PositionStateUpdate :=
  outcome_bind (_quantity (dict_get "size" p) "size" true) (λ size,
  let side := dict_get "side" p in
  outcome_bind
    (if py_eq_str side "Buy" then Ok size
     else if py_eq_str side "Sell" then Ok (dec_minus size)
     else if negb (hashable side) then Raise (TypeError "unhashable type")
     else if (match side with VNone => true | _ => py_eq_str side "" end) && dec_is_zero size then Ok dec0
     else sync_error "Bybit position side is invalid") (λ quantity,
  outcome_bind (_identifier (dict_get "symbol" p) "symbol") (λ symbol,
    Ok (Build_PositionStateUpdate symbol quantity)))).

Definition _bybit_position_updates (payload : dict) : Outcome (list PositionStateUpdate) :=
  outcome_bind (_dict_list (dict_get "data" payload) "data") (outcome_map bybit_position).

Definition okx_position (p : dict) : Outcome PositionStateUpdate :=
  outcome_bind (_identifier (dict_get "instId" p) "instId") (λ symbol,
  outcome_bind (_quantity (dict_get "pos" p) "pos" false) (λ quantity,
    Ok (Build_PositionStateUpdate symbol quantity))).

Definition _okx_position_updates (payload : dict) : Outcome (list PositionStateUpdate) :=
  outcome_bind (_dict_list (dict_get "data" payload) "data") (outcome_map okx_position).

(** [_require_unique_keys], then the check for an empty event. *)
Definition checked_updates {A} (key : A → string) (label empty : string) (updates : list A) : Outcome (list A) :=
  if bool_decide (NoDup (map key updates))
  then match updates with [] => sync_error empty | _ => Ok updates end
  else sync_error ("event contains duplicate " +:+ label).

Definition _balance_updates (e : ExchangeName) (payload : dict) : Outcome (list BalanceStateUpdate) :=
  outcome_bind
    (match e with
     | BINANCE => _binance_balance_updates payload
     | BYBIT => _bybit_balance_updates payload
     | OKX => _okx_balance_updates payload
     | MOCK => sync_error "balance event exchange is not supported"
     end)
    (checked_updates bu_asset "asset" "balance event contains no balances").

Definition _position_updates (e : ExchangeName) (payload : dict) : Outcome (list PositionStateUpdate) :=
  outcome_bind
    (match e with
     | BYBIT => _bybit_position_updates payload
     | OKX => _okx_position_updates payload
     | _ => sync_error "position event exchange is not supported"
     end)
    (checked_updates pu_symbol "symbol" "position event contains no positions").

(** ** Storing *)

Definition is_balance (user account asset : string) (b : Balance) : bool :=
  String.eqb (bal_user b) user && String.eqb (bal_account b) account && String.eqb (bal_asset b) asset.
Definition is_sync_position (user account symbol : string) (p : Position) : bool :=
  String.eqb (pos_user p) user && String.eqb (pos_account p) account && String.eqb (pos_symbol p) symbol.

Definition bal_with (u : BalanceStateUpdate) (b : Balance) : Balance :=
  Build_Balance (bal_id b) (bal_user b) (bal_account b) (bal_asset b) (bu_available u) (bu_locked u) (bu_total u).
Definition pos_with (u : PositionStateUpdate) (p : Position) : Position :=
  Build_Position (pos_id p) (pos_user p) (pos_account p) (pos_symbol p) (pu_quantity u).

Section sync.
Context `{Database}.

Definition _require_testnet_account (user account : string) (e : ExchangeName) : M ExchangeAccount :=
  r ← db_scalar (λ a, String.eqb (acct_id a) account && String.eqb (acct_user a) user);
  match r with
  | None => raise (TestnetAccountStateSyncError "testnet exchange account was not found")
  | Some a =>
      if negb (acct_is_active a) then raise (TestnetAccountStateSyncError "testnet exchange account is inactive")
      else if negb (bool_decide (acct_mode a = TESTNET))
      then raise (TestnetAccountStateSyncError "account mode must be TESTNET")
      else if negb (bool_decide (acct_exchange a = e))
      then raise (TestnetAccountStateSyncError "event exchange does not match account")
      else mret a
  end.

Definition _upsert_balance (user account : string) (u : BalanceStateUpdate) : M unit :=
  r ← db_scalar (is_balance user account (bu_asset u));
  match r with
  | None =>
      id ← new_id;
      db_add (Build_Balance id user account (bu_asset u) (bu_available u) (bu_locked u) (bu_total u))
  | Some b => db_update (bal_id b) (bal_with u)
  end.

Definition _upsert_position (user account : string) (u : PositionStateUpdate) : M unit :=
  r ← db_scalar (is_sync_position user account (pu_symbol u));
  match r with
  | None => id ← new_id; db_add (Build_Position id user account (pu_symbol u) (pu_quantity u))
  | Some p => db_update (pos_id p) (pos_with u)
  end.

Definition sync_testnet_account_state_event (user account : string) (event : TestnetUserStreamEvent) :
    M TestnetAccountStateSyncResult :=
  _require_testnet_account user account (use_exchange event) ;;
  match use_type event with
  | EV_BALANCE =>
      updates ← lift (_balance_updates (use_exchange event) (use_payload event));
      run_all (map (_upsert_balance user account) updates) ;;
      flush ;;
      mret (Build_TestnetAccountStateSyncResult true (length updates) 0)
  | EV_POSITION =>
      updates ← lift (_position_updates (use_exchange event) (use_payload event));
      run_all (map (_upsert_position user account) updates) ;;
      flush ;;
      mret (Build_TestnetAccountStateSyncResult true 0 (length updates))
  | _ => mret (Build_TestnetAccountStateSyncResult false 0 0)
  end.
End sync.

(** ** Effects

    A report that is refused is refused before anything is stored; nothing is sent. *)

Lemma benign_dict_list v f : benign (_dict_list v f).
Proof. unfold _dict_list, sync_error. benign_tac. Qed.
Lemma benign_identifier v f : benign (_identifier v f).
Proof. unfold _identifier, sync_error. benign_tac. Qed.
Lemma benign_quantity v f nn : benign (_quantity v f nn).
Proof. unfold _quantity, sync_error. benign_tac. Qed.
Lemma benign_map {A B} (f : A → Outcome B) l : (∀ x, benign (f x)) → benign (outcome_map f l).
Proof. intros Hf. induction l; cbn; benign_tac; auto. Qed.
#[export] Hint Resolve benign_dict_list benign_identifier benign_quantity : benign.

Lemma benign_nested outer inner f payload : (∀ x, benign (f x)) → benign (nested_updates outer inner f payload).
Proof.
  intros Hf. unfold nested_updates. benign_tac. apply benign_map. intros x. benign_tac. by apply benign_map.
Qed.

Lemma benign_balances e p : benign (_balance_updates e p).
Proof.
  unfold _balance_updates, _binance_balance_updates, _bybit_balance_updates, _okx_balance_updates,
    checked_updates, sync_error. benign_tac;
    first [apply benign_map|apply benign_nested]; intros x;
    unfold binance_balance, bybit_coin, okx_detail, sync_error; benign_tac.
Qed.

Lemma benign_positions e p : benign (_position_updates e p).
Proof.
  unfold _position_updates, _bybit_position_updates, _okx_position_updates, checked_updates, sync_error.
  benign_tac; apply benign_map; intros x; unfold bybit_position, okx_position, sync_error; benign_tac.
Qed.

Lemma keeps_log_sync `{Database} `{!DatabaseLaws} user account event :
  keeps_log (sync_testnet_account_state_event user account event).
Proof.
  unfold sync_testnet_account_state_event, _require_testnet_account. keeps_log_tac;
    try (apply keeps_lift; first [apply benign_balances|apply benign_positions]);
    apply keeps_run_all; intros m (u & -> & _)%list_elem_of_fmap;
    unfold _upsert_balance, _upsert_position; keeps_log_tac.
Qed.

Lemma emits_sync `{Database} P user account event : emits P (sync_testnet_account_state_event user account event).
Proof.
  unfold sync_testnet_account_state_event, _require_testnet_account. emits_tac;
    apply emits_run_all; intros m (u & -> & _)%list_elem_of_fmap;
    unfold _upsert_balance, _upsert_position; emits_tac.
Qed.

(** ** What a report may say *)

(** A quantity the database stores exactly. *)
Definition storable (q : dec) : Prop :=
  - 10 <= d_exp q ∧ Z.abs (scaled (-10) q) < 10 ^ 28.

Definition valid_balance (u : BalanceStateUpdate) : Prop :=
  bu_asset u ≠ "" ∧ str_forall identifier_char (bu_asset u) = true ∧
  storable (bu_available u) ∧ storable (bu_locked u) ∧
  0 <= scaled (-10) (bu_available u) ∧ 0 <= scaled (-10) (bu_locked u) ∧
  dec_gtb (dec_add (bu_available u) (bu_locked u)) (bu_total u) = false.

Lemma quantity_Ok v field nn q :
  _quantity v field nn = Ok q →
  storable q ∧ (d_exp q + Z.of_nat (ndigits (d_coeff q)) - 1 < 18 ∨ dec_is_zero q = true) ∧
  (nn = true → 0 <= scaled (-10) q).
Proof.
  unfold _quantity. intros E. destruct (decimal_of_str (py_str v)) as [[d| |]|]; try done.
  destruct (Z.ltb_spec (d_exp d) (-10)) as [|He]; [done|].
  destruct (negb (dec_is_zero d) && (18 <=? dec_adjusted d)) eqn:Ha; [done|].
  destruct (nn && dec_ltb d dec0) eqn:Hn; [done|]. injection E as <-.
  assert (dec_is_zero d = true ∨ dec_adjusted d < 18) as Hadj.
  { apply andb_false_iff in Ha as [Ha%negb_false_iff|Ha%Z.leb_gt]; auto. }
  split; [split; [lia|by apply (scaled_bound 18 10)]|]. split; [unfold dec_adjusted in Hadj; tauto|].
  intros ->. cbn in Hn. rewrite dec_ltb_dec0 in Hn. apply Z.ltb_ge in Hn. unfold scaled.
  apply Z.mul_nonneg_nonneg; [done|]. apply Z.pow_nonneg. lia.
Qed.

Lemma identifier_Ok v field s : _identifier v field = Ok s → s ≠ "" ∧ str_forall identifier_char s = true.
Proof.
  unfold _identifier. intros E. destruct v; try done. destruct (_ || _) eqn:Hl; [done|].
  destruct (str_forall identifier_char _) eqn:Hc; [|done]. cbn [negb] in E. injection E as <-.
  apply orb_false_iff in Hl as [Hl%String.eqb_neq _]. done.
Qed.

Lemma gtb_irrefl d : dec_gtb d d = false.
Proof. apply not_true_is_false. unfold dec_gtb. rewrite (dec_ltb_spec (d_exp d)) by lia. lia. Qed.

Lemma binance_balance_valid b u : binance_balance b = Ok u → valid_balance u.
Proof.
  unfold binance_balance. intros (q & Hq%quantity_Ok & E)%outcome_bind_Ok.
  apply outcome_bind_Ok in E as (l & Hl%quantity_Ok & E).
  apply outcome_bind_Ok in E as (a & Ha%identifier_Ok & [= <-]).
  destruct Hq as (? & _ & Hq), Hl as (? & _ & Hl), Ha. repeat split; cbn; auto; try apply H; try apply H0.
  apply gtb_irrefl.
Qed.

Lemma okx_detail_valid d u : okx_detail d = Ok u → valid_balance u.
Proof.
  unfold okx_detail. intros (q & Hq%quantity_Ok & E)%outcome_bind_Ok.
  apply outcome_bind_Ok in E as (l & Hl%quantity_Ok & E). apply outcome_bind_Ok in E as (t & _ & E).
  destruct (dec_gtb (dec_add q l) t) eqn:Hg; [done|].
  apply outcome_bind_Ok in E as (a & Ha%identifier_Ok & [= <-]).
  destruct Hq as (? & _ & Hq), Hl as (? & _ & Hl), Ha. repeat split; cbn; auto; try apply H; try apply H0.
Qed.

Lemma scaled_rescale e d : -10 <= e <= d_exp d → scaled (-10) d = scaled e d * 10 ^ (e + 10).
Proof. intros He. replace (-10) with (e - (e + 10)) by lia. apply scaled_shift; lia. Qed.

Lemma rescaled_bound e z : -10 <= e → Z.abs (z * 10 ^ (e + 10)) < 10 ^ 28 → Z.abs z < 10 ^ 28.
Proof.
  intros He. rewrite Z.abs_mul, (Z.abs_eq (10 ^ _)) by (apply Z.pow_nonneg; lia).
  pose proof (pow10_pos (e + 10) ltac:(lia)). nia.
Qed.

Lemma bybit_coin_valid c u : bybit_coin c = Ok u → valid_balance u.
Proof.
  unfold bybit_coin. intros (t & Ht%quantity_Ok & E)%outcome_bind_Ok.
  apply outcome_bind_Ok in E as (l & Hl%quantity_Ok & E).
  destruct (dec_gtb l t) eqn:Hg; [done|]. apply outcome_bind_Ok in E as (a & Ha%identifier_Ok & [= <-]).
  destruct Ht as ([Hte Htb] & _ & Ht), Hl as ([Hle Hlb] & _ & Hl). specialize (Ht eq_refl). specialize (Hl eq_refl).
  set (e := common_exp t l). assert (-10 <= e ∧ e <= d_exp t ∧ e <= d_exp l) as (He & Het & Hel)
    by (unfold e, common_exp; lia).
  pose proof (scaled_rescale e t ltac:(lia)) as Rt. pose proof (scaled_rescale e l ltac:(lia)) as Rl.
  pose proof (pow10_pos (e + 10) ltac:(lia)) as Hp.
  assert (scaled e l <= scaled e t) as Hlt.
  { apply Z.nlt_ge. rewrite <- (dec_ltb_spec e) by lia. unfold dec_gtb in Hg. congruence. }
  assert (Z.abs (scaled e t) < 10 ^ 28) as Htb' by (apply (rescaled_bound e); [lia|by rewrite <- Rt]).
  assert (0 <= scaled e l) as Hl0 by (rewrite Rl in Hl; nia).
  destruct (dec_sub_exact t l) as [Hse Hsv]; [fold e; lia|]. fold e in Hse, Hsv.
  set (s := dec_sub t l) in *.
  assert (scaled e s = scaled e t - scaled e l) as Hs
    by (rewrite <- Hse at 1; by rewrite scaled_same_exp, Hsv).
  assert (scaled (-10) s = scaled (-10) t - scaled (-10) l) as Hs10
    by (rewrite (scaled_rescale e s) by lia; rewrite Hs, Rt, Rl; lia).
  assert (scaled (-10) l <= scaled (-10) t) by (rewrite Rt, Rl; nia).
  assert (dec_gtb (dec_add s l) t = false) as Hadd.
  { destruct (dec_add_exact s l) as [Hae Hav];
      [unfold common_exp; rewrite Hse, Z.min_l by lia; rewrite Hs; lia|].
    unfold common_exp in Hae, Hav. rewrite Hse, Z.min_l in Hae, Hav by lia.
    apply not_true_is_false. unfold dec_gtb. rewrite (dec_ltb_spec e) by lia.
    rewrite <- Hae at 2. rewrite scaled_same_exp, Hav, Hs. lia. }
  destruct Ha. unfold valid_balance, storable. cbn [bu_asset bu_available bu_locked bu_total].
  repeat split; auto; lia.
Qed.

Lemma outcome_map_Ok {A B} (f : A → Outcome B) (P : B → Prop) l ys :
  (∀ x y, f x = Ok y → P y) → outcome_map f l = Ok ys → Forall P ys.
Proof.
  intros Hf. revert ys. induction l as [|x l IH]; intros ys E; cbn in E; [injection E as <-; constructor|].
  apply outcome_bind_Ok in E as (y & Hy & E). apply outcome_bind_Ok in E as (ys' & Hys & [= <-]).
  constructor; eauto.
Qed.

Lemma nested_valid outer inner f payload us :
  (∀ x u, f x = Ok u → valid_balance u) → nested_updates outer inner f payload = Ok us →
  Forall valid_balance us.
Proof.
  intros Hf E. unfold nested_updates in E. apply outcome_bind_Ok in E as (accs & _ & E).
  apply outcome_bind_Ok in E as (ls & Hls & [= <-]).
  apply (outcome_map_Ok _ (Forall valid_balance)) in Hls.
  - apply Forall_concat. exact Hls.
  - intros x y E. apply outcome_bind_Ok in E as (ds & _ & E). eapply outcome_map_Ok; [|exact E]. auto.
Qed.

Lemma checked_updates_Ok {A} (key : A → string) label empty us us' :
  checked_updates key label empty us = Ok us' → us' = us ∧ NoDup (map key us) ∧ us ≠ [].
Proof.
  unfold checked_updates. case_bool_decide; [|done]. destruct us; [done|]. by intros [= <-].
Qed.

Lemma balance_updates_Ok e payload us :
  _balance_updates e payload = Ok us → us ≠ [] ∧ NoDup (map bu_asset us) ∧ Forall valid_balance us.
Proof.
  unfold _balance_updates. intros (us' & Hus & (-> & Hd & Hne)%checked_updates_Ok)%outcome_bind_Ok.
  split; [done|]. split; [done|]. destruct e; [| | |done].
  - apply outcome_bind_Ok in Hus as (bs & _ & Hus). eapply outcome_map_Ok; [|exact Hus]. apply binance_balance_valid.
  - eapply nested_valid; [|exact Hus]. apply okx_detail_valid.
  - eapply nested_valid; [|exact Hus]. apply bybit_coin_valid.
Qed.

(** ** What is stored *)

Section stored.
Context `{Database} `{!DatabaseLaws}.

(** A balance row holds a reported balance. *)
Definition holds_balance (user account : string) (u : BalanceStateUpdate) (b : Balance) : Prop :=
  is_balance user account (bu_asset u) b = true ∧
  numeric_column 28 10 (bu_available u) = Some (bal_available b) ∧
  numeric_column 28 10 (bu_locked u) = Some (bal_locked b) ∧
  numeric_column 28 10 (bu_total u) = Some (bal_total b).

(** A row that waits for the flush. *)
Definition new_balance (user account : string) (u : BalanceStateUpdate) (b : Balance) : Prop :=
  is_balance user account (bu_asset u) b = true ∧
  bal_available b = bu_available u ∧ bal_locked b = bu_locked u ∧ bal_total b = bu_total u.

Lemma store_balance_Ok r r' :
  stored (R:=Balance) r r' →
  bal_id r' = bal_id r ∧ bal_user r' = bal_user r ∧ bal_account r' = bal_account r ∧ bal_asset r' = bal_asset r ∧
  numeric_column 28 10 (bal_available r) = Some (bal_available r') ∧
  numeric_column 28 10 (bal_locked r) = Some (bal_locked r') ∧
  numeric_column 28 10 (bal_total r) = Some (bal_total r').
Proof.
  unfold stored. cbn. unfold store_balance.
  destruct (numeric_column 28 10 (bal_available r)) as [a|] eqn:Ea; [|done]. cbn.
  destruct (numeric_column 28 10 (bal_locked r)) as [b|] eqn:Eb; [|done]. cbn.
  destruct (numeric_column 28 10 (bal_total r)) as [c|] eqn:Ec; [|done]. cbn. by intros [= <-].
Qed.

(** The state while the reported balances are stored, [done_us] of them so far. *)
Definition storing (user account : string) (olds : list Balance) (done_us : list BalanceStateUpdate)
    (news : list Balance) (w : World) : Prop :=
  w_new w = set_balances news empty_db ∧ unique_ids Balance (w_tx w) ∧
  (∀ u, u ∈ done_us → (∃ b, b ∈ db_balances (w_tx w) ∧ holds_balance user account u b) ∨
                      (∃ b, b ∈ news ∧ new_balance user account u b)) ∧
  (∀ b, b ∈ olds → (∀ u, u ∈ done_us → is_balance user account (bu_asset u) b = false) →
     b ∈ db_balances (w_tx w)).

Lemma is_balance_asset user account x y b :
  is_balance user account x b = true → is_balance user account y b = true → x = y.
Proof. unfold is_balance. rewrite !andb_true_iff, !String.eqb_eq. intros [_ ->] [_ ->]. done. Qed.

Lemma upsert_storing user account olds us u news w w' :
  storing user account olds us news w → bu_asset u ∉ map bu_asset us →
  _upsert_balance user account u w = (Ok tt, w') →
  ∃ news', storing user account olds (us ++ [u]) news' w'.
Proof.
  intros (Hn & Hu & Hdone & Hold) Hfresh E. unfold _upsert_balance in E.
  apply bind_Ok_inv in E as (r & w1 & [= <- <-] & E). cbn [tbl Balance_table] in E.
  assert (∀ u', u' ∈ us → bu_asset u' ≠ bu_asset u) as Hne.
  { intros u' Hu' Heq. apply Hfresh. rewrite <- Heq. apply list_elem_of_fmap. eauto. }
  destruct (find_first _ _) as [b|] eqn:Ef.
  - apply find_first_Some in Ef as [Hb Hbm].
    apply db_update_Ok in E as (b0 & b' & Hf & Hst & ->).
    assert (b0 = b) as ->.
    { cbn in Hf. pose proof (find_first_key bal_id _ b Hu Hb) as Hk. cbn in Hk. rewrite Hk in Hf. by injection Hf. }
    apply store_balance_Ok in Hst as (Hid & Hus & Hac & Has & Ha & Hl & Ht). cbn in *.
    assert (∀ x, x ∈ db_balances (w_tx w) → bal_id x = bal_id b → x = b) as Huniq
      by (intros x Hx Heq; by apply (unique_key bal_id (db_balances (w_tx w)))).
    assert (∀ x, x ∈ db_balances (w_tx w) → is_balance user account (bu_asset u) x = false →
      x ∈ update_where (λ x, String.eqb (bal_id x) (bal_id b)) (λ _, b') (db_balances (w_tx w))) as Hkeep.
    { intros x Hx Hxm. apply elem_of_update_where. exists x. split; [done|].
      destruct (String.eqb_spec (bal_id x) (bal_id b)) as [Heq|]; [|done].
      rewrite (Huniq x Hx Heq) in Hxm. congruence. }
    exists news. split; [done|]. split; [|split].
    + unfold unique_ids. cbn. refine (eq_ind_r NoDup Hu _). apply map_update_where.
      intros x Hx%String.eqb_eq. cbn. rewrite Hid. symmetry. exact Hx.
    + intros u' [Hu'| ->%list_elem_of_singleton]%elem_of_app.
      * destruct (Hdone u' Hu') as [(x & Hx & Hxh)|Hx]; [|by right]. left. exists x. split; [|done].
        apply Hkeep; [done|]. apply not_true_is_false. intros Hxm.
        destruct Hxh as [Hxm' _]. by apply (Hne u' Hu'), (is_balance_asset user account _ _ x).
      * left. exists b'. cbn. split.
        -- apply elem_of_update_where. exists b. by rewrite String.eqb_refl.
        -- split; [|done]. unfold is_balance in *. by rewrite Hus, Hac, Has.
    + intros x Hx Hxu. cbn. apply Hkeep.
      * apply Hold; [done|]. intros u' Hu'. apply Hxu, elem_of_app. by left.
      * apply Hxu, elem_of_app. right. by left.
  - apply bind_Ok_inv in E as (id & w1 & Eid & E). injection Eid as <- <-. injection E as <-.
    set (b := Build_Balance _ _ _ _ _ _ _).
    exists (news ++ [b]). split; [cbn; by rewrite Hn|]. split; [done|]. split.
    + intros u' [Hu'| ->%list_elem_of_singleton]%elem_of_app.
      * destruct (Hdone u' Hu') as [Hx|(x & Hx & Hxh)]; [by left|]. right. exists x.
        split; [apply elem_of_app; by left|done].
      * right. exists b. split; [apply elem_of_app; right; by left|].
        split; [|done]. unfold is_balance. cbn. by rewrite !String.eqb_refl.
    + intros x Hx Hxu. apply Hold; [done|]. intros u' Hu'. apply Hxu, elem_of_app. by left.
Qed.

Lemma upserts_storing user account olds us us' news w w' :
  storing user account olds us news w → NoDup (map bu_asset (us ++ us')) →
  run_all (map (_upsert_balance user account) us') w = (Ok tt, w') →
  ∃ news', storing user account olds (us ++ us') news' w'.
Proof.
  revert us news w. induction us' as [|u us' IH]; intros us news w Hs Hd E; cbn [map run_all] in E.
  - injection E as <-. rewrite app_nil_r. eauto.
  - apply bind_Ok_inv in E as ([] & w1 & Eu & E).
    destruct (upsert_storing _ _ _ _ u _ _ w1 Hs) as (news1 & Hs1); [|exact Eu|].
    + intros Hin. rewrite List.map_app in Hd. apply NoDup_app in Hd as (_ & Hdis & _).
      apply (Hdis (bu_asset u)); [done|]. cbn. by left.
    + replace (us ++ u :: us') with ((us ++ [u]) ++ us') in * by (by rewrite <- app_assoc).
      by apply (IH _ _ _ Hs1 Hd).
Qed.

(** A balance event that is synchronised leaves, for every balance it reports, a row
    of the account with exactly the reported quantities, and every other balance as
    it was. *)
Theorem account_balances_synced user account event us w r w' :
  w_new w = empty_db → unique_ids Balance (w_tx w) →
  use_type event = EV_BALANCE → _balance_updates (use_exchange event) (use_payload event) = Ok us →
  sync_testnet_account_state_event user account event w = (Ok r, w') →
  syn_balances r = length us ∧
  (∀ u, u ∈ us → ∃ b, b ∈ db_balances (w_tx w') ∧ holds_balance user account u b ∧
     bal_available b = canonical_numeric 10 (scaled (-10) (bu_available u)) ∧
     bal_locked b = canonical_numeric 10 (scaled (-10) (bu_locked u))) ∧
  (∀ b, b ∈ db_balances (w_tx w) → (∀ u, u ∈ us → is_balance user account (bu_asset u) b = false) →
     b ∈ db_balances (w_tx w')).
Proof.
  intros Hn Hu Ht Hus E. unfold sync_testnet_account_state_event in E.
  apply bind_Ok_inv in E as (a & w0 & Ea & E). assert (w0 = w) as ->.
  { unfold _require_testnet_account in Ea. apply bind_Ok_inv in Ea as (x & w1 & [= <- <-] & Ea).
    repeat case_match; try done; by injection Ea as _ <-. }
  rewrite Ht in E. apply bind_Ok_inv in E as (us0 & w1 & El & E). unfold lift in El. rewrite Hus in El.
  injection El as <- <-. apply balance_updates_Ok in Hus as (_ & Hd & Hvalid).
  apply bind_Ok_inv in E as ([] & w1 & Er & E). apply bind_Ok_inv in E as ([] & w2 & Ef & E).
  injection E as <- <-.
  assert (storing user account (db_balances (w_tx w)) [] [] w) as Hs0.
  { split; [by rewrite Hn|]. split; [done|]. split; [by intros u Hu'%elem_of_nil|done]. }
  destruct (upserts_storing _ _ _ _ us _ _ _ Hs0 Hd Er) as (news & Hnew & _ & Hdone & Hold).
  cbn [app] in Hdone, Hold.
  pose proof (flush_only (R:=Balance)) as Ho. erewrite Ho in Ef by exact Hnew. clear Ho. apply flush_table_Ok in Ef as (rs & Hrs & _ & ->).
  rewrite Hnew in Hrs. cbn in Hrs.
  split; [done|]. split.
  2:{ intros b Hb Hbu. cbn. apply elem_of_app. left. by apply Hold. }
  intros u Huin.
  assert (∃ b, b ∈ db_balances (w_tx w1) ++ rs ∧ holds_balance user account u b) as (b & Hb & Hh).
  { destruct (Hdone u Huin) as [(b & Hb & Hh)|(b & Hb & Hm & Ha & Hl & Htt)].
    - exists b. split; [apply elem_of_app; by left|done].
    - apply list_elem_of_lookup in Hb as [i Hi].
      destruct (Forall2_lookup_l _ _ _ _ _ Hrs Hi) as (b' & Hi' & Hst).
      apply store_balance_Ok in Hst as (_ & Hus' & Hac & Has & Ha' & Hl' & Ht').
      exists b'. split; [apply elem_of_app; right; by eapply list_elem_of_lookup_2|].
      rewrite Ha in Ha'. rewrite Hl in Hl'. rewrite Htt in Ht'. split; [|done].
      unfold is_balance in *. by rewrite Hus', Hac, Has. }
  exists b. split; [done|]. split; [done|]. rewrite Forall_forall in Hvalid.
  destruct (Hvalid u Huin) as (_ & _ & [Hae Hab] & [Hle Hlb] & _). destruct Hh as (_ & Ha & Hl & _).
  rewrite numeric_column_fits in Ha, Hl by (done || lia). by injection Ha as <-; injection Hl as <-.
Qed.
End stored.

(** Every balance a report yields can be stored exactly, is not negative and does not
    claim more than the total; assets are not repeated. *)
Theorem balance_report_valid e payload us :
  _balance_updates e payload = Ok us → us ≠ [] ∧ NoDup (map bu_asset us) ∧ Forall valid_balance us.
Proof. apply balance_updates_Ok. Qed.

(** ** A concrete report *)

Definition demo_balance_event : TestnetUserStreamEvent :=
  Build_TestnetUserStreamEvent BINANCE EV_BALANCE
    [("e", VStr "outboundAccountPosition");
     ("B", VList [VDict [("a", VStr "usdt"); ("f", VStr "100.5"); ("l", VStr "2")];
                  VDict [("a", VStr "BTC"); ("f", VFloat "0.25"); ("l", VInt 0)]])].
Definition demo_balance_updates : list BalanceStateUpdate :=
  [Build_BalanceStateUpdate "USDT" (Dec false 1005 (-1)) (Dec false 2 0) (Dec false 1025 (-1));
   Build_BalanceStateUpdate "BTC" (Dec false 25 (-2)) (Dec false 0 0) (Dec false 25 (-2))].

Lemma balance_report_valid_witness :
  _balance_updates BINANCE (use_payload demo_balance_event) = Ok demo_balance_updates ∧
  Forall valid_balance demo_balance_updates.
Proof.
  split; [vm_compute; reflexivity|].
  apply (balance_report_valid BINANCE (use_payload demo_balance_event)). vm_compute. reflexivity.
Defined.

Lemma account_balances_synced_witness :
  ∃ r w', sync_testnet_account_state_event "user-1" "acct-test" demo_balance_event demo_world = (Ok r, w') ∧
    syn_balances r = 2%nat ∧
    ∃ b, b ∈ db_balances (w_tx w') ∧ bal_available b = canonical_numeric 10 1005000000000.
Proof.
  eexists _, _. split; [vm_compute; reflexivity|]. split; [reflexivity|].
  edestruct (account_balances_synced "user-1" "acct-test" demo_balance_event demo_balance_updates demo_world)
    as (_ & Hall & _); [reflexivity|apply (bool_decide_unpack _); vm_compute; exact I|reflexivity
    |vm_compute; reflexivity|vm_compute; reflexivity|].
  destruct (Hall _ ltac:(left)) as (b & Hb & _ & Ha & _). exists b. split; [exact Hb|exact Ha].
Defined.
