(* ===== verification/OrderReconciliation.v ===== *)
(** [services/testnet_order_reconciliation.py] and its endpoint in
    [api/v1/admin_testnet_reconciliation.py]: the status of every pending testnet order
    is looked up at the exchange and applied through the lifecycle. *)
From S2P Require Import Prelude PyStr PyDecimal PyValue Models Hash Session PgDatabase Tables Demo Logic OrderStateMachine ExecutionLog ExecutionRow Accounts TestnetGate WindowApproval RateLimit HttpClient TestnetRequest TestnetPersistence TestnetSubmit EmergencyStop Lifecycle.

Definition _PENDING_STATUSES : list OrderExecutionStatus := [SUBMITTED; ACCEPTED; PARTIALLY_FILLED].

Record TestnetOrderReconciliationItem := {
  rci_execution_id : string; rci_status : string;
  rci_lifecycle_result : option TestnetOrderLifecycleResult; rci_failure_type : option string }.

Record TestnetOrderReconciliationResult := {
  rcr_account : string; rcr_attempted : nat; rcr_transitioned : nat; rcr_failed : nat;
  rcr_items : list TestnetOrderReconciliationItem }.

(** [None] is the [KeyError]. *)
Definition _order_lookup_path (e : ExchangeName) : option string :=
  match e with
  | BINANCE => Some "/api/v3/order"
  | BYBIT => Some "/v5/order/realtime"
  | OKX => Some "/api/v5/trade/order"
  | MOCK => None
  end.

Definition _order_lookup_params (x : OrderExecution) (e : ExchangeName) : list (string * string) :=
  match e with
  | BINANCE => [("symbol", exe_symbol x); ("origClientOrderId", exe_client_order_id x)]
  | BYBIT => [("category", "spot"); ("orderLinkId", exe_client_order_id x)]
  | _ => [("instId", _okx_symbol (exe_symbol x)); ("clOrdId", exe_client_order_id x)]
  end.

Definition _security_type (e : ExchangeName) : ExchangeSecurityType :=
  match e with OKX => OKX_DEMO_SIGNED | _ => SIGNED end.

Definition item_transitioned (i : TestnetOrderReconciliationItem) : bool :=
  match rci_lifecycle_result i with Some r => lcr_transitioned r | None => false end.
Definition item_failed (i : TestnetOrderReconciliationItem) : bool :=
  match rci_failure_type i with Some _ => true | None => false end.

Definition reconciliation_result (account : string) (items : list TestnetOrderReconciliationItem) :
    TestnetOrderReconciliationResult :=
  {| rcr_account := account; rcr_attempted := length items;
     rcr_transitioned := length (List.filter item_transitioned items);
     rcr_failed := length (List.filter item_failed items); rcr_items := items |}.

Definition pending_of (user account : string) (x : OrderExecution) : bool :=
  String.eqb (exe_user x) user && String.eqb (exe_account x) account &&
  bool_decide (exe_status x ∈ _PENDING_STATUSES).

Section reconciliation.
Context `{Database} `{Settings} `{Fernet} `{X : Exchange}.

(** What the account must be; a message for the first condition that fails. *)
Definition reconciliation_blocked (account : option ExchangeAccount) : option string :=
  match account with
  | None => Some "testnet exchange account was not found"
  | Some a =>
      if negb (acct_is_active a) then Some "testnet exchange account was not found"
      else if negb (bool_decide (acct_mode a = TESTNET)) then Some "account mode must be TESTNET"
      else if bool_decide (acct_exchange a = MOCK) then Some "mock exchange has no private REST lookup"
      else if acct_trading_enabled a then Some "trading must remain disabled"
      else None
  end.

Definition lookup_and_apply (user account : string) (e : ExchangeName) (c : ExchangeCredentials)
    (client : SignedExchangeHttpClient) (execution : string) : M TestnetOrderReconciliationItem :=
  x ← load_execution execution;
  match _order_lookup_path e with
  | None => raise (KeyError (exchange_value e))
  | Some path =>
      response ← get_private client path c (_order_lookup_params x e) (_security_type e);
      event ← lift (normalize_testnet_rest_order_status e response);
      r ← apply_order_event user account event "testnet_rest_order_reconciliation";
      x' ← load_execution execution;
      mret {| rci_execution_id := exe_execution_id x';
              rci_status := match lcr_status r with
                            | Some s => status_value s
                            | None => status_value (exe_status x')
                            end;
              rci_lifecycle_result := Some r; rci_failure_type := None |}
  end.

Definition failed_item (execution failure_type : string) : M TestnetOrderReconciliationItem :=
  x ← load_execution execution;
  mret {| rci_execution_id := exe_execution_id x; rci_status := status_value (exe_status x);
          rci_lifecycle_result := None; rci_failure_type := Some failure_type |}.

Definition lookup_errors (execution : string) (exn : Exn) : option (M TestnetOrderReconciliationItem) :=
  match exn with
  | ExchangeHttpRequestError failure_type _ _ => Some (failed_item execution failure_type)
  | _ => if is_ValueError exn then Some (failed_item execution "response_invalid") else None
  end.

Definition _reconcile_execution (user account : string) (e : ExchangeName) (c : ExchangeCredentials)
    (client : SignedExchangeHttpClient) (execution : string) : M TestnetOrderReconciliationItem :=
  try_except (lookup_and_apply user account e c client execution) (lookup_errors execution).

Definition reconciliation_payload (e : ExchangeName) (r : TestnetOrderReconciliationResult) : dict :=
  [("exchange_name", VStr (exchange_value e)); ("account_mode", VStr (mode_value TESTNET));
   ("attempted", VInt (Z.of_nat (rcr_attempted r))); ("transitioned", VInt (Z.of_nat (rcr_transitioned r)));
   ("failed", VInt (Z.of_nat (rcr_failed r)))].

Definition _write_audit (user : string) (e : ExchangeName) (r : TestnetOrderReconciliationResult) : M unit :=
  id ← new_id;
  now ← now_utc;
  add_commit (Build_AuditLog id user (Some (rcr_account r)) "testnet.order.reconciliation.requested"
    (if (rcr_failed r =? 0)%nat then "INFO" else "WARNING") (reconciliation_payload e r) now).

Definition blocked {A} (m : string) : M A := raise (TestnetOrderReconciliationBlockedError m).

Definition reconcile_pending_testnet_orders (user exchange_account : string) :
    M TestnetOrderReconciliationResult :=
  account ← get_owned_account user exchange_account;
  match account, reconciliation_blocked account with
  | Some a, None =>
      credentials ← get_exchange_credentials user exchange_account;
      match credentials with
      | None => blocked "testnet API credentials are not configured"
      | Some c =>
          client ← lift (create_testnet_signed_http_client (acct_exchange a));
          executions ← db_scalars (pending_of user exchange_account);
          items ← mapM (_reconcile_execution user exchange_account (acct_exchange a) c client)
                    (map exe_id executions);
          let result := reconciliation_result exchange_account items in
          _write_audit user (acct_exchange a) result ;;
          mret result
      end
  | _, Some m => blocked m
  | None, None => blocked "testnet exchange account was not found"
  end.

(** The endpoint. *)
Definition _require_super_admin (u : User) : M unit :=
  if bool_decide (user_role u = SUPER_ADMIN) then mret tt
  else raise (HTTPException 403 (VStr "super admin privileges required") []).

Definition _require_testnet_enabled : M unit :=
  if testnet_adapters_enabled then mret tt
  else raise (HTTPException 409 (VStr "TESTNET_ADAPTERS_ENABLED must be true before this operation") []).

Definition reconcile_testnet_order_statuses (current_user : User) (account : string) :
    M TestnetOrderReconciliationResult :=
  _require_super_admin current_user ;;
  _require_testnet_enabled ;;
  try_except (reconcile_pending_testnet_orders (user_id current_user) account)
    (λ exn, match exn with
            | TestnetOrderReconciliationBlockedError _ =>
                Some (raise (HTTPException 400 (VStr "testnet order reconciliation is blocked") []))
            | _ => None
            end).
End reconciliation.

(** ** Lookups only read, and statuses only move forward *)

(** A GET of the order lookup of some exchange. *)
Definition lookup_event (ev : Event) : Prop :=
  ∃ c req e, ev = EvHttp c req ∧ req_method req = "GET" ∧ _order_lookup_path e = Some (req_path req).

Lemma private_request_shape client now method path c params body sec req :
  _prepare_private_request client now method path c params body sec = Ok req →
  req_method req = method ∧ req_path req = path.
Proof.
  unfold _prepare_private_request, _prepare_okx_request. intros E.
  repeat case_match; simplify_eq/=; done.
Qed.

Section effects.
Context `{Database} `{!DatabaseLaws} `{Settings} `{Fernet} `{X : Exchange}.

Lemma emits_lookup client path c params sec e :
  _order_lookup_path e = Some path → emits lookup_event (get_private client path c params sec).
Proof.
  intros He. unfold get_private. apply emits_bind; [apply emits_gets|]. intros now.
  destruct (prepare_private_request _ _ _ _ _ _) as [req|x] eqn:Ep; [|apply emits_raise].
  apply private_request_shape in Ep as [Hm Hp]. unfold transport_request.
  apply emits_bind; [apply emits_gets|]. intros reply. apply emits_bind; [apply emits_gets|]. intros cm.
  apply emits_bind; [|intros _; emits_tac]. apply emits_emit. exists cm, req, e. by rewrite Hp.
Qed.

Lemma emits_item user account e c client execution :
  emits lookup_event (_reconcile_execution user account e c client execution).
Proof.
  unfold _reconcile_execution. apply emits_try.
  - unfold lookup_and_apply. apply emits_bind; [apply emits_load|]. intros x.
    destruct (_order_lookup_path e) as [path|] eqn:Ep; [|apply emits_raise].
    apply emits_bind; [by eapply emits_lookup|]. intros r. emits_tac; first [apply emits_load|apply emits_apply].
  - intros x k. unfold lookup_errors, failed_item. destruct x; cbn; intros [= <-]; emits_tac; apply emits_load.
Qed.

Lemma emits_reconcile user account : emits lookup_event (reconcile_pending_testnet_orders user account).
Proof.
  unfold reconcile_pending_testnet_orders, get_owned_account, get_exchange_credentials,
    get_api_key_secret_metadata, decrypt_secret, blocked, _write_audit.
  emits_tac. apply emits_item.
Qed.

(** A reconciliation sends nothing but order lookups. *)
Theorem reconciliation_read_only user account w :
  ∃ evs, w_trace (reconcile_pending_testnet_orders user account w).2 = w_trace w ++ evs ∧
    Forall lookup_event evs.
Proof. apply emits_reconcile. Qed.

(** The executions have evolved from [es]; between operations the session is clean. *)
Definition evolved (es : list OrderExecution) (w : World) : Prop :=
  ready w ∧ rows_evolve es (db_executions (w_committed w)).
Definition evolved_committed (es : list OrderExecution) (w : World) : Prop :=
  log_committed w ∧ rows_evolve es (db_executions (w_committed w)).
Definition keeps_evolved {A} (m : M A) : Prop := ∀ es, keeps (evolved es) (evolved_committed es) m.

Lemma evolved_weaken es w : evolved es w → evolved_committed es w.
Proof. intros [(_ & _ & Hlog) He]. split; [by apply log_inv_committed|done]. Qed.

Lemma evolved_trace es w ev : evolved es w → evolved es (push_event ev w).
Proof. done. Qed.

Lemma keeps_evolved_apply user account ev reason : keeps_evolved (apply_order_event user account ev reason).
Proof.
  intros es w [Hready He]. destruct (apply_order_event user account ev reason w) as [[r|x] w'] eqn:E; cbn.
  - pose proof (apply_ready _ _ _ _ _ _ _ Hready E) as Hready'. split; [done|].
    pose proof (apply_evolves _ _ _ _ _ _ _ Hready E) as Hev.
    destruct Hready as (_ & Hc & _), Hready' as (_ & Hc' & _). rewrite Hc, Hc' in Hev. by etrans.
  - destruct (apply_Raise _ _ _ _ _ _ _ Hready E) as [->|(-> & Hc & Hn)].
    + destruct (db_failure x); [by apply evolved_weaken|done].
    + unfold evolved_committed, log_committed. rewrite Hc. split; [|done].
      eapply log_db_next; [exact Hn|]. destruct Hready as (_ & _ & Hlog). by apply log_inv_committed in Hlog.
Qed.

Lemma keeps_evolved_load id : keeps_evolved (load_execution id).
Proof. intros es. unfold load_execution. keeps_tac. Qed.

Lemma keeps_evolved_get_private client path c params sec :
  keeps_evolved (get_private client path c params sec).
Proof.
  intros es. unfold get_private. apply keeps_bind; [apply keeps_gets|]. intros now.
  destruct (prepare_private_request _ _ _ _ _ _) as [req|x] eqn:Ep.
  - unfold transport_request. apply keeps_bind; [apply keeps_gets|]. intros reply.
    apply keeps_bind; [apply keeps_gets|]. intros cm.
    apply keeps_bind; [apply keeps_modify; intros w; apply evolved_trace|]. intros _. keeps_tac.
  - apply keeps_raise. unfold prepare_private_request, _prepare_private_request, _prepare_okx_request in Ep.
    repeat case_match; simplify_eq/=; done.
Qed.

Lemma keeps_evolved_item user account e c client execution :
  keeps_evolved (_reconcile_execution user account e c client execution).
Proof.
  intros es. unfold _reconcile_execution. apply keeps_try.
  - unfold lookup_and_apply. apply keeps_bind; [apply keeps_evolved_load|]. intros x.
    destruct (_order_lookup_path e); [|by apply keeps_raise].
    apply keeps_bind; [apply keeps_evolved_get_private|]. intros r.
    apply keeps_bind; [|intros ev].
    + apply keeps_lift, benign_rest.
    + apply keeps_bind; [apply keeps_evolved_apply|]. intros res.
      apply keeps_bind; [apply keeps_evolved_load|]. intros x'. apply keeps_ret.
  - intros x k. unfold lookup_errors, failed_item. destruct x; cbn; intros [= <-]; (split; [done|]);
      (apply keeps_bind; [apply keeps_evolved_load|]; intros ?; apply keeps_ret).
Qed.

Lemma keeps_evolved_add_commit {R} `{Table R} `{!TableLaws R} `{!FlushOnly R} `{!Untouched R log_view} (r : R) :
  tbl (R:=R) empty_db = [] → keeps_evolved (add_commit r).
Proof.
  intros Hemp es w [Hready He]. pose proof Hready as (Hn & Hc & Hlog).
  pose proof (keeps_log_add_commit r w Hlog) as Hl.
  destruct (add_commit r w) as [[[]|x] w'] eqn:E; cbn in *; unfold add_commit in E; rewrite run_bind in E;
    cbn [db_add modify] in E.
  - match type of E with commit ?w0 = _ => pose proof (commit_only_Ok (R:=R) [r] w0 w') as Hc' end.
    destruct Hc' as (rs & _ & _ & ->); [cbn; by rewrite Hn, Hemp|done|done|].
    split; [split; [done|split; [done|exact Hl]]|]. cbn [w_committed committed_world].
    pose proof (untouched (R:=R) (view:=log_view) (tbl (w_tx w) ++ rs) (w_tx w)) as Hu.
    unfold log_view in Hu. injection Hu as Hu _. cbn in *. rewrite Hu, Hc. done.
  - apply commit_Raise in E. pose proof (flush_Raise _ _ _ E) as Hx. rewrite Hx in *. split; [done|].
    pose proof (flush_same_rest (set_new (set_tbl (tbl (w_new w) ++ [r]) (w_new w)) w)) as (Hcm & _).
    rewrite E in Hcm. cbn in Hcm. by rewrite Hcm.
Qed.

(** C30. However a reconciliation ends, no execution is created or lost, each keeps its
    identity, and each status has moved along the transition table only. *)
Theorem reconciliation_evolves user account w :
  ready w →
  rows_evolve (db_executions (w_committed w))
    (db_executions (w_committed (reconcile_pending_testnet_orders user account w).2)).
Proof.
  intros Hready.
  assert (keeps_evolved (reconcile_pending_testnet_orders user account)) as Hk.
  { intros es. unfold reconcile_pending_testnet_orders, get_owned_account, get_exchange_credentials,
      get_api_key_secret_metadata, decrypt_secret, blocked, _write_audit. keeps_tac.
    - intros v Hv. unfold lift, create_testnet_signed_http_client. by destruct (get_testnet_endpoint_config _).
    - apply keeps_evolved_item.
    - intros v [(Hn & Hc & Hl) He]. split; [|done]. split; [done|]. split; [done|]. exact (keeps_log_new_id v Hl).
    - by apply keeps_evolved_add_commit. }
  assert (evolved (db_executions (w_committed w)) w) as Hw by (split; [done|reflexivity]).
  specialize (Hk _ w Hw). unfold outcome_ok in Hk.
  destruct (reconcile_pending_testnet_orders user account w) as [[r|x] w']; cbn [fst snd] in *; [apply Hk|].
  destruct (db_failure x); apply Hk.
Qed.

Lemma mapM_Ok {A B} (f : A → M B) (P : B → Prop) l w ys w' :
  (∀ x w y w', f x w = (Ok y, w') → P y) → mapM f l w = (Ok ys, w') →
  length ys = length l ∧ Forall P ys.
Proof.
  intros Hf. revert w ys w'. induction l as [|x l IH]; intros w ys w' E; cbn in E.
  - by injection E as <- _.
  - apply bind_Ok_inv in E as (y & w1 & Ey & E). apply bind_Ok_inv in E as (ys' & w2 & El & E).
    injection E as <- _. destruct (IH _ _ _ El) as [Hl Hys]. cbn. split; [by f_equal|]. constructor; [by eapply Hf|done].
Qed.

Lemma item_exclusive user account e c client x w i w' :
  _reconcile_execution user account e c client x w = (Ok i, w') →
  item_transitioned i = false ∨ item_failed i = false.
Proof.
  unfold _reconcile_execution, try_except.
  destruct (lookup_and_apply user account e c client x w) as [[j|y] w1] eqn:El.
  - intros [= <- <-]. right. unfold lookup_and_apply in El.
    apply bind_Ok_inv in El as (? & ? & _ & El). destruct (_order_lookup_path e); [|done].
    apply bind_Ok_inv in El as (? & ? & _ & El). apply bind_Ok_inv in El as (? & ? & _ & El).
    apply bind_Ok_inv in El as (? & ? & _ & El). apply bind_Ok_inv in El as (? & ? & _ & El).
    by injection El as <- _.
  - intros E. left. unfold lookup_errors, failed_item in E.
    destruct y; cbn in E; try done; apply bind_Ok_inv in E as (? & ? & _ & E); by injection E as <- _.
Qed.

Lemma exclusive_counts items :
  Forall (λ i, item_transitioned i = false ∨ item_failed i = false) items →
  (length (List.filter item_transitioned items) + length (List.filter item_failed items) ≤ length items)%nat.
Proof.
  induction 1 as [|i items Hi _ IH]; cbn; [lia|].
  destruct (item_transitioned i), (item_failed i); cbn; destruct Hi; try done; lia.
Qed.

Lemma not_blocked a :
  reconciliation_blocked (Some a) = None →
  acct_is_active a = true ∧ acct_mode a = TESTNET ∧ acct_exchange a ≠ MOCK ∧ acct_trading_enabled a = false.
Proof.
  unfold reconciliation_blocked. destruct (acct_is_active a); [|done]. cbn [negb].
  repeat case_bool_decide; cbn; try done. by destruct (acct_trading_enabled a).
Qed.

(** A reconciliation that answers ran on an active testnet account with trading
    disabled, looked at every pending execution of the account once, and its counts are
    those of the audit record it leaves. *)
Theorem reconciliation_report user account w r w' :
  ready w → reconcile_pending_testnet_orders user account w = (Ok r, w') →
  (∃ a, a ∈ db_accounts (w_tx w) ∧ acct_id a = account ∧ acct_user a = user ∧ acct_is_active a = true ∧
     acct_mode a = TESTNET ∧ acct_exchange a ≠ MOCK ∧ acct_trading_enabled a = false) ∧
  rcr_attempted r = length (List.filter (pending_of user account) (db_executions (w_tx w))) ∧
  length (rcr_items r) = rcr_attempted r ∧
  (rcr_transitioned r + rcr_failed r ≤ rcr_attempted r)%nat ∧
  ∃ l d, db_audit (w_committed w') = d ++ [l] ∧ aud_action l = "testnet.order.reconciliation.requested" ∧
    dict_lookup "attempted" (aud_payload l) = Some (VInt (Z.of_nat (rcr_attempted r))) ∧
    dict_lookup "transitioned" (aud_payload l) = Some (VInt (Z.of_nat (rcr_transitioned r))) ∧
    dict_lookup "failed" (aud_payload l) = Some (VInt (Z.of_nat (rcr_failed r))).
Proof.
  intros Hready E. unfold reconcile_pending_testnet_orders in E.
  apply bind_Ok_inv in E as (acc & w1 & Ea & E). unfold get_owned_account in Ea. injection Ea as Ea <-.
  destruct acc as [a|]; [|done]. destruct (reconciliation_blocked (Some a)) as [m|] eqn:Hb; [done|].
  apply not_blocked in Hb as (Hact & Hmode & Hmock & Htr).
  apply find_first_Some in Ea as [Hin [Hid%String.eqb_eq Hus%String.eqb_eq]%andb_true_iff].
  apply bind_Ok_inv in E as (c & w1 & Ec & E). apply credentials_Ok in Ec as ->.
  destruct c as [c|]; [|done].
  apply bind_Ok_inv in E as (client & w1 & El & E). unfold lift in El. injection El as _ <-.
  apply bind_Ok_inv in E as (xs & w1 & [= <- <-] & E).
  apply bind_Ok_inv in E as (items & w1 & Em & E).
  assert (evolved (db_executions (w_committed w)) w1) as [(Hn1 & _) _].
  { assert (keeps_evolved (mapM (_reconcile_execution user account (acct_exchange a) c client)
      (map exe_id (List.filter (pending_of user account) (db_executions (w_tx w)))))) as Hk
      by (intros es; apply keeps_mapM; intros x; apply keeps_evolved_item).
    assert (evolved (db_executions (w_committed w)) w) as Hw by (split; [done|reflexivity]).
    specialize (Hk _ w Hw). cbn [tbl OrderExecution_table] in Em. by rewrite Em in Hk. }
  apply (mapM_Ok _ (λ i, item_transitioned i = false ∨ item_failed i = false)) in Em as [Hlen Hex];
    [|intros; by eapply item_exclusive].
  rewrite length_map in Hlen. apply exclusive_counts in Hex.
  apply bind_Ok_inv in E as ([] & w2 & Ew & E). injection E as <- <-.
  split; [by exists a|]. split; [exact Hlen|]. split; [done|]. split; [exact Hex|].
  unfold _write_audit in Ew. apply bind_Ok_inv in Ew as (id & w3 & [= <- <-] & Ew).
  apply bind_Ok_inv in Ew as (now & w3 & [= <- <-] & Ew).
  unfold add_commit in Ew. apply bind_Ok_inv in Ew as ([] & w3 & Eadd & Ec). injection Eadd as <-.
  set (l := Build_AuditLog _ _ _ _ _ _ _) in Ec.
  match type of Ec with commit ?w0 = (_, ?w4) =>
    destruct (commit_only_Ok (R:=AuditLog) [l] w0 w4) as (rs & Hrs & _ & ->);
      [cbn; by rewrite Hn1|done|exact Ec|] end.
  apply Forall2_cons_inv_l in Hrs as (l' & rs' & [= <-] & Hrs & ->). apply Forall2_nil_inv_l in Hrs as ->.
  eexists _, _. split; [reflexivity|]. by cbn.
Qed.
End effects.

(** ** A concrete reconciliation *)

Definition filling_exchange : Exchange :=
  {| exchange_reply _ _ := HttpOk (Some (VDict [("clientOrderId", VStr "order-1"); ("orderId", VInt 7);
       ("status", VStr "FILLED"); ("executedQty", VStr "0.1")])) |}.

(** The session after a submission, once the trading flag is off again. *)
Definition pending_db : Db := set_accounts [account_trading_off demo_testnet_account] (w_tx submitted_world).
Definition pending_world : World :=
  mkWorld pending_db pending_db empty_db (w_next submitted_world) (w_now submitted_world) [].

Lemma pending_world_ready : ready pending_world.
Proof. split; [done|]. split; [done|]. exact (proj2 (proj2 submitted_world_ready)). Qed.

Definition reconciled_run : Outcome TestnetOrderReconciliationResult * World :=
  Eval vm_compute in reconcile_pending_testnet_orders (X:=filling_exchange) "user-1" "acct-test" pending_world.

Lemma reconciled_run_eq :
  reconcile_pending_testnet_orders (X:=filling_exchange) "user-1" "acct-test" pending_world =
  (Ok (match reconciled_run.1 with Ok r => r | Raise _ => reconciliation_result "" [] end), reconciled_run.2).
Proof. vm_compute. reflexivity. Qed.

Lemma reconciliation_report_witness :
  map exe_status (db_executions (w_committed reconciled_run.2)) = [FILLED] ∧
  ∃ l, l ∈ db_audit (w_committed reconciled_run.2) ∧
    dict_lookup "transitioned" (aud_payload l) = Some (VInt 1).
Proof.
  split; [reflexivity|].
  destruct (reconciliation_report (X:=filling_exchange) _ _ _ _ _ pending_world_ready reconciled_run_eq)
    as (_ & _ & _ & _ & l & d & Hl & _ & _ & Ht & _).
  exists l. split; [rewrite Hl; apply elem_of_app; right; left|exact Ht].
Defined.

Lemma reconciliation_evolves_witness :
  rows_evolve (db_executions (w_committed pending_world)) (db_executions (w_committed reconciled_run.2)).
Proof.
  pose proof (reconciliation_evolves (X:=filling_exchange) "user-1" "acct-test" _ pending_world_ready) as He.
  rewrite reconciled_run_eq in He. exact He.
Defined.
