(* ===== verification/UserStream.v ===== *)
(** The private stream of a testnet account: the connection plan
    ([services/testnet_user_stream.py], [..._activation.py]), the transport
    ([testnet_websocket_transport.py]), the runtime and the reconnecting consumer
    ([..._runtime.py], [..._consumer.py]), the handler that persists events
    ([..._event_handler.py]) and the bounded service behind the endpoint
    ([..._service.py], [api/v1/admin_testnet_reconciliation.py]).

    The websocket server is a parameter whose answers may depend on everything that
    happened before.  The consumer loops; its model takes fuel, and [consume_bounded]
    shows that the fuel the service gives it is enough. *)
From S2P Require Import Prelude PyStr PyDecimal PyValue Json Models Hash Session PgDatabase Tables Demo Logic OrderStateMachine ExecutionLog ExecutionRow Accounts TestnetGate HttpClient TestnetRequest TestnetSubmit Lifecycle AccountSync OrderReconciliation.
From Stdlib Require Import Ascii.

(** ** The connection plan *)

Inductive TestnetUserStreamAuthMethod := BINANCE_LISTEN_KEY | BYBIT_AUTH | OKX_LOGIN.

Record TestnetUserStreamConnectionPlan := {
  cp_account : string; cp_exchange : ExchangeName; cp_url : string;
  cp_auth : TestnetUserStreamAuthMethod; cp_listen_key_request : option PreparedExchangeRequest;
  cp_login : option dict }.

Definition not_supported {A} (m : string) : Outcome A := Raise (TestnetUserStreamNotSupportedError m).

Definition build_testnet_user_stream_connection_plan (account : string) (e : ExchangeName)
    (c : ExchangeCredentials) (timestamp_ms : Z) (unix_timestamp : string) :
    Outcome TestnetUserStreamConnectionPlan :=
  match get_testnet_endpoint_config e with
  | None => Raise (KeyError (exchange_value e))
  | Some endpoint =>
      match e with
      | BINANCE =>
          match ep_public_ws_url endpoint with
          | None => not_supported "Binance user stream endpoint is not configured"
          | Some url =>
              Ok {| cp_account := account; cp_exchange := e; cp_url := url +:+ "/{listenKey}";
                    cp_auth := BINANCE_LISTEN_KEY;
                    cp_listen_key_request := Some
                      {| req_method := "POST"; req_url := ep_rest_base_url endpoint +:+ "/api/v3/userDataStream";
                         req_path := "/api/v3/userDataStream"; req_params := [];
                         req_headers := [("X-MBX-APIKEY", cred_api_key c)]; req_body := None |};
                    cp_login := None |}
          end
      | BYBIT =>
          match ep_private_ws_url endpoint with
          | None => not_supported "Bybit private WebSocket endpoint is not configured"
          | Some url =>
              let expires := str_of_Z (timestamp_ms + 10000) in
              Ok {| cp_account := account; cp_exchange := e; cp_url := url; cp_auth := BYBIT_AUTH;
                    cp_listen_key_request := None;
                    cp_login := Some [("op", VStr "auth");
                      ("args", VList [VStr (cred_api_key c); VStr expires;
                         VStr (_hmac_sha256_hex (cred_api_secret c) ("GET/realtime" +:+ expires))])] |}
          end
      | OKX =>
          match ep_private_ws_url endpoint with
          | None => not_supported "OKX private WebSocket endpoint is not configured"
          | Some url =>
              match cred_passphrase c with
              | None => Raise (ValueError "OKX WebSocket login requires an API passphrase")
              | Some passphrase =>
                  Ok {| cp_account := account; cp_exchange := e; cp_url := url; cp_auth := OKX_LOGIN;
                        cp_listen_key_request := None;
                        cp_login := Some [("op", VStr "login");
                          ("args", VList [VDict [("apiKey", VStr (cred_api_key c));
                             ("passphrase", VStr passphrase); ("timestamp", VStr unix_timestamp);
                             ("sign", VStr (_hmac_sha256_base64 (cred_api_secret c)
                                              (unix_timestamp +:+ "GET/users/self/verify")))]])] |}
              end
          end
      | MOCK => not_supported ("testnet user stream is not supported for " +:+ exchange_value e)
      end
  end.

Definition _listen_key (response : pyval) : Outcome string :=
  match dict_get "listenKey" (mapping response) with
  | VStr s =>
      let key := str_strip s in
      if String.eqb key "" || (256 <? String.length key)%nat || str_contains "/" key
      then Raise (TestnetUserStreamActivationError "testnet user stream listen key is invalid")
      else Ok key
  | _ => Raise (TestnetUserStreamActivationError "testnet user stream listen key is missing")
  end.

Definition activate_testnet_user_stream_connection_plan `{Exchange} (plan : TestnetUserStreamConnectionPlan) :
    M TestnetUserStreamConnectionPlan :=
  match cp_listen_key_request plan with
  | None => mret plan
  | Some request =>
      response ← transport_request request;
      key ← lift (_listen_key response);
      let url := str_replace "{listenKey}" key (cp_url plan) in
      if str_contains "{" url || str_contains "}" url
      then raise (TestnetUserStreamActivationError "testnet user stream URL is invalid")
      else mret (Build_TestnetUserStreamConnectionPlan (cp_account plan) (cp_exchange plan) url (cp_auth plan)
                   None (cp_login plan))
  end.

(** ** The transport *)

Definition _is_allowed_testnet_websocket_url (e : ExchangeName) (url : string) : Outcome bool :=
  if negb (startswith "wss://" url) then Ok false
  else
    match get_testnet_endpoint_config e with
    | None => Raise (KeyError (exchange_value e))
    | Some endpoint =>
        match e with
        | BINANCE =>
            match ep_public_ws_url endpoint with
            | None => Ok false
            | Some base =>
                let prefix := rstrip_slash base +:+ "/" in
                let listen_key := if startswith prefix url then str_drop (String.length prefix) url else url in
                Ok (startswith prefix url && negb (String.eqb listen_key "") &&
                    negb (str_contains "{" listen_key) && negb (str_contains "}" listen_key) &&
                    negb (str_contains "/" listen_key))
            end
        | _ => Ok (match ep_private_ws_url endpoint with Some u => String.eqb url u | None => false end)
        end
    end.

(** What [recv] brings: an error, or a message with its size and the value
    [json.loads] makes of it. *)
Inductive WsMessage := WsRecvError | WsReceived (bytes : Z) (content : option pyval).

Class WebSocket := {
  ws_create : list Event → string → bool;
  ws_send : list Event → string → bool;
  ws_recv : list Event → WsMessage;
  ws_close : list Event → bool }.

Definition max_message_bytes : Z := 1048576.
Definition transport_failed {A} (m : string) : M A := raise (TestnetWebSocketTransportError m).
Definition TRANSPORT_FAILED : string := "testnet WebSocket transport failed".

Section transport.
Context `{WebSocket}.

(** [connect] of a transport that is not connected. *)
Definition transport_connect (e : ExchangeName) (url : string) : M unit :=
  allowed ← lift (_is_allowed_testnet_websocket_url e url);
  if negb allowed then transport_failed "testnet WebSocket endpoint is not allowed"
  else
    connected ← gets (λ w, ws_create (w_trace w) url);
    emit (EvWs "connect" url) ;;
    if (connected : bool) then mret tt else transport_failed TRANSPORT_FAILED.

Definition send_json (payload : dict) : M unit :=
  sent ← gets (λ w, ws_send (w_trace w) (json_dumps_ordered (VDict payload)));
  emit (EvWs "send" (json_dumps_ordered (VDict payload))) ;;
  if (sent : bool) then mret tt else transport_failed TRANSPORT_FAILED.

Definition receive_json : M dict :=
  message ← gets (λ w, ws_recv (w_trace w));
  emit (EvWs "recv" "") ;;
  match message with
  | WsRecvError => transport_failed TRANSPORT_FAILED
  | WsReceived bytes content =>
      if (max_message_bytes <? bytes)%Z then transport_failed "testnet WebSocket message is too large"
      else match content with
           | None => transport_failed "testnet WebSocket message is invalid"
           | Some (VDict payload) => mret payload
           | Some _ => transport_failed "testnet WebSocket message must be a JSON object"
           end
  end.

(** [_close_transport]: the [RuntimeError] of a failing [close] is suppressed. *)
Definition _close_transport (connected : bool) : M unit :=
  if connected then emit (EvWs "close" "") else mret tt.

(** ** The runtime *)

Inductive TestnetUserStreamConnectionStatus := WS_CONNECTED | WS_AUTHENTICATED | WS_FAILED.

(** [try: ... except RuntimeError], [false] where it was caught. *)
Definition guarded (m : M unit) : M bool :=
  try_except (m ;; mret true) (λ x, if is_RuntimeError x then Some (mret false) else None).

(** The status of the session, and whether the transport holds a connection. *)
Definition open_session (plan : TestnetUserStreamConnectionPlan) : M (TestnetUserStreamConnectionStatus * bool) :=
  connected ← guarded (transport_connect (cp_exchange plan) (cp_url plan));
  if negb connected then mret (WS_FAILED, false)
  else match cp_login plan with
       | None => mret (WS_CONNECTED, true)
       | Some login =>
           sent ← guarded (send_json login);
           mret (if (sent : bool) then WS_AUTHENTICATED else WS_FAILED, true)
       end.
End transport.

(** ** The consumer *)

Inductive TestnetUserStreamConsumerStatus := STOPPED | MESSAGE_LIMIT_REACHED | RECONNECT_EXHAUSTED.

Record TestnetUserStreamConsumerResult := {
  con_status : TestnetUserStreamConsumerStatus; con_messages : nat; con_reconnects : nat }.

(** How the loop over one connection ended. *)
Inductive ConnectionEnd := LimitReached | ConnectionFailed | StopRequested.

(** [try: m finally: f] *)
Definition finally {A} (m : M A) (f : M unit) : M A := λ w,
  let '(o, w1) := m w in
  match f w1 with
  | (Ok _, w2) => (o, w2)
  | (Raise x, w2) => (Raise x, w2)
  end.

Record ConsumerConfig := {
  max_reconnect_attempts : nat; initial_backoff_ms : Z; max_backoff_ms : Z }.

Definition backoff_ms (cfg : ConsumerConfig) (attempt : nat) : Z :=
  Z.min (initial_backoff_ms cfg * 2 ^ (Z.of_nat attempt - 1)) (max_backoff_ms cfg).

Section consumer.
Context `{W : WebSocket} {R : Type}.
Context (handler : TestnetUserStreamEvent → M R) (should_stop : list Event → bool).

Definition stop_requested : M bool := gets (λ w, should_stop (w_trace w)).

Definition try_receive : M (option dict) :=
  try_except (p ← receive_json; mret (Some p))
    (λ x, match x with TestnetWebSocketTransportError _ => Some (mret None) | _ => None end).

Definition limit_reached (max_messages : option nat) (n : nat) : bool :=
  match max_messages with Some m => (m <=? n)%nat | None => false end.

(** The inner loop; [None] is the end of the fuel. *)
Fixpoint receive_loop (fuel : nat) (e : ExchangeName) (max_messages : option nat) (processed : nat) :
    M (option (ConnectionEnd * nat)) :=
  match fuel with
  | O => mret None
  | S fuel =>
      stop ← stop_requested;
      if (stop : bool) then mret (Some (StopRequested, processed))
      else
        payload ← try_receive;
        match payload with
        | None => mret (Some (ConnectionFailed, processed))
        | Some payload =>
            event ← lift (parse_testnet_user_stream_event e payload);
            handler event ;;
            if limit_reached max_messages (S processed) then mret (Some (LimitReached, S processed))
            else receive_loop fuel e max_messages (S processed)
        end
  end.

Definition _sleep_before_reconnect (cfg : ConsumerConfig) (attempt : nat) : M unit :=
  emit (EvWs "sleep" (str_of_Z (backoff_ms cfg attempt))).

(** [while True] *)
Fixpoint consume_loop (fuel inner : nat) (cfg : ConsumerConfig) (plan : TestnetUserStreamConnectionPlan)
    (max_messages : option nat) (processed reconnects : nat) : M (option TestnetUserStreamConsumerResult) :=
  match fuel with
  | O => mret None
  | S fuel =>
      let result s n := mret (Some (Build_TestnetUserStreamConsumerResult s n reconnects)) in
      let retry n :=
        if (max_reconnect_attempts cfg <=? reconnects)%nat then result RECONNECT_EXHAUSTED n
        else
          _sleep_before_reconnect cfg (S reconnects) ;;
          consume_loop fuel inner cfg plan max_messages n (S reconnects) in
      stop ← stop_requested;
      if (stop : bool) then result STOPPED processed
      else
        '(status, connected) ← open_session plan;
        match status with
        | WS_FAILED => _close_transport connected ;; retry processed
        | _ =>
            ended ← finally (receive_loop inner (cp_exchange plan) max_messages processed)
                      (_close_transport connected);
            match ended with
            | None => mret None
            | Some (LimitReached, n) => result MESSAGE_LIMIT_REACHED n
            | Some (how, n) =>
                stop ← stop_requested;
                if (stop : bool) then result STOPPED n
                else match how with ConnectionFailed => retry n | _ => result STOPPED n end
            end
        end
  end.

(** [TestnetUserStreamConsumer.consume]; the fuel covers every bounded call. *)
Definition consume (cfg : ConsumerConfig) (plan : TestnetUserStreamConnectionPlan) (max_messages : nat) :
    M (option TestnetUserStreamConsumerResult) :=
  if (max_messages =? 0)%nat then raise (ValueError "max_messages must be positive")
  else consume_loop (S (max_reconnect_attempts cfg)) (S max_messages) cfg plan (Some max_messages) 0 0.
End consumer.

(** ** The service *)

Record TestnetUserStreamEventHandlingResult := {
  ehr_order_result : option TestnetOrderLifecycleResult; ehr_state_event_processed : bool }.

Record TestnetUserStreamConsumeResult := {
  cns_account : string; cns_exchange : ExchangeName; cns_status : TestnetUserStreamConsumerStatus;
  cns_messages : nat; cns_reconnects : nat }.

Definition consumer_status_value (s : TestnetUserStreamConsumerStatus) : string :=
  match s with
  | STOPPED => "STOPPED" | MESSAGE_LIMIT_REACHED => "MESSAGE_LIMIT_REACHED"
  | RECONNECT_EXHAUSTED => "RECONNECT_EXHAUSTED"
  end.

Section service.
Context `{Database} `{Settings} `{Fernet} `{X : Exchange} `{W : WebSocket}.

(** [PersistingTestnetUserStreamEventHandler.__call__] *)
Definition persist_event (user account : string) (event : TestnetUserStreamEvent) :
    M TestnetUserStreamEventHandlingResult :=
  if bool_decide (use_type event = EV_ORDER)
  then
    r ← handle_user_stream_event user account event;
    mret (Build_TestnetUserStreamEventHandlingResult (Some r) false)
  else
    r ← sync_testnet_account_state_event user account event;
    (if syn_synced r then commit else mret tt) ;;
    mret (Build_TestnetUserStreamEventHandlingResult None (syn_synced r)).

Definition stream_blocked (max_messages : Z) (account : option ExchangeAccount) : option string :=
  if (max_messages <? 1)%Z || (20 <? max_messages)%Z then Some "max_messages must be between 1 and 20"
  else match account with
       | None => Some "testnet exchange account was not found"
       | Some a =>
           if negb (acct_is_active a) then Some "testnet exchange account was not found"
           else if negb (bool_decide (acct_mode a = TESTNET)) then Some "account mode must be TESTNET"
           else if bool_decide (acct_exchange a = MOCK) then Some "mock exchange has no private user stream"
           else if acct_trading_enabled a then Some "trading must remain disabled"
           else if negb testnet_adapters_enabled then Some "testnet adapters must be explicitly enabled"
           else None
       end.

(** The defaults of [build_testnet_user_stream_connection_plan] and of the consumer. *)
Definition DEFAULT_TIMESTAMP_MS : Z := 1700000000000.
Definition DEFAULT_UNIX_TIMESTAMP : string := "1700000000".
Definition service_config : ConsumerConfig := Build_ConsumerConfig 1 1000 30000.

Definition stream_payload (r : TestnetUserStreamConsumeResult) : dict :=
  [("exchange_name", VStr (exchange_value (cns_exchange r))); ("account_mode", VStr (mode_value TESTNET));
   ("status", VStr (consumer_status_value (cns_status r)));
   ("messages_processed", VInt (Z.of_nat (cns_messages r)));
   ("reconnect_attempts", VInt (Z.of_nat (cns_reconnects r)))].

Definition write_stream_audit (user : string) (r : TestnetUserStreamConsumeResult) : M unit :=
  id ← new_id;
  now ← now_utc;
  add_commit (Build_AuditLog id user (Some (cns_account r)) "testnet.user_stream.consume.completed"
    (match cns_status r with RECONNECT_EXHAUSTED => "WARNING" | _ => "INFO" end) (stream_payload r) now).

(** [None] would be a consumer without end; see [consume_bounded]. *)
Definition consume_bounded_testnet_user_stream (user exchange_account : string) (max_messages : Z) :
    M (option TestnetUserStreamConsumeResult) :=
  account ← get_owned_account user exchange_account;
  match account, stream_blocked max_messages account with
  | Some a, None =>
      credentials ← get_exchange_credentials user exchange_account;
      match credentials with
      | None => raise (TestnetUserStreamBlockedError "testnet API credentials are not configured")
      | Some c =>
          client ← lift (create_testnet_signed_http_client (acct_exchange a));
          plan ← lift (build_testnet_user_stream_connection_plan (acct_id a) (acct_exchange a) c
                         DEFAULT_TIMESTAMP_MS DEFAULT_UNIX_TIMESTAMP);
          plan ← activate_testnet_user_stream_connection_plan plan;
          r ← consume (persist_event user (acct_id a)) (λ _, false) service_config plan (Z.to_nat max_messages);
          match r with
          | None => mret None
          | Some r =>
              let result := Build_TestnetUserStreamConsumeResult (acct_id a) (acct_exchange a)
                              (con_status r) (con_messages r) (con_reconnects r) in
              write_stream_audit user result ;;
              mret (Some result)
          end
      end
  | _, Some m => raise (TestnetUserStreamBlockedError m)
  | None, None => raise (TestnetUserStreamBlockedError "testnet exchange account was not found")
  end.

(** The endpoint. *)
Definition consume_testnet_user_stream (current_user : User) (account acknowledgement : string)
    (max_messages : Z) : M (option TestnetUserStreamConsumeResult) :=
  _require_super_admin current_user ;;
  _require_testnet_enabled ;;
  if negb (String.eqb acknowledgement "CONSUME_TESTNET_USER_STREAM_READ_ONLY")
  then raise (HTTPException 400 (VStr "explicit user stream acknowledgement is required") [])
  else
    try_except (consume_bounded_testnet_user_stream (user_id current_user) account max_messages)
      (λ x, match x with
            | TestnetUserStreamBlockedError _ =>
                Some (raise (HTTPException 400 (VStr "testnet user stream consumption is blocked") []))
            | _ => if is_RuntimeError x
                   then Some (raise (HTTPException 502 (VStr "testnet user stream transport failed") []))
                   else None
            end).
End service.

(** ** The consumer stops *)

Section termination.
Context `{W : WebSocket} {R : Type}.
Context (handler : TestnetUserStreamEvent → M R) (should_stop : list Event → bool).

(** A connection ends with the message limit, or below it. *)
Definition connection_ended (m processed : nat) (r : option (ConnectionEnd * nat)) : Prop :=
  match r with
  | None => False
  | Some (how, n) =>
      (processed ≤ n)%nat ∧ match how with LimitReached => n = m | _ => (n < m)%nat end
  end.

Lemma receive_loop_ends fuel e m : ∀ processed,
  (processed < m)%nat → (m ≤ processed + fuel)%nat →
  yields (connection_ended m processed) (receive_loop handler should_stop fuel e (Some m) processed).
Proof.
  induction fuel as [|fuel IH]; intros processed Hp Hf; [lia|]. cbn [receive_loop].
  apply yields_then. intros [|]; [apply yields_ret; cbn; lia|].
  apply yields_then. intros [payload|]; [|apply yields_ret; cbn; lia].
  apply yields_then. intros event. apply yields_then. intros _.
  cbn [limit_reached]. destruct (m <=? S processed)%nat eqn:E.
  - apply Nat.leb_le in E. apply yields_ret. cbn. lia.
  - apply Nat.leb_gt in E. intros w r w' Er. apply IH in Er; [|lia..].
    destruct r as [[how n]|]; [|done]. cbn in *. destruct Er as [? ?]. split; [lia|done].
Qed.

Lemma yields_finally {A} (Q : A → Prop) (m : M A) f : yields Q m → yields Q (finally m f).
Proof.
  intros Hm w a w' E. unfold finally in E. destruct (m w) as [o w1] eqn:Em.
  destruct (f w1) as [[?|?] w2]; [|done]. injection E as -> <-. by eapply Hm.
Qed.

Definition consumer_ended (cfg : ConsumerConfig) (m : nat) (r : option TestnetUserStreamConsumerResult) : Prop :=
  match r with
  | None => False
  | Some r =>
      (con_reconnects r ≤ max_reconnect_attempts cfg)%nat ∧
      match con_status r with
      | MESSAGE_LIMIT_REACHED => con_messages r = m
      | STOPPED => (con_messages r < m)%nat
      | RECONNECT_EXHAUSTED => (con_messages r < m)%nat ∧ con_reconnects r = max_reconnect_attempts cfg
      end
  end.

Lemma consume_loop_ends fuel cfg plan m : ∀ processed reconnects,
  (processed < m)%nat → (reconnects ≤ max_reconnect_attempts cfg < reconnects + fuel)%nat →
  yields (consumer_ended cfg m)
    (consume_loop handler should_stop fuel (S m) cfg plan (Some m) processed reconnects).
Proof.
  induction fuel as [|fuel IH]; intros processed reconnects Hp Hr; [lia|]. cbn [consume_loop]. cbv zeta.
  assert (∀ n, (n < m)%nat → yields (consumer_ended cfg m)
    (if (max_reconnect_attempts cfg <=? reconnects)%nat
     then mret (Some (Build_TestnetUserStreamConsumerResult RECONNECT_EXHAUSTED n reconnects))
     else _sleep_before_reconnect cfg (S reconnects) ;;
          consume_loop handler should_stop fuel (S m) cfg plan (Some m) n (S reconnects))) as Hretry.
  { intros n Hn. destruct (_ <=? _)%nat eqn:E.
    - apply Nat.leb_le in E. apply yields_ret. cbn. lia.
    - apply Nat.leb_gt in E. apply yields_then. intros _. apply IH; lia. }
  apply yields_then. intros [|]; [apply yields_ret; cbn; lia|].
  apply yields_then. intros [status connected].
  assert (yields (consumer_ended cfg m)
    (ended ← finally (receive_loop handler should_stop (S m) (cp_exchange plan) (Some m) processed)
               (_close_transport connected);
     match ended with
     | None => mret None
     | Some (LimitReached, n) =>
         mret (Some (Build_TestnetUserStreamConsumerResult MESSAGE_LIMIT_REACHED n reconnects))
     | Some (how, n) =>
         stop ← stop_requested should_stop;
         if (stop : bool)
         then mret (Some (Build_TestnetUserStreamConsumerResult STOPPED n reconnects))
         else match how with
              | ConnectionFailed =>
                  if (max_reconnect_attempts cfg <=? reconnects)%nat
                  then mret (Some (Build_TestnetUserStreamConsumerResult RECONNECT_EXHAUSTED n reconnects))
                  else _sleep_before_reconnect cfg (S reconnects) ;;
                       consume_loop handler should_stop fuel (S m) cfg plan (Some m) n (S reconnects)
              | _ => mret (Some (Build_TestnetUserStreamConsumerResult STOPPED n reconnects))
              end
     end)) as Hsession.
  { eapply yields_bind; [apply yields_finally, receive_loop_ends; lia|]. intros [[how n]|] Hn; [|done].
    cbn in Hn. destruct Hn as [_ Hn]. destruct how; [apply yields_ret; cbn; lia| |];
      (apply yields_then; intros [|]; [apply yields_ret; cbn; lia|]); [by apply Hretry|apply yields_ret; cbn; lia]. }
  destruct status; [exact Hsession|exact Hsession|].
  apply yields_then. intros _. by apply Hretry.
Qed.

(** C29. The loops of the consumer end: it never runs out of the fuel [consume] gives it,
    whatever the server sends.  A run that is not cut short by an exception reports at
    most the allowed messages and reconnects, and says why it stopped. *)
Theorem consume_bounded cfg plan m w r w' :
  consume handler should_stop cfg plan m w = (Ok r, w') →
  ∃ c, r = Some c ∧ (con_messages c ≤ m)%nat ∧ (con_reconnects c ≤ max_reconnect_attempts cfg)%nat ∧
    match con_status c with
    | MESSAGE_LIMIT_REACHED => con_messages c = m
    | STOPPED => (con_messages c < m)%nat
    | RECONNECT_EXHAUSTED => (con_messages c < m)%nat ∧ con_reconnects c = max_reconnect_attempts cfg
    end.
Proof.
  unfold consume. destruct (m =? 0)%nat eqn:E0; [done|]. apply Nat.eqb_neq in E0. intros E.
  apply consume_loop_ends in E; [|lia..]. destruct r as [c|]; [|done]. exists c. destruct E as [Hr Hs].
  split; [done|]. split; [destruct (con_status c); lia|]. split; [lia|done].
Qed.
End termination.

(** ** The stream only listens *)

(** What the stream service may do outside: ask Binance's testnet for a listen key,
    connect to a private testnet stream, and talk on it. *)
Definition listen_key_request (req : PreparedExchangeRequest) : Prop :=
  req_method req = "POST" ∧ req_url req = "https://testnet.binance.vision/api/v3/userDataStream" ∧
  req_path req = "/api/v3/userDataStream" ∧ req_body req = None.
Definition private_stream_url (url : string) : Prop :=
  url = "wss://stream-testnet.bybit.com/v5/private" ∨ url = "wss://wspap.okx.com:8443/ws/v5/private" ∨
  ∃ key, url = "wss://stream.testnet.binance.vision/ws/" +:+ key ∧ key ≠ "" ∧ str_contains "/" key = false.
Definition stream_event (ev : Event) : Prop :=
  match ev with
  | EvHttp _ req => listen_key_request req
  | EvWs command detail => command = "connect" → private_stream_url detail
  | _ => False
  end.

Lemma startswith_split p s : startswith p s = true → s = p +:+ str_drop (String.length p) s.
Proof.
  revert s. induction p as [|c p IH]; intros [|d s]; cbn; try done. intros E.
  destruct (Ascii.ascii_dec c d) as [->|]; [|done].
  change (String d s = String d (p +:+ str_drop (String.length p) s)). by rewrite <- (IH s E).
Qed.

Lemma allowed_private e url : _is_allowed_testnet_websocket_url e url = Ok true → private_stream_url url.
Proof.
  unfold _is_allowed_testnet_websocket_url. destruct (negb _); [done|].
  destruct e; cbn -[startswith str_drop str_contains];
    [|intros [= E]; apply String.eqb_eq in E as ->..|done].
  - intros [= E]. repeat rewrite andb_true_iff in E. destruct E as [[[[Hp Hne] _] _] Hs].
    rewrite Hp in *. right. right. eexists. split; [by apply startswith_split|]. split.
    + intros He. change (negb (String.eqb (str_drop (String.length "wss://stream.testnet.binance.vision/ws/") url) "") = true) in Hne.
      by rewrite He in Hne.
    + by apply negb_true_iff in Hs.
  - right. by left.
  - by left.
Qed.

Section listening.
Context `{Database} `{!DatabaseLaws} `{Settings} `{Fernet} `{X : Exchange} `{W : WebSocket}.
#[local] Abbreviation listens := (emits stream_event).

Lemma emits_finally {A} (m : M A) (f : M unit) : listens m → listens f → listens (finally m f).
Proof.
  intros Hm Hf w. unfold finally. destruct (Hm w) as (e1 & T1 & F1). destruct (m w) as [o w1].
  destruct (Hf w1) as (e2 & T2 & F2). destruct (f w1) as [[?|?] w2]; cbn in *; exists (e1 ++ e2);
    rewrite T2, T1, app_assoc; (split; [done|by apply Forall_app_2]).
Qed.

Lemma emits_connect e url : listens (transport_connect e url).
Proof.
  unfold transport_connect, transport_failed. apply emits_lift_bind. intros [|] Ha; cbn [negb]; [|emits_tac].
  apply allowed_private in Ha. apply emits_bind; [apply emits_gets|]. intros [|];
    (apply emits_bind; [apply emits_emit; intros _; exact Ha|]; intros _; emits_tac).
Qed.

Lemma emits_ws command detail : command ≠ "connect" → listens (emit (EvWs command detail)).
Proof. intros Hc. apply emits_emit. by intros ?%Hc. Qed.

Lemma emits_send payload : listens (send_json payload).
Proof. unfold send_json, transport_failed. emits_tac; by apply emits_ws. Qed.

Lemma emits_guarded m : listens m → listens (guarded m).
Proof.
  intros Hm. unfold guarded. apply emits_try; [emits_tac; done|]. intros x k. destruct (is_RuntimeError x); [|done].
  intros [= <-]. apply emits_ret.
Qed.

Lemma emits_open plan : listens (open_session plan).
Proof. unfold open_session. emits_tac; apply emits_guarded; first [apply emits_connect|apply emits_send]. Qed.

Lemma emits_receive : listens receive_json.
Proof. unfold receive_json, transport_failed. emits_tac; by apply emits_ws. Qed.

Lemma emits_close connected : listens (_close_transport connected).
Proof. unfold _close_transport. destruct connected; [by apply emits_ws|apply emits_ret]. Qed.

Section consumer_listens.
Context {R : Type} (handler : TestnetUserStreamEvent → M R) (should_stop : list Event → bool).
Hypothesis handler_listens : ∀ ev, listens (handler ev).

Lemma emits_receive_loop fuel e m processed : listens (receive_loop handler should_stop fuel e m processed).
Proof.
  revert processed. induction fuel as [|fuel IH]; intros processed; cbn [receive_loop]; [apply emits_ret|].
  unfold stop_requested. emits_tac.
  unfold try_receive. apply emits_try; [apply emits_bind; [apply emits_receive|intros; apply emits_ret]|].
  intros [] k; cbn; intros [= <-]; apply emits_ret.
Qed.

Lemma emits_consume_loop cfg plan m inner fuel processed reconnects :
  listens (consume_loop handler should_stop fuel inner cfg plan m processed reconnects).
Proof.
  revert processed reconnects.
  induction fuel as [|fuel IH]; intros processed reconnects; cbn [consume_loop]; [apply emits_ret|]. cbv zeta.
  unfold stop_requested, _sleep_before_reconnect.
  emits_tac; repeat first
    [ apply IH | apply emits_open | apply emits_close | by apply emits_ws
    | apply emits_finally; [apply emits_receive_loop|apply emits_close] ].
Qed.
End consumer_listens.

Lemma emits_persist user account ev : listens (persist_event user account ev).
Proof.
  unfold persist_event, handle_user_stream_event. emits_tac; first [apply emits_apply|apply emits_sync].
Qed.

Lemma plan_request account e c t u plan :
  build_testnet_user_stream_connection_plan account e c t u = Ok plan →
  match cp_listen_key_request plan with Some req => listen_key_request req | None => True end.
Proof.
  unfold build_testnet_user_stream_connection_plan, not_supported.
  destruct (get_testnet_endpoint_config e) as [ep|] eqn:Hep; [|done]. destruct e.
  - destruct (ep_public_ws_url ep); [|done]. intros [= <-]. cbn [cp_listen_key_request].
    by injection Hep as <-.
  - destruct (ep_private_ws_url ep); [|done]. destruct (cred_passphrase c); [|done]. by intros [= <-].
  - destruct (ep_private_ws_url ep); [|done]. by intros [= <-].
  - done.
Qed.

Lemma emits_stream current_user account acknowledgement max_messages :
  listens (consume_testnet_user_stream current_user account acknowledgement max_messages).
Proof.
  unfold consume_testnet_user_stream, _require_super_admin, _require_testnet_enabled.
  apply emits_bind; [emits_tac|]. intros _. apply emits_bind; [emits_tac|]. intros _.
  destruct (negb _); [apply emits_raise|]. apply emits_try.
  - unfold consume_bounded_testnet_user_stream, get_owned_account, get_exchange_credentials,
      get_api_key_secret_metadata, decrypt_secret.
    apply emits_bind; [emits_tac|]. intros [a|]; destruct (stream_blocked _ _); try apply emits_raise.
    apply emits_bind; [emits_tac|]. intros [c|]; [|apply emits_raise].
    apply emits_bind; [emits_tac|]. intros client. apply emits_lift_bind. intros plan Hp%plan_request.
    apply emits_bind.
    + unfold activate_testnet_user_stream_connection_plan. destruct (cp_listen_key_request plan); [|apply emits_ret].
      unfold transport_request. emits_tac; by apply emits_emit.
    + intros plan'. unfold consume, write_stream_audit. emits_tac. apply emits_consume_loop.
      intros ev. apply emits_persist.
  - intros x k. destruct x; cbn; intros [= <-]; apply emits_raise.
Qed.

(** Whatever the account, the server and the exchange do, the endpoint only fetches a
    listen key, connects to the private stream of a testnet and talks on it: it sends no
    order, and reaches no other address. *)
Theorem stream_only_listens current_user account acknowledgement max_messages w :
  ∃ evs, w_trace (consume_testnet_user_stream current_user account acknowledgement max_messages w).2 =
           w_trace w ++ evs ∧ Forall stream_event evs.
Proof. apply emits_stream. Qed.
End listening.

(** ** The stream keeps the transition log *)

Section log.
Context `{Database} `{!DatabaseLaws} `{Settings} `{Fernet} `{X : Exchange} `{W : WebSocket}.

Lemma keeps_log_finally {A} (m : M A) connected : keeps_log m → keeps_log (finally m (_close_transport connected)).
Proof.
  intros Hm w Hw. specialize (Hm w Hw). unfold finally, _close_transport.
  destruct (m w) as [o w1]; destruct connected; cbn in *; [|done].
  destruct o as [a|x]; cbn in *; [|destruct (db_failure x); [exact Hm|]]; exact (keeps_log_emit (EvWs "close" "") w1 Hm).
Qed.

Lemma keeps_log_try_none {A} (m : M A) (h : Exn → option (M A)) :
  keeps_log m → (∀ x k, h x = Some k → db_failure x = false ∧ ∃ a, k = mret a) → keeps_log (try_except m h).
Proof.
  intros Hm Hh. apply keeps_try; [done|]. intros x k (Hx & a & ->)%Hh. split; [done|]. apply keeps_ret.
Qed.

Lemma benign_allowed e url : benign (_is_allowed_testnet_websocket_url e url).
Proof. unfold _is_allowed_testnet_websocket_url. benign_tac. Qed.

Lemma keeps_log_open plan : keeps_log (open_session plan).
Proof.
  unfold open_session. apply keeps_bind; [|intros [|]; [|apply keeps_ret]].
  - unfold guarded, transport_connect, transport_failed. apply keeps_log_try_none.
    + keeps_log_tac. apply keeps_lift, benign_allowed.
    + intros [] k; cbn; intros [= <-]; eauto.
  - cbn [negb]. destruct (cp_login plan); [|apply keeps_ret]. apply keeps_bind; [|intros ?; apply keeps_ret].
    unfold guarded, send_json, transport_failed. apply keeps_log_try_none; [keeps_log_tac|].
    intros [] k; cbn; intros [= <-]; eauto.
Qed.

Lemma keeps_log_try_receive : keeps_log try_receive.
Proof.
  unfold try_receive, receive_json, transport_failed. apply keeps_log_try_none; [keeps_log_tac|].
  intros [] k; cbn; intros [= <-]; eauto.
Qed.

Section consumer_log.
Context {R : Type} (handler : TestnetUserStreamEvent → M R) (should_stop : list Event → bool).
Hypothesis handler_log : ∀ ev, keeps_log (handler ev).

Lemma keeps_log_receive_loop fuel e m processed : keeps_log (receive_loop handler should_stop fuel e m processed).
Proof.
  revert processed. induction fuel as [|fuel IH]; intros processed; cbn [receive_loop]; [apply keeps_ret|].
  unfold stop_requested. keeps_log_tac; first [apply keeps_log_try_receive|apply keeps_lift, benign_parse].
Qed.

Lemma keeps_log_consume_loop cfg plan m inner fuel processed reconnects :
  keeps_log (consume_loop handler should_stop fuel inner cfg plan m processed reconnects).
Proof.
  revert processed reconnects.
  induction fuel as [|fuel IH]; intros processed reconnects; cbn [consume_loop]; [apply keeps_ret|]. cbv zeta.
  unfold stop_requested, _sleep_before_reconnect.
  keeps_log_tac; first [apply keeps_log_open | apply keeps_log_finally, keeps_log_receive_loop
                       | unfold _close_transport; keeps_log_tac].
Qed.
End consumer_log.

Lemma keeps_log_persist user account ev : keeps_log (persist_event user account ev).
Proof. unfold persist_event. keeps_log_tac; first [apply keeps_log_handle|apply keeps_log_sync]. Qed.

Lemma keeps_log_activate plan : keeps_log (activate_testnet_user_stream_connection_plan plan).
Proof.
  unfold activate_testnet_user_stream_connection_plan, transport_request. keeps_log_tac.
  apply keeps_lift. unfold _listen_key. benign_tac.
Qed.

Lemma benign_plan account e c t u : benign (build_testnet_user_stream_connection_plan account e c t u).
Proof. unfold build_testnet_user_stream_connection_plan, not_supported. benign_tac. Qed.

Lemma keeps_log_stream current_user account acknowledgement max_messages :
  keeps_log (consume_testnet_user_stream current_user account acknowledgement max_messages).
Proof.
  unfold consume_testnet_user_stream, _require_super_admin, _require_testnet_enabled. keeps_log_tac.
  apply keeps_try.
  - unfold consume_bounded_testnet_user_stream, get_owned_account, get_exchange_credentials,
      get_api_key_secret_metadata, decrypt_secret.
    keeps_log_tac.
    + apply keeps_lift. unfold create_testnet_signed_http_client. benign_tac.
    + apply keeps_lift, benign_plan.
    + apply keeps_log_activate.
    + unfold consume. keeps_log_tac. apply keeps_log_consume_loop. intros ev. apply keeps_log_persist.
    + unfold write_stream_audit. keeps_log_tac.
  - intros [] k; cbn; intros [= <-]; (split; [done|apply keeps_raise; done]).
Qed.
End log.

(** ** Concrete streams *)

(** A server that accepts everything and keeps sending the same message. *)
Definition repeating_stream (message : dict) : WebSocket :=
  {| ws_create _ _ := true; ws_send _ _ := true; ws_recv _ := WsReceived 200 (Some (VDict message));
     ws_close _ := true |}.
(** A server that refuses every connection. *)
Definition refusing_stream : WebSocket :=
  {| ws_create _ _ := false; ws_send _ _ := false; ws_recv _ := WsRecvError; ws_close _ := true |}.
Definition listen_key_exchange : Exchange :=
  {| exchange_reply _ _ := HttpOk (Some (VDict [("listenKey", VStr "abc123")])) |}.

Definition ACK : string := "CONSUME_TESTNET_USER_STREAM_READ_ONLY".
Definition stream_summary (p : Outcome (option TestnetUserStreamConsumeResult) * World) :
    option (TestnetUserStreamConsumerStatus * nat * nat) * option Z * list OrderExecutionStatus :=
  (match p.1 with Ok (Some r) => Some (cns_status r, cns_messages r, cns_reconnects r) | _ => None end,
   match p.1 with Raise (HTTPException c _ _) => Some c | _ => None end,
   map exe_status (db_executions (w_committed p.2))).
Definition listen (W : WebSocket) (w : World) : Outcome (option TestnetUserStreamConsumeResult) * World :=
  consume_testnet_user_stream (X:=listen_key_exchange) demo_user "acct-test" ACK 2 w.

(** Two reports of the fill: the first moves the execution, the second is a duplicate. *)
Example stream_fills : stream_summary (listen (repeating_stream filled_payload) pending_world) =
  (Some (MESSAGE_LIMIT_REACHED, 2%nat, 0%nat), None, [FILLED]).
Proof. vm_compute. reflexivity. Qed.

Example stream_refused : stream_summary (listen refusing_stream pending_world) =
  (Some (RECONNECT_EXHAUSTED, 0%nat, 1%nat), None, [ACCEPTED]).
Proof. vm_compute. reflexivity. Qed.

(** Binance announces order lists with [listStatus]: the event counts as an order
    event, its normalisation rejects it, and the exception ends the consumer. *)
Example list_status_aborts :
  (listen (repeating_stream [("e", VStr "listStatus")]) pending_world).1 =
  Raise (TestnetOrderEventValidationError "invalid Binance order event").
Proof. vm_compute. reflexivity. Qed.

(** The service leaves the plan's clock at its default of November 2023: whatever the
    real time, the login it sends to Bybit expired long before. *)
Definition bybit_db : Db :=
  set_accounts [Build_ExchangeAccount "acct-test" "user-1" BYBIT TESTNET "test" false true] open_db.
Definition bybit_world : World := mkWorld bybit_db bybit_db empty_db 0 1780000000000000 [].
Definition sent_texts (w : World) : list string :=
  omap (λ ev, match ev with EvWs "send" t => Some t | _ => None end) (w_trace w).

Example stale_login :
  (w_now bybit_world / 1000 >? 1700000010000)%Z = true ∧
  map (str_contains "1700000010000") (sent_texts (listen refusing_stream bybit_world).2) = [] ∧
  map (str_contains "1700000010000") (sent_texts (listen (repeating_stream filled_payload) bybit_world).2) = [true].
Proof. vm_compute. repeat split. Qed.

Lemma consume_bounded_witness :
  ∃ c, con_messages c = 3%nat ∧ (con_reconnects c ≤ 1)%nat.
Proof.
  assert (∃ w', consume (W:=repeating_stream []) (λ _, mret tt) (λ _, false) service_config
    (Build_TestnetUserStreamConnectionPlan "acct-test" BYBIT "wss://stream-testnet.bybit.com/v5/private" BYBIT_AUTH
       None None) 3 pending_world = (Ok (Some (Build_TestnetUserStreamConsumerResult MESSAGE_LIMIT_REACHED 3 0)), w'))
    as [w' E] by (eexists; vm_compute; reflexivity).
  apply (consume_bounded (W:=repeating_stream [])) in E as (c & [= <-] & _ & Hr & Hm).
  eexists. split; [exact Hm|exact Hr].
Defined.
