(* ===== verification/Adapters.v ===== *)
(** The read-only exchange adapters: [exchanges/read_only.py] with its three
    subclasses in [exchanges/binance.py], [exchanges/bybit.py] and
    [exchanges/okx.py], and the factory of [exchanges/factory.py].  They read an
    exchange's balances, positions, open orders and symbol rules; their trading
    operations raise. *)
From S2P Require Import Prelude PyStr PyDecimal PyValue Models Session Tables Logic Accounts TestnetGate HttpClient.
From Stdlib Require Import Ascii.

(** ** Reading JSON values the way Python does *)

(** [v.get(k, d)] and the iteration over [v]. *)
Definition py_get_default (k : string) (d v : pyval) : Outcome pyval :=
  match v with VDict l => Ok (dict_get_default k d l) | _ => Raise (AttributeError "get") end.
Definition py_get (k : string) (v : pyval) : Outcome pyval := py_get_default k VNone v.

Fixpoint characters (s : string) : list pyval :=
  match s with "" => [] | String c r => VStr (String c "") :: characters r end.

Definition py_elements (v : pyval) : Outcome (list pyval) :=
  match v with
  | VList l | VTuple l => Ok l
  | VDict l => Ok (map (λ kv, VStr kv.1) l)
  | VStr s => Ok (characters s)
  | _ => Raise (TypeError "object is not iterable")
  end.

(** The dictionary with a key for each field read from an item. *)
Fixpoint read_fields (fields : list (string * string)) (item : pyval) : Outcome dict :=
  match fields with
  | [] => Ok []
  | (key, field) :: fields' =>
      outcome_bind (py_get field item) (λ v,
        outcome_bind (read_fields fields' item) (λ l, Ok ((key, v) :: l)))
  end.

(** [next((item for item in items if item.get(key) == text), None)] *)
Fixpoint first_item (key text : string) (items : list pyval) : Outcome (option pyval) :=
  match items with
  | [] => Ok None
  | x :: items' =>
      outcome_bind (py_get key x) (λ v,
        if py_eq_str v text then Ok (Some x) else first_item key text items')
  end.

(** ** The classes *)

Inductive AdapterClass := BinanceAdapter | BybitAdapter | OKXAdapter.

Definition adapter_exchange (k : AdapterClass) : ExchangeName :=
  match k with BinanceAdapter => BINANCE | BybitAdapter => BYBIT | OKXAdapter => OKX end.

(** The paths a subclass sets. *)
Record AdapterPaths := {
  p_server_time : string; p_exchange_info : string; p_symbol_rules : string; p_balances : string;
  p_positions : string }.

Definition binance_paths : AdapterPaths :=
  {| p_server_time := "/api/v3/time"; p_exchange_info := "/api/v3/exchangeInfo";
     p_symbol_rules := "/api/v3/exchangeInfo"; p_balances := "/api/v3/account";
     p_positions := "/api/v3/account" |}.
Definition bybit_paths : AdapterPaths :=
  {| p_server_time := "/v5/market/time"; p_exchange_info := "/v5/market/instruments-info";
     p_symbol_rules := "/v5/market/instruments-info"; p_balances := "/v5/account/wallet-balance";
     p_positions := "/v5/position/list" |}.
Definition okx_paths : AdapterPaths :=
  {| p_server_time := "/api/v5/public/time"; p_exchange_info := "/api/v5/public/instruments";
     p_symbol_rules := "/api/v5/public/instruments"; p_balances := "/api/v5/account/balance";
     p_positions := "/api/v5/account/positions" |}.

Definition paths (k : AdapterClass) : AdapterPaths :=
  match k with BinanceAdapter => binance_paths | BybitAdapter => bybit_paths | OKXAdapter => okx_paths end.
Definition open_orders_path : string := "/api/v5/trade/orders-pending".

Definition bybit_balances_params : list (string * string) := [("accountType", "UNIFIED")].
Definition _balances_params (k : AdapterClass) : list (string * string) :=
  match k with BybitAdapter => bybit_balances_params | _ => [] end.
Definition bybit_positions_params : list (string * string) := [("category", "linear"); ("settleCoin", "USDT")].
Definition _positions_params (k : AdapterClass) : list (string * string) :=
  match k with BybitAdapter => bybit_positions_params | _ => [] end.
Definition bybit_symbol_rules_params (symbol : string) : list (string * string) :=
  [("category", "spot"); ("symbol", symbol)].
Definition okx_symbol_rules_params (symbol : string) : list (string * string) :=
  [("instType", "SPOT"); ("instId", str_replace "USDT" "-USDT" symbol)].
Definition _symbol_rules_params (k : AdapterClass) (symbol : string) : list (string * string) :=
  match k with
  | BinanceAdapter => [("symbol", symbol)]
  | BybitAdapter => bybit_symbol_rules_params symbol
  | OKXAdapter => okx_symbol_rules_params symbol
  end.

(** [None]: the client is the [NoopExchangeHttpClient]. *)
Record ReadOnlyTestnetAdapter := {
  ad_class : AdapterClass; ad_adapters_enabled : bool; ad_http_client : option SignedExchangeHttpClient;
  ad_credentials : option ExchangeCredentials; ad_private_security_type : ExchangeSecurityType }.

Inductive ExchangeAdapter := AdMock | AdReadOnly (a : ReadOnlyTestnetAdapter).

(** The constructors of the subclasses. *)
Definition binance_adapter (adapters_enabled : bool) (http_client : option SignedExchangeHttpClient)
    (credentials : option ExchangeCredentials) : ReadOnlyTestnetAdapter :=
  Build_ReadOnlyTestnetAdapter BinanceAdapter adapters_enabled http_client credentials SIGNED.
Definition bybit_adapter (adapters_enabled : bool) (http_client : option SignedExchangeHttpClient)
    (credentials : option ExchangeCredentials) : ReadOnlyTestnetAdapter :=
  Build_ReadOnlyTestnetAdapter BybitAdapter adapters_enabled http_client credentials SIGNED.
Definition okx_adapter (adapters_enabled : bool) (http_client : option SignedExchangeHttpClient)
    (credentials : option ExchangeCredentials) (demo_trading : bool) : ReadOnlyTestnetAdapter :=
  Build_ReadOnlyTestnetAdapter OKXAdapter adapters_enabled http_client credentials
    (if demo_trading then OKX_DEMO_SIGNED else SIGNED).

Definition create_exchange_adapter (e : ExchangeName) (testnet_adapters_enabled : bool)
    (http_client : option SignedExchangeHttpClient) (credentials : option ExchangeCredentials)
    (okx_demo_trading : bool) : ExchangeAdapter :=
  match e with
  | MOCK => AdMock
  | BINANCE => AdReadOnly (binance_adapter testnet_adapters_enabled http_client credentials)
  | BYBIT => AdReadOnly (bybit_adapter testnet_adapters_enabled http_client credentials)
  | OKX => AdReadOnly (okx_adapter testnet_adapters_enabled http_client credentials okx_demo_trading)
  end.

(** [MockExchange.get_balances] *)
Definition mock_get_balances : list dict :=
  [[("asset", VStr "USDT"); ("free", VStr "100000"); ("locked", VStr "0"); ("total", VStr "100000")]].

(** ** What an answer says *)

(** An entry of the adapter's list: the exchange, the fields, and the item itself. *)
Definition entry (e : ExchangeName) (fields : list (string * string)) (extra : dict) (item : pyval) : Outcome dict :=
  outcome_bind (read_fields fields item) (λ l,
    Ok (("exchange", VStr (exchange_value e)) :: l ++ extra ++ [("raw", item)])).

(** The entries of each item of [items], and of each item under [key] of a list of
    accounts. *)
Definition entries (f : pyval → Outcome dict) (items : pyval) : Outcome (list dict) :=
  outcome_bind (py_elements items) (outcome_map f).
Definition nested_entries (f : pyval → Outcome dict) (key : string) (accounts : pyval) : Outcome (list dict) :=
  outcome_bind (py_elements accounts) (λ l,
    outcome_bind (outcome_map (λ account,
        outcome_bind (py_get_default key (VList []) account) (entries f)) l)
      (λ ls, Ok (concat ls))).

Definition binance_normalize_balances (response : pyval) : Outcome (list dict) :=
  outcome_bind (py_get_default "balances" (VList []) response)
    (entries (entry BINANCE [("asset", "asset"); ("free", "free"); ("locked", "locked")] [("total", VNone)])).

Definition bybit_normalize_balances (response : pyval) : Outcome (list dict) :=
  outcome_bind (py_get_default "result" (VDict []) response) (λ r,
    outcome_bind (py_get_default "list" (VList []) r)
      (nested_entries (entry BYBIT [("asset", "coin"); ("free", "walletBalance"); ("locked", "locked");
                                    ("total", "walletBalance")] []) "coin")).

Definition okx_normalize_balances (response : pyval) : Outcome (list dict) :=
  outcome_bind (py_get_default "data" (VList []) response)
    (nested_entries (entry OKX [("asset", "ccy"); ("free", "availBal"); ("locked", "frozenBal");
                                ("total", "cashBal")] []) "details").

Definition _normalize_balances (k : AdapterClass) (response : pyval) : Outcome (list dict) :=
  match k with
  | BinanceAdapter => binance_normalize_balances response
  | BybitAdapter => bybit_normalize_balances response
  | OKXAdapter => okx_normalize_balances response
  end.

Definition binance_normalize_positions (response : pyval) : Outcome (list dict) := Ok [].

Definition bybit_normalize_positions (response : pyval) : Outcome (list dict) :=
  outcome_bind (py_get_default "result" (VDict []) response) (λ r,
    outcome_bind (py_get_default "list" (VList []) r)
      (entries (entry BYBIT [("symbol", "symbol"); ("side", "side"); ("quantity", "size");
                             ("entry_price", "avgPrice"); ("unrealized_pnl", "unrealisedPnl")] []))).

Definition okx_normalize_positions (response : pyval) : Outcome (list dict) :=
  outcome_bind (py_get_default "data" (VList []) response)
    (entries (entry OKX [("symbol", "instId"); ("side", "posSide"); ("quantity", "pos");
                         ("entry_price", "avgPx"); ("unrealized_pnl", "upl")] [])).

Definition _normalize_positions (k : AdapterClass) (response : pyval) : Outcome (list dict) :=
  match k with
  | BinanceAdapter => binance_normalize_positions response
  | BybitAdapter => bybit_normalize_positions response
  | OKXAdapter => okx_normalize_positions response
  end.

Definition open_order_entry (item : pyval) : Outcome dict :=
  outcome_bind (read_fields
    [("order_id", "ordId"); ("symbol", "instId"); ("side", "side"); ("order_type", "ordType");
     ("status", "state"); ("price", "px"); ("quantity", "sz"); ("filled_quantity", "accFillSz");
     ("created_at", "cTime")] item)
    (λ l, Ok (("exchange", VStr (exchange_value OKX)) :: l)).

(** ** Symbol rules *)

Definition rules_not_found (symbol : string) : Exn := ValueError ("symbol rules not found: " +:+ symbol).

(** [{item.get("filterType"): item for item in items}], looked up by a text: the last
    item with the key counts; a key that cannot be hashed raises. *)
Definition binance_filters (items : list pyval) : Outcome (list (pyval * pyval)) :=
  outcome_map (λ item, outcome_bind (py_get "filterType" item) (λ v,
    if hashable v then Ok (v, item) else Raise (TypeError "unhashable type"))) items.
Definition filter_named (name : string) (d : pyval) (filters : list (pyval * pyval)) : pyval :=
  default d (snd <$> last (List.filter (λ p, py_eq_str p.1 name) filters)).

Definition binance_normalize_symbol_rules (symbol : string) (response : pyval) : Outcome dict :=
    outcome_bind (py_get_default "symbols" (VList []) response) (λ v,
    outcome_bind (py_elements v) (λ symbols,
    outcome_bind (first_item "symbol" symbol symbols) (λ found,
    match found with
    | None => Raise (rules_not_found symbol)
    | Some data =>
        outcome_bind (py_get_default "filters" (VList []) data) (λ f,
        outcome_bind (py_elements f) (λ items,
        outcome_bind (binance_filters items) (λ filters,
        let lot_size := filter_named "LOT_SIZE" (VDict []) filters in
        let min_notional := filter_named "MIN_NOTIONAL" (filter_named "NOTIONAL" (VDict []) filters) filters in
        outcome_bind (read_fields [("base_asset", "baseAsset"); ("quote_asset", "quoteAsset")] data) (λ a,
        outcome_bind (read_fields [("min_quantity", "minQty"); ("max_quantity", "maxQty");
                                   ("quantity_step", "stepSize")] lot_size) (λ b,
        outcome_bind (read_fields [("min_notional", "minNotional")] min_notional) (λ c,
        Ok ([("exchange", VStr (exchange_value BINANCE)); ("symbol", VStr symbol)] ++ a ++ b ++ c ++
            [("raw", data)])))))))
    end))).

Definition bybit_normalize_symbol_rules (symbol : string) (response : pyval) : Outcome dict :=
    outcome_bind (py_get_default "result" (VDict []) response) (λ r,
    outcome_bind (py_get_default "list" (VList []) r) (λ v,
    outcome_bind (py_elements v) (λ instruments,
    outcome_bind (first_item "symbol" symbol instruments) (λ found,
    match found with
    | None => Raise (rules_not_found symbol)
    | Some data =>
        outcome_bind (py_get_default "lotSizeFilter" (VDict []) data) (λ lot_filter,
        outcome_bind (py_get_default "priceFilter" (VDict []) data) (λ price_filter,
        outcome_bind (read_fields [("base_asset", "baseCoin"); ("quote_asset", "quoteCoin")] data) (λ a,
        outcome_bind (read_fields [("min_quantity", "minOrderQty"); ("max_quantity", "maxOrderQty");
                                   ("quantity_step", "basePrecision"); ("min_notional", "minOrderAmt")]
                        lot_filter) (λ b,
        outcome_bind (read_fields [("tick_size", "tickSize")] price_filter) (λ c,
        Ok ([("exchange", VStr (exchange_value BYBIT)); ("symbol", VStr symbol)] ++ a ++ b ++ c ++
            [("raw", data)]))))))
    end)))).

Definition okx_normalize_symbol_rules (symbol : string) (response : pyval) : Outcome dict :=
    outcome_bind (py_get_default "data" (VList []) response) (λ v,
    outcome_bind (py_elements v) (λ instruments,
    outcome_bind (first_item "instId" (str_replace "USDT" "-USDT" symbol) instruments) (λ found,
    match found with
    | None => Raise (rules_not_found symbol)
    | Some data =>
        outcome_bind (read_fields [("exchange_symbol", "instId"); ("base_asset", "baseCcy");
            ("quote_asset", "quoteCcy"); ("min_quantity", "minSz"); ("quantity_step", "lotSz");
            ("tick_size", "tickSz")] data) (λ a,
        Ok ([("exchange", VStr (exchange_value OKX)); ("symbol", VStr symbol)] ++ a ++ [("raw", data)]))
    end))).

Definition _normalize_symbol_rules (k : AdapterClass) (symbol : string) (response : pyval) : Outcome dict :=
  match k with
  | BinanceAdapter => binance_normalize_symbol_rules symbol response
  | BybitAdapter => bybit_normalize_symbol_rules symbol response
  | OKXAdapter => okx_normalize_symbol_rules symbol response
  end.

(** ** The operations *)

Section operations.
Context `{Exchange}.

Definition _ensure_enabled (a : ReadOnlyTestnetAdapter) : M unit :=
  if ad_adapters_enabled a then mret tt
  else raise (TestnetAdapterDisabledError "testnet adapters are disabled by configuration").

Definition _require_credentials (a : ReadOnlyTestnetAdapter) : M ExchangeCredentials :=
  match ad_credentials a with
  | Some c => mret c
  | None => raise (TestnetAdapterCredentialsError "exchange credentials are not configured")
  end.

Definition noop_client {A} : M A := raise (RuntimeError "exchange HTTP client is not configured").

Definition adapter_get_public (a : ReadOnlyTestnetAdapter) (path : string) (params : list (string * string)) :
    M pyval :=
  match ad_http_client a with Some client => get_public client path params | None => noop_client end.

Definition adapter_get_private (a : ReadOnlyTestnetAdapter) (path : string) (params : list (string * string)) :
    M pyval :=
  _ensure_enabled a ;;
  c ← _require_credentials a;
  match ad_http_client a with
  | Some client => get_private client path c params (ad_private_security_type a)
  | None => noop_client
  end.

Definition get_server_time (a : ReadOnlyTestnetAdapter) : M pyval :=
  _ensure_enabled a ;; adapter_get_public a (p_server_time (paths (ad_class a))) [].

Definition get_exchange_info (a : ReadOnlyTestnetAdapter) : M pyval :=
  _ensure_enabled a ;; adapter_get_public a (p_exchange_info (paths (ad_class a))) [].

Definition get_balances (a : ReadOnlyTestnetAdapter) : M (list dict) :=
  response ← adapter_get_private a (p_balances (paths (ad_class a))) (_balances_params (ad_class a));
  lift (_normalize_balances (ad_class a) response).

Definition get_positions (a : ReadOnlyTestnetAdapter) : M (list dict) :=
  response ← adapter_get_private a (p_positions (paths (ad_class a))) (_positions_params (ad_class a));
  lift (_normalize_positions (ad_class a) response).

Definition okx_get_open_orders (a : ReadOnlyTestnetAdapter) : M (list dict) :=
  response ← adapter_get_private a open_orders_path [("instType", "SPOT")];
  lift (outcome_bind (py_get_default "data" (VList []) response) (entries open_order_entry)).

Definition get_open_orders (a : ReadOnlyTestnetAdapter) : M (list dict) :=
  match ad_class a with
  | OKXAdapter => okx_get_open_orders a
  | _ =>
      _ensure_enabled a ;;
      raise (TestnetAdapterNotImplementedError
               "authenticated open orders are not implemented in phase 3 step 4")
  end.

Definition get_symbol_rules (a : ReadOnlyTestnetAdapter) (symbol : string) : M dict :=
  _ensure_enabled a ;;
  response ← adapter_get_public a (p_symbol_rules (paths (ad_class a)))
               (_symbol_rules_params (ad_class a) (str_upper symbol));
  lift (_normalize_symbol_rules (ad_class a) (str_upper symbol) response).

Definition get_order_status (a : ReadOnlyTestnetAdapter) (exchange_order_id : string) : M dict :=
  _ensure_enabled a ;;
  raise (TestnetAdapterNotImplementedError
           "authenticated order status is not implemented in phase 3 step 4").

Definition place_order (a : ReadOnlyTestnetAdapter) (client_order_id symbol : string) (side : OrderSide)
    (order_type : OrderType) (quantity : dec) (price : option dec) : M dict :=
  raise (TestnetTradingNotSupportedError "testnet order placement is not implemented in phase 3 step 4").

Definition cancel_order (a : ReadOnlyTestnetAdapter) (exchange_order_id : string) : M dict :=
  raise (TestnetTradingNotSupportedError "testnet order cancellation is not implemented in phase 3 step 4").
End operations.
