(* ===== verification/ReadOnly.v ===== *)
(** Read-only use of an account's exchange: [services/testnet_read_only_check.py],
    [services/real_read_only_check.py], [services/real_balances.py] and
    [services/real_open_orders.py], with their endpoints in
    [api/v1/exchange_accounts.py].  Each asks the exchange once and records in the
    audit log how that went.  The response schema of the open orders, which refuses
    fields that are not text, is left out. *)
From S2P Require Import Prelude PyStr PyDecimal PyValue Models Session PgDatabase Tables Demo Logic Accounts TestnetGate HttpClient TestnetRequest Adapters.

Definition OKX_PRODUCTION_URL : string := "https://www.okx.com".

(** The entry of a payload that is there only for a value. *)
Definition opt_entry {A} (key : string) (f : A → pyval) (o : option A) : dict :=
  match o with Some x => [(key, f x)] | None => [] end.

(** [payload["reasons"] = list(reasons)], where there are any. *)
Definition reasons_entry (reasons : list string) : dict :=
  match reasons with [] => [] | _ => [("reasons", VList (map VStr reasons))] end.

Definition check_severity (ok : bool) : string := if ok then "INFO" else "WARNING".

Record ReadOnlyCheckResult := {
  roc_account : string; roc_exchange : ExchangeName; roc_authenticated : bool;
  roc_balance_asset_count : nat }.

Section read_only.
Context `{Database} `{Settings} `{Fernet} `{Exchange}.

(** [db.add(AuditLog(...)); db.commit()] *)
Definition add_audit (user account action severity : string) (payload : dict) : M unit :=
  id ← new_id;
  now ← now_utc;
  add_commit (Build_AuditLog id user (Some account) action severity payload now).

(** The adapter's [get_balances] and [get_open_orders]; a fresh simulated exchange has
    no orders. *)
Definition adapter_balances (adapter : ExchangeAdapter) : M (list dict) :=
  match adapter with AdMock => mret mock_get_balances | AdReadOnly a => get_balances a end.

Definition adapter_open_orders (adapter : ExchangeAdapter) : M (list dict) :=
  match adapter with AdMock => mret [] | AdReadOnly a => get_open_orders a end.

(** ** The testnet check *)

Definition TESTNET_READ_ONLY_ACTION : string := "testnet.read_only.authentication.checked".

Definition testnet_check_reasons (account : ExchangeAccount) (adapters_enabled : bool)
    (credentials : option ExchangeCredentials) : list string :=
  collect
    [(negb (acct_is_active account), "exchange account must be active");
     (negb (bool_decide (acct_mode account = TESTNET)), "account mode must be TESTNET");
     (bool_decide (acct_exchange account = MOCK), "mock exchange does not support testnet authentication");
     (acct_trading_enabled account, "trading must remain disabled during read-only checks");
     (negb adapters_enabled, "testnet adapters must be explicitly enabled");
     (is_none credentials, "testnet API credentials must be configured")].

Definition testnet_check_payload (e : ExchangeName) (authenticated : bool) (reasons : list string)
    (count : option nat) : dict :=
  [("exchange_name", VStr (exchange_value e)); ("authenticated", VBool authenticated)] ++
  reasons_entry reasons ++ opt_entry "balance_asset_count" (λ n, VInt (Z.of_nat n)) count.

Definition testnet_write_audit (user account : string) (e : ExchangeName) (authenticated : bool)
    (reasons : list string) (count : option nat) : M unit :=
  add_audit user account TESTNET_READ_ONLY_ACTION (check_severity authenticated)
    (testnet_check_payload e authenticated reasons count).

Definition run_testnet_read_only_check (user exchange_account : string) : M ReadOnlyCheckResult :=
  account ← get_owned_account user exchange_account;
  match account with
  | None => raise (TestnetReadOnlyAccountNotFoundError "account not found")
  | Some account =>
      credentials ← get_exchange_credentials user (acct_id account);
      match testnet_check_reasons account testnet_adapters_enabled credentials with
      | (_ :: _) as reasons =>
          testnet_write_audit user (acct_id account) (acct_exchange account) false reasons None ;;
          raise (TestnetReadOnlyCheckBlockedError reasons)
      | [] =>
          client ← lift (create_testnet_signed_http_client (acct_exchange account));
          let adapter := create_exchange_adapter (acct_exchange account) true (Some client) credentials true in
          balances ← try_except (adapter_balances adapter)
            (λ exn, Some (
               testnet_write_audit user (acct_id account) (acct_exchange account) false
                 ["exchange authentication failed"] None ;;
               raise (TestnetReadOnlyAuthenticationError "exchange authentication failed")));
          testnet_write_audit user (acct_id account) (acct_exchange account) true [] (Some (length balances)) ;;
          mret {| roc_account := acct_id account; roc_exchange := acct_exchange account;
                  roc_authenticated := true; roc_balance_asset_count := length balances |}
      end
  end.

(** ** Real accounts *)

(** The reasons the three services of real accounts share, in their order; the texts
    differ in what is read. *)
Definition real_reasons (account : ExchangeAccount) (what purpose : string)
    (credentials : option ExchangeCredentials) : list string :=
  collect
    [(negb (acct_is_active account), "exchange account must be active");
     (negb (bool_decide (acct_mode account = REAL)), "account mode must be REAL");
     (negb (bool_decide (acct_exchange account = OKX)),
      "only OKX production " +:+ what +:+ (if String.eqb what "read-only authentication" then " is" else " are")
        +:+ " enabled");
     (acct_trading_enabled account, "trading must remain disabled " +:+ purpose);
     (is_none credentials, "production API credentials must be configured")].

Definition real_adapter (e : ExchangeName) (credentials : option ExchangeCredentials) : ExchangeAdapter :=
  create_exchange_adapter e true (Some (make_client OKX OKX_PRODUCTION_URL)) credentials false.

(** [failure_type] and [exchange_code] of the error a read failed with. *)
Definition failure_of (exn : Exn) : string * option string :=
  match exn with
  | ExchangeHttpRequestError failure_type _ exchange_code => (failure_type, exchange_code)
  | _ => ("unexpected_error", None)
  end.

Definition failure_entries (failure : option (string * option string)) : dict :=
  match failure with
  | Some (failure_type, exchange_code) =>
      ("failure_type", VStr failure_type) :: opt_entry "exchange_code" VStr exchange_code
  | None => []
  end.

(** *** The authentication check *)

Definition REAL_READ_ONLY_ACTION : string := "real.read_only.authentication.checked".

Definition real_check_payload (e : ExchangeName) (authenticated : bool) (reasons : list string)
    (count : option nat) (failure : option (string * option string)) : dict :=
  [("exchange_name", VStr (exchange_value e)); ("authenticated", VBool authenticated);
   ("account_mode", VStr (mode_value REAL))] ++
  reasons_entry reasons ++ opt_entry "balance_asset_count" (λ n, VInt (Z.of_nat n)) count ++
  failure_entries failure.

Definition real_check_write_audit (user account : string) (e : ExchangeName) (authenticated : bool)
    (reasons : list string) (count : option nat) (failure : option (string * option string)) : M unit :=
  add_audit user account REAL_READ_ONLY_ACTION (check_severity authenticated)
    (real_check_payload e authenticated reasons count failure).

Definition run_real_read_only_check (user exchange_account : string) : M ReadOnlyCheckResult :=
  account ← get_owned_account user exchange_account;
  match account with
  | None => raise (RealReadOnlyAccountNotFoundError "account not found")
  | Some account =>
      credentials ← get_exchange_credentials user (acct_id account);
      match real_reasons account "read-only authentication" "during production read-only checks"
              credentials with
      | (_ :: _) as reasons =>
          real_check_write_audit user (acct_id account) (acct_exchange account) false reasons None None ;;
          raise (RealReadOnlyCheckBlockedError reasons)
      | [] =>
          balances ← try_except (adapter_balances (real_adapter (acct_exchange account) credentials))
            (λ exn, Some (
               real_check_write_audit user (acct_id account) (acct_exchange account) false
                 ["exchange authentication failed"] None (Some (failure_of exn)) ;;
               raise (RealReadOnlyAuthenticationError (failure_of exn).1 (failure_of exn).2)));
          real_check_write_audit user (acct_id account) (acct_exchange account) true []
            (Some (length balances)) None ;;
          mret {| roc_account := acct_id account; roc_exchange := acct_exchange account;
                  roc_authenticated := true; roc_balance_asset_count := length balances |}
      end
  end.

(** *** Balances *)

Record RealBalance := {
  rb_asset : string; rb_free : option string; rb_locked : option string; rb_total : option string }.
Record RealBalancesResult := {
  rbr_account : string; rbr_exchange : ExchangeName; rbr_balances : list RealBalance }.

Definition _optional_text (v : pyval) : option string :=
  match v with VNone => None | _ => Some (py_str v) end.

Definition _sanitize_balance (item : dict) : Outcome RealBalance :=
  match dict_get "asset" item with
  | VStr asset =>
      if String.eqb (str_strip asset) "" then Raise (ValueError "exchange balance asset is missing")
      else Ok {| rb_asset := str_upper (str_strip asset); rb_free := _optional_text (dict_get "free" item);
                 rb_locked := _optional_text (dict_get "locked" item);
                 rb_total := _optional_text (dict_get "total" item) |}
  | _ => Raise (ValueError "exchange balance asset is missing")
  end.

Definition read_payload (e : ExchangeName) (loaded : bool) (count_key : string) (count : option nat)
    (failure : option (string * option string)) : dict :=
  [("exchange_name", VStr (exchange_value e)); ("account_mode", VStr (mode_value REAL));
   ("read_only", VBool true); ("loaded", VBool loaded)] ++
  opt_entry count_key (λ n, VInt (Z.of_nat n)) count ++ failure_entries failure.

Definition balances_write_audit (user account : string) (e : ExchangeName) (loaded : bool)
    (count : option nat) (failure : option (string * option string)) : M unit :=
  add_audit user account "real.read_only.balances.loaded" (check_severity loaded)
    (read_payload e loaded "asset_count" count failure).

Definition read_real_balances (user exchange_account : string) : M RealBalancesResult :=
  account ← get_owned_account user exchange_account;
  match account with
  | None => raise (RealBalancesBlockedError ["account not found"])
  | Some account =>
      credentials ← get_exchange_credentials user (acct_id account);
      match real_reasons account "balances" "for balance display" credentials with
      | (_ :: _) as reasons => raise (RealBalancesBlockedError reasons)
      | [] =>
          balances ← try_except
            (items ← adapter_balances (real_adapter OKX credentials); lift (outcome_map _sanitize_balance items))
            (λ exn, Some (
               balances_write_audit user (acct_id account) (acct_exchange account) false None
                 (Some (failure_of exn)) ;;
               raise (RealBalancesAuthenticationError (failure_of exn).1 (failure_of exn).2)));
          balances_write_audit user (acct_id account) (acct_exchange account) true (Some (length balances)) None ;;
          mret {| rbr_account := acct_id account; rbr_exchange := acct_exchange account;
                  rbr_balances := balances |}
      end
  end.

(** *** Open orders *)

Record RealOpenOrdersResult := {
  roo_account : string; roo_exchange : ExchangeName; roo_orders : list dict }.

Definition open_orders_write_audit (user account : string) (e : ExchangeName) (loaded : bool)
    (count : option nat) (failure : option (string * option string)) : M unit :=
  add_audit user account "real.read_only.open_orders.loaded" (check_severity loaded)
    (read_payload e loaded "order_count" count failure).

Definition read_real_open_orders (user exchange_account : string) : M RealOpenOrdersResult :=
  account ← get_owned_account user exchange_account;
  match account with
  | None => raise (RealOpenOrdersBlockedError ["account not found"])
  | Some account =>
      credentials ← get_exchange_credentials user (acct_id account);
      match real_reasons account "open orders" "for order display" credentials with
      | (_ :: _) as reasons => raise (RealOpenOrdersBlockedError reasons)
      | [] =>
          orders ← try_except (adapter_open_orders (real_adapter OKX credentials))
            (λ exn, Some (
               open_orders_write_audit user (acct_id account) (acct_exchange account) false None
                 (Some (failure_of exn)) ;;
               raise (RealOpenOrdersAuthenticationError (failure_of exn).1 (failure_of exn).2)));
          open_orders_write_audit user (acct_id account) (acct_exchange account) true (Some (length orders)) None ;;
          mret {| roo_account := acct_id account; roo_exchange := acct_exchange account;
                  roo_orders := orders |}
      end
  end.

(** ** Endpoints *)

Definition reasons_answer {A} (code : Z) (reasons : list string) : M A :=
  raise (HTTPException code (VDict [("reasons", VList (map VStr reasons))]) []).

(** 404 where the account is not found, 400 for any other reason. *)
Definition blocked_answer {A} (reasons : list string) : M A :=
  reasons_answer (if existsb (String.eqb "account not found") reasons then 404 else 400)%Z reasons.

Definition failed_answer {A} (reason failure_type : string) (exchange_code : option string) : M A :=
  raise (HTTPException 502 (VDict [("reason", VStr reason); ("failure_type", VStr failure_type);
    ("exchange_code", match exchange_code with Some c => VStr c | None => VNone end)]) []).

Definition check_testnet_read_only_credentials (current_user : User) (account : string) : M ReadOnlyCheckResult :=
  try_except (run_testnet_read_only_check (user_id current_user) account)
    (λ exn, match exn with
            | TestnetReadOnlyAccountNotFoundError _ => Some (not_found "account not found")
            | TestnetReadOnlyCheckBlockedError reasons => Some (reasons_answer 400 reasons)
            | TestnetReadOnlyAuthenticationError _ =>
                Some (raise (HTTPException 502 (VStr "testnet read-only authentication failed") []))
            | _ => None
            end).

Definition check_real_read_only_credentials (current_user : User) (account : string) : M ReadOnlyCheckResult :=
  try_except (run_real_read_only_check (user_id current_user) account)
    (λ exn, match exn with
            | RealReadOnlyAccountNotFoundError _ => Some (not_found "account not found")
            | RealReadOnlyCheckBlockedError reasons => Some (reasons_answer 400 reasons)
            | RealReadOnlyAuthenticationError failure_type code =>
                Some (failed_answer "production read-only authentication failed" failure_type code)
            | _ => None
            end).

Definition read_real_open_orders_endpoint (current_user : User) (account : string) : M RealOpenOrdersResult :=
  try_except (read_real_open_orders (user_id current_user) account)
    (λ exn, match exn with
            | RealOpenOrdersBlockedError reasons => Some (blocked_answer reasons)
            | RealOpenOrdersAuthenticationError failure_type code =>
                Some (failed_answer "production open orders request failed" failure_type code)
            | _ => None
            end).

Definition read_real_balances_endpoint (current_user : User) (account : string) : M RealBalancesResult :=
  try_except (read_real_balances (user_id current_user) account)
    (λ exn, match exn with
            | RealBalancesBlockedError reasons => Some (blocked_answer reasons)
            | RealBalancesAuthenticationError failure_type code =>
                Some (failed_answer "production balances request failed" failure_type code)
            | _ => None
            end).
End read_only.

(** ** One question, one line of the audit log *)

(** A read of the production exchange while [c] is committed: a GET without a body,
    without the header that selects the simulated environment. *)
Definition okx_read (path : string) (c : Db) (ev : Event) : Prop :=
  ∃ req, ev = EvHttp c req ∧ req_method req = "GET" ∧ req_url req = OKX_PRODUCTION_URL +:+ path ∧
    req_body req = None ∧ dict_lookup "x-simulated-trading" (req_headers req) = None.

(** At most one such read separates [w] from [w']. *)
Definition asked (path : string) (w w' : World) : Prop :=
  w' = w ∨ ∃ ev, okx_read path (w_committed w) ev ∧ w' = push_event ev w.

(** One more row in the audit log, committed, and nothing else. *)
Definition audited (user account action severity : string) (payload : dict) (w w' : World) : Prop :=
  ∃ id, w_tx w' = set_audit (db_audit (w_tx w) ++
      [Build_AuditLog id user (Some account) action severity payload (w_now w)]) (w_tx w) ∧
    w_committed w' = w_tx w' ∧ w_new w' = empty_db ∧ w_now w' = w_now w ∧ w_trace w' = w_trace w.

Section auditing.
Context `{Database} `{Settings} `{Fernet} `{Exchange}.

Lemma add_audit_cases user account action severity payload w o w' :
  w_new w = empty_db → add_audit user account action severity payload w = (o, w') →
  w_trace w' = w_trace w ∧
  match o with
  | Ok _ => audited user account action severity payload w w'
  | Raise e => db_failure e = true ∧ w_committed w' = w_committed w
  end.
Proof.
  intros Hn E. unfold add_audit in E. rewrite run_bind in E. cbn [new_id] in E.
  rewrite run_bind in E. cbn [now_utc gets] in E. unfold add_commit in E. rewrite run_bind in E.
  cbn [db_add modify] in E.
  match type of E with commit ?w0 = _ => set (w1 := w0) in E end.
  destruct o as [[]|e].
  - pose proof (commit_only_Ok (R:=AuditLog)
      [Build_AuditLog (new_uuid (w_next w)) user (Some account) action severity payload (w_now w)] w1 w') as Hc.
    destruct Hc as (rs & Hrs & _ & ->); [cbn; by rewrite Hn|done|done|].
    apply Forall2_cons_inv_l in Hrs as (l' & rs' & [= <-] & Hrs & ->).
    apply Forall2_nil_inv_l in Hrs as ->. split; [done|]. by eexists.
  - apply commit_Raise in E. pose proof (flush_same_rest w1) as Hr. pose proof (flush_Raise _ _ _ E) as He.
    rewrite E in Hr. destruct Hr as (Hc & _ & _ & Ht). done.
Qed.

(** What a program of the four services does once it may ask. *)
Definition ask {A B} (m : M A) (bad : Exn → M unit) (err : Exn → Exn) (good : A → M unit) (f : A → B) : M B :=
  a ← try_except m (λ exn, Some (bad exn ;; raise (err exn))); good a ;; mret (f a).

Lemma ask_cases {A B} (m : M A) bad err (good : A → M unit) (f : A → B) w o w' :
  ask m bad err good f w = (o, w') →
  (∃ a w1, m w = (Ok a, w1) ∧ good a w1 = (Ok tt, w') ∧ o = Ok (f a)) ∨
  (∃ x w1, m w = (Raise x, w1) ∧ bad x w1 = (Ok tt, w') ∧ o = Raise (err x)) ∨
  (∃ e, o = Raise e ∧ ((∃ a w1, m w = (Ok a, w1) ∧ good a w1 = (Raise e, w')) ∨
                       (∃ x w1, m w = (Raise x, w1) ∧ bad x w1 = (Raise e, w')))).
Proof.
  unfold ask. rewrite run_bind. unfold try_except.
  destruct (m w) as [[a|x] w1] eqn:Em.
  - rewrite run_bind. destruct (good a w1) as [[[]|e] w2] eqn:Eg; intros [= <- <-]; [left|right; right]; naive_solver.
  - rewrite run_bind. destruct (bad x w1) as [[[]|e] w2] eqn:Eb; intros [= <- <-]; right; [left|right]; naive_solver.
Qed.

Lemma get_private_okx path params c w o w' :
  get_private (make_client OKX OKX_PRODUCTION_URL) path c params SIGNED w = (o, w') →
  asked path w w' ∧ (∀ v, o = Ok v → w' ≠ w).
Proof.
  unfold get_private. rewrite run_bind. cbn [now_utc gets].
  destruct (prepare_private_request _ _ _ _ _ _) as [req|x] eqn:Ep.
  2:{ intros [= <- <-]. split; [by left|done]. }
  assert (okx_read path (w_committed w) (EvHttp (w_committed w) req)) as Hread.
  { unfold prepare_private_request, _prepare_private_request, _prepare_okx_request in Ep. cbn [hc_exchange make_client] in Ep.
    destruct (cred_passphrase c); [|done]. injection Ep as <-. eexists. split; [reflexivity|]. done. }
  unfold transport_request. rewrite run_bind. cbn [gets]. rewrite run_bind. cbn [gets]. rewrite run_bind. cbn [emit modify].
  intros E. assert (w' = push_event (EvHttp (w_committed w) req) w) as ->.
  { destruct (exchange_reply _ _) as [[v|]| |code body|]; by injection E as _ <-. }
  split; [right; eauto|]. intros v _ Heq. apply (f_equal w_trace) in Heq. cbn in Heq.
  apply (f_equal length) in Heq. rewrite length_app in Heq. cbn in Heq. lia.
Qed.

Lemma real_private_okx e credentials path params w o w' :
  e = OKX → match real_adapter e credentials with
            | AdReadOnly a => adapter_get_private a path params w = (o, w')
            | AdMock => False
            end →
  asked path w w' ∧ (∀ v, o = Ok v → w' ≠ w).
Proof.
  intros -> E. unfold real_adapter, create_exchange_adapter, okx_adapter, adapter_get_private in E.
  rewrite run_bind in E. cbn [_ensure_enabled ad_adapters_enabled] in E. rewrite run_ret in E.
  rewrite run_bind in E. unfold _require_credentials in E. cbn [ad_credentials ad_http_client ad_private_security_type] in E.
  destruct credentials as [c|]; [|injection E as <- <-; split; [by left|done]].
  rewrite run_ret in E. by eapply get_private_okx.
Qed.

Lemma asked_lift {A B} path (m : M A) (f : A → Outcome B) w o w' :
  (∀ o1 w1, m w = (o1, w1) → asked path w w1 ∧ (∀ v, o1 = Ok v → w1 ≠ w)) →
  (x ← m; lift (f x)) w = (o, w') → asked path w w' ∧ (∀ v, o = Ok v → w' ≠ w).
Proof.
  intros Hm. rewrite run_bind. destruct (m w) as [[a|x] w1] eqn:Em; destruct (Hm _ _ eq_refl) as [Ha Hb].
  - intros [= <- <-]. split; [done|]. intros v _. by eapply Hb.
  - intros [= <- <-]. done.
Qed.

Lemma balances_asked credentials w o w' :
  adapter_balances (real_adapter OKX credentials) w = (o, w') →
  asked "/api/v5/account/balance" w w' ∧ (∀ v, o = Ok v → w' ≠ w).
Proof. apply asked_lift. intros o1 w1. by apply (real_private_okx OKX credentials). Qed.

Lemma open_orders_asked credentials w o w' :
  adapter_open_orders (real_adapter OKX credentials) w = (o, w') →
  asked open_orders_path w w' ∧ (∀ v, o = Ok v → w' ≠ w).
Proof. apply asked_lift. intros o1 w1. by apply (real_private_okx OKX credentials). Qed.
End auditing.

(** ** What the services may do *)

Section outcomes.
Context `{Database} `{Settings} `{Fernet} `{Exchange}.

Lemma owned_account_cases user account w o w' :
  get_owned_account user account w = (o, w') →
  w' = w ∧ ∃ r, o = Ok r ∧ ∀ a, r = Some a → a ∈ db_accounts (w_tx w) ∧ acct_id a = account ∧ acct_user a = user.
Proof.
  intros [= <- <-]. split; [done|]. eexists. split; [done|]. intros a Ha.
  apply find_first_Some in Ha as [Hin Hp]. apply andb_true_iff in Hp as [?%String.eqb_eq ?%String.eqb_eq]. done.
Qed.

Lemma credentials_cases user account w o w' :
  get_exchange_credentials user account w = (o, w') →
  w' = w ∧ ((∃ c, o = Ok c) ∨ o = Raise InvalidToken).
Proof.
  unfold get_exchange_credentials, get_api_key_secret_metadata. rewrite run_bind. cbn [db_scalar gets].
  destruct (find_first _ _) as [k|]; [|intros [= <- <-]; eauto].
  assert (∀ t w1, decrypt_secret t w1 = (Raise InvalidToken, w1) ∨ ∃ x, decrypt_secret t w1 = (Ok x, w1)) as Hd.
  { intros t w1. unfold decrypt_secret. destruct (fernet_decrypt _ _); [right; eauto|by left]. }
  rewrite run_bind. destruct (key_passphrase k) as [p|]; [rewrite run_bind; destruct (Hd p w) as [->|[t ->]]|];
    try (intros [= <- <-]; eauto; fail); rewrite run_ret, run_bind;
    (destruct (Hd (key_api_key k) w) as [->|[x ->]]; [intros [= <- <-]; by eauto|]);
    rewrite run_bind; (destruct (Hd (key_api_secret k) w) as [->|[y ->]]; [intros [= <- <-]; by eauto|]);
    intros [= <- <-]; eauto.
Qed.

(** The account and the credentials a read of the production exchange needs. *)
Definition readable_account (user account : string) (d : Db) : Prop :=
  ∃ a, a ∈ db_accounts d ∧ acct_id a = account ∧ acct_user a = user ∧ acct_exchange a = OKX ∧
    acct_mode a = REAL ∧ acct_is_active a = true ∧ acct_trading_enabled a = false.

Lemma real_reasons_nil account what purpose credentials :
  real_reasons account what purpose credentials = [] →
  acct_exchange account = OKX ∧ acct_mode account = REAL ∧ acct_is_active account = true ∧
  acct_trading_enabled account = false.
Proof.
  unfold real_reasons. intros Hr%collect_nil_conj. cbn [foldr fst] in Hr.
  destruct Hr as (Ha%negb_false_iff & Hm%negb_false_iff%bool_decide_eq_true & He%negb_false_iff%bool_decide_eq_true & Ht & _).
  done.
Qed.

Lemma real_check_cases user account w o w' :
  w_new w = empty_db → run_real_read_only_check user account w = (o, w') →
  match o with
  | Ok r =>
      readable_account user account (w_tx w) ∧ roc_authenticated r = true ∧
      ∃ ev payload, okx_read "/api/v5/account/balance" (w_committed w) ev ∧
        audited user account REAL_READ_ONLY_ACTION "INFO" payload (push_event ev w) w'
  | Raise (RealReadOnlyAuthenticationError _ _) =>
      ∃ w1 payload, asked "/api/v5/account/balance" w w1 ∧
        audited user account REAL_READ_ONLY_ACTION "WARNING" payload w1 w'
  | Raise (RealReadOnlyCheckBlockedError reasons) =>
      ∃ payload, audited user account REAL_READ_ONLY_ACTION "WARNING" payload w w'
  | Raise e =>
      ((∃ m, e = RealReadOnlyAccountNotFoundError m) ∨ e = InvalidToken) ∧ w' = w ∨ db_failure e = true
  end.
Proof.
  intros Hn E. unfold run_real_read_only_check in E. rewrite run_bind in E.
  destruct (get_owned_account user account w) as [o1 w1] eqn:E1.
  apply owned_account_cases in E1 as (-> & r & -> & Hr).
  destruct r as [a|]; [|injection E as <- <-; left; split; [by left; eexists|done]].
  destruct (Hr a eq_refl) as (Hin & <- & <-). rewrite run_bind in E.
  destruct (get_exchange_credentials (acct_user a) (acct_id a) w) as [o2 w2] eqn:E2.
  apply credentials_cases in E2 as [-> [[c ->] | ->]]; [|injection E as <- <-; left; split; [by right|done]].
  destruct (real_reasons _ _ _ _) as [|m ms] eqn:Er.
  - apply real_reasons_nil in Er as (He & Hm & Ha & Ht). rewrite He in E.
    change (ask (adapter_balances (real_adapter OKX c))
      (λ exn, real_check_write_audit (acct_user a) (acct_id a) OKX false ["exchange authentication failed"] None (Some (failure_of exn)))
      (λ exn, RealReadOnlyAuthenticationError (failure_of exn).1 (failure_of exn).2)
      (λ balances, real_check_write_audit (acct_user a) (acct_id a) OKX true [] (Some (length balances)) None)
      (λ balances, Build_ReadOnlyCheckResult (acct_id a) OKX true (length balances)) w = (o, w')) in E.
    apply ask_cases in E as [(b & w1 & Eb & Eg & ->) | [(x & w1 & Eb & Eg & ->) | (e & -> & Ee)]].
    + apply balances_asked in Eb as [[-> | (ev & Hev & ->)] Hne]; [by destruct (Hne b eq_refl)|].
      apply add_audit_cases in Eg as [_ Hau]; [|exact Hn]. split; [by exists a|]. split; [done|]. eauto.
    + apply balances_asked in Eb as [Hask _].
      apply add_audit_cases in Eg as [_ Hau]; [eauto|]. by destruct Hask as [-> | (ev & _ & ->)].
    + assert (db_failure e = true) as Hf; [|destruct e; try done; by right].
      destruct Ee as [(b & w1 & Eb & Eg)|(x & w1 & Eb & Eg)]; apply balances_asked in Eb as [Hask _];
        (apply add_audit_cases in Eg as [_ [? _]]; [done|]; by destruct Hask as [-> | (ev & _ & ->)]).
  - rewrite run_bind in E.
    destruct (real_check_write_audit _ _ _ _ _ _ _ w) as [[[]|e] w3] eqn:Ew; injection E as <- <-;
      apply add_audit_cases in Ew as [_ Hau]; try done; [eauto|].
    destruct Hau as [Hf _]. destruct e; try done; by right.
Qed.

(** Every way the check of a real account can end.  It succeeds only on an idle real
    account after exactly one read of the balances, and only then is the line of the
    audit log an INFO; any refusal or failure leaves a WARNING or no line at all. *)
Theorem real_check_outcome user account w o w' :
  w_new w = empty_db → run_real_read_only_check user account w = (o, w') →
  match o with
  | Ok r =>
      readable_account user account (w_tx w) ∧ roc_authenticated r = true ∧
      ∃ ev payload, okx_read "/api/v5/account/balance" (w_committed w) ev ∧
        audited user account REAL_READ_ONLY_ACTION "INFO" payload (push_event ev w) w'
  | Raise (RealReadOnlyAuthenticationError _ _) =>
      ∃ w1 payload, asked "/api/v5/account/balance" w w1 ∧
        audited user account REAL_READ_ONLY_ACTION "WARNING" payload w1 w'
  | Raise (RealReadOnlyCheckBlockedError reasons) =>
      ∃ payload, audited user account REAL_READ_ONLY_ACTION "WARNING" payload w w'
  | Raise e =>
      ((∃ m, e = RealReadOnlyAccountNotFoundError m) ∨ e = InvalidToken) ∧ w' = w ∨ db_failure e = true
  end.
Proof. apply real_check_cases. Qed.
End outcomes.

Section reads.
Context `{Database} `{Settings} `{Fernet} `{Exchange}.

(** At most one read, and of everything stored at most the audit log changes, by one
    row. *)
Definition only_reads {A} (path : string) (m : M A) : Prop :=
  ∀ w o w', w_new w = empty_db → w_committed w = w_tx w → m w = (o, w') →
    (w_trace w' = w_trace w ∨ ∃ ev, okx_read path (w_committed w) ev ∧ w_trace w' = w_trace w ++ [ev]) ∧
    (w_committed w' = w_committed w ∨
     ∃ row, w_committed w' = set_audit (db_audit (w_committed w) ++ [row]) (w_committed w)).

Definition audits (m : M unit) : Prop :=
  ∃ user account action severity payload, m = add_audit user account action severity payload.

Lemma audits_cases m w o w' :
  audits m → w_new w = empty_db → w_committed w = w_tx w → m w = (o, w') →
  w_trace w' = w_trace w ∧
  (w_committed w' = w_committed w ∨
   ∃ row, w_committed w' = set_audit (db_audit (w_committed w) ++ [row]) (w_committed w)).
Proof.
  intros (u & a & ac & s & p & ->) Hn Hc E. apply add_audit_cases in E as [Ht Ho]; [|done]. split; [done|].
  destruct o as [[]|e]; [|left; by destruct Ho]. right. destruct Ho as (id & Htx & Hco & _).
  eexists. by rewrite Hco, Htx, Hc.
Qed.

Lemma asked_trace path w w' : asked path w w' →
  (w_trace w' = w_trace w ∨ ∃ ev, okx_read path (w_committed w) ev ∧ w_trace w' = w_trace w ++ [ev]) ∧
  w_committed w' = w_committed w ∧ w_tx w' = w_tx w ∧ w_new w' = w_new w.
Proof. intros [-> | (ev & Hev & ->)]; split; eauto. Qed.

Lemma only_reads_ask {A B} path (m : M A) bad err (good : A → M unit) (f : A → B) :
  (∀ w o w', m w = (o, w') → asked path w w') → (∀ x, audits (bad x)) → (∀ a, audits (good a)) →
  only_reads path (ask m bad err good f).
Proof.
  intros Hm Hbad Hgood w o w' Hn Hc E.
  assert (∀ p w1 o1, audits p → asked path w w1 → p w1 = (o1, w') →
    (w_trace w' = w_trace w ∨ ∃ ev, okx_read path (w_committed w) ev ∧ w_trace w' = w_trace w ++ [ev]) ∧
    (w_committed w' = w_committed w ∨
     ∃ row, w_committed w' = set_audit (db_audit (w_committed w) ++ [row]) (w_committed w))) as Hp.
  { intros p w1 o1 Hau (Ht & Hc1 & Htx & Hn1)%asked_trace Ep.
    apply audits_cases in Ep as [Ht' Hrow]; [|first [done|congruence]..]. rewrite Hc1 in Hrow. by rewrite Ht'. }
  apply ask_cases in E as [(b & w1 & Eb & Eg & _) | [(x & w1 & Eb & Eg & _) | (e & _ & [(b & w1 & Eb & Eg)|(x & w1 & Eb & Eg)])]];
    (eapply Hp; [|by eapply Hm|exact Eg]; first [apply Hgood|apply Hbad]).
Qed.

Lemma only_reads_gets {A B} path (f : World → A) (k : A → M B) :
  (∀ a, only_reads path (k a)) → only_reads path (gets f ≫= k).
Proof. intros Hk w o w' Hn Hc E. rewrite run_bind in E. by eapply (Hk (f w)). Qed.

Lemma only_reads_raise {A} path e : only_reads path (raise (A:=A) e).
Proof. intros w o w' Hn Hc [= <- <-]. split; by left. Qed.

Lemma only_reads_credentials {B} path user account (k : option ExchangeCredentials → M B) :
  (∀ c, only_reads path (k c)) → only_reads path (c ← get_exchange_credentials user account; k c).
Proof.
  intros Hk w o w' Hn Hc E. rewrite run_bind in E.
  destruct (get_exchange_credentials user account w) as [o1 w1] eqn:E1.
  apply credentials_cases in E1 as [-> [[c ->] | ->]]; [by eapply Hk|]. injection E as <- <-. split; by left.
Qed.

Lemma only_reads_refuse {A} path (m : M unit) e : audits m → only_reads path (m ;; raise (A:=A) e).
Proof.
  intros Hm w o w' Hn Hc E. rewrite run_bind in E. destruct (m w) as [o1 w1] eqn:E1.
  apply audits_cases in E1 as [Ht Hrow]; try done.
  assert (w' = w1) as -> by (by destruct o1; injection E as _ <-). split; [by left|done].
Qed.

(** Whatever the exchange answers, the three services of real accounts ask it at most
    once, with a GET to the production host outside the simulated environment; and
    all they change is at most one more row of the audit log. *)
Theorem real_services_only_read user account :
  only_reads "/api/v5/account/balance" (run_real_read_only_check user account) ∧
  only_reads "/api/v5/account/balance" (read_real_balances user account) ∧
  only_reads "/api/v5/trade/orders-pending" (read_real_open_orders user account).
Proof.
  assert (∀ c, ∀ w o w', adapter_balances (real_adapter OKX c) w = (o, w') → asked "/api/v5/account/balance" w w') as Hb.
  { intros c w o w' E. by apply balances_asked in E as [? _]. }
  split; [|split].
  - apply only_reads_gets. intros [a|]; [|apply only_reads_raise]. apply only_reads_credentials. intros c.
    destruct (real_reasons _ _ _ _) eqn:Er; [|apply only_reads_refuse; repeat eexists].
    apply real_reasons_nil in Er as (-> & _). apply only_reads_ask; [apply Hb|repeat eexists..].
  - apply only_reads_gets. intros [a|]; [|apply only_reads_raise]. apply only_reads_credentials. intros c.
    destruct (real_reasons _ _ _ _) eqn:Er; [|apply only_reads_raise].
    apply (only_reads_ask _ (items ← adapter_balances (real_adapter OKX c); lift (outcome_map _sanitize_balance items)));
      [|repeat eexists..].
    intros w o w' E. refine (proj1 (asked_lift _ _ (outcome_map _sanitize_balance) w o w' _ E)).
    intros o1 w1. apply balances_asked.
  - apply only_reads_gets. intros [a|]; [|apply only_reads_raise]. apply only_reads_credentials. intros c.
    destruct (real_reasons _ _ _ _) eqn:Er; [|apply only_reads_raise].
    apply only_reads_ask; [|repeat eexists..]. intros w o w' E. by apply open_orders_asked in E as [? _].
Qed.
End reads.

(** ** An example: an idle real account whose key is stored *)

Definition real_user : User :=
  {| user_id := "user-1"; user_email := "alice@example.com"; user_username := "alice";
     user_password_hash := ""; user_auth_version := 0; user_mfa_enabled := true;
     user_mfa_secret := Some "secret"; user_mfa_pending_secret := None; user_mfa_last_used_step := None;
     user_mfa_recovery_code_hashes := []; user_role := SUPER_ADMIN; user_is_active := true |}.
Definition real_account : ExchangeAccount :=
  {| acct_id := "acct-real"; acct_user := "user-1"; acct_exchange := OKX; acct_mode := REAL;
     acct_label := "real"; acct_trading_enabled := false; acct_is_active := true |}.
Definition real_risk : RiskSetting :=
  {| risk_id := "risk-3"; risk_user := "user-1"; risk_account := "acct-real";
     risk_trading_enabled := false; risk_max_single_order_notional := None;
     risk_max_position_notional := None; risk_max_leverage := None; risk_min_order_quantity := None;
     risk_max_order_quantity := None; risk_blocked_symbols := [] |}.
Definition real_key : ApiKeySecret :=
  {| key_id := "key-3"; key_user := "user-1"; key_account := "acct-real"; key_api_key := fernet_encrypt _fernet 0 "key";
     key_api_secret := fernet_encrypt _fernet 1 "secret"; key_passphrase := Some (fernet_encrypt _fernet 2 "pass") |}.
Definition real_db : Db :=
  set_audit [] (set_secrets [real_key] (set_risk [real_risk] (set_accounts [real_account]
    (set_users [real_user] demo_db)))).
Definition unchecked_world : World := mkWorld real_db real_db empty_db 0 1780000000000000 [].

(** An exchange that reports one balance. *)
Definition demo_okx : Exchange :=
  {| exchange_reply _ _ := HttpOk (Some (VDict [("data", VList [VDict [("details", VList
       [VDict [("ccy", VStr "USDT"); ("availBal", VStr "100"); ("frozenBal", VStr "0"); ("cashBal", VStr "100")]])]])])) |}.

Lemma real_check_outcome_witness :
  ∃ r w', run_real_read_only_check (H2:=demo_okx) "user-1" "acct-real" unchecked_world = (Ok r, w') ∧
    roc_balance_asset_count r = 1%nat ∧ readable_account "user-1" "acct-real" (w_tx unchecked_world).
Proof.
  exists (Build_ReadOnlyCheckResult "acct-real" OKX true 1). eexists. split; [vm_compute; reflexivity|].
  split; [reflexivity|].
  refine (proj1 (real_check_outcome (H2:=demo_okx) "user-1" "acct-real" unchecked_world
    (Ok (Build_ReadOnlyCheckResult "acct-real" OKX true 1)) _ eq_refl _)).
  vm_compute. reflexivity.
Defined.

(** An answer with an error code in place of balances passes the check as well: only
    the HTTP status decides, the exchange's own code is not read. *)
Definition refusing_okx : Exchange :=
  {| exchange_reply _ _ := HttpOk (Some (VDict [("code", VStr "50113"); ("data", VList [])])) |}.

Example refused_key_passes :
  (run_real_read_only_check (H2:=refusing_okx) "user-1" "acct-real" unchecked_world).1 =
  Ok (Build_ReadOnlyCheckResult "acct-real" OKX true 0).
Proof. vm_compute. reflexivity. Qed.
