(* ===== verification/Phase4.v ===== *)
(** The four administrative records that precede an order on a real account:
    [services/phase4_readiness.py], [services/phase4_small_fund_review.py],
    [services/phase4_small_fund_order_window.py] and
    [services/phase4_final_release_check.py], with their endpoints in
    [api/v1/exchange_accounts.py].  Each leaves one row in the audit log and reads
    the amounts of the earlier rows back from their text. *)
From S2P Require Import Prelude PyStr PyDecimal PyValue Models Session PgDatabase Tables Demo Logic Accounts TestnetGate WindowApproval HttpClient Adapters ReadOnly.

Definition PHASE4_SMALL_FUND_REVIEW_ACK : string := "ACKNOWLEDGE_SMALL_FUND_REVIEW_ONLY".
Definition PHASE4_SMALL_FUND_ORDER_WINDOW_ACK : string := "APPROVE_REAL_SMALL_FUND_ORDER_WINDOW_ONLY".
Definition PHASE4_FINAL_RELEASE_CHECK_ACK : string := "RECORD_PHASE4_FINAL_RELEASE_CHECK_ONLY".
Definition PHASE4_SMALL_FUND_MAX_NOTIONAL_CAP : dec := dec_of_Z 100.

Definition REVIEW_ACTION : string := "real.small_fund.review_recorded".
Definition ORDER_WINDOW_ACTION : string := "real.small_fund.order_window.approval_recorded".
Definition FINAL_CHECK_ACTION : string := "real.small_fund.final_release_check_recorded".

Definition risk_enabled (r : option RiskSetting) : bool :=
  match r with Some r => risk_trading_enabled r | None => false end.
Definition has_passphrase (k : option ApiKeySecret) : bool :=
  match k with Some k => negb (is_none (key_passphrase k)) | None => false end.

(** ** The readiness report *)

Inductive Phase4ReadinessStatus := PASS | BLOCKED.
#[export] Instance Phase4ReadinessStatus_eq_dec : EqDecision Phase4ReadinessStatus.
Proof. solve_decision. Defined.

Record Phase4ReadinessCheck := {
  rdy_name : string; rdy_status : Phase4ReadinessStatus; rdy_required : bool; rdy_detail : string }.

Record Phase4ReadinessReport := {
  rr_account : string; rr_exchange : ExchangeName; rr_mode : AccountMode;
  rr_overall_status : Phase4ReadinessStatus; rr_read_only : bool;
  rr_order_submission_authorized : bool; rr_checks : list Phase4ReadinessCheck;
  rr_gate_reasons : list string }.

Definition _check (name : string) (passed : bool) (detail : string) : Phase4ReadinessCheck :=
  {| rdy_name := name; rdy_status := if passed then PASS else BLOCKED; rdy_required := true;
     rdy_detail := detail |}.

Definition readiness_checks (user : User) (account : ExchangeAccount)
    (risk_settings : option RiskSetting) (secret : option ApiKeySecret) : list Phase4ReadinessCheck :=
  [_check "operator_is_super_admin" (bool_decide (user_role user = SUPER_ADMIN))
     "Phase 4 readiness checks require a super administrator session.";
   _check "operator_mfa_enabled" (user_mfa_enabled user)
     "Super administrator MFA must be enabled before any real-account gate.";
   _check "account_is_real_okx"
     (bool_decide (acct_mode account = REAL) && bool_decide (acct_exchange account = OKX))
     "The selected account must be an OKX REAL account.";
   _check "exchange_account_active" (acct_is_active account)
     "The selected exchange account must be active.";
   _check "exchange_trading_disabled" (negb (acct_trading_enabled account))
     "Exchange account trading_enabled must remain false.";
   _check "risk_settings_exist" (negb (is_none risk_settings))
     "Risk settings must exist before Phase 4 can be proposed.";
   _check "risk_trading_disabled" (negb (is_none risk_settings) && negb (risk_enabled risk_settings))
     "Risk settings trading_enabled must remain false.";
   _check "api_key_metadata_configured" (negb (is_none secret))
     "Encrypted API key metadata must be configured.";
   _check "api_key_passphrase_configured" (has_passphrase secret)
     "OKX REAL validation requires an encrypted passphrase."].

Section readiness.
Context `{Database}.

Definition build_phase4_readiness_report (user : User) (exchange_account : string) :
    M Phase4ReadinessReport :=
  account ← get_owned_account (user_id user) exchange_account;
  match account with
  | None => raise (ValueError "account not found")
  | Some account =>
      risk_settings ← find_risk_settings (user_id user) (acct_id account);
      secret ← get_api_key_secret_metadata (user_id user) (acct_id account);
      let checks := readiness_checks user account risk_settings secret in
      let gate_reasons := rdy_name <$> List.filter (λ c, bool_decide (rdy_status c = BLOCKED)) checks in
      mret {| rr_account := acct_id account; rr_exchange := acct_exchange account;
              rr_mode := acct_mode account;
              rr_overall_status := match gate_reasons with [] => PASS | _ => BLOCKED end;
              rr_read_only := true; rr_order_submission_authorized := false;
              rr_checks := checks; rr_gate_reasons := gate_reasons |}
  end.

Definition read_phase4_readiness (current_user : User) (account : string) : M Phase4ReadinessReport :=
  try_except (build_phase4_readiness_report current_user account)
    (λ exn, if is_ValueError exn then Some (not_found "account not found") else None).
End readiness.

(** ** The audit log *)

(** Rows of a user and an account with an action and a severity. *)
Definition audit_row (user account action severity : string) (l : AuditLog) : bool :=
  String.eqb (aud_user l) user && bool_decide (aud_account l = Some account) &&
  String.eqb (aud_action l) action && String.eqb (aud_severity l) severity.

(** [Decimal(str(payload.get(key, "")))], [None] when it raises. *)
Definition _audit_decimal (audit_log : option AuditLog) (key : string) : option pydec :=
  match audit_log with
  | Some l => decimal_of_str (py_str (dict_get_default key (VStr "") (aud_payload l)))
  | None => None
  end.

Definition audit_id (l : option AuditLog) : string := match l with Some l => aud_id l | None => "" end.

Section records.
Context `{Database}.

Definition _latest_required_audit (user account action : string) : M (option AuditLog) :=
  logs ← db_scalars (audit_row user account action "CRITICAL");
  mret (latest aud_created_at logs).

Definition _latest_successful_real_read_only_audit (user account : string) : M (option AuditLog) :=
  logs ← db_scalars (audit_row user account REAL_READ_ONLY_ACTION "INFO");
  mret (latest aud_created_at logs).

Definition _latest_phase4_review_audit (user account : string) : M (option AuditLog) :=
  _latest_required_audit user account REVIEW_ACTION.

Definition _review_max_notional (review_audit : option AuditLog) : option pydec :=
  _audit_decimal review_audit "max_notional".

(** [db.add(audit_log); db.commit(); db.refresh(audit_log)] *)
Definition record_audit (user account action : string) (payload : dict) : M string :=
  id ← new_id;
  now ← now_utc;
  add_commit (Build_AuditLog id user (Some account) action "CRITICAL" payload now) ;;
  mret id.
End records.

(** ** The small-fund review *)

Record Phase4SmallFundReview := {
  rev_audit_log_id : string; rev_account : string; rev_exchange : ExchangeName; rev_max_notional : dec;
  rev_read_only_audit_log_id : string; rev_order_submission_authorized : bool;
  rev_trading_flags_changed : bool }.

Definition _review_blocked_reasons (role : UserRole) (account : ExchangeAccount)
    (risk_settings : option RiskSetting) (api_key_configured passphrase_configured
     read_only_audit_configured : bool) (max_notional : dec) (acknowledgement : string) : list string :=
  collect
    [(negb (bool_decide (role = SUPER_ADMIN)), "super administrator privileges are required for Phase 4 review");
     (negb (bool_decide (acct_exchange account = OKX)),
      "Phase 4 review currently supports OKX REAL accounts only");
     (negb (acct_is_active account), "exchange account must be active before Phase 4 review");
     (negb (bool_decide (acct_mode account = REAL)), "account mode must be REAL before Phase 4 review");
     (acct_trading_enabled account, "exchange account trading_enabled must remain false");
     (is_none risk_settings, "risk settings must exist before Phase 4 review");
     (risk_enabled risk_settings, "risk settings trading_enabled must remain false");
     (negb api_key_configured, "encrypted API key metadata must exist before Phase 4 review");
     (negb passphrase_configured, "OKX REAL API passphrase metadata must exist before Phase 4 review");
     (negb read_only_audit_configured, "successful REAL read-only authentication audit is required");
     (dec_leb max_notional dec0, "small-fund max_notional must be greater than zero");
     (dec_gtb max_notional PHASE4_SMALL_FUND_MAX_NOTIONAL_CAP,
      "small-fund max_notional exceeds the Phase 4 cap");
     (negb (String.eqb acknowledgement PHASE4_SMALL_FUND_REVIEW_ACK),
      "explicit Phase 4 small-fund review acknowledgement is required")].

Definition review_payload (account : ExchangeAccount) (max_notional : dec) (acknowledgement : string)
    (read_only_audit : option AuditLog) : dict :=
  [("exchange_name", VStr (exchange_value (acct_exchange account)));
   ("account_mode", VStr (mode_value (acct_mode account)));
   ("max_notional", VStr (dec_str max_notional));
   ("max_notional_cap", VStr (dec_str PHASE4_SMALL_FUND_MAX_NOTIONAL_CAP));
   ("acknowledgement", VStr acknowledgement);
   ("read_only_audit_log_id", VStr (audit_id read_only_audit));
   ("order_submission_authorized", VBool false); ("trading_flags_changed", VBool false)].

Section review.
Context `{Database}.

Definition record_phase4_small_fund_review (user : string) (role : UserRole) (exchange_account : string)
    (max_notional : dec) (acknowledgement : string) : M Phase4SmallFundReview :=
  account ← get_owned_account user exchange_account;
  match account with
  | None => raise (ValueError "account not found")
  | Some account =>
      risk_settings ← find_risk_settings user (acct_id account);
      secret_metadata ← get_api_key_secret_metadata user (acct_id account);
      read_only_audit ← _latest_successful_real_read_only_audit user (acct_id account);
      match _review_blocked_reasons role account risk_settings (negb (is_none secret_metadata))
              (has_passphrase secret_metadata) (negb (is_none read_only_audit)) max_notional
              acknowledgement with
      | (_ :: _) as reasons => raise (Phase4SmallFundReviewBlockedError reasons)
      | [] =>
          id ← record_audit user (acct_id account) REVIEW_ACTION
                 (review_payload account max_notional acknowledgement read_only_audit);
          mret {| rev_audit_log_id := id; rev_account := acct_id account;
                  rev_exchange := acct_exchange account; rev_max_notional := max_notional;
                  rev_read_only_audit_log_id := audit_id read_only_audit;
                  rev_order_submission_authorized := false; rev_trading_flags_changed := false |}
      end
  end.

Definition record_small_fund_review (current_user : User) (account : string) (max_notional : dec)
    (acknowledgement : string) : M Phase4SmallFundReview :=
  try_except
    (record_phase4_small_fund_review (user_id current_user) (user_role current_user) account max_notional
       acknowledgement)
    (λ exn, match exn with
            | Phase4SmallFundReviewBlockedError reasons =>
                Some (raise (HTTPException 400 (VDict [("reasons", VList (map VStr reasons))]) []))
            | _ => if is_ValueError exn then Some (not_found "account not found") else None
            end).
End review.

(** ** The order window *)

Record Phase4SmallFundOrderWindowApproval := {
  win_audit_log_id : string; win_account : string; win_exchange : ExchangeName; win_symbol : string;
  win_side : OrderSide; win_max_quantity : dec; win_limit_price : dec; win_max_notional : dec;
  win_duration_minutes : Z; win_review_audit_log_id : string; win_read_only_audit_log_id : string;
  win_order_submission_authorized : bool; win_trading_flags_changed : bool }.

(** [None] where the reviewed amount is a NaN and the comparison raises. *)
Definition _order_window_blocked_reasons (role : UserRole) (account : ExchangeAccount)
    (risk_settings : option RiskSetting) (api_key_configured passphrase_configured
     read_only_audit_configured review_audit_configured : bool) (review_max_notional : option pydec)
    (symbol : string) (max_quantity limit_price max_notional : dec) (duration_minutes : Z)
    (acknowledgement : string) : option (list string) :=
  over_review ← exceeds_opt max_notional review_max_notional;
  Some (collect
    [(negb (bool_decide (role = SUPER_ADMIN)),
      "super administrator privileges are required for Phase 4 order window");
     (negb (bool_decide (acct_exchange account = OKX)),
      "Phase 4 order window currently supports OKX REAL accounts only");
     (negb (acct_is_active account), "exchange account must be active before Phase 4 order window");
     (negb (bool_decide (acct_mode account = REAL)), "account mode must be REAL before Phase 4 order window");
     (acct_trading_enabled account, "exchange account trading_enabled must remain false");
     (is_none risk_settings, "risk settings must exist before Phase 4 order window");
     (risk_enabled risk_settings, "risk settings trading_enabled must remain false");
     (negb api_key_configured, "encrypted API key metadata must exist before Phase 4 order window");
     (negb passphrase_configured, "OKX REAL API passphrase metadata must exist before Phase 4 order window");
     (negb read_only_audit_configured, "successful REAL read-only authentication audit is required");
     (negb review_audit_configured, "Phase 4 small-fund review audit is required");
     (is_none review_max_notional, "Phase 4 small-fund review max_notional is invalid");
     (String.eqb (str_strip symbol) "", "order window symbol is required");
     (dec_leb max_quantity dec0, "order window max_quantity must be greater than zero");
     (dec_leb limit_price dec0, "order window limit_price must be greater than zero");
     (dec_leb max_notional dec0, "order window max_notional must be greater than zero");
     (dec_gtb max_notional PHASE4_SMALL_FUND_MAX_NOTIONAL_CAP,
      "order window max_notional exceeds the Phase 4 cap");
     (over_review, "order window max_notional exceeds the reviewed small-fund cap");
     (dec_gtb max_quantity dec0 && dec_gtb limit_price dec0 &&
      dec_gtb (dec_mul max_quantity limit_price) max_notional,
      "order window quantity multiplied by limit_price exceeds max_notional");
     ((duration_minutes <? 1)%Z || (10 <? duration_minutes)%Z,
      "Phase 4 order window duration must be between 1 and 10 minutes");
     (negb (String.eqb acknowledgement PHASE4_SMALL_FUND_ORDER_WINDOW_ACK),
      "explicit Phase 4 small-fund order window acknowledgement is required")]).

Definition order_window_payload (account : ExchangeAccount) (symbol : string) (side : OrderSide)
    (max_quantity limit_price max_notional : dec) (duration_minutes : Z) (acknowledgement : string)
    (review_audit read_only_audit : option AuditLog) : dict :=
  [("exchange_name", VStr (exchange_value (acct_exchange account)));
   ("account_mode", VStr (mode_value (acct_mode account)));
   ("symbol", VStr symbol); ("side", VStr (side_value side));
   ("max_quantity", VStr (dec_str max_quantity)); ("limit_price", VStr (dec_str limit_price));
   ("max_notional", VStr (dec_str max_notional)); ("duration_minutes", VInt duration_minutes);
   ("acknowledgement", VStr acknowledgement); ("review_audit_log_id", VStr (audit_id review_audit));
   ("read_only_audit_log_id", VStr (audit_id read_only_audit));
   ("order_submission_authorized", VBool false); ("trading_flags_changed", VBool false)].

Section order_window.
Context `{Database}.

Definition record_phase4_small_fund_order_window_approval (user : string) (role : UserRole)
    (exchange_account symbol : string) (side : OrderSide) (max_quantity limit_price max_notional : dec)
    (duration_minutes : Z) (acknowledgement : string) : M Phase4SmallFundOrderWindowApproval :=
  account ← get_owned_account user exchange_account;
  match account with
  | None => raise (ValueError "account not found")
  | Some account =>
      risk_settings ← find_risk_settings user (acct_id account);
      secret_metadata ← get_api_key_secret_metadata user (acct_id account);
      read_only_audit ← _latest_successful_real_read_only_audit user (acct_id account);
      review_audit ← _latest_phase4_review_audit user (acct_id account);
      match _order_window_blocked_reasons role account risk_settings (negb (is_none secret_metadata))
              (has_passphrase secret_metadata) (negb (is_none read_only_audit))
              (negb (is_none review_audit)) (_review_max_notional review_audit) symbol max_quantity
              limit_price max_notional duration_minutes acknowledgement with
      | None => raise InvalidOperation
      | Some ((_ :: _) as reasons) => raise (Phase4SmallFundOrderWindowBlockedError reasons)
      | Some [] =>
          let normalized_symbol := str_upper (str_strip symbol) in
          id ← record_audit user (acct_id account) ORDER_WINDOW_ACTION
                 (order_window_payload account normalized_symbol side max_quantity limit_price max_notional
                    duration_minutes acknowledgement review_audit read_only_audit);
          mret {| win_audit_log_id := id; win_account := acct_id account;
                  win_exchange := acct_exchange account; win_symbol := normalized_symbol;
                  win_side := side; win_max_quantity := max_quantity; win_limit_price := limit_price;
                  win_max_notional := max_notional; win_duration_minutes := duration_minutes;
                  win_review_audit_log_id := audit_id review_audit;
                  win_read_only_audit_log_id := audit_id read_only_audit;
                  win_order_submission_authorized := false; win_trading_flags_changed := false |}
      end
  end.

Definition record_small_fund_order_window_approval (current_user : User) (account symbol : string)
    (side : OrderSide) (max_quantity limit_price max_notional : dec) (duration_minutes : Z)
    (acknowledgement : string) : M Phase4SmallFundOrderWindowApproval :=
  try_except
    (record_phase4_small_fund_order_window_approval (user_id current_user) (user_role current_user) account
       symbol side max_quantity limit_price max_notional duration_minutes acknowledgement)
    (λ exn, match exn with
            | Phase4SmallFundOrderWindowBlockedError reasons =>
                Some (raise (HTTPException 400 (VDict [("reasons", VList (map VStr reasons))]) []))
            | _ => if is_ValueError exn then Some (not_found "account not found") else None
            end).
End order_window.

(** ** The final release check *)

Record Phase4FinalReleaseCheck := {
  fin_audit_log_id : string; fin_account : string; fin_exchange : ExchangeName; fin_max_notional : dec;
  fin_review_audit_log_id : string; fin_order_window_audit_log_id : string;
  fin_order_submission_authorized : bool; fin_trading_flags_changed : bool }.

(** What the operator confirms, in the order of the parameters of the source. *)
Record Confirmations := {
  dedicated_account_confirmed : bool; account_empty_confirmed : bool;
  withdrawals_disabled_confirmed : bool; delete_api_key_after_test_confirmed : bool;
  first_order_stop_review_confirmed : bool; no_live_order_submission_confirmed : bool }.

(** [None] where a recorded amount is a NaN and the comparison raises. *)
Definition _blocked_reasons (role : UserRole) (account : ExchangeAccount) (risk_settings : option RiskSetting)
    (review_audit_configured order_window_audit_configured : bool)
    (review_max_notional order_window_max_notional : option pydec) (max_notional : dec)
    (c : Confirmations) (acknowledgement : string) : option (list string) :=
  over_review ← exceeds_opt max_notional review_max_notional;
  over_window ← exceeds_opt max_notional order_window_max_notional;
  Some (collect
    [(negb (bool_decide (role = SUPER_ADMIN)),
      "super administrator privileges are required for Phase 4 final check");
     (negb (bool_decide (acct_exchange account = OKX)),
      "Phase 4 final check currently supports OKX REAL accounts only");
     (negb (acct_is_active account), "exchange account must be active before Phase 4 final check");
     (negb (bool_decide (acct_mode account = REAL)), "account mode must be REAL before Phase 4 final check");
     (acct_trading_enabled account, "exchange account trading_enabled must remain false");
     (is_none risk_settings, "risk settings must exist before Phase 4 final check");
     (risk_enabled risk_settings, "risk settings trading_enabled must remain false");
     (negb review_audit_configured, "Phase 4 small-fund review audit is required");
     (negb order_window_audit_configured, "Phase 4 order-window audit is required");
     (is_none review_max_notional, "Phase 4 small-fund review max_notional is invalid");
     (is_none order_window_max_notional, "Phase 4 order-window max_notional is invalid");
     (dec_leb max_notional dec0, "final check max_notional must be greater than zero");
     (dec_gtb max_notional PHASE4_SMALL_FUND_MAX_NOTIONAL_CAP,
      "final check max_notional exceeds the Phase 4 cap");
     (over_review, "final check max_notional exceeds the reviewed small-fund cap");
     (over_window, "final check max_notional exceeds the order-window cap");
     (negb (dedicated_account_confirmed c), "dedicated test account confirmation is required");
     (negb (account_empty_confirmed c), "empty-account confirmation is required");
     (negb (withdrawals_disabled_confirmed c), "withdrawal-disabled confirmation is required");
     (negb (delete_api_key_after_test_confirmed c), "API-key deletion-after-test confirmation is required");
     (negb (first_order_stop_review_confirmed c), "first-order stop-and-review confirmation is required");
     (negb (no_live_order_submission_confirmed c), "no-live-order-submission confirmation is required");
     (negb (String.eqb acknowledgement PHASE4_FINAL_RELEASE_CHECK_ACK),
      "explicit Phase 4 final release-check acknowledgement is required")]).

Definition final_check_payload (account : ExchangeAccount) (max_notional : dec)
    (review_audit order_window_audit : option AuditLog) (c : Confirmations) (acknowledgement : string) : dict :=
  [("exchange_name", VStr (exchange_value (acct_exchange account)));
   ("account_mode", VStr (mode_value (acct_mode account)));
   ("max_notional", VStr (dec_str max_notional));
   ("max_notional_cap", VStr (dec_str PHASE4_SMALL_FUND_MAX_NOTIONAL_CAP));
   ("review_audit_log_id", VStr (audit_id review_audit));
   ("order_window_audit_log_id", VStr (audit_id order_window_audit));
   ("dedicated_account_confirmed", VBool (dedicated_account_confirmed c));
   ("account_empty_confirmed", VBool (account_empty_confirmed c));
   ("withdrawals_disabled_confirmed", VBool (withdrawals_disabled_confirmed c));
   ("delete_api_key_after_test_confirmed", VBool (delete_api_key_after_test_confirmed c));
   ("first_order_stop_review_confirmed", VBool (first_order_stop_review_confirmed c));
   ("no_live_order_submission_confirmed", VBool (no_live_order_submission_confirmed c));
   ("acknowledgement", VStr acknowledgement);
   ("order_submission_authorized", VBool false); ("trading_flags_changed", VBool false)].

Section final_check.
Context `{Database}.

Definition record_phase4_final_release_check (user : string) (role : UserRole) (exchange_account : string)
    (max_notional : dec) (c : Confirmations) (acknowledgement : string) : M Phase4FinalReleaseCheck :=
  account ← get_owned_account user exchange_account;
  match account with
  | None => raise (ValueError "account not found")
  | Some account =>
      risk_settings ← find_risk_settings user (acct_id account);
      review_audit ← _latest_required_audit user (acct_id account) REVIEW_ACTION;
      order_window_audit ← _latest_required_audit user (acct_id account) ORDER_WINDOW_ACTION;
      match _blocked_reasons role account risk_settings (negb (is_none review_audit))
              (negb (is_none order_window_audit)) (_audit_decimal review_audit "max_notional")
              (_audit_decimal order_window_audit "max_notional") max_notional c acknowledgement with
      | None => raise InvalidOperation
      | Some ((_ :: _) as reasons) => raise (Phase4FinalReleaseCheckBlockedError reasons)
      | Some [] =>
          id ← record_audit user (acct_id account) FINAL_CHECK_ACTION
                 (final_check_payload account max_notional review_audit order_window_audit c acknowledgement);
          mret {| fin_audit_log_id := id; fin_account := acct_id account;
                  fin_exchange := acct_exchange account; fin_max_notional := max_notional;
                  fin_review_audit_log_id := audit_id review_audit;
                  fin_order_window_audit_log_id := audit_id order_window_audit;
                  fin_order_submission_authorized := false; fin_trading_flags_changed := false |}
      end
  end.

Definition record_final_release_check (current_user : User) (account : string) (max_notional : dec)
    (c : Confirmations) (acknowledgement : string) : M Phase4FinalReleaseCheck :=
  try_except
    (record_phase4_final_release_check (user_id current_user) (user_role current_user) account max_notional c
       acknowledgement)
    (λ exn, match exn with
            | Phase4FinalReleaseCheckBlockedError reasons =>
                Some (raise (HTTPException 400 (VDict [("reasons", VList (map VStr reasons))]) []))
            | _ => if is_ValueError exn then Some (not_found "account not found") else None
            end).
End final_check.

(** ** What the readiness report says *)

(** The account and the settings every record demands: a real OKX account of the
    user, active, with trading switched off in both places. *)
Definition idle_real_account (user account : string) (d : Db) : Prop :=
  ∃ a r, a ∈ db_accounts d ∧ acct_id a = account ∧ acct_user a = user ∧ acct_exchange a = OKX ∧
    acct_mode a = REAL ∧ acct_is_active a = true ∧ acct_trading_enabled a = false ∧
    r ∈ db_risk d ∧ risk_user r = user ∧ risk_account r = account ∧ risk_trading_enabled r = false.

Definition stored_passphrase (user account : string) (d : Db) : Prop :=
  ∃ k, k ∈ db_secrets d ∧ key_user k = user ∧ key_account k = account ∧ key_passphrase k ≠ None.

Section readiness_meaning.
Context `{Database}.

Lemma reported_account_Ok user account r w w' :
  get_owned_account user account w = (Ok r, w') →
  w' = w ∧ ∀ a, r = Some a → a ∈ db_accounts (w_tx w) ∧ acct_id a = account ∧ acct_user a = user.
Proof.
  intros [= <- <-]. split; [done|]. intros a Ha. apply find_first_Some in Ha as [Hin Hp].
  apply andb_true_iff in Hp as [H1%String.eqb_eq H2%String.eqb_eq]. done.
Qed.

Lemma reported_settings_Ok user account r w w' :
  find_risk_settings user account w = (Ok r, w') →
  w' = w ∧ ∀ x, r = Some x → x ∈ db_risk (w_tx w) ∧ risk_user x = user ∧ risk_account x = account.
Proof.
  intros [= <- <-]. split; [done|]. intros a Ha. apply find_first_Some in Ha as [Hin Hp].
  apply andb_true_iff in Hp as [H1%String.eqb_eq H2%String.eqb_eq]. done.
Qed.

Lemma secret_metadata_Ok user account r w w' :
  get_api_key_secret_metadata user account w = (Ok r, w') →
  w' = w ∧ ∀ k, r = Some k → k ∈ db_secrets (w_tx w) ∧ key_user k = user ∧ key_account k = account.
Proof.
  intros [= <- <-]. split; [done|]. intros a Ha. apply find_first_Some in Ha as [Hin Hp].
  apply andb_true_iff in Hp as [H1%String.eqb_eq H2%String.eqb_eq]. done.
Qed.

Lemma has_passphrase_stored user account k d :
  (∀ x, k = Some x → x ∈ db_secrets d ∧ key_user x = user ∧ key_account x = account) →
  has_passphrase k = true → stored_passphrase user account d.
Proof.
  intros Hk Hp. destruct k as [k|]; [|done]. destruct (Hk k eq_refl) as (H1 & H2 & H3).
  exists k. cbn in Hp. destruct (key_passphrase k); done.
Qed.

Lemma blocked_checks_nil (l : list Phase4ReadinessCheck) :
  rdy_name <$> List.filter (λ c, bool_decide (rdy_status c = BLOCKED)) l = [] →
  Forall (λ c, rdy_status c = PASS) l.
Proof.
  induction l as [|c l IH]; [constructor|]. cbn [List.filter].
  destruct (rdy_status c) eqn:Ec; [|done]. rewrite bool_decide_eq_false_2 by done. constructor; auto.
Qed.

Lemma check_pass name b detail : rdy_status (_check name b detail) = PASS → b = true.
Proof. by destruct b. Qed.

(** A report that passes was made for a super administrator with a second factor, on
    an idle real account with a stored passphrase; passing or not, a report writes
    nothing and authorizes nothing, and its reasons are the names of the checks that
    did not pass. *)
Theorem phase4_readiness_sound user account w report w' :
  build_phase4_readiness_report user account w = (Ok report, w') →
  w' = w ∧ rr_read_only report = true ∧ rr_order_submission_authorized report = false ∧
  (rr_overall_status report = PASS ↔ rr_gate_reasons report = []) ∧
  (rr_overall_status report = PASS →
   user_role user = SUPER_ADMIN ∧ user_mfa_enabled user = true ∧
   idle_real_account (user_id user) account (w_tx w) ∧
   stored_passphrase (user_id user) account (w_tx w)).
Proof.
  unfold build_phase4_readiness_report. intros E.
  apply bind_Ok_inv in E as ([a|] & w1 & [-> Ha]%reported_account_Ok & E); [|done].
  apply bind_Ok_inv in E as (r & w1 & [-> Hr]%reported_settings_Ok & E).
  apply bind_Ok_inv in E as (k & w1 & [-> Hk]%secret_metadata_Ok & E).
  remember (readiness_checks user a r k) as checks eqn:Hchecks. cbv zeta in E. injection E as <- <-.
  cbn [rr_read_only rr_order_submission_authorized rr_overall_status rr_gate_reasons].
  destruct (Ha a eq_refl) as (Hin & Hid & Hu). set (reasons := rdy_name <$> _).
  split; [done|]. split; [done|]. split; [done|]. split; [by destruct reasons|].
  destruct reasons eqn:Er; [|done]. intros _. subst reasons. apply blocked_checks_nil in Er.
  rewrite Hchecks in Er. unfold readiness_checks in Er. rewrite !Forall_cons in Er.
  destruct Er as (Hadmin%check_pass & Hmfa%check_pass & Hokx%check_pass & Hact%check_pass & Htr%check_pass &
    _ & Hrisk%check_pass & _ & Hpass%check_pass & _).
  apply bool_decide_eq_true in Hadmin. apply andb_true_iff in Hokx as [Hm Hx].
  apply bool_decide_eq_true in Hm, Hx. apply negb_true_iff in Htr.
  destruct r as [r|]; [|done]. destruct (Hr r eq_refl) as (Hr1 & Hr2 & Hr3). apply negb_true_iff in Hrisk.
  split; [done|]. split; [done|]. split.
  - exists a, r. rewrite <- Hid. naive_solver.
  - rewrite <- Hid. by eapply has_passphrase_stored.
Qed.
End readiness_meaning.

(** ** What a record leaves behind *)

(** One more row in the audit log, committed, and nothing else. *)
Definition recorded (user account action id : string) (payload : dict) (w w' : World) : Prop :=
  let row := Build_AuditLog id user (Some account) action "CRITICAL" payload (w_now w) in
  w_tx w' = set_audit (db_audit (w_tx w) ++ [row]) (w_tx w) ∧ w_committed w' = w_tx w' ∧
  w_new w' = empty_db ∧ w_now w' = w_now w ∧ w_trace w' = w_trace w.

Section records_meaning.
Context `{Database}.

Lemma record_audit_Ok user account action payload w id w' :
  w_new w = empty_db → record_audit user account action payload w = (Ok id, w') →
  recorded user account action id payload w w'.
Proof.
  intros Hn E. unfold record_audit in E.
  apply bind_Ok_inv in E as (id0 & w1 & Eid & E). injection Eid as <- <-.
  apply bind_Ok_inv in E as (now & w1 & Enow & E). injection Enow as <- <-.
  apply bind_Ok_inv in E as ([] & w2 & Ec & E). injection E as <- <-.
  unfold add_commit in Ec. apply bind_Ok_inv in Ec as ([] & w3 & Eadd & Ec). injection Eadd as <-.
  match type of Ec with commit ?w0 = (_, ?w1) =>
    pose proof (commit_only_Ok (R:=AuditLog)
      [Build_AuditLog (new_uuid (w_next w)) user (Some account) action "CRITICAL" payload (w_now w)] w0 w1) as Hc end.
  destruct Hc as (rs & Hrs & _ & ->); [cbn; by rewrite Hn | done | done |].
  apply Forall2_cons_inv_l in Hrs as (l' & rs' & [= <-] & Hrs & ->).
  apply Forall2_nil_inv_l in Hrs as ->. done.
Qed.

(** The latest matching row is the one just recorded, whatever rows of other kinds
    follow it. *)
Lemma latest_audit_recorded user account action severity (old later : list AuditLog) l :
  (∀ x, x ∈ old → (aud_created_at x < aud_created_at l)%Z) →
  audit_row user account action severity l = true →
  (∀ x, x ∈ later → audit_row user account action severity x = false) →
  latest aud_created_at (List.filter (audit_row user account action severity) (old ++ [l] ++ later)) = Some l.
Proof.
  intros Hold Hl Hlater. rewrite !List.filter_app. cbn [List.filter]. rewrite Hl.
  assert (List.filter (audit_row user account action severity) later = []) as ->.
  { clear -Hlater. induction later as [|x later IH]; [done|]. cbn [List.filter].
    rewrite (Hlater x) by left. apply IH. intros y Hy. apply Hlater. by right. }
  rewrite app_nil_r. apply latest_snoc. intros y Hy. apply list_elem_of_In, List.filter_In in Hy as [Hy _].
  apply Hold. by apply list_elem_of_In.
Qed.

Lemma latest_audit_Ok user account action w r w' :
  _latest_required_audit user account action w = (Ok r, w') →
  w' = w ∧ r = latest aud_created_at (List.filter (audit_row user account action "CRITICAL") (db_audit (w_tx w))).
Proof. by intros [= <- <-]. Qed.

Lemma read_only_audit_Ok user account w r w' :
  _latest_successful_real_read_only_audit user account w = (Ok r, w') →
  w' = w ∧ r = latest aud_created_at (List.filter (audit_row user account REAL_READ_ONLY_ACTION "INFO") (db_audit (w_tx w))).
Proof. by intros [= <- <-]. Qed.

Lemma latest_audit_In user account action severity rows l :
  latest aud_created_at (List.filter (audit_row user account action severity) rows) = Some l →
  l ∈ rows ∧ audit_row user account action severity l = true.
Proof.
  intros [Hin _]%latest_Some. apply list_elem_of_In, List.filter_In in Hin as [Hin Hl].
  split; [by apply list_elem_of_In | done].
Qed.
End records_meaning.

(** ** What each record was made from *)

(** No reason was collected: none of the conditions held. *)
Ltac reasons_nil E := apply collect_nil_conj in E; cbn [foldr fst] in E.

Section chain.
Context `{Database}.

Definition within_cap (m : dec) : Prop :=
  dec_ltb dec0 m = true ∧ dec_leb m PHASE4_SMALL_FUND_MAX_NOTIONAL_CAP = true.

Lemma within_cap_iff m :
  dec_leb m dec0 = false → dec_gtb m PHASE4_SMALL_FUND_MAX_NOTIONAL_CAP = false → within_cap m.
Proof.
  intros H0 H1. unfold within_cap. rewrite dec_leb_negb_ltb in H0. apply negb_false_iff in H0.
  split; [done|]. rewrite dec_leb_negb_ltb. by apply negb_true_iff.
Qed.

Lemma idle_account user account (a : ExchangeAccount) (r : option RiskSetting) d :
  (a ∈ db_accounts d ∧ acct_id a = account ∧ acct_user a = user) →
  (∀ x, r = Some x → x ∈ db_risk d ∧ risk_user x = user ∧ risk_account x = acct_id a) →
  negb (bool_decide (acct_exchange a = OKX)) = false → negb (acct_is_active a) = false →
  negb (bool_decide (acct_mode a = REAL)) = false → acct_trading_enabled a = false →
  is_none r = false → risk_enabled r = false → idle_real_account user account d.
Proof.
  intros (Hin & Hid & Hu) Hr Hx%negb_false_iff Hact%negb_false_iff Hm%negb_false_iff Ht Hn Hrt.
  destruct r as [r|]; [|done]. destruct (Hr r eq_refl) as (H1 & H2 & H3).
  apply bool_decide_eq_true in Hx, Hm. exists a, r. rewrite <- Hid at 2. naive_solver.
Qed.

Lemma review_Ok user role account m ack v w w' :
  w_new w = empty_db → record_phase4_small_fund_review user role account m ack w = (Ok v, w') →
  role = SUPER_ADMIN ∧ idle_real_account user account (w_tx w) ∧ stored_passphrase user account (w_tx w) ∧
  within_cap m ∧ rev_order_submission_authorized v = false ∧ rev_trading_flags_changed v = false ∧
  (∃ l, latest aud_created_at (List.filter (audit_row user account REAL_READ_ONLY_ACTION "INFO") (db_audit (w_tx w))) =
     Some l ∧ rev_read_only_audit_log_id v = aud_id l) ∧
  ∃ payload, dict_get_default "max_notional" (VStr "") payload = VStr (dec_str m) ∧
    recorded user account REVIEW_ACTION (rev_audit_log_id v) payload w w'.
Proof.
  intros Hn E. unfold record_phase4_small_fund_review in E.
  apply bind_Ok_inv in E as ([a|] & w1 & [-> Ha]%reported_account_Ok & E); [|done].
  specialize (Ha a eq_refl). destruct Ha as (Hin & <- & Hu).
  apply bind_Ok_inv in E as (r & w1 & [-> Hr]%reported_settings_Ok & E).
  apply bind_Ok_inv in E as (k & w1 & [-> Hk]%secret_metadata_Ok & E).
  apply bind_Ok_inv in E as (ro & w1 & [-> Hro]%read_only_audit_Ok & E).
  destruct (_review_blocked_reasons _ _ _ _ _ _ _ _) eqn:Er; [|done].
  unfold _review_blocked_reasons in Er. reasons_nil Er.
  destruct Er as (Hrole%negb_false_iff%bool_decide_eq_true & Hx & Hact & Hm & Ht & Hn' & Hrt & _ & Hp & Hl & H0 & Hc & _).
  apply bind_Ok_inv in E as (id & w1 & E%record_audit_Ok & [= <- <-]); [|done].
  split; [done|]. split; [by eapply idle_account|]. split.
  { apply negb_false_iff in Hp. by eapply has_passphrase_stored. }
  split; [by apply within_cap_iff|]. split; [done|]. split; [done|].
  destruct ro as [l|]; [|done]. split; [exists l; by split|]. eexists; split; [|exact E]. done.
Qed.

(** A recorded amount that [m] does not exceed. *)
Definition bounded_by (l : AuditLog) (m : dec) : Prop :=
  ∃ limit, _audit_decimal (Some l) "max_notional" = Some limit ∧ exceeds m limit = Some false.

Definition latest_row (user account action : string) (d : Db) (l : AuditLog) : Prop :=
  latest aud_created_at (List.filter (audit_row user account action "CRITICAL") (db_audit d)) = Some l.

Lemma bounded_recorded l m :
  is_none (_audit_decimal (Some l) "max_notional") = false →
  exceeds_opt m (_audit_decimal (Some l) "max_notional") = Some false → bounded_by l m.
Proof. intros [x Hx]%is_none_false. rewrite Hx. intros Hb. by exists x. Qed.

Lemma order_window_Ok user role account symbol side q p m minutes ack v w w' :
  w_new w = empty_db →
  record_phase4_small_fund_order_window_approval user role account symbol side q p m minutes ack w = (Ok v, w') →
  role = SUPER_ADMIN ∧ idle_real_account user account (w_tx w) ∧ stored_passphrase user account (w_tx w) ∧
  within_cap m ∧ dec_ltb dec0 q = true ∧ dec_ltb dec0 p = true ∧ dec_leb (dec_mul q p) m = true ∧
  (1 ≤ minutes ≤ 10)%Z ∧ win_order_submission_authorized v = false ∧ win_trading_flags_changed v = false ∧
  (∃ review, latest_row user account REVIEW_ACTION (w_tx w) review ∧ bounded_by review m ∧
     win_review_audit_log_id v = aud_id review) ∧
  ∃ payload, dict_get_default "max_notional" (VStr "") payload = VStr (dec_str m) ∧
    recorded user account ORDER_WINDOW_ACTION (win_audit_log_id v) payload w w'.
Proof.
  intros Hn E. unfold record_phase4_small_fund_order_window_approval in E.
  apply bind_Ok_inv in E as ([a|] & w1 & [-> Ha]%reported_account_Ok & E); [|done].
  specialize (Ha a eq_refl). destruct Ha as (Hin & <- & Hu).
  apply bind_Ok_inv in E as (r & w1 & [-> Hr]%reported_settings_Ok & E).
  apply bind_Ok_inv in E as (k & w1 & [-> Hk]%secret_metadata_Ok & E).
  apply bind_Ok_inv in E as (ro & w1 & [-> Hro]%read_only_audit_Ok & E).
  apply bind_Ok_inv in E as (rev & w1 & [-> Hrev]%latest_audit_Ok & E).
  destruct (_order_window_blocked_reasons _ _ _ _ _ _ _ _ _ _ _ _ _ _) as [[|]|] eqn:Er; [|done..].
  unfold _order_window_blocked_reasons, _review_max_notional in Er.
  destruct (exceeds_opt m _) as [over|] eqn:Eo; [|done]. cbn [mbind option_bind] in Er. apply (inj Some) in Er.
  reasons_nil Er.
  destruct Er as (Hrole%negb_false_iff%bool_decide_eq_true & Hx & Hact & Hm & Ht & Hn' & Hrt & _ & Hp & _ & Hr1 &
    Hr2 & _ & Hq & Hl & H0 & Hc & -> & Hqp & Hd & _).
  apply bind_Ok_inv in E as (id & w1 & E%record_audit_Ok & [= <- <-]); [|done].
  rewrite dec_leb_negb_ltb in Hq, Hl. apply negb_false_iff in Hq, Hl. unfold dec_gtb in Hqp.
  rewrite Hq, Hl in Hqp. cbn [andb] in Hqp.
  split; [done|]. split; [by eapply idle_account|]. split.
  { apply negb_false_iff in Hp. by eapply has_passphrase_stored. }
  split; [by apply within_cap_iff|]. split; [done|]. split; [done|].
  split; [rewrite dec_leb_negb_ltb; by apply negb_true_iff|].
  split; [apply orb_false_iff in Hd as [H1%Z.ltb_ge H2%Z.ltb_ge]; lia|]. split; [done|]. split; [done|].
  destruct rev as [rev|]; [|done]. split.
  - exists rev. split; [by symmetry|]. split; [by apply bounded_recorded|done].
  - eexists; split; [|exact E]. done.
Qed.

Definition all_confirmed (c : Confirmations) : Prop := c = Build_Confirmations true true true true true true.

Lemma final_check_Ok user role account m c ack v w w' :
  w_new w = empty_db → record_phase4_final_release_check user role account m c ack w = (Ok v, w') →
  role = SUPER_ADMIN ∧ idle_real_account user account (w_tx w) ∧ within_cap m ∧ all_confirmed c ∧
  ack = PHASE4_FINAL_RELEASE_CHECK_ACK ∧
  fin_order_submission_authorized v = false ∧ fin_trading_flags_changed v = false ∧
  (∃ review, latest_row user account REVIEW_ACTION (w_tx w) review ∧ bounded_by review m ∧
     fin_review_audit_log_id v = aud_id review) ∧
  (∃ window, latest_row user account ORDER_WINDOW_ACTION (w_tx w) window ∧ bounded_by window m ∧
     fin_order_window_audit_log_id v = aud_id window) ∧
  ∃ payload, recorded user account FINAL_CHECK_ACTION (fin_audit_log_id v) payload w w'.
Proof.
  intros Hn E. unfold record_phase4_final_release_check in E.
  apply bind_Ok_inv in E as ([a|] & w1 & [-> Ha]%reported_account_Ok & E); [|done].
  specialize (Ha a eq_refl). destruct Ha as (Hin & <- & Hu).
  apply bind_Ok_inv in E as (r & w1 & [-> Hr]%reported_settings_Ok & E).
  apply bind_Ok_inv in E as (rev & w1 & [-> Hrev]%latest_audit_Ok & E).
  apply bind_Ok_inv in E as (win & w1 & [-> Hwin]%latest_audit_Ok & E).
  destruct (_blocked_reasons _ _ _ _ _ _ _ _ _ _) as [[|]|] eqn:Er; [|done..].
  unfold _blocked_reasons in Er.
  destruct (exceeds_opt m (_audit_decimal rev _)) as [over1|] eqn:Eo1; [|done]. cbn [mbind option_bind] in Er.
  destruct (exceeds_opt m (_audit_decimal win _)) as [over2|] eqn:Eo2; [|done]. cbn [mbind option_bind] in Er.
  apply (inj Some) in Er. reasons_nil Er.
  destruct Er as (Hrole%negb_false_iff%bool_decide_eq_true & Hx & Hact & Hm & Ht & Hn' & Hrt & Hr1 & Hw1 & Hr2 & Hw2 &
    H0 & Hc & -> & -> & C1 & C2 & C3 & C4 & C5 & C6 & Hack%negb_false_iff%String.eqb_eq & _).
  apply bind_Ok_inv in E as (id & w1 & E%record_audit_Ok & [= <- <-]); [|done].
  destruct rev as [rev|]; [|done]. destruct win as [win|]; [|done].
  split; [done|]. split; [by eapply idle_account|]. split; [by apply within_cap_iff|].
  split.
  { apply negb_false_iff in C1, C2, C3, C4, C5, C6. destruct c; cbn in *. by subst. }
  split; [done|]. split; [done|]. split; [done|].
  split; [exists rev; split; [by symmetry|]; split; [by apply bounded_recorded|done]|].
  split; [exists win; split; [by symmetry|]; split; [by apply bounded_recorded|done]|].
  by eexists.
Qed.

(** C25. A final release check is recorded only for a super administrator who confirmed all
    six points, on an idle real account, for an amount within the cap and within the
    latest review and the latest order window of that user and account.  The record is
    one row of the audit log: no flag changes and no order is authorized. *)
Theorem final_check_backed user role account m c ack v w w' :
  w_new w = empty_db → record_phase4_final_release_check user role account m c ack w = (Ok v, w') →
  role = SUPER_ADMIN ∧ idle_real_account user account (w_tx w) ∧ within_cap m ∧ all_confirmed c ∧
  ack = PHASE4_FINAL_RELEASE_CHECK_ACK ∧
  fin_order_submission_authorized v = false ∧ fin_trading_flags_changed v = false ∧
  (∃ review, latest_row user account REVIEW_ACTION (w_tx w) review ∧ bounded_by review m ∧
     fin_review_audit_log_id v = aud_id review) ∧
  (∃ window, latest_row user account ORDER_WINDOW_ACTION (w_tx w) window ∧ bounded_by window m ∧
     fin_order_window_audit_log_id v = aud_id window) ∧
  ∃ payload, recorded user account FINAL_CHECK_ACTION (fin_audit_log_id v) payload w w'.
Proof. apply final_check_Ok. Qed.
End chain.

(** ** The amounts nest *)

Section nesting.
Context `{Database}.

Lemma bounded_by_recorded id user account action payload now n m :
  dict_get_default "max_notional" (VStr "") payload = VStr (dec_str n) →
  bounded_by (Build_AuditLog id user account action "CRITICAL" payload now) m → dec_leb m n = true.
Proof.
  intros Hp (limit & Hl & Hb). unfold _audit_decimal in Hl. cbn [aud_payload] in Hl. rewrite Hp in Hl.
  cbn [py_str] in Hl. rewrite dec_str_parses in Hl. injection Hl as <-. cbn in Hb. injection Hb as Hb.
  rewrite dec_leb_negb_ltb. by apply negb_true_iff.
Qed.

Lemma audit_row_made user account action id payload now :
  audit_row user account action "CRITICAL" (Build_AuditLog id user (Some account) action "CRITICAL" payload now) = true.
Proof. unfold audit_row. cbn. by rewrite !String.eqb_refl, bool_decide_eq_true_2. Qed.

Lemma latest_row_made user account action id payload now old later d r :
  (∀ l, l ∈ old → (aud_created_at l < now)%Z) →
  (∀ l, l ∈ later → audit_row user account action "CRITICAL" l = false) →
  db_audit d = old ++ [Build_AuditLog id user (Some account) action "CRITICAL" payload now] ++ later →
  latest_row user account action d r →
  r = Build_AuditLog id user (Some account) action "CRITICAL" payload now.
Proof.
  intros Hold Hlater Hd Hr. unfold latest_row in Hr. rewrite Hd, latest_audit_recorded in Hr; [congruence|..].
  - exact Hold.
  - apply audit_row_made.
  - exact Hlater.
Qed.

(** A review, then a window, then a final check on one account: each names the record
    before it, and the amounts only shrink, from the cap of one hundred down to the
    quantity times the price of the window.  The three rows of the audit log are all
    that changes; trading stays off. *)
Theorem phase4_amounts_nest user role role2 role3 account symbol side q p m1 m2 m3 minutes c ack1 ack2 ack3
    w w1 w2 w3 t2 t3 v1 v2 v3 :
  w_new w = empty_db → (∀ l, l ∈ db_audit (w_tx w) → (aud_created_at l < w_now w)%Z) → (w_now w < t2)%Z →
  record_phase4_small_fund_review user role account m1 ack1 w = (Ok v1, w1) →
  record_phase4_small_fund_order_window_approval user role2 account symbol side q p m2 minutes ack2
    (set_now t2 w1) = (Ok v2, w2) →
  record_phase4_final_release_check user role3 account m3 c ack3 (set_now t3 w2) = (Ok v3, w3) →
  win_review_audit_log_id v2 = rev_audit_log_id v1 ∧
  fin_review_audit_log_id v3 = rev_audit_log_id v1 ∧
  fin_order_window_audit_log_id v3 = win_audit_log_id v2 ∧
  dec_leb m3 m2 = true ∧ dec_leb m2 m1 = true ∧ dec_leb m1 PHASE4_SMALL_FUND_MAX_NOTIONAL_CAP = true ∧
  dec_leb (dec_mul q p) m2 = true ∧
  (∃ rows, length rows = 3%nat ∧ w_committed w3 = set_audit (db_audit (w_tx w) ++ rows) (w_tx w)) ∧
  idle_real_account user account (w_committed w3).
Proof.
  intros Hn Hold Ht E1 E2 E3.
  apply review_Ok in E1 as (_ & _ & _ & [_ Hc1] & _ & _ & _ & p1 & Hp1 & R1); [|done].
  destruct R1 as (Htx1 & _ & Hn1 & _ & _).
  apply order_window_Ok in E2 as (_ & _ & _ & _ & _ & _ & Hqp & _ & _ & _ & (r2 & Hr2 & Hb2 & Hid2) & p2 & Hp2 & R2);
    [|exact Hn1].
  destruct R2 as (Htx2 & _ & Hn2 & _ & _). cbn [w_tx set_now w_now] in Htx2, Hr2.
  apply final_check_Ok in E3 as (_ & Hidle & _ & _ & _ & _ & _ & (r3 & Hr3 & Hb3 & Hid3) & (x3 & Hx3 & Hbx & Hidx) & p3 & R3);
    [|exact Hn2].
  destruct R3 as (Htx3 & Hcom3 & _ & _ & _). cbn [w_tx set_now w_now] in Htx3, Hr3, Hx3, Hidle.
  rewrite Htx1 in Hr2, Htx2. cbn [set_audit db_audit] in Htx2. rewrite Htx2 in Hr3, Hx3, Htx3, Hidle.
  rewrite <- app_assoc in Hr3, Htx3. cbn [set_audit db_audit app] in Htx3.
  eapply (latest_row_made _ _ _ _ _ _ _ []) in Hr2; [|exact Hold|by intros ? ?%elem_of_nil|done].
  eapply (latest_row_made _ _ _ _ _ _ _ [_]) in Hr3; [|exact Hold| |done].
  2:{ intros l ->%list_elem_of_singleton. unfold audit_row. cbn. by rewrite !andb_false_r. }
  eapply (latest_row_made _ _ _ _ _ _ _ []) in Hx3; [| |by intros ? ?%elem_of_nil|done].
  2:{ intros l [Hl | ->%list_elem_of_singleton]%elem_of_app; [|exact Ht]. specialize (Hold l Hl). lia. }
  subst r2 r3 x3. cbn [aud_id] in Hid2, Hid3, Hidx.
  split; [exact Hid2|]. split; [exact Hid3|]. split; [exact Hidx|].
  split; [by eapply bounded_by_recorded|]. split; [by eapply bounded_by_recorded|]. split; [exact Hc1|].
  split; [exact Hqp|]. rewrite Hcom3, Htx3. split; [|exact Hidle].
  eexists. split; [|rewrite <- app_assoc; reflexivity]. done.
Qed.
End nesting.

(** ** The review rests on the read-only check *)

Section checked.
Context `{Database} `{Settings} `{Fernet} `{Exchange}.

(** A small-fund review recorded after a successful check of the real account names
    that very check; between the two exactly one request left the system, the check's
    read of the balances on the production host. *)
Theorem review_names_check user role account m ack w r w1 t v w2 :
  w_new w = empty_db → (∀ l, l ∈ db_audit (w_tx w) → (aud_created_at l < w_now w)%Z) →
  run_real_read_only_check user account w = (Ok r, w1) →
  record_phase4_small_fund_review user role account m ack (set_now t w1) = (Ok v, w2) →
  ∃ row ev, db_audit (w_tx w1) = db_audit (w_tx w) ++ [row] ∧ aud_id row = rev_read_only_audit_log_id v ∧
    aud_severity row = "INFO" ∧ okx_read "/api/v5/account/balance" (w_committed w) ev ∧
    w_trace w2 = w_trace w ++ [ev].
Proof.
  intros Hn Hold E1%real_check_cases E2; [|done].
  destruct E1 as (_ & _ & ev & payload & Hev & id & Htx & _ & Hn1 & Hnow & Htr).
  apply review_Ok in E2 as (_ & _ & _ & _ & _ & _ & (l & Hl & Hid) & p & _ & R); [|exact Hn1].
  destruct R as (_ & _ & _ & _ & Htr2). cbn [w_tx set_now w_trace w_now push_event] in *.
  rewrite Htx in Hl. cbn [set_audit db_audit] in Hl.
  match type of Htx with _ = set_audit (_ ++ [?row]) _ =>
    rewrite (latest_audit_recorded user account REAL_READ_ONLY_ACTION "INFO" _ [] row) in Hl;
      [injection Hl as <-; exists row, ev | exact Hold | | by intros ? ?%elem_of_nil] end.
  - rewrite Htx. split; [done|]. split; [by rewrite Hid|]. split; [done|]. split; [exact Hev|].
    rewrite Htr2. exact Htr.
  - unfold audit_row. cbn. by rewrite !String.eqb_refl, bool_decide_eq_true_2.
Qed.
End checked.

(** ** Witnesses *)

Definition demo_read_only_log : AuditLog :=
  Build_AuditLog "log-0" "user-1" (Some "acct-real") REAL_READ_ONLY_ACTION "INFO" [] 1779999999000000.
Definition real_world : World :=
  let d := set_audit [demo_read_only_log] real_db in mkWorld d d empty_db 0 1780000000000000 [].
Definition confirmed : Confirmations := Build_Confirmations true true true true true true.

Lemma phase4_readiness_sound_witness :
  ∃ report, build_phase4_readiness_report real_user "acct-real" real_world = (Ok report, real_world) ∧
    rr_overall_status report = PASS ∧ rr_order_submission_authorized report = false.
Proof.
  eexists. split; [vm_compute; reflexivity|]. split; [reflexivity|].
  eapply (phase4_readiness_sound real_user "acct-real" real_world). vm_compute. reflexivity.
Defined.

Lemma real_rows_past l : l ∈ db_audit (w_tx real_world) → (aud_created_at l < w_now real_world)%Z.
Proof. intros ->%list_elem_of_singleton. vm_compute. reflexivity. Qed.

Definition demo_review := record_phase4_small_fund_review "user-1" SUPER_ADMIN "acct-real" (d10 80)
  PHASE4_SMALL_FUND_REVIEW_ACK.
Definition demo_window := record_phase4_small_fund_order_window_approval "user-1" SUPER_ADMIN "acct-real"
  " btc-usdt" BUY (d10 2) (d10 20) (d10 50) 10 PHASE4_SMALL_FUND_ORDER_WINDOW_ACK.
Definition demo_final := record_phase4_final_release_check "user-1" SUPER_ADMIN "acct-real" (d10 45) confirmed
  PHASE4_FINAL_RELEASE_CHECK_ACK.

(** The worlds after the review, the window and the final check. *)
Definition reviewed_world : World := Eval vm_compute in (demo_review real_world).2.
Definition windowed_world : World := Eval vm_compute in (demo_window (set_now 1780000001000000 reviewed_world)).2.
Definition released_world : World := Eval vm_compute in (demo_final (set_now 1780000002000000 windowed_world)).2.

Lemma phase4_amounts_nest_witness :
  ∃ v1 v2 v3, demo_review real_world = (Ok v1, reviewed_world) ∧
    demo_window (set_now 1780000001000000 reviewed_world) = (Ok v2, windowed_world) ∧
    demo_final (set_now 1780000002000000 windowed_world) = (Ok v3, released_world) ∧
    fin_order_window_audit_log_id v3 = win_audit_log_id v2 ∧ dec_leb (d10 45) (d10 50) = true.
Proof.
  eexists _, _, _. split; [vm_compute; reflexivity|]. split; [vm_compute; reflexivity|].
  split; [vm_compute; reflexivity|].
  pose proof (phase4_amounts_nest "user-1" SUPER_ADMIN SUPER_ADMIN SUPER_ADMIN "acct-real" " btc-usdt" BUY (d10 2)
    (d10 20) (d10 80) (d10 50) (d10 45) 10 confirmed PHASE4_SMALL_FUND_REVIEW_ACK
    PHASE4_SMALL_FUND_ORDER_WINDOW_ACK PHASE4_FINAL_RELEASE_CHECK_ACK real_world reviewed_world windowed_world
    released_world 1780000001000000 1780000002000000) as Hf.
  edestruct Hf as (_ & _ & Ha & Hb & _); [reflexivity | exact real_rows_past | vm_compute; reflexivity
    | vm_compute; reflexivity | vm_compute; reflexivity | vm_compute; reflexivity | exact (conj Ha Hb)].
Defined.

Lemma final_check_backed_witness :
  ∃ v3, demo_final (set_now 1780000002000000 windowed_world) = (Ok v3, released_world) ∧ all_confirmed confirmed.
Proof.
  eexists. split; [vm_compute; reflexivity|].
  pose proof (final_check_backed "user-1" SUPER_ADMIN "acct-real" (d10 45) confirmed
    PHASE4_FINAL_RELEASE_CHECK_ACK) as Hf.
  specialize (λ v, Hf v (set_now 1780000002000000 windowed_world) released_world) as Hf'.
  edestruct Hf' as (_ & _ & _ & Hc & _); [reflexivity|vm_compute; reflexivity|exact Hc].
Defined.

Definition checked_world : World :=
  Eval vm_compute in (run_real_read_only_check (H2:=demo_okx) "user-1" "acct-real" unchecked_world).2.
Definition checked_review : Phase4SmallFundReview :=
  Build_Phase4SmallFundReview "uuid-1" "acct-real" OKX (d10 80) "uuid-0" false false.

Lemma review_names_check_witness :
  ∃ w2, run_real_read_only_check (H2:=demo_okx) "user-1" "acct-real" unchecked_world =
      (Ok (Build_ReadOnlyCheckResult "acct-real" OKX true 1), checked_world) ∧
    demo_review (set_now 1780000001000000 checked_world) = (Ok checked_review, w2) ∧
    ∃ row ev, db_audit (w_tx checked_world) = db_audit (w_tx unchecked_world) ++ [row] ∧
      aud_id row = rev_read_only_audit_log_id checked_review ∧ aud_severity row = "INFO" ∧
      okx_read "/api/v5/account/balance" (w_committed unchecked_world) ev ∧
      w_trace w2 = w_trace unchecked_world ++ [ev].
Proof.
  eexists. split; [vm_compute; reflexivity|]. split; [vm_compute; reflexivity|].
  refine (review_names_check (H2:=demo_okx) "user-1" SUPER_ADMIN "acct-real" (d10 80)
    PHASE4_SMALL_FUND_REVIEW_ACK unchecked_world (Build_ReadOnlyCheckResult "acct-real" OKX true 1) checked_world
    1780000001000000 checked_review _ eq_refl _ _ _).
  - intros l Hl. by apply elem_of_nil in Hl.
  - vm_compute. reflexivity.
  - vm_compute. reflexivity.
Defined.
