(* ===== verification/MarketData.v ===== *)
(** [services/public_market_data.py], [services/gexbot_market_data.py] and their
    endpoints in [api/v1/market_data.py]: public candles with a fallback to the other
    exchanges, and the data of a provider that takes a key of its own.  Both go out
    through the network of [HttpClient]. *)
From S2P Require Import Prelude PyStr PyDecimal PyValue Json Models Hash Session Tables Demo Logic Accounts Security Users TestnetGate HttpClient TestnetSubmit Adapters.
From Stdlib Require Import Ascii.

(** ** [float(value)] *)

(** Underscores may stand between two digits only. *)
Fixpoint float_underscores (prev_digit : bool) (s : string) : option string :=
  match s with
  | "" => Some ""
  | String c r =>
      if Ascii.eqb c "_" then
        match r with
        | String d _ => if prev_digit && is_digit d then float_underscores false r else None
        | "" => None
        end
      else String c <$> float_underscores (is_digit c) r
  end.

(** The text [float] accepts, stripped; [None] is the [ValueError]. *)
Definition float_text (s : string) : option string :=
  t ← float_underscores false (str_strip s);
  match decimal_of_str t with
  | Some (PFin _) | Some (PInf _) => Some t
  | Some (PNaN _ true) =>
      if endswith "nan" (str_lower t) then Some t else None
  | _ => None
  end.

(** An [int] that rounds to 2 ** 1024 or more does not fit. *)
Definition float_overflows (z : Z) : bool := (2 ^ 1024 - 2 ^ 970 <=? Z.abs z)%Z.

Definition float_of_value `{PyFloat} (v : pyval) : Outcome pyval :=
  match v with
  | VFloat r => Ok (VFloat r)
  | VInt z =>
      if float_overflows z then Raise (OverflowError "int too large to convert to float")
      else Ok (VFloat (float_of_literal (str_of_Z z)))
  | VBool b => Ok (VFloat (if b then "1.0" else "0.0"))
  | VStr s =>
      match float_text s with
      | Some t => Ok (VFloat (float_of_literal t))
      | None => Raise (ValueError "could not convert string to float")
      end
  | _ => Raise (TypeError "float() argument must be a string or a real number")
  end.

(** ** Public candles *)

Definition SUPPORTED_INTERVALS : list string := ["1m"; "5m"; "15m"; "1h"].

(** [None]: the exchange is not in the dictionary. *)
Definition PUBLIC_MARKET_BASE_URLS (e : ExchangeName) : option string :=
  match e with
  | OKX => Some "https://www.okx.com"
  | BINANCE => Some "https://api.binance.com"
  | BYBIT => Some "https://api.bybit.com"
  | MOCK => None
  end.
Definition PUBLIC_MARKET_FALLBACK_ORDER : list ExchangeName := [BINANCE; BYBIT; OKX].

(** The constructor's default failure type. *)
Definition invalid_market (m : string) : Exn := PublicMarketDataError m "invalid_response".

Record NormalizedCandle := {
  cdl_time : Z; cdl_open : pyval; cdl_high : pyval; cdl_low : pyval; cdl_close : pyval; cdl_volume : pyval }.

Definition candle_as_dict (c : NormalizedCandle) : dict :=
  [("time", VInt (cdl_time c)); ("open", cdl_open c); ("high", cdl_high c); ("low", cdl_low c);
   ("close", cdl_close c); ("volume", cdl_volume c)].

Record PublicCandleResult := {
  pcr_requested : ExchangeName; pcr_source : ExchangeName; pcr_candles : list dict }.
Definition fallback_used (r : PublicCandleResult) : bool := negb (bool_decide (pcr_requested r = pcr_source r)).

Definition _normalize_symbol (symbol : string) : Outcome string :=
  let normalized := str_strip (replace_char "-" "" (replace_char "/" "" (str_upper symbol))) in
  if String.eqb normalized "" || negb (str_forall is_alnum normalized) ||
     negb ((5 <=? String.length normalized)%nat && (String.length normalized <=? 24)%nat)
  then Raise (invalid_market "invalid trading symbol")
  else Ok normalized.

Definition QUOTES : list string := ["USDT"; "USDC"; "USD"; "BTC"; "ETH"].
Definition quoted_in (symbol quote : string) : bool :=
  endswith quote symbol && (String.length quote <? String.length symbol)%nat.
Definition _hyphen_symbol (symbol : string) : Outcome string :=
  match find_first (quoted_in symbol) QUOTES with
  | Some quote => Ok (str_take (String.length symbol - String.length quote) symbol +:+ "-" +:+ quote)
  | None => Raise (invalid_market "unsupported quote currency")
  end.

(** The dictionary has every supported interval. *)
Definition _bybit_interval (interval : string) : Outcome string :=
  match dict_lookup interval [("1m", "1"); ("5m", "5"); ("15m", "15"); ("1h", "60")] with
  | Some i => Ok i
  | None => Raise (KeyError interval)
  end.

Section candles.
Context `{PyFloat}.

(** [row[i]] of a row that is long enough. *)
Definition cell (row : list pyval) (i : nat) : pyval := nth i row VNone.

(** The callers never ask for seconds. *)
Definition _to_candle (row : list pyval) : Outcome NormalizedCandle :=
  outcome_bind (int_of_value (cell row 0)) (λ timestamp,
  outcome_bind (float_of_value (cell row 1)) (λ op,
  outcome_bind (float_of_value (cell row 2)) (λ hi,
  outcome_bind (float_of_value (cell row 3)) (λ lo,
  outcome_bind (float_of_value (cell row 4)) (λ cl,
  outcome_bind (float_of_value (cell row 5)) (λ vo,
    Ok (Build_NormalizedCandle (timestamp / 1000) op hi lo cl vo))))))).

Fixpoint convert_rows (rows : list (list pyval)) : Outcome (list NormalizedCandle) :=
  match rows with
  | [] => Ok []
  | row :: rows' =>
      outcome_bind (_to_candle row) (λ c, outcome_bind (convert_rows rows') (λ cs, Ok (c :: cs)))
  end.

(** [row for row in rows if isinstance(row, list) and len(row) >= 6] *)
Fixpoint usable_rows (rows : list pyval) : list (list pyval) :=
  match rows with
  | [] => []
  | VList row :: rows' => if (6 <=? length row)%nat then row :: usable_rows rows' else usable_rows rows'
  | _ :: rows' => usable_rows rows'
  end.

Definition _parse_okx (payload : pyval) : Outcome (list NormalizedCandle) :=
  outcome_bind (py_get "code" payload) (λ code,
    if negb (py_eq_str code "0") then Raise (invalid_market "invalid OKX candle response")
    else
      outcome_bind (py_get "data" payload) (λ data,
        match data with
        | VList rows => convert_rows (usable_rows (rev rows))
        | _ => Raise (invalid_market "invalid OKX candle response")
        end)).

Definition _parse_binance (payload : pyval) : Outcome (list NormalizedCandle) :=
  match payload with
  | VList rows => convert_rows (usable_rows rows)
  | _ => Raise (invalid_market "invalid Binance candle response")
  end.

Definition _parse_bybit (payload : pyval) : Outcome (list NormalizedCandle) :=
  outcome_bind (py_get "result" payload) (λ result,
  outcome_bind (match result with VDict l => Ok (dict_get "list" l) | _ => Ok VNone end) (λ rows,
  outcome_bind (py_get "retCode" payload) (λ code,
    if negb (py_eq_int code 0) then Raise (invalid_market "invalid Bybit candle response")
    else match rows with
         | VList rows => convert_rows (usable_rows (rev rows))
         | _ => Raise (invalid_market "invalid Bybit candle response")
         end))).

(** The request of a candidate exchange and the parser of its answer. *)
Definition candle_path (e : ExchangeName) : string :=
  match e with
  | OKX => "/api/v5/market/candles"
  | BINANCE => "/api/v3/klines"
  | _ => "/v5/market/kline"
  end.
Definition candle_params (e : ExchangeName) (symbol interval : string) (limit : Z) :
    Outcome (list (string * string)) :=
  match e with
  | OKX =>
      outcome_bind (_hyphen_symbol symbol) (λ inst,
        Ok [("instId", inst); ("bar", interval); ("limit", str_of_Z limit)])
  | BINANCE => Ok [("symbol", symbol); ("interval", interval); ("limit", str_of_Z limit)]
  | _ =>
      outcome_bind (_bybit_interval interval) (λ i,
        Ok [("category", "spot"); ("symbol", symbol); ("interval", i); ("limit", str_of_Z limit)])
  end.
Definition parse_candles (e : ExchangeName) : pyval → Outcome (list NormalizedCandle) :=
  match e with OKX => _parse_okx | BINANCE => _parse_binance | _ => _parse_bybit end.
End candles.

Section market_data.
Context `{PyFloat} `{X : Exchange}.

Definition get_public_candles (e : ExchangeName) (symbol interval : string) (limit : Z) : M (list dict) :=
  match PUBLIC_MARKET_BASE_URLS e with
  | None => raise (invalid_market "public candles are not available for this exchange")
  | Some url =>
      if negb (bool_decide (interval ∈ SUPPORTED_INTERVALS)) then raise (invalid_market "unsupported candle interval")
      else if negb ((20 <=? limit)%Z && (limit <=? 300)%Z)
      then raise (invalid_market "candle limit must be between 20 and 300")
      else
        normalized_symbol ← lift (_normalize_symbol symbol);
        candles ← try_except
          (params ← lift (candle_params e normalized_symbol interval limit);
           payload ← get_public (make_client e url) (candle_path e) params;
           lift (parse_candles e payload))
          (λ exn, match exn with
                  | ExchangeHttpRequestError failure_type _ _ =>
                      Some (raise (PublicMarketDataError "exchange market-data request failed" failure_type))
                  | _ => None
                  end);
        match candles with
        | [] => raise (invalid_market "exchange returned no candle data")
        | _ => mret (map candle_as_dict candles)
        end
  end.

(** The loop over the candidates; [last_error] is the failure type seen last. *)
Fixpoint try_candidates (requested : ExchangeName) (symbol interval : string) (limit : Z)
    (last_error : option string) (candidates : list ExchangeName) : M PublicCandleResult :=
  match candidates with
  | [] =>
      raise (PublicMarketDataError "all exchange market-data sources failed" (default "transport_error" last_error))
  | candidate :: candidates' =>
      attempt ← try_except
        (candles ← get_public_candles candidate symbol interval limit; mret (inl candles))
        (λ exn, match exn with
                | PublicMarketDataError _ failure_type =>
                    if String.eqb failure_type "invalid_response" then None else Some (mret (inr failure_type))
                | _ => None
                end);
      match attempt with
      | inl candles => mret (Build_PublicCandleResult requested candidate candles)
      | inr failure_type => try_candidates requested symbol interval limit (Some failure_type) candidates'
      end
  end.

Definition candidates_of (e : ExchangeName) : list ExchangeName :=
  e :: List.filter (λ c, negb (bool_decide (c = e))) PUBLIC_MARKET_FALLBACK_ORDER.

Definition get_public_candles_with_fallback (e : ExchangeName) (symbol interval : string) (limit : Z) :
    M PublicCandleResult :=
  try_candidates e symbol interval limit None (candidates_of e).

(** The endpoint. *)
Definition get_exchange_candles (e : ExchangeName) (symbol interval : string) (limit : Z) (allow_fallback : bool) :
    M dict :=
  result ← try_except
    (if allow_fallback then get_public_candles_with_fallback e symbol interval limit
     else candles ← get_public_candles e symbol interval limit; mret (Build_PublicCandleResult e e candles))
    (λ exn, match exn with
            | PublicMarketDataError m failure_type =>
                Some (raise (HTTPException (if String.eqb failure_type "invalid_response" then 422 else 502)
                               (VDict [("reason", VStr m); ("failure_type", VStr failure_type)]) []))
            | _ => None
            end);
  mret [("exchange", VStr (exchange_value e)); ("source_exchange", VStr (exchange_value (pcr_source result)));
        ("fallback_used", VBool (fallback_used result)); ("symbol", VStr (str_upper symbol));
        ("interval", VStr interval); ("candles", VList (map VDict (pcr_candles result)))].
End market_data.

(** ** GEXBot *)

Class GexbotSettings := { gexbot_api_base_url : string; gexbot_api_key : string }.

(** The client: its address without trailing slashes, its key without white space. *)
Record GexbotMarketDataClient := { gex_base_url : string; gex_api_key : string }.
Definition make_gexbot_client (base_url api_key : string) : GexbotMarketDataClient :=
  {| gex_base_url := rstrip_slash base_url; gex_api_key := str_strip api_key |}.

Definition one_of (cs : string) (c : ascii) : bool := existsb (Ascii.eqb c) (String.list_ascii_of_string cs).

(** [_TICKER_RE] and [_CATEGORY_RE], matched in full. *)
Definition matches (p : ascii → bool) (longest : nat) (s : string) : bool :=
  str_forall p s && (1 <=? String.length s)%nat && (String.length s <=? longest)%nat.
Definition _TICKER_RE : string → bool := matches (λ c, is_upper c || is_digit c || one_of "._-" c) 24.
Definition _CATEGORY_RE : string → bool := matches (λ c, is_lower c || is_digit c || one_of "_" c) 64.
Definition _SUPPORTED_PACKAGES : list string := ["classic"; "state"].

Definition checked (accepts : string → bool) (m s : string) : Outcome string :=
  if accepts s then Ok s else Raise (GexbotValidationError m).
Definition _validate_ticker (value : string) : Outcome string :=
  checked _TICKER_RE "invalid GEXBot ticker" (str_upper (str_strip value)).
Definition _validate_category (value : string) : Outcome string :=
  checked _CATEGORY_RE "invalid GEXBot category" (str_lower (str_strip value)).
Definition _validate_package (value : string) : Outcome string :=
  checked (λ s, bool_decide (s ∈ _SUPPORTED_PACKAGES)) "invalid GEXBot package" (str_lower (str_strip value)).

Definition _authorization_header (api_key : string) : Outcome string :=
  let key := str_strip api_key in
  if String.eqb key "" then Raise (GexbotConfigurationError "GEXBot API key is not configured")
  else if startswith "bearer " (str_lower key) then Ok key
  else if startswith "gexbot_custom_" key then Ok ("Bearer " +:+ key)
  else Ok ("Bearer gexbot_custom_" +:+ key).

Definition gexbot_failure_type (status_code : Z) : string :=
  if Z.eqb status_code 401 || Z.eqb status_code 403 then "authentication_failed"
  else if Z.eqb status_code 429 then "rate_limited"
  else if (500 <=? status_code)%Z then "provider_unavailable"
  else "request_rejected".

(** [urllib.parse.quote]: as [quote_plus], but a space is escaped and a slash is not. *)
Fixpoint quote (s : string) : string :=
  match s with
  | "" => ""
  | String c r =>
      (if Ascii.eqb c " " then "%20" else if Ascii.eqb c "/" then "/" else quote_char c) +:+ quote r
  end.

Section gexbot.
Context `{X : Exchange} `{GexbotSettings}.

(** [UrllibGexbotTransport.request] *)
Definition gexbot_request (req : PreparedExchangeRequest) : M pyval :=
  reply ← gets (λ w, exchange_reply (w_trace w) req);
  committed ← gets w_committed;
  emit (EvHttp committed req) ;;
  match reply with
  | HttpOk (Some v) => mret v
  | HttpOk None => raise (ValueError "Expecting value")
  | HttpEmpty => mret (VDict [])
  | HttpStatus code _ => raise (GexbotMarketDataError (gexbot_failure_type code) (Some code))
  | HttpTransportError => raise (GexbotMarketDataError "transport_error" None)
  end.

Definition gexbot_headers (c : GexbotMarketDataClient) (auth_required : bool) : Outcome (list (string * string)) :=
  let headers := [("Accept", "application/json"); ("User-Agent", "crypto-copy-trading-platform/0.1")] in
  if auth_required
  then outcome_bind (_authorization_header (gex_api_key c)) (λ a, Ok (headers ++ [("Authorization", a)]))
  else Ok headers.

Definition gexbot_get (c : GexbotMarketDataClient) (path : string) (auth_required : bool) : M pyval :=
  headers ← lift (gexbot_headers c auth_required);
  gexbot_request (Build_PreparedExchangeRequest "GET" (gex_base_url c +:+ path) path [] headers None).

Definition list_tickers (c : GexbotMarketDataClient) : M pyval := gexbot_get c "/tickers" false.

Definition get_package_category (c : GexbotMarketDataClient) (ticker package category : string) : M pyval :=
  validated_ticker ← lift (_validate_ticker ticker);
  validated_package ← lift (_validate_package package);
  validated_category ← lift (_validate_category category);
  gexbot_get c ("/" +:+ quote validated_ticker +:+ "/" +:+ validated_package +:+ "/" +:+ quote validated_category) true.

Definition get_orderflow (c : GexbotMarketDataClient) (ticker : string) : M pyval :=
  validated_ticker ← lift (_validate_ticker ticker);
  gexbot_get c ("/" +:+ quote validated_ticker +:+ "/orderflow/orderflow") true.

(** The endpoints. *)
Definition gexbot_client : GexbotMarketDataClient := make_gexbot_client gexbot_api_base_url gexbot_api_key.

Definition _provider_payload (endpoint : string) (authenticated : bool) (data : pyval) : dict :=
  [("provider", VStr "gexbot"); ("endpoint", VStr endpoint); ("authenticated", VBool authenticated); ("data", data)].

Definition gexbot_errors {A} (exn : Exn) : option (M A) :=
  match exn with
  | GexbotMarketDataError failure_type status_code =>
      Some (raise (HTTPException 502 (VDict [("failure_type", VStr failure_type);
                     ("provider_status_code", opt_val VInt status_code)]) []))
  | _ => None
  end.
Definition gexbot_key_errors {A} (exn : Exn) : option (M A) :=
  match exn with
  | GexbotConfigurationError _ => Some (raise (HTTPException 503 (VStr "GEXBot API key is not configured") []))
  | GexbotValidationError m => Some (raise (HTTPException 422 (VStr m) []))
  | _ => gexbot_errors exn
  end.

Definition list_market_data_providers : M dict :=
  mret [("providers", VList [VDict
    [("id", VStr "gexbot"); ("name", VStr "GEXBot"); ("base_url", VStr gexbot_api_base_url);
     ("configured", VBool (negb (String.eqb (str_strip gexbot_api_key) ""))); ("auth_required", VBool true);
     ("read_only", VBool true); ("supports", VList (map VStr ["tickers"; "classic"; "state"; "orderflow"]))]])].

Definition list_gexbot_tickers : M dict :=
  payload ← try_except (list_tickers gexbot_client) gexbot_errors;
  mret (_provider_payload "tickers" false payload).

Definition get_gexbot_package_category (package_name ticker category : string) : M dict :=
  payload ← try_except (get_package_category gexbot_client ticker package_name category) gexbot_key_errors;
  mret (_provider_payload (str_lower package_name +:+ "/" +:+ str_upper ticker +:+ "/" +:+ str_lower category) true payload).

Definition get_gexbot_orderflow (ticker : string) : M dict :=
  payload ← try_except (get_orderflow gexbot_client ticker) gexbot_key_errors;
  mret (_provider_payload ("orderflow/" +:+ str_upper ticker) true payload).
End gexbot.

Example parse_demo `{PyFloat} :
  _parse_okx (VDict [("code", VStr "0"); ("data", VList
    [VList (map VStr ["2000"; "2"; "3"; "1"; "2.5"; "8"]); VList (map VStr ["1000"; "1"; "2"; "0.5"; "1.5"; "5"])])]) =
  let f s := VFloat (float_of_literal s) in
  Ok [Build_NormalizedCandle 1 (f "1") (f "2") (f "0.5") (f "1.5") (f "5");
      Build_NormalizedCandle 2 (f "2") (f "3") (f "1") (f "2.5") (f "8")].
Proof. reflexivity. Qed.

Example symbols_demo :
  _normalize_symbol "btc/usdt" = Ok "BTCUSDT" ∧
  _normalize_symbol "../BTC-USDT" = Raise (invalid_market "invalid trading symbol") ∧
  _hyphen_symbol "BTCUSDT" = Ok "BTC-USDT" ∧
  map float_text [" 1_0.5e3 "; "1__0"; "_1"; "nan"; "nan1"; "-Infinity"; "1e"; "sNaN"] =
    [Some "10.5e3"; None; None; Some "nan"; None; Some "-Infinity"; None; None].
Proof. repeat split; reflexivity. Qed.

(** ** What a request for candles does *)

(** The request that goes to a candidate: no credentials, no body. *)
Definition public_get (e : ExchangeName) (req : PreparedExchangeRequest) : Prop :=
  req_method req = "GET" ∧ req_headers req = [] ∧ req_body req = None ∧
  ∃ url, PUBLIC_MARKET_BASE_URLS e = Some url ∧ req_url req = url +:+ candle_path e.

Definition market_invalid (x : Exn) : Prop := ∃ m, x = invalid_market m.

(** The candles an answer holds. *)
Definition answered_candles `{PyFloat} (e : ExchangeName) (reply : HttpReply) (candles : list dict) : Prop :=
  ∃ v c cs, reply = HttpOk (Some v) ∧ parse_candles e v = Ok (c :: cs) ∧ candles = map candle_as_dict (c :: cs).

(** The failure that makes the service turn to the next exchange. *)
Definition failed_reply (reply : HttpReply) (failure_type : string) : Prop :=
  (∃ code body, reply = HttpStatus code body ∧ failure_type = _http_failure_type code) ∨
  (reply = HttpTransportError ∧ failure_type = "transport_error").

Definition served (reply : HttpReply) : Prop := ∀ failure_type, ¬ failed_reply reply failure_type.

Section runs.
Context `{PyFloat} `{X : Exchange}.

Lemma served_ok v : served (HttpOk v).
Proof. intros ft [(? & ? & ? & _)|[? _]]; done. Qed.
Lemma served_empty : served HttpEmpty.
Proof. intros ft [(? & ? & ? & _)|[? _]]; done. Qed.

Lemma transport_run req w :
  transport_request req w =
    (match exchange_reply (w_trace w) req with
     | HttpOk (Some v) => Ok v
     | HttpOk None => Raise (ValueError "Expecting value")
     | HttpEmpty => Ok (VDict [])
     | HttpStatus code body =>
         Raise (ExchangeHttpRequestError (_http_failure_type code) (Some code) (_read_exchange_error_code body))
     | HttpTransportError => Raise (ExchangeHttpRequestError "transport_error" None None)
     end, with_events [EvHttp (w_committed w) req] w).
Proof. unfold transport_request. rewrite run_bind. cbn. by repeat case_match. Qed.

Lemma parse_empty e : ∃ m, parse_candles e (VDict []) = Raise (invalid_market m).
Proof. destruct e; eexists; reflexivity. Qed.

(** What may go wrong with an answer that is JSON. *)
Definition answer_error (x : Exn) : Prop :=
  market_invalid x ∨ match x with ValueError _ | TypeError _ | OverflowError _ | AttributeError _ => True | _ => False end.
Definition answer_errors {A} (o : Outcome A) : Prop := ∀ x, o = Raise x → answer_error x.

Lemma errors_ok {A} (a : A) : answer_errors (Ok a).
Proof. by intros x. Qed.
Lemma errors_bind {A B} (o : Outcome A) (f : A → Outcome B) :
  answer_errors o → (∀ a, answer_errors (f a)) → answer_errors (outcome_bind o f).
Proof. intros Ho Hf x. destruct o as [a|y]; cbn; [apply Hf|]. intros [= ->]. by apply Ho. Qed.
Lemma errors_invalid {A} m : answer_errors (Raise (A:=A) (invalid_market m)).
Proof. intros x [= <-]. left. by eexists. Qed.
Lemma errors_get k v : answer_errors (py_get k v).
Proof. destruct v; intros x; cbn; intros [= <-]; by right. Qed.
Lemma errors_float v : answer_errors (float_of_value v).
Proof. intros x. unfold float_of_value. repeat case_match; intros [= <-]; by right. Qed.
Lemma errors_int v : answer_errors (int_of_value v).
Proof. intros x. unfold int_of_value. repeat case_match; intros [= <-]; by right. Qed.

Lemma errors_rows rows : answer_errors (convert_rows rows).
Proof.
  induction rows as [|row rows IH]; cbn; [apply errors_ok|]. unfold _to_candle.
  repeat (apply errors_bind; [first [apply errors_int|apply errors_float|apply IH|idtac]|intros ?]); apply errors_ok.
Qed.

Lemma errors_parse e v : answer_errors (parse_candles e v).
Proof.
  assert (answer_errors (_parse_okx v)) by
    (apply errors_bind; [apply errors_get|]; intros c; destruct (negb _); [apply errors_invalid|];
     apply errors_bind; [apply errors_get|]; intros []; first [apply errors_invalid|apply errors_rows]).
  assert (answer_errors (_parse_bybit v)) by
    (apply errors_bind; [apply errors_get|]; intros r; apply errors_bind; [destruct r; apply errors_ok|]; intros rows;
     apply errors_bind; [apply errors_get|]; intros c; destruct (negb _); [apply errors_invalid|];
     destruct rows; first [apply errors_invalid|apply errors_rows]).
  destruct e; try done. destruct v; cbn; first [apply errors_invalid|apply errors_rows].
Qed.

Lemma candle_params_cases e symbol interval limit :
  interval ∈ SUPPORTED_INTERVALS →
  (∃ params, candle_params e symbol interval limit = Ok params) ∨
  ∃ x, candle_params e symbol interval limit = Raise x ∧ market_invalid x.
Proof.
  intros Hi. unfold candle_params, _hyphen_symbol, SUPPORTED_INTERVALS in *. rewrite !elem_of_cons, elem_of_nil in Hi.
  destruct e; [left; by eexists|destruct (find_first _ QUOTES); [left; by eexists|right; by repeat eexists]| |];
    destruct Hi as [->|[->|[->|[->|[]]]]]; left; by eexists.
Qed.

Lemma normalize_cases symbol :
  (∃ n, _normalize_symbol symbol = Ok n) ∨ ∃ x, _normalize_symbol symbol = Raise x ∧ market_invalid x.
Proof. unfold _normalize_symbol. cbv zeta. case_match; [right; by repeat eexists|left; by eexists]. Qed.

(** One exchange: nothing is sent for a malformed request; else one request is, and the
    outcome is told by the answer. *)
Lemma get_public_candles_run e symbol interval limit w :
  (∃ x, get_public_candles e symbol interval limit w = (Raise x, w) ∧ market_invalid x) ∨
  ∃ req o, public_get e req ∧
    get_public_candles e symbol interval limit w = (o, with_events [EvHttp (w_committed w) req] w) ∧
    let reply := exchange_reply (w_trace w) req in
    match o with
    | Ok candles => answered_candles e reply candles
    | Raise (PublicMarketDataError _ failure_type) =>
        (failure_type = "invalid_response" ∧ served reply) ∨ failed_reply reply failure_type
    | Raise _ => served reply
    end.
Proof.
  destruct (get_public_candles e symbol interval limit w) as [o w'] eqn:E. unfold get_public_candles in E.
  destruct (PUBLIC_MARKET_BASE_URLS e) as [url|] eqn:Hurl; [|injection E as <- <-; left; by repeat eexists].
  destruct (bool_decide_reflect (interval ∈ SUPPORTED_INTERVALS)) as [Hi|]; cbn [negb] in E;
    [|injection E as <- <-; left; by repeat eexists].
  destruct (negb _) in E; [injection E as <- <-; left; by repeat eexists|]. rewrite run_bind in E.
  destruct (normalize_cases symbol) as [[n Hn]|(x & Hn & Hx)]; rewrite Hn in E; cbn [lift] in E;
    [|injection E as <- <-; left; by exists x].
  rewrite run_bind in E. unfold try_except at 1 in E. rewrite run_bind in E.
  destruct (candle_params_cases e n interval limit Hi) as [[params Hp]|(x & Hp & m & ->)]; rewrite Hp in E;
    cbn [lift] in E; [|injection E as <- <-; left; by repeat eexists].
  rewrite run_bind in E. unfold get_public in E. rewrite transport_run in E.
  set (req := prepare_public_request _ _ _) in E. right. exists req, o.
  assert (public_get e req) as Hreq.
  { split; [done|]. split; [done|]. split; [done|]. exists url. split; [done|]. by destruct e; simplify_eq/=. }
  split; [done|]. cbv zeta.
  destruct (exchange_reply (w_trace w) req) as [[v|]| |code body|] eqn:Er; cbn [lift] in E.
  - pose proof (served_ok (Some v)) as Hs. destruct (parse_candles e v) as [[|c cs]|x] eqn:Ep; cbn [lift] in E.
    + injection E as <- <-. split; [done|]. by left.
    + injection E as <- <-. split; [done|]. by exists v, c, cs.
    + assert ((o, w') = (Raise x, with_events [EvHttp (w_committed w) req] w)) as [= -> ->] .
      { rewrite <- E. apply errors_parse in Ep as [[m ->]|Hx]; [done|]. by destruct x. }
      split; [done|]. apply errors_parse in Ep as [[m ->]|Hx]; [by left|]. by destruct x.
  - injection E as <- <-. split; [done|]. apply served_ok.
  - destruct (parse_empty e) as [m Hm]. rewrite Hm in E. injection E as <- <-. split; [done|].
    left. split; [done|apply served_empty].
  - injection E as <- <-. split; [done|]. right. left. by exists code, body.
  - injection E as <- <-. split; [done|]. right. by right.
Qed.

(** A row of exchanges that were asked in vain, one request each. *)
Inductive failed_attempts : World → list ExchangeName → World → Prop :=
| no_attempt w : failed_attempts w [] w
| one_attempt w c cs req failure_type w' :
    public_get c req → failed_reply (exchange_reply (w_trace w) req) failure_type →
    failed_attempts (with_events [EvHttp (w_committed w) req] w) cs w' → failed_attempts w (c :: cs) w'.

(** How the loop ends: at an exchange that answers, at a request nobody is asked to
    answer or an answer that makes no sense, or with nobody left to ask. *)
Definition candles_end (requested : ExchangeName) (rest : list ExchangeName) (w1 : World)
    (o : Outcome PublicCandleResult) (w' : World) : Prop :=
  match o with
  | Ok r =>
      ∃ rest' req, rest = pcr_source r :: rest' ∧ pcr_requested r = requested ∧ public_get (pcr_source r) req ∧
        w' = with_events [EvHttp (w_committed w1) req] w1 ∧
        answered_candles (pcr_source r) (exchange_reply (w_trace w1) req) (pcr_candles r)
  | Raise x =>
      (rest = [] ∧ w' = w1 ∧ ∃ failure_type,
         x = PublicMarketDataError "all exchange market-data sources failed" failure_type) ∨
      ∃ asked rest', rest = asked :: rest' ∧
        ((w' = w1 ∧ market_invalid x) ∨
         ∃ req, public_get asked req ∧ w' = with_events [EvHttp (w_committed w1) req] w1 ∧
           served (exchange_reply (w_trace w1) req))
  end.

Lemma failed_reply_valid reply ft : failed_reply reply ft → String.eqb ft "invalid_response" = false.
Proof.
  intros [(c & b & _ & ->)|[_ ->]]; [|done]. unfold _http_failure_type. by repeat case_match.
Qed.

(** What makes the loop stop is no failure of the transport. *)
Lemma stops_for requested symbol interval limit last c cs w m :
  get_public_candles c symbol interval limit w = m →
  try_candidates requested symbol interval limit last (c :: cs) w =
    match m with
    | (Ok candles, w1) => (Ok (Build_PublicCandleResult requested c candles), w1)
    | (Raise (PublicMarketDataError t ft), w1) =>
        if String.eqb ft "invalid_response" then (Raise (PublicMarketDataError t ft), w1)
        else try_candidates requested symbol interval limit (Some ft) cs w1
    | (Raise x, w1) => (Raise x, w1)
    end.
Proof.
  intros <-. cbn [try_candidates]. rewrite run_bind. unfold try_except. rewrite run_bind.
  destruct (get_public_candles c symbol interval limit w) as [[candles|x] w1]; [done|].
  destruct x; try done. by destruct (String.eqb _ _).
Qed.

Lemma try_candidates_run requested symbol interval limit cands last w o w' :
  try_candidates requested symbol interval limit last cands w = (o, w') →
  ∃ failed rest w1, cands = failed ++ rest ∧ failed_attempts w failed w1 ∧ candles_end requested rest w1 o w'.
Proof.
  revert last w. induction cands as [|c cands IH]; intros last w E.
  { injection E as <- <-. exists [], [], w. split; [done|]. split; [constructor|]. left. by repeat eexists. }
  destruct (get_public_candles_run c symbol interval limit w) as [(x & Hx & m & ->)|(req & o' & Hreq & Hrun & Ho)].
  - rewrite (stops_for _ _ _ _ _ _ _ _ _ Hx) in E. injection E as <- <-. exists [], (c :: cands), w.
    split; [done|]. split; [constructor|]. right. exists c, cands. split; [done|]. left. split; [done|]. by exists m.
  - rewrite (stops_for _ _ _ _ _ _ _ _ _ Hrun) in E. cbv zeta in Ho.
    assert (∀ x v, served (exchange_reply (w_trace w) req) → (Raise x, with_events [EvHttp (w_committed w) req] w) = (o, v) →
      ∃ failed rest w1, c :: cands = failed ++ rest ∧ failed_attempts w failed w1 ∧ candles_end requested rest w1 o v)
      as Hstop.
    { intros x v Hs [= <- <-]. exists [], (c :: cands), w. split; [done|]. split; [constructor|]. right.
      exists c, cands. split; [done|]. right. by exists req. }
    destruct o' as [candles|x].
    + injection E as <- <-. exists [], (c :: cands), w. split; [done|]. split; [constructor|]. exists cands, req.
      by do 4 (split; [done|]).
    + destruct x; try by eapply Hstop. destruct (String.eqb failure_type "invalid_response") eqn:Eft.
      * destruct Ho as [[_ Hs]|Hf]; [by eapply Hstop|]. apply failed_reply_valid in Hf. congruence.
      * destruct Ho as [[-> _]|Hf]; [done|]. apply IH in E as (failed & rest & w1 & -> & Hatt & Hend).
        exists (c :: failed), rest, w1. split; [done|]. split; [by econstructor|done].
Qed.

(** A request for candles asks the exchanges one after the other, the named one first
    and each at most once, with an unauthenticated GET to its public host; it goes on only
    after a failure of the network or an error status, and it answers with the candles the
    last exchange asked has sent.  Nothing is stored, whatever happens. *)
Theorem candles_fallback e symbol interval limit w o w' :
  get_public_candles_with_fallback e symbol interval limit w = (o, w') →
  ∃ failed rest w1, candidates_of e = failed ++ rest ∧ failed_attempts w failed w1 ∧ candles_end e rest w1 o w'.
Proof. apply try_candidates_run. Qed.
End runs.

(** ** The texts that become part of a request *)

Lemma quote_plain s : str_forall (λ c, is_alnum c || one_of "._-" c) s = true → quote s = s.
Proof.
  induction s as [|c s IH]; cbn [str_forall quote]; [done|]. intros [Hc Hs]%andb_true_iff. rewrite (IH Hs).
  assert (Ascii.eqb c " " = false ∧ Ascii.eqb c "/" = false ∧ quote_char c = String c "") as (-> & -> & ->); [|done].
  revert Hc. destruct c as [[] [] [] [] [] [] [] []]; vm_compute; done.
Qed.

(** What a normalized symbol is made of. *)
Definition symbol_char (c : ascii) : bool := is_upper c || is_digit c.

Lemma str_forall_map_upper s : str_forall (λ c, negb (is_lower c)) (str_upper s) = true.
Proof.
  induction s as [|c s IH]; [done|]. cbn [str_upper str_map str_forall]. apply andb_true_iff. split; [|exact IH].
  destruct c as [[] [] [] [] [] [] [] []]; vm_compute; done.
Qed.

Lemma str_forall_remove p old s : str_forall p s = true → str_forall p (replace_char old "" s) = true.
Proof.
  induction s as [|c s IH]; [done|]. cbn [str_forall replace_char]. intros [Hc Hs]%andb_true_iff.
  destruct (Ascii.eqb c old); [by rewrite app_str_nil_l; apply IH|].
  rewrite app_str_cons, app_str_nil_l. cbn. by rewrite Hc, IH.
Qed.

Lemma str_forall_strip p s : str_forall p s = true → str_forall p (str_strip s) = true.
Proof.
  assert (∀ t, str_forall p t = true → str_forall p (rstrip t) = true) as Hr.
  { induction t as [|c t IH]; [done|]. cbn [str_forall rstrip]. intros [Hc Ht]%andb_true_iff. specialize (IH Ht).
    destruct (rstrip t) as [|d r]; [by destruct (is_space c); cbn; rewrite ?Hc|].
    change (p c && str_forall p (String d r) = true). by rewrite Hc. }
  intros Hs. unfold str_strip. apply Hr. induction s as [|c s IH]; [done|]. cbn [lstrip].
  destruct (is_space c); [|done]. apply IH. cbn in Hs. by apply andb_true_iff in Hs as [_ ?].
Qed.

Lemma str_forall_and p q s : str_forall p s = true → str_forall q s = true → str_forall (λ c, p c && q c) s = true.
Proof.
  induction s as [|c s IH]; [done|]. cbn. rewrite !andb_true_iff. intros [? ?] [? ?]. auto.
Qed.

Lemma normalized_symbol s n :
  _normalize_symbol s = Ok n → str_forall symbol_char n = true ∧ (5 ≤ String.length n ≤ 24)%nat.
Proof.
  unfold _normalize_symbol. cbv zeta. set (t := str_strip _). intros E.
  assert (str_forall (λ c, negb (is_lower c)) t = true) as Hl.
  { apply str_forall_strip, str_forall_remove, str_forall_remove, str_forall_map_upper. }
  destruct (_ || _ || _) eqn:Ec; [done|]. injection E as ->. rewrite !orb_false_iff, !negb_false_iff in Ec.
  destruct Ec as [[_ Ha] [Hlo Hhi]%andb_true_iff]. apply Nat.leb_le in Hlo, Hhi. split; [|lia].
  eapply str_forall_impl; [|exact (str_forall_and _ _ _ Ha Hl)]. intros c. unfold is_alnum, symbol_char.
  by destruct (is_upper c), (is_lower c), (is_digit c).
Qed.

Lemma upper_symbol s : str_forall symbol_char s = true → str_upper s = s.
Proof.
  induction s as [|c s IH]; [done|]. cbn [str_forall]. intros [Hc Hs]%andb_true_iff.
  change (str_upper (String c s)) with (String (ascii_upper c) (str_upper s)). rewrite (IH Hs). f_equal.
  unfold ascii_upper. revert Hc. destruct c as [[] [] [] [] [] [] [] []]; vm_compute; done.
Qed.

Lemma symbol_char_not s c :
  symbol_char c = false → str_forall symbol_char s = true → str_forall (λ x, negb (Ascii.eqb x c)) s = true.
Proof.
  intros Hc. apply str_forall_impl. intros x Hx. apply negb_true_iff, Ascii.eqb_neq. intros ->. congruence.
Qed.

Lemma replace_char_app old new s t : replace_char old new (s +:+ t) = replace_char old new s +:+ replace_char old new t.
Proof.
  induction s as [|c s IH]; [done|]. rewrite app_str_cons. cbn [replace_char]. rewrite IH.
  by rewrite app_str_assoc.
Qed.

Lemma str_upper_app s t : str_upper (s +:+ t) = str_upper s +:+ str_upper t.
Proof.
  induction s as [|c s IH]; [done|]. rewrite app_str_cons.
  change (String (ascii_upper c) (str_upper (s +:+ t)) = String (ascii_upper c) (str_upper s) +:+ str_upper t).
  by rewrite IH.
Qed.

Lemma alnum_symbol s : str_forall symbol_char s = true → str_forall is_alnum s = true.
Proof. apply str_forall_impl. intros c. unfold symbol_char, is_alnum. by destruct (is_upper c), (is_lower c), (is_digit c). Qed.

(** A symbol in normal form, as it is or with one hyphen. *)
Lemma normalize_normal h n :
  str_upper h = h → replace_char "/" "" h = h → replace_char "-" "" h = n →
  str_forall symbol_char n = true → (5 ≤ String.length n ≤ 24)%nat → _normalize_symbol h = Ok n.
Proof.
  intros Hu Hs Hh Hn [Hlo Hhi]. unfold _normalize_symbol. cbv zeta. rewrite Hu, Hs, Hh, str_strip_id.
  - rewrite (alnum_symbol n Hn). apply Nat.leb_le in Hhi. pose proof Hlo as Hlo'. apply Nat.leb_le in Hlo'.
    rewrite Hlo', Hhi. destruct n as [|c n]; [cbn in Hlo; lia|done].
  - revert Hn. apply str_forall_impl. intros c. destruct c as [[] [] [] [] [] [] [] []]; vm_compute; done.
Qed.

(** A symbol that is accepted has five to twenty-four capital letters and digits and
    nothing else; it is a normal form, and so is its hyphenated form for OKX, which
    stands for the same symbol: every exchange is asked for the market that was named. *)
Theorem symbol_normal_form s n :
  _normalize_symbol s = Ok n →
  str_forall symbol_char n = true ∧ (5 ≤ String.length n ≤ 24)%nat ∧ _normalize_symbol n = Ok n ∧
  ∀ h, _hyphen_symbol n = Ok h → _normalize_symbol h = Ok n.
Proof.
  intros E. apply normalized_symbol in E as [Hn Hl]. split; [done|]. split; [done|].
  assert (replace_char "/" "" n = n ∧ replace_char "-" "" n = n) as [Hslash Hhyphen].
  { split; apply replace_char_id, symbol_char_not; done. }
  split; [by apply normalize_normal; try apply upper_symbol|].
  intros h Eh. unfold _hyphen_symbol in Eh. destruct (find_first _ _) as [quote|] eqn:Ef; [|done].
  injection Eh as <-. apply find_first_Some in Ef as [_ [Hends _]%andb_true_iff].
  apply andb_true_iff in Hends as [_ Hq%String.eqb_eq]. set (k := (String.length n - String.length quote)%nat) in *.
  pose proof (str_take_drop k n) as Htd. rewrite Hq in Htd.
  assert (str_forall symbol_char (str_take k n) = true) as Ht by by apply str_forall_take.
  assert (str_forall symbol_char quote = true) as Hqc by (rewrite <- Hq; by apply str_forall_drop).
  apply normalize_normal; try done.
  - rewrite !str_upper_app, (upper_symbol _ Ht), (upper_symbol _ Hqc). done.
  - rewrite !replace_char_app. rewrite (replace_char_id _ _ (str_take k n)), (replace_char_id _ _ quote);
      try done; by apply symbol_char_not.
  - rewrite !replace_char_app. rewrite (replace_char_id _ _ (str_take k n)), (replace_char_id _ _ quote);
      try by apply symbol_char_not.
    exact Htd.
Qed.

(** ** Requests to GEXBot *)

Definition plain_text (s : string) : Prop := str_forall (λ c, is_alnum c || one_of "._-" c) s = true.

Lemma checked_Ok accepts m s t : checked accepts m s = Ok t → t = s ∧ accepts s = true.
Proof. unfold checked. destruct (accepts s) eqn:E; [|done]. by intros [= ->]. Qed.

Lemma checked_Raise accepts m s x : checked accepts m s = Raise x → x = GexbotValidationError m.
Proof. unfold checked. destruct (accepts s); [done|]. by intros [= <-]. Qed.

Lemma ticker_plain s t : _validate_ticker s = Ok t → plain_text t.
Proof.
  intros [-> Hm]%checked_Ok. unfold _TICKER_RE, matches in Hm. rewrite !andb_true_iff in Hm. destruct Hm as [[Hm _] _].
  revert Hm. apply str_forall_impl. intros c. unfold is_alnum. by destruct (is_upper c), (is_lower c), (is_digit c).
Qed.

Lemma category_plain s t : _validate_category s = Ok t → plain_text t.
Proof.
  intros [-> Hm]%checked_Ok. unfold _CATEGORY_RE, matches in Hm. rewrite !andb_true_iff in Hm. destruct Hm as [[Hm _] _].
  revert Hm. apply str_forall_impl. intros c. destruct c as [[] [] [] [] [] [] [] []]; vm_compute; done.
Qed.

(** A key is always sent as a bearer token, and an empty one never. *)
Lemma authorization_bearer key a :
  _authorization_header key = Ok a → startswith "bearer " (str_lower a) = true ∧ str_strip key ≠ "".
Proof.
  unfold _authorization_header. cbv zeta. destruct (String.eqb_spec (str_strip key) "") as [|Hk]; [done|].
  destruct (startswith "bearer " _) eqn:E1; [by intros [= <-]|].
  destruct (startswith "gexbot_custom_" _); intros [= <-]; (split; [|done]).
  - change (str_lower ("Bearer " +:+ str_strip key)) with ("bearer " +:+ str_lower (str_strip key)). apply prefix_app.
  - change (str_lower ("Bearer gexbot_custom_" +:+ str_strip key)) with
      ("bearer " +:+ ("gexbot_custom_" +:+ str_lower (str_strip key))). apply prefix_app.
Qed.

Section gexbot_runs.
Context `{X : Exchange} `{GexbotSettings}.

(** The request of a category: sent with the key, to a path made of the three validated
    texts as they are. *)
Definition category_request (t p k a : string) : PreparedExchangeRequest :=
  let path := "/" +:+ t +:+ "/" +:+ p +:+ "/" +:+ k in
  Build_PreparedExchangeRequest "GET" (rstrip_slash gexbot_api_base_url +:+ path) path []
    [("Accept", "application/json"); ("User-Agent", "crypto-copy-trading-platform/0.1"); ("Authorization", a)] None.

Lemma gexbot_request_world req w :
  (gexbot_request req w).2 = with_events [EvHttp (w_committed w) req] w.
Proof. unfold gexbot_request. rewrite run_bind. cbn. by repeat case_match. Qed.

Definition refused_before_sending (x : Exn) : Prop :=
  (∃ m, x = GexbotValidationError m) ∨ ∃ m, x = GexbotConfigurationError m.

Lemma package_category_run ticker package category w :
  let run := get_package_category gexbot_client ticker package category w in
  (∃ x, refused_before_sending x ∧ run = (Raise x, w)) ∨
  ∃ t p k a, plain_text t ∧ p ∈ _SUPPORTED_PACKAGES ∧ plain_text k ∧
    startswith "bearer " (str_lower a) = true ∧ str_strip gexbot_api_key ≠ "" ∧
    run.2 = with_events [EvHttp (w_committed w) (category_request t p k a)] w.
Proof.
  cbv zeta. unfold get_package_category. rewrite run_bind.
  destruct (_validate_ticker ticker) as [t|x] eqn:Et; cbn [lift];
    [|apply checked_Raise in Et as ->; left; eexists; split; [by left; eexists|done]].
  rewrite run_bind. destruct (_validate_package package) as [p|x] eqn:Ep; cbn [lift];
    [|unfold _validate_package in Ep; apply checked_Raise in Ep as ->; left; eexists; split; [by left; eexists|done]].
  rewrite run_bind. destruct (_validate_category category) as [k|x] eqn:Ek; cbn [lift];
    [|apply checked_Raise in Ek as ->; left; eexists; split; [by left; eexists|done]].
  pose proof (ticker_plain _ _ Et) as Ht. pose proof (category_plain _ _ Ek) as Hk.
  unfold _validate_package in Ep. apply checked_Ok in Ep as [Hp' Hp%bool_decide_eq_true_1]. rewrite <- Hp' in Hp.
  rewrite (quote_plain t Ht), (quote_plain k Hk). unfold gexbot_get, gexbot_headers. rewrite run_bind.
  destruct (_authorization_header _) as [a|x] eqn:Ea; cbn [outcome_bind lift].
  - right. apply authorization_bearer in Ea as [Ha Hkey]. exists t, p, k, a. do 4 (split; [done|]).
    split; [|apply gexbot_request_world]. cbn [gex_api_key gexbot_client make_gexbot_client] in Hkey.
    intros He. by rewrite He in Hkey.
  - left. exists x. split; [|done]. right. unfold _authorization_header in Ea. cbv zeta in Ea.
    repeat case_match; simplify_eq/=; by eexists.
Qed.

(** Either the request is malformed or no key is set, and nothing is sent, or exactly this
    one GET is. *)
Theorem gexbot_category_sends package ticker category w :
  let run := get_gexbot_package_category package ticker category w in
  (run.2 = w ∧ ∃ status detail, (status = 422%Z ∨ status = 503%Z) ∧ run.1 = Raise (HTTPException status detail [])) ∨
  ∃ t p k a, plain_text t ∧ p ∈ _SUPPORTED_PACKAGES ∧ plain_text k ∧
    startswith "bearer " (str_lower a) = true ∧ str_strip gexbot_api_key ≠ "" ∧
    run.2 = with_events [EvHttp (w_committed w) (category_request t p k a)] w.
Proof.
  cbv zeta. unfold get_gexbot_package_category. rewrite run_bind. unfold try_except.
  destruct (package_category_run ticker package category w) as [(x & Hx & ->)|(t & p & k & a & Ht & Hp & Hk & Ha & Hkey & Hw)].
  - left. destruct Hx as [[m ->]|[m ->]]; (split; [done|]); eexists _, _; (split; [|reflexivity]); [by left|by right].
  - right. exists t, p, k, a. do 5 (split; [done|]).
    destruct (get_package_category _ _ _ _ w) as [[v|x] w1]; cbn in Hw; subst w1; [done|].
    by destruct x.
Qed.
End gexbot_runs.

(** ** A concrete run: Binance is down, Bybit answers *)

Definition bybit_answers : Exchange :=
  {| exchange_reply _ req :=
       if String.eqb (req_path req) "/v5/market/kline"
       then HttpOk (Some (VDict [("retCode", VInt 0); ("result", VDict [("list", VList
              [VList (map VStr ["60000"; "2"; "3"; "1"; "2.5"; "8"]); VList [VStr "short"];
               VList (map VStr ["0"; "1"; "2"; "0.5"; "1.5"; "5"])])])]))
       else HttpTransportError |}.

(** Dots are not escaped, and a ticker may consist of them: the path of such a request
    leaves the version prefix of the provider's address. *)
Definition gexbot_demo : GexbotSettings := {| gexbot_api_base_url := "https://api.gex.bot/v2"; gexbot_api_key := "k" |}.
Example dotted_ticker :
  map (λ ev, match ev with EvHttp _ req => req_url req | _ => "" end)
    (w_trace (get_gexbot_package_category (X:=bybit_answers) (H:=gexbot_demo) "classic" ".." "gex_zero" demo_world).2) =
  ["https://api.gex.bot/v2/../classic/gex_zero"].
Proof. vm_compute. reflexivity. Qed.

Definition fallback_run := get_public_candles_with_fallback (X:=bybit_answers) BINANCE "btc-usdt" "1m" 20 demo_world.

Lemma candles_fallback_witness :
  (∃ r, fallback_run.1 = Ok r ∧ pcr_source r = BYBIT ∧ map (dict_get "time") (pcr_candles r) = [VInt 0; VInt 60]) ∧
  ∃ failed rest w1, candidates_of BINANCE = failed ++ rest ∧ failed_attempts (X:=bybit_answers) demo_world failed w1 ∧
    candles_end (X:=bybit_answers) BINANCE rest w1 fallback_run.1 fallback_run.2.
Proof.
  split; [eexists; split; [vm_compute; reflexivity|split; reflexivity]|].
  apply (candles_fallback (X:=bybit_answers) BINANCE "btc-usdt" "1m" 20). apply surjective_pairing.
Defined.

Lemma symbol_normal_form_witness :
  _hyphen_symbol "BTCUSDT" = Ok "BTC-USDT" ∧ _normalize_symbol "BTC-USDT" = Ok "BTCUSDT".
Proof.
  split; [reflexivity|].
  assert (_normalize_symbol "btc/usdt" = Ok "BTCUSDT") as E by reflexivity.
  apply (proj2 (proj2 (proj2 (symbol_normal_form "btc/usdt" "BTCUSDT" E)))). reflexivity.
Defined.
