(* ===== verification/Storage.v ===== *)
(** [services/storage_locations.py] and its endpoint in [api/v1/admin_storage.py]: the
    allow list of storage locations, a text of [id=path] entries. *)
From S2P Require Import Prelude PyStr PyValue Models Session Tables MarketData.
From Stdlib Require Import Ascii.

(** ** [PurePosixPath] *)

(** The root and the parts of a path: two slashes in front are a root of their own, more
    are one; empty parts and single dots vanish. *)
Definition path_root (s : string) : string :=
  if startswith "///" s then "/" else if startswith "//" s then "//" else if startswith "/" s then "/" else "".
Definition path_parts (s : string) : list string :=
  List.filter (λ p, negb (String.eqb p "") && negb (String.eqb p ".")) (split_on "/" s).
(** [str(path)] of an absolute path *)
Definition path_text (root : string) (parts : list string) : string := root +:+ str_join "/" parts.

(** ** The allow list *)

Record StorageLocation := { loc_id : string; loc_label : string; loc_path : string; loc_is_current : bool }.

Definition storage_error {A} (m : string) : Outcome A := Raise (StorageLocationConfigurationError m).

Definition _normalize_absolute_path (raw_path : string) : Outcome string :=
  let root := path_root raw_path in
  let parts := path_parts raw_path in
  if String.eqb root "" || String.eqb (path_text root parts) "/" || existsb (String.eqb "..") parts
  then storage_error "storage path must be absolute and scoped"
  else Ok (path_text root parts).

(** [_STORAGE_ID_PATTERN], matched in full. *)
Definition _STORAGE_ID_PATTERN (s : string) : bool :=
  match s with
  | String c r => is_lower c && str_forall (λ c, is_lower c || is_digit c || one_of "_-" c) r &&
                  (String.length r <=? 31)%nat
  | "" => false
  end.

(** [s.title()]: a letter after a letter is lowered, any other is raised. *)
Fixpoint title_after (letter : bool) (s : string) : string :=
  match s with
  | "" => ""
  | String c r =>
      String (if letter then ascii_lower c else ascii_upper c) (title_after (is_upper c || is_lower c) r)
  end.
Definition label_of (id : string) : string :=
  title_after false (replace_char "-" " " (replace_char "_" " " id)).

(** [entry.partition("=")], with the separator's presence. *)
Fixpoint partition_eq (s : string) : string * bool * string :=
  match s with
  | "" => ("", false, "")
  | String c r =>
      if Ascii.eqb c "=" then ("", true, r)
      else let '(a, found, b) := partition_eq r in (String c a, found, b)
  end.

Definition parse_entry (normalized_current : option string) (locations : list StorageLocation) (entry : string) :
    Outcome StorageLocation :=
  let '(raw_id, separator, raw_path) := partition_eq entry in
  let location_id := str_strip raw_id in
  let raw_path := str_strip raw_path in
  if negb separator || negb (_STORAGE_ID_PATTERN location_id) then storage_error "invalid storage location identifier"
  else if String.eqb raw_path "" then storage_error "storage location path is required"
  else
    outcome_bind (_normalize_absolute_path raw_path) (λ path,
      if existsb (λ l, String.eqb (loc_id l) location_id) locations ||
         existsb (λ l, String.eqb (loc_path l) path) locations
      then storage_error "duplicate storage location"
      else Ok {| loc_id := location_id; loc_label := label_of location_id; loc_path := path;
                 loc_is_current := bool_decide (normalized_current = Some path) |}).

(** The loop: the ids and paths seen are those of the locations so far. *)
Fixpoint parse_entries (normalized_current : option string) (locations : list StorageLocation)
    (raw_entries : list string) : Outcome (list StorageLocation) :=
  match raw_entries with
  | [] => Ok locations
  | raw_entry :: raw_entries' =>
      let entry := str_strip raw_entry in
      if String.eqb entry "" then parse_entries normalized_current locations raw_entries'
      else
        outcome_bind (parse_entry normalized_current locations entry) (λ l,
          parse_entries normalized_current (locations ++ [l]) raw_entries')
  end.

Definition parse_storage_locations (allowlist current_path : string) : Outcome (list StorageLocation) :=
  outcome_bind (if String.eqb (str_strip current_path) "" then Ok None
                else outcome_bind (_normalize_absolute_path current_path) (λ p, Ok (Some p)))
    (λ normalized_current, parse_entries normalized_current [] (split_on "," allowlist)).

(** The endpoint. *)
Class StorageSettings := { storage_location_allowlist : string; trading_data_root : string }.

Definition list_storage_locations `{StorageSettings} : M (list StorageLocation) :=
  try_except (lift (parse_storage_locations storage_location_allowlist trading_data_root))
    (λ exn, match exn with
            | StorageLocationConfigurationError _ =>
                Some (raise (HTTPException 503 (VStr "storage location configuration is invalid") []))
            | _ => None
            end).

Example storage_demo :
  parse_storage_locations " ssd=/mnt//ssd/./data/ ,, cold_store = /mnt/cold" "/mnt/cold/" =
  Ok [Build_StorageLocation "ssd" "Ssd" "/mnt/ssd/data" false;
      Build_StorageLocation "cold_store" "Cold Store" "/mnt/cold" true].
Proof. reflexivity. Qed.

(** The root itself is refused, but not when it is written with two slashes. *)
Example double_root :
  parse_storage_locations "root=/" "" = storage_error "storage path must be absolute and scoped" ∧
  parse_storage_locations "root=//" "" = Ok [Build_StorageLocation "root" "Root" "//" false].
Proof. split; reflexivity. Qed.

(** ** What a parsed list guarantees *)

Definition scoped_path (p : string) : Prop :=
  ∃ root parts, p = path_text root parts ∧ (root = "/" ∨ root = "//") ∧ p ≠ "/" ∧
    ∀ part, part ∈ parts → part ≠ "" ∧ part ≠ "." ∧ part ≠ "..".

Definition valid_location (current : option string) (l : StorageLocation) : Prop :=
  _STORAGE_ID_PATTERN (loc_id l) = true ∧ scoped_path (loc_path l) ∧
  loc_is_current l = bool_decide (current = Some (loc_path l)).

Lemma normalize_scoped raw p : _normalize_absolute_path raw = Ok p → scoped_path p.
Proof.
  unfold _normalize_absolute_path. cbv zeta. destruct (_ || _ || _) eqn:E; [done|]. intros [= <-].
  rewrite !orb_false_iff in E. destruct E as [[Hr%String.eqb_neq Ht%String.eqb_neq] Hd].
  exists (path_root raw), (path_parts raw). split; [done|]. split; [|split; [done|]].
  - unfold path_root in *. repeat case_match; auto; done.
  - intros part Hp. unfold path_parts in Hp. apply list_elem_of_In, filter_In in Hp as Hp'.
    destruct Hp' as [_ Hp']. rewrite andb_true_iff, !negb_true_iff, !String.eqb_neq in Hp'.
    split; [apply Hp'|]. split; [apply Hp'|]. intros ->.
    assert (existsb (String.eqb "..") (path_parts raw) = true); [|congruence].
    apply existsb_exists. exists "..". by split.
Qed.

Lemma parse_entry_valid current locations entry l :
  parse_entry current locations entry = Ok l →
  valid_location current l ∧ (loc_id l ∉ map loc_id locations) ∧ (loc_path l ∉ map loc_path locations).
Proof.
  unfold parse_entry. destruct (partition_eq entry) as [[raw_id sep] raw_path]. cbv zeta.
  destruct (_ || _) eqn:E1; [done|]. destruct (String.eqb _ ""); [done|].
  destruct (_normalize_absolute_path _) as [path|] eqn:Ep; cbn [outcome_bind]; [|done].
  destruct (existsb _ locations || _) eqn:E2; [done|]. intros E. injection E as <-. cbn.
  apply orb_false_iff in E1 as [_ Hid%negb_false_iff], E2 as [Hi Hp].
  split; [split; [done|split; [by eapply normalize_scoped|done]]|].
  split; intros Hin; apply list_elem_of_fmap in Hin as (l' & Heq & Hl'%list_elem_of_In).
  - assert (existsb (λ l, String.eqb (loc_id l) (str_strip raw_id)) locations = true); [|congruence].
    apply existsb_exists. exists l'. split; [done|]. by apply String.eqb_eq.
  - assert (existsb (λ l, String.eqb (loc_path l) path) locations = true); [|congruence].
    apply existsb_exists. exists l'. split; [done|]. by apply String.eqb_eq.
Qed.

Lemma parse_entries_valid current raws locations ls :
  parse_entries current locations raws = Ok ls →
  Forall (valid_location current) locations → NoDup (map loc_id locations) → NoDup (map loc_path locations) →
  Forall (valid_location current) ls ∧ NoDup (map loc_id ls) ∧ NoDup (map loc_path ls).
Proof.
  revert locations. induction raws as [|raw raws IH]; intros locations; cbn [parse_entries].
  { by intros [= ->]. }
  destruct (String.eqb _ ""); [apply IH|]. destruct (parse_entry _ _ _) as [l|] eqn:El; cbn [outcome_bind]; [|done].
  intros E Hv Hi Hp. apply parse_entry_valid in El as (Hl & Hli & Hlp). apply IH in E; [done|..].
  - apply Forall_app_2; [done|by constructor].
  - rewrite map_app. apply NoDup_app. split; [done|]. split; [|apply NoDup_singleton].
    by intros x Hx ->%list_elem_of_singleton.
  - rewrite map_app. apply NoDup_app. split; [done|]. split; [|apply NoDup_singleton].
    by intros x Hx ->%list_elem_of_singleton.
Qed.

(** A parsed allow list has no identifier and no path twice; every identifier matches
    the pattern, every path is absolute, names more than the root and steps nowhere up,
    and a location is marked as current exactly when its path is the current one. *)
Theorem storage_locations_valid allowlist current_path ls :
  parse_storage_locations allowlist current_path = Ok ls →
  ∃ current, Forall (valid_location current) ls ∧ NoDup (map loc_id ls) ∧ NoDup (map loc_path ls) ∧
    (current = None ↔ str_strip current_path = "") ∧ (∀ p, current = Some p → scoped_path p).
Proof.
  unfold parse_storage_locations. destruct (String.eqb_spec (str_strip current_path) "") as [He|He].
  - cbn [outcome_bind]. intros E. exists None. apply parse_entries_valid in E as (Hv & Hi & Hp); [|constructor..].
    split; [done|]. split; [done|]. split; [done|]. by split.
  - destruct (_normalize_absolute_path current_path) as [p|] eqn:Ep; cbn [outcome_bind]; [|done]. intros E.
    exists (Some p). apply parse_entries_valid in E as (Hv & Hi & Hp); [|constructor..].
    split; [done|]. split; [done|]. split; [done|]. split; [by split|]. intros p' [= <-]. by eapply normalize_scoped.
Qed.

Definition storage_demo_settings : StorageSettings :=
  {| storage_location_allowlist := "ssd=/mnt/ssd,cold=/mnt/cold"; trading_data_root := "/mnt/cold" |}.

Lemma storage_locations_valid_witness :
  ∃ ls, parse_storage_locations "ssd=/mnt/ssd,cold=/mnt/cold" "/mnt/cold" = Ok ls ∧ length ls = 2%nat ∧
    NoDup (map loc_path ls).
Proof.
  eexists. split; [reflexivity|]. split; [reflexivity|].
  destruct (storage_locations_valid "ssd=/mnt/ssd,cold=/mnt/cold" "/mnt/cold" _ eq_refl) as (_ & _ & _ & Hp & _).
  exact Hp.
Defined.
