(* ===== verification/Bootstrap.v ===== *)
(** [services/super_admin_bootstrap.py] and [cli/bootstrap_super_admin.py]: the command
    that creates a super administrator.  The syntax of an email address is checked by a
    third-party package. *)
From S2P Require Import Prelude PyStr PyValue Json Base64 Models Hash Session PgDatabase Tables Demo Logic Accounts Security Mfa Users.
From Stdlib Require Import Ascii.
Open Scope Z_scope.

(** [validate_email(...).normalized]; [None] is [EmailNotValidError]. *)
Class EmailValidator := { validate_email : string → option string }.

Record SuperAdminBootstrapResult := { sab_user_id : string; sab_email : string; sab_username : string }.

Section bootstrap.
Context `{Database} `{Secrets} `{EmailValidator}.

Definition _validated_email (email : string) : Outcome string :=
  match validate_email (str_strip email) with
  | Some normalized => Ok normalized
  | None => Raise (SuperAdminInputError "invalid email address")
  end.

Definition bootstrap_audit (user : User) : M unit :=
  user_audit user "super_admin.bootstrap.created" "CRITICAL"
    [("created_user_id", VStr (user_id user)); ("username", VStr (user_username user)); ("source", VStr "server_cli")].

Definition bootstrap_super_admin (email username password : string) (enabled : bool) : M SuperAdminBootstrapResult :=
  if negb enabled then raise (SuperAdminBootstrapDisabledError "super admin bootstrap is disabled")
  else
    normalized_email ← lift (_validated_email email);
    let normalized_username := str_strip username in
    if negb ((3 <=? String.length normalized_username)%nat && (String.length normalized_username <=? 80)%nat)
    then raise (SuperAdminInputError "username must be between 3 and 80 characters")
    else if (String.length password <? 16)%nat
    then raise (SuperAdminInputError "super admin password must be at least 16 characters")
    else
      existing ← db_scalar (goes_by normalized_email normalized_username);
      match existing with
      | Some _ => raise (SuperAdminAlreadyExistsError "email or username already exists")
      | None =>
          hash ← hash_password password;
          id ← new_id;
          let user := Build_User id normalized_email normalized_username hash 0 false None None None [] SUPER_ADMIN true in
          add_flush user ;;
          bootstrap_audit user ;;
          commit ;;
          mret {| sab_user_id := id; sab_email := normalized_email; sab_username := normalized_username |}
      end.

(** [main]: the exit code, what is printed and what goes to the error stream.  The
    password is drawn; a failure is rolled back and reported without its cause, unless it
    is one of the three expected ones. *)
Record CommandResult := { exit_code : Z; printed : list string; reported : list string }.

(** [secrets.token_urlsafe(24)] *)
Definition token_urlsafe_24 : M string := n ← draw; mret (_b64encode (token_bytes n 24)).

Definition bootstrap_failure (exn : Exn) : string :=
  match exn with
  | SuperAdminAlreadyExistsError m | SuperAdminBootstrapDisabledError m | SuperAdminInputError m => m
  | _ => "super admin bootstrap failed"
  end.

Definition bootstrap_main (email username : string) (generate_password : bool) (environment : string) : M CommandResult :=
  if negb generate_password
  then mret {| exit_code := 2; printed := []; reported := ["--generate-password is required"] |}
  else
    password ← token_urlsafe_24;
    try_except
      (result ← bootstrap_super_admin email username password (String.eqb (str_lower environment) "true");
       mret {| exit_code := 0;
               printed := [json_dumps (VDict [("created", VBool true); ("user_id", VStr (sab_user_id result));
                             ("email", VStr (sab_email result)); ("username", VStr (sab_username result))]);
                           "generated_password=" +:+ password];
               reported := [] |})
      (λ exn, Some (mret {| exit_code := 1; printed := []; reported := [bootstrap_failure exn] |})).

(** ** What a run leaves behind *)

(** The new administrator and the record of it. *)
Definition bootstrapped (email username password : string) (w w' : World) : Prop :=
  ∃ u a, db_users (w_committed w') = db_users (w_tx w) ++ [u] ∧ db_audit (w_committed w') = db_audit (w_tx w) ++ [a] ∧
    (∀ x, x ∈ db_users (w_tx w) → goes_by (user_email u) (user_username u) x = false) ∧
    validate_email (str_strip email) = Some (user_email u) ∧ user_username u = str_strip username ∧
    user_role u = SUPER_ADMIN ∧ user_is_active u = true ∧ user_mfa_enabled u = false ∧
    verify_password password (user_password_hash u) = Ok true ∧
    aud_user a = user_id u ∧ aud_action a = "super_admin.bootstrap.created".

Lemma bootstrap_Ok `{!SecretsLaws} email username password enabled w r w' :
  w_new w = empty_db →
  bootstrap_super_admin email username password enabled w = (Ok r, w') →
  enabled = true ∧ (16 ≤ String.length password)%nat ∧ bootstrapped email username password w w'.
Proof.
  intros Hn. unfold bootstrap_super_admin. destruct enabled; cbn [negb]; [|done]. intros E. split; [done|].
  apply bind_Ok_inv in E as (m & w1 & Em & E). unfold _validated_email in Em.
  destruct (validate_email _) as [m'|] eqn:Ev; [|done]. injection Em as <- <-. cbv zeta in E.
  destruct (negb _) in E; [done|]. destruct (String.length password <? 16)%nat eqn:El; [done|].
  apply Nat.ltb_ge in El. split; [lia|].
  apply bind_Ok_inv in E as (ex & w1 & [= <- <-] & E). destruct (find_first _ _) as [|] eqn:Ef; [done|].
  apply bind_Ok_inv in E as (hash & w1 & Eh & E). pose proof (proj2 (hash_password_Ok _ password _ _ _ Eh)) as Hv.
  unfold hash_password in Eh. apply bind_Ok_inv in Eh as (n & w0 & [= <- <-] & [= _ <-]).
  apply bind_Ok_inv in E as (id & w2 & [= <- <-] & E).
  apply bind_Ok_inv in E as ([] & w3 & Ea & E). apply bind_Ok_inv in E as ([] & w4 & Eb & E).
  apply bind_Ok_inv in E as ([] & w5 & Ec & [= <- <-]).
  unfold add_flush in Ea. apply bind_Ok_inv in Ea as ([] & w6 & [= <-] & Ea).
  set (u := Build_User _ _ _ _ _ _ _ _ _ _ _ _) in *.
  assert (∃ a w3', w_tx w3' = w_tx w3 ∧ w_new w3' = w_new w3 ∧ w4 = (db_add a w3').2 ∧ aud_user a = user_id u ∧
    aud_action a = "super_admin.bootstrap.created") as (a & w3' & Ht3 & Hn3 & -> & Hau & Haa).
  { unfold bootstrap_audit, user_audit in Eb. apply bind_Ok_inv in Eb as (aid & w7 & [= <- <-] & Eb).
    apply bind_Ok_inv in Eb as (now & w7 & [= <- <-] & [= <-]). by eexists _, (set_next _ w3). }
  apply commit_Ok in Ec as (w7 & Ef7 & ->). pose proof (flush_Ok_empty _ _ Ef7) as Hn7.
  exists u, a. cbn [w_committed set_committed].
  pose proof (flush_all_rows (R:=User) _ _ Ef7) as Hu7. rewrite add_all_rows_other in Hu7.
  pose proof (flush_all_rows (R:=AuditLog) _ _ Ef7) as Ha7. rewrite add_all_rows in Ha7.
  pose proof (flush_all_rows (R:=User) _ _ Ea) as Hu3. pose proof (flush_all_rows (R:=AuditLog) _ _ Ea) as Ha3.
  unfold all_rows in *. cbn in Hu3, Ha3. rewrite Ht3, Hn3, Hn7 in *. rewrite Hn in *. cbn in *.
  rewrite app_nil_r in *. split; [congruence|]. split; [congruence|].
  split; [|by repeat split]. intros x Hx. rewrite find_first_None in Ef. by apply Ef.
Qed.

(** A program that commits last leaves the database alone when it fails. *)
Definition fails_clean {A} (m : M A) : Prop := ∀ w x w', m w = (Raise x, w') → w_committed w' = w_committed w.

Lemma clean_bind {A B} (m : M A) (k : A → M B) :
  preserves w_committed m → (∀ a, fails_clean (k a)) → fails_clean (m ≫= k).
Proof.
  intros Hm Hk w x w' E. rewrite run_bind in E. specialize (Hm w). destruct (m w) as [[a|y] w1]; cbn in Hm.
  - rewrite <- Hm. by eapply Hk.
  - by injection E as _ <-.
Qed.

Lemma clean_raise {A} x : fails_clean (A:=A) (raise x).
Proof. by intros w y w' [= _ <-]. Qed.

Lemma clean_commit {A} (a : A) : fails_clean (commit ;; mret a).
Proof.
  intros w x w' E. rewrite run_bind in E. destruct (commit w) as [[[]|y] w1] eqn:Ec; [done|].
  injection E as _ <-. apply commit_Raise in Ec. pose proof (flush_same_rest w) as (Hc & _). by rewrite Ec in Hc.
Qed.

Lemma bootstrap_clean email username password enabled :
  fails_clean (bootstrap_super_admin email username password enabled).
Proof.
  unfold bootstrap_super_admin, bootstrap_audit, user_audit, hash_password, draw. cbv zeta.
  repeat first [apply clean_commit | apply clean_raise | case_match | apply clean_bind; [|intros ?]];
    first [done | by preserves_tac].
Qed.

(** The command either exits with 0, and then exactly one super administrator is added
    with the record of it, whose name and address nobody had, and whose stored hash
    accepts the password that is printed; or it prints nothing, and the database is as it
    was.  It never succeeds unless the environment enables it. *)
Theorem bootstrap_outcome `{!SecretsLaws} email username generate environment w r w' :
  w_new w = empty_db →
  run_request (bootstrap_main email username generate environment) w = (Ok r, w') →
  (exit_code r = 0 ∧ str_lower environment = "true" ∧
   ∃ password line, printed r = [line; "generated_password=" +:+ password] ∧ (16 ≤ String.length password)%nat ∧
     bootstrapped email username password w w') ∨
  (exit_code r ≠ 0 ∧ printed r = [] ∧ w_committed w' = w_committed w).
Proof.
  intros Hn. unfold run_request. destruct (bootstrap_main _ _ _ _ w) as [o v] eqn:E. intros [= -> <-]. revert E.
  unfold bootstrap_main. destruct generate; cbn [negb]; [|by intros [= <- <-]; right].
  intros E. apply bind_Ok_inv in E as (password & w1 & Ep & E). unfold token_urlsafe_24 in Ep.
  apply bind_Ok_inv in Ep as (n & w0 & [= <- <-] & [= <- <-]). unfold try_except in E. rewrite run_bind in E.
  match goal with H : context [bootstrap_super_admin _ _ ?p] |- _ => set (password := p) in * end.
  set (w1 := set_next _ w) in *.
  destruct (bootstrap_super_admin _ _ _ _ w1) as [[result|x] w2] eqn:Eb.
  - injection E as <- <-. left. split; [done|].
    destruct (bootstrap_Ok _ _ _ _ w1 _ _ Hn Eb) as (He%String.eqb_eq & Hl & Hb).
    split; [done|]. exists password. eexists. split; [reflexivity|]. by split.
  - injection E as <- <-. right. split; [done|]. split; [done|]. exact (bootstrap_clean _ _ _ _ _ _ _ Eb).
Qed.
End bootstrap.

(** An address is good when it holds an at sign. *)
Definition demo_validator : EmailValidator :=
  {| validate_email s := if str_contains "@" s then Some (str_lower s) else None |}.

(** The name is taken: nothing is printed, nothing changes. *)
Lemma bootstrap_outcome_witness :
  ∃ r w', run_request (bootstrap_main (H1:=demo_validator) "root@example.com" " alice " true "True") demo_world = (Ok r, w') ∧
    reported r = ["email or username already exists"] ∧ printed r = [] ∧ w_committed w' = w_committed demo_world.
Proof.
  eexists _, _. split; [vm_compute; reflexivity|]. split; [reflexivity|].
  match goal with |- printed ?r = _ ∧ w_committed ?w' = _ =>
    destruct (bootstrap_outcome (H1:=demo_validator) "root@example.com" " alice " true "True" demo_world r w' eq_refl)
      as [(Hx & _)|(_ & Hp & Hw)] end; [vm_compute; reflexivity|done|by split].
Defined.
