(* ===== verification/Endpoints.v ===== *)
(** The endpoints of [api/v1] that add little to the services they call: accounts,
    risk settings, the position preview, the two read-only reports of an order window
    and the observability lists of [services/observability_service.py].  Their responses are
    in [Responses]. *)
From S2P Require Import Prelude PyStr PyDecimal PyValue Models Session PgDatabase Tables Demo Logic Alerts Accounts TestnetGate WindowApproval HttpClient RiskEngine PositionEngine ReadOnly.

(** ** Observability *)

Definition MAX_OBSERVABILITY_PAGE_SIZE : Z := 100.

(** [AuditLogFilter] and [SystemEventFilter]; [flt_name] is the action or the event
    type. *)
Record ObservabilityFilter := {
  flt_user_id : option string; flt_exchange_account_id : option string; flt_name : option string;
  flt_severity : option string; flt_created_from : option Z; flt_created_to : option Z; flt_limit : Z }.

(** [column == value], where a value is given; a NULL column equals nothing. *)
Definition _apply_optional_filter (column value : option string) : bool :=
  match value with None => true | Some v => bool_decide (column = Some v) end.

Definition _apply_created_range (created_at : Z) (created_from created_to : option Z) : bool :=
  match created_from with Some t => (t <=? created_at)%Z | None => true end &&
  match created_to with Some t => (created_at <=? t)%Z | None => true end.

Definition _bounded_limit (limit : Z) : Z := Z.min (Z.max limit 1) MAX_OBSERVABILITY_PAGE_SIZE.

(** [order_by(created_at.desc(), id.desc())] *)
Definition latest_first {R} (created_at : R → Z) (id : R → string) (a b : R) : bool :=
  (created_at b <? created_at a)%Z || (Z.eqb (created_at a) (created_at b) && String.leb (id b) (id a)).

Definition audit_matches (f : ObservabilityFilter) (l : AuditLog) : bool :=
  _apply_optional_filter (Some (aud_user l)) (flt_user_id f) &&
  _apply_optional_filter (aud_account l) (flt_exchange_account_id f) &&
  _apply_optional_filter (Some (aud_action l)) (flt_name f) &&
  _apply_optional_filter (Some (aud_severity l)) (flt_severity f) &&
  _apply_created_range (aud_created_at l) (flt_created_from f) (flt_created_to f).

Definition event_matches (f : ObservabilityFilter) (e : SystemEvent) : bool :=
  _apply_optional_filter (evt_user e) (flt_user_id f) &&
  _apply_optional_filter (evt_account e) (flt_exchange_account_id f) &&
  _apply_optional_filter (Some (evt_type e)) (flt_name f) &&
  _apply_optional_filter (Some (evt_severity e)) (flt_severity f) &&
  _apply_created_range (evt_created_at e) (flt_created_from f) (flt_created_to f).

Section observability.
Context `{Database}.

Definition list_audit_logs (f : ObservabilityFilter) : M (list AuditLog) :=
  rows ← db_scalars (audit_matches f);
  mret (take (Z.to_nat (_bounded_limit (flt_limit f))) (sort_by (latest_first aud_created_at aud_id) rows)).

Definition list_system_events (f : ObservabilityFilter) : M (list SystemEvent) :=
  rows ← db_scalars (event_matches f);
  mret (take (Z.to_nat (_bounded_limit (flt_limit f))) (sort_by (latest_first evt_created_at evt_id) rows)).
End observability.

(** ** Accounts *)

Record ApiKeySecretMetadata := { akm_account : string; akm_configured : bool; akm_has_passphrase : bool }.

Section endpoints.
Context `{Database} `{Settings}.

Definition read_accounts (current_user : User) : M (list ExchangeAccount) :=
  list_accounts (user_id current_user).

Definition add_account (current_user : User) (exchange : ExchangeName) (label : string) (mode : AccountMode)
    (trading_enabled : bool) : M ExchangeAccount :=
  create_account (user_id current_user) exchange label mode trading_enabled.

Definition read_api_key_metadata (current_user : User) (account : string) : M ApiKeySecretMetadata :=
  a ← require_account current_user account;
  secret ← get_api_key_secret_metadata (user_id current_user) (acct_id a);
  mret {| akm_account := acct_id a; akm_configured := negb (is_none secret);
          akm_has_passphrase := match secret with Some k => negb (is_none (key_passphrase k)) | None => false end |}.

(** The approval of an order window under its account, for a reauthenticated user. *)
Definition approve_account_order_window (current_user : User) (account symbol : string) (side : OrderSide)
    (max_quantity max_notional : dec) (duration_minutes : Z) (acknowledgement : string) :
    M TestnetOrderWindowApproval :=
  try_except
    (record_testnet_order_window_approval (user_id current_user) (user_role current_user) account symbol side
       max_quantity max_notional duration_minutes acknowledgement)
    (λ exn, match exn with
            | TestnetOrderWindowApprovalBlockedError reasons => Some (reasons_answer 400 reasons)
            | _ => if is_ValueError exn then Some (not_found "account not found") else None
            end).

(** ** Risk settings *)

Definition read_risk_settings (current_user : User) (account : string) : M RiskSetting :=
  a ← require_account current_user account;
  get_or_create_risk_settings (user_id current_user) (acct_id a).

(** The response, the updated row, is left out. *)
Definition patch_risk_settings (current_user : User) (account : string) (payload : list RiskSettingChange)
    (alert_runtime : option AlertRuntime) : M unit :=
  a ← require_account current_user account;
  if negb (bool_decide (acct_mode a = SIMULATION))
  then raise (HTTPException 400
                (VStr "risk settings can only be modified for SIMULATION accounts in V1") [])
  else
    settings_obj ← get_or_create_risk_settings (user_id current_user) (acct_id a);
    update_risk_settings settings_obj payload alert_runtime.

(** ** Positions *)

Definition preview_position_target (current_user : User) (account symbol : string) (target_quantity : dec) :
    M PositionDelta :=
  a ← require_account current_user account;
  position ← get_or_create_position (user_id current_user) (acct_id a) (str_upper symbol);
  mret (calculate_delta (pos_symbol position) (pos_quantity position) target_quantity).

(** ** The reports of an order window *)

Definition value_error_is_404 {A} (exn : Exn) : option (M A) :=
  match exn with
  | ValueError m => Some (not_found m)
  | _ => None
  end.

Definition get_testnet_order_admission_check (current_user : User) (account : string) :
    M TestnetOrderAdmissionReport :=
  try_except (build_testnet_order_admission_report (user_id current_user) account) value_error_is_404.

Definition get_testnet_order_window_plan (current_user : User) (account : string) : M OrderWindowPlan :=
  try_except (build_testnet_order_window_plan (user_id current_user) account) value_error_is_404.
End endpoints.

(** ** A detour around the rule for risk settings *)

(** The three requests, each in a session of its own. *)
Definition detour : World → World := λ w,
  let mode m := patch_account demo_user "acct-test" (Build_ExchangeAccountUpdate None (Some m) None None) in
  fold_left (λ w r, (run_request r w).2)
    [ mode SIMULATION;
      patch_risk_settings demo_user "acct-test" [set_trading_enabled (Some true)] None;
      mode TESTNET ] w.

(** The settings of a TESTNET account cannot be changed; switching its mode back and
    forth gets around that. *)
Example risk_settings_detour :
  (patch_risk_settings demo_user "acct-test" [set_trading_enabled (Some true)] None closed_world).1 =
    Raise (HTTPException 400 (VStr "risk settings can only be modified for SIMULATION accounts in V1") []) ∧
  map acct_mode (db_accounts (w_committed (detour closed_world))) = [TESTNET] ∧
  map risk_trading_enabled (db_risk (w_committed (detour closed_world))) = [true].
Proof. vm_compute. done. Qed.
