(* ===== verification/Steady.v ===== *)
(** Invariants a program keeps whatever its outcome, by structural rules.  Unlike
    [keeps] of [Logic], a [steady] invariant also survives a failing database, which
    makes the rules unconditional; the price is that the invariant may only speak of
    tables the program does not write. *)
From S2P Require Import Prelude PyStr PyDecimal PyValue Models Session PgDatabase Tables Logic EmergencyStop.

Section steady.
Context (I : World → Prop).

Definition steady {A} (m : M A) : Prop := ∀ w, I w → I (m w).2.

Lemma steady_ret {A} (a : A) : steady (mret a).
Proof. by intros w Hw. Qed.
Lemma steady_gets {A} (f : World → A) : steady (gets f).
Proof. by intros w Hw. Qed.
Lemma steady_raise {A} (e : Exn) : steady (raise (A:=A) e).
Proof. by intros w Hw. Qed.
Lemma steady_lift {A} (o : Outcome A) : steady (lift o).
Proof. by intros w Hw. Qed.

Lemma steady_bind {A B} (m : M A) (k : A → M B) : steady m → (∀ a, steady (k a)) → steady (m ≫= k).
Proof.
  intros Hm Hk w Hw. rewrite run_bind. specialize (Hm w Hw). destruct (m w) as [[a|e] w1]; [|done].
  by apply Hk.
Qed.

Lemma steady_try {A} (m : M A) (h : Exn → option (M A)) :
  steady m → (∀ e k, h e = Some k → steady k) → steady (try_except m h).
Proof.
  intros Hm Hh w Hw. unfold try_except. specialize (Hm w Hw). destruct (m w) as [[a|e] w1]; [done|].
  destruct (h e) as [k|] eqn:E; [|done]. by apply (Hh e k E).
Qed.

Lemma steady_mapM {A B} (f : A → M B) (l : list A) : (∀ x, steady (f x)) → steady (mapM f l).
Proof.
  intros Hf. induction l as [|x l IH]; cbn; [apply steady_ret|].
  apply steady_bind; [apply Hf|]. intros y. apply steady_bind; [done|]. intros ys. apply steady_ret.
Qed.

Lemma steady_run_all (ms : list (M unit)) : (∀ m, m ∈ ms → steady m) → steady (run_all ms).
Proof.
  intros Hms. induction ms as [|m ms IH]; cbn; [apply steady_ret|].
  apply steady_bind; [apply Hms; by left|]. intros _. apply IH. intros m' Hm'. apply Hms. by right.
Qed.

Lemma steady_frames {V} (view : Db → V) {A} (m : M A) :
  (∀ w w', same_view view w w' → I w → I w') → frames view m → steady m.
Proof. intros HI Hm w Hw. eapply HI; [apply Hm|exact Hw]. Qed.

(** A handler that catches everything leaves no failure of its program behind. *)
Lemma keeps_catch (C : World → Prop) {A} (m : M A) (h : Exn → option (M A)) :
  (∀ w, I w → C w) → steady m → (∀ e, ∃ k, h e = Some k ∧ keeps I C k) → keeps I C (try_except m h).
Proof.
  intros HC Hm Hh w Hw. unfold try_except. specialize (Hm w Hw). destruct (m w) as [[a|e] w1]; cbn; [done|].
  destruct (Hh e) as (k & -> & Hk). by apply Hk.
Qed.
End steady.

(** ** Tables left alone

    [still view e harmless P n tr w]: in the open transaction and in the committed
    database the view satisfies [P], nothing of it is pending, at least [n] identifiers
    are spent, and after the trace [tr] only harmless events happened. *)
Section still.
Context `{Database} {V : Type} (view : Db → V) (e : V) (harmless : Event → Prop).

Definition still (P : V → Prop) (n : nat) (tr : list Event) (w : World) : Prop :=
  P (view (w_tx w)) ∧ view (w_new w) = e ∧ P (view (w_committed w)) ∧ (n ≤ w_next w)%nat ∧
  ∃ evs, w_trace w = tr ++ evs ∧ Forall harmless evs.

(** A program that leaves the view alone and does only harmless things. *)
Definition bystander {A} (m : M A) : Prop := ∀ P n tr, steady (still P n tr) m.

Lemma still_view P n tr w w' : same_view view w w' → still P n tr w → still P n tr w'.
Proof.
  unfold same_view, still. intros (-> & -> & -> & -> & _ & ->). done.
Qed.

Lemma bystander_frames {A} (m : M A) : frames view m → bystander m.
Proof. intros Hm P n tr. eapply steady_frames; [apply still_view|done]. Qed.

Lemma bystander_ret {A} (a : A) : bystander (mret a).
Proof. intros P n tr. apply steady_ret. Qed.
Lemma bystander_gets {A} (f : World → A) : bystander (gets f).
Proof. intros P n tr. apply steady_gets. Qed.
Lemma bystander_raise {A} (x : Exn) : bystander (raise (A:=A) x).
Proof. intros P n tr. apply steady_raise. Qed.
Lemma bystander_lift {A} (o : Outcome A) : bystander (lift o).
Proof. intros P n tr. apply steady_lift. Qed.
Lemma bystander_bind {A B} (m : M A) (k : A → M B) :
  bystander m → (∀ a, bystander (k a)) → bystander (m ≫= k).
Proof. intros Hm Hk P n tr. apply steady_bind; [apply Hm|intros a; apply Hk]. Qed.
Lemma bystander_try {A} (m : M A) (h : Exn → option (M A)) :
  bystander m → (∀ x k, h x = Some k → bystander k) → bystander (try_except m h).
Proof. intros Hm Hh P n tr. apply steady_try; [apply Hm|intros x k E; by apply (Hh x k E)]. Qed.
Lemma bystander_mapM {A B} (f : A → M B) (l : list A) : (∀ x, bystander (f x)) → bystander (mapM f l).
Proof. intros Hf P n tr. apply steady_mapM. intros x. apply Hf. Qed.
Lemma bystander_run_all (ms : list (M unit)) : (∀ m, m ∈ ms → bystander m) → bystander (run_all ms).
Proof. intros Hms P n tr. apply steady_run_all. intros m Hm. by apply Hms. Qed.

Lemma bystander_emit ev : harmless ev → bystander (emit ev).
Proof.
  intros Hev P n tr w (Ht & Hn & Hc & Hx & evs & Htr & Hevs). split; [done|]. split; [done|]. split; [done|].
  split; [done|]. exists (evs ++ [ev]). cbn. rewrite Htr, app_assoc. split; [done|]. apply Forall_app_2; [done|by constructor].
Qed.

(** Drawing an identifier, a nonce or random bytes. *)
Lemma bystander_draw {A} (f : nat → A) : bystander (λ w, (Ok (f (w_next w)), set_next (S (w_next w)) w)).
Proof. intros P n tr w (Ht & Hn & Hc & Hx & Htr). unfold still. cbn. repeat (split; [done || lia|]). done. Qed.
Lemma bystander_new_id : bystander new_id.
Proof. apply (bystander_draw new_uuid). Qed.

Section other_table.
Context {R : Type} `{Table R} `{!Untouched R view}.
Lemma bystander_add (r : R) : bystander (db_add r).
Proof. apply bystander_frames, frames_add, _. Qed.
Lemma bystander_flush_table : bystander (flush_table (R:=R)).
Proof. apply bystander_frames, frames_flush_table, _. Qed.
Lemma bystander_update id (f : R → R) : bystander (db_update id f).
Proof. apply bystander_frames, frames_update, _. Qed.
Lemma bystander_update_all (f : R → R) : bystander (db_update_all f).
Proof. apply bystander_frames, frames_update_all, _. Qed.
Lemma bystander_delete id : bystander (db_delete (R:=R) id).
Proof. apply bystander_frames, frames_delete, _. Qed.
End other_table.

(** The tables of the view have nothing pending, so a flush passes them by. *)
Lemma bystander_flush_idle {R} `{Table R} `{!TableLaws R} :
  (∀ d, view d = e → tbl (R:=R) d = []) → bystander (flush_table (R:=R)).
Proof.
  intros He P n tr w Hw. rewrite (flush_table_idle w); [done|]. apply He. by destruct Hw as (_ & ? & _).
Qed.

Lemma bystander_flush_all : Forall bystander flush_order → bystander flush.
Proof. intros Hall. apply bystander_run_all. intros m Hm. by eapply Forall_forall in Hall. Qed.

Context (flush_ok : Forall bystander flush_order).

Lemma bystander_commit_from : bystander commit.
Proof.
  apply bystander_bind; [by apply bystander_flush_all|]. intros _ P n tr w (Ht & Hn & Hc & Hx & Htr).
  unfold still. cbn. done.
Qed.
End still.

(** ** The two views of the system's invariants *)

(** The executions, their log and the stop switch. *)
Definition order_view (d : Db) := (db_executions d, db_transitions d, db_controls d).

Section views.
Context `{Database} (harmless : Event → Prop).

Lemma order_view_flush : Forall (bystander order_view ([], [], []) harmless) flush_order.
Proof.
  each_table ltac:(first
    [ apply bystander_flush_idle; [apply _|]; intros d Hd; unfold order_view in Hd; injection Hd as ? ? ?; done
    | apply bystander_flush_table; intros ? ?; reflexivity ]).
Qed.

Lemma controls_flush : Forall (bystander db_controls [] harmless) flush_order.
Proof.
  each_table ltac:(first
    [ apply bystander_flush_table; intros ? ?; reflexivity
    | apply bystander_flush_idle; [apply _|]; intros d ?; done ]).
Qed.
End views.

Class FlushOk `{Database} {V} (view : Db → V) (e : V) (harmless : Event → Prop) :=
  flush_ok : Forall (bystander view e harmless) flush_order.
#[export] Instance order_view_flush_ok `{Database} harmless : FlushOk order_view ([], [], []) harmless :=
  order_view_flush harmless.
#[export] Instance controls_flush_ok `{Database} harmless : FlushOk db_controls [] harmless :=
  controls_flush harmless.

Section transactions.
Context `{Database} {V : Type} (view : Db → V) (e : V) (harmless : Event → Prop) `{!FlushOk view e harmless}.

Lemma bystander_flush : bystander view e harmless flush.
Proof. apply bystander_flush_all, flush_ok. Qed.
Lemma bystander_commit : bystander view e harmless commit.
Proof. apply bystander_commit_from, flush_ok. Qed.
Lemma bystander_add_commit {R} `{Table R} `{!Untouched R view} (r : R) : bystander view e harmless (add_commit r).
Proof. apply bystander_bind; [apply bystander_add, _|intros _; apply bystander_commit]. Qed.
Lemma bystander_add_flush {R} `{Table R} `{!Untouched R view} (r : R) : bystander view e harmless (add_flush r).
Proof. apply bystander_bind; [apply bystander_add, _|intros _; apply bystander_flush]. Qed.
End transactions.

Create HintDb bystander.

(** The handler of a [try_except], case by case. *)
Ltac handler_cases :=
  let x := fresh "x" in let k := fresh "k" in let E := fresh "E" in
  intros x k E; cbn beta in E; repeat (case_match; try discriminate E); try (injection E as <-).

(** Walk through a program; what is left are the calls without a rule. *)
Ltac bystander_step :=
  lazymatch goal with
  | |- bystander _ _ _ (mret _) => apply bystander_ret
  | |- bystander _ _ _ (raise _) => apply bystander_raise
  | |- bystander _ _ _ (lift _) => apply bystander_lift
  | |- bystander _ _ _ (gets _) => apply bystander_gets
  | |- bystander _ _ _ (db_scalar _) => apply bystander_gets
  | |- bystander _ _ _ (db_scalars _) => apply bystander_gets
  | |- bystander _ _ _ (db_get _) => apply bystander_gets
  | |- bystander _ _ _ now_utc => apply bystander_gets
  | |- bystander _ _ _ new_id => apply bystander_new_id
  | |- bystander _ _ _ flush => apply bystander_flush, _
  | |- bystander _ _ _ commit => apply bystander_commit, _
  | |- bystander _ _ _ (add_commit _) => apply bystander_add_commit; [apply _|intros ? ?; reflexivity]
  | |- bystander _ _ _ (add_flush _) => apply bystander_add_flush; [apply _|intros ? ?; reflexivity]
  | |- bystander _ _ _ (db_add _) => apply bystander_add; intros ? ?; reflexivity
  | |- bystander _ _ _ (db_update _ _) => apply bystander_update; intros ? ?; reflexivity
  | |- bystander _ _ _ (db_update_all _) => apply bystander_update_all; intros ? ?; reflexivity
  | |- bystander _ _ _ (db_delete _) => apply bystander_delete; intros ? ?; reflexivity
  | |- bystander _ _ _ (mapM _ _) => apply bystander_mapM; intros ?
  | |- bystander _ _ _ (try_except _ _) => apply bystander_try; [|handler_cases]
  | |- bystander _ _ _ (_ ≫= _) => apply bystander_bind; [|intros ?]
  | |- bystander _ _ _ (match ?x with _ => _ end) => destruct x eqn:?
  end.
Ltac bystander_tac := repeat first [solve [eauto 2 with bystander] | bystander_step].
