(* ===== verification/Records.v ===== *)
(** What the tables hold and how long: every NUMERIC value is one its column can hold, no
    two rows share a key, and outside the two tables the service deletes from, a row once
    committed stays, in its place, with everything about it that is never written again.

    The tables are named by a tag, so that an invariant can speak of all of them at once. *)
From S2P Require Import Prelude PyStr PyDecimal PyValue Models Session PgDatabase Tables Logic RiskEngine Alerts Steady.

(** ** The tables by name *)

Inductive TableTag :=
| TUsers | TPermissions | TAccounts | TSecrets | TSignals | TRisk | TBalances | TPositions | TExecutions
| TTransitions | TAudit | TEvents | TNotifications | TPreferences | TControls.

#[export] Instance TableTag_eq_dec : EqDecision TableTag.
Proof. solve_decision. Defined.

(** In the order of a flush. *)
Definition all_tables : list TableTag :=
  [TUsers; TPermissions; TAccounts; TSecrets; TSignals; TRisk; TBalances; TPositions; TExecutions;
   TTransitions; TAudit; TEvents; TNotifications; TPreferences; TControls].

Definition Row (t : TableTag) : Type :=
  match t with
  | TUsers => User | TPermissions => UserPermission | TAccounts => ExchangeAccount | TSecrets => ApiKeySecret
  | TSignals => TradingSignal | TRisk => RiskSetting | TBalances => Balance | TPositions => Position
  | TExecutions => OrderExecution | TTransitions => OrderExecutionTransition | TAudit => AuditLog
  | TEvents => SystemEvent | TNotifications => InternalNotification | TPreferences => NotificationPreference
  | TControls => SystemControl
  end.

#[export] Instance Row_table (t : TableTag) : Table (Row t) :=
  match t return Table (Row t) with
  | TUsers => User_table | TPermissions => UserPermission_table | TAccounts => ExchangeAccount_table
  | TSecrets => ApiKeySecret_table | TSignals => TradingSignal_table | TRisk => RiskSetting_table
  | TBalances => Balance_table | TPositions => Position_table | TExecutions => OrderExecution_table
  | TTransitions => OrderExecutionTransition_table | TAudit => AuditLog_table | TEvents => SystemEvent_table
  | TNotifications => InternalNotification_table | TPreferences => NotificationPreference_table
  | TControls => SystemControl_table
  end.

(** The tables no request deletes from. *)
Definition permanent (t : TableTag) : bool :=
  match t with TPermissions | TSecrets => false | _ => true end.

(** What is never written again once the row is stored: the whole row in the ledgers
    (signals, transitions, audit log, system events), the terms of an order, the text of
    a notification, the key of everything else. *)
Definition Lasting (t : TableTag) : Type :=
  match t with
  | TUsers => string * string * string
  | TPermissions => string * string * string
  | TAccounts => string * string * ExchangeName
  | TSecrets => string * string * string
  | TRisk => string * string * string
  | TBalances => string * string * string * string
  | TPositions => string * string * string * string
  | TExecutions => (string * string * string * string * string) * (string * string * string) *
      (OrderSide * OrderType * option dec * dec)
  | TNotifications => (string * string * option string * string * string) * (string * string * dict * Z)
  | TPreferences => string * string
  | TControls => string
  | TSignals => TradingSignal | TTransitions => OrderExecutionTransition
  | TAudit => AuditLog | TEvents => SystemEvent
  end.

Definition lasting (t : TableTag) : Row t → Lasting t :=
  match t with
  | TUsers => λ u, (user_id u, user_email u, user_username u)
  | TPermissions => λ p, (perm_id p, perm_owner p, perm_grantee p)
  | TAccounts => λ a, (acct_id a, acct_user a, acct_exchange a)
  | TSecrets => λ k, (key_id k, key_user k, key_account k)
  | TRisk => λ r, (risk_id r, risk_user r, risk_account r)
  | TBalances => λ b, (bal_id b, bal_user b, bal_account b, bal_asset b)
  | TPositions => λ p, (pos_id p, pos_user p, pos_account p, pos_symbol p)
  | TExecutions => λ e,
      ((exe_id e, exe_user e, exe_signal e, exe_execution_id e, exe_account e),
       (exe_exchange_name e, exe_client_order_id e, exe_symbol e),
       (exe_side e, exe_order_type e, exe_price e, exe_quantity e))
  | TNotifications => λ n,
      ((ntf_id n, ntf_user n, ntf_account n, ntf_channel n, ntf_severity n),
       (ntf_title n, ntf_message n, ntf_payload n, ntf_created_at n))
  | TPreferences => λ p, (prf_id p, prf_user p)
  | TControls => ctl_id
  | TSignals => λ s, s | TTransitions => λ x, x | TAudit => λ a, a | TEvents => λ v, v
  end.

(** ** Laws of the tables *)

Lemma tbl_set_same t l d : tbl (R:=Row t) (set_tbl l d) = l.
Proof. by destruct t. Qed.

Lemma tbl_set_other t t' l d : t ≠ t' → tbl (R:=Row t) (set_tbl (R:=Row t') l d) = tbl d.
Proof. by destruct t, t'. Qed.

Lemma lasting_id t (a b : Row t) : lasting t a = lasting t b → row_id a = row_id b.
Proof. destruct t; cbn in *; congruence. Qed.

Lemma conflict_lasting t (a b x : Row t) :
  lasting t a = lasting t b → row_conflict a x = row_conflict b x ∧ row_conflict x a = row_conflict x b.
Proof. destruct t; cbn in *; intros E; simplify_eq; split; congruence. Qed.

Lemma conflict_same_id t (a b : Row t) : row_id a = row_id b → row_conflict a b = true.
Proof. destruct t; cbn in *; intros ->; by rewrite String.eqb_refl. Qed.

Section values.
Context `{Database} `{!DatabaseLaws}.

(** What a column hands back it stores again unchanged. *)
Lemma numeric_column_stable p s d d' : numeric_column p s d = Some d' → numeric_column p s d' = Some d'.
Proof.
  intros (z & Hz & ->)%numeric_column_range. assert (scaled (- s) (canonical_numeric s z) = z) as Hs.
  { unfold scaled, canonical_numeric, sval. cbn. rewrite Z.sub_diag, Z.mul_1_r.
    destruct (Z.ltb_spec z 0); lia. }
  rewrite numeric_column_fits; rewrite ?Hs; done.
Qed.

Lemma store_opt_stable p s o o' :
  store_opt (numeric_column p s) o = Some o' → store_opt (numeric_column p s) o' = Some o'.
Proof.
  destruct o as [d|]; cbn; [|by intros [= <-]]. intros (d' & E & [= ->])%fmap_Some.
  cbn. by rewrite (numeric_column_stable _ _ _ _ E).
Qed.

(** A row its table holds as it is. *)
Definition stored {R} `{Table R} (r : R) : Prop := row_store numeric_column r = Some r.

Lemma store_stored t (r r' : Row t) : row_store numeric_column r = Some r' → stored r'.
Proof.
  unfold stored. destruct t; cbn; try done.
  - unfold store_signal. intros E. repeat (apply bind_Some in E as (? & ?%store_opt_stable & E)). injection E as <-.
    cbn. by simplify_option_eq.
  - unfold store_risk. intros E. repeat (apply bind_Some in E as (? & ?%store_opt_stable & E)). injection E as <-.
    cbn. by simplify_option_eq.
  - unfold store_balance. intros E. repeat (apply bind_Some in E as (? & ?%numeric_column_stable & E)). injection E as <-.
    cbn. by simplify_option_eq.
  - unfold store_position. intros E. repeat (apply bind_Some in E as (? & ?%numeric_column_stable & E)). injection E as <-.
    cbn. by simplify_option_eq.
  - unfold store_execution. intros E. apply bind_Some in E as (? & ?%store_opt_stable & E).
    apply bind_Some in E as (? & ?%numeric_column_stable & E). injection E as <-.
    cbn. by simplify_option_eq.
Qed.

(** Storing a changed row keeps what lasts. *)
Lemma store_lasting t (r x x' : Row t) :
  stored r → lasting t x = lasting t r → row_store numeric_column x = Some x' → lasting t x' = lasting t r.
Proof.
  unfold stored. destruct t; cbn; try (by intros _ ? [= <-]).
  - intros Hr -> E. congruence.
  - unfold store_risk. intros _ Hl E. repeat (apply bind_Some in E as (? & _ & E)). by injection E as <-.
  - unfold store_balance. intros _ Hl E. repeat (apply bind_Some in E as (? & _ & E)). by injection E as <-.
  - unfold store_position. intros _ Hl E. repeat (apply bind_Some in E as (? & _ & E)). by injection E as <-.
  - unfold store_execution. intros Hr [=] E. apply bind_Some in Hr as (p & Hp & Hr), E as (p' & Hp' & E).
    apply bind_Some in Hr as (q & Hq & Hr), E as (q' & Hq' & E). destruct r, x; cbn in *. by simplify_eq.
Qed.
End values.

(** ** Tables without two rows of the same key *)

Section conflicts.
Context (t : TableTag).

Definition apart (a b : Row t) : Prop := row_conflict b a = false.
Definition conflict_free : list (Row t) → Prop := List.ForallOrdPairs apart.

Lemma conflict_free_snoc l r : conflict_free l → existsb (row_conflict r) l = false → conflict_free (l ++ [r]).
Proof.
  induction 1 as [|x l Hx Hl IH]; cbn; [by repeat constructor|]. intros [Hr Hrs]%orb_false_iff.
  constructor; [|by apply IH]. apply List.Forall_app. split; [done|by constructor].
Qed.

Lemma conflict_free_filter p l : conflict_free l → conflict_free (List.filter p l).
Proof.
  induction 1 as [|x l Hx Hl IH]; cbn; [constructor|]. destruct (p x); [|done]. constructor; [|done].
  apply List.Forall_forall. intros y [Hy _]%List.filter_In. by eapply List.Forall_forall in Hy.
Qed.

Lemma conflict_free_app l k : conflict_free (l ++ k) → conflict_free l.
Proof.
  induction l as [|x l IH]; cbn; intros Hl; [constructor|]. inversion Hl as [|? ? Hx Hrest]; subst.
  apply List.Forall_app in Hx as [Hx _]. constructor; [done|by apply IH].
Qed.

Lemma conflict_free_last l r x : conflict_free (l ++ [r]) → x ∈ l → row_conflict r x = false.
Proof.
  induction l as [|y l IH]; cbn; intros Hl Hx; [by apply elem_of_nil in Hx|]. inversion Hl as [|? ? Hy Hrest]; subst.
  apply elem_of_cons in Hx as [->|Hx]; [|by apply IH]. apply List.Forall_app in Hy as [_ Hy]. by inversion Hy.
Qed.

Lemma conflict_free_lasting l l' :
  map (lasting t) l' = map (lasting t) l → conflict_free l → conflict_free l'.
Proof.
  intros E Hl. revert l' E. induction Hl as [|x l Hx Hl IH]; intros l' E; destruct l' as [|x' l']; try discriminate E; [constructor|].
  injection E as Ex El.
  constructor; [|by apply IH]. apply List.Forall_forall. intros y' Hy'.
  assert (In (lasting t y') (map (lasting t) l)) as (y & Hy & Hin)%List.in_map_iff by
    (rewrite <- El; by apply List.in_map). unfold apart.
  destruct (conflict_lasting t y' y x' (eq_sym Hy)) as [-> _]. destruct (conflict_lasting t x' x y Ex) as [_ ->].
  exact (proj1 (List.Forall_forall _ _) Hx y Hin).
Qed.

Lemma conflict_free_unique l a b : conflict_free l → In a l → In b l → row_id a = row_id b → a = b.
Proof.
  intros Hl Ha Hb Heq. destruct (List.ForallOrdPairs_In Hl a b Ha Hb) as [?|[Hc|Hc]]; [done| |];
    exfalso; unfold apart in Hc; rewrite conflict_same_id in Hc; congruence.
Qed.
End conflicts.

(** ** The invariant *)

Section lasts.
Context `{Database} `{!DatabaseLaws}.

Definition well_typed (d : Db) : Prop :=
  ∀ t, Forall (stored (R:=Row t)) (tbl d) ∧ conflict_free t (tbl d).

(** [d'] has the rows of [d], in the same places, with what lasts of them. *)
Definition extends (d d' : Db) : Prop :=
  ∀ t, permanent t = true → map (lasting t) (tbl d) `prefix_of` map (lasting t) (tbl d').

#[export] Instance extends_preorder : PreOrder extends.
Proof.
  split; [by intros d t _|]. intros d1 d2 d3 H12 H23 t Ht. etrans; [by apply H12|by apply H23].
Qed.

(** A row of a permanent table is found again. *)
Lemma extends_row t d d' (r : Row t) :
  permanent t = true → extends d d' → r ∈ tbl d → ∃ r', r' ∈ tbl d' ∧ lasting t r' = lasting t r.
Proof.
  intros Hp Hx Hr. destruct (Hx t Hp) as [k Hk].
  assert (lasting t r ∈ map (lasting t) (tbl d')) as Hin
    by (rewrite Hk; apply elem_of_app; left; by apply list_elem_of_fmap_2).
  apply list_elem_of_fmap in Hin as (r' & Hl & Hr'). by exists r'.
Qed.

(** A condition on the rows of the audit log, for the programs that write them to keep. *)
Context (P : AuditLog → Prop).

Definition fits (t : TableTag) : Row t → Prop := match t with TAudit => P | _ => λ _, True end.
Definition noted (d : Db) : Prop := Forall P (db_audit d).

Lemma noted_fits t d : noted d → Forall (fits t) (tbl d).
Proof. destruct t; intros Hd; try (by apply Forall_true). exact Hd. Qed.

Lemma noted_set t l d : Forall (fits t) l → noted d → noted (set_tbl (R:=Row t) l d).
Proof. by destruct t. Qed.

Lemma fits_store t (r r' : Row t) : row_store numeric_column r = Some r' → fits t r → fits t r'.
Proof. destruct t; try done. by intros [= <-]. Qed.

Lemma fits_lasting t (r r' : Row t) : lasting t r' = lasting t r → fits t r → fits t r'.
Proof. destruct t; try done. cbn. by intros ->. Qed.

Lemma fits_rewrite t (l l' : list (Row t)) :
  map (lasting t) l' = map (lasting t) l → Forall (fits t) l → Forall (fits t) l'.
Proof.
  intros E Hl. revert l' E. induction Hl as [|r l Hr _ IH]; intros [|r' l'] E; try discriminate E; constructor.
  - injection E as E _. by eapply fits_lasting.
  - injection E as _ E. by apply IH.
Qed.

Definition lasts (d0 : Db) (w : World) : Prop :=
  well_typed (w_tx w) ∧ well_typed (w_committed w) ∧ extends d0 (w_committed w) ∧ extends (w_committed w) (w_tx w) ∧
  noted (w_new w) ∧ noted (w_tx w) ∧ noted (w_committed w).

(** A program that keeps it. *)
Definition enduring {A} (m : M A) : Prop := ∀ d0, steady (lasts d0) m.

Lemma enduring_ret {A} (a : A) : enduring (mret a).
Proof. intros d0. apply steady_ret. Qed.
Lemma enduring_gets {A} (f : World → A) : enduring (gets f).
Proof. intros d0. apply steady_gets. Qed.
Lemma enduring_raise {A} (x : Exn) : enduring (raise (A:=A) x).
Proof. intros d0. apply steady_raise. Qed.
Lemma enduring_lift {A} (o : Outcome A) : enduring (lift o).
Proof. intros d0. apply steady_lift. Qed.
Lemma enduring_bind {A B} (m : M A) (k : A → M B) : enduring m → (∀ a, enduring (k a)) → enduring (m ≫= k).
Proof. intros Hm Hk d0. apply steady_bind; [apply Hm|intros a; apply Hk]. Qed.
Lemma enduring_try {A} (m : M A) (h : Exn → option (M A)) :
  enduring m → (∀ x k, h x = Some k → enduring k) → enduring (try_except m h).
Proof. intros Hm Hh d0. apply steady_try; [apply Hm|intros x k E; by apply (Hh x k E)]. Qed.
Lemma enduring_mapM {A B} (f : A → M B) (l : list A) : (∀ x, enduring (f x)) → enduring (mapM f l).
Proof. intros Hf d0. apply steady_mapM. intros x. apply Hf. Qed.
Lemma enduring_run_all (ms : list (M unit)) : (∀ m, m ∈ ms → enduring m) → enduring (run_all ms).
Proof. intros Hms d0. apply steady_run_all. intros m Hm. by apply Hms. Qed.

(** What leaves the database alone: drawing identifiers and emitting events. *)
Lemma enduring_aside {A} (m : M A) :
  (∀ w, w_tx (m w).2 = w_tx w ∧ w_committed (m w).2 = w_committed w ∧ w_new (m w).2 = w_new w) → enduring m.
Proof. intros Hm d0 w Hw. destruct (Hm w) as (Ht & Hc & Hn). unfold lasts. by rewrite Ht, Hc, Hn. Qed.
Lemma enduring_draw {A} (f : nat → A) : enduring (λ w, (Ok (f (w_next w)), set_next (S (w_next w)) w)).
Proof. by apply enduring_aside. Qed.
Lemma enduring_new_id : enduring new_id.
Proof. by apply enduring_aside. Qed.
Lemma enduring_emit ev : enduring (emit ev).
Proof. by apply enduring_aside. Qed.
Lemma enduring_quiet (m : M unit) : quiet m → enduring m.
Proof. intros Hq. apply enduring_aside. intros w. by destruct (Hq w) as (evs & _ & ->). Qed.

(** Writing one table of the open transaction. *)
Lemma lasts_write t l d0 w :
  Forall stored l → conflict_free t l → Forall (fits t) l →
  (permanent t = true → map (lasting t) (tbl (w_tx w)) `prefix_of` map (lasting t) l) →
  lasts d0 w → lasts d0 (set_tx (set_tbl (R:=Row t) l (w_tx w)) w).
Proof.
  intros Hs Hf Ha Hp (Ht & Hc & He & Hx & Hnn & Hnt & Hnc).
  split; [|split; [done|split; [done|split; [|split; [done|split; [by apply noted_set|done]]]]]].
  - intros t'. cbn. destruct (decide (t = t')) as [<-|Hne]; [by rewrite tbl_set_same|].
    rewrite tbl_set_other by congruence. apply Ht.
  - intros t' Hp'. cbn. destruct (decide (t = t')) as [<-|Hne].
    + rewrite tbl_set_same. etrans; [by apply Hx|by apply Hp].
    + rewrite tbl_set_other by congruence. by apply Hx.
Qed.

(** The same rows as far as they last. *)
Lemma lasts_rewrite t l d0 w :
  Forall stored l → map (lasting t) l = map (lasting t) (tbl (w_tx w)) →
  lasts d0 w → lasts d0 (set_tx (set_tbl (R:=Row t) l (w_tx w)) w).
Proof.
  intros Hs Hl Hw. apply lasts_write; [done| | |by rewrite Hl|done].
  - eapply conflict_free_lasting; [exact Hl|]. apply Hw.
  - eapply fits_rewrite; [exact Hl|]. by apply noted_fits, Hw.
Qed.

Lemma enduring_add t (r : Row t) : fits t r → enduring (db_add r).
Proof.
  intros Hr d0 w (Ht & Hc & He & Hx & Hnn & Hn). do 4 (split; [done|]). split; [|done].
  apply noted_set; [|done]. apply Forall_app_2; [by apply noted_fits|by constructor].
Qed.

Lemma enduring_insert t (r : Row t) : fits t r → enduring (insert_row r).
Proof.
  intros Hfit d0 w Hw. unfold insert_row. destruct (row_store _ _) as [r'|] eqn:Er; [|done].
  destruct (existsb _ _) eqn:Ec; [done|]. cbn. destruct (proj1 Hw t) as [Hs Hf]. apply lasts_write; [| | | |done].
  - apply Forall_app_2; [done|]. constructor; [by eapply store_stored|done].
  - by apply conflict_free_snoc.
  - apply Forall_app_2; [by apply noted_fits, Hw|]. constructor; [by eapply fits_store|done].
  - intros _. rewrite map_app. by apply prefix_app_r.
Qed.

Lemma enduring_flush_table t : enduring (flush_table (R:=Row t)).
Proof.
  intros d0 w Hw. unfold flush_table. rewrite run_bind. cbn [gets].
  assert (∀ rs, Forall (fits t) rs → enduring (insert_rows rs)) as Hrows.
  { induction 1 as [|r rs Hr _ IH]; cbn [insert_rows]; [apply enduring_ret|].
    apply enduring_bind; [by apply enduring_insert|]. by intros _. }
  refine (enduring_bind _ _ (Hrows _ _) (λ _, _) d0 w Hw); [by apply noted_fits, Hw|].
  intros d1 v (Ht & Hc & He & Hx & Hnn & Hn). do 4 (split; [done|]). split; [by apply noted_set|done].
Qed.

Lemma enduring_update t id (f : Row t → Row t) :
  (∀ r, lasting t (f r) = lasting t r) → enduring (db_update id f).
Proof.
  intros Hf d0 w Hw. unfold db_update. destruct (find_first _ _) as [r|] eqn:Er; [|done].
  destruct (row_store _ _) as [r'|] eqn:Es; [|done]. cbn. destruct (proj1 Hw t) as [Hs Hc].
  apply find_first_Some in Er as [Hr Hid%String.eqb_eq].
  apply lasts_rewrite; [| |done].
  - apply Forall_forall. intros x (y & Hy & ->)%elem_of_update_where. case_match; [by eapply store_stored|].
    by eapply Forall_forall in Hs.
  - unfold update_where. rewrite map_map. apply map_ext_in. intros x Hx. destruct (String.eqb_spec (row_id x) id) as [Hxi|]; [|done].
    assert (x = r) as -> by (apply (conflict_free_unique t (tbl (w_tx w))); [done|done|by apply list_elem_of_In|congruence]).
    apply (store_lasting t r (f r)); [|apply Hf|done]. by eapply Forall_forall in Hs.
Qed.

Lemma enduring_update_all t (f : Row t → Row t) :
  (∀ r, lasting t (f r) = lasting t r) → (∀ r, stored r → stored (f r)) → enduring (db_update_all f).
Proof.
  intros Hf Hst d0 w Hw. cbn. destruct (proj1 Hw t) as [Hs Hc]. apply lasts_rewrite; [| |done].
  - apply Forall_forall. intros x (y & -> & Hy)%list_elem_of_fmap. apply Hst. by eapply Forall_forall in Hs.
  - rewrite map_map. by apply map_ext.
Qed.

Lemma enduring_delete t id : permanent t = false → enduring (db_delete (R:=Row t) id).
Proof.
  intros Hp d0 w Hw. cbn. destruct (proj1 Hw t) as [Hs Hc]. apply lasts_write; [| | |by rewrite Hp|done].
  - apply Forall_forall. intros x [Hx _]%list_elem_of_In%List.filter_In. by eapply Forall_forall, list_elem_of_In.
  - by apply conflict_free_filter.
  - assert (Forall (fits t) (tbl (w_tx w))) as Hn by apply noted_fits, Hw. rewrite Forall_forall in Hn.
    apply Forall_forall. intros x [Hx _]%list_elem_of_In%List.filter_In. by apply Hn, list_elem_of_In.
Qed.

Lemma enduring_flush : enduring flush.
Proof.
  apply enduring_run_all. intros m. change flush_order with (map (λ t, flush_table (R:=Row t)) all_tables).
  intros (t & -> & _)%list_elem_of_fmap. apply enduring_flush_table.
Qed.
Lemma enduring_commit : enduring commit.
Proof.
  apply enduring_bind; [apply enduring_flush|]. intros _ d0 w (Ht & Hc & He & Hx & Hnn & Hnt & Hnc).
  split; [done|]. split; [done|]. split; [by etrans|]. split; [by intros t _|]. done.
Qed.
Lemma enduring_add_commit t (r : Row t) : fits t r → enduring (add_commit r).
Proof. intros Hr. apply enduring_bind; [by apply enduring_add|]. intros _. apply enduring_commit. Qed.
Lemma enduring_add_flush t (r : Row t) : fits t r → enduring (add_flush r).
Proof. intros Hr. apply enduring_bind; [by apply enduring_add|]. intros _. apply enduring_flush. Qed.
End lasts.

(** ** The rules as a tactic *)

Create HintDb enduring.

Ltac tag_of R :=
  lazymatch R with
  | User => TUsers | UserPermission => TPermissions | ExchangeAccount => TAccounts | ApiKeySecret => TSecrets
  | TradingSignal => TSignals | RiskSetting => TRisk | Balance => TBalances | Position => TPositions
  | OrderExecution => TExecutions | OrderExecutionTransition => TTransitions | AuditLog => TAudit
  | SystemEvent => TEvents | InternalNotification => TNotifications | NotificationPreference => TPreferences
  | SystemControl => TControls
  end.

(** An attribute write that leaves alone what lasts. *)
Ltac same_lasting := first [by intros [] | intros ?; by repeat case_match | intros; solve [eauto 2 with enduring]].

(** A new row: only those of the audit log are subject to a condition. *)
Ltac fitting := first [exact I | cbn [fits]; solve [eauto 2 with enduring] | cbn [fits]].

Ltac enduring_step :=
  lazymatch goal with
  | |- enduring _ (mret _) => apply enduring_ret
  | |- enduring _ (raise _) => apply enduring_raise
  | |- enduring _ (lift _) => apply enduring_lift
  | |- enduring _ (gets _) => apply enduring_gets
  | |- enduring _ (db_scalar _) => apply enduring_gets
  | |- enduring _ (db_scalars _) => apply enduring_gets
  | |- enduring _ (db_get _) => apply enduring_gets
  | |- enduring _ now_utc => apply enduring_gets
  | |- enduring _ new_id => apply enduring_new_id
  | |- enduring _ (emit _) => apply enduring_emit
  | |- enduring _ flush => apply enduring_flush
  | |- enduring _ commit => apply enduring_commit
  | |- enduring _ (add_commit (R:=?R) _) => let t := tag_of R in apply (enduring_add_commit _ t); fitting
  | |- enduring _ (add_flush (R:=?R) _) => let t := tag_of R in apply (enduring_add_flush _ t); fitting
  | |- enduring _ (db_add (R:=?R) _) => let t := tag_of R in apply (enduring_add _ t); fitting
  | |- enduring _ (db_update (R:=?R) _ _) => let t := tag_of R in apply (enduring_update _ t); same_lasting
  | |- enduring _ (db_update_all (R:=?R) _) => let t := tag_of R in apply (enduring_update_all _ t); [same_lasting|first [by intros ? _ | eauto 2 with enduring]]
  | |- enduring _ (db_delete (R:=?R) _) => let t := tag_of R in by apply (enduring_delete _ t)
  | |- enduring _ (mapM _ _) => apply enduring_mapM; intros ?
  | |- enduring _ (try_except _ _) => apply enduring_try; [|handler_cases]
  | |- enduring _ (_ ≫= _) => apply enduring_bind; [|intros ?]
  | |- enduring _ (match ?x with _ => _ end) => destruct x eqn:?
  end.
Ltac enduring_tac := repeat first [solve [eauto 2 with enduring] | enduring_step].

(** The rows of a database that is written down, one by one. *)
Ltac typed_rows := intros []; split; repeat constructor.
