(* ===== verification/Migrations.v ===== *)
(** The migrations of [alembic/versions] as programs over a model of PostgreSQL's DDL: the
    operations, the nine revisions in their order, the schema at each of them, and going
    back.

    An operation PostgreSQL would reject is [None]; so is a new column that the rows
    already there could not fill.  Left out: the bodies of the two trigger functions (they
    raise, whatever the row is) and the type [timestamptz] as against [timestamp] (all
    columns have the time zone). *)
From stdpp Require Import strings gmap.
From S2P Require Import Prelude.

(** ** Schemas *)

Inductive SqlType :=
| String_ (length : Z) | Boolean | Integer | Numeric (precision scale : Z) | JSON | DateTime
| Enum (names : list string).

#[export] Instance SqlType_eq_dec : EqDecision SqlType.
Proof. solve_decision. Defined.

(** The arguments of a [Column]; [nullable] is [None] where the argument is absent.  A
    server default is written as its value. *)
Inductive Attribute :=
| primary_key | nullable (b : bool) | unique | index | references (table : string) | server_default (value : string).

Record ColumnSchema := { cs_type : SqlType; cs_nullable : bool; cs_default : option string }.

#[export] Instance ColumnSchema_eq_dec : EqDecision ColumnSchema.
Proof. solve_decision. Defined.

(** Foreign keys lead from a column to the [id] of a table. *)
Record TableSchema := {
  ts_columns : list (string * ColumnSchema); ts_primary : list string;
  ts_foreign : list (string * string); ts_unique : list (list string) }.

#[export] Instance TableSchema_eq_dec : EqDecision TableSchema.
Proof. solve_decision. Defined.

Record IndexSchema := { ix_table : string; ix_columns : list string; ix_unique : bool }.

#[export] Instance IndexSchema_eq_dec : EqDecision IndexSchema.
Proof. solve_decision. Defined.

(** Tables, indexes, functions, triggers (with table and function), and the rows that
    migrations insert. *)
Record Schema := {
  sc_tables : gmap string TableSchema; sc_indexes : gmap string IndexSchema;
  sc_functions : gset string; sc_triggers : gmap string (string * string);
  sc_rows : list (string * list (string * string)) }.

#[export] Instance Schema_eq_dec : EqDecision Schema.
Proof. solve_decision. Defined.

Definition empty_schema : Schema :=
  {| sc_tables := ∅; sc_indexes := ∅; sc_functions := ∅; sc_triggers := ∅; sc_rows := [] |}.

(** ** Operations *)

Inductive Item :=
| Column (name : string) (type : SqlType) (attributes : list Attribute)
| ForeignKeyConstraint (column table : string)
| PrimaryKeyConstraint (column : string)
| UniqueConstraint (columns : list string).

Inductive Op :=
| create_table (name : string) (items : list Item)
| drop_table (name : string)
| create_index (name table : string) (columns : list string) (unique_ : bool)
| drop_index (name table : string)
| add_column (table : string) (column : Item)
| drop_column (table column : string)
| create_function (name : string)
| create_trigger (name table function : string)
| drop_trigger_if_exists (name table : string)
| drop_function_if_exists (name : string)
| insert_into (table : string) (values : list (string * string)).

Definition is_primary (a : Attribute) : bool := match a with primary_key => true | _ => false end.
Definition is_unique (a : Attribute) : bool := match a with unique => true | _ => false end.
Definition is_index (a : Attribute) : bool := match a with index => true | _ => false end.
Definition reference (a : Attribute) : option string := match a with references t => Some t | _ => None end.
Definition default_value (a : Attribute) : option string := match a with server_default v => Some v | _ => None end.
Definition nullability (a : Attribute) : option bool := match a with nullable b => Some b | _ => None end.

(** A column may be NULL unless it says otherwise or is the primary key. *)
Definition column_schema (nullable_by_default : bool) (type : SqlType) (attrs : list Attribute) : ColumnSchema :=
  {| cs_type := type;
     cs_nullable := negb (existsb is_primary attrs) && default nullable_by_default (head (omap nullability attrs));
     cs_default := head (omap default_value attrs) |}.

Definition with_item (nullable_by_default : bool) (t : TableSchema) (i : Item) : TableSchema :=
  match i with
  | Column name type attrs =>
      {| ts_columns := ts_columns t ++ [(name, column_schema nullable_by_default type attrs)];
         ts_primary := ts_primary t ++ (if existsb is_primary attrs then [name] else []);
         ts_foreign := ts_foreign t ++ map (pair name) (omap reference attrs);
         ts_unique := ts_unique t ++ (if existsb is_unique attrs && negb (existsb is_index attrs) then [[name]] else []) |}
  | ForeignKeyConstraint c table =>
      Build_TableSchema (ts_columns t) (ts_primary t) (ts_foreign t ++ [(c, table)]) (ts_unique t)
  | PrimaryKeyConstraint c =>
      Build_TableSchema
        (map (λ p, if String.eqb p.1 c then (p.1, Build_ColumnSchema (cs_type p.2) false (cs_default p.2)) else p) (ts_columns t))
        (ts_primary t ++ [c]) (ts_foreign t) (ts_unique t)
  | UniqueConstraint cs => Build_TableSchema (ts_columns t) (ts_primary t) (ts_foreign t) (ts_unique t ++ [cs])
  end.

Definition table_of (nullable_by_default : bool) (items : list Item) : TableSchema :=
  foldl (with_item nullable_by_default) (Build_TableSchema [] [] [] []) items.

Definition has_column (t : TableSchema) (c : string) : bool := existsb (λ p, String.eqb p.1 c) (ts_columns t).
Definition NoDup_b {A} `{EqDecision A} (l : list A) : bool := bool_decide (NoDup l).

(** Columns are named once, constraints speak of them, references lead to tables. *)
Definition table_ok (s : Schema) (name : string) (t : TableSchema) : bool :=
  NoDup_b (map fst (ts_columns t)) &&
  forallb (has_column t) (ts_primary t ++ map fst (ts_foreign t) ++ concat (ts_unique t)) &&
  forallb (λ f, String.eqb f.2 name || bool_decide (is_Some (sc_tables s !! f.2))) (ts_foreign t) &&
  Nat.leb (length (ts_primary t)) 1.

Definition set_tables (ts : gmap string TableSchema) (s : Schema) : Schema :=
  Build_Schema ts (sc_indexes s) (sc_functions s) (sc_triggers s) (sc_rows s).
Definition set_indexes (ix : gmap string IndexSchema) (s : Schema) : Schema :=
  Build_Schema (sc_tables s) ix (sc_functions s) (sc_triggers s) (sc_rows s).
Definition set_functions (f : gset string) (s : Schema) : Schema :=
  Build_Schema (sc_tables s) (sc_indexes s) f (sc_triggers s) (sc_rows s).
Definition set_triggers (t : gmap string (string * string)) (s : Schema) : Schema :=
  Build_Schema (sc_tables s) (sc_indexes s) (sc_functions s) t (sc_rows s).

(** Another table refers to this one. *)
Definition referenced (s : Schema) (name : string) : bool :=
  existsb (λ p, negb (String.eqb p.1 name) && existsb (λ f, String.eqb f.2 name) (ts_foreign p.2))
    (map_to_list (sc_tables s)).

(** An INSERT names columns, and all that may not be NULL and have no default. *)
Definition row_ok (t : TableSchema) (names : list string) : bool :=
  forallb (has_column t) names &&
  forallb (λ p, cs_nullable p.2 || negb (is_none (cs_default p.2)) || existsb (String.eqb p.1) names) (ts_columns t).

(** Rows already in the table get the default, or NULL. *)
Definition fillable (i : Item) : bool :=
  match i with
  | Column _ type attrs => let c := column_schema true type attrs in cs_nullable c || negb (is_none (cs_default c))
  | _ => true
  end.

Definition guard_some {A} (b : bool) (a : A) : option A := if b then Some a else None.

Definition apply_op (o : Op) (s : Schema) : option Schema :=
  match o with
  | create_table name items =>
      let t := table_of true items in
      guard_some (is_none (sc_tables s !! name) && table_ok s name t) (set_tables (<[name := t]> (sc_tables s)) s)
  | drop_table name =>
      guard_some (bool_decide (is_Some (sc_tables s !! name)) && negb (referenced s name))
        {| sc_tables := delete name (sc_tables s);
           sc_indexes := filter (λ p, ix_table p.2 ≠ name) (sc_indexes s);
           sc_functions := sc_functions s;
           sc_triggers := filter (λ p, p.2.1 ≠ name) (sc_triggers s);
           sc_rows := filter (λ r, r.1 ≠ name) (sc_rows s) |}
  | create_index name table columns u =>
      t ← sc_tables s !! table;
      guard_some (is_none (sc_indexes s !! name) && forallb (has_column t) columns)
        (set_indexes (<[name := Build_IndexSchema table columns u]> (sc_indexes s)) s)
  | drop_index name table =>
      i ← sc_indexes s !! name;
      guard_some (String.eqb (ix_table i) table) (set_indexes (delete name (sc_indexes s)) s)
  | add_column table column =>
      t ← sc_tables s !! table;
      let t' := with_item true t column in
      guard_some (table_ok s table t' && fillable column) (set_tables (<[table := t']> (sc_tables s)) s)
  | drop_column table c =>
      t ← sc_tables s !! table;
      guard_some (has_column t c && negb (String.eqb c "id" && referenced s table))
        (set_indexes (filter (λ p, ¬ (ix_table p.2 = table ∧ c ∈ ix_columns p.2)) (sc_indexes s))
          (set_tables (<[table :=
             Build_TableSchema (filter (λ p, p.1 ≠ c) (ts_columns t)) (filter (λ x, x ≠ c) (ts_primary t))
               (filter (λ p, p.1 ≠ c) (ts_foreign t)) (filter (λ u, c ∉ u) (ts_unique t))]> (sc_tables s)) s))
  | create_function name => Some (set_functions ({[ name ]} ∪ sc_functions s) s)
  | create_trigger name table function =>
      guard_some (is_none (sc_triggers s !! name) && bool_decide (is_Some (sc_tables s !! table)) &&
                  bool_decide (function ∈ sc_functions s))
        (set_triggers (<[name := (table, function)]> (sc_triggers s)) s)
  | drop_trigger_if_exists name table =>
      guard_some (bool_decide (is_Some (sc_tables s !! table)))
        (set_triggers (filter (λ p, ¬ (p.1 = name ∧ p.2.1 = table)) (sc_triggers s)) s)
  | drop_function_if_exists name =>
      guard_some (negb (existsb (λ p, String.eqb p.2.2 name) (map_to_list (sc_triggers s))))
        (set_functions (sc_functions s ∖ {[ name ]}) s)
  | insert_into table values =>
      t ← sc_tables s !! table;
      guard_some (row_ok t (map fst values))
        (Build_Schema (sc_tables s) (sc_indexes s) (sc_functions s) (sc_triggers s) (sc_rows s ++ [(table, values)]))
  end.

Definition apply_ops (ops : list Op) (s : Schema) : option Schema :=
  foldl (λ r o, r ≫= apply_op o) (Some s) ops.

(** ** The revisions *)

Record Revision := {
  revision : string; down_revision : option string; upgrade : list Op; downgrade : list Op }.

(** *** 0001_initial_schema *)

Definition create_users : list Op :=
  [ create_table "users"
    [ Column "id" (String_ 36) [primary_key];
      Column "email" (String_ 255) [nullable false];
      Column "username" (String_ 80) [nullable false];
      Column "password_hash" (String_ 255) [nullable false];
      Column "role" (String_ 40) [nullable false];
      Column "is_active" Boolean [nullable false];
      Column "created_at" DateTime [server_default "now()"];
      Column "updated_at" DateTime [server_default "now()"] ];
    create_index "ix_users_email" "users" ["email"] true;
    create_index "ix_users_username" "users" ["username"] true ].

Definition create_exchange_accounts : list Op :=
  [ create_table "exchange_accounts"
    [ Column "id" (String_ 36) [primary_key];
      Column "user_id" (String_ 36) [references "users"; nullable false];
      Column "exchange_name" (String_ 40) [nullable false];
      Column "account_mode" (String_ 20) [nullable false];
      Column "account_label" (String_ 120) [nullable false];
      Column "trading_enabled" Boolean [nullable false];
      Column "is_active" Boolean [nullable false];
      Column "created_at" DateTime [server_default "now()"];
      Column "updated_at" DateTime [server_default "now()"] ];
    create_index "ix_exchange_accounts_user_id" "exchange_accounts" ["user_id"] false ].

Definition create_api_key_secrets : list Op :=
  [ create_table "api_key_secrets"
    [ Column "id" (String_ 36) [primary_key];
      Column "user_id" (String_ 36) [references "users"; nullable false];
      Column "exchange_account_id" (String_ 36) [references "exchange_accounts"; nullable false];
      Column "encrypted_api_key" (String_ 512) [nullable false];
      Column "encrypted_api_secret" (String_ 512) [nullable false];
      Column "encrypted_passphrase" (String_ 512) [nullable true];
      Column "created_at" DateTime [server_default "now()"];
      Column "updated_at" DateTime [server_default "now()"];
      UniqueConstraint ["exchange_account_id"] ];
    create_index "ix_api_key_secrets_user_id" "api_key_secrets" ["user_id"] false;
    create_index "ix_api_key_secrets_exchange_account_id" "api_key_secrets" ["exchange_account_id"] false ].

Definition create_user_permissions : list Op :=
  [ create_table "user_permissions"
    [ Column "id" (String_ 36) [primary_key];
      Column "owner_user_id" (String_ 36) [references "users"; nullable false];
      Column "grantee_user_id" (String_ 36) [references "users"; nullable false];
      Column "view_only" Boolean [nullable false];
      Column "copy_follow" Boolean [nullable false];
      Column "pause_follow" Boolean [nullable false];
      Column "edit_copy_rule" Boolean [nullable false];
      Column "trade_manual" Boolean [nullable false];
      Column "created_at" DateTime [server_default "now()"];
      Column "updated_at" DateTime [server_default "now()"];
      UniqueConstraint ["owner_user_id"; "grantee_user_id"] ];
    create_index "ix_user_permissions_owner_user_id" "user_permissions" ["owner_user_id"] false;
    create_index "ix_user_permissions_grantee_user_id" "user_permissions" ["grantee_user_id"] false ].

Definition create_trading_signals : list Op :=
  [ create_table "trading_signals"
    [ Column "id" (String_ 36) [primary_key];
      Column "user_id" (String_ 36) [references "users"; nullable false];
      Column "source" (String_ 40) [nullable false];
      Column "symbol" (String_ 40) [nullable false];
      Column "side" (String_ 10) [nullable false];
      Column "order_type" (String_ 20) [nullable false];
      Column "price" (Numeric 28 10) [nullable true];
      Column "quantity" (Numeric 28 10) [nullable true];
      Column "target_position_quantity" (Numeric 28 10) [nullable true];
      Column "raw_payload" JSON [nullable true];
      Column "created_at" DateTime [server_default "now()"] ];
    create_index "ix_trading_signals_user_id" "trading_signals" ["user_id"] false ].

Definition create_risk_settings : list Op :=
  [ create_table "risk_settings"
    [ Column "id" (String_ 36) [primary_key];
      Column "user_id" (String_ 36) [references "users"; nullable false];
      Column "exchange_account_id" (String_ 36) [references "exchange_accounts"; nullable false];
      Column "trading_enabled" Boolean [nullable false];
      Column "max_single_order_notional" (Numeric 28 10) [nullable true];
      Column "max_position_notional" (Numeric 28 10) [nullable true];
      Column "max_leverage" (Numeric 12 4) [nullable true];
      Column "min_order_quantity" (Numeric 28 10) [nullable true];
      Column "max_order_quantity" (Numeric 28 10) [nullable true];
      Column "blocked_symbols" JSON [nullable false];
      Column "created_at" DateTime [server_default "now()"];
      Column "updated_at" DateTime [server_default "now()"];
      UniqueConstraint ["exchange_account_id"] ];
    create_index "ix_risk_settings_user_id" "risk_settings" ["user_id"] false;
    create_index "ix_risk_settings_exchange_account_id" "risk_settings" ["exchange_account_id"] false ].

Definition create_positions : list Op :=
  [ create_table "positions"
    [ Column "id" (String_ 36) [primary_key];
      Column "user_id" (String_ 36) [references "users"; nullable false];
      Column "exchange_account_id" (String_ 36) [references "exchange_accounts"; nullable false];
      Column "symbol" (String_ 40) [nullable false];
      Column "quantity" (Numeric 28 10) [nullable false];
      Column "updated_at" DateTime [server_default "now()"];
      UniqueConstraint ["exchange_account_id"; "symbol"] ];
    create_index "ix_positions_user_id" "positions" ["user_id"] false;
    create_index "ix_positions_exchange_account_id" "positions" ["exchange_account_id"] false ].

Definition create_order_executions : list Op :=
  [ create_table "order_executions"
    [ Column "id" (String_ 36) [primary_key];
      Column "user_id" (String_ 36) [references "users"; nullable false];
      Column "signal_id" (String_ 36) [references "trading_signals"; nullable true];
      Column "execution_id" (String_ 36) [nullable false; unique];
      Column "exchange_account_id" (String_ 36) [references "exchange_accounts"; nullable true];
      Column "exchange_name" (String_ 40) [nullable false];
      Column "client_order_id" (String_ 80) [nullable false; unique];
      Column "exchange_order_id" (String_ 120) [nullable true];
      Column "symbol" (String_ 40) [nullable false];
      Column "side" (String_ 10) [nullable false];
      Column "order_type" (String_ 20) [nullable false];
      Column "price" (Numeric 28 10) [nullable true];
      Column "quantity" (Numeric 28 10) [nullable false];
      Column "status" (String_ 40) [nullable false];
      Column "risk_result" JSON [nullable true];
      Column "exchange_response" JSON [nullable true];
      Column "error_message" (String_ 500) [nullable true];
      Column "created_at" DateTime [server_default "now()"];
      Column "updated_at" DateTime [server_default "now()"];
      UniqueConstraint ["signal_id"; "exchange_account_id"] ];
    create_index "ix_order_executions_user_id" "order_executions" ["user_id"] false;
    create_index "ix_order_executions_signal_id" "order_executions" ["signal_id"] false;
    create_index "ix_order_executions_exchange_account_id" "order_executions" ["exchange_account_id"] false ].

Definition initial_schema_upgrade : list Op :=
  create_users ++ create_exchange_accounts ++ create_api_key_secrets ++ create_user_permissions ++
  create_trading_signals ++ create_risk_settings ++ create_positions ++ create_order_executions.

Definition initial_schema_downgrade : list Op :=
  [ drop_table "order_executions";
    drop_table "positions";
    drop_table "risk_settings";
    drop_table "trading_signals";
    drop_table "user_permissions";
    drop_table "api_key_secrets";
    drop_table "exchange_accounts";
    drop_index "ix_users_username" "users";
    drop_index "ix_users_email" "users";
    drop_table "users" ].

Definition initial_schema_revision : Revision :=
  {| revision := "0001_initial_schema"; down_revision := None;
     upgrade := initial_schema_upgrade; downgrade := initial_schema_downgrade |}.

(** *** 202606090001_observability_tables *)

Definition observability_tables_upgrade : list Op :=
  [ create_table "audit_logs"
    [ Column "id" (String_ 36) [nullable false];
      Column "user_id" (String_ 36) [nullable false];
      Column "exchange_account_id" (String_ 36) [nullable true];
      Column "action" (String_ 120) [nullable false];
      Column "severity" (String_ 40) [nullable false];
      Column "payload" JSON [nullable false];
      Column "created_at" DateTime [server_default "now()"];
      ForeignKeyConstraint "exchange_account_id" "exchange_accounts";
      ForeignKeyConstraint "user_id" "users";
      PrimaryKeyConstraint "id" ];
    create_index "ix_audit_logs_action" "audit_logs" ["action"] false;
    create_index "ix_audit_logs_exchange_account_id" "audit_logs" ["exchange_account_id"] false;
    create_index "ix_audit_logs_severity" "audit_logs" ["severity"] false;
    create_index "ix_audit_logs_user_id" "audit_logs" ["user_id"] false;
    create_table "system_events"
    [ Column "id" (String_ 36) [nullable false];
      Column "user_id" (String_ 36) [nullable true];
      Column "exchange_account_id" (String_ 36) [nullable true];
      Column "event_type" (String_ 120) [nullable false];
      Column "severity" (String_ 40) [nullable false];
      Column "payload" JSON [nullable false];
      Column "created_at" DateTime [server_default "now()"];
      ForeignKeyConstraint "exchange_account_id" "exchange_accounts";
      ForeignKeyConstraint "user_id" "users";
      PrimaryKeyConstraint "id" ];
    create_index "ix_system_events_event_type" "system_events" ["event_type"] false;
    create_index "ix_system_events_exchange_account_id" "system_events" ["exchange_account_id"] false;
    create_index "ix_system_events_severity" "system_events" ["severity"] false;
    create_index "ix_system_events_user_id" "system_events" ["user_id"] false;
    create_table "internal_notifications"
    [ Column "id" (String_ 36) [nullable false];
      Column "user_id" (String_ 36) [nullable false];
      Column "exchange_account_id" (String_ 36) [nullable true];
      Column "channel" (String_ 40) [nullable false];
      Column "severity" (String_ 40) [nullable false];
      Column "title" (String_ 200) [nullable false];
      Column "message" (String_ 1000) [nullable false];
      Column "payload" JSON [nullable false];
      Column "is_read" Boolean [nullable false];
      Column "created_at" DateTime [server_default "now()"];
      Column "read_at" DateTime [nullable true];
      ForeignKeyConstraint "exchange_account_id" "exchange_accounts";
      ForeignKeyConstraint "user_id" "users";
      PrimaryKeyConstraint "id" ];
    create_index "ix_internal_notifications_channel" "internal_notifications" ["channel"] false;
    create_index "ix_internal_notifications_exchange_account_id" "internal_notifications" ["exchange_account_id"] false;
    create_index "ix_internal_notifications_severity" "internal_notifications" ["severity"] false;
    create_index "ix_internal_notifications_user_id" "internal_notifications" ["user_id"] false ].

Definition observability_tables_downgrade : list Op :=
  [ drop_index "ix_internal_notifications_user_id" "internal_notifications";
    drop_index "ix_internal_notifications_severity" "internal_notifications";
    drop_index "ix_internal_notifications_exchange_account_id" "internal_notifications";
    drop_index "ix_internal_notifications_channel" "internal_notifications";
    drop_table "internal_notifications";
    drop_index "ix_system_events_user_id" "system_events";
    drop_index "ix_system_events_severity" "system_events";
    drop_index "ix_system_events_exchange_account_id" "system_events";
    drop_index "ix_system_events_event_type" "system_events";
    drop_table "system_events";
    drop_index "ix_audit_logs_user_id" "audit_logs";
    drop_index "ix_audit_logs_severity" "audit_logs";
    drop_index "ix_audit_logs_exchange_account_id" "audit_logs";
    drop_index "ix_audit_logs_action" "audit_logs";
    drop_table "audit_logs" ].

Definition observability_tables_revision : Revision :=
  {| revision := "202606090001"; down_revision := Some "0001_initial_schema";
     upgrade := observability_tables_upgrade; downgrade := observability_tables_downgrade |}.

(** *** 202606120001_notification_preferences *)

Definition notification_preferences_upgrade : list Op :=
  [ create_table "notification_preferences"
    [ Column "id" (String_ 36) [nullable false];
      Column "user_id" (String_ 36) [nullable false];
      Column "internal_enabled" Boolean [nullable false];
      Column "telegram_enabled" Boolean [nullable false];
      Column "email_enabled" Boolean [nullable false];
      Column "webhook_enabled" Boolean [nullable false];
      Column "position_drift_enabled" Boolean [nullable false];
      Column "risk_rejection_enabled" Boolean [nullable false];
      Column "order_failure_enabled" Boolean [nullable false];
      Column "created_at" DateTime [server_default "now()"];
      Column "updated_at" DateTime [server_default "now()"];
      ForeignKeyConstraint "user_id" "users";
      PrimaryKeyConstraint "id";
      UniqueConstraint ["user_id"] ];
    create_index "ix_notification_preferences_user_id" "notification_preferences" ["user_id"] false ].

Definition notification_preferences_downgrade : list Op :=
  [ drop_index "ix_notification_preferences_user_id" "notification_preferences";
    drop_table "notification_preferences" ].

Definition notification_preferences_revision : Revision :=
  {| revision := "202606120001"; down_revision := Some "202606090001";
     upgrade := notification_preferences_upgrade; downgrade := notification_preferences_downgrade |}.

(** *** 202606190001_balances *)

Definition balances_upgrade : list Op :=
  [ create_table "balances"
    [ Column "id" (String_ 36) [nullable false];
      Column "user_id" (String_ 36) [nullable false];
      Column "exchange_account_id" (String_ 36) [nullable false];
      Column "asset" (String_ 40) [nullable false];
      Column "available_quantity" (Numeric 28 10) [nullable false];
      Column "locked_quantity" (Numeric 28 10) [nullable false];
      Column "total_quantity" (Numeric 28 10) [nullable false];
      Column "updated_at" DateTime [server_default "now()"];
      ForeignKeyConstraint "exchange_account_id" "exchange_accounts";
      ForeignKeyConstraint "user_id" "users";
      PrimaryKeyConstraint "id";
      UniqueConstraint ["exchange_account_id"; "asset"] ];
    create_index "ix_balances_user_id" "balances" ["user_id"] false;
    create_index "ix_balances_exchange_account_id" "balances" ["exchange_account_id"] false ].

Definition balances_downgrade : list Op :=
  [ drop_index "ix_balances_exchange_account_id" "balances";
    drop_index "ix_balances_user_id" "balances";
    drop_table "balances" ].

Definition balances_revision : Revision :=
  {| revision := "202606190001"; down_revision := Some "202606120001";
     upgrade := balances_upgrade; downgrade := balances_downgrade |}.

(** *** 202606200001_user_auth_version *)

Definition user_auth_version_upgrade : list Op :=
  [ add_column "users" (Column "auth_version" Integer [server_default "0"; nullable false]) ].

Definition user_auth_version_downgrade : list Op :=
  [ drop_column "users" "auth_version" ].

Definition user_auth_version_revision : Revision :=
  {| revision := "202606200001"; down_revision := Some "202606190001";
     upgrade := user_auth_version_upgrade; downgrade := user_auth_version_downgrade |}.

(** *** 202606200002_user_mfa *)

Definition user_mfa_upgrade : list Op :=
  [ add_column "users" (Column "mfa_enabled" Boolean [server_default "false"; nullable false]);
    add_column "users" (Column "mfa_secret_encrypted" (String_ 512) [nullable true]);
    add_column "users" (Column "mfa_pending_secret_encrypted" (String_ 512) [nullable true]);
    add_column "users" (Column "mfa_last_used_step" Integer [nullable true]);
    add_column "users" (Column "mfa_recovery_code_hashes" JSON [server_default "[]"; nullable false]) ].

Definition user_mfa_downgrade : list Op :=
  [ drop_column "users" "mfa_recovery_code_hashes";
    drop_column "users" "mfa_last_used_step";
    drop_column "users" "mfa_pending_secret_encrypted";
    drop_column "users" "mfa_secret_encrypted";
    drop_column "users" "mfa_enabled" ].

Definition user_mfa_revision : Revision :=
  {| revision := "202606200002"; down_revision := Some "202606200001";
     upgrade := user_mfa_upgrade; downgrade := user_mfa_downgrade |}.

(** *** 202607010001_audit_log_append_only *)

Definition audit_log_append_only_upgrade : list Op :=
  [ create_function "prevent_audit_logs_mutation";
    create_trigger "trg_audit_logs_append_only" "audit_logs" "prevent_audit_logs_mutation" ].

Definition audit_log_append_only_downgrade : list Op :=
  [ drop_trigger_if_exists "trg_audit_logs_append_only" "audit_logs";
    drop_function_if_exists "prevent_audit_logs_mutation" ].

Definition audit_log_append_only_revision : Revision :=
  {| revision := "202607010001"; down_revision := Some "202606200002";
     upgrade := audit_log_append_only_upgrade; downgrade := audit_log_append_only_downgrade |}.

(** *** 202607110001_global_emergency_stop *)

Definition global_emergency_stop_upgrade : list Op :=
  [ create_table "system_controls"
    [ Column "id" (String_ 40) [nullable false];
      Column "emergency_stop_enabled" Boolean [server_default "false"; nullable false];
      Column "reason" (String_ 500) [nullable true];
      Column "changed_by_user_id" (String_ 36) [nullable true];
      Column "changed_at" DateTime [server_default "now()"; nullable false];
      ForeignKeyConstraint "changed_by_user_id" "users";
      PrimaryKeyConstraint "id" ];
    create_index "ix_system_controls_changed_by_user_id" "system_controls" ["changed_by_user_id"] false;
    insert_into "system_controls" [("id", "global"); ("emergency_stop_enabled", "false"); ("reason", "Initial migration state")] ].

Definition global_emergency_stop_downgrade : list Op :=
  [ drop_index "ix_system_controls_changed_by_user_id" "system_controls";
    drop_table "system_controls" ].

Definition global_emergency_stop_revision : Revision :=
  {| revision := "202607110001"; down_revision := Some "202607010001";
     upgrade := global_emergency_stop_upgrade; downgrade := global_emergency_stop_downgrade |}.

(** *** 202607110002_order_execution_transitions *)

Definition order_execution_transitions_upgrade : list Op :=
  [ create_table "order_execution_transitions"
    [ Column "id" (String_ 36) [nullable false];
      Column "user_id" (String_ 36) [nullable false];
      Column "order_execution_id" (String_ 36) [nullable false];
      Column "sequence_number" Integer [nullable false];
      Column "from_status" (String_ 32) [nullable true];
      Column "to_status" (String_ 32) [nullable false];
      Column "reason" (String_ 120) [nullable false];
      Column "details" JSON [nullable true];
      Column "created_at" DateTime [server_default "now()"; nullable false];
      ForeignKeyConstraint "order_execution_id" "order_executions";
      ForeignKeyConstraint "user_id" "users";
      PrimaryKeyConstraint "id";
      UniqueConstraint ["order_execution_id"; "sequence_number"] ];
    create_index "ix_order_execution_transitions_order_execution_id" "order_execution_transitions" ["order_execution_id"] false;
    create_index "ix_order_execution_transitions_user_id" "order_execution_transitions" ["user_id"] false;
    create_function "prevent_order_execution_transitions_mutation";
    create_trigger "trg_order_execution_transitions_append_only" "order_execution_transitions" "prevent_order_execution_transitions_mutation" ].

Definition order_execution_transitions_downgrade : list Op :=
  [ drop_trigger_if_exists "trg_order_execution_transitions_append_only" "order_execution_transitions";
    drop_function_if_exists "prevent_order_execution_transitions_mutation";
    drop_index "ix_order_execution_transitions_user_id" "order_execution_transitions";
    drop_index "ix_order_execution_transitions_order_execution_id" "order_execution_transitions";
    drop_table "order_execution_transitions" ].

Definition order_execution_transitions_revision : Revision :=
  {| revision := "202607110002"; down_revision := Some "202607110001";
     upgrade := order_execution_transitions_upgrade; downgrade := order_execution_transitions_downgrade |}.

(** The files of [alembic/versions]. *)
Definition versions : list Revision :=
  [ initial_schema_revision; observability_tables_revision; notification_preferences_revision;
    balances_revision; user_auth_version_revision; user_mfa_revision; audit_log_append_only_revision;
    global_emergency_stop_revision; order_execution_transitions_revision ].

(** The order in which Alembic applies them: each revision names its predecessor. *)
Fixpoint lineage (fuel : nat) (base : option string) (rs : list Revision) : list Revision :=
  match fuel with
  | O => []
  | S f =>
      match find (λ r, bool_decide (down_revision r = base)) rs with
      | None => []
      | Some r => r :: lineage f (Some (revision r)) rs
      end
  end.

Definition history : list Revision := lineage (S (length versions)) None versions.

Definition upgrades (rs : list Revision) (s : Schema) : option Schema := foldl (λ o r, o ≫= apply_ops (upgrade r)) (Some s) rs.
Definition downgrades (rs : list Revision) (s : Schema) : option Schema := foldr (λ r o, o ≫= apply_ops (downgrade r)) (Some s) rs.

(** The revisions after the first [i] up to the first [j]. *)
Definition between_revisions (i j : nat) : list Revision := drop i (take j history).

(** The schema with the first [n] revisions applied; [migrated] has them all. *)
Definition at_revision (n : nat) : option Schema := upgrades (take n history) empty_schema.
Definition migrated : Schema := default empty_schema (at_revision (length history)).

(** ** Going up and down *)

Lemma upgrades_app rs rs' s : upgrades (rs ++ rs') s = upgrades rs s ≫= upgrades rs'.
Proof.
  unfold upgrades. rewrite foldl_app. destruct (foldl _ (Some s) rs); [done|]. cbn. by induction rs'.
Qed.

Lemma downgrades_snoc rs r s : downgrades (rs ++ [r]) s = apply_ops (downgrade r) s ≫= downgrades rs.
Proof.
  unfold downgrades. rewrite foldr_app. cbn. destruct (apply_ops (downgrade r) s); [done|]. cbn.
  induction rs as [|r' rs IH]; [done|]. cbn. by rewrite IH.
Qed.

Lemma between_snoc i j r : i ≤ j → history !! j = Some r → between_revisions i (S j) = between_revisions i j ++ [r].
Proof.
  intros Hij Hr. unfold between_revisions. rewrite (take_S_r _ _ _ Hr), drop_app_le; [done|].
  rewrite length_take. apply lookup_lt_Some in Hr. lia.
Qed.

Lemma upgrades_cons r rs s : upgrades (r :: rs) s = apply_ops (upgrade r) s ≫= upgrades rs.
Proof. change (r :: rs) with ([r] ++ rs). rewrite upgrades_app. done. Qed.

(** Each revision applies where its predecessors lead, and its downgrade undoes it. *)
Fixpoint undone (rs : list Revision) (s : Schema) : bool :=
  match rs with
  | [] => true
  | r :: rs =>
      match apply_ops (upgrade r) s with
      | Some s' => bool_decide (apply_ops (downgrade r) s' = Some s) && undone rs s'
      | None => false
      end
  end.

Lemma undone_defined rs s n : undone rs s = true → is_Some (upgrades (take n rs) s).
Proof.
  revert s n. induction rs as [|r rs IH]; intros s [|n] Hu; [by eexists..|].
  cbn [undone take] in *. rewrite upgrades_cons. destruct (apply_ops (upgrade r) s) as [s'|]; [|done].
  apply andb_true_iff in Hu as [_ Hu]. by apply IH.
Qed.

Lemma undone_step rs s n r :
  undone rs s = true → rs !! n = Some r →
  ∃ a b, upgrades (take n rs) s = Some a ∧ apply_ops (upgrade r) a = Some b ∧ apply_ops (downgrade r) b = Some a.
Proof.
  revert s n. induction rs as [|r' rs IH]; intros s n Hu Hr; [done|].
  cbn [undone] in Hu. destruct (apply_ops (upgrade r') s) as [s'|] eqn:E; [|done].
  apply andb_true_iff in Hu as [Hd%bool_decide_eq_true Hu]. destruct n as [|n].
  - injection Hr as <-. by exists s, s'.
  - cbn [take]. rewrite upgrades_cons, E. by apply IH.
Qed.

Lemma history_undone : undone history empty_schema = true.
Proof. vm_compute. reflexivity. Qed.

(** C36. Every series of revisions applies to the schema its predecessors leave, and taking it
    back, last revision first, restores that schema exactly: no table, column, index,
    function, trigger or inserted row stays behind, none is missing.  From nothing to the
    head and back this is every file of alembic/versions, each of which names the one
    before it. *)
Theorem migrations_roundtrip i j :
  i ≤ j ≤ length history →
  ∃ s s', at_revision i = Some s ∧ at_revision j = Some s' ∧
    upgrades (between_revisions i j) s = Some s' ∧ downgrades (between_revisions i j) s' = Some s.
Proof.
  intros [Hij Hj]. induction Hij as [|j Hij IH].
  - destruct (undone_defined history empty_schema i history_undone) as [s Hs]. exists s, s. unfold between_revisions.
    by rewrite drop_ge by (rewrite length_take; lia).
  - destruct IH as (s & s1 & Hs & H1 & Hup & Hdown); [lia|].
    destruct (lookup_lt_is_Some_2 history j) as [r Hr]; [lia|].
    destruct (undone_step history empty_schema j r history_undone Hr) as (t & s' & Ht & Hu & Hd). unfold at_revision in H1. rewrite H1 in Ht. injection Ht as <-.
    exists s, s'. rewrite (between_snoc i j r), upgrades_app, downgrades_snoc, Hup, Hd by done.
    split_and!; [done| |done..]. unfold at_revision in *. rewrite (take_S_r _ _ _ Hr), upgrades_app, H1. done.
Qed.

Lemma migrations_roundtrip_witness :
  length history = length versions ∧
  ∃ s s', at_revision 4 = Some s ∧ at_revision 6 = Some s' ∧
    upgrades (between_revisions 4 6) s = Some s' ∧ downgrades (between_revisions 4 6) s' = Some s.
Proof. split; [reflexivity|]. apply (migrations_roundtrip 4 6). vm_compute. lia. Defined.
