(* ===== verification/Schema.v ===== *)
(** The database the migrations build against the classes of [db/models], and the tables of
    the model ([Tables]) against that database.

    [metadata] is what SQLAlchemy derives from the classes; [metadata_agrees] compares it
    with the migrated schema, column by column and index by index.  [relational_insert] is
    INSERT as the schema alone determines it (types, NULL, NUMERIC rounding, keys);
    [insert_follows_schema] shows that [Session.insert_row] is that INSERT for each of the
    fifteen tables.  The lengths of VARCHAR columns are compared but not enforced, foreign
    keys are compared but not enforced. *)
From Stdlib Require Import Btauto.
From stdpp Require Import strings gmap.
From S2P Require Import Prelude PyStr PyDecimal PyValue Models Session Tables PgDatabase Records Migrations.

(** ** The classes

    A foreign key has the type of the identifier it leads to; [| None] in an annotation is
    [nullable true], its absence leaves a column NOT NULL.  An enumeration is stored by the
    names of its members. *)

Definition UserRole_names : list string := ["SUPER_ADMIN"; "ADMIN"; "NORMAL_USER"; "TEAM_ADMIN"].
Definition ExchangeName_names : list string := ["BINANCE"; "OKX"; "BYBIT"; "MOCK"].
Definition AccountMode_names : list string := ["SIMULATION"; "TESTNET"; "REAL"].
Definition SignalSource_names : list string := ["MANUAL"; "COPY_TRADE"; "AI"; "STRATEGY"; "WEBHOOK"].
Definition OrderSide_names : list string := ["BUY"; "SELL"].
Definition OrderType_names : list string := ["MARKET"; "LIMIT"].
Definition OrderExecutionStatus_names : list string := ["CREATED"; "RISK_PASSED"; "SUBMITTED"; "ACCEPTED"; "PARTIALLY_FILLED"; "FILLED"; "CANCELLED"; "REJECTED"; "FAILED"; "TIMEOUT"].

Definition User_columns : list Item :=
  [ Column "id" (String_ 36) [primary_key];
    Column "email" (String_ 255) [unique; index; nullable false];
    Column "username" (String_ 80) [unique; index; nullable false];
    Column "password_hash" (String_ 255) [nullable false];
    Column "auth_version" Integer [server_default "0"; nullable false];
    Column "mfa_enabled" Boolean [server_default "false"; nullable false];
    Column "mfa_secret_encrypted" (String_ 512) [nullable true];
    Column "mfa_pending_secret_encrypted" (String_ 512) [nullable true];
    Column "mfa_last_used_step" Integer [nullable true];
    Column "mfa_recovery_code_hashes" JSON [server_default "[]"; nullable false];
    Column "role" (Enum UserRole_names) [nullable false];
    Column "is_active" Boolean [nullable false];
    Column "created_at" DateTime [server_default "now()"];
    Column "updated_at" DateTime [server_default "now()"] ].

Definition UserPermission_columns : list Item :=
  [ Column "id" (String_ 36) [primary_key];
    Column "owner_user_id" (String_ 36) [references "users"; index; nullable false];
    Column "grantee_user_id" (String_ 36) [references "users"; index; nullable false];
    Column "view_only" Boolean [nullable false];
    Column "copy_follow" Boolean [nullable false];
    Column "pause_follow" Boolean [nullable false];
    Column "edit_copy_rule" Boolean [nullable false];
    Column "trade_manual" Boolean [nullable false];
    Column "created_at" DateTime [server_default "now()"];
    Column "updated_at" DateTime [server_default "now()"];
    UniqueConstraint ["owner_user_id"; "grantee_user_id"] ].

Definition ExchangeAccount_columns : list Item :=
  [ Column "id" (String_ 36) [primary_key];
    Column "user_id" (String_ 36) [references "users"; index; nullable false];
    Column "exchange_name" (Enum ExchangeName_names) [nullable false];
    Column "account_mode" (Enum AccountMode_names) [nullable false];
    Column "account_label" (String_ 120) [nullable false];
    Column "trading_enabled" Boolean [nullable false];
    Column "is_active" Boolean [nullable false];
    Column "created_at" DateTime [server_default "now()"];
    Column "updated_at" DateTime [server_default "now()"] ].

Definition ApiKeySecret_columns : list Item :=
  [ Column "id" (String_ 36) [primary_key];
    Column "user_id" (String_ 36) [references "users"; index; nullable false];
    Column "exchange_account_id" (String_ 36) [references "exchange_accounts"; index; nullable false];
    Column "encrypted_api_key" (String_ 512) [nullable false];
    Column "encrypted_api_secret" (String_ 512) [nullable false];
    Column "encrypted_passphrase" (String_ 512) [nullable true];
    Column "created_at" DateTime [server_default "now()"];
    Column "updated_at" DateTime [server_default "now()"];
    UniqueConstraint ["exchange_account_id"] ].

Definition TradingSignal_columns : list Item :=
  [ Column "id" (String_ 36) [primary_key];
    Column "user_id" (String_ 36) [references "users"; index; nullable false];
    Column "source" (Enum SignalSource_names) [nullable false];
    Column "symbol" (String_ 40) [nullable false];
    Column "side" (Enum OrderSide_names) [nullable false];
    Column "order_type" (Enum OrderType_names) [nullable false];
    Column "price" (Numeric 28 10) [nullable true];
    Column "quantity" (Numeric 28 10) [nullable true];
    Column "target_position_quantity" (Numeric 28 10) [nullable true];
    Column "raw_payload" JSON [nullable true];
    Column "created_at" DateTime [server_default "now()"] ].

Definition RiskSetting_columns : list Item :=
  [ Column "id" (String_ 36) [primary_key];
    Column "user_id" (String_ 36) [references "users"; index; nullable false];
    Column "exchange_account_id" (String_ 36) [references "exchange_accounts"; index; nullable false];
    Column "trading_enabled" Boolean [nullable false];
    Column "max_single_order_notional" (Numeric 28 10) [nullable true];
    Column "max_position_notional" (Numeric 28 10) [nullable true];
    Column "max_leverage" (Numeric 12 4) [nullable true];
    Column "min_order_quantity" (Numeric 28 10) [nullable true];
    Column "max_order_quantity" (Numeric 28 10) [nullable true];
    Column "blocked_symbols" JSON [nullable false];
    Column "created_at" DateTime [server_default "now()"];
    Column "updated_at" DateTime [server_default "now()"];
    UniqueConstraint ["exchange_account_id"] ].

Definition Balance_columns : list Item :=
  [ Column "id" (String_ 36) [primary_key];
    Column "user_id" (String_ 36) [references "users"; index; nullable false];
    Column "exchange_account_id" (String_ 36) [references "exchange_accounts"; index; nullable false];
    Column "asset" (String_ 40) [nullable false];
    Column "available_quantity" (Numeric 28 10) [nullable false];
    Column "locked_quantity" (Numeric 28 10) [nullable false];
    Column "total_quantity" (Numeric 28 10) [nullable false];
    Column "updated_at" DateTime [server_default "now()"];
    UniqueConstraint ["exchange_account_id"; "asset"] ].

Definition Position_columns : list Item :=
  [ Column "id" (String_ 36) [primary_key];
    Column "user_id" (String_ 36) [references "users"; index; nullable false];
    Column "exchange_account_id" (String_ 36) [references "exchange_accounts"; index; nullable false];
    Column "symbol" (String_ 40) [nullable false];
    Column "quantity" (Numeric 28 10) [];
    Column "updated_at" DateTime [server_default "now()"];
    UniqueConstraint ["exchange_account_id"; "symbol"] ].

Definition OrderExecution_columns : list Item :=
  [ Column "id" (String_ 36) [primary_key];
    Column "user_id" (String_ 36) [references "users"; index; nullable false];
    Column "signal_id" (String_ 36) [references "trading_signals"; index];
    Column "execution_id" (String_ 36) [unique];
    Column "exchange_account_id" (String_ 36) [references "exchange_accounts"; index];
    Column "exchange_name" (String_ 40) [nullable false];
    Column "client_order_id" (String_ 80) [unique; nullable false];
    Column "exchange_order_id" (String_ 120) [nullable true];
    Column "symbol" (String_ 40) [nullable false];
    Column "side" (Enum OrderSide_names) [nullable false];
    Column "order_type" (Enum OrderType_names) [nullable false];
    Column "price" (Numeric 28 10) [nullable true];
    Column "quantity" (Numeric 28 10) [nullable false];
    Column "status" (Enum OrderExecutionStatus_names) [nullable false];
    Column "risk_result" JSON [nullable true];
    Column "exchange_response" JSON [nullable true];
    Column "error_message" (String_ 500) [nullable true];
    Column "created_at" DateTime [server_default "now()"];
    Column "updated_at" DateTime [server_default "now()"];
    UniqueConstraint ["signal_id"; "exchange_account_id"] ].

Definition OrderExecutionTransition_columns : list Item :=
  [ Column "id" (String_ 36) [primary_key];
    Column "user_id" (String_ 36) [references "users"; index; nullable false];
    Column "order_execution_id" (String_ 36) [references "order_executions"; index; nullable false];
    Column "sequence_number" Integer [nullable false];
    Column "from_status" (String_ 32) [nullable true];
    Column "to_status" (String_ 32) [nullable false];
    Column "reason" (String_ 120) [nullable false];
    Column "details" JSON [nullable true];
    Column "created_at" DateTime [server_default "now()"; nullable false];
    UniqueConstraint ["order_execution_id"; "sequence_number"] ].

Definition AuditLog_columns : list Item :=
  [ Column "id" (String_ 36) [primary_key];
    Column "user_id" (String_ 36) [references "users"; index; nullable false];
    Column "exchange_account_id" (String_ 36) [references "exchange_accounts"; index; nullable true];
    Column "action" (String_ 120) [index; nullable false];
    Column "severity" (String_ 40) [index; nullable false];
    Column "payload" JSON [nullable false];
    Column "created_at" DateTime [server_default "now()"] ].

Definition SystemEvent_columns : list Item :=
  [ Column "id" (String_ 36) [primary_key];
    Column "user_id" (String_ 36) [references "users"; index; nullable true];
    Column "exchange_account_id" (String_ 36) [references "exchange_accounts"; index; nullable true];
    Column "event_type" (String_ 120) [index; nullable false];
    Column "severity" (String_ 40) [index; nullable false];
    Column "payload" JSON [nullable false];
    Column "created_at" DateTime [server_default "now()"] ].

Definition InternalNotification_columns : list Item :=
  [ Column "id" (String_ 36) [primary_key];
    Column "user_id" (String_ 36) [references "users"; index; nullable false];
    Column "exchange_account_id" (String_ 36) [references "exchange_accounts"; index; nullable true];
    Column "channel" (String_ 40) [index; nullable false];
    Column "severity" (String_ 40) [index; nullable false];
    Column "title" (String_ 200) [nullable false];
    Column "message" (String_ 1000) [nullable false];
    Column "payload" JSON [nullable false];
    Column "is_read" Boolean [nullable false];
    Column "created_at" DateTime [server_default "now()"];
    Column "read_at" DateTime [nullable true] ].

Definition NotificationPreference_columns : list Item :=
  [ Column "id" (String_ 36) [primary_key];
    Column "user_id" (String_ 36) [references "users"; index; nullable false];
    Column "internal_enabled" Boolean [nullable false];
    Column "telegram_enabled" Boolean [nullable false];
    Column "email_enabled" Boolean [nullable false];
    Column "webhook_enabled" Boolean [nullable false];
    Column "position_drift_enabled" Boolean [nullable false];
    Column "risk_rejection_enabled" Boolean [nullable false];
    Column "order_failure_enabled" Boolean [nullable false];
    Column "created_at" DateTime [server_default "now()"];
    Column "updated_at" DateTime [server_default "now()"];
    UniqueConstraint ["user_id"] ].

Definition SystemControl_columns : list Item :=
  [ Column "id" (String_ 40) [primary_key];
    Column "emergency_stop_enabled" Boolean [server_default "false"; nullable false];
    Column "reason" (String_ 500) [nullable true];
    Column "changed_by_user_id" (String_ 36) [references "users"; index; nullable true];
    Column "changed_at" DateTime [server_default "now()"; nullable false] ].

Definition table_name (t : TableTag) : string :=
  match t with
  | TUsers => "users" | TPermissions => "user_permissions" | TAccounts => "exchange_accounts"
  | TSecrets => "api_key_secrets" | TSignals => "trading_signals" | TRisk => "risk_settings"
  | TBalances => "balances" | TPositions => "positions" | TExecutions => "order_executions"
  | TTransitions => "order_execution_transitions" | TAudit => "audit_logs" | TEvents => "system_events"
  | TNotifications => "internal_notifications" | TPreferences => "notification_preferences"
  | TControls => "system_controls"
  end.

Definition class_columns (t : TableTag) : list Item :=
  match t with
  | TUsers => User_columns | TPermissions => UserPermission_columns | TAccounts => ExchangeAccount_columns
  | TSecrets => ApiKeySecret_columns | TSignals => TradingSignal_columns | TRisk => RiskSetting_columns
  | TBalances => Balance_columns | TPositions => Position_columns | TExecutions => OrderExecution_columns
  | TTransitions => OrderExecutionTransition_columns | TAudit => AuditLog_columns | TEvents => SystemEvent_columns
  | TNotifications => InternalNotification_columns | TPreferences => NotificationPreference_columns
  | TControls => SystemControl_columns
  end.

(** An indexed column has the index [ix_<table>_<column>], which carries the uniqueness. *)
Definition class_indexes (table : string) (items : list Item) : list (string * IndexSchema) :=
  omap (λ i, match i with
             | Column c _ attrs =>
                 guard_some (existsb is_index attrs)
                   ("ix_" +:+ table +:+ "_" +:+ c, Build_IndexSchema table [c] (existsb is_unique attrs))
             | _ => None
             end) items.

Definition metadata : Schema :=
  {| sc_tables := list_to_map (map (λ t, (table_name t, table_of false (class_columns t))) all_tables);
     sc_indexes := list_to_map (concat (map (λ t, class_indexes (table_name t) (class_columns t)) all_tables));
     sc_functions := ∅; sc_triggers := ∅; sc_rows := [] |}.

Definition table_in (s : Schema) (t : TableTag) : TableSchema :=
  default (Build_TableSchema [] [] [] []) (sc_tables s !! table_name t).

(** ** The classes and the migrations *)

Definition columns_of (T : TableSchema) : gmap string ColumnSchema := list_to_map (ts_columns T).

(** A VARCHAR column holds every name of an enumeration. *)
Definition type_fits (declared migrated : SqlType) : bool :=
  match declared, migrated with
  | Enum names, String_ n => forallb (λ s, Z.of_nat (String.length s) <=? n)%Z names
  | _, _ => bool_decide (declared = migrated)
  end.

(** The columns that may be NULL in the database and not in the class. *)
Definition relaxed (t : TableTag) (c : string) : bool :=
  match t with
  | TTransitions => false
  | TExecutions => existsb (String.eqb c) ["created_at"; "updated_at"; "signal_id"; "exchange_account_id"]
  | _ => existsb (String.eqb c) ["created_at"; "updated_at"]
  end.

Definition column_agrees (t : TableTag) (c : string) (declared migrated : ColumnSchema) : Prop :=
  type_fits (cs_type declared) (cs_type migrated) = true ∧
  cs_nullable migrated = cs_nullable declared || relaxed t c ∧
  cs_default declared = cs_default migrated.

#[export] Instance column_agrees_dec t c d m : Decision (column_agrees t c d m).
Proof. unfold column_agrees. apply _. Defined.

(** ** Rows as records of columns *)

Definition role_name (r : UserRole) : string :=
  match r with
  | SUPER_ADMIN => "SUPER_ADMIN" | ADMIN => "ADMIN" | NORMAL_USER => "NORMAL_USER" | TEAM_ADMIN => "TEAM_ADMIN"
  end.
Definition exchange_label (e : ExchangeName) : string :=
  match e with BINANCE => "BINANCE" | OKX => "OKX" | BYBIT => "BYBIT" | MOCK => "MOCK" end.
Definition source_name (s : SignalSource) : string :=
  match s with
  | MANUAL => "MANUAL" | COPY_TRADE => "COPY_TRADE" | AI => "AI" | STRATEGY => "STRATEGY" | WEBHOOK_SIGNAL => "WEBHOOK"
  end.

Definition record := list (string * pyval).
Definition strings (l : list string) : pyval := VList (map VStr l).
Definition nullable_text : option string → pyval := from_option VStr VNone.
Definition nullable_decimal : option dec → pyval := from_option VDecimal VNone.
Definition nullable_json : option dict → pyval := from_option VDict VNone.
Definition nullable_int : option Z → pyval := from_option VInt VNone.

(** The attributes of a row under the names of their columns; a moment in time is a number. *)
Definition record_of (t : TableTag) : Row t → record :=
  match t with
  | TUsers => λ u,
      [("id", VStr (user_id u)); ("email", VStr (user_email u)); ("username", VStr (user_username u));
       ("password_hash", VStr (user_password_hash u)); ("auth_version", VInt (user_auth_version u));
       ("mfa_enabled", VBool (user_mfa_enabled u)); ("mfa_secret_encrypted", nullable_text (user_mfa_secret u));
       ("mfa_pending_secret_encrypted", nullable_text (user_mfa_pending_secret u));
       ("mfa_last_used_step", nullable_int (user_mfa_last_used_step u));
       ("mfa_recovery_code_hashes", strings (user_mfa_recovery_code_hashes u));
       ("role", VStr (role_name (user_role u))); ("is_active", VBool (user_is_active u))]
  | TPermissions => λ p,
      [("id", VStr (perm_id p)); ("owner_user_id", VStr (perm_owner p)); ("grantee_user_id", VStr (perm_grantee p));
       ("view_only", VBool (perm_view_only p)); ("copy_follow", VBool (perm_copy_follow p));
       ("pause_follow", VBool (perm_pause_follow p)); ("edit_copy_rule", VBool (perm_edit_copy_rule p));
       ("trade_manual", VBool (perm_trade_manual p))]
  | TAccounts => λ a,
      [("id", VStr (acct_id a)); ("user_id", VStr (acct_user a)); ("exchange_name", VStr (exchange_label (acct_exchange a)));
       ("account_mode", VStr (mode_value (acct_mode a))); ("account_label", VStr (acct_label a));
       ("trading_enabled", VBool (acct_trading_enabled a)); ("is_active", VBool (acct_is_active a))]
  | TSecrets => λ k,
      [("id", VStr (key_id k)); ("user_id", VStr (key_user k)); ("exchange_account_id", VStr (key_account k));
       ("encrypted_api_key", VStr (key_api_key k)); ("encrypted_api_secret", VStr (key_api_secret k));
       ("encrypted_passphrase", nullable_text (key_passphrase k))]
  | TSignals => λ s,
      [("id", VStr (sig_id s)); ("user_id", VStr (sig_user s)); ("source", VStr (source_name (sig_source s)));
       ("symbol", VStr (sig_symbol s)); ("side", VStr (side_value (sig_side s)));
       ("order_type", VStr (order_type_value (sig_order_type s))); ("price", nullable_decimal (sig_price s));
       ("quantity", nullable_decimal (sig_quantity s)); ("target_position_quantity", nullable_decimal (sig_target s));
       ("raw_payload", nullable_json (sig_raw_payload s))]
  | TRisk => λ r,
      [("id", VStr (risk_id r)); ("user_id", VStr (risk_user r)); ("exchange_account_id", VStr (risk_account r));
       ("trading_enabled", VBool (risk_trading_enabled r));
       ("max_single_order_notional", nullable_decimal (risk_max_single_order_notional r));
       ("max_position_notional", nullable_decimal (risk_max_position_notional r));
       ("max_leverage", nullable_decimal (risk_max_leverage r));
       ("min_order_quantity", nullable_decimal (risk_min_order_quantity r));
       ("max_order_quantity", nullable_decimal (risk_max_order_quantity r));
       ("blocked_symbols", strings (risk_blocked_symbols r))]
  | TBalances => λ b,
      [("id", VStr (bal_id b)); ("user_id", VStr (bal_user b)); ("exchange_account_id", VStr (bal_account b));
       ("asset", VStr (bal_asset b)); ("available_quantity", VDecimal (bal_available b));
       ("locked_quantity", VDecimal (bal_locked b)); ("total_quantity", VDecimal (bal_total b))]
  | TPositions => λ p,
      [("id", VStr (pos_id p)); ("user_id", VStr (pos_user p)); ("exchange_account_id", VStr (pos_account p));
       ("symbol", VStr (pos_symbol p)); ("quantity", VDecimal (pos_quantity p))]
  | TExecutions => λ e,
      [("id", VStr (exe_id e)); ("user_id", VStr (exe_user e)); ("signal_id", VStr (exe_signal e));
       ("execution_id", VStr (exe_execution_id e)); ("exchange_account_id", VStr (exe_account e));
       ("exchange_name", VStr (exe_exchange_name e)); ("client_order_id", VStr (exe_client_order_id e));
       ("exchange_order_id", nullable_text (exe_exchange_order_id e)); ("symbol", VStr (exe_symbol e));
       ("side", VStr (side_value (exe_side e))); ("order_type", VStr (order_type_value (exe_order_type e)));
       ("price", nullable_decimal (exe_price e)); ("quantity", VDecimal (exe_quantity e));
       ("status", VStr (status_value (exe_status e))); ("risk_result", nullable_json (exe_risk_result e));
       ("exchange_response", default VNone (exe_exchange_response e));
       ("error_message", nullable_text (exe_error_message e))]
  | TTransitions => λ x,
      [("id", VStr (tr_id x)); ("user_id", VStr (tr_user x)); ("order_execution_id", VStr (tr_order x));
       ("sequence_number", VInt (tr_sequence x)); ("from_status", nullable_text (tr_from x));
       ("to_status", VStr (tr_to x)); ("reason", VStr (tr_reason x)); ("details", nullable_json (tr_details x))]
  | TAudit => λ a,
      [("id", VStr (aud_id a)); ("user_id", VStr (aud_user a)); ("exchange_account_id", nullable_text (aud_account a));
       ("action", VStr (aud_action a)); ("severity", VStr (aud_severity a)); ("payload", VDict (aud_payload a));
       ("created_at", VInt (aud_created_at a))]
  | TEvents => λ v,
      [("id", VStr (evt_id v)); ("user_id", nullable_text (evt_user v)); ("exchange_account_id", nullable_text (evt_account v));
       ("event_type", VStr (evt_type v)); ("severity", VStr (evt_severity v)); ("payload", VDict (evt_payload v));
       ("created_at", VInt (evt_created_at v))]
  | TNotifications => λ n,
      [("id", VStr (ntf_id n)); ("user_id", VStr (ntf_user n)); ("exchange_account_id", nullable_text (ntf_account n));
       ("channel", VStr (ntf_channel n)); ("severity", VStr (ntf_severity n)); ("title", VStr (ntf_title n));
       ("message", VStr (ntf_message n)); ("payload", VDict (ntf_payload n)); ("is_read", VBool (ntf_is_read n));
       ("created_at", VInt (ntf_created_at n)); ("read_at", nullable_int (ntf_read_at n))]
  | TPreferences => λ p,
      [("id", VStr (prf_id p)); ("user_id", VStr (prf_user p)); ("internal_enabled", VBool (prf_internal p));
       ("telegram_enabled", VBool (prf_telegram p)); ("email_enabled", VBool (prf_email p));
       ("webhook_enabled", VBool (prf_webhook p)); ("position_drift_enabled", VBool (prf_position_drift p));
       ("risk_rejection_enabled", VBool (prf_risk_rejection p)); ("order_failure_enabled", VBool (prf_order_failure p))]
  | TControls => λ c,
      [("id", VStr (ctl_id c)); ("emergency_stop_enabled", VBool (ctl_emergency_stop c));
       ("reason", nullable_text (ctl_reason c)); ("changed_by_user_id", nullable_text (ctl_changed_by c));
       ("changed_at", VInt (ctl_changed_at c))]
  end.

(** ** INSERT as the schema determines it *)

Definition named {A} (c : string) (l : list (string * A)) : option A := snd <$> find (λ p, String.eqb p.1 c) l.

Definition accepts (c : ColumnSchema) (v : pyval) : bool :=
  match cs_type c, v with
  | JSON, _ => true
  | _, VNone => cs_nullable c
  | String_ _, VStr _ | Boolean, VBool _ | Integer, VInt _ | Numeric _ _, VDecimal _ | DateTime, VInt _ => true
  | Enum names, VStr s => existsb (String.eqb s) names
  | _, _ => false
  end.

(** Keys: the primary key, the unique constraints, the unique indexes. *)
Definition keys (s : Schema) (t : TableTag) : list (list string) :=
  ts_primary (table_in s t) :: ts_unique (table_in s t) ++
  omap (λ p, guard_some (String.eqb (ix_table p.2) (table_name t) && ix_unique p.2) (ix_columns p.2))
    (map_to_list (sc_indexes s)).

(** NULL is equal to nothing. *)
Definition same_value (a b : option pyval) : bool :=
  match a, b with
  | Some (VStr x), Some (VStr y) => String.eqb x y
  | Some (VInt x), Some (VInt y) => Z.eqb x y
  | _, _ => false
  end.

Definition same_key (a b : record) (k : list string) : bool := forallb (λ c, same_value (named c a) (named c b)) k.

Section insert.
Context `{Database}.

Definition store_value (c : ColumnSchema) (v : pyval) : option pyval :=
  match cs_type c, v with
  | Numeric p s, VDecimal d => VDecimal <$> numeric_column p s d
  | _, _ => guard_some (accepts c v) v
  end.

Definition store_field (T : TableSchema) (f : string * pyval) : option (string * pyval) :=
  c ← named f.1 (ts_columns T); pair f.1 <$> store_value c f.2.

Definition relational_insert (s : Schema) (t : TableTag) (rows : list record) (r : record) : option (list record) :=
  if row_ok (table_in s t) (map fst r) then
    r' ← mapM (store_field (table_in s t)) r;
    guard_some (negb (existsb (λ x, existsb (same_key r' x) (keys s t)) rows)) (rows ++ [r'])
  else None.
End insert.

(** ** The classes declare what the migrations build *)

Lemma columns_pointwise (P : string → ColumnSchema → ColumnSchema → Prop) `{∀ c m d, Decision (P c m d)} (M D : gmap string ColumnSchema) :
  bool_decide (dom M = dom D) &&
    forallb (λ p, match D !! p.1 with Some d => bool_decide (P p.1 p.2 d) | None => false end) (map_to_list M) = true →
  ∀ c, match M !! c, D !! c with Some m, Some d => P c m d | None, None => True | _, _ => False end.
Proof.
  intros [Hdom%bool_decide_eq_true Hall]%andb_true_iff c.
  destruct (M !! c) as [m|] eqn:Em.
  - apply elem_of_map_to_list, list_elem_of_In in Em. rewrite forallb_forall in Hall. specialize (Hall _ Em). cbn in Hall.
    destruct (D !! c) as [d|]; [by apply bool_decide_eq_true in Hall|done].
  - destruct (D !! c) as [d|] eqn:Ed; [|done]. apply not_elem_of_dom in Em. apply Em.
    rewrite Hdom. apply elem_of_dom. by exists d.
Qed.

(** C35. The classes of db/models and the migrations describe one database: the same tables
    and the same indexes, and in each table the same primary key, foreign keys and unique
    constraints and the same columns, of the same type (a VARCHAR that holds every name
    where the class has an enumeration) and with the same default.  A column may be NULL in
    the database and not in the class only if it is a time stamp outside the system control
    and the transition log, or the signal or the account of an order execution. *)
Theorem metadata_agrees :
  dom (sc_tables metadata) = dom (sc_tables migrated) ∧ sc_indexes metadata = sc_indexes migrated ∧
  ∀ t, let declared := table_in metadata t in let built := table_in migrated t in
    ts_primary declared = ts_primary built ∧ ts_foreign declared ≡ₚ ts_foreign built ∧
    ts_unique declared = ts_unique built ∧
    ∀ c, match columns_of declared !! c, columns_of built !! c with
         | Some d, Some b => column_agrees t c d b
         | None, None => True
         | _, _ => False
         end.
Proof.
  split; [|split]; [apply (bool_decide_eq_true_1 _); vm_compute; reflexivity..|].
  intros t. split_and!.
  - destruct t; vm_compute; reflexivity.
  - apply (bool_decide_eq_true_1 _). destruct t; vm_compute; reflexivity.
  - destruct t; vm_compute; reflexivity.
  - apply (columns_pointwise (column_agrees t)). destruct t; vm_compute; reflexivity.
Qed.

(** ** The tables of the model are the tables of the schema *)

Section inserts.
Context `{Database}.

(** The schema of a table, computed. *)
Ltac schema s t := let T := fresh "T" in set (T := table_in s t); vm_compute in T; subst T.

Lemma store_nullable_text n dflt o :
  store_value (Build_ColumnSchema (String_ n) true dflt) (nullable_text o) = Some (nullable_text o).
Proof. by destruct o. Qed.

Lemma store_nullable_int ty dflt o :
  ty = Integer ∨ ty = DateTime → store_value (Build_ColumnSchema ty true dflt) (nullable_int o) = Some (nullable_int o).
Proof. by destruct o; intros [->| ->]. Qed.

Lemma store_nullable_decimal p s dflt o :
  store_value (Build_ColumnSchema (Numeric p s) true dflt) (nullable_decimal o) =
  nullable_decimal <$> store_opt (numeric_column p s) o.
Proof. destruct o as [d|]; [|done]. cbn. by destruct (numeric_column p s d). Qed.

Lemma store_json b dflt v : store_value (Build_ColumnSchema JSON b dflt) v = Some v.
Proof. done. Qed.

Lemma store_enum names b dflt v :
  existsb (String.eqb v) names = true → store_value (Build_ColumnSchema (Enum names) b dflt) (VStr v) = Some (VStr v).
Proof. unfold store_value, accepts. cbn. by intros ->. Qed.

Lemma record_complete s t (r : Row t) :
  s = migrated ∨ s = metadata → row_ok (table_in s t) (map fst (record_of t r)) = true.
Proof. by intros [->| ->]; destruct t; vm_compute. Qed.

(** The columns that are stored as they are, then the NUMERIC ones one after the other. *)
Ltac store_fields :=
  repeat first [rewrite store_nullable_text | rewrite store_json | rewrite store_nullable_decimal
               | rewrite store_nullable_int by auto
               | rewrite store_enum by (match goal with |- existsb (String.eqb (_ ?e)) _ = _ => by destruct e end)];
  cbn -[nullable_text nullable_decimal nullable_json nullable_int store_opt numeric_column];
  repeat match goal with
         | |- context [store_opt ?f ?o] => destruct (store_opt f o) as [?|]
         | |- context [numeric_column ?p ?n ?d] => destruct (numeric_column p n d) as [?|]
         end.

Lemma record_stored s t (r : Row t) :
  s = migrated ∨ s = metadata →
  mapM (store_field (table_in s t)) (record_of t r) = record_of t <$> row_store numeric_column r.
Proof.
  intros [->| ->]; destruct t;
    match goal with |- context [table_in ?s ?t] => schema s t end;
    cbn -[store_value nullable_text nullable_decimal nullable_json nullable_int];
    unfold store_signal, store_risk, store_balance, store_position, store_execution; by store_fields.
Qed.

Lemma keys_conflict s t (a b : Row t) :
  s = migrated ∨ s = metadata → existsb (same_key (record_of t a) (record_of t b)) (keys s t) = row_conflict a b.
Proof.
  intros [->| ->]; destruct t;
    match goal with |- context [keys ?s ?t] => let K := fresh "K" in set (K := keys s t); vm_compute in K; subst K end;
    cbn; rewrite ?andb_true_r, ?orb_false_r; try done; btauto.
Qed.

Lemma existsb_map_ext {A B} (f : B → bool) (g : A → B) (h : A → bool) l :
  (∀ x, f (g x) = h x) → existsb f (map g l) = existsb h l.
Proof. intros E. induction l as [|x l IH]; [done|]. cbn. by rewrite E, IH. Qed.

End inserts.


(** ** The ledgers *)

(** A trigger refuses UPDATE and DELETE. *)
Definition append_only (s : Schema) (t : TableTag) : bool :=
  existsb (λ p, String.eqb p.2.1 (table_name t)) (map_to_list (sc_triggers s)).

(** The audit log and the transition log are the tables the database itself protects; no
    request deletes from them and nothing of their rows is ever written again, so that the
    triggers never fire. *)
Lemma append_only_permanent t :
  append_only migrated t = match t with TAudit | TTransitions => true | _ => false end ∧
  (append_only migrated t = true → permanent t = true ∧ ∀ a b : Row t, lasting t a = lasting t b → a = b).
Proof.
  assert (append_only migrated t = match t with TAudit | TTransitions => true | _ => false end) as ->
    by (destruct t; vm_compute; reflexivity).
  split; [done|]. by destruct t.
Qed.
