(* ===== verification/System.v ===== *)
(** The whole service: the requests of [api/v1] behind the authentication of
    [api/deps.py], served one after the other while time passes, and what holds of
    every state they can reach. *)
From S2P Require Import Prelude PyStr PyDecimal PyValue Json Models Session PgDatabase Tables Demo Logic OrderStateMachine ExecutionLog ExecutionRow Alerts Accounts Security Mfa Users Permissions Notifications TestnetGate WindowApproval RateLimit HttpClient TestnetRequest RiskEngine PositionEngine EmergencyStop SignalEngine OrderEngine TestnetPersistence TestnetSubmit Lifecycle AccountSync OrderReconciliation UserStream Adapters ReadOnly Phase4 MarketData Storage Endpoints Steady.

(** ** Requests *)

Inductive Call :=
(* auth, users *)
| Register (email username password : string)
| Login (username_or_email password : string) (mfa_code : option string)
| Reauthenticate (password : string)
| ReadMe | UpdatePassword (current_password new_password : string)
| ReadMfaStatus | EnrollMfa | ConfirmMfa (code : string) | RemoveMfa (code : string)
(* permissions *)
| ListPermissions | AddPermission (p : PermissionCreate) | PatchPermission (permission : string) (u : PermissionUpdate)
| RemovePermission (permission : string)
(* accounts *)
| ReadAccounts | AddAccount (exchange : ExchangeName) (label : string) (mode : AccountMode) (trading_enabled : bool)
| ReadAccount (account : string) | PatchAccount (account : string) (u : ExchangeAccountUpdate)
| RemoveAccount (account : string)
| SetApiKey (account api_key api_secret : string) (passphrase : option string)
| ReadApiKeyMetadata (account : string) | RemoveApiKey (account : string)
| CheckTestnetReadOnly (account : string) | CheckRealReadOnly (account : string)
| ReadRealOpenOrders (account : string) | ReadRealBalances (account : string)
| ApproveAccountOrderWindow (account symbol : string) (side : OrderSide) (max_quantity max_notional : dec)
    (duration_minutes : Z) (acknowledgement : string)
| ReadPhase4Readiness (account : string)
| RecordSmallFundReview (account : string) (max_notional : dec) (acknowledgement : string)
| RecordOrderWindow (account symbol : string) (side : OrderSide) (max_quantity limit_price max_notional : dec)
    (duration_minutes : Z) (acknowledgement : string)
| RecordFinalCheck (account : string) (max_notional : dec) (c : Confirmations) (acknowledgement : string)
(* signals, orders, positions, risk *)
| CreateManualSignal (p : ManualSignalCreate)
| ExecuteSignal (signal account : string)
| AdmissionCheck (account : string) | WindowPlan (account : string)
| ApproveOrderWindow (account symbol : string) (side : OrderSide) (max_quantity max_notional : dec)
    (duration_minutes : Z) (acknowledgement : string)
| SubmitTestnetOrder (payload : TestnetOrderSubmitRequest)
| PreviewPositionTarget (account symbol : string) (target_quantity : dec)
| ReadRiskSettings (account : string) | PatchRiskSettings (account : string) (payload : list RiskSettingChange)
(* market data *)
| GetCandles (exchange : ExchangeName) (symbol interval : string) (limit : Z) (allow_fallback : bool)
| ListProviders | ListGexbotTickers | GetGexbotCategory (package ticker category : string) | GetGexbotOrderflow (ticker : string)
(* notifications *)
| ListNotifications (unread_only : bool) (limit : Z) | GetNotificationPreferences
| UpdateNotificationPreferences (u : NotificationPreferenceUpdate) | MarkNotificationRead (notification : string)
(* administration *)
| ListAuditLogs (f : ObservabilityFilter) | ListSystemEvents (f : ObservabilityFilter)
| ListStorageLocations | ReadEmergencyStop | ActivateEmergencyStop (reason : string) | DeactivateEmergencyStop (reason : string)
| ReconcileTestnetOrders (account : string)
| ConsumeUserStream (account acknowledgement : string) (max_messages : Z).

(** A request carries its bearer token and, where the client has one, the token of a
    recent reauthentication. *)
Record Request := { rq_token : string; rq_reauth : option string; rq_call : Call }.

Section service.
Context `{Database} `{Settings} `{PyFloat} `{Fernet} `{Secrets} `{Pyotp} `{Redis} `{GexbotSettings} `{StorageSettings} `{X : Exchange} `{W : WebSocket}.
Context (rt : AlertRuntime).

Definition as_user {A} (rq : Request) (k : User → M A) : M unit :=
  u ← get_current_user (rq_token rq); k u ;; mret tt.
Definition as_admin {A} (rq : Request) (k : User → M A) : M unit :=
  u ← get_current_admin_user (rq_token rq); k u ;; mret tt.
Definition as_super_admin {A} (rq : Request) (k : User → M A) : M unit :=
  u ← get_current_super_admin_user (rq_token rq); k u ;; mret tt.
Definition as_reauthenticated {A} (rq : Request) (k : User → M A) : M unit :=
  u ← get_reauthenticated_user (rq_token rq) (rq_reauth rq); k u ;; mret tt.
Definition as_anyone {A} (m : M A) : M unit := m ;; mret tt.

(** The endpoint a request reaches; the answer is left out. *)
Definition serve (rq : Request) : M unit :=
  match rq_call rq with
  | Register email username password => as_anyone (register email username password)
  | Login name password code => as_anyone (login name password code)
  | Reauthenticate password => as_anyone (reauthenticate (rq_token rq) password)
  | ReadMe => as_user rq read_me
  | UpdatePassword old new => as_anyone (update_password (rq_token rq) old new)
  | ReadMfaStatus => as_anyone (read_mfa_status (rq_token rq))
  | EnrollMfa => as_anyone (enroll_mfa (rq_token rq) (rq_reauth rq))
  | ConfirmMfa code => as_anyone (confirm_mfa (rq_token rq) (rq_reauth rq) code)
  | RemoveMfa code => as_anyone (remove_mfa (rq_token rq) (rq_reauth rq) code)
  | ListPermissions => as_user rq list_permissions
  | AddPermission p => as_user rq (λ u, add_permission u p)
  | PatchPermission id p => as_user rq (λ u, patch_permission u id p)
  | RemovePermission id => as_user rq (λ u, remove_permission u id)
  | ReadAccounts => as_user rq read_accounts
  | AddAccount e l m t => as_user rq (λ u, add_account u e l m t)
  | ReadAccount a => as_user rq (λ u, read_account u a)
  | PatchAccount a p => as_user rq (λ u, patch_account u a p)
  | RemoveAccount a => as_user rq (λ u, remove_account u a)
  | SetApiKey a k s p => as_reauthenticated rq (λ u, set_api_key u a k s p)
  | ReadApiKeyMetadata a => as_user rq (λ u, read_api_key_metadata u a)
  | RemoveApiKey a => as_user rq (λ u, remove_api_key u a)
  | CheckTestnetReadOnly a => as_reauthenticated rq (λ u, check_testnet_read_only_credentials u a)
  | CheckRealReadOnly a => as_reauthenticated rq (λ u, check_real_read_only_credentials u a)
  | ReadRealOpenOrders a => as_user rq (λ u, read_real_open_orders_endpoint u a)
  | ReadRealBalances a => as_user rq (λ u, read_real_balances_endpoint u a)
  | ApproveAccountOrderWindow a s d q n m k =>
      as_reauthenticated rq (λ u, approve_account_order_window u a s d q n m k)
  | ReadPhase4Readiness a => as_user rq (λ u, read_phase4_readiness u a)
  | RecordSmallFundReview a n k => as_reauthenticated rq (λ u, record_small_fund_review u a n k)
  | RecordOrderWindow a s d q p n m k =>
      as_reauthenticated rq (λ u, record_small_fund_order_window_approval u a s d q p n m k)
  | RecordFinalCheck a n c k => as_reauthenticated rq (λ u, record_final_release_check u a n c k)
  | CreateManualSignal p => as_user rq (λ u, create_manual_trading_signal u p)
  | ExecuteSignal s a => as_user rq (λ u, execute_signal u s a rt)
  | AdmissionCheck a => as_user rq (λ u, get_testnet_order_admission_check u a)
  | WindowPlan a => as_user rq (λ u, get_testnet_order_window_plan u a)
  | ApproveOrderWindow a s d q n m k => as_user rq (λ u, approve_testnet_order_window u a s d q n m k)
  | SubmitTestnetOrder p => as_user rq (λ u, submit_testnet_order u p)
  | PreviewPositionTarget a s q => as_user rq (λ u, preview_position_target u a s q)
  | ReadRiskSettings a => as_user rq (λ u, read_risk_settings u a)
  | PatchRiskSettings a p => as_user rq (λ u, patch_risk_settings u a p (Some rt))
  | GetCandles e s i l f => as_user rq (λ _, get_exchange_candles e s i l f)
  | ListProviders => as_user rq (λ _, list_market_data_providers)
  | ListGexbotTickers => as_user rq (λ _, list_gexbot_tickers)
  | GetGexbotCategory p t c => as_user rq (λ _, get_gexbot_package_category p t c)
  | GetGexbotOrderflow t => as_user rq (λ _, get_gexbot_orderflow t)
  | ListNotifications o l => as_user rq (λ u, list_notifications u o l)
  | GetNotificationPreferences => as_user rq get_notification_preferences
  | UpdateNotificationPreferences p => as_user rq (λ u, update_notification_preferences u p)
  | MarkNotificationRead n => as_user rq (λ u, mark_notification_read u n)
  | ListAuditLogs f => as_admin rq (λ _, list_audit_logs f)
  | ListSystemEvents f => as_admin rq (λ _, list_system_events f)
  | ListStorageLocations => as_super_admin rq (λ _, list_storage_locations)
  | ReadEmergencyStop => as_admin rq (λ _, get_emergency_stop_state)
  | ActivateEmergencyStop r => as_super_admin rq (λ u, activate_emergency_stop u r rt)
  | DeactivateEmergencyStop r => as_reauthenticated rq (λ u, deactivate_emergency_stop u r)
  | ReconcileTestnetOrders a => as_reauthenticated rq (λ u, reconcile_testnet_order_statuses u a)
  | ConsumeUserStream a k m => as_reauthenticated rq (λ u, consume_testnet_user_stream u a k m)
  end.

(** Between requests time passes; each request runs in a session of its own. The
    requests of a run may be restricted. *)
Inductive step (allowed : Call → bool) : World → World → Prop :=
| step_request rq w : allowed (rq_call rq) = true → step allowed w (run_request (serve rq) w).2
| step_time t w : (w_now w ≤ t)%Z → step allowed w (set_now t w).
End service.

(** ** Order events *)

(** What makes an order leave the service: the simulated exchange takes one, or a
    request other than a GET goes to the order endpoint of an exchange. *)
Definition order_event (ev : Event) : Prop :=
  match ev with
  | EvMockOrder _ => True
  | EvHttp _ req => req_method req ≠ "GET" ∧ ∃ e, _testnet_order_request_path e = Some (req_path req)
  | _ => False
  end.
Definition harmless (ev : Event) : Prop := ¬ order_event ev.

(** ** Classes of requests *)

(** The requests that can touch an execution, the stop switch or the order endpoint of
    an exchange; all others are [plain]. *)
Definition plain (c : Call) : bool :=
  match c with
  | ExecuteSignal _ _ | SubmitTestnetOrder _ | ActivateEmergencyStop _ | DeactivateEmergencyStop _
  | ReconcileTestnetOrders _ | ConsumeUserStream _ _ _ => false
  | _ => true
  end.

(** All but the one that lifts the emergency stop. *)
Definition keeps_stop (c : Call) : bool :=
  match c with DeactivateEmergencyStop _ => false | _ => true end.

Definition public (c : Call) : bool := match c with Register _ _ _ | Login _ _ _ => true | _ => false end.

(** The requests that need a recent reauthentication. *)
Definition sensitive (c : Call) : bool :=
  match c with
  | EnrollMfa | ConfirmMfa _ | RemoveMfa _ | SetApiKey _ _ _ _ | CheckTestnetReadOnly _ | CheckRealReadOnly _
  | ApproveAccountOrderWindow _ _ _ _ _ _ _ | RecordSmallFundReview _ _ _ | RecordOrderWindow _ _ _ _ _ _ _ _
  | RecordFinalCheck _ _ _ _ | DeactivateEmergencyStop _ | ReconcileTestnetOrders _ | ConsumeUserStream _ _ _ => true
  | _ => false
  end.

(** The requests of a super administrator, and of an administrator of either kind. *)
Definition privileged (c : Call) : bool :=
  match c with
  | EnrollMfa | ConfirmMfa _ | RemoveMfa _ | ListStorageLocations | ActivateEmergencyStop _ | DeactivateEmergencyStop _
  | ReconcileTestnetOrders _ | ConsumeUserStream _ _ _ => true
  | _ => false
  end.
Definition administrative (c : Call) : bool :=
  match c with ListAuditLogs _ | ListSystemEvents _ | ReadEmergencyStop => true | _ => false end.

(** ** Runs *)

Section runs.
Context `{Database} `{Settings} `{PyFloat} `{Fernet} `{Secrets} `{Pyotp} `{Redis} `{GexbotSettings} `{StorageSettings} `{X : Exchange} `{W : WebSocket}.
Context (rt : AlertRuntime).

(** A series of requests without a pause. *)
Definition serve_all (rqs : list Request) (w : World) : World :=
  fold_left (λ w rq, (run_request (serve rt rq) w).2) rqs w.

Lemma serve_all_steps allowed rqs w :
  forallb (λ rq, allowed (rq_call rq)) rqs = true → star (step rt allowed) w (serve_all rqs w).
Proof.
  induction rqs as [|rq rqs IH] using rev_ind; [intros _; apply star_refl|].
  rewrite forallb_app. intros [Hrqs Hrq]%andb_true_iff. cbn in Hrq. rewrite andb_true_r in Hrq.
  unfold serve_all. rewrite fold_left_app. eapply star_snoc; [by apply IH|]. by apply step_request.
Qed.
End runs.

#[local] Existing Instance demo_redis.
#[local] Existing Instance accepting_exchange.
#[local] Existing Instance refusing_stream.
#[local] Existing Instance gexbot_demo.
#[local] Existing Instance storage_demo_settings.

Definition demo_request (c : Call) : Request := {| rq_token := demo_token; rq_reauth := None; rq_call := c |}.
Abbreviation demo_serve := (serve_all OperationalAlertRuntime).

(** A trading day: two signals are executed, then the stop is switched on. *)
Definition trading : list Request :=
  [ demo_request (ExecuteSignal "signal-1" "acct-sim"); demo_request (ExecuteSignal "signal-2" "acct-sim");
    demo_request (ActivateEmergencyStop "flash crash") ].
Definition stopped_world : World := Eval vm_compute in demo_serve trading demo_world.
(** The same signals again, and a new account that is to trade. *)
Definition retries : list Request :=
  [ demo_request (ExecuteSignal "signal-1" "acct-sim"); demo_request (AddAccount BYBIT "spot" TESTNET true);
    demo_request (ActivateEmergencyStop "still"); demo_request (ExecuteSignal "signal-2" "acct-sim") ].
Definition retried_world : World := Eval vm_compute in demo_serve retries stopped_world.

(** The two runs, computed once. *)
Lemma stopped_world_run : stopped_world = demo_serve trading demo_world.
Proof. vm_compute. reflexivity. Qed.
Lemma retried_world_run : retried_world = demo_serve retries stopped_world.
Proof. vm_compute. reflexivity. Qed.

Lemma stopped_world_steps : star (step OperationalAlertRuntime (λ _, true)) demo_world stopped_world.
Proof. rewrite stopped_world_run. by apply serve_all_steps. Qed.
Lemma retried_world_steps : star (step OperationalAlertRuntime keeps_stop) stopped_world retried_world.
Proof. rewrite retried_world_run. by apply serve_all_steps. Qed.
