(* ===== verification/Plain.v ===== *)
(** The requests that have nothing to do with orders, one endpoint after the other:
    whatever their outcome, the executions, their log and the stop switch stay as they
    were, and no order leaves the service. *)
From S2P Require Import Prelude PyStr PyDecimal PyValue Json Models Session PgDatabase Tables Demo Logic OrderStateMachine ExecutionLog ExecutionRow Alerts Accounts Security Mfa Users Permissions Notifications TestnetGate WindowApproval RateLimit HttpClient TestnetRequest RiskEngine PositionEngine EmergencyStop SignalEngine OrderEngine TestnetPersistence TestnetSubmit Lifecycle AccountSync OrderReconciliation UserStream Adapters ReadOnly Phase4 MarketData Storage Endpoints Steady System.

Section bystanders.
Context `{Database} `{Settings} `{PyFloat} `{Fernet} `{Secrets} `{Pyotp} `{Redis} `{GexbotSettings} `{StorageSettings} `{X : Exchange} `{W : WebSocket}.
Context (rt : AlertRuntime) `{!AlertRuntimeLaws rt}.
Context {V : Type} (view : Db → V) (e : V) `{!FlushOk view e harmless}.

Lemma bystander_quiet (m : M unit) : quiet m → bystander view e harmless m.
Proof.
  intros Hq P n tr w (Ht & Hn & Hc & Hx & evs & Htr & Hevs). destruct (Hq w) as (evs' & Hal & ->). cbn.
  split; [done|]. split; [done|]. split; [done|]. split; [done|]. exists (evs ++ evs'). cbn.
  rewrite Htr, app_assoc. split; [done|]. apply Forall_app_2; [done|]. apply Forall_forall.
  intros ev (k & f & ->)%Hal. by intros [].
Qed.

Lemma bystander_transport req : (∀ c, harmless (EvHttp c req)) → bystander view e harmless (transport_request req).
Proof.
  intros Hr. unfold transport_request. bystander_tac. apply bystander_emit, Hr.
Qed.

Lemma bystander_get_private client path c params sec :
  bystander view e harmless (get_private client path c params sec).
Proof.
  unfold get_private. bystander_tac. apply bystander_transport. intros cm [Hm _].
  match goal with E : prepare_private_request _ _ _ _ _ _ = Ok _ |- _ =>
    apply private_request_shape in E as [E _]; congruence end.
Qed.

Lemma bystander_user token : bystander view e harmless (get_current_user token).
Proof. unfold get_current_user, unauthorized, decode_access_token, get_user_by_id. bystander_tac. Qed.

Lemma bystander_reauthenticated token reauth : bystander view e harmless (get_reauthenticated_user token reauth).
Proof.
  unfold get_reauthenticated_user, unauthorized. bystander_tac; [apply bystander_user|].
  unfold decode_access_token. bystander_tac.
Qed.
End bystanders.

#[export] Hint Resolve bystander_user bystander_reauthenticated bystander_get_private : bystander.

Section plain.
Context `{Database} `{Settings} `{PyFloat} `{Fernet} `{Secrets} `{Pyotp} `{Redis} `{GexbotSettings} `{StorageSettings} `{X : Exchange} `{W : WebSocket}.
Context (rt : AlertRuntime) `{!AlertRuntimeLaws rt}.

Abbreviation aside := (bystander order_view ([], [], []) harmless).

Lemma aside_draw : aside draw.
Proof. apply (bystander_draw _ _ _ (λ n, n)). Qed.
Lemma aside_hash password : aside (hash_password password).
Proof. unfold hash_password. bystander_tac. apply aside_draw. Qed.
Lemma aside_encrypt s : aside (encrypt_secret s).
Proof. unfold encrypt_secret. apply (bystander_draw _ _ _ (λ nonce, fernet_encrypt _fernet nonce s)). Qed.
Lemma aside_code : aside _generate_recovery_code.
Proof. unfold _generate_recovery_code. bystander_tac; apply aside_draw. Qed.
Lemma aside_token subject ver purpose d : aside (_create_token subject ver purpose d).
Proof. unfold _create_token. bystander_tac. Qed.
#[local] Hint Resolve aside_draw aside_hash aside_encrypt aside_code aside_token : bystander.

Lemma aside_users rq :
  match rq_call rq with
  | Register _ _ _ | Login _ _ _ | Reauthenticate _ | ReadMe | UpdatePassword _ _ | ReadMfaStatus | EnrollMfa | ConfirmMfa _
  | RemoveMfa _ => aside (serve rt rq)
  | _ => True
  end.
Proof.
  unfold serve, as_user, as_anyone. destruct (rq_call rq); try done;
    unfold register, login, read_me, reauthenticate, update_password, read_mfa_status, enroll_mfa, confirm_mfa, remove_mfa,
      create_user, authenticate_user, record_reauthentication, change_password, unauthorized,
      Users._require_super_admin, mfa_rejected, start_mfa_enrollment, confirm_mfa_enrollment, disable_mfa,
      verify_mfa_challenge, user_audit, moment, create_access_token, create_reauthentication_token, decrypt_secret, Users.forbidden.
  all: bystander_tac.
Qed.

Lemma aside_permissions rq :
  match rq_call rq with
  | ListPermissions | AddPermission _ | PatchPermission _ _ | RemovePermission _ => aside (serve rt rq)
  | _ => True
  end.
Proof.
  unfold serve, as_user. destruct (rq_call rq); try done;
    unfold list_permissions, add_permission, patch_permission, remove_permission, create_permission,
      list_permissions_for_owner, update_permission, delete_permission, require_permission, get_owned_permission.
  all: bystander_tac.
Qed.

Lemma aside_accounts rq :
  match rq_call rq with
  | ReadAccounts | AddAccount _ _ _ _ | ReadAccount _ | PatchAccount _ _ | RemoveAccount _ | SetApiKey _ _ _ _
  | ReadApiKeyMetadata _ | RemoveApiKey _ => aside (serve rt rq)
  | _ => True
  end.
Proof.
  unfold serve, as_user, as_reauthenticated. destruct (rq_call rq); try done;
    unfold read_accounts, add_account, read_account, patch_account, remove_account, set_api_key,
      read_api_key_metadata, remove_api_key, list_accounts, create_account, update_account, delete_account,
      require_account, get_owned_account, upsert_api_key_secret, encrypt_passphrase, get_api_key_secret_metadata,
      delete_api_key_secret, not_found.
  all: bystander_tac.
Qed.

Lemma aside_credentials user account : aside (get_exchange_credentials user account).
Proof. unfold get_exchange_credentials, get_api_key_secret_metadata, decrypt_secret. bystander_tac. Qed.

Lemma aside_adapter_private a path params : aside (adapter_get_private a path params).
Proof. unfold adapter_get_private, _ensure_enabled, _require_credentials, noop_client. bystander_tac. Qed.
#[local] Hint Resolve aside_credentials aside_adapter_private : bystander.

Lemma aside_balances a : aside (adapter_balances a).
Proof. unfold adapter_balances, get_balances. bystander_tac. Qed.
Lemma aside_open_orders a : aside (adapter_open_orders a).
Proof. unfold adapter_open_orders, get_open_orders, okx_get_open_orders, _ensure_enabled. bystander_tac. Qed.
Lemma aside_audit user account action severity payload : aside (add_audit user account action severity payload).
Proof. unfold add_audit. bystander_tac. Qed.
#[local] Hint Resolve aside_balances aside_open_orders aside_audit : bystander.

Lemma aside_read_only rq :
  match rq_call rq with
  | CheckTestnetReadOnly _ | CheckRealReadOnly _ | ReadRealOpenOrders _ | ReadRealBalances _ => aside (serve rt rq)
  | _ => True
  end.
Proof.
  unfold serve, as_user, as_reauthenticated. destruct (rq_call rq); try done;
    unfold check_testnet_read_only_credentials, check_real_read_only_credentials, read_real_open_orders_endpoint,
      read_real_balances_endpoint, run_testnet_read_only_check, run_real_read_only_check, read_real_open_orders,
      read_real_balances, get_owned_account, testnet_write_audit, real_check_write_audit, balances_write_audit,
      open_orders_write_audit, blocked_answer, failed_answer, not_found, reasons_answer.
  all: bystander_tac.
Qed.

Lemma aside_record user account action payload : aside (record_audit user account action payload).
Proof. unfold record_audit. bystander_tac. Qed.
#[local] Hint Resolve aside_record : bystander.

Lemma aside_windows rq :
  match rq_call rq with
  | ApproveAccountOrderWindow _ _ _ _ _ _ _ | ApproveOrderWindow _ _ _ _ _ _ _ | ReadPhase4Readiness _
  | RecordSmallFundReview _ _ _ | RecordOrderWindow _ _ _ _ _ _ _ _ | RecordFinalCheck _ _ _ _ | AdmissionCheck _
  | WindowPlan _ => aside (serve rt rq)
  | _ => True
  end.
Proof.
  unfold serve, as_user, as_reauthenticated. destruct (rq_call rq); try done;
    unfold approve_account_order_window, approve_testnet_order_window, record_testnet_order_window_approval,
      read_phase4_readiness, build_phase4_readiness_report, record_small_fund_review, record_phase4_small_fund_review,
      record_small_fund_order_window_approval, record_phase4_small_fund_order_window_approval,
      record_final_release_check, record_phase4_final_release_check, get_testnet_order_admission_check,
      build_testnet_order_admission_report, get_testnet_order_window_plan, build_testnet_order_window_plan,
      value_error_is_404, _latest_successful_real_read_only_audit, _latest_phase4_review_audit,
      _latest_required_audit, get_owned_account, find_risk_settings, get_api_key_secret_metadata,
      not_found, reasons_answer.
  all: bystander_tac.
Qed.

Lemma aside_notifications rq :
  match rq_call rq with
  | ListNotifications _ _ | GetNotificationPreferences | UpdateNotificationPreferences _ | MarkNotificationRead _ =>
      aside (serve rt rq)
  | _ => True
  end.
Proof.
  unfold serve, as_user. destruct (rq_call rq); try done;
    unfold list_notifications, get_notification_preferences, update_notification_preferences, mark_notification_read,
      list_internal_notifications, update_preferences, mark_internal_notification_read,
      get_owned_internal_notification, get_or_create_preferences.
  all: bystander_tac.
Qed.

Lemma aside_trading rq :
  match rq_call rq with
  | CreateManualSignal _ | PreviewPositionTarget _ _ _ | ReadRiskSettings _ | PatchRiskSettings _ _
  | ListAuditLogs _ | ListSystemEvents _ | ReadEmergencyStop => aside (serve rt rq)
  | _ => True
  end.
Proof.
  unfold serve, as_user, as_admin, get_current_admin_user. destruct (rq_call rq); try done;
    unfold create_manual_trading_signal, create_manual_signal, preview_position_target, read_risk_settings,
      patch_risk_settings, list_audit_logs, list_system_events, get_emergency_stop_state, require_account,
      get_owned_account, get_or_create_position, get_or_create_risk_settings, update_risk_settings,
      _notify_emergency_stop_enabled, not_found, Users.forbidden.
  all: bystander_tac.
  all: apply bystander_quiet, quiet_emergency_stop.
Qed.

Lemma aside_public client path params : aside (get_public client path params).
Proof. apply bystander_transport. by intros c [Hm _]. Qed.
Lemma aside_gexbot client path auth : aside (gexbot_get client path auth).
Proof. unfold gexbot_get, gexbot_request. bystander_tac. apply bystander_emit. by intros [Hm _]. Qed.
#[local] Hint Resolve aside_public aside_gexbot : bystander.

Lemma aside_candles e symbol interval limit : aside (get_public_candles e symbol interval limit).
Proof. unfold get_public_candles. bystander_tac. Qed.
#[local] Hint Resolve aside_candles : bystander.
Lemma aside_candidates requested symbol interval limit last cs :
  aside (try_candidates requested symbol interval limit last cs).
Proof. revert last. induction cs as [|c cs IH]; intros last; cbn [try_candidates]; bystander_tac. Qed.
#[local] Hint Resolve aside_candidates : bystander.

Lemma aside_market rq :
  match rq_call rq with
  | GetCandles _ _ _ _ _ | ListProviders | ListGexbotTickers | GetGexbotCategory _ _ _ | GetGexbotOrderflow _
  | ListStorageLocations => aside (serve rt rq)
  | _ => True
  end.
Proof.
  unfold serve, as_user, as_super_admin, get_current_super_admin_user. destruct (rq_call rq); try done;
    unfold get_exchange_candles, get_public_candles_with_fallback, list_market_data_providers, list_gexbot_tickers,
      get_gexbot_package_category, get_gexbot_orderflow, list_tickers, get_package_category, get_orderflow,
      gexbot_key_errors, gexbot_errors, list_storage_locations, Users.forbidden.
  all: bystander_tac.
Qed.

(** Every plain request leaves the executions, their log and the stop switch alone
    and sends no order, whatever its outcome. *)
Lemma plain_aside rq : plain (rq_call rq) = true → aside (serve rt rq).
Proof.
  intros Hp. pose proof (aside_users rq). pose proof (aside_permissions rq). pose proof (aside_accounts rq).
  pose proof (aside_read_only rq). pose proof (aside_windows rq). pose proof (aside_notifications rq).
  pose proof (aside_trading rq). pose proof (aside_market rq). destruct (rq_call rq); done.
Qed.
End plain.
