(* ===== verification/Standing.v ===== *)
(** What is recorded stays recorded: every request, whatever its outcome, keeps the tables
    well typed, removes nothing from the permanent ones and rewrites nothing that lasts. *)
From S2P Require Import Prelude PyStr PyDecimal PyValue Json Models Session PgDatabase Tables Demo Logic OrderStateMachine ExecutionLog ExecutionRow Alerts Accounts Security Mfa Users Permissions Notifications TestnetGate WindowApproval RateLimit HttpClient TestnetRequest RiskEngine PositionEngine EmergencyStop SignalEngine OrderEngine TestnetPersistence TestnetSubmit Lifecycle AccountSync OrderReconciliation UserStream Adapters ReadOnly Phase4 MarketData Storage Endpoints Steady Records System.

(** ** What the approvals promise *)

(** The records that approve something. *)
Definition approval_action (action : string) : bool :=
  existsb (String.eqb action) [WINDOW_ACTION; REVIEW_ACTION; ORDER_WINDOW_ACTION; FINAL_CHECK_ACTION].

(** A condition on audit rows that every program which writes them meets: rows of other
    actions meet it, and the four approvals do where nothing blocked them. *)
Class LedgerRules `{Settings} (P : AuditLog → Prop) : Prop := {
  rule_other l : approval_action (aud_action l) = false → P l;
  rule_window id user role account risk key symbol side q n d ack now :
    _approval_blocked_reasons role account testnet_adapters_enabled risk key d ack = [] →
    P (Build_AuditLog id user (Some (acct_id account)) WINDOW_ACTION "WARNING"
         (window_payload account symbol side q n d ack) now);
  rule_review id user role account risk key passphrase checked check n ack now :
    _review_blocked_reasons role account risk key passphrase checked n ack = [] →
    P (Build_AuditLog id user (Some (acct_id account)) REVIEW_ACTION "CRITICAL"
         (review_payload account n ack check) now);
  rule_order_window id user role account risk key passphrase checked reviewed check review limit symbol side q p n d ack now :
    _order_window_blocked_reasons role account risk key passphrase checked reviewed limit symbol q p n d ack = Some [] →
    P (Build_AuditLog id user (Some (acct_id account)) ORDER_WINDOW_ACTION "CRITICAL"
         (order_window_payload account (str_upper (str_strip symbol)) side q p n d ack review check) now);
  rule_final id user role account risk reviewed approved review window limit1 limit2 n c ack now :
    _blocked_reasons role account risk reviewed approved limit1 limit2 n c ack = Some [] →
    P (Build_AuditLog id user (Some (acct_id account)) FINAL_CHECK_ACTION "CRITICAL"
         (final_check_payload account n review window c ack) now) }.

#[export] Instance no_ledger_rules `{Settings} : LedgerRules (λ _, True).
Proof. by split. Qed.

Section walk.
Context `{Database} `{!DatabaseLaws} `{Settings} `{PyFloat} `{Fernet} `{Secrets} `{Pyotp} `{Redis} `{GexbotSettings} `{StorageSettings} `{X : Exchange} `{W : WebSocket}.
Context (rt : AlertRuntime) `{!AlertRuntimeLaws rt}.
Context (P : AuditLog → Prop) `{!LedgerRules P}.
Abbreviation enduring := (Records.enduring P).

(** *** Building blocks *)

Lemma other_row id user account action severity payload now :
  approval_action action = false → P (Build_AuditLog id user account action severity payload now).
Proof. intros Ha. by apply rule_other. Qed.
#[local] Hint Extern 1 (approval_action ?a = false) => (reflexivity || (repeat case_match; reflexivity)) : enduring.
#[local] Hint Resolve other_row : enduring.
#[local] Hint Extern 2 (P _) =>
  (first [eapply rule_window; eassumption | eapply rule_review; eassumption
         | eapply rule_order_window; eassumption | eapply rule_final; eassumption]) : enduring.

Lemma enduring_draw_any : enduring draw.
Proof. apply (enduring_draw _ (λ n, n)). Qed.
Lemma enduring_encrypt s : enduring (encrypt_secret s).
Proof. unfold encrypt_secret. apply (enduring_draw _ (λ nonce, fernet_encrypt _fernet nonce s)). Qed.
#[local] Hint Resolve enduring_draw_any enduring_encrypt : enduring.

Lemma enduring_user token : enduring (get_current_user token).
Proof. unfold get_current_user, unauthorized, decode_access_token, get_user_by_id. enduring_tac. Qed.
#[local] Hint Resolve enduring_user : enduring.
Lemma enduring_reauthenticated token reauth : enduring (get_reauthenticated_user token reauth).
Proof. unfold get_reauthenticated_user, unauthorized, decode_access_token. enduring_tac. Qed.
Lemma enduring_transport req : enduring (transport_request req).
Proof. unfold transport_request. enduring_tac. Qed.
#[local] Hint Resolve enduring_reauthenticated enduring_transport : enduring.
Lemma enduring_get_private client path c params sec : enduring (get_private client path c params sec).
Proof. unfold get_private. enduring_tac. Qed.
Lemma enduring_hash password : enduring (hash_password password).
Proof. unfold hash_password. enduring_tac. Qed.
Lemma enduring_code : enduring _generate_recovery_code.
Proof. unfold _generate_recovery_code. enduring_tac. Qed.
Lemma enduring_token subject ver purpose d : enduring (_create_token subject ver purpose d).
Proof. unfold _create_token. enduring_tac. Qed.
Lemma enduring_credentials user account : enduring (get_exchange_credentials user account).
Proof. unfold get_exchange_credentials, get_api_key_secret_metadata, decrypt_secret. enduring_tac. Qed.
#[local] Hint Resolve enduring_get_private enduring_hash enduring_code enduring_token enduring_credentials : enduring.

(** *** Credentials, permissions, accounts *)

Lemma enduring_users rq :
  match rq_call rq with
  | Register _ _ _ | Login _ _ _ | Reauthenticate _ | ReadMe | UpdatePassword _ _ | ReadMfaStatus | EnrollMfa | ConfirmMfa _
  | RemoveMfa _ => enduring (serve rt rq)
  | _ => True
  end.
Proof.
  unfold serve, as_user, as_anyone. destruct (rq_call rq); try done;
    unfold register, login, read_me, reauthenticate, update_password, read_mfa_status, enroll_mfa, confirm_mfa, remove_mfa,
      create_user, authenticate_user, record_reauthentication, change_password, unauthorized,
      Users._require_super_admin, mfa_rejected, start_mfa_enrollment, confirm_mfa_enrollment, disable_mfa,
      verify_mfa_challenge, user_audit, moment, create_access_token, create_reauthentication_token, decrypt_secret, Users.forbidden.
  all: enduring_tac.
Qed.

Lemma enduring_permissions rq :
  match rq_call rq with
  | ListPermissions | AddPermission _ | PatchPermission _ _ | RemovePermission _ => enduring (serve rt rq)
  | _ => True
  end.
Proof.
  unfold serve, as_user. destruct (rq_call rq); try done;
    unfold list_permissions, add_permission, patch_permission, remove_permission, create_permission,
      list_permissions_for_owner, update_permission, delete_permission, require_permission, get_owned_permission.
  all: enduring_tac.
Qed.

Lemma enduring_accounts rq :
  match rq_call rq with
  | ReadAccounts | AddAccount _ _ _ _ | ReadAccount _ | PatchAccount _ _ | RemoveAccount _ | SetApiKey _ _ _ _
  | ReadApiKeyMetadata _ | RemoveApiKey _ => enduring (serve rt rq)
  | _ => True
  end.
Proof.
  unfold serve, as_user, as_reauthenticated. destruct (rq_call rq); try done;
    unfold read_accounts, add_account, read_account, patch_account, remove_account, set_api_key,
      read_api_key_metadata, remove_api_key, list_accounts, create_account, update_account, delete_account,
      require_account, get_owned_account, upsert_api_key_secret, encrypt_passphrase, get_api_key_secret_metadata,
      delete_api_key_secret, not_found.
  all: enduring_tac.
Qed.

(** *** Exchange checks, windows, notifications *)

Lemma enduring_adapter_private a path params : enduring (adapter_get_private a path params).
Proof. unfold adapter_get_private, _ensure_enabled, _require_credentials, noop_client. enduring_tac. Qed.
#[local] Hint Resolve enduring_adapter_private : enduring.
Lemma enduring_balances a : enduring (adapter_balances a).
Proof. unfold adapter_balances, get_balances. enduring_tac. Qed.
Lemma enduring_open_orders a : enduring (adapter_open_orders a).
Proof. unfold adapter_open_orders, get_open_orders, okx_get_open_orders, _ensure_enabled. enduring_tac. Qed.
Lemma enduring_audit user account action severity payload :
  approval_action action = false → enduring (add_audit user account action severity payload).
Proof. intros Ha. unfold add_audit. enduring_tac. Qed.
#[local] Hint Resolve enduring_balances enduring_open_orders enduring_audit : enduring.

Lemma enduring_read_only rq :
  match rq_call rq with
  | CheckTestnetReadOnly _ | CheckRealReadOnly _ | ReadRealOpenOrders _ | ReadRealBalances _ => enduring (serve rt rq)
  | _ => True
  end.
Proof.
  unfold serve, as_user, as_reauthenticated. destruct (rq_call rq); try done;
    unfold check_testnet_read_only_credentials, check_real_read_only_credentials, read_real_open_orders_endpoint,
      read_real_balances_endpoint, run_testnet_read_only_check, run_real_read_only_check, read_real_open_orders,
      read_real_balances, get_owned_account, testnet_write_audit, real_check_write_audit, balances_write_audit,
      open_orders_write_audit, blocked_answer, failed_answer, not_found, reasons_answer.
  all: enduring_tac.
Qed.

Lemma enduring_windows rq :
  match rq_call rq with
  | ApproveAccountOrderWindow _ _ _ _ _ _ _ | ApproveOrderWindow _ _ _ _ _ _ _ | ReadPhase4Readiness _
  | RecordSmallFundReview _ _ _ | RecordOrderWindow _ _ _ _ _ _ _ _ | RecordFinalCheck _ _ _ _ | AdmissionCheck _
  | WindowPlan _ => enduring (serve rt rq)
  | _ => True
  end.
Proof.
  unfold serve, as_user, as_reauthenticated. destruct (rq_call rq); try done;
    unfold approve_account_order_window, approve_testnet_order_window, record_testnet_order_window_approval,
      read_phase4_readiness, build_phase4_readiness_report, record_small_fund_review, record_phase4_small_fund_review,
      record_small_fund_order_window_approval, record_phase4_small_fund_order_window_approval,
      record_final_release_check, record_phase4_final_release_check, get_testnet_order_admission_check,
      build_testnet_order_admission_report, get_testnet_order_window_plan, build_testnet_order_window_plan,
      value_error_is_404, _latest_successful_real_read_only_audit, _latest_phase4_review_audit,
      _latest_required_audit, record_audit, get_owned_account, find_risk_settings, get_api_key_secret_metadata,
      not_found, reasons_answer.
  all: enduring_tac.
Qed.

Lemma enduring_notifications rq :
  match rq_call rq with
  | ListNotifications _ _ | GetNotificationPreferences | UpdateNotificationPreferences _ | MarkNotificationRead _ =>
      enduring (serve rt rq)
  | _ => True
  end.
Proof.
  unfold serve, as_user. destruct (rq_call rq); try done;
    unfold list_notifications, get_notification_preferences, update_notification_preferences, mark_notification_read,
      list_internal_notifications, update_preferences, mark_internal_notification_read,
      get_owned_internal_notification, get_or_create_preferences.
  all: enduring_tac.
Qed.

Lemma enduring_risk_change data r : lasting TRisk (foldl set_risk_attr r data) = lasting TRisk r.
Proof.
  revert r. induction data as [|c data IH]; intros r; [done|]. cbn [foldl]. rewrite IH. by destruct r, c.
Qed.
Lemma enduring_stop_alert scope : enduring (notify_emergency_stop_enabled rt scope).
Proof. apply enduring_quiet, quiet_emergency_stop. Qed.
#[local] Hint Resolve enduring_risk_change enduring_stop_alert : enduring.

Lemma enduring_trading rq :
  match rq_call rq with
  | CreateManualSignal _ | PreviewPositionTarget _ _ _ | ReadRiskSettings _ | PatchRiskSettings _ _
  | ListAuditLogs _ | ListSystemEvents _ | ReadEmergencyStop => enduring (serve rt rq)
  | _ => True
  end.
Proof.
  unfold serve, as_user, as_admin, get_current_admin_user. destruct (rq_call rq); try done;
    unfold create_manual_trading_signal, create_manual_signal, preview_position_target, read_risk_settings,
      patch_risk_settings, list_audit_logs, list_system_events, get_emergency_stop_state, require_account,
      get_owned_account, get_or_create_position, get_or_create_risk_settings, update_risk_settings,
      _notify_emergency_stop_enabled, not_found, Users.forbidden.
  all: enduring_tac.
Qed.

Lemma enduring_public client path params : enduring (get_public client path params).
Proof. apply enduring_transport. Qed.
Lemma enduring_gexbot client path auth : enduring (gexbot_get client path auth).
Proof. unfold gexbot_get, gexbot_request. enduring_tac. Qed.
#[local] Hint Resolve enduring_public enduring_gexbot : enduring.

Lemma enduring_candles e symbol interval limit : enduring (get_public_candles e symbol interval limit).
Proof. unfold get_public_candles. enduring_tac. Qed.
#[local] Hint Resolve enduring_candles : enduring.
Lemma enduring_candidates requested symbol interval limit last cs :
  enduring (try_candidates requested symbol interval limit last cs).
Proof. revert last. induction cs as [|c cs IH]; intros last; cbn [try_candidates]; enduring_tac. Qed.
#[local] Hint Resolve enduring_candidates : enduring.

Lemma enduring_market rq :
  match rq_call rq with
  | GetCandles _ _ _ _ _ | ListProviders | ListGexbotTickers | GetGexbotCategory _ _ _ | GetGexbotOrderflow _
  | ListStorageLocations => enduring (serve rt rq)
  | _ => True
  end.
Proof.
  unfold serve, as_user, as_super_admin, get_current_super_admin_user. destruct (rq_call rq); try done;
    unfold get_exchange_candles, get_public_candles_with_fallback, list_market_data_providers, list_gexbot_tickers,
      get_gexbot_package_category, get_gexbot_orderflow, list_tickers, get_package_category, get_orderflow,
      gexbot_key_errors, gexbot_errors, list_storage_locations, Users.forbidden.
  all: enduring_tac.
Qed.

Lemma enduring_plain rq : plain (rq_call rq) = true → enduring (serve rt rq).
Proof.
  intros Hp. pose proof (enduring_users rq). pose proof (enduring_permissions rq). pose proof (enduring_accounts rq).
  pose proof (enduring_read_only rq). pose proof (enduring_windows rq). pose proof (enduring_notifications rq).
  pose proof (enduring_trading rq). pose proof (enduring_market rq). destruct (rq_call rq); done.
Qed.

(** *** Orders *)

Lemma enduring_failure_alert st ft : enduring (_notify_order_failure (Some rt) st ft).
Proof. apply enduring_quiet, (quiet_order_failure (rt:=rt)). Qed.
#[local] Hint Resolve enduring_failure_alert : enduring.

Lemma enduring_transition execution s reason details : enduring (transition_order_execution execution s reason details).
Proof.
  unfold transition_order_execution, _add_transition, load_execution, _next_sequence_number. enduring_tac.
Qed.
Lemma enduring_initial execution reason : enduring (record_initial_order_state execution reason).
Proof.
  unfold record_initial_order_state, _add_transition, load_execution, _next_sequence_number. enduring_tac.
Qed.
#[local] Hint Resolve enduring_transition enduring_initial : enduring.

Lemma enduring_execute user signal account : enduring (execute_signal user signal account rt).
Proof.
  unfold execute_signal, execute_signal_for_account, execute_new, create_execution, assert_new_orders_allowed,
    get_emergency_stop_state, _get_owned_signal, _get_owned_account, _resolve_side_and_quantity, submit_and_fill,
    fail_execution, get_or_create_risk_settings, apply_fill, get_or_create_position, load_execution.
  enduring_tac.
Qed.

Lemma enduring_acquire e account path : enduring (acquire_testnet_order None e account path).
Proof. apply enduring_aside. intros w. by destruct (redis_only_acquire e account path w) as (evs & o & -> & _). Qed.

Lemma lasting_order_id id e : lasting TExecutions (exe_with_order_id id e) = lasting TExecutions e.
Proof. by destruct id. Qed.
Lemma lasting_take_order_id id e : lasting TExecutions (take_order_id id e) = lasting TExecutions e.
Proof. unfold take_order_id. by case_match. Qed.
#[local] Hint Resolve enduring_acquire lasting_order_id lasting_take_order_id : enduring.

Lemma enduring_recorded execution result : enduring (record_testnet_submission_accepted execution result).
Proof. unfold record_testnet_submission_accepted, load_execution. enduring_tac. Qed.

Lemma enduring_record_failure sub ft : enduring (_record_testnet_submission_failure sub ft).
Proof. unfold _record_testnet_submission_failure, record_testnet_submission_failure, load_execution. enduring_tac. Qed.
#[local] Hint Resolve enduring_record_failure : enduring.

Lemma enduring_submit_errors {A} sub x (h : M A) : submit_errors sub x = Some h → enduring h.
Proof.
  unfold submit_errors. destruct x; cbn [is_ValueError is_RuntimeError]; try done; intros [= <-]; enduring_tac.
Qed.

#[local] Hint Resolve enduring_recorded enduring_submit_errors : enduring.

Lemma enduring_submit user payload : enduring (submit_testnet_order user payload).
Proof.
  unfold submit_testnet_order. apply enduring_bind; [apply enduring_try; [|by apply enduring_submit_errors]|].
  2: intros [ctx sub]; destruct (sub_replay sub);
    [apply enduring_try; [|by apply enduring_submit_errors]
    |apply enduring_bind; [apply enduring_try; [|by apply enduring_submit_errors]|intros ?]].
  all: unfold prepare_submission, send_submission, execute_testnet_order,
    build_testnet_order_api_context, require_valid_testnet_order_window_authorization, assert_new_orders_allowed, get_emergency_stop_state,
    create_or_get_testnet_submission_execution, create_submission, decide_submission, get_or_create_risk_settings,
    _testnet_submit_response, blocked_authorization, load_execution.
  all: enduring_tac.
Qed.

(** *** Events from the exchanges *)

Lemma enduring_apply user account ev reason : enduring (apply_order_event user account ev reason).
Proof. unfold apply_order_event, _find_execution, try_transition, load_execution. enduring_tac. Qed.
#[local] Hint Resolve enduring_apply : enduring.

Lemma enduring_item user account e c client execution :
  enduring (_reconcile_execution user account e c client execution).
Proof. unfold _reconcile_execution, lookup_and_apply, lookup_errors, failed_item, load_execution. enduring_tac. Qed.
#[local] Hint Resolve enduring_item : enduring.

Lemma enduring_reconcile user account : enduring (reconcile_testnet_order_statuses user account).
Proof.
  unfold reconcile_testnet_order_statuses, OrderReconciliation._require_super_admin,
    OrderReconciliation._require_testnet_enabled, reconcile_pending_testnet_orders, get_owned_account, blocked,
    OrderReconciliation._write_audit.
  enduring_tac.
Qed.

Lemma enduring_sync user account event : enduring (sync_testnet_account_state_event user account event).
Proof.
  unfold sync_testnet_account_state_event, _require_testnet_account.
  enduring_tac; apply enduring_run_all; intros m (u & -> & _)%list_elem_of_fmap;
    unfold _upsert_balance, _upsert_position; enduring_tac.
Qed.
#[local] Hint Resolve enduring_sync : enduring.

Lemma enduring_persist user account ev : enduring (persist_event user account ev).
Proof. unfold persist_event, handle_user_stream_event. enduring_tac. Qed.
#[local] Hint Resolve enduring_persist : enduring.

Lemma enduring_finally {A} (m : M A) f : enduring m → enduring f → enduring (finally m f).
Proof.
  intros Hm Hf d0 w Hw. unfold finally. specialize (Hm d0 w Hw). destruct (m w) as [o w1].
  specialize (Hf d0 w1 Hm). by destruct (f w1) as [[?|?] w2].
Qed.

Lemma enduring_open plan : enduring (open_session plan).
Proof. unfold open_session, guarded, transport_connect, send_json, transport_failed. enduring_tac. Qed.
Lemma enduring_close connected : enduring (_close_transport connected).
Proof. unfold _close_transport. enduring_tac. Qed.
#[local] Hint Resolve enduring_open enduring_close : enduring.

Section consumer.
Context {R : Type} (handler : TestnetUserStreamEvent → M R) (should_stop : list Event → bool).
Hypothesis handler_enduring : ∀ ev, enduring (handler ev).

Lemma enduring_receive_loop fuel e m processed : enduring (receive_loop handler should_stop fuel e m processed).
Proof.
  revert processed. induction fuel as [|fuel IH]; intros processed; cbn [receive_loop]; [apply enduring_ret|].
  unfold stop_requested, try_receive, receive_json, transport_failed. enduring_tac.
Qed.

Lemma enduring_consume_loop cfg plan m inner fuel processed reconnects :
  enduring (consume_loop handler should_stop fuel inner cfg plan m processed reconnects).
Proof.
  revert processed reconnects.
  induction fuel as [|fuel IH]; intros processed reconnects; cbn [consume_loop]; [apply enduring_ret|]. cbv zeta.
  unfold stop_requested, _sleep_before_reconnect. enduring_tac.
  all: apply enduring_finally; [apply enduring_receive_loop|apply enduring_close].
Qed.
End consumer.

Lemma enduring_stream current_user account acknowledgement max_messages :
  enduring (consume_testnet_user_stream current_user account acknowledgement max_messages).
Proof.
  unfold consume_testnet_user_stream, OrderReconciliation._require_super_admin,
    OrderReconciliation._require_testnet_enabled, consume_bounded_testnet_user_stream, get_owned_account,
    activate_testnet_user_stream_connection_plan, consume, write_stream_audit.
  enduring_tac. apply enduring_consume_loop. intros ev. apply enduring_persist.
Qed.

Lemma stored_risk_off (r : RiskSetting) : stored r → stored (risk_trading_off r).
Proof.
  destruct r. unfold stored. cbn. unfold store_risk. cbn. intros E. repeat (apply bind_Some in E as (? & Ho & E); rewrite Ho; clear Ho; cbn).
  by injection E as -> -> -> -> ->.
Qed.

#[local] Hint Resolve stored_risk_off : enduring.

Lemma enduring_stop enabled user reason : enduring (set_emergency_stop enabled user reason).
Proof.
  unfold set_emergency_stop, lock_control, force_flags_off, record_stop, get_emergency_stop_state. enduring_tac.
  apply other_row. by destruct enabled.
Qed.
#[local] Hint Resolve enduring_execute enduring_submit enduring_reconcile enduring_stream enduring_stop : enduring.

Lemma enduring_serve rq : enduring (serve rt rq).
Proof.
  destruct (plain (rq_call rq)) eqn:Hp; [by apply enduring_plain|]. revert Hp. unfold serve.
  destruct (rq_call rq); try done; intros _;
    unfold as_user, as_super_admin, as_reauthenticated, get_current_super_admin_user, activate_emergency_stop,
      deactivate_emergency_stop, Users.forbidden.
  all: enduring_tac.
Qed.

(** *** Runs *)

(** Between two requests: nothing is open, the tables are well typed and extend [d0], and
    the audit rows meet the condition. *)
Definition standing (d0 : Db) (w : World) : Prop :=
  w_tx w = w_committed w ∧ well_typed (w_committed w) ∧ extends d0 (w_committed w) ∧
  noted P (w_new w) ∧ noted P (w_committed w).

Lemma step_standing allowed d0 w w' : standing d0 w → step rt allowed w w' → standing d0 w'.
Proof.
  intros Hw Hs. revert Hw. destruct Hs as [rq v _|t v _]; [|done]. intros (Ht & Hty & Hx & Hnn & Hnc).
  unfold run_request.
  assert (lasts P d0 v) as Hl by (unfold lasts; rewrite Ht; by repeat (split; [done|])).
  pose proof (enduring_serve rq d0 v Hl) as (_ & Hty' & Hx' & _ & _ & _ & Hnc'). destruct (serve rt rq v) as [o v'].
  split; [done|]. split; [exact Hty'|]. split; [exact Hx'|]. split; [apply Forall_nil_2|exact Hnc'].
Qed.

Lemma run_noted allowed w w' :
  star (step rt allowed) w w' → w_tx w = w_committed w → well_typed (w_committed w) →
  noted P (w_new w) → noted P (w_committed w) → standing (w_committed w) w'.
Proof.
  intros Hs Ht Hty Hnn Hnc. apply (star_invariant (step rt allowed) (standing (w_committed w))) with w;
    [|done|by repeat (split; [done|])].
  intros v v'. apply step_standing.
Qed.
End walk.

(** Between two requests: nothing is open and the tables are well typed. *)
Definition between `{Database} (w : World) : Prop := w_tx w = w_committed w ∧ well_typed (w_committed w).

(** The four ledgers only grow, and the permanent tables keep their rows. *)
Definition grows (d d' : Db) : Prop :=
  db_audit d `prefix_of` db_audit d' ∧ db_events d `prefix_of` db_events d' ∧
  db_transitions d `prefix_of` db_transitions d' ∧ db_signals d `prefix_of` db_signals d' ∧ extends d d'.

Section runs.
Context `{Database} `{!DatabaseLaws} `{Settings} `{PyFloat} `{Fernet} `{Secrets} `{Pyotp} `{Redis} `{GexbotSettings} `{StorageSettings} `{X : Exchange} `{W : WebSocket}.
Context (rt : AlertRuntime) `{!AlertRuntimeLaws rt}.

Lemma run_standing allowed w w' :
  star (step rt allowed) w w' → w_tx w = w_committed w → well_typed (w_committed w) →
  w_tx w' = w_committed w' ∧ well_typed (w_committed w') ∧ extends (w_committed w) (w_committed w').
Proof.
  intros Hs Ht Hty. destruct (run_noted rt (λ _, True) allowed w w' Hs Ht Hty) as (? & ? & ? & _); [by apply Forall_true..|done].
Qed.

(** C10. Whatever requests the service serves, every value in a NUMERIC column is one the
    column can hold (storing it again changes nothing), and no two rows of a table agree on
    a primary key or a unique constraint, although the writes to existing rows are not
    checked against the constraints. *)
Theorem rows_well_typed allowed w w' :
  star (step rt allowed) w w' → between w → between w'.
Proof. intros Hs [Ht Hty]. by destruct (run_standing allowed w w' Hs Ht Hty) as (? & ? & _). Qed.

(** C11. What is committed stays: the signals, the transitions of orders, the audit log and
    the system events of the past are a prefix of those of the future, and in every table
    but permissions and stored keys each row keeps its place and all that identifies it. *)
Theorem records_permanent allowed w w' :
  star (step rt allowed) w w' → between w → grows (w_committed w) (w_committed w').
Proof.
  intros Hs [Ht Hty]. destruct (run_standing allowed w w' Hs Ht Hty) as (_ & _ & Hx).
  pose proof (Hx TAudit eq_refl) as Ha. pose proof (Hx TEvents eq_refl) as He.
  pose proof (Hx TTransitions eq_refl) as Htr. pose proof (Hx TSignals eq_refl) as Hsi.
  cbn in Ha, He, Htr, Hsi. rewrite !map_id in Ha, He, Htr, Hsi. done.
Qed.
End runs.

(** ** The trading day *)

Lemma demo_typed : well_typed demo_db.
Proof. typed_rows. Qed.

#[local] Existing Instance demo_redis.
#[local] Existing Instance accepting_exchange.
#[local] Existing Instance refusing_stream.
#[local] Existing Instance gexbot_demo.
#[local] Existing Instance storage_demo_settings.

Lemma stopped_typed : well_typed (w_committed stopped_world).
Proof.
  by destruct (run_standing OperationalAlertRuntime _ _ _ stopped_world_steps eq_refl demo_typed) as (_ & ? & _).
Qed.

Lemma rows_well_typed_witness :
  map exe_quantity (db_executions (w_committed stopped_world)) = [Dec false 20000000000 (-10); Dec false 40000000000 (-10)] ∧
  between stopped_world.
Proof.
  split; [reflexivity|].
  exact (rows_well_typed OperationalAlertRuntime _ _ _ stopped_world_steps (conj eq_refl demo_typed)).
Defined.

Lemma records_permanent_witness :
  length (db_events (w_committed stopped_world)) = 1%nat ∧
  db_events (w_committed stopped_world) `prefix_of` db_events (w_committed retried_world) ∧
  db_transitions (w_committed stopped_world) `prefix_of` db_transitions (w_committed retried_world).
Proof.
  split; [reflexivity|].
  by destruct (records_permanent OperationalAlertRuntime _ _ _ retried_world_steps (conj eq_refl stopped_typed))
    as (_ & ? & ? & _).
Defined.
