(* ===== verification/Ledger.v ===== *)
(** The ledger of approvals: whatever requests are served, every approval that ever gets
    into the audit log stays within its limits. *)
From S2P Require Import Prelude PyStr PyDecimal PyValue Json Models Session PgDatabase Tables Demo Logic OrderStateMachine ExecutionLog ExecutionRow Alerts Accounts Security Mfa Users Permissions Notifications TestnetGate WindowApproval RateLimit HttpClient TestnetRequest RiskEngine PositionEngine EmergencyStop SignalEngine OrderEngine TestnetPersistence TestnetSubmit Lifecycle AccountSync OrderReconciliation UserStream Adapters ReadOnly Phase4 MarketData Storage Endpoints Steady Records System Plain Standing.

(** What a row of the audit log says, as the code reads it back. *)
Definition amount (key : string) (l : AuditLog) (d : dec) : Prop := _audit_decimal (Some l) key = Some (PFin d).
Definition minutes (l : AuditLog) (m : Z) : Prop :=
  _int_from_payload (dict_get "duration_minutes" (aud_payload l)) = Some m ∧ (1 ≤ m ≤ 10)%Z.
Definition says_no (key : string) (l : AuditLog) : Prop := dict_get key (aud_payload l) = VBool false.
Definition says_yes (key : string) (l : AuditLog) : Prop := dict_get key (aud_payload l) = VBool true.

Definition CONFIRMATIONS : list string :=
  ["dedicated_account_confirmed"; "account_empty_confirmed"; "withdrawals_disabled_confirmed";
   "delete_api_key_after_test_confirmed"; "first_order_stop_review_confirmed"; "no_live_order_submission_confirmed"].

(** The limits of the four approvals; none of them switches anything on. *)
Definition bounded_approval (l : AuditLog) : Prop :=
  (approval_action (aud_action l) = true → says_no "order_submission_authorized" l ∧ says_no "trading_flags_changed" l) ∧
  (aud_action l = WINDOW_ACTION →
     (∃ q n, amount "max_quantity" l q ∧ amount "max_notional" l n) ∧ ∃ m, minutes l m) ∧
  (aud_action l = REVIEW_ACTION → ∃ n, amount "max_notional" l n ∧ within_cap n) ∧
  (aud_action l = ORDER_WINDOW_ACTION →
     (∃ q p n, amount "max_quantity" l q ∧ amount "limit_price" l p ∧ amount "max_notional" l n ∧ within_cap n ∧
        dec_ltb dec0 q = true ∧ dec_ltb dec0 p = true ∧ dec_leb (dec_mul q p) n = true) ∧ ∃ m, minutes l m) ∧
  (aud_action l = FINAL_CHECK_ACTION →
     (∃ n, amount "max_notional" l n ∧ within_cap n) ∧ Forall (λ key, says_yes key l) CONFIRMATIONS).

Lemma amount_written key l d : dict_get_default key (VStr "") (aud_payload l) = VStr (dec_str d) → amount key l d.
Proof. intros E. unfold amount, _audit_decimal. rewrite E. apply dec_str_parses. Qed.

Lemma minutes_written l m :
  dict_get "duration_minutes" (aud_payload l) = VInt m → ((m <? 1)%Z || (10 <? m)%Z) = false → minutes l m.
Proof.
  intros E [H1%Z.ltb_ge H2%Z.ltb_ge]%orb_false_iff. unfold minutes, _int_from_payload. rewrite E.
  change (py_str (VInt m)) with (str_of_Z m). rewrite int_of_str_of_Z by lia. done.
Qed.

(** The other clauses of a row of one action. *)
Ltac other_actions := repeat match goal with |- _ ∧ _ => split end; intros E'; discriminate E'.

#[export] Instance bounded_ledger `{Settings} : LedgerRules bounded_approval.
Proof.
  split; intros.
  - match goal with H : approval_action _ = false |- _ => rename H into Ho end.
    split; [congruence|]. split; [|split; [|split]]; intros E; exfalso; by rewrite E in Ho.
  - match goal with H : _ = [] |- _ => rename H into E end. unfold _approval_blocked_reasons in E. reasons_nil E.
    destruct E as (_ & _ & _ & _ & _ & _ & _ & _ & _ & Hd & _). split; [done|].
    split; [intros _|other_actions]. split; [|by exists d; apply minutes_written].
    exists q, n. by split; apply amount_written.
  - match goal with H : _ = [] |- _ => rename H into E end. unfold _review_blocked_reasons in E. reasons_nil E.
    destruct E as (_ & _ & _ & _ & _ & _ & _ & _ & _ & _ & H0 & Hc & _). split; [done|].
    split; [intros E'; discriminate E'|]. split; [intros _|other_actions]. exists n. split; [by apply amount_written|by apply within_cap_iff].
  - match goal with H : _ = Some [] |- _ => rename H into E end. unfold _order_window_blocked_reasons in E.
    apply bind_Some in E as (over & _ & [= E]). reasons_nil E.
    destruct E as (_ & _ & _ & _ & _ & _ & _ & _ & _ & _ & _ & _ & _ & Hq & Hp & H0 & Hc & _ & Hqp & Hd & _).
    rewrite dec_leb_negb_ltb in Hq, Hp. apply negb_false_iff in Hq, Hp. unfold dec_gtb in Hqp. rewrite Hq, Hp in Hqp.
    split; [done|]. do 2 (split; [intros E'; discriminate E'|]). split; [intros _|other_actions].
    split; [|by exists d; apply minutes_written].
    exists q, p, n. do 3 (split; [by apply amount_written|]). split; [by apply within_cap_iff|]. do 2 (split; [done|]).
    rewrite dec_leb_negb_ltb. by apply negb_true_iff.
  - match goal with H : _ = Some [] |- _ => rename H into E end. unfold _blocked_reasons in E.
    apply bind_Some in E as (over & _ & E). apply bind_Some in E as (over2 & _ & [= E]). reasons_nil E.
    destruct E as (_ & _ & _ & _ & _ & _ & _ & _ & _ & _ & _ & H0 & Hc & _ & _ & C1 & C2 & C3 & C4 & C5 & C6 & _).
    apply negb_false_iff in C1, C2, C3, C4, C5, C6.
    split; [done|]. do 3 (split; [intros E'; discriminate E'|]). intros _.
    split; [by exists n; split; [apply amount_written|apply within_cap_iff]|].
    repeat constructor; unfold says_yes; cbn; congruence.
Qed.

Section ledger.
Context `{Database} `{!DatabaseLaws} `{Settings} `{PyFloat} `{Fernet} `{Secrets} `{Pyotp} `{Redis} `{GexbotSettings} `{StorageSettings} `{X : Exchange} `{W : WebSocket}.
Context (rt : AlertRuntime) `{!AlertRuntimeLaws rt}.

(** C12. Whatever requests are served, whatever they carry and whoever sends them, every
    approval in the audit log is within its limits: a testnet order window names its
    amounts and is open for one to ten minutes; a small-fund review, an order window and a
    final check of a real account name an amount above zero and at most one hundred, the
    window a quantity and a price whose product is within it, the final check all six
    confirmations; and each says that no order is authorised and no trading flag changed. *)
Theorem approvals_bounded allowed w w' :
  star (step rt allowed) w w' → w_new w = empty_db → w_tx w = w_committed w → well_typed (w_committed w) →
  Forall bounded_approval (db_audit (w_committed w)) → Forall bounded_approval (db_audit (w_committed w')).
Proof.
  intros Hs Hn Ht Hty Hb.
  destruct (run_noted rt bounded_approval allowed w w' Hs Ht Hty) as (_ & _ & _ & _ & Hb'); [by rewrite Hn; constructor|done|done].
Qed.
End ledger.

(** ** An approval on the record *)

#[local] Existing Instance demo_redis.
#[local] Existing Instance accepting_exchange.
#[local] Existing Instance refusing_stream.
#[local] Existing Instance gexbot_demo.
#[local] Existing Instance storage_demo_settings.
#[local] Existing Instance closed_settings.

(** One approval within the limits, and one for eleven minutes. *)
Definition approve (minutes : Z) : Request :=
  demo_request (ApproveOrderWindow "acct-test" "btcusdt" BUY (d10 2) (d10 1000) minutes TESTNET_ORDER_WINDOW_APPROVAL_ACK).
Definition approving : list Request := [ approve 5; approve 11 ].
Definition approved_world : World := Eval vm_compute in demo_serve approving closed_world.

Lemma approved_world_run : approved_world = demo_serve approving closed_world.
Proof. vm_compute. reflexivity. Qed.

Lemma approved_world_steps : star (step OperationalAlertRuntime (λ _, true)) closed_world approved_world.
Proof. rewrite approved_world_run. by apply serve_all_steps. Qed.

Lemma closed_typed : well_typed (w_committed closed_world).
Proof. typed_rows. Qed.

Lemma approvals_bounded_witness :
  ∃ l, db_audit (w_committed approved_world) = [l] ∧ aud_action l = WINDOW_ACTION ∧ bounded_approval l.
Proof.
  eexists. split; [reflexivity|]. split; [reflexivity|].
  exact (Forall_inv (approvals_bounded OperationalAlertRuntime (λ _, true) closed_world approved_world approved_world_steps
    eq_refl eq_refl closed_typed (Forall_nil_2 _))).
Defined.
