(* ===== verification/LogInvariant.v ===== *)
(** The transition log of every order is valid in every state the service can reach. *)
From S2P Require Import Prelude PyStr PyDecimal PyValue Json Models Session PgDatabase Tables Demo Logic OrderStateMachine ExecutionLog ExecutionRow Alerts Accounts Security Mfa Users Permissions Notifications TestnetGate WindowApproval RateLimit HttpClient TestnetRequest RiskEngine PositionEngine EmergencyStop SignalEngine OrderEngine TestnetPersistence TestnetSubmit Lifecycle AccountSync OrderReconciliation UserStream Adapters ReadOnly Phase4 MarketData Storage Endpoints Steady System Plain.

(** ** Every request keeps the transition log *)

(** Nothing is open or pending, and the log of every order tells how it got where it is. *)
Definition settled (w : World) : Prop :=
  w_new w = empty_db ∧ w_tx w = w_committed w ∧
  ∀ e, e ∈ db_executions (w_committed w) →
    log_path (log_of (exe_id e) (db_transitions (w_committed w))) (exe_status e).

Lemma ready_settled `{Database} w : ready w → settled w.
Proof. intros (Hn & Ht & _ & _ & Hl & _). done. Qed.

Section log.
Context `{Database} `{!DatabaseLaws} `{Settings} `{PyFloat} `{Fernet} `{Secrets} `{Pyotp} `{Redis} `{GexbotSettings} `{StorageSettings} `{X : Exchange}
  `{W : WebSocket}.
Context (rt : AlertRuntime) `{!AlertRuntimeLaws rt}.

Lemma keeps_log_user token : keeps_log (get_current_user token).
Proof. unfold get_current_user, unauthorized, decode_access_token, get_user_by_id. keeps_log_tac.
  all: apply keeps_lift; unfold Security.read_payload, int_of_value; benign_tac.
Qed.
#[local] Hint Resolve keeps_log_user : keeps_log.

Lemma keeps_log_reauthenticated token reauth : keeps_log (get_reauthenticated_user token reauth).
Proof. unfold get_reauthenticated_user, unauthorized, decode_access_token. keeps_log_tac.
  all: apply keeps_lift; unfold Security.read_payload, int_of_value; benign_tac.
Qed.

Lemma keeps_log_get_private client path c params sec : keeps_log (get_private client path c params sec).
Proof.
  unfold get_private, transport_request. keeps_log_tac. apply keeps_raise.
  unfold prepare_private_request, _prepare_private_request, _prepare_okx_request in *.
  repeat case_match; simplify_eq/=; done.
Qed.
#[local] Hint Resolve keeps_log_get_private : keeps_log.

Lemma keeps_log_item user account e c client execution :
  keeps_log (_reconcile_execution user account e c client execution).
Proof.
  unfold _reconcile_execution. apply keeps_try.
  - unfold lookup_and_apply. keeps_log_tac; first [apply keeps_lift, benign_rest|apply keeps_log_apply].
  - intros x k. unfold lookup_errors, failed_item. destruct x; cbn; intros [= <-]; (split; [done|]); keeps_log_tac.
Qed.

Lemma keeps_log_reconcile current_user account : keeps_log (reconcile_testnet_order_statuses current_user account).
Proof.
  unfold reconcile_testnet_order_statuses, OrderReconciliation._require_super_admin,
    OrderReconciliation._require_testnet_enabled. keeps_log_tac.
  apply keeps_try.
  - unfold reconcile_pending_testnet_orders, get_owned_account, get_exchange_credentials,
      get_api_key_secret_metadata, decrypt_secret, blocked, _write_audit. keeps_log_tac;
      [apply keeps_lift; unfold create_testnet_signed_http_client; benign_tac|apply keeps_log_item].
  - intros []; try done; intros k [= <-]; (split; [done|]); by apply keeps_raise.
Qed.

Lemma keeps_log_stop enabled actor reason : keeps_log (set_emergency_stop enabled actor reason).
Proof.
  unfold set_emergency_stop, lock_control, force_flags_off, record_stop, get_emergency_stop_state. keeps_log_tac.
Qed.

Lemma keeps_log_answer {A} (m : User → M A) rq :
  (∀ u, keeps_log (m u)) → keeps_log (as_user rq m) ∧ keeps_log (as_reauthenticated rq m).
Proof.
  intros Hm. split; unfold as_user, as_reauthenticated.
  all: apply keeps_bind; [apply keeps_log_user || apply keeps_log_reauthenticated|]; intros u.
  all: apply keeps_bind; [apply Hm|intros a; apply keeps_ret].
Qed.

(** The requests that may touch an execution. *)
Lemma keeps_log_serve rq : plain (rq_call rq) = false → keeps_log (serve rt rq).
Proof.
  unfold serve. destruct (rq_call rq); try done; intros _.
  - apply keeps_log_answer. intros u. unfold execute_signal.
    apply keeps_try; [by apply keeps_log_execute_signal; intros r [= <-]|].
    intros []; try done; intros k [= <-]; (split; [done|]); by apply keeps_raise.
  - apply keeps_log_answer. intros u. apply keeps_log_submit.
  - unfold as_super_admin, get_current_super_admin_user, activate_emergency_stop, Users.forbidden. keeps_log_tac;
      [apply keeps_log_stop|apply keeps_log_quiet, quiet_emergency_stop].
  - apply keeps_log_answer. intros u. unfold deactivate_emergency_stop. keeps_log_tac. apply keeps_log_stop.
  - apply keeps_log_answer. intros u. apply keeps_log_reconcile.
  - apply keeps_log_answer. intros u. apply keeps_log_stream.
Qed.

(** The others leave the tables of the log as they found them. *)
Lemma ready_still w w' :
  ready w → still order_view ([], [], []) harmless (eq (order_view (w_committed w))) (w_next w) (w_trace w) w' →
  ready (close w').
Proof.
  intros (_ & _ & Hlog) (_ & _ & Hc & Hx & _). apply ready_close. apply log_inv_committed in Hlog.
  unfold order_view in Hc. injection Hc as He Ht _. unfold log_committed. rewrite <- He, <- Ht.
  eapply log_db_next; [exact Hx|exact Hlog].
Qed.

Lemma still_ready w :
  ready w → still order_view ([], [], []) harmless (eq (order_view (w_committed w))) (w_next w) (w_trace w) w.
Proof.
  intros (Hn & Ht & _). split; [by rewrite Ht|]. split; [by rewrite Hn|]. split; [done|]. split; [done|].
  exists []. by rewrite app_nil_r.
Qed.

Lemma run_request_world {A} (m : M A) w : (run_request m w).2 = close (m w).2.
Proof. unfold run_request. by destruct (m w). Qed.

Lemma step_ready allowed w w' : step rt allowed w w' → ready w → ready w'.
Proof.
  intros [rq v _|t v Ht] Hv.
  - rewrite run_request_world. destruct (plain (rq_call rq)) eqn:Hp.
    + eapply ready_still; [exact Hv|]. by apply plain_aside, still_ready.
    + pose proof Hv as (_ & _ & Hlog). apply (keeps_log_request _ _ (keeps_log_serve rq Hp)) in Hlog.
      rewrite run_request_world in Hlog. split; [done|]. split; [done|exact Hlog].
  - exact Hv.
Qed.

Lemma run_ready allowed w w' : star (step rt allowed) w w' → ready w → ready w'.
Proof. apply (star_invariant (step rt allowed) ready). intros v v' Hv Hs. by eapply step_ready. Qed.

(** C5. Whatever requests the service serves, in whatever order and with whatever
    outcome, between two requests nothing is pending and the log of every order is a
    path of the transition table that ends in the order's status. *)
Theorem every_log_valid allowed w w' : star (step rt allowed) w w' → ready w → settled w'.
Proof. intros Hs Hr. by eapply ready_settled, run_ready. Qed.
End log.

#[local] Existing Instance demo_redis.
#[local] Existing Instance accepting_exchange.
#[local] Existing Instance refusing_stream.
#[local] Existing Instance gexbot_demo.
#[local] Existing Instance storage_demo_settings.

Lemma every_log_valid_witness :
  map exe_status (db_executions (w_committed stopped_world)) = [FILLED; FILLED] ∧ settled stopped_world.
Proof.
  split; [reflexivity|]. apply (every_log_valid OperationalAlertRuntime (λ _, true) demo_world).
  - apply stopped_world_steps.
  - by apply ready_no_executions.
Defined.
