(* ===== verification/OrderBook.v ===== *)
(** The order book: what the executions table and its transition log amount to.  An order
    is opened once, in the state CREATED, under identifiers no other order has; after that
    only its state moves, and only along the transition table.  Every run of the service is
    a run of this book. *)
From S2P Require Import Prelude PyStr PyDecimal PyValue Json Models Session PgDatabase Tables Demo Logic OrderStateMachine ExecutionLog ExecutionRow Alerts Accounts Security Mfa Users Permissions Notifications TestnetGate WindowApproval RateLimit HttpClient TestnetRequest RiskEngine PositionEngine EmergencyStop SignalEngine OrderEngine TestnetPersistence TestnetSubmit Lifecycle AccountSync OrderReconciliation UserStream Adapters ReadOnly Phase4 MarketData Storage Endpoints Steady Records System Plain Standing LogInvariant.

(** ** The book *)

(** Everything about an order that is fixed when it is opened. *)
Abbreviation Terms := (Lasting TExecutions).
Abbreviation Book := (list (Terms * OrderExecutionStatus)).

(** Two orders that cannot both be in the book: the same id, execution id or client order
    id, or the same signal on the same account. *)
Definition clash (o p : Terms) : bool :=
  let '((id1, _, sig1, ex1, acc1), (_, co1, _), _) := o in
  let '((id2, _, sig2, ex2, acc2), (_, co2, _), _) := p in
  String.eqb id1 id2 || String.eqb ex1 ex2 || String.eqb co1 co2 || (String.eqb sig1 sig2 && String.eqb acc1 acc2).

Definition move (s s' : OrderExecutionStatus) : Prop := transition_allowed s s' = true.

Inductive book_step : Book → Book → Prop :=
| book_open b o : Forall (λ p, clash o p.1 = false) b → book_step b (b ++ [(o, CREATED)])
| book_move b1 o s s' b2 : move s s' → book_step (b1 ++ (o, s) :: b2) (b1 ++ (o, s') :: b2).

Definition entry (e : OrderExecution) : Terms * OrderExecutionStatus := (lasting TExecutions e, exe_status e).
Definition order_book (d : Db) : Book := map entry (db_executions d).

Lemma clash_conflict (a b : OrderExecution) :
  clash (lasting TExecutions a) (lasting TExecutions b) = row_conflict a b.
Proof. done. Qed.

(** ** Paths of a log *)

Lemma log_path_state l s s' : log_path l s → log_path l s' → s = s'.
Proof.
  intros H1 H2. destruct H1 as [t _ _ Ht|l s t s1 Hp _ _ Ht _]; inversion H2 as [t' _ _ Ht' E|l' s2 t' s3 Hp' _ _ Ht' _ E]; subst.
  - done.
  - destruct l' as [|x l']; [by apply log_path_nonempty in Hp'|]. destruct l'; discriminate E.
  - destruct l as [|x l]; [by apply log_path_nonempty in Hp|]. destruct l; discriminate E.
  - apply app_inj_tail in E as [_ ->]. apply status_value_inj. congruence.
Qed.

(** Along a log the state only moves. *)
Lemma log_path_moves l s l' s' : log_path l s → log_path l' s' → l `prefix_of` l' → star move s s'.
Proof.
  intros Hl Hl'. induction Hl' as [t _ _ Ht|k s1 t s2 Hk IH Hseq Hf Ht Hal]; intros Hp.
  - destruct l as [|x l]; [by apply log_path_nonempty in Hl|]. destruct Hp as [r E]. injection E as -> E.
    destruct l; [|done]. rewrite (log_path_state _ _ CREATED Hl); [apply star_refl|].
    inversion Hl as [|l' s1 t' s2 Hp _ _ _ _ E']; subst; [by constructor|].
    destruct l' as [|y l']; [by apply log_path_nonempty in Hp|]. destruct l'; discriminate E'.
  - destruct Hp as [r E]. destruct r as [|y r _] using rev_ind.
    + rewrite app_nil_r in E. subst l. rewrite (log_path_state _ s s2 Hl); [apply star_refl|]. by eapply path_step.
    + rewrite app_assoc in E. apply app_inj_tail in E as [-> ->]. eapply star_snoc; [apply IH; by exists r|exact Hal].
Qed.

Lemma log_path_created l s : log_path l s → star move CREATED s.
Proof. induction 1 as [|l s t s' Hp IH Hseq Hf Ht Hal]; [apply star_refl|]. by eapply star_snoc. Qed.

(** ** Books *)

Lemma moves_entry b1 o s s' b2 : star move s s' → star book_step (b1 ++ (o, s) :: b2) (b1 ++ (o, s') :: b2).
Proof. apply (star_map move book_step (λ s, b1 ++ (o, s) :: b2)). intros x y. apply book_move. Qed.

(** A row and the same row later. *)
Definition later (e e' : OrderExecution) : Prop :=
  lasting TExecutions e = lasting TExecutions e' ∧ star move (exe_status e) (exe_status e').

Lemma moves_book es es' b : Forall2 later es es' → star book_step (b ++ map entry es) (b ++ map entry es').
Proof.
  intros Hall. revert b. induction Hall as [|e e' es es' [Ho Hs] Hall IH]; intros b; [apply star_refl|]. cbn.
  eapply star_trans; [apply moves_entry; exact Hs|]. unfold entry at 1 3. rewrite Ho.
  rewrite (cons_middle _ b (map entry es)), (cons_middle _ b (map entry es')), !app_assoc. apply IH.
Qed.

Lemma opens_book (es new : list OrderExecution) :
  conflict_free TExecutions (es ++ new) → Forall (λ e, star move CREATED (exe_status e)) new →
  star book_step (map entry es) (map entry (es ++ new)).
Proof.
  induction new as [|e new IH] using rev_ind; intros Hc Hs; [rewrite app_nil_r; apply star_refl|].
  apply Forall_app in Hs as [Hs He]. apply Forall_inv in He. rewrite app_assoc in *.
  eapply star_trans; [apply IH; [|done]; by eapply conflict_free_app|].
  rewrite (map_app entry (es ++ new) [e]). eapply star_trans.
  - eapply star_snoc; [apply star_refl|]. apply (book_open _ (lasting TExecutions e)). apply Forall_fmap, Forall_forall.
    intros x Hx. change (row_conflict (Table:=OrderExecution_table) e x = false). by apply (conflict_free_last TExecutions (es ++ new)).
  - cbn. by apply moves_entry.
Qed.

(** ** The service refines the book *)

Lemma log_of_prefix id ts ts' : ts `prefix_of` ts' → log_of id ts `prefix_of` log_of id ts'.
Proof. intros [k ->]. rewrite log_of_app. by eexists. Qed.

(** Two states of the database, the second of which extends the first. *)
Lemma book_extends `{Database} d d' n n' :
  log_db (db_executions d) (db_transitions d) n → log_db (db_executions d') (db_transitions d') n' →
  well_typed d' → extends d d' → star book_step (order_book d) (order_book d').
Proof.
  intros (Hp & _) (Hp' & _) Hty Hx. pose proof (Hx TTransitions eq_refl) as Hts. cbn in Hts. rewrite !map_id in Hts.
  destruct (Hx TExecutions eq_refl) as [rest Hr]. cbn [tbl Row_table OrderExecution_table] in Hr.
  apply map_eq_app in Hr as (es & new & E & Hes & _). unfold order_book.
  change (db_executions d') with (tbl (R:=Row TExecutions) d') in *. rewrite E in *.
  apply (star_trans _ _ (map entry es)).
  - apply (moves_book _ _ []). assert (Forall2 (λ a b, lasting TExecutions a = lasting TExecutions b) (db_executions d) es) as Hall.
    { exact (Forall2_fmap_1 (lasting TExecutions) (lasting TExecutions) eq _ _ (proj1 (list_eq_Forall2 _ _) (eq_sym Hes))). }
    pose proof (Forall2_length _ _ _ Hall) as Hlen. apply Forall2_same_length_lookup. split; [done|].
    intros i x y Hxi Hyi. pose proof (Forall2_lookup_lr _ _ _ _ _ _ Hall Hxi Hyi) as Heq. split; [exact Heq|].
    assert (exe_id y = exe_id x) as Hid by (symmetry; exact (lasting_id TExecutions x y Heq)).
    apply (log_path_moves (log_of (exe_id x) (db_transitions d)) _ (log_of (exe_id y) (db_transitions d'))).
    + by eapply Hp, list_elem_of_lookup_2.
    + eapply Hp', elem_of_app. left. by eapply list_elem_of_lookup_2.
    + rewrite Hid. by apply log_of_prefix.
  - destruct (Hty TExecutions) as [_ Hc]. rewrite E in Hc. apply opens_book; [exact Hc|]. apply Forall_forall. intros e He.
    eapply log_path_created, Hp'. apply elem_of_app. by right.
Qed.

(** In a book every order has a state that CREATED leads to. *)
Definition sound (b : Book) : Prop := Forall (λ p, star move CREATED p.2) b.

Lemma book_step_sound b b' : book_step b b' → sound b → sound b'.
Proof.
  unfold sound. intros [b0 o _|b1 o s s' b2 Hm]; rewrite !Forall_app, ?Forall_cons; cbn.
  - intros Hb. split; [done|]. split; [apply star_refl|constructor].
  - intros (H1 & Hs & H2). split; [done|]. split; [by eapply star_snoc|done].
Qed.

(** A state nothing leads out of is final in the book too. *)
Lemma move_terminal s s' : s ∈ TERMINAL_ORDER_STATUSES → star move s s' → s' = s.
Proof.
  intros Ht Hs. induction Hs as [|x y z Hxy IH Hyz]; [done|]. specialize (IH Ht) as ->.
  unfold move in Hyz. by rewrite (proj1 (terminal_iff_no_transition x) Ht) in Hyz.
Qed.

(** Every order of a book is in each later one, at the same place, in a later state. *)
Lemma book_keeps b b' :
  star book_step b b' → ∀ i o s, b !! i = Some (o, s) → ∃ s', b' !! i = Some (o, s') ∧ star move s s'.
Proof.
  induction 1 as [|b b1 b2 Hb IH Hstep]; intros i o s Hi; [exists s; split; [done|apply star_refl]|].
  destruct (IH i o s Hi) as (s1 & H1 & Hm). clear IH Hi Hb. destruct Hstep as [b1 p _|k q t t' r Hmv].
  - exists s1. split; [by apply lookup_app_l_Some|done].
  - destruct (decide (i = length k)) as [->|Hne].
    + rewrite list_lookup_middle in H1 by done. injection H1 as -> ->. exists t'.
      split; [by rewrite list_lookup_middle|by eapply star_snoc].
    + exists s1. split; [|done]. rewrite <- H1. destruct (decide (i < length k)%nat) as [Hlt|Hge].
      * by rewrite !lookup_app_l by lia.
      * rewrite !lookup_app_r by lia. by destruct (i - length k)%nat eqn:E; [lia|].
Qed.

Section refinement.
Context `{Database} `{!DatabaseLaws} `{Settings} `{PyFloat} `{Fernet} `{Secrets} `{Pyotp} `{Redis} `{GexbotSettings} `{StorageSettings} `{X : Exchange}
  `{W : WebSocket}.
Context (rt : AlertRuntime) `{!AlertRuntimeLaws rt}.

(** Every run of the service is a run of the book. *)
Lemma service_book allowed w w' :
  star (step rt allowed) w w' → ready w → well_typed (w_committed w) →
  star book_step (order_book (w_committed w)) (order_book (w_committed w')).
Proof.
  intros Hs Hr Hty. pose proof Hr as (_ & Ht & Hl). destruct (run_standing rt allowed w w' Hs Ht Hty) as (_ & Hty' & Hx).
  pose proof (run_ready rt allowed w w' Hs Hr) as (_ & _ & Hl').
  apply log_inv_committed in Hl, Hl'. by eapply book_extends.
Qed.

(** C6. The service refines the order book: what any series of requests, whatever their
    outcome, makes of the executions is what some moves of the book make of it.  Orders are
    opened in the state CREATED under identifiers no other order has, their terms never
    change, none is ever lost, and their states move along the transition table. *)
Theorem order_book_refines allowed w w' :
  star (step rt allowed) w w' → ready w → well_typed (w_committed w) →
  star book_step (order_book (w_committed w)) (order_book (w_committed w')).
Proof. apply service_book. Qed.

(** C7. An order that is over stays as it is: once a committed order is filled, cancelled,
    rejected, failed or timed out, it keeps its place, its terms and that state. *)
Theorem finished_orders_final allowed w w' i o s :
  star (step rt allowed) w w' → ready w → well_typed (w_committed w) →
  order_book (w_committed w) !! i = Some (o, s) → s ∈ TERMINAL_ORDER_STATUSES →
  order_book (w_committed w') !! i = Some (o, s).
Proof.
  intros Hs Hr Hty Hi Ht. pose proof (service_book allowed w w' Hs Hr Hty) as Hb.
  destruct (book_keeps _ _ Hb i o s Hi) as (s' & Hi' & Hm). by apply move_terminal in Hm as ->.
Qed.
End refinement.

#[local] Existing Instance demo_redis.
#[local] Existing Instance accepting_exchange.
#[local] Existing Instance refusing_stream.
#[local] Existing Instance gexbot_demo.
#[local] Existing Instance storage_demo_settings.

Lemma order_book_refines_witness :
  map snd (order_book (w_committed stopped_world)) = [FILLED; FILLED] ∧
  star book_step [] (order_book (w_committed stopped_world)).
Proof.
  split; [reflexivity|].
  exact (order_book_refines OperationalAlertRuntime _ _ _ stopped_world_steps
    (ready_no_executions demo_db _ _ _ eq_refl eq_refl) demo_typed).
Defined.

Lemma finished_orders_final_witness :
  snd <$> order_book (w_committed retried_world) !! 1%nat = Some FILLED.
Proof.
  assert (∃ o, order_book (w_committed stopped_world) !! 1%nat = Some (o, FILLED)) as [o Ho] by by eexists.
  assert (ready stopped_world) as Hr
    by exact (run_ready OperationalAlertRuntime _ _ _ stopped_world_steps (ready_no_executions demo_db _ _ _ eq_refl eq_refl)).
  rewrite (finished_orders_final OperationalAlertRuntime _ _ _ 1 o FILLED retried_world_steps Hr stopped_typed Ho); [done|].
  apply list_elem_of_here.
Defined.
