(* ===== verification/StopInvariant.v ===== *)
(** The emergency stop, once committed, holds until it is lifted, whatever requests are
    served one after the other ([Concurrency] has the submissions that overlap it). *)
From S2P Require Import Prelude PyStr PyDecimal PyValue Json Models Session PgDatabase Tables Demo Logic OrderStateMachine ExecutionLog ExecutionRow Alerts Accounts Security Mfa Users Permissions Notifications TestnetGate WindowApproval RateLimit HttpClient TestnetRequest RiskEngine PositionEngine EmergencyStop SignalEngine OrderEngine TestnetPersistence TestnetSubmit Lifecycle AccountSync OrderReconciliation UserStream Adapters ReadOnly Phase4 MarketData Storage Endpoints Steady System Plain LogInvariant.

(** ** The emergency stop holds *)

Definition stop_on (cs : list SystemControl) : Prop :=
  ∃ c, find_first (λ c, String.eqb (ctl_id c) GLOBAL_SYSTEM_CONTROL_ID) cs = Some c ∧ ctl_emergency_stop c = true.

(** What happened between two states includes no order. *)
Definition sends_no_order (w w' : World) : Prop :=
  ∃ evs, w_trace w' = w_trace w ++ evs ∧ Forall (λ ev, ¬ order_event ev) evs.

Section combined.
Context {V : Type} (view : Db → V) (e : V).

(** What a program emits can be shown apart from the tables it leaves alone. *)
Lemma bystander_emits (P Q : Event → Prop) {A} (m : M A) :
  (∀ ev, P ev → Q ev) → emits P m → bystander view e (λ _, True) m → bystander view e Q m.
Proof.
  intros HPQ Hem Hby I n tr w (Ht & Hn & Hc & Hx & evs & Htr & Hevs).
  destruct (Hby I n tr w) as (Ht' & Hn' & Hc' & Hx' & _).
  { do 4 (split; [done|]). exists evs. split; [done|]. by apply Forall_true. }
  destruct (Hem w) as (evs' & Htr' & Hevs'). do 4 (split; [done|]). exists (evs ++ evs').
  rewrite Htr', Htr, app_assoc. split; [done|]. apply Forall_app_2; [done|]. by eapply Forall_impl.
Qed.

Lemma bystander_finally {A} (h : Event → Prop) (m : M A) f :
  bystander view e h m → bystander view e h f → bystander view e h (finally m f).
Proof.
  intros Hm Hf P n tr w Hw. unfold finally. specialize (Hm P n tr w Hw). destruct (m w) as [o w1].
  specialize (Hf P n tr w1 Hm). by destruct (f w1) as [[?|?] w2].
Qed.
End combined.

Section listeners.
Context `{Database} `{Settings} `{Fernet} `{X : Exchange} `{W : WebSocket}.
Abbreviation passive := (bystander db_controls [] (λ _, True)).

Lemma passive_emit ev : passive (emit ev).
Proof. by apply bystander_emit. Qed.
#[local] Hint Resolve passive_emit : bystander.

Lemma passive_apply user account ev reason : passive (apply_order_event user account ev reason).
Proof.
  unfold apply_order_event, _find_execution, try_transition, transition_order_execution, _add_transition,
    load_execution, _next_sequence_number.
  bystander_tac.
Qed.
#[local] Hint Resolve passive_apply : bystander.

Lemma passive_item user account e c client execution :
  passive (_reconcile_execution user account e c client execution).
Proof.
  unfold _reconcile_execution, lookup_and_apply, lookup_errors, failed_item, get_private, transport_request,
    load_execution.
  bystander_tac.
Qed.
#[local] Hint Resolve passive_item : bystander.

Lemma passive_reconcile user account : passive (reconcile_pending_testnet_orders user account).
Proof.
  unfold reconcile_pending_testnet_orders, get_owned_account, get_exchange_credentials,
    get_api_key_secret_metadata, decrypt_secret, blocked, _write_audit.
  bystander_tac.
Qed.

Lemma passive_sync user account event : passive (sync_testnet_account_state_event user account event).
Proof.
  unfold sync_testnet_account_state_event, _require_testnet_account.
  bystander_tac; apply bystander_run_all; intros m (u & -> & _)%list_elem_of_fmap;
    unfold _upsert_balance, _upsert_position; bystander_tac.
Qed.
#[local] Hint Resolve passive_sync : bystander.

Lemma passive_persist user account ev : passive (persist_event user account ev).
Proof. unfold persist_event, handle_user_stream_event. bystander_tac. Qed.
#[local] Hint Resolve passive_persist : bystander.

Lemma passive_close connected : passive (_close_transport connected).
Proof. unfold _close_transport. bystander_tac. Qed.
Lemma passive_open plan : passive (open_session plan).
Proof.
  unfold open_session, guarded, transport_connect, send_json, transport_failed. bystander_tac.
Qed.
#[local] Hint Resolve passive_close passive_open : bystander.

Section consumer.
Context {R : Type} (handler : TestnetUserStreamEvent → M R) (should_stop : list Event → bool).
Hypothesis handler_passive : ∀ ev, passive (handler ev).

Lemma passive_receive_loop fuel e m processed : passive (receive_loop handler should_stop fuel e m processed).
Proof.
  revert processed. induction fuel as [|fuel IH]; intros processed; cbn [receive_loop]; [apply bystander_ret|].
  unfold stop_requested, try_receive, receive_json, transport_failed. bystander_tac.
Qed.

Lemma passive_consume_loop cfg plan m inner fuel processed reconnects :
  passive (consume_loop handler should_stop fuel inner cfg plan m processed reconnects).
Proof.
  revert processed reconnects.
  induction fuel as [|fuel IH]; intros processed reconnects; cbn [consume_loop]; [apply bystander_ret|]. cbv zeta.
  unfold stop_requested, _sleep_before_reconnect. bystander_tac.
  all: apply bystander_finally; [apply passive_receive_loop|apply passive_close].
Qed.
End consumer.

Lemma passive_stream current_user account acknowledgement max_messages :
  passive (consume_testnet_user_stream current_user account acknowledgement max_messages).
Proof.
  unfold consume_testnet_user_stream, OrderReconciliation._require_super_admin,
    OrderReconciliation._require_testnet_enabled, consume_bounded_testnet_user_stream, get_owned_account, get_exchange_credentials,
    get_api_key_secret_metadata, decrypt_secret, activate_testnet_user_stream_connection_plan, transport_request,
    consume, write_stream_audit.
  bystander_tac. apply passive_consume_loop. intros ev. apply passive_persist.
Qed.
End listeners.

Section stopped.
Context `{Database} `{!DatabaseLaws} `{Settings} `{PyFloat} `{Fernet} `{Secrets} `{Pyotp} `{Redis} `{GexbotSettings} `{StorageSettings} `{X : Exchange}
  `{W : WebSocket}.
Context (rt : AlertRuntime) `{!AlertRuntimeLaws rt}.

Lemma lookup_harmless ev : lookup_event ev → harmless ev.
Proof. intros (c & req & e & -> & Hm & _) [Hn _]. by apply Hn. Qed.

Lemma stream_harmless ev : stream_event ev → harmless ev.
Proof.
  destruct ev; intros Hs Ho; try done. destruct Hs as (_ & _ & Hp & _), Ho as [_ [e He]]. rewrite Hp in He.
  by destruct e.
Qed.

Abbreviation bystands := (bystander db_controls [] harmless).
Abbreviation stopped := (still db_controls [] harmless stop_on).

Lemma bystands_reconcile current_user account : bystands (reconcile_testnet_order_statuses current_user account).
Proof.
  unfold reconcile_testnet_order_statuses, OrderReconciliation._require_super_admin,
    OrderReconciliation._require_testnet_enabled. bystander_tac.
  eapply bystander_emits; [apply lookup_harmless|apply emits_reconcile|apply passive_reconcile].
Qed.

Lemma bystands_stream current_user account acknowledgement max_messages :
  bystands (consume_testnet_user_stream current_user account acknowledgement max_messages).
Proof. eapply bystander_emits; [apply stream_harmless|apply emits_stream|apply passive_stream]. Qed.

(** The two ways to send an order end at the guard. *)
Lemma stopped_execute n tr user signal account : steady (stopped n tr) (execute_signal user signal account rt).
Proof.
  intros w Hw. unfold execute_signal, execute_signal_for_account, try_except. rewrite run_bind.
  rewrite assert_new_orders_blocked by apply Hw. exact Hw.
Qed.

Lemma stopped_submit n tr user payload : steady (stopped n tr) (submit_testnet_order user payload).
Proof.
  intros w Hw. unfold submit_testnet_order, prepare_submission, try_except. rewrite run_bind, run_bind.
  rewrite assert_new_orders_blocked by apply Hw. exact Hw.
Qed.

(** Switching the stop on again keeps it on at every point. *)
Lemma stop_on_set id r' cs :
  ctl_id r' = id → ctl_emergency_stop r' = true → stop_on cs →
  stop_on (update_where (λ x, String.eqb (ctl_id x) id) (λ _, r') cs).
Proof.
  intros Hid Hr (c & Hc & Hs). unfold stop_on. induction cs as [|x cs IH]; [done|].
  change (update_where ?q ?f (x :: cs)) with ((if q x then f x else x) :: update_where q f cs). cbn beta.
  change (find_first ?p (?y :: ?l)) with (if p y then Some y else find_first p l) in *. cbn beta in *.
  destruct (String.eqb (ctl_id x) id) eqn:Ex.
  - apply String.eqb_eq in Ex. subst id. rewrite Ex in Hc.
    destruct (String.eqb (ctl_id r') GLOBAL_SYSTEM_CONTROL_ID) eqn:Eg.
    + by exists r'.
    + by apply IH.
  - destruct (String.eqb (ctl_id x) GLOBAL_SYSTEM_CONTROL_ID) eqn:Eg; [|by apply IH].
    injection Hc as ->. by exists c.
Qed.

Lemma stopped_control n tr id reason actor now :
  steady (stopped n tr) (db_update id (control_set true reason actor now)).
Proof.
  intros w (Ht & Hn & Hc & Hx & Htr). unfold db_update. cbn [row_id tbl row_store SystemControl_table].
  destruct (find_first _ _) as [r|] eqn:Ef; [|done].
  apply find_first_Some in Ef as [_ Hid%String.eqb_eq]. split; [|done].
  by apply stop_on_set.
Qed.

Lemma stopped_activate n tr user reason : steady (stopped n tr) (activate_emergency_stop user reason rt).
Proof.
  apply steady_bind; [|intros st; apply (bystander_bind _ _ _ _ _ (bystander_quiet _ _ _ (quiet_emergency_stop _)));
    intros; apply bystander_ret].
  unfold set_emergency_stop. apply steady_bind; [|intros c; apply steady_bind; [apply steady_gets|intros now]].
  - intros w Hw. destruct Hw as [(c & Hc & Hs) Hw]. unfold lock_control. rewrite run_bind. cbn.
    rewrite Hc. split; [by exists c|done].
  - apply steady_bind; [apply stopped_control|]. intros _.
    match goal with |- steady _ ?m => assert (bystands m) as Hb; [|apply Hb] end.
    unfold force_flags_off, record_stop, get_emergency_stop_state. bystander_tac.
Qed.

Lemma stopped_serve rq w :
  keeps_stop (rq_call rq) = true → w_new w = empty_db → w_tx w = w_committed w →
  stop_on (db_controls (w_committed w)) → stopped 0 (w_trace w) (serve rt rq w).2.
Proof.
  intros Hk Hn Ht Hs. assert (∃ evs, w_trace w = w_trace w ++ evs ∧ Forall harmless evs) as Htr
    by (exists []; by rewrite app_nil_r).
  assert (stopped 0 (w_trace w) w) as Hw
    by (split; [by rewrite Ht|]; split; [by rewrite Hn|]; split; [done|]; split; [lia|done]).
  destruct (plain (rq_call rq)) eqn:Hp.
  - destruct (plain_aside rt rq Hp (λ v, stop_on v.2) 0%nat (w_trace w) w) as (Ht' & Hn' & Hc' & Hx' & Htr').
    { split; [by rewrite Ht|]. split; [by rewrite Hn|]. split; [done|]. split; [lia|done]. }
    split; [exact Ht'|]. split; [|done]. unfold order_view in Hn'. by injection Hn'.
  - revert Hw. generalize (w_trace w). intros tr Hw. clear Htr Hn Ht Hs.
    unfold serve, as_user, as_super_admin, as_reauthenticated, get_current_super_admin_user.
    destruct (rq_call rq); try done.
    all: revert Hw; apply (steady_bind (stopped 0 tr)); [|intros u; apply steady_bind; [|intros ?; apply steady_ret]].
    all: try (apply bystander_user || apply bystander_reauthenticated).
    + apply stopped_execute.
    + apply stopped_submit.
    + apply steady_bind; [apply bystander_user|]. intros u. unfold Users.forbidden. case_match; apply steady_ret || apply steady_raise.
    + apply stopped_activate.
    + apply bystands_reconcile.
    + apply bystands_stream.
Qed.

(** C1. Once the emergency stop is committed, no sequence of requests other than one to
    lift it makes an order leave the service, whoever sends them, and the stop stays. *)
Theorem stop_holds w w' :
  w_new w = empty_db → w_tx w = w_committed w → stop_active (w_committed w) →
  star (step rt keeps_stop) w w' →
  stop_active (w_committed w') ∧ sends_no_order w w'.
Proof.
  intros Hn Ht Hs Hstar.
  refine ((λ H, match H with conj _ (conj _ inv) => inv end)
    (star_invariant (step rt keeps_stop) (λ v, w_new v = empty_db ∧ w_tx v = w_committed v ∧
      stop_active (w_committed v) ∧ sends_no_order w v) _ w w' Hstar _)).
  - intros v v' Hv Hstep. revert Hv. destruct Hstep as [rq u Hk|t u _]; [|done].
    intros (Hn' & Ht' & Hs' & evs & Htr & Hevs).
    rewrite run_request_world. split; [done|]. split; [done|].
    destruct (stopped_serve rq u Hk Hn' Ht' Hs') as (_ & _ & Hc & _ & evs' & Htr' & Hevs').
    split; [exact Hc|]. exists (evs ++ evs'). cbn. rewrite Htr', Htr, app_assoc. split; [done|]. by apply Forall_app_2.
  - do 3 (split; [done|]). exists []. by rewrite app_nil_r.
Qed.
End stopped.

#[local] Existing Instance demo_redis.
#[local] Existing Instance accepting_exchange.
#[local] Existing Instance refusing_stream.
#[local] Existing Instance gexbot_demo.
#[local] Existing Instance storage_demo_settings.

Lemma stop_holds_witness :
  length (db_accounts (w_committed retried_world)) = 3%nat ∧
  stop_active (w_committed retried_world) ∧
  sends_no_order stopped_world retried_world.
Proof.
  split; [reflexivity|].
  apply (stop_holds OperationalAlertRuntime stopped_world); [reflexivity|reflexivity|by eexists|].
  apply retried_world_steps.
Defined.
