(* ===== verification/Access.v ===== *)
(** Authentication, reauthentication and roles: who is refused what, and that a refusal
    leaves no trace. *)
From S2P Require Import Prelude PyStr PyDecimal PyValue Json Models Session PgDatabase Tables Demo Logic OrderStateMachine ExecutionLog ExecutionRow Alerts Accounts Security Mfa Users Permissions Notifications TestnetGate WindowApproval RateLimit HttpClient TestnetRequest RiskEngine PositionEngine EmergencyStop SignalEngine OrderEngine TestnetPersistence TestnetSubmit Lifecycle AccountSync OrderReconciliation UserStream Adapters ReadOnly Phase4 MarketData Storage Endpoints Steady System.

Section access.
Context `{Database} `{Settings} `{PyFloat} `{Fernet} `{Secrets} `{Pyotp} `{Redis} `{GexbotSettings} `{StorageSettings} `{X : Exchange} `{W : WebSocket}.
Context (rt : AlertRuntime).

Lemma preserves_decode token : preserves id (decode_access_token token).
Proof. unfold decode_access_token. preserves_tac. Qed.
#[local] Hint Resolve preserves_decode : preserves.
Lemma preserves_user token : preserves id (get_current_user token).
Proof. unfold get_current_user, unauthorized, get_user_by_id. preserves_tac. Qed.
#[local] Hint Resolve preserves_user : preserves.
Lemma preserves_reauthenticated token reauth : preserves id (get_reauthenticated_user token reauth).
Proof. unfold get_reauthenticated_user, unauthorized. preserves_tac. Qed.

(** A program whose first part fails without a trace does the same. *)
Lemma stops_at {A B} (m : M A) (k : A → M B) w x :
  preserves id m → (m w).1 = Raise x → (m ≫= k) w = (Raise x, w).
Proof.
  intros Hm E. specialize (Hm w). apply run_bind_Raise. destruct (m w) as [o w']. cbn in *. by subst.
Qed.

Lemma passes {A B} (m : M A) (k : A → M B) w a :
  preserves id m → (m w).1 = Ok a → (m ≫= k) w = k a w.
Proof.
  intros Hm E. specialize (Hm w). apply run_bind_Ok. destruct (m w) as [o w']. cbn in *. by subst.
Qed.

Lemma reauthenticated_is_user token reauth w u :
  (get_current_user token w).1 = Ok u →
  (∃ x, (get_reauthenticated_user token reauth w).1 = Raise x) ∨ (get_reauthenticated_user token reauth w).1 = Ok u.
Proof.
  intros E. destruct (get_reauthenticated_user token reauth w) as [[u'|x] w'] eqn:Er; [right|left; by eexists].
  unfold get_reauthenticated_user in Er. rewrite (passes _ _ _ _ (preserves_user token) E) in Er. unfold unauthorized in Er.
  run_inv. repeat case_match; try done; by run_inv.
Qed.

Lemma unauthenticated_raises token reauth w x :
  (get_current_user token w).1 = Raise x → (get_reauthenticated_user token reauth w).1 = Raise x.
Proof. intros E. unfold get_reauthenticated_user. by rewrite (stops_at _ _ _ _ (preserves_user token) E). Qed.

(** The request ends with the error and the state is exactly what it was. *)
Definition refused_at (rq : Request) (w : World) (x : Exn) : Prop := serve rt rq w = (Raise x, w).

Lemma serve_unauthenticated rq w x :
  public (rq_call rq) = false → (get_current_user (rq_token rq) w).1 = Raise x → refused_at rq w x.
Proof.
  intros Hp E. pose proof (unauthenticated_raises _ (rq_reauth rq) _ _ E) as Er. unfold refused_at.
  unfold serve, as_user, as_admin, as_super_admin, as_reauthenticated, as_anyone, get_current_admin_user,
    get_current_super_admin_user, reauthenticate, update_password, read_mfa_status, enroll_mfa, confirm_mfa,
    remove_mfa.
  destruct (rq_call rq); try done.
  all: first [ by apply stops_at; [apply preserves_user|] | by apply stops_at; [apply preserves_reauthenticated|]
             | apply run_bind_Raise; by apply stops_at; [apply preserves_user|]
             | apply run_bind_Raise; by apply stops_at; [apply preserves_reauthenticated|] ].
Qed.

Lemma serve_unconfirmed rq w x :
  sensitive (rq_call rq) = true → (get_reauthenticated_user (rq_token rq) (rq_reauth rq) w).1 = Raise x →
  refused_at rq w x.
Proof.
  intros Hs E. unfold refused_at, serve, as_reauthenticated, as_anyone, enroll_mfa, confirm_mfa, remove_mfa.
  destruct (rq_call rq); try done.
  all: first [ by apply stops_at; [apply preserves_reauthenticated|]
             | apply run_bind_Raise; by apply stops_at; [apply preserves_reauthenticated|] ].
Qed.

(** Without the role, past the authentication. *)
Lemma serve_unprivileged rq w u :
  privileged (rq_call rq) = true → (get_current_user (rq_token rq) w).1 = Ok u → user_role u ≠ SUPER_ADMIN →
  ∃ x, refused_at rq w x.
Proof.
  intros Hp E Hu. assert (bool_decide (user_role u = SUPER_ADMIN) = false) as Hr by by apply bool_decide_eq_false_2.
  destruct (reauthenticated_is_user _ (rq_reauth rq) _ _ E) as [[x Ex]|Er].
  { destruct (sensitive (rq_call rq)) eqn:Hs; [exists x; by apply serve_unconfirmed|].
    unfold refused_at, serve, as_super_admin, get_current_super_admin_user. destruct (rq_call rq); try done.
    all: eexists; apply run_bind_Raise; rewrite (passes _ _ _ _ (preserves_user _) E), Hr; done. }
  unfold refused_at, serve, as_reauthenticated, as_anyone, as_super_admin, get_current_super_admin_user, enroll_mfa, confirm_mfa,
    remove_mfa, Users._require_super_admin, deactivate_emergency_stop, reconcile_testnet_order_statuses,
    consume_testnet_user_stream, OrderReconciliation._require_super_admin.
  destruct (rq_call rq); try done; eexists.
  all: first [ rewrite (passes _ _ _ _ (preserves_reauthenticated _ _) Er)
             | apply run_bind_Raise; first [ rewrite (passes _ _ _ _ (preserves_user _) E)
                                           | rewrite (passes _ _ _ _ (preserves_reauthenticated _ _) Er) ] ];
    rewrite Hr; done.
Qed.

Lemma serve_not_administrator rq w u :
  administrative (rq_call rq) = true → (get_current_user (rq_token rq) w).1 = Ok u →
  is_admin (user_role u) = false → ∃ x, refused_at rq w x.
Proof.
  intros Hp E Hr. unfold is_admin in Hr. apply bool_decide_eq_false_1 in Hr.
  unfold refused_at, serve, as_admin, get_current_admin_user. destruct (rq_call rq); try done; eexists; apply run_bind_Raise.
  all: rewrite (passes _ _ _ _ (preserves_user _) E).
  all: assert (user_role u ≠ SUPER_ADMIN ∧ user_role u ≠ ADMIN) as [Hs Ha] by naive_solver.
  all: rewrite (bool_decide_eq_false_2 _ Hs), (bool_decide_eq_false_2 _ Ha); done.
Qed.

(** C8. Apart from registration and login, a request whose token admits nobody ends with
    the error of the authentication; a sensitive one without a recent reauthentication
    likewise; one reserved to super administrators or administrators, from anyone else, is
    refused too.  Each time the state of the service is exactly what it was: nothing is
    stored, sent or recorded. *)
Theorem access_gate rq w :
  (∀ x, public (rq_call rq) = false → (get_current_user (rq_token rq) w).1 = Raise x → refused_at rq w x) ∧
  (∀ x, sensitive (rq_call rq) = true →
     (get_reauthenticated_user (rq_token rq) (rq_reauth rq) w).1 = Raise x → refused_at rq w x) ∧
  (∀ u, privileged (rq_call rq) = true → (get_current_user (rq_token rq) w).1 = Ok u →
     user_role u ≠ SUPER_ADMIN → ∃ x, refused_at rq w x) ∧
  (∀ u, administrative (rq_call rq) = true → (get_current_user (rq_token rq) w).1 = Ok u →
     is_admin (user_role u) = false → ∃ x, refused_at rq w x).
Proof.
  split; [intros x; apply serve_unauthenticated|]. split; [intros x; apply serve_unconfirmed|].
  split; intros u; [apply serve_unprivileged|apply serve_not_administrator].
Qed.
End access.


#[local] Existing Instance demo_redis.
#[local] Existing Instance accepting_exchange.
#[local] Existing Instance refusing_stream.
#[local] Existing Instance gexbot_demo.
#[local] Existing Instance storage_demo_settings.

(** A request with a token of nobody, and a sensitive one without reauthentication. *)
Lemma access_gate_witness :
  serve OperationalAlertRuntime {| rq_token := "a.b.c"; rq_reauth := None; rq_call := RemoveAccount "acct-sim" |} demo_world =
    (Raise (HTTPException 401 (VStr "invalid authentication token") []), demo_world) ∧
  serve OperationalAlertRuntime (demo_request (DeactivateEmergencyStop "resume")) stopped_world =
    (Raise (HTTPException 401 (VStr "recent password reauthentication required") []), stopped_world).
Proof.
  split.
  - refine (proj1 (access_gate OperationalAlertRuntime _ demo_world) _ _ _); [reflexivity|]. vm_compute. reflexivity.
  - refine (proj1 (proj2 (access_gate OperationalAlertRuntime _ stopped_world)) _ _ _); [reflexivity|]. vm_compute. reflexivity.
Defined.
