(* ===== verification/Validation.v ===== *)
(** The request schemas of [schemas] in front of the service: what each admits, the
    normal form in which an admitted request reaches its endpoint, the answer 422 for the
    others, and that the service behind its schemas makes the steps of [System] whose calls
    the schemas admit.

    The JSON types of the fields are those of [System.Call]; the lengths count characters,
    the texts are ASCII.  [EmailStr] is a parameter (pydantic with email-validator). *)
From stdpp Require Import strings.
From S2P Require Import Prelude PyStr PyDecimal PyValue Json Models Session PgDatabase Tables Demo Logic OrderStateMachine Alerts Accounts Security Mfa Users Permissions Notifications TestnetGate WindowApproval RateLimit HttpClient TestnetRequest RiskEngine PositionEngine EmergencyStop SignalEngine OrderEngine TestnetPersistence TestnetSubmit Lifecycle AccountSync OrderReconciliation UserStream Adapters ReadOnly Phase4 MarketData Storage Endpoints Steady System Access.

(** [EmailStr]: the normalised address, or a validation error.  A normalised address is
    its own normal form. *)
Class EmailStr := { email_str : string → option string }.
Class EmailStrLaws `{EmailStr} := { email_str_normal s e : email_str s = Some e → email_str e = Some e }.

(** ** Fields *)

(** [Field(min_length=lo, max_length=hi)] *)
Definition sized (lo hi : nat) (s : string) : bool := (lo <=? String.length s)%nat && (String.length s <=? hi)%nat.
(** A field that may be [None]. *)
Definition optional {A} (p : A → bool) (o : option A) : bool := from_option p true o.
(** [Field(ge=lo, le=hi)] and [Field(gt=0, le=100)] *)
Definition in_range (lo hi z : Z) : bool := (lo <=? z)%Z && (z <=? hi)%Z.
Definition small_fund (d : dec) : bool := dec_positive d && dec_leb d (Dec false 100 0).

(** ** schemas/auth.py and schemas/user.py *)

Definition RegisterRequest_valid (username password : string) : bool := sized 3 80 username && sized 12 128 password.
Definition LoginRequest_valid (mfa_code : option string) : bool := optional (sized 6 64) mfa_code.
Definition ReauthenticationRequest_valid (password : string) : bool := sized 1 128 password.
Definition PasswordChangeRequest_valid (current_password new_password : string) : bool :=
  sized 1 128 current_password && sized 16 128 new_password.
Definition MfaConfirmRequest_valid (code : string) : bool := sized 6 6 code && str_forall is_digit code.
Definition MfaDisableRequest_valid (code : string) : bool := sized 6 64 code.

(** ** schemas/exchange_account.py *)

Definition ExchangeAccountCreate_valid (account_label : string) : bool := sized 1 120 account_label.
Definition ExchangeAccountUpdate_valid (u : ExchangeAccountUpdate) : bool := optional (sized 1 120) (upd_label u).
Definition ApiKeySecretUpsert_valid (api_key api_secret : string) (passphrase : option string) : bool :=
  sized 1 256 api_key && sized 1 256 api_secret && optional (sized 0 256) passphrase.
Definition TestnetUserStreamConsumeRequest_valid (max_messages : Z) (acknowledgement : string) : bool :=
  in_range 1 20 max_messages && sized 1 80 acknowledgement.
Definition AccountOrderWindowApprovalRequest_valid (symbol : string) (max_quantity max_notional : dec)
    (duration_minutes : Z) (acknowledgement : string) : bool :=
  sized 1 32 symbol && dec_positive max_quantity && dec_positive max_notional && in_range 1 10 duration_minutes &&
  sized 1 80 acknowledgement.
Definition Phase4SmallFundReviewRequest_valid (max_notional : dec) (acknowledgement : string) : bool :=
  small_fund max_notional && sized 1 120 acknowledgement.
Definition Phase4SmallFundOrderWindowApprovalRequest_valid (symbol : string) (max_quantity limit_price max_notional : dec)
    (duration_minutes : Z) (acknowledgement : string) : bool :=
  sized 1 40 symbol && dec_positive max_quantity && dec_positive limit_price && small_fund max_notional &&
  in_range 1 10 duration_minutes && sized 1 120 acknowledgement.
Definition Phase4FinalReleaseCheckRequest_valid (max_notional : dec) (acknowledgement : string) : bool :=
  small_fund max_notional && sized 1 120 acknowledgement.

(** ** schemas/trading.py and schemas/risk_setting.py *)

Definition TestnetOrderSubmitRequest_valid (p : TestnetOrderSubmitRequest) : bool :=
  sized 1 40 (pl_symbol p) && dec_positive (pl_quantity p) && optional dec_positive (pl_price p) &&
  sized 1 80 (pl_client_order_id p) &&
  negb (bool_decide (pl_order_type p = LIMIT) && is_none (pl_price p)).
Definition TestnetOrderWindowApprovalRequest_valid (symbol : string) (max_quantity max_notional : dec) (duration_minutes : Z) : bool :=
  sized 1 40 symbol && dec_positive max_quantity && dec_positive max_notional && in_range 1 10 duration_minutes.
Definition RiskSettingChange_valid (c : RiskSettingChange) : bool :=
  match c with
  | set_trading_enabled _ | set_blocked_symbols _ => true
  | set_max_single_order_notional v | set_max_position_notional v | set_max_leverage v
  | set_min_order_quantity v | set_max_order_quantity v => optional dec_positive v
  end.
Definition RiskSettingUpdate_valid (payload : list RiskSettingChange) : bool := forallb RiskSettingChange_valid payload.

(** ** schemas/system_control.py *)

(** [" ".join(value.split())]; [None] is the ValueError of the validator. *)
Definition normalize_reason (value : string) : option string :=
  let normalized := str_join " " (split_ws value) in
  if (String.length normalized <? 3)%nat then None else Some normalized.
Definition EmergencyStopRequest_reason (value : string) : option string :=
  if sized 3 500 value then normalize_reason value else None.

(** ** Requests *)

Definition when (b : bool) (c : Call) : option Call := if b then Some c else None.

Section validation.
Context `{EmailStr}.

(** The request as its endpoint receives it, if the schema admits it. *)
Definition accept (c : Call) : option Call :=
  match c with
  | Register email username password =>
      email' ← email_str email; when (RegisterRequest_valid username password) (Register email' username password)
  | Login _ _ code => when (LoginRequest_valid code) c
  | Reauthenticate password => when (ReauthenticationRequest_valid password) c
  | UpdatePassword old new => when (PasswordChangeRequest_valid old new) c
  | ConfirmMfa code => when (MfaConfirmRequest_valid code) c
  | RemoveMfa code => when (MfaDisableRequest_valid code) c
  | AddPermission p => when (permission_create_valid p) c
  | AddAccount _ label _ _ => when (ExchangeAccountCreate_valid label) c
  | PatchAccount _ u => when (ExchangeAccountUpdate_valid u) c
  | SetApiKey _ k s p => when (ApiKeySecretUpsert_valid k s p) c
  | ApproveAccountOrderWindow _ s _ q n m k => when (AccountOrderWindowApprovalRequest_valid s q n m k) c
  | RecordSmallFundReview _ n k => when (Phase4SmallFundReviewRequest_valid n k) c
  | RecordOrderWindow _ s _ q p n m k => when (Phase4SmallFundOrderWindowApprovalRequest_valid s q p n m k) c
  | RecordFinalCheck _ n _ k => when (Phase4FinalReleaseCheckRequest_valid n k) c
  | CreateManualSignal p => when (manual_signal_valid p) c
  | ApproveOrderWindow _ s _ q n m _ => when (TestnetOrderWindowApprovalRequest_valid s q n m) c
  | SubmitTestnetOrder p => when (TestnetOrderSubmitRequest_valid p) c
  | PatchRiskSettings _ p => when (RiskSettingUpdate_valid p) c
  | ListNotifications _ limit => when (in_range 1 100 limit) c
  | ListAuditLogs f | ListSystemEvents f => when (in_range 1 100 (flt_limit f)) c
  | ActivateEmergencyStop r => ActivateEmergencyStop <$> EmergencyStopRequest_reason r
  | DeactivateEmergencyStop r => DeactivateEmergencyStop <$> EmergencyStopRequest_reason r
  | ConsumeUserStream _ k m => when (TestnetUserStreamConsumeRequest_valid m k) c
  | _ => Some c
  end.

Context `{Database} `{Settings} `{PyFloat} `{Fernet} `{Secrets} `{Pyotp} `{Redis} `{GexbotSettings} `{StorageSettings} `{X : Exchange} `{W : WebSocket}.
Context (rt : AlertRuntime).

(** What an endpoint [Depends] on is resolved before its payload is validated. *)
Definition dependency (rq : Request) : M unit :=
  if public (rq_call rq) then mret tt
  else if sensitive (rq_call rq) then as_reauthenticated rq (λ _, mret tt)
  else if administrative (rq_call rq) then as_admin rq (λ _, mret tt)
  else match rq_call rq with
       | ListStorageLocations | ActivateEmergencyStop _ => as_super_admin rq (λ _, mret tt)
       | _ => as_user rq (λ _, mret tt)
       end.

Definition with_call (rq : Request) (c : Call) : Request :=
  {| rq_token := rq_token rq; rq_reauth := rq_reauth rq; rq_call := c |}.

Definition handle (rq : Request) : M unit :=
  match accept (rq_call rq) with
  | Some c => serve rt (with_call rq c)
  | None => dependency rq ;; raise (HTTPException 422 VNone [])
  end.

(** The service as it is deployed. *)
Inductive deployed_step : World → World → Prop :=
| deployed_request rq w : deployed_step w (run_request (handle rq) w).2
| deployed_time t w : (w_now w ≤ t)%Z → deployed_step w (set_now t w).

(** The calls a schema admits as they are. *)
Definition well_formed (c : Call) : Prop := accept c = Some c.
End validation.

(** ** The normal form of a reason *)

Definition word (w : string) : Prop := w ≠ "" ∧ str_forall (λ c, negb (is_space c)) w = true.

Lemma app_str_nonempty w c : w +:+ String c "" ≠ "".
Proof. by destruct w. Qed.

Lemma split_ws_words cur s :
  str_forall (λ c, negb (is_space c)) cur = true → Forall word (split_ws_aux cur s).
Proof.
  revert cur. induction s as [|c s IH]; intros cur Hcur; cbn.
  - destruct (String.eqb_spec cur ""); [done|]. by repeat constructor.
  - destruct (is_space c) eqn:Ec.
    + apply Forall_app. split; [|by apply IH]. destruct (String.eqb_spec cur ""); [done|]. by repeat constructor.
    + apply IH. rewrite str_forall_app, Hcur. cbn. by rewrite Ec.
Qed.

Lemma split_ws_word cur w s :
  str_forall (λ c, negb (is_space c)) w = true → split_ws_aux cur (w +:+ s) = split_ws_aux (cur +:+ w) s.
Proof.
  revert cur. induction w as [|c w IH]; intros cur Hw; [by rewrite app_str_nil_l, app_str_nil_r|].
  cbn in Hw. apply andb_true_iff in Hw as [Hc%negb_true_iff Hw]. rewrite app_str_cons. cbn. rewrite Hc, IH by done.
  by rewrite <- app_str_assoc, app_str_cons, app_str_nil_l.
Qed.

Lemma split_ws_join ws : Forall word ws → split_ws (str_join " " ws) = ws.
Proof.
  unfold split_ws. induction 1 as [|w ws [Hne Hw] Hws IH]; [done|]. apply String.eqb_neq in Hne.
  destruct ws as [|v ws].
  - cbn [str_join]. rewrite <- (app_str_nil_r w) at 1. rewrite split_ws_word, app_str_nil_l by done.
    cbn [split_ws_aux]. by rewrite Hne.
  - change (str_join " " (w :: v :: ws)) with (w +:+ String (Ascii.ascii_of_nat 32) (str_join " " (v :: ws))).
    rewrite split_ws_word, app_str_nil_l by done. cbn [split_ws_aux]. rewrite Hne. cbn [is_space app]. by f_equal.
Qed.

Lemma join_split_length cur s : (String.length (str_join " " (split_ws_aux cur s)) ≤ String.length cur + String.length s)%nat.
Proof.
  revert cur. induction s as [|c s IH]; intros cur; cbn [split_ws_aux].
  - destruct (String.eqb_spec cur "") as [->|]; cbn; lia.
  - destruct (is_space c).
    + specialize (IH ""). cbn [String.length] in *. destruct (String.eqb cur ""); cbn [app]; [lia|].
      destruct (split_ws_aux "" s) as [|w ws]; [cbn; lia|].
      change (str_join " " (cur :: w :: ws)) with (cur +:+ " " +:+ str_join " " (w :: ws)).
      rewrite !str_length_app. cbn [String.length]. lia.
    + etransitivity; [apply IH|]. rewrite str_length_app. cbn. lia.
Qed.

Lemma normal_reason v n : EmergencyStopRequest_reason v = Some n → EmergencyStopRequest_reason n = Some n.
Proof.
  unfold EmergencyStopRequest_reason, normalize_reason, sized. destruct (_ && _) eqn:Ev; [|done].
  destruct (Nat.ltb_spec (String.length (str_join " " (split_ws v))) 3) as [|Hn]; [done|]. intros [= <-].
  rewrite split_ws_join by by apply split_ws_words.
  apply andb_true_iff in Ev as [_ Ev%Nat.leb_le]. pose proof (join_split_length "" v) as Hl. cbn [String.length] in Hl.
  fold (split_ws v) in Hl.
  rewrite (proj2 (Nat.leb_le 3 _)) by done. rewrite (proj2 (Nat.leb_le _ 500)) by lia. cbn [andb].
  by rewrite (proj2 (Nat.ltb_ge _ 3)) by done.
Qed.

(** ** The service behind its schemas *)

Section deployed.
Context `{EmailStr} `{!EmailStrLaws}.

Lemma when_Some b c c' : when b c = Some c' → b = true ∧ c' = c.
Proof. destruct b; [intros [= <-]|]; done. Qed.

(** What an endpoint receives the schema admits as it is. *)
Lemma accept_normal c c' : accept c = Some c' → well_formed c'.
Proof.
  unfold well_formed. destruct c; cbn [accept]; try (intros [= <-]; reflexivity);
    try (intros [Hb ->]%when_Some; cbn [accept]; by rewrite Hb).
  - intros (e & He & [Hb ->]%when_Some)%bind_Some. cbn [accept]. rewrite (email_str_normal _ _ He). cbn. by rewrite Hb.
  - intros (r & Hr & ->)%fmap_Some. cbn [accept]. by rewrite (normal_reason _ _ Hr).
  - intros (r & Hr & ->)%fmap_Some. cbn [accept]. by rewrite (normal_reason _ _ Hr).
Qed.

Definition admits (c : Call) : bool := negb (is_none (accept c)).

Context `{Database} `{Settings} `{PyFloat} `{Fernet} `{Secrets} `{Pyotp} `{Redis} `{GexbotSettings} `{StorageSettings} `{X : Exchange} `{W : WebSocket}.
Context (rt : AlertRuntime).

#[local] Hint Resolve preserves_user preserves_reauthenticated : preserves.

Lemma preserves_dependency rq : preserves id (dependency rq).
Proof.
  unfold dependency, as_reauthenticated, as_admin, as_super_admin, as_user, get_current_admin_user, get_current_super_admin_user.
  preserves_tac.
Qed.

(** A request that stops at its schema: the error of what the endpoint depends on, and
    422 past that. *)
Definition unprocessable (rq : Request) (w : World) : Prop :=
  ∃ x, handle rt rq w = (Raise x, w) ∧
    match (dependency rq w).1 with Raise y => x = y | Ok _ => x = HTTPException 422 VNone [] end.

Lemma handle_refused rq w : accept (rq_call rq) = None → unprocessable rq w.
Proof.
  intros E. unfold unprocessable, handle. rewrite E. destruct (dependency rq w).1 as [[]|x] eqn:Ed; eexists; split; try done.
  - by rewrite (passes _ _ _ _ (preserves_dependency rq) Ed).
  - by rewrite (stops_at _ _ _ _ (preserves_dependency rq) Ed).
Qed.

Lemma handle_accepted rq w c : accept (rq_call rq) = Some c → handle rt rq w = serve rt (with_call rq c) w.
Proof. intros E. unfold handle. by rewrite E. Qed.

(** The list of providers is read without any effect. *)
Lemma providers_idle rq w : (run_request (serve rt (with_call rq ListProviders)) w).2 = close w.
Proof.
  assert (preserves id (serve rt (with_call rq ListProviders))) as Hp.
  { unfold serve, as_user. cbn [with_call rq_call]. unfold list_market_data_providers. preserves_tac. }
  specialize (Hp w). unfold run_request. destruct (serve rt _ w) as [o w']. cbn in *. by subst.
Qed.

Lemma deployed_step_admitted w w' : deployed_step rt w w' → step rt admits w w'.
Proof.
  intros [rq w0|t w0 Ht]; [|by apply step_time]. destruct (accept (rq_call rq)) as [c|] eqn:Ea.
  - replace (run_request (handle rt rq) w0) with (run_request (serve rt (with_call rq c)) w0)
      by (unfold run_request; by rewrite (handle_accepted _ _ _ Ea)).
    apply step_request. unfold admits. cbn. by rewrite (accept_normal _ _ Ea).
  - destruct (handle_refused rq w0 Ea) as (x & Hx & _).
    replace (run_request (handle rt rq) w0).2 with (run_request (serve rt (with_call rq ListProviders)) w0).2
      by (rewrite providers_idle; unfold run_request; by rewrite Hx).
    by apply step_request.
Qed.

(** C38. The service as it is deployed, behind the schemas of its requests: a payload that its
    schema refuses is answered 422, or with the error of the authentication in front of
    the endpoint, and leaves the whole state as it was; any other reaches its endpoint in a
    normal form that the schema admits unchanged (a reason for the emergency stop without
    superfluous white space, an address normalised).  So every state the deployed service
    can reach is reached by requests that their schemas admit, and what holds of all runs
    of the service holds of it. *)
Theorem deployed_service :
  (∀ rq w, match accept (rq_call rq) with
           | None => unprocessable rq w
           | Some c => well_formed c ∧ handle rt rq w = serve rt (with_call rq c) w
           end) ∧
  (∀ w w', star (deployed_step rt) w w' → star (step rt admits) w w').
Proof.
  split.
  - intros rq w. destruct (accept (rq_call rq)) as [c|] eqn:Ea; [|by apply handle_refused].
    split; [by eapply accept_normal|by apply handle_accepted].
  - apply (star_map _ _ id), deployed_step_admitted.
Qed.
End deployed.

#[local] Existing Instance demo_redis.
#[local] Existing Instance accepting_exchange.
#[local] Existing Instance refusing_stream.
#[local] Existing Instance gexbot_demo.
#[local] Existing Instance storage_demo_settings.

(** Addresses with an at sign, taken as they are. *)
#[local] Instance demo_email : EmailStr := {| email_str s := if str_contains "@" s then Some s else None |}.
#[local] Instance demo_email_laws : EmailStrLaws.
Proof. split. intros s e. cbn. destruct (str_contains "@" s) eqn:E; [intros [= <-]|done]. by rewrite E. Qed.

(** A reason with spaces to spare, and one that is only spaces. *)
Lemma deployed_service_witness :
  (well_formed (ActivateEmergencyStop "flash crash") ∧
   handle OperationalAlertRuntime (demo_request (ActivateEmergencyStop "  flash   crash ")) demo_world =
     serve OperationalAlertRuntime (demo_request (ActivateEmergencyStop "flash crash")) demo_world) ∧
  unprocessable OperationalAlertRuntime (demo_request (ActivateEmergencyStop " a  ")) demo_world ∧
  star (step OperationalAlertRuntime admits) demo_world demo_world.
Proof.
  split; [|split].
  - exact (proj1 (deployed_service OperationalAlertRuntime) (demo_request (ActivateEmergencyStop "  flash   crash ")) demo_world).
  - exact (proj1 (deployed_service OperationalAlertRuntime) (demo_request (ActivateEmergencyStop " a  ")) demo_world).
  - apply (proj2 (deployed_service OperationalAlertRuntime)), star_refl.
Defined.

(** Two schemas for the same approval admit different symbols. *)
Example window_symbol_lengths :
  let symbol := "1000000000000000000000000000000USDT" in
  admits (ApproveOrderWindow "a" symbol BUY (Dec false 1 0) (Dec false 1 0) 5 "") = true ∧
  admits (ApproveAccountOrderWindow "a" symbol BUY (Dec false 1 0) (Dec false 1 0) 5 "I APPROVE") = false.
Proof. by vm_compute. Qed.
