(* ===== verification/Scenario.v ===== *)
(** The end-to-end check of the repository ([scripts/integration/mock_compose_check.py])
    over the modelled service: the same requests in the same order, each in a session of its
    own behind its authentication, with the same assertions on the answers.

    Two users are registered and logged in already: a PBKDF2 hash of 390000 rounds is not
    evaluated here.  An assertion that fails is an exception. *)
From S2P Require Import Prelude PyStr PyDecimal PyValue Models Session PgDatabase Tables Demo Alerts Accounts Security Users Permissions RiskEngine PositionEngine SignalEngine OrderEngine Endpoints.
Open Scope Z_scope.

Section scenario.
Context `{Database} `{Settings} `{PyFloat} `{Fernet} `{Secrets}.
Context (rt : AlertRuntime).

Definition assert (b : bool) : M unit := if b then mret tt else raise (RuntimeError "AssertionError").

(** [request(method, path, payload, token)] of an endpoint for users, and with
    [expected_status]. *)
Definition request {A} (token : string) (endpoint : User → M A) : M A :=
  run_request (u ← get_current_user token; endpoint u).
Definition request_fails {A} (expected_status : Z) (token : string) (endpoint : User → M A) : M unit :=
  try_except (request token endpoint ;; raise (RuntimeError "AssertionError"))
    (λ x, match x with HTTPException s _ _ => if s =? expected_status then Some (mret tt) else None | _ => None end).

Definition assert_decimal (value expected : dec) : M unit := assert (dec_eqb value expected).

Definition create_manual_signal_request (token symbol : string) (side : OrderSide) (quantity target : option dec) :
    M TradingSignal :=
  request token (λ u, create_manual_trading_signal u
    {| msc_symbol := symbol; msc_side := side; msc_order_type := MARKET; msc_price := None; msc_quantity := quantity;
       msc_target := target |}).

Definition preview_position (token account_id symbol : string) (target_quantity : dec) : M PositionDelta :=
  request token (λ u, preview_position_target u account_id symbol target_quantity).

Definition execute (token signal_id account_id : string) : M OrderExecution :=
  request token (λ u, execute_signal u signal_id account_id rt).

Definition risk_decision (e : OrderExecution) : pyval := dict_get "decision" (default [] (exe_risk_result e)).
Definition risk_reasons (e : OrderExecution) : pyval := dict_get "reasons" (default [] (exe_risk_result e)).
Definition among (s : string) (v : pyval) : bool :=
  match v with VList l => existsb (λ x, match x with VStr y => String.eqb s y | _ => false end) l | _ => false end.
Definition is_text (s : string) (v : pyval) : bool := match v with VStr y => String.eqb s y | _ => false end.

Definition tenth (z : Z) : dec := Dec false (Z.to_N z) (-1).

Context (owner other : User) (owner_token other_token reauthentication_token : string).

(** Accounts. *)
Definition check_accounts : M string :=
  account ← request owner_token (λ u, add_account u MOCK "Mock Simulation" SIMULATION true);
  let account_id := acct_id account in
  persisted_account ← request owner_token (λ u, read_account u account_id);
  assert (String.eqb (acct_id persisted_account) account_id) ;;
  assert (String.eqb (acct_user persisted_account) (user_id owner)) ;;
  accounts ← request owner_token read_accounts;
  assert (existsb (λ item, String.eqb (acct_id item) account_id) accounts) ;;
  request_fails 404 other_token (λ u, read_account u account_id) ;;
  mret account_id.

(** Permissions and keys. *)
Definition check_permissions : M unit :=
  permission ← request owner_token (λ u, add_permission u
    {| pc_grantee := user_id other; pc_view_only := true; pc_copy_follow := false; pc_pause_follow := false;
       pc_edit_copy_rule := false; pc_trade_manual := false |});
  assert (String.eqb (perm_owner permission) (user_id owner)) ;;
  assert (String.eqb (perm_grantee permission) (user_id other)) ;;
  assert (perm_view_only permission) ;;
  assert (negb (perm_trade_manual permission)) ;;
  request_fails 404 other_token (λ u, patch_permission u (perm_id permission)
    {| pu_view_only := None; pu_copy_follow := None; pu_pause_follow := None; pu_edit_copy_rule := None;
       pu_trade_manual := Some true |}).

Definition check_keys (account_id : string) : M unit :=
  run_request (u ← get_reauthenticated_user owner_token (Some reauthentication_token);
               set_api_key u account_id "mock-key" "mock-secret-never-return" (Some "mock-passphrase")) ;;
  secret_metadata ← request owner_token (λ u, read_api_key_metadata u account_id);
  assert (akm_configured secret_metadata) ;;
  assert (akm_has_passphrase secret_metadata).

(** A signal without limits is rejected, once. *)
Definition check_rejection (account_id : string) : M unit :=
  preview ← preview_position owner_token account_id "BTCUSDT" (tenth 10);
  assert (String.eqb (delta_symbol preview) "BTCUSDT") ;;
  assert_decimal (delta_current preview) dec0 ;;
  assert_decimal (delta_target preview) (tenth 10) ;;
  assert_decimal (delta_quantity preview) (tenth 10) ;;
  assert (bool_decide (delta_side preview = Some BUY)) ;;
  signal ← create_manual_signal_request owner_token "BTCUSDT" BUY (Some (tenth 1)) None;
  execution ← execute owner_token (sig_id signal) account_id;
  assert (bool_decide (exe_status execution = FAILED)) ;;
  assert (is_text "REJECTED" (risk_decision execution)) ;;
  assert (among "risk settings trading is disabled" (risk_reasons execution)) ;;
  duplicate_execution ← execute owner_token (sig_id signal) account_id;
  assert (String.eqb (exe_execution_id duplicate_execution) (exe_execution_id execution)) ;;
  assert (String.eqb (exe_client_order_id duplicate_execution) (exe_client_order_id execution)) ;;
  request_fails 404 other_token (λ u, execute_signal u (sig_id signal) account_id rt).

(** With limits a signal is filled, and a target is reached. *)
Definition check_fills (account_id : string) : M unit :=
  request owner_token (λ u, patch_risk_settings u account_id
    [set_trading_enabled (Some true); set_min_order_quantity (Some (Dec false 1 (-2)));
     set_max_order_quantity (Some (Dec false 1 0)); set_max_single_order_notional (Some (Dec false 1000 0))] (Some rt)) ;;
  risk_settings ← request owner_token (λ u, read_risk_settings u account_id);
  assert (risk_trading_enabled risk_settings) ;;
  assert (String.eqb (risk_account risk_settings) account_id) ;;
  fill_signal ← create_manual_signal_request owner_token "BTCUSDT" BUY (Some (tenth 2)) None;
  fill_execution ← execute owner_token (sig_id fill_signal) account_id;
  assert (bool_decide (exe_status fill_execution = FILLED)) ;;
  assert (is_text "PASSED" (risk_decision fill_execution)) ;;
  assert_decimal (exe_quantity fill_execution) (tenth 2) ;;
  post_fill_preview ← preview_position owner_token account_id "BTCUSDT" (tenth 2);
  assert_decimal (delta_current post_fill_preview) (tenth 2) ;;
  assert_decimal (delta_target post_fill_preview) (tenth 2) ;;
  assert_decimal (delta_quantity post_fill_preview) dec0 ;;
  assert (bool_decide (delta_side post_fill_preview = None)) ;;
  target_signal ← create_manual_signal_request owner_token "BTCUSDT" BUY None (Some (tenth 5));
  target_execution ← execute owner_token (sig_id target_signal) account_id;
  assert (bool_decide (exe_status target_execution = FILLED)) ;;
  assert_decimal (exe_quantity target_execution) (tenth 3) ;;
  post_target_preview ← preview_position owner_token account_id "BTCUSDT" (tenth 5);
  assert_decimal (delta_current post_target_preview) (tenth 5) ;;
  assert_decimal (delta_target post_target_preview) (tenth 5) ;;
  assert_decimal (delta_quantity post_target_preview) dec0 ;;
  assert (bool_decide (delta_side post_target_preview = None)).

Definition scenario_main : M unit :=
  account_id ← check_accounts;
  check_permissions ;;
  check_keys account_id ;;
  check_rejection account_id ;;
  check_fills account_id.
End scenario.

(** ** The check passes *)

Definition registered (id name : string) : User :=
  {| user_id := id; user_email := name +:+ "@example.com"; user_username := name; user_password_hash := "";
     user_auth_version := 0; user_mfa_enabled := false; user_mfa_secret := None; user_mfa_pending_secret := None;
     user_mfa_last_used_step := None; user_mfa_recovery_code_hashes := []; user_role := NORMAL_USER; user_is_active := true |}.

Definition it_user : User := registered "user-1" "it_user_1780000000".
Definition it_other : User := registered "user-2" "it_user_1780000000_other".
Definition fresh_db : Db := set_users [it_user; it_other] empty_db.
Definition fresh_world : World := mkWorld fresh_db fresh_db empty_db 0 1780000000000000 [].
Definition token_for (user kind : string) : string := token_text (token_payload user 0 kind 1780000300).

Example mock_compose_check_passes :
  (scenario_main OperationalAlertRuntime it_user it_other (token_for "user-1" "access") (token_for "user-2" "access")
     (token_for "user-1" "reauthentication") fresh_world).1 = Ok tt.
Proof. vm_compute. reflexivity. Qed.
