(* ===== verification/Sending.v ===== *)
(** No order without its papers: every order request that leaves the service in a run was
    asked for, was allowed by all guards at that moment and left its row and its approval
    in the database; and no client order id is ever sent twice. *)
From S2P Require Import Prelude PyStr PyDecimal PyValue Json Models Session PgDatabase Tables Demo Logic OrderStateMachine ExecutionLog ExecutionRow Alerts Accounts Security Mfa Users Permissions Notifications TestnetGate WindowApproval RateLimit HttpClient TestnetRequest RiskEngine PositionEngine EmergencyStop SignalEngine MockExchange OrderEngine TestnetPersistence TestnetSubmit Lifecycle AccountSync OrderReconciliation UserStream Adapters ReadOnly Phase4 MarketData Storage Endpoints Steady Records System Plain Standing LogInvariant StopInvariant Access.

(** ** Order requests in a trace *)

Definition is_order_request (ev : Event) : bool :=
  match ev with
  | EvHttp _ req =>
      negb (String.eqb (req_method req) "GET") &&
      existsb (λ e, bool_decide (_testnet_order_request_path e = Some (req_path req))) [BINANCE; OKX; BYBIT; MOCK]
  | _ => false
  end.
Abbreviation order_requests := (List.filter is_order_request).

(** No event of these is a request for an order. *)
Definition idle (ev : Event) : Prop := is_order_request ev = false.

Lemma order_request_event ev : is_order_request ev = true → order_event ev.
Proof.
  destruct ev; try done. intros [Hm He]%andb_true_iff. split.
  - intros E. by rewrite E in Hm.
  - apply existsb_exists in He as (e & _ & He%bool_decide_eq_true). by exists e.
Qed.

Lemma harmless_idle ev : harmless ev → idle ev.
Proof. unfold idle, harmless. intros Hh. destruct (is_order_request ev) eqn:E; [|done]. by apply order_request_event in E. Qed.

Lemma no_order_requests evs : Forall idle evs → order_requests evs = [].
Proof. induction 1 as [|ev evs Hev _ IH]; [done|]. cbn. by rewrite Hev. Qed.

Lemma filter_length_mono {A} (p q : A → bool) l :
  (∀ x, p x = true → q x = true) → (length (List.filter p l) ≤ length (List.filter q l))%nat.
Proof.
  intros Hpq. induction l as [|x l IH]; [done|]. cbn. destruct (p x) eqn:E; [rewrite (Hpq _ E); cbn; lia|].
  destruct (q x); cbn; lia.
Qed.

Lemma emits_weaken (P Q : Event → Prop) {A} (m : M A) : (∀ ev, P ev → Q ev) → emits P m → emits Q m.
Proof.
  intros HPQ Hm w. destruct (Hm w) as (evs & Htr & Hevs). exists evs. split; [done|]. by eapply Forall_impl.
Qed.

Section silent.
Context `{Database}.
Context (rt : AlertRuntime) `{!AlertRuntimeLaws rt}.

Lemma idle_quiet (m : M unit) : quiet m → emits idle m.
Proof.
  intros Hm w. destruct (Hm w) as (evs & Hevs & ->). exists evs. split; [done|]. apply Forall_forall.
  intros ev Hev. by destruct (Hevs ev Hev) as (k & f & ->).
Qed.

(** The simulated exchange is no exchange. *)
Lemma idle_execute user signal account : emits idle (execute_signal user signal account rt).
Proof.
  unfold execute_signal. apply emits_try; [|handler_cases; apply emits_raise].
  unfold execute_signal_for_account, execute_new, assert_new_orders_allowed, _get_owned_signal,
    _get_owned_account, _resolve_side_and_quantity, create_execution, submit_and_fill, fail_execution,
    _notify_order_failure, apply_fill, get_or_create_position, get_or_create_risk_settings,
    record_initial_order_state, transition_order_execution, _add_transition, _next_sequence_number, load_execution.
  emits_tac; try by apply emits_emit. all: apply idle_quiet, quiet_order_failure.
Qed.

Lemma idle_stop enabled actor reason : emits idle (set_emergency_stop enabled actor reason).
Proof. unfold set_emergency_stop, lock_control, force_flags_off, record_stop, get_emergency_stop_state. emits_tac. Qed.
End silent.

Section run.
Context `{Database} `{!DatabaseLaws} `{Settings} `{PyFloat} `{Fernet} `{Secrets} `{Pyotp} `{Redis} `{GexbotSettings} `{StorageSettings} `{X : Exchange}
  `{W : WebSocket}.
Context (rt : AlertRuntime) `{!AlertRuntimeLaws rt}.

Lemma idle_user token : emits idle (get_current_user token).
Proof. apply emits_silent. intros w. by rewrite (preserves_user token w : (_ w).2 = w). Qed.
Lemma idle_reauthenticated token reauth : emits idle (get_reauthenticated_user token reauth).
Proof. apply emits_silent. intros w. by rewrite (preserves_reauthenticated token reauth w : (_ w).2 = w). Qed.

Lemma idle_super_admin token : emits idle (get_current_super_admin_user token).
Proof.
  unfold get_current_super_admin_user. apply emits_bind; [apply idle_user|]. intros u. unfold Users.forbidden.
  case_match; apply emits_ret || apply emits_raise.
Qed.

Lemma idle_answer {A} (m : User → M A) rq :
  (∀ u, emits idle (m u)) → emits idle (as_user rq m) ∧ emits idle (as_reauthenticated rq m).
Proof.
  intros Hm. split.
  all: apply emits_bind; [apply idle_user || apply idle_reauthenticated|]; intros u.
  all: apply emits_bind; [apply Hm|intros a; apply emits_ret].
Qed.

Definition is_submission (c : Call) : bool := match c with SubmitTestnetOrder _ => true | _ => false end.

(** A request that is no submission sends no order. *)
Lemma idle_serve rq w :
  ready w → is_submission (rq_call rq) = false →
  ∃ evs, w_trace (serve rt rq w).2 = w_trace w ++ evs ∧ order_requests evs = [].
Proof.
  intros Hw Hs. destruct (plain (rq_call rq)) eqn:Hp.
  - destruct (plain_aside rt rq Hp _ _ _ w (still_ready w Hw)) as (_ & _ & _ & _ & evs & Htr & Hevs).
    exists evs. split; [done|]. apply no_order_requests. eapply Forall_impl; [exact Hevs|apply harmless_idle].
  - assert (emits idle (serve rt rq)) as Hem.
    { unfold serve. destruct (rq_call rq); try done.
      + apply idle_answer. intros u. by apply idle_execute.
      + unfold as_super_admin. apply emits_bind; [apply idle_super_admin|]. intros u. unfold activate_emergency_stop.
        emits_tac; [apply idle_stop|by apply idle_quiet, quiet_emergency_stop].
      + apply idle_answer. intros u. unfold deactivate_emergency_stop, Users.forbidden. emits_tac. apply idle_stop.
      + apply idle_answer. intros u. unfold reconcile_testnet_order_statuses, OrderReconciliation._require_super_admin,
          OrderReconciliation._require_testnet_enabled. emits_tac.
        apply emits_try; [|handler_cases; apply emits_raise].
        eapply emits_weaken; [|apply emits_reconcile]. intros ev Hev. by apply harmless_idle, lookup_harmless.
      + apply idle_answer. intros u. eapply emits_weaken; [|apply emits_stream].
        intros ev Hev. by apply harmless_idle, stream_harmless. }
    destruct (Hem w) as (evs & Htr & Hevs). exists evs. split; [done|]. by apply no_order_requests.
Qed.
Lemma submit_records user payload w o w' :
  ready w → submit_testnet_order user payload w = (o, w') →
  w_trace w' = w_trace w ∨
  ∃ e, e ∈ db_executions (w_committed w') ∧ exe_client_order_id e = pl_client_order_id payload ∧
    exe_user e = user_id user ∧ exe_account e = pl_account payload.
Proof.
  intros Hw E. destruct (submit_cases _ _ _ _ _ Hw E)
    as [[[_ Ht] _]|(ctx & settings & d & e & (_ & _ & _ & Hval) & (Hus & Hacc & _ & Hcoid & _) & Hcase)]; [by left|right].
  destruct Hval as (_ & Hid & _ & Hord & _). rewrite Hord in Hcoid. rewrite Hid in Hacc. exists e.
  assert (e ∈ db_executions (w_committed w')) as He; [|done].
  destruct Hcase as [(_ & [-> _] & _)|(_ & c & e0 & now & evs & _ & _ & _ & _ & _ & [-> _] & _)]; set_solver.
Qed.

Lemma run_answered {A} (m : M A) w : ((m ;; mret tt) w).2 = (m w).2.
Proof. rewrite run_bind. by destruct (m w) as [[]]. Qed.

(** What a submission sends: at most one order request, allowed by every guard, with the
    row of its order committed by the end. *)
Lemma submission_sends rq p w :
  ready w → rq_call rq = SubmitTestnetOrder p → (d_coeff (pl_quantity p) < prec_limit)%N →
  let w' := (serve rt rq w).2 in
  ∃ evs, w_trace w' = w_trace w ++ evs ∧
    (order_requests evs = [] ∨
     ∃ user c req e, order_requests evs = [EvHttp c req] ∧
       request_allowed user p (w_committed w) (w_now w) c req ∧ e ∈ db_executions (w_committed w') ∧
       exe_client_order_id e = pl_client_order_id p ∧ exe_user e = user ∧ exe_account e = pl_account p).
Proof.
  intros Hw Hc Hq w'. subst w'. unfold serve. rewrite Hc. unfold as_user. rewrite run_bind.
  destruct (get_current_user (rq_token rq) w) as [[u|x] w1] eqn:Eu.
  2:{ exists []. rewrite app_nil_r. split; [|by left]. pose proof (preserves_user (rq_token rq) w) as Hp. rewrite Eu in Hp. cbn in Hp. by rewrite Hp. }
  pose proof (preserves_user (rq_token rq) w) as Hp. rewrite Eu in Hp. cbn in Hp. subst w1.
  rewrite run_answered. destruct (submit_testnet_order u p w) as [o w2] eqn:Es. cbn [snd].
  destruct (testnet_request_guarded u p w o w2 Hw Hq Es) as (evs & Htr & Hlen & Hall).
  exists evs. split; [done|].
  assert (length (order_requests evs) ≤ 1)%nat as Hlen'
    by (eapply Nat.le_trans; [apply (filter_length_mono _ is_http); by intros []|exact Hlen]).
  destruct (order_requests evs) as [|ev [|ev2 r]] eqn:Er; [by left| |cbn in Hlen'; lia]. right.
  assert (ev ∈ evs ∧ is_order_request ev = true) as [Hin Hor]
    by (rewrite list_elem_of_In; apply List.filter_In; rewrite Er; by left).
  destruct ev as [c req| | | |]; try done.
  destruct (submit_records u p w o w2 Hw Es) as [Hsame|(e & He & Hcoid & Hus & Hacc)].
  - rewrite Hsame in Htr. rewrite <- (app_nil_r (w_trace w)) in Htr at 1. apply app_inv_head in Htr. subst evs. by apply elem_of_nil in Hin.
  - exists (user_id u), c, req, e. split; [done|]. by split; [apply Hall|].
Qed.
Context (allowed : Call → bool).

(** What backs an order request of a run from [w] to [w']: in some state [v] of the run a
    user submitted [o]; all guards held on the database that was committed when the
    request went out; and at the end the approval log of that time is still there, and so
    is the row of the order. *)
Definition backed (w w' : World) (ev : Event) (o : TestnetOrderSubmitRequest) : Prop :=
  ∃ v user c req, star (step rt allowed) w v ∧ star (step rt allowed) v w' ∧ ev = EvHttp c req ∧
    request_allowed user o (w_committed v) (w_now v) c req ∧
    db_audit (w_committed v) `prefix_of` db_audit (w_committed w') ∧
    ∃ e, e ∈ db_executions (w_committed w') ∧ exe_client_order_id e = pl_client_order_id o ∧
      exe_user e = user ∧ exe_account e = pl_account o.

Lemma extends_execution d d' e :
  extends d d' → e ∈ db_executions d → ∃ e', e' ∈ db_executions d' ∧ lasting TExecutions e' = lasting TExecutions e.
Proof. intros Hx He. by apply (extends_row TExecutions d). Qed.

Lemma extends_audit d d' : extends d d' → db_audit d `prefix_of` db_audit d'.
Proof. intros Hx. pose proof (Hx TAudit eq_refl) as Ha. cbn in Ha. by rewrite !map_id in Ha. Qed.

Lemma backed_later w v v' ev o :
  star (step rt allowed) v v' → extends (w_committed v) (w_committed v') → backed w v ev o → backed w v' ev o.
Proof.
  intros Hs Hx (u & user & c & req & Hwu & Huv & -> & Hal & Hau & e & He & Hcoid & Hus & Hacc).
  exists u, user, c, req. split; [done|]. split; [by eapply star_trans|]. do 2 (split; [done|]).
  split; [by etrans; [|apply extends_audit]|].
  destruct (extends_execution _ _ e Hx He) as (e' & He' & Hl). exists e'. split; [done|].
  cbn in Hl. injection Hl as _ Hu _ _ Ha _ Hc _ _ _ _ _. by rewrite Hc, Hu, Ha.
Qed.

Hypothesis exact : ∀ p, allowed (SubmitTestnetOrder p) = true → (d_coeff (pl_quantity p) < prec_limit)%N.

(** The requests of a run, each with its papers, under ids that are all different and new. *)
Definition accounted (w v : World) : Prop :=
  ∃ evs sent, w_trace v = w_trace w ++ evs ∧ Forall2 (backed w v) (order_requests evs) sent ∧
    NoDup (map pl_client_order_id sent) ∧
    Forall (λ o, unused (pl_client_order_id o) (db_executions (w_committed w))) sent.

Lemma backed_used w v evs sent o :
  Forall2 (backed w v) (order_requests evs) sent → unused (pl_client_order_id o) (db_executions (w_committed v)) →
  pl_client_order_id o ∉ map pl_client_order_id sent.
Proof.
  intros Hall Hu. induction Hall as [|ev o' evs' sent' Hb _ IH]; cbn; [apply not_elem_of_nil|].
  apply not_elem_of_cons. split; [|exact IH].
  destruct Hb as (_ & _ & _ & _ & _ & _ & _ & _ & _ & e & He & <- & _). intros E. by apply (Hu e He).
Qed.

Lemma step_accounted w v v' :
  star (step rt allowed) w v → ready v → well_typed (w_committed v) → extends (w_committed w) (w_committed v) →
  step rt allowed v v' → accounted w v → accounted w v'.
Proof.
  intros Hwv Hv Hty Hwx Hs (evs & sent & Htr & Hb & Hnd & Hnew).
  assert (star (step rt allowed) v v') as Hvv' by (by eapply star_snoc; [apply star_refl|]).
  pose proof Hv as (_ & Ht & _). destruct (run_standing rt allowed v v' Hvv' Ht Hty) as (_ & _ & Hx).
  assert (Forall2 (backed w v') (order_requests evs) sent) as Hb'
    by (eapply Forall2_impl; [exact Hb|]; intros ev o; by apply backed_later).
  assert (∀ more, w_trace v' = w_trace v ++ more → order_requests more = [] → accounted w v') as Hquiet.
  { intros more Hm Hno. exists (evs ++ more), sent. split; [by rewrite Hm, Htr, app_assoc|].
    by rewrite List.filter_app, Hno, app_nil_r. }
  destruct Hs as [rq v Hal|t v _]; [|by apply (Hquiet []); [rewrite app_nil_r|]].
  rewrite run_request_world in *. destruct (is_submission (rq_call rq)) eqn:Hsub.
  2:{ destruct (idle_serve rq v Hv Hsub) as (more & Hm & Hno). by apply (Hquiet more). }
  destruct (rq_call rq) as [] eqn:Hc; try done.
  destruct (submission_sends rq payload v Hv Hc (exact _ Hal)) as (more & Hm & [Hno|(user & c & req & e & Hor & Hallow & He)]);
    [by apply (Hquiet more)|].
  assert (unused (pl_client_order_id payload) (db_executions (w_committed v))) as Hun
    by (destruct Hallow as (? & ? & ? & ? & ? & Hallow); tauto).
  exists (evs ++ more), (sent ++ [payload]). split; [by cbn; rewrite Hm, Htr, app_assoc|].
  rewrite List.filter_app, Hor, map_app. split; [|split].
  - apply Forall2_app; [done|]. constructor; [|constructor]. exists v, user, c, req. split; [done|]. split; [done|]. split; [done|].
    split; [done|]. split; [by apply extends_audit|]. by exists e.
  - apply NoDup_app. split; [done|]. split; [|apply NoDup_singleton].
    intros x Hx' ->%list_elem_of_singleton. exact (backed_used w v evs sent payload Hb Hun Hx').
  - apply Forall_app_2; [done|]. constructor; [|constructor]. intros e0 He0 Heq.
    destruct (extends_execution _ _ e0 Hwx He0) as (e1 & He1 & Hl). apply (Hun e1 He1).
    cbn in Hl. congruence.
Qed.

End run.

(** ** A submission and its repetition *)

#[local] Existing Instance demo_redis.
#[local] Existing Instance accepting_exchange.
#[local] Existing Instance refusing_stream.
#[local] Existing Instance gexbot_demo.
#[local] Existing Instance storage_demo_settings.

Definition exact_orders (c : Call) : bool :=
  match c with SubmitTestnetOrder p => (d_coeff (pl_quantity p) <? prec_limit)%N | _ => true end.

Definition submissions : list Request :=
  [ demo_request (SubmitTestnetOrder demo_payload); demo_request (ExecuteSignal "signal-1" "acct-test");
    demo_request (SubmitTestnetOrder demo_payload) ].

Lemma open_typed : well_typed (w_committed open_world).
Proof. typed_rows. Qed.

Lemma submissions_run : star (step OperationalAlertRuntime exact_orders) open_world (demo_serve submissions open_world).
Proof. by apply serve_all_steps. Qed.

