(* ===== verification/Concurrency.v ===== *)
(** Submissions that overlap.  FastAPI serves requests on several threads, each with a
    session of its own; here a testnet submission is divided where another session can come
    in between: after the look-up of the client order id, after the commit of the row, and
    after the answer.  Any number of submissions interleave at these points with each other
    and with all other requests (one step each).

    Within a phase nothing interleaves: between the look-up and the commit the unique
    constraint makes the INSERT of a second submission wait for the first transaction.  A
    phase that another one follows leaves nothing open ([look_up_Ok], [create_closed]), so
    that the next one starts from what is committed by then, as READ COMMITTED has it; and
    with nobody in between the phases are the endpoint ([submission_on_its_own]). *)
From S2P Require Import Prelude PyStr PyDecimal PyValue Json Models Session PgDatabase Tables Demo Logic OrderStateMachine ExecutionLog ExecutionRow Alerts Accounts Security Mfa Users Permissions Notifications TestnetGate WindowApproval RateLimit HttpClient TestnetRequest RiskEngine PositionEngine EmergencyStop SignalEngine MockExchange OrderEngine TestnetPersistence TestnetSubmit Lifecycle AccountSync OrderReconciliation UserStream Adapters ReadOnly Phase4 MarketData Storage Endpoints Steady Records System Plain Standing LogInvariant StopInvariant Access Sending.

(** ** Phases *)

(** Where a submission stands. *)
Inductive Thread :=
| Arrived (user : User) (payload : TestnetOrderSubmitRequest)
| Looked_up (user : User) (ctx : TestnetOrderApiContext)
| Submitting (ctx : TestnetOrderApiContext) (submission : TestnetSubmissionRecord)
| Answered.

Section phases.
Context `{Database} `{Settings} `{Fernet} `{Redis} `{X : Exchange}.

Definition look_up (user : string) (payload : TestnetOrderSubmitRequest) :
    M (TestnetOrderApiContext * option OrderExecution) :=
  assert_new_orders_allowed ;;
  context ← build_testnet_order_api_context user payload;
  existing ← db_scalar (λ e, String.eqb (exe_client_order_id e) (ord_client_order_id (ctx_order context)));
  mret (context, existing).

(** The next phase, behind the clauses of the endpoint; an order id that is taken is
    answered at once. *)
Definition phase (t : Thread) : M Thread :=
  match t with
  | Arrived u payload =>
      '(context, existing) ← try_except (look_up (user_id u) payload) (submit_errors None);
      mret match existing with Some _ => Answered | None => Looked_up u context end
  | Looked_up u context =>
      submission ← try_except (create_submission (user_id u) context) (submit_errors None);
      mret (Submitting context submission)
  | Submitting context submission =>
      try_except (send_submission context (exe_id (sub_execution submission))) (submit_errors (Some submission)) ;;
      mret Answered
  | Answered => mret Answered
  end.

(** An error is an answer. *)
Definition after (o : Outcome Thread) : Thread := match o with Ok t => t | Raise _ => Answered end.
Definition advance (t : Thread) (w : World) : World * Thread :=
  let r := run_request (phase t) w in (r.2, after r.1).
End phases.

(** ** Overlapping submissions among the other requests *)

Section overlap.
Context `{Database} `{Settings} `{PyFloat} `{Fernet} `{Secrets} `{Pyotp} `{Redis} `{GexbotSettings} `{StorageSettings} `{X : Exchange} `{W : WebSocket}.
Context (rt : AlertRuntime) (allowed : Call → bool).

Inductive overlap : World * list Thread → World * list Thread → Prop :=
| overlap_arrive w ts u payload :
    allowed (SubmitTestnetOrder payload) = true → overlap (w, ts) (w, ts ++ [Arrived u payload])
| overlap_phase w ts i t :
    ts !! i = Some t → overlap (w, ts) ((advance t w).1, <[i := (advance t w).2]> ts)
| overlap_request w ts rq :
    is_submission (rq_call rq) = false → allowed (rq_call rq) = true →
    overlap (w, ts) ((run_request (serve rt rq) w).2, ts)
| overlap_time w ts t : (w_now w ≤ t)%Z → overlap (w, ts) (set_now t w, ts).
End overlap.

(** ** What one phase does *)

Section one_phase.
Context `{Database} `{!DatabaseLaws} `{Settings} `{Fernet} `{Redis} `{X : Exchange}.

Definition coids (d : Db) : list string := map exe_client_order_id (db_executions d).

Lemma keeps_log_phase t : keeps_log (phase t).
Proof.
  unfold phase. destruct t as [u p|u ctx|ctx sub|]; [| | |apply keeps_ret].
  - apply keeps_bind; [|intros [c []]; apply keeps_ret].
    apply keeps_try; [|apply keeps_log_submit_errors]. unfold look_up.
    apply keeps_bind; [unfold assert_new_orders_allowed; keeps_log_tac|]. intros _.
    apply keeps_bind; [apply keeps_log_context|]. intros c. keeps_log_tac.
  - apply keeps_bind; [|intros s; apply keeps_ret]. apply keeps_try; [|apply keeps_log_submit_errors].
    unfold create_submission.
    apply keeps_bind; [apply keeps_log_new_id|]. intros signal.
    apply keeps_bind; [apply keeps_log_add_flush|]. intros _.
    apply keeps_bind; [apply keeps_log_new_id|]. intros execution_id.
    apply (keeps_log_create (testnet_execution execution_id signal (user_id u) ctx)); [done|]. intros id.
    unfold decide_submission, get_or_create_risk_settings. keeps_log_tac.
  - apply keeps_bind; [|intros e; apply keeps_ret].
    apply keeps_try; [apply keeps_log_send|apply keeps_log_submit_errors].
Qed.

Lemma phase_ready t w : ready w → ready (advance t w).1.
Proof.
  intros Hw. unfold advance. cbn [fst]. pose proof Hw as (_ & _ & Hlog).
  apply (keeps_log_request _ _ (keeps_log_phase t)) in Hlog. rewrite run_request_world in *. by repeat (split; [done|]).
Qed.

(** Look-ups and the records of outcomes emit nothing. *)
Definition silent {A} (m : M A) : Prop := emits (λ _, False) m.

Lemma silent_trace {A} (m : M A) w : silent m → w_trace (m w).2 = w_trace w.
Proof.
  intros Hm. destruct (Hm w) as (evs & -> & Hevs). destruct evs as [|ev evs]; [by rewrite app_nil_r|].
  by inversion Hevs.
Qed.

Lemma silent_look_up user payload : silent (look_up user payload).
Proof.
  unfold silent, look_up, assert_new_orders_allowed, build_testnet_order_api_context, get_owned_account,
    get_or_create_risk_settings, get_exchange_credentials, get_api_key_secret_metadata, decrypt_secret,
    require_valid_testnet_order_window_authorization.
  emits_tac. apply emits_try; [emits_tac|]. intros x k. unfold blocked_authorization.
  destruct x; try done; intros [= <-]; apply emits_raise.
Qed.

Lemma silent_create user ctx : silent (create_submission user ctx).
Proof.
  unfold silent, create_submission, decide_submission, get_or_create_risk_settings, record_initial_order_state,
    transition_order_execution, _add_transition, _next_sequence_number, load_execution. emits_tac.
Qed.

Lemma silent_recorded execution result : silent (record_testnet_submission_accepted execution result).
Proof.
  unfold silent, record_testnet_submission_accepted, transition_order_execution, _add_transition, _next_sequence_number,
    load_execution. emits_tac.
Qed.

Lemma silent_failure sub ft : silent (_record_testnet_submission_failure sub ft).
Proof.
  unfold silent, _record_testnet_submission_failure, record_testnet_submission_failure, transition_order_execution,
    _add_transition, _next_sequence_number, load_execution. emits_tac.
Qed.

Lemma silent_submit_errors {A} sub x (h : M A) : submit_errors sub x = Some h → silent h.
Proof.
  assert (∀ ft code detail headers, silent (_record_testnet_submission_failure sub ft ;; raise (A:=A) (HTTPException code detail headers)))
    as Hr by (intros; apply emits_bind; [apply silent_failure|intros _; apply emits_raise]).
  unfold submit_errors. destruct x; cbn [is_ValueError is_RuntimeError]; try done; intros [= <-]; by (apply emits_raise || apply Hr).
Qed.

(** The last phase: calls of the rate limiter and at most one request, with what is
    committed when it starts. *)
Lemma send_events ctx execution sub w :
  ∃ evs, w_trace (try_except (send_submission ctx execution) (submit_errors (Some sub)) w).2 = w_trace w ++ evs ∧
    submission_events ctx (w_now w) (w_committed w) evs.
Proof.
  assert (∃ evs, w_trace (send_submission ctx execution w).2 = w_trace w ++ evs ∧
    submission_events ctx (w_now w) (w_committed w) evs) as (evs & Htr & Hevs).
  { unfold send_submission. rewrite run_bind. unfold lift.
    destruct (create_testnet_signed_http_client _) as [client|x] eqn:Ecl; [|exists []; rewrite app_nil_r; split; [done|by left]].
    rewrite run_bind. destruct (execute_cases ctx client w Ecl) as (evs & o & -> & Hevs & _). exists evs. split; [|done].
    destruct o as [result|x]; [|done]. by rewrite (silent_trace _ _ (silent_recorded _ _)). }
  exists evs. split; [|done]. unfold try_except. destruct (send_submission ctx execution w) as [[e|x] w1]; cbn in *; [done|].
  destruct (submit_errors (Some sub) x) as [h|] eqn:Eh; [|done]. by rewrite (silent_trace _ _ (silent_submit_errors _ _ _ Eh)).
Qed.

(** A handler without a submission leaves the state alone. *)
Lemma try_before {A} (m : M A) w :
  (try_except m (submit_errors None) w).2 = (m w).2 ∧
  ∀ a, (try_except m (submit_errors None) w).1 = Ok a → (m w).1 = Ok a.
Proof.
  unfold try_except. destruct (m w) as [[a|x] w1]; [done|]. destruct (submit_errors None x) as [h|] eqn:Eh; [|done].
  destruct (submit_errors_none _ _ w1 Eh) as [y ->]. done.
Qed.
End one_phase.

Section records.
Context `{Database} `{!DatabaseLaws} `{Settings} `{Secrets} `{Fernet} `{Redis} `{X : Exchange}.

Abbreviation lasting_program := (Records.enduring (λ _, True)).

#[local] Hint Resolve enduring_draw_any enduring_transport enduring_transition enduring_initial enduring_acquire
  enduring_credentials enduring_recorded lasting_order_id : enduring.

Lemma enduring_phase t : lasting_program (phase t).
Proof.
  unfold phase. destruct t as [u p|u ctx|ctx sub|]; [| | |apply enduring_ret].
  all: apply enduring_bind; [apply enduring_try; [|intros x k; by apply enduring_submit_errors]|].
  all: unfold look_up, send_submission, execute_testnet_order,
    build_testnet_order_api_context, require_valid_testnet_order_window_authorization, assert_new_orders_allowed, get_emergency_stop_state,
    create_submission, decide_submission, get_or_create_risk_settings, blocked_authorization, load_execution.
  all: try (intros [? ?]; apply enduring_ret).
  all: enduring_tac.
Qed.

(** A program that lasts, as a request of its own. *)
Lemma request_lasts {A} (m : M A) d0 w :
  lasting_program m → ready w → well_typed (w_committed w) → extends d0 (w_committed w) →
  well_typed (w_committed (run_request m w).2) ∧ extends d0 (w_committed (run_request m w).2).
Proof.
  intros Hm (Hn & Ht & _) Hty Hx.
  assert (Records.lasts (λ _, True) d0 w) as Hl.
  { unfold Records.lasts. rewrite Hn, Ht. do 4 (split; [done|]). repeat split; by apply Forall_true. }
  rewrite run_request_world. destruct (Hm d0 w Hl) as (_ & Hty' & Hx' & _). done.
Qed.

Definition has_risk (user account : string) (d : Db) : Prop :=
  ∃ r, r ∈ db_risk d ∧ risk_user r = user ∧ risk_account r = account.

Lemma has_risk_later user account d d' : extends d d' → has_risk user account d → has_risk user account d'.
Proof.
  intros Hx (r & Hr & Hu & Ha). destruct (extends_row TRisk d d' r eq_refl Hx Hr) as (r' & Hr' & Hl).
  exists r'. split; [done|]. cbn in Hl. split; congruence.
Qed.

(** The order of a context is for its account, and its quantity is printed exactly. *)
Definition proper (ctx : TestnetOrderApiContext) : Prop :=
  ord_exchange (ctx_order ctx) = acct_exchange (ctx_account ctx) ∧ (d_coeff (ord_quantity (ctx_order ctx)) < prec_limit)%N.

(** What a submission relies on from phase to phase. *)
Definition prepared (d : Db) (t : Thread) : Prop :=
  match t with
  | Arrived _ payload => (d_coeff (pl_quantity payload) < prec_limit)%N
  | Looked_up u ctx => has_risk (user_id u) (acct_id (ctx_account ctx)) d ∧ proper ctx
  | Submitting ctx _ => proper ctx
  | Answered => True
  end.

Lemma prepared_later d d' t : extends d d' → prepared d t → prepared d' t.
Proof. intros Hx. destruct t; cbn; try done. intros [Hr Hp]. split; [by eapply has_risk_later|done]. Qed.

Lemma close_settled w : w_new w = empty_db → w_tx w = w_committed w → close w = w.
Proof. destruct w. cbn. by intros -> ->. Qed.

(** A look-up that succeeds leaves nothing open. *)
Lemma look_up_Ok user payload w ctx existing w1 :
  ready w → look_up user payload w = (Ok (ctx, existing), w1) →
  close w1 = w1 ∧ ord_exchange (ctx_order ctx) = acct_exchange (ctx_account ctx) ∧
  has_risk user (acct_id (ctx_account ctx)) (w_committed w1) ∧ pl_quantity payload = ord_quantity (ctx_order ctx) ∧
  find_first (λ e, String.eqb (exe_client_order_id e) (ord_client_order_id (ctx_order ctx))) (db_executions (w_tx w1)) = existing.
Proof.
  intros (Hn & Ht & _) El. unfold look_up in El.
  apply bind_Ok_inv in El as ([] & w2 & Ea & El). apply assert_new_orders_pass in Ea as [-> _].
  apply bind_Ok_inv in El as (c & w2 & Ec & El). apply bind_Ok_inv in El as (x & w3 & [= <- <-] & [= -> <- <-]).
  destruct (context_Ok _ _ _ _ _ Hn Ec) as (Hn' & _ & _ & _ & Hcm & settings & _ & _ & _ & Hord & _ & Hrisk & _).
  split; [by apply close_settled; [|apply Hcm]|]. rewrite Hord. split; [done|]. rewrite <- (Hcm Ht). split; [|done].
  apply find_first_Some in Hrisk as [Hr [Hu%String.eqb_eq Ha%String.eqb_eq]%andb_true_iff]. by exists settings.
Qed.

Lemma advance_arrived u payload w :
  ready w → prepared (w_committed w) (Arrived u payload) →
  let '(w', t) := advance (Arrived u payload) w in
  w_trace w' = w_trace w ∧ (t = Answered ∨ ∃ ctx, t = Looked_up u ctx ∧ prepared (w_committed w') t).
Proof.
  intros (Hn & Ht & Hlog) Hq. unfold advance, run_request, phase. rewrite run_bind.
  destruct (try_before (look_up (user_id u) payload) w) as [Hs Ho].
  destruct (try_except _ _ w) as [[[ctx existing]|x] w1]; cbn [fst snd] in *; subst w1.
  2:{ split; [apply silent_trace, silent_look_up|by left]. }
  destruct existing as [e|]; cbn; (split; [apply silent_trace, silent_look_up|]); [by left|]. right. exists ctx. split; [done|].
  specialize (Ho _ eq_refl). destruct (look_up (user_id u) payload w) as [o w1] eqn:El. cbn in Ho. subst o.
  destruct (look_up_Ok _ _ _ _ _ _ (conj Hn (conj Ht Hlog)) El) as (_ & Hex & Hrisk & Hqty & _).
  cbn. split; [done|]. split; [done|]. by rewrite <- Hqty.
Qed.

Lemma creation user ctx w :
  ready w → has_risk user (acct_id (ctx_account ctx)) (w_committed w) →
  ∃ settings, creation_outcome user ctx settings (gate_view (w_tx w)) (db_executions (w_tx w)) (w_trace w)
    (create_submission user ctx w).1 (create_submission user ctx w).2.
Proof.
  intros (Hn & Ht & Hlog) (r & Hr & Hus & Hacc).
  destruct (find_first (λ s, String.eqb (risk_user s) user && String.eqb (risk_account s) (acct_id (ctx_account ctx)))
    (db_risk (w_tx w))) as [settings|] eqn:Ef.
  - exists settings. exact (create_submission_cases user ctx settings w Hn (eq_sym Ht) (log_inv_unique _ Hlog) Ef).
  - rewrite find_first_None in Ef. rewrite Ht in Ef. specialize (Ef r Hr). by rewrite Hus, Hacc, !String.eqb_refl in Ef.
Qed.

Lemma advance_looked_up u ctx w :
  ready w → well_typed (w_committed w) → prepared (w_committed w) (Looked_up u ctx) →
  let '(w', t) := advance (Looked_up u ctx) w in
  w_trace w' = w_trace w ∧
  (t = Answered ∨
   ∃ sub, t = Submitting ctx sub ∧ (ord_client_order_id (ctx_order ctx) ∉ coids (w_committed w)) ∧
     coids (w_committed w') = coids (w_committed w) ++ [ord_client_order_id (ctx_order ctx)]).
Proof.
  intros Hw Hty [Hrisk _]. pose proof Hw as (Hn & Ht & Hlog).
  destruct (request_lasts _ (w_committed w) w (enduring_phase (Looked_up u ctx)) Hw Hty) as [Hty' _]; [done|].
  revert Hty'. rewrite run_request_world. unfold advance, run_request, phase. rewrite run_bind.
  destruct (creation (user_id u) ctx w Hw Hrisk) as [settings Hc].
  destruct (try_before (create_submission (user_id u) ctx) w) as [Hs Ho].
  destruct (try_except _ _ w) as [[sub|x] w1]; cbn [fst snd] in *; subst w1; intros Hty'.
  - specialize (Ho _ eq_refl). rewrite Ho in Hc.
    destruct Hc as (_ & (ps & [_ Hrows _ _ _ Htr]) & Hcm & _ & (_ & _ & _ & Hcoid & _) & _). cbn. split; [exact Htr|]. right.
    exists sub. split; [done|]. cbn in Hty'. destruct (Hty' TExecutions) as [_ Hf]. cbn in Hf. rewrite Hcm, Hrows, Ht in Hf.
    unfold coids. rewrite Hcm, Hrows, Ht, map_app. cbn. rewrite Hcoid. split; [|done].
    intros (e & He & Hin)%list_elem_of_fmap. pose proof (conflict_free_last TExecutions _ _ _ Hf Hin) as Hno. cbn in Hno.
    rewrite !orb_false_iff in Hno. destruct Hno as [[_ Hno%String.eqb_neq] _]. congruence.
  - split; [|by left]. destruct (create_submission _ ctx w) as [[s|y] w1] eqn:Ecs; cbn in *.
    + by destruct Hc as (_ & (ps & [_ _ _ _ _ Htr]) & _).
    + by destruct Hc as [[_ Htr]|(_ & e & [_ Htr] & _)].
Qed.
(** A phase that ends well leaves nothing open either, and the phases of a submission on its
    own are the endpoint: the division changes nothing. *)
Lemma create_closed user ctx w sub w1 :
  ready w → has_risk user (acct_id (ctx_account ctx)) (w_committed w) → create_submission user ctx w = (Ok sub, w1) →
  close w1 = w1 ∧ sub_replay sub = false.
Proof.
  intros Hw Hrisk Ec. destruct (creation _ _ _ Hw Hrisk) as [settings Hc]. rewrite Ec in Hc.
  destruct Hc as (Hrep & (ps & [Hn _ _ _ _ _]) & Hcm & _). split; [|done]. by apply close_settled.
Qed.

Lemma response_pure ctx e b w : (_testnet_submit_response ctx e b w).2 = w.
Proof. unfold _testnet_submit_response. by destruct (_testnet_order_request_path _). Qed.

Lemma close_close w : close (close w) = close w.
Proof. done. Qed.

(** The look-up, and what follows it, make up [prepare_submission]. *)
Lemma prepare_look_up user payload w :
  (∃ x w1, look_up user payload w = (Raise x, w1) ∧ prepare_submission user payload w = (Raise x, w1)) ∨
  ∃ ctx existing w1, look_up user payload w = (Ok (ctx, existing), w1) ∧
    match existing with
    | None => prepare_submission user payload w = (sub ← create_submission user ctx; mret (ctx, sub)) w1
    | Some e => (∃ x, prepare_submission user payload w = (Raise x, w1)) ∨
        prepare_submission user payload w = (Ok (ctx, Build_TestnetSubmissionRecord e true), w1)
    end.
Proof.
  unfold look_up, prepare_submission. rewrite !run_bind. destruct (assert_new_orders_allowed w) as [[[]|x] w1]; [|left; eauto].
  rewrite !run_bind. destruct (build_testnet_order_api_context user payload w1) as [[ctx|x] w2]; [|left; eauto].
  right. rewrite !run_bind. unfold create_or_get_testnet_submission_execution. rewrite run_bind. cbn.
  eexists _, _, _. split; [reflexivity|].
  destruct (find_first _ (db_executions (w_tx w2))) as [e|]; [|by rewrite run_bind].
  destruct (_ || _); [left; eauto|by right].
Qed.

(** A submission with nobody in between. *)
Definition on_its_own (u : User) (payload : TestnetOrderSubmitRequest) (w : World) : World :=
  (Nat.iter 3 (λ c, advance c.2 c.1) (w, Arrived u payload)).1.

Lemma advance_world t w : advance t w = (close (phase t w).2, after (phase t w).1).
Proof. unfold advance, run_request. by destruct (phase t w) as [[]]. Qed.

Lemma answered_stays n w : Nat.iter n (λ c, advance c.2 c.1) (close w, Answered) = (close w, Answered).
Proof. induction n as [|n IH]; [done|]. rewrite Nat.iter_succ, IH. done. Qed.

Lemma try_raises {A} (m : M A) x w w1 : m w = (Raise x, w1) → ∃ y, try_except m (submit_errors None) w = (Raise y, w1).
Proof.
  unfold try_except. intros ->. destruct (submit_errors None x) as [h|] eqn:Eh; [|by exists x].
  by eapply submit_errors_none.
Qed.

Lemma try_answers {A} (m : M A) h a w w1 : m w = (Ok a, w1) → try_except m h w = (Ok a, w1).
Proof. unfold try_except. by intros ->. Qed.

Lemma submission_on_its_own u payload w :
  ready w → on_its_own u payload w = (run_request (submit_testnet_order u payload) w).2.
Proof.
  intros Hw. unfold on_its_own. rewrite run_request_world. unfold submit_testnet_order. rewrite run_bind, (Nat.iter_add 2 1).
  change (Nat.iter 1 (λ c, advance c.2 c.1) (w, Arrived u payload)) with (advance (Arrived u payload) w).
  rewrite advance_world. cbn [phase]. rewrite run_bind.
  destruct (prepare_look_up (user_id u) payload w) as [(x & w1 & El & Ep)|(ctx & existing & w1 & El & Ep)].
  { destruct (try_raises _ _ _ _ El) as [y ->]. destruct (try_raises _ _ _ _ Ep) as [z ->].
    cbn [fst snd after]. exact (f_equal fst (answered_stays 2 w1)). }
  rewrite (try_answers _ _ _ _ _ El). destruct (look_up_Ok _ _ _ _ _ _ Hw El) as (Hcl & _ & Hrisk & _).
  destruct existing as [e|].
  - cbn [fst snd after mret M_ret]. etrans; [exact (f_equal fst (answered_stays 2 w1))|].
    destruct Ep as [[x Ep]| Ep]; [by destruct (try_raises _ _ _ _ Ep) as [z ->]|].
    rewrite (try_answers _ _ _ _ _ Ep). cbn [fst snd sub_replay]. unfold try_except, _testnet_submit_response.
    by destruct (_testnet_order_request_path _).
  - cbn [fst snd after mret M_ret]. rewrite Hcl, (Nat.iter_add 1 1).
    change (Nat.iter 1 (λ c, advance c.2 c.1) (w1, Looked_up u ctx)) with (advance (Looked_up u ctx) w1).
    rewrite advance_world. cbn [phase]. rewrite run_bind.
    assert (ready w1) as Hw1.
    { rewrite <- Hcl. pose proof (phase_ready (Arrived u payload) w Hw) as Hr. rewrite advance_world in Hr. cbn [fst phase] in Hr.
      by rewrite run_bind, (try_answers _ _ _ _ _ El) in Hr. }
    destruct (create_submission (user_id u) ctx w1) as [[sub|x] w2] eqn:Ec.
    2:{ destruct (try_raises _ _ _ _ Ec) as [y ->]. rewrite run_bind, Ec in Ep. destruct (try_raises _ _ _ _ Ep) as [z ->]. done. }
    rewrite run_bind, Ec in Ep. rewrite (try_answers _ _ _ _ _ Ec), (try_answers _ _ _ _ _ Ep).
    destruct (create_closed _ _ _ _ _ Hw1 Hrisk Ec) as [Hcl2 Hrep]. cbn [fst snd after mret M_ret]. rewrite Hcl2, Hrep.
    change (Nat.iter 1 (λ c, advance c.2 c.1) (w2, Submitting ctx sub)) with (advance (Submitting ctx sub) w2).
    rewrite advance_world. cbn [phase fst]. rewrite !run_bind.
    destruct (try_except _ _ w2) as [[e|x] w3]; [|done]. by rewrite response_pure.
Qed.
End records.

(** ** Runs with overlaps *)

(** The submissions whose row is committed and whose request is still to go out. *)
Definition pending (t : Thread) : list string :=
  match t with Submitting ctx _ => [ord_client_order_id (ctx_order ctx)] | _ => [] end.

Definition pending_all (ts : list Thread) : list string := concat (map pending ts).

Lemma pending_at ts i t :
  ts !! i = Some t → ∃ p q, pending_all ts = p ++ pending t ++ q ∧ ∀ t', pending_all (<[i := t']> ts) = p ++ pending t' ++ q.
Proof.
  unfold pending_all. intros Ht. exists (concat (map pending (take i ts))), (concat (map pending (drop (S i) ts))). split.
  - rewrite <- (take_drop_middle _ _ _ Ht) at 1. by rewrite map_app, concat_app.
  - intros t'. rewrite insert_take_drop by (by eapply lookup_lt_Some). by rewrite map_app, concat_app.
Qed.

(** An order request names a client order id, and the row of that id is committed when the
    request goes out. *)
Definition names (ev : Event) (coid : string) : Prop :=
  ∃ e d req, ev = EvHttp d req ∧ request_client_order_id e req = Some coid ∧ coid ∈ coids d.

Section runs.
Context `{Database} `{!DatabaseLaws} `{Settings} `{PyFloat} `{Fernet} `{Secrets} `{Pyotp} `{Redis} `{GexbotSettings} `{StorageSettings} `{X : Exchange}
  `{W : WebSocket}.
Context (rt : AlertRuntime) `{!AlertRuntimeLaws rt} (allowed : Call → bool).
Hypothesis exact : ∀ p, allowed (SubmitTestnetOrder p) = true → (d_coeff (pl_quantity p) < prec_limit)%N.

Lemma idle_redis evs : Forall is_redis evs → order_requests evs = [].
Proof. intros Hevs. apply no_order_requests. eapply Forall_impl; [exact Hevs|]. by intros ev (c & k & ->). Qed.

(** What the last phase sends: nothing, or the one request of its order. *)
Lemma advance_submitting ctx sub w :
  proper ctx → ord_client_order_id (ctx_order ctx) ∈ coids (w_committed w) →
  let '(w', t) := advance (Submitting ctx sub) w in
  t = Answered ∧ ∃ evs, w_trace w' = w_trace w ++ evs ∧
    (order_requests evs = [] ∨ ∃ ev, order_requests evs = [ev] ∧ names ev (ord_client_order_id (ctx_order ctx))).
Proof.
  intros [Hex Hq] Hin. unfold advance, run_request, phase. rewrite run_bind.
  destruct (send_events ctx (exe_id (sub_execution sub)) sub w) as (evs & Htr & Hevs).
  destruct (try_except _ _ w) as [[e|x] w1]; cbn in *; (split; [done|]); exists evs; (split; [done|]).
  all: destruct Hevs as [Hevs|(evs1 & req & Hevs & -> & client & Hc & Hp)]; [left; by apply idle_redis|].
  all: rewrite List.filter_app, (idle_redis _ Hevs); cbn [app List.filter]; destruct (is_order_request _); [right|by left].
  all: eexists; split; [done|]; exists (ord_exchange (ctx_order ctx)), (w_committed w), req; split; [done|]; split; [|done].
  all: rewrite <- Hex in Hc; by destruct (prepared_order _ _ _ _ _ _ Hc Hq Hp) as (_ & _ & _ & Hid & _).
Qed.

(** The invariant: nothing open, the tables as they must be, and of the ids that were sent
    or are about to be each only once, all of them new and with their rows. *)
Definition orderly (w0 : World) (c : World * list Thread) : Prop :=
  let '(w, ts) := c in
  ready w ∧ well_typed (w_committed w) ∧ extends (w_committed w0) (w_committed w) ∧
  Forall (prepared (w_committed w)) ts ∧
  ∃ evs sent, w_trace w = w_trace w0 ++ evs ∧ Forall2 names (order_requests evs) sent ∧
    NoDup (sent ++ pending_all ts) ∧
    ∀ coid, coid ∈ sent ++ pending_all ts → coid ∈ coids (w_committed w) ∧ coid ∉ coids (w_committed w0).

Lemma coids_later d d' coid : extends d d' → coid ∈ coids d → coid ∈ coids d'.
Proof.
  intros Hx (e & -> & He)%list_elem_of_fmap. destruct (extends_row TExecutions d d' e eq_refl Hx He) as (e' & He' & Hl).
  apply list_elem_of_fmap. exists e'. cbn in Hl. split; [congruence|done].
Qed.

(** A step that leaves the submissions where they are. *)
Lemma orderly_aside w0 w w' ts more :
  orderly w0 (w, ts) → ready w' → well_typed (w_committed w') → extends (w_committed w) (w_committed w') →
  w_trace w' = w_trace w ++ more → order_requests more = [] → orderly w0 (w', ts).
Proof.
  intros (_ & _ & Hx & Hps & evs & sent & Htr & Hn & Hnd & Hin) Hr Hty Hx' Hm Hno.
  split; [done|]. split; [done|]. split; [by etrans|].
  split; [eapply Forall_impl; [exact Hps|]; intros t; by apply prepared_later|].
  exists (evs ++ more), sent. rewrite Hm, Htr, app_assoc, List.filter_app, Hno, app_nil_r. do 3 (split; [done|]).
  intros coid Hc. destruct (Hin coid Hc) as [Hc1 Hc2]. split; [by eapply coids_later|done].
Qed.

Lemma shuffle {A} (sent p x q : list A) : sent ++ p ++ x ++ q ≡ₚ x ++ sent ++ p ++ q.
Proof. rewrite (Permutation_app_comm p (x ++ q)), <- app_assoc, (app_assoc sent x), (Permutation_app_comm sent x), <- app_assoc.
  by rewrite (Permutation_app_comm q p). Qed.

(** A phase moves one submission: what it sends is the id that was pending, what becomes
    pending is new. *)
Lemma orderly_phase_of w0 w ts i t w' t' more now_sent :
  orderly w0 (w, ts) → ts !! i = Some t → ready w' → well_typed (w_committed w') → extends (w_committed w) (w_committed w') →
  prepared (w_committed w') t' → w_trace w' = w_trace w ++ more → Forall2 names (order_requests more) now_sent →
  (pending t' = [] ∧ (now_sent = [] ∨ now_sent = pending t)) ∨
    now_sent = [] ∧ (∃ c, pending t' = [c] ∧ (c ∈ coids (w_committed w')) ∧ c ∉ coids (w_committed w)) →
  orderly w0 (w', <[i := t']> ts).
Proof.
  intros (_ & _ & Hx0 & Hps & evs & sent & Ht & Hn & Hnd & Hin) Hi Hr Hty Hx Hp Htr Hnow Hc.
  destruct (pending_at ts i t Hi) as (p & q & E & Hset). rewrite E in Hnd, Hin.
  assert (∀ c, c ∈ pending t ++ sent ++ p ++ q → c ∈ coids (w_committed w') ∧ c ∉ coids (w_committed w0)) as Hin'.
  { intros c. rewrite <- shuffle. intros Hc'. destruct (Hin c Hc'). split; [by eapply coids_later|done]. }
  rewrite shuffle in Hnd. pose proof Hnd as (Hnt & Hdis & Hb)%NoDup_app.
  do 2 (split; [done|]). split; [by etrans|].
  split; [apply Forall_insert; [|done]; eapply Forall_impl; [exact Hps|]; intros x; by apply prepared_later|].
  exists (evs ++ more), (sent ++ now_sent). rewrite Htr, Ht, app_assoc, List.filter_app, Hset. split; [done|].
  split; [by apply Forall2_app|].
  assert ((sent ++ now_sent) ++ p ++ pending t' ++ q ≡ₚ (now_sent ++ pending t') ++ sent ++ p ++ q) as ->.
  { rewrite <- (app_assoc sent), (app_assoc now_sent), (Permutation_app_comm now_sent p), <- (app_assoc p), (app_assoc now_sent).
    apply shuffle. }
  destruct Hc as [[Hp' [-> | ->]]|[-> (c & Hp' & Hc & Hnew)]]; rewrite Hp'; cbn [app]; rewrite ?app_nil_r.
  - split; [done|]. intros c Hc. apply Hin'. set_solver.
  - split; [done|]. intros c Hc. apply Hin'. set_solver.
  - assert (c ∉ coids (w_committed w0)) as Hnew0 by (intros Hold; by apply Hnew, (coids_later (w_committed w0))).
    split.
    + apply NoDup_cons. split; [|done]. intros Hold. apply Hnew, (Hin c). set_solver.
    + intros c' Hc'. destruct (decide (c' = c)) as [-> |]; [done|]. apply Hin'. set_solver.
Qed.

Lemma orderly_phase w0 w ts i t :
  orderly w0 (w, ts) → ts !! i = Some t → orderly w0 ((advance t w).1, <[i := (advance t w).2]> ts).
Proof.
  intros Ho Hi. pose proof Ho as (Hr & Hty & _ & Hps & Hsent). pose proof (proj1 (Forall_lookup _ _) Hps i t Hi) as Hp.
  pose proof (phase_ready t w Hr) as Hr'.
  destruct (request_lasts _ (w_committed w) w (enduring_phase t) Hr Hty) as [Hty' Hx']; [done|].
  change (run_request (phase t) w).2 with (advance t w).1 in Hty', Hx'.
  destruct t as [u p|u ctx|ctx sub|].
  - pose proof (advance_arrived u p w Hr Hp) as Ha. destruct (advance _ w) as [w' t']. destruct Ha as [Htr Ha]. cbn [fst snd] in *.
    apply (orderly_phase_of w0 w ts i (Arrived u p) w' t' [] []); try done; [|by rewrite app_nil_r|].
    + by destruct Ha as [-> |(ctx & -> & Ha)].
    + left. split; [|by left]. by destruct Ha as [-> |(ctx & -> & _)].
  - pose proof (advance_looked_up u ctx w Hr Hty Hp) as Ha. destruct (advance _ w) as [w' t']. destruct Ha as [Htr Ha]. cbn [fst snd] in *.
    apply (orderly_phase_of w0 w ts i (Looked_up u ctx) w' t' [] []); try done; [|by rewrite app_nil_r|].
    + destruct Ha as [-> |(sub & -> & _)]; [done|]. exact (proj2 Hp).
    + destruct Ha as [-> |(sub & -> & Hnew & Hc)]; [left; split; [done|by left]|]. right. split; [done|].
      eexists. split; [done|]. split; [|done]. rewrite Hc. set_solver.
  - assert (ord_client_order_id (ctx_order ctx) ∈ coids (w_committed w)) as Hin.
    { destruct Hsent as (evs & sent & _ & _ & _ & Hin). apply Hin. destruct (pending_at ts i _ Hi) as (p & q & -> & _). cbn. set_solver. }
    pose proof (advance_submitting ctx sub w Hp Hin) as Ha. destruct (advance _ w) as [w' t']. cbn [fst snd] in *.
    destruct Ha as (-> & evs & Htr & [Hno|(ev & Hev & Hname)]).
    + apply (orderly_phase_of w0 w ts i (Submitting ctx sub) w' Answered evs []); try done; [by rewrite Hno|]. left. split; [done|by left].
    + apply (orderly_phase_of w0 w ts i (Submitting ctx sub) w' Answered evs [ord_client_order_id (ctx_order ctx)]); try done.
      * rewrite Hev. by constructor.
      * left. split; [done|by right].
  - apply (orderly_phase_of w0 w ts i Answered (advance Answered w).1 Answered [] []); try done; [by rewrite app_nil_r|]. left. split; [done|by left].
Qed.

Lemma orderly_step w0 c c' : orderly w0 c → overlap rt allowed c c' → orderly w0 c'.
Proof.
  intros Ho Hs. destruct Hs as [w ts u p Hal|w ts i t Hi|w ts rq Hsub Hal|w ts t Ht].
  - destruct Ho as (? & ? & ? & Hps & evs & sent & Htr & Hn & Hnd & Hin). do 3 (split; [done|]).
    split; [apply Forall_app_2; [done|]; constructor; [by apply exact|done]|].
    exists evs, sent. unfold pending_all in *. rewrite map_app, concat_app. cbn. by rewrite app_nil_r.
  - by apply orderly_phase.
  - pose proof Ho as (Hr & Hty & _). assert (step rt allowed w (run_request (serve rt rq) w).2) as Hst by by apply step_request.
    assert (star (step rt allowed) w (run_request (serve rt rq) w).2) as Hstar by (by eapply star_snoc; [apply star_refl|]).
    pose proof Hr as (_ & Hopen & _). destruct (run_standing rt allowed _ _ Hstar Hopen Hty) as (_ & Hty' & Hx').
    destruct (idle_serve rt rq w Hr Hsub) as (more & Hm & Hno).
    apply (orderly_aside w0 w _ ts more); try done; [by eapply step_ready|]. rewrite run_request_world. exact Hm.
  - apply (orderly_aside w0 w _ ts []); try done; try apply Ho. by rewrite app_nil_r.
Qed.

End runs.

(** ** The stop and the submissions under way *)

(** A submission that has passed the check of the stop. *)
Definition beyond (t : Thread) : bool := match t with Looked_up _ _ | Submitting _ _ => true | _ => false end.
Definition under_way (ts : list Thread) : nat := length (List.filter beyond ts).

Lemma under_way_insert ts i t t' :
  ts !! i = Some t →
  (under_way (<[i := t']> ts) + (if beyond t then 1 else 0) = under_way ts + (if beyond t' then 1 else 0))%nat.
Proof.
  intros Ht. unfold under_way. rewrite <- (take_drop_middle _ _ _ Ht) at 2.
  rewrite insert_take_drop by (by eapply lookup_lt_Some). rewrite !List.filter_app. cbn.
  destruct (beyond t), (beyond t'); rewrite !length_app; cbn; lia.
Qed.

Section late.
Context `{Database} `{!DatabaseLaws} `{Settings} `{PyFloat} `{Fernet} `{Secrets} `{Pyotp} `{Redis} `{GexbotSettings} `{StorageSettings} `{X : Exchange}
  `{W : WebSocket}.
Context (rt : AlertRuntime) `{!AlertRuntimeLaws rt}.
Abbreviation passive := (bystander db_controls [] (λ _, True)).

#[local] Hint Resolve passive_emit : bystander.

Lemma passive_transport req : passive (transport_request req).
Proof. unfold transport_request. bystander_tac. Qed.
#[local] Hint Resolve passive_transport : bystander.

Lemma passive_acquire e account path : passive (acquire_testnet_order None e account path).
Proof.
  intros P n tr w (Ht & Hn & Hc & Hx & evs & Htr & _). destruct (redis_only_acquire e account path w) as (more & o & -> & _).
  do 4 (split; [done|]). exists (evs ++ more). cbn. rewrite Htr, app_assoc. split; [done|by apply Forall_true].
Qed.
#[local] Hint Resolve passive_acquire : bystander.

Lemma passive_submit_errors {A} sub x (k : M A) : submit_errors sub x = Some k → passive k.
Proof.
  unfold submit_errors, _record_testnet_submission_failure, record_testnet_submission_failure, transition_order_execution,
    _add_transition, load_execution, _next_sequence_number.
  destruct x; cbn [is_ValueError is_RuntimeError]; try done; intros [= <-]; bystander_tac.
Qed.

Lemma passive_phase t : passive (phase t).
Proof.
  unfold phase. destruct t as [u p|u ctx|ctx sub|]; [| | |apply bystander_ret].
  all: apply bystander_bind; [apply bystander_try; [|intros x k; apply passive_submit_errors]|].
  all: try (intros; bystander_tac).
  all: unfold look_up, create_submission, send_submission, assert_new_orders_allowed, build_testnet_order_api_context.
  all: unfold get_owned_account, get_or_create_risk_settings, get_exchange_credentials, get_api_key_secret_metadata, decrypt_secret,
    require_valid_testnet_order_window_authorization, blocked_authorization, decide_submission, execute_testnet_order,
    record_initial_order_state, record_testnet_submission_accepted, transition_order_execution, _add_transition, load_execution,
    _next_sequence_number.
  all: bystander_tac. unfold get_or_create_risk_settings. bystander_tac.
Qed.

(** Two ways to see an order in an event. *)
Lemma harmless_or_request ev : (∀ r, ev ≠ EvMockOrder r) → harmless ev ∨ is_order_request ev = true.
Proof.
  intros Hm. destruct (is_order_request ev) eqn:E; [by right|left]. intros Ho. destruct ev as [d req|r| | |]; cbn in Ho; try done.
  - destruct Ho as [Hg [e He]]. unfold is_order_request in E. apply andb_false_iff in E as [E|E].
    + by apply negb_false_iff, String.eqb_eq in E.
    + apply not_true_iff_false in E. apply E, existsb_exists. exists e. split; [destruct e; cbn; tauto|by apply bool_decide_eq_true].
  - by apply (Hm r).
Qed.

(** The stop is on, the change of the number of submissions under way makes up for what went
    out, and nothing else did. *)
Definition after_stop (w0 : World) (ts0 : list Thread) (c : World * list Thread) : Prop :=
  let '(w, ts) := c in
  w_new w = empty_db ∧ w_tx w = w_committed w ∧ stop_active (w_committed w) ∧
  ∃ evs, w_trace w = w_trace w0 ++ evs ∧ Forall (λ ev, harmless ev ∨ is_order_request ev = true) evs ∧
    (length (order_requests evs) + under_way ts ≤ under_way ts0)%nat.

Lemma sent_at_most_once ctx now d evs :
  submission_events ctx now d evs →
  Forall (λ ev, harmless ev ∨ is_order_request ev = true) evs ∧ (length (order_requests evs) ≤ 1)%nat.
Proof.
  assert (∀ es, Forall is_redis es → Forall (λ ev, harmless ev ∨ is_order_request ev = true) es) as Hr.
  { intros es Hes. eapply Forall_impl; [exact Hes|]. intros ev (c & k & ->). left. by intros Ho. }
  intros [Hevs|(evs1 & req & Hevs & -> & _)]; [split; [by apply Hr|rewrite idle_redis by done; cbn; lia]|]. split.
  - apply Forall_app_2; [by apply Hr|]. constructor; [|done]. by apply harmless_or_request.
  - rewrite List.filter_app, (idle_redis _ Hevs). cbn [app List.filter]. destruct (is_order_request _); cbn; lia.
Qed.

(** One phase under the stop. *)
Lemma phase_stopped t w :
  w_new w = empty_db → w_tx w = w_committed w → stop_active (w_committed w) →
  stop_active (w_committed (advance t w).1) ∧
  ∃ evs, w_trace (advance t w).1 = w_trace w ++ evs ∧ Forall (λ ev, harmless ev ∨ is_order_request ev = true) evs ∧
    (length (order_requests evs) + (if beyond (advance t w).2 then 1 else 0) ≤ if beyond t then 1 else 0)%nat.
Proof.
  intros Hn Ht Hs. rewrite advance_world. cbn [fst snd]. split.
  - assert (still db_controls [] (λ _, True) stop_on 0 (w_trace w) w) as Hw.
    { split; [by rewrite Ht|]. split; [by rewrite Hn|]. do 2 (split; [done || lia|]). exists []. by rewrite app_nil_r. }
    by destruct (passive_phase t _ _ _ w Hw) as (_ & _ & Hc & _).
  - assert (∀ v, w_trace v = w_trace w →
      ∃ evs, w_trace v = w_trace w ++ evs ∧ Forall (λ ev, harmless ev ∨ is_order_request ev = true) evs ∧ length (order_requests evs) = 0%nat) as Hno
      by (intros v Hv; exists []; by rewrite app_nil_r).
    unfold phase. destruct t as [u p|u ctx|ctx sub|]; [rewrite run_bind..|].
    + unfold try_except, look_up. rewrite run_bind, assert_new_orders_blocked by (by rewrite Ht).
      destruct (Hno w eq_refl) as (evs & Hev & Hf & Hl). exists evs. cbn. by rewrite Hl.
    + destruct (try_before (create_submission (user_id u) ctx) w) as [Hst _].
      pose proof (silent_trace _ w (silent_create (user_id u) ctx)) as Htr. rewrite <- Hst in Htr.
      destruct (try_except _ _ w) as [[sub|x] w1]; cbn in *; destruct (Hno _ Htr) as (evs & Hev & Hf & Hl); exists evs; rewrite Hl;
        (do 2 (split; [done|]); cbn; lia).
    + destruct (send_events ctx (exe_id (sub_execution sub)) sub w) as (evs & Htr & Hevs).
      destruct (sent_at_most_once _ _ _ _ Hevs) as [Hf Hl].
      destruct (try_except _ _ w) as [[e|x] w1]; cbn in *; exists evs; (do 2 (split; [done|])); cbn; lia.
    + destruct (Hno w eq_refl) as (evs & Hev & Hf & Hl). exists evs. cbn. by rewrite Hl.
Qed.

Lemma after_stop_step w0 ts0 c c' : after_stop w0 ts0 c → overlap rt keeps_stop c c' → after_stop w0 ts0 c'.
Proof.
  intros Ho Hs. destruct Hs as [w ts u p _|w ts i t Hi|w ts rq _ Hk|w ts t _]; [| | |exact Ho];
    destruct Ho as (Hn & Ht & Hst & evs & Htr & Hevs & Hl).
  - do 3 (split; [done|]). exists evs. do 2 (split; [done|]). unfold under_way in *. rewrite List.filter_app. cbn. by rewrite app_nil_r.
  - destruct (phase_stopped t w Hn Ht Hst) as (Hst' & more & Htr' & Hmore & Hl').
    split; [by rewrite advance_world|]. split; [by rewrite advance_world|]. split; [done|]. exists (evs ++ more).
    rewrite Htr', Htr, app_assoc. split; [done|]. split; [by apply Forall_app_2|].
    rewrite List.filter_app, length_app. pose proof (under_way_insert ts i t (advance t w).2 Hi). lia.
  - destruct (stopped_serve rt rq w Hk Hn Ht Hst) as (_ & _ & Hc & _ & more & Htr' & Hmore).
    rewrite run_request_world. do 2 (split; [done|]). split; [exact Hc|]. exists (evs ++ more). cbn.
    rewrite Htr', Htr, app_assoc. split; [done|]. split.
    + apply Forall_app_2; [done|]. eapply Forall_impl; [exact Hmore|]. by left.
    + rewrite List.filter_app, (no_order_requests more), app_nil_r; [done|].
      eapply Forall_impl; [exact Hmore|]. apply harmless_idle.
Qed.

(** C4. The stop and what is under way.  Once the stop is committed, and however
    submissions overlap with each other and with all other requests but one to lift it: the
    stop stays, no order goes out but from submissions that had passed the check before,
    at most one from each; with none under way, nothing goes out. *)
Theorem stop_with_overlaps w0 ts0 w ts :
  star (overlap rt keeps_stop) (w0, ts0) (w, ts) → w_new w0 = empty_db → w_tx w0 = w_committed w0 →
  stop_active (w_committed w0) →
  stop_active (w_committed w) ∧
  ∃ evs, w_trace w = w_trace w0 ++ evs ∧ Forall (λ ev, harmless ev ∨ is_order_request ev = true) evs ∧
    (length (order_requests evs) ≤ under_way ts0)%nat.
Proof.
  intros Hs Hn Ht Hst. assert (after_stop w0 ts0 (w, ts)) as (_ & _ & Hst' & evs & Htr & Hevs & Hl).
  { apply (star_invariant (overlap rt keeps_stop) (after_stop w0 ts0) (after_stop_step w0 ts0) _ _ Hs).
    do 3 (split; [done|]). exists []. rewrite app_nil_r. split; [done|]. split; [constructor|]. cbn. lia. }
  split; [done|]. exists evs. do 2 (split; [done|]). lia.
Qed.
End late.

(** ** Two submissions of one order id, and a stop that comes too late *)

#[local] Existing Instance demo_redis.
#[local] Existing Instance accepting_exchange.
#[local] Existing Instance refusing_stream.
#[local] Existing Instance gexbot_demo.
#[local] Existing Instance storage_demo_settings.

(** What a schedule does. *)
Inductive Move :=
| Arrives (payload : TestnetOrderSubmitRequest)
| Advances (i : nat)
| Serves (rq : Request).

Definition move (c : World * list Thread) (m : Move) : World * list Thread :=
  let '(w, ts) := c in
  match m with
  | Arrives payload => (w, ts ++ [Arrived demo_user payload])
  | Advances i =>
      match ts !! i with Some t => ((advance t w).1, <[i := (advance t w).2]> ts) | None => c end
  | Serves rq => ((run_request (serve OperationalAlertRuntime rq) w).2, ts)
  end.

Definition schedule : list Move → World * list Thread → World * list Thread := fun ms c => foldl move c ms.

Definition possible (allowed : Call → bool) (m : Move) : bool :=
  match m with
  | Arrives p => allowed (SubmitTestnetOrder p)
  | Advances _ => true
  | Serves rq => negb (is_submission (rq_call rq)) && allowed (rq_call rq)
  end.

Lemma move_step allowed c m :
  possible allowed m = true → star (overlap OperationalAlertRuntime allowed) c (move c m).
Proof.
  destruct c as [w ts], m as [p|i|rq]; cbn; intros Hp.
  - eapply star_snoc; [apply star_refl|]. by apply overlap_arrive.
  - destruct (ts !! i) as [t|] eqn:Ei; [|apply star_refl]. eapply star_snoc; [apply star_refl|]. by apply overlap_phase.
  - apply andb_true_iff in Hp as [Hs%negb_true_iff Ha]. eapply star_snoc; [apply star_refl|]. by apply overlap_request.
Qed.

Lemma schedule_steps allowed ms c :
  forallb (possible allowed) ms = true → star (overlap OperationalAlertRuntime allowed) c (schedule ms c).
Proof.
  unfold schedule. revert c. induction ms as [|m ms IH]; intros c; [intros _; apply star_refl|]. cbn.
  intros [Hm Hms]%andb_true_iff. eapply star_trans; [by apply move_step|by apply IH].
Qed.

(** Two submissions of the same order, look-up beside look-up, and a third while the first is
    being sent. *)
Definition racing : list Move :=
  [ Arrives demo_payload; Arrives demo_payload; Advances 0; Advances 1; Advances 0; Advances 1; Arrives demo_payload;
    Advances 2; Advances 0 ].

(** The stop is switched on between the commit of the row and the request. *)
Definition overtaken : list Move :=
  [ Arrives demo_payload; Advances 0; Advances 0; Serves (demo_request (ActivateEmergencyStop "flash crash")); Advances 0 ].


(** The stop is on, the order of a submission beyond the check still goes out; the next
    submission is refused. *)
Definition late_moves : list Move := [ Advances 0; Arrives demo_payload; Advances 1; Advances 1; Advances 1 ].
Definition stopped_late : World * list Thread := schedule (take 4 overtaken) (open_world, []).

Lemma stop_with_overlaps_witness :
  under_way stopped_late.2 = 1%nat ∧ length (order_requests (w_trace (schedule late_moves stopped_late).1)) = 1%nat ∧
  stop_active (w_committed (schedule late_moves stopped_late).1).
Proof.
  destruct (schedule late_moves stopped_late) as [w ts] eqn:E. destruct stopped_late as [w0 ts0] eqn:E0.
  assert (star (overlap OperationalAlertRuntime keeps_stop) (w0, ts0) (w, ts)) as Hs
    by (rewrite <- E; apply schedule_steps; vm_compute; reflexivity).
  assert (w_new w0 = empty_db ∧ w_tx w0 = w_committed w0) as [Hn Ht]
    by (change w0 with (w0, ts0).1; rewrite <- E0; split; vm_compute; reflexivity).
  assert (stop_active (w_committed w0)) as Hst
    by (change w0 with (w0, ts0).1; rewrite <- E0; eexists; split; vm_compute; reflexivity).
  destruct (stop_with_overlaps OperationalAlertRuntime w0 ts0 w ts Hs Hn Ht Hst) as [Hst' _].
  split; [change ts0 with (w0, ts0).2; rewrite <- E0; vm_compute; reflexivity|]. split; [|exact Hst'].
  change w with (w, ts).1. rewrite <- E, <- E0. vm_compute. reflexivity.
Defined.

(** What the i-th submission raises in its next phase. *)
Definition raises (c : World * list Thread) (i : nat) : option Exn :=
  match c.2 !! i with
  | Some t => match (run_request (phase t) c.1).1 with Raise x => Some x | Ok _ => None end
  | None => None
  end.

(** The stop is on, in the database, when the order goes out. *)
Example stop_overtaken :
  map (λ ev, match ev with EvHttp d _ => map ctl_emergency_stop (db_controls d) | _ => [] end)
    (order_requests (w_trace (schedule overtaken (open_world, [])).1)) = [[true]].
Proof. vm_compute. reflexivity. Qed.

(** The second of two submissions that both looked before either wrote: the constraint
    stops it, as an error no clause of the endpoint turns into an answer. *)
Example second_submitter_fails :
  raises (schedule (take 5 racing) (open_world, [])) 1 = Some IntegrityError.
Proof. vm_compute. reflexivity. Qed.

(** One that comes later finds the row. *)
Example third_submitter_replays :
  (schedule (take 8 racing) (open_world, [])).2 !! 2%nat = Some Answered.
Proof. vm_compute. reflexivity. Qed.
