(* ===== verification/Responses.v ===== *)
(** What the service answers: the response schemas of [schemas], with the row or result each
    is made from, and the answers of the endpoints of [System].

    A response holds exactly the fields its schema declares ([response_model]); the rest of
    a row stays behind.  An answer is the response object; how pydantic writes a moment is a
    parameter.  The answers of preferences (whose [created_at] and [updated_at] are not
    columns here), of changed accounts and risk settings (read again after the change) and
    of market data (what a provider said) are left out. *)
From S2P Require Import Prelude PyStr PyDecimal PyValue Json Models Session PgDatabase Tables Demo Logic OrderStateMachine Alerts Accounts Security Mfa Users Permissions Notifications TestnetGate WindowApproval RateLimit HttpClient TestnetRequest RiskEngine PositionEngine EmergencyStop SignalEngine OrderEngine TestnetPersistence TestnetSubmit Lifecycle AccountSync OrderReconciliation UserStream Adapters ReadOnly Phase4 MarketData Storage Endpoints Steady System.

(** ** Fields *)

Definition optional {A} (f : A → pyval) (o : option A) : pyval := match o with Some a => f a | None => VNone end.
Definition texts (l : list string) : pyval := VList (map VStr l).

Definition role_value (r : UserRole) : string :=
  match r with
  | SUPER_ADMIN => "super_admin" | ADMIN => "admin" | NORMAL_USER => "normal_user" | TEAM_ADMIN => "team_admin"
  end.
Definition verdict (passed : bool) : pyval := VStr (if passed then "PASS" else "BLOCKED").

(** ** Users, permissions, accounts *)

Definition UserResponse (u : User) : pyval :=
  VDict [("id", VStr (user_id u)); ("email", VStr (user_email u)); ("username", VStr (user_username u));
         ("role", VStr (role_value (user_role u))); ("is_active", VBool (user_is_active u))].
Definition TokenResponse (token : string) : pyval :=
  VDict [("access_token", VStr token); ("token_type", VStr "bearer")].
Definition ReauthenticationResponse (token : string) : pyval :=
  VDict [("reauthentication_token", VStr token); ("expires_in_seconds", VInt 300)].
Definition PasswordChangeResponse : pyval := VDict [("changed", VBool true)].
Definition MfaStatusResponse (s : bool * bool) : pyval :=
  VDict [("enabled", VBool s.1); ("enrollment_pending", VBool s.2)].
Definition MfaConfirmResponse (recovery_codes : list string) : pyval :=
  VDict [("enabled", VBool true); ("recovery_codes", texts recovery_codes)].
Definition MfaDisableResponse : pyval := VDict [("disabled", VBool true)].

Definition PermissionResponse (p : UserPermission) : pyval :=
  VDict [("id", VStr (perm_id p)); ("owner_user_id", VStr (perm_owner p)); ("grantee_user_id", VStr (perm_grantee p));
         ("view_only", VBool (perm_view_only p)); ("copy_follow", VBool (perm_copy_follow p));
         ("pause_follow", VBool (perm_pause_follow p)); ("edit_copy_rule", VBool (perm_edit_copy_rule p));
         ("trade_manual", VBool (perm_trade_manual p))].

Definition ExchangeAccountResponse (a : ExchangeAccount) : pyval :=
  VDict [("id", VStr (acct_id a)); ("user_id", VStr (acct_user a)); ("exchange_name", VStr (exchange_value (acct_exchange a)));
         ("account_label", VStr (acct_label a)); ("account_mode", VStr (mode_value (acct_mode a)));
         ("trading_enabled", VBool (acct_trading_enabled a)); ("is_active", VBool (acct_is_active a))].

Definition ApiKeySecretMetadata_response (m : ApiKeySecretMetadata) : pyval :=
  VDict [("exchange_account_id", VStr (akm_account m)); ("configured", VBool (akm_configured m));
         ("has_passphrase", VBool (akm_has_passphrase m));
         ("warning", VStr "Disable withdrawal permission on this exchange API key.")].

(** ** Signals, orders, positions, risk *)

Definition TradingSignalResponse (s : TradingSignal) : pyval :=
  VDict [("id", VStr (sig_id s)); ("user_id", VStr (sig_user s)); ("source", VStr (source_value (sig_source s)));
         ("symbol", VStr (sig_symbol s)); ("side", VStr (side_value (sig_side s)));
         ("order_type", VStr (order_type_value (sig_order_type s))); ("price", optional VDecimal (sig_price s));
         ("quantity", optional VDecimal (sig_quantity s)); ("target_position_quantity", optional VDecimal (sig_target s))].

Definition OrderExecutionResponse (e : OrderExecution) : pyval :=
  VDict [("execution_id", VStr (exe_execution_id e)); ("signal_id", VStr (exe_signal e));
         ("exchange_account_id", VStr (exe_account e)); ("client_order_id", VStr (exe_client_order_id e));
         ("symbol", VStr (exe_symbol e)); ("side", VStr (side_value (exe_side e)));
         ("order_type", VStr (order_type_value (exe_order_type e))); ("quantity", VDecimal (exe_quantity e));
         ("status", VStr (status_value (exe_status e))); ("risk_result", optional VDict (exe_risk_result e));
         ("exchange_response", optional (λ v, v) (exe_exchange_response e));
         ("error_message", optional VStr (exe_error_message e))].

Definition PositionDeltaPreview (d : PositionDelta) : pyval :=
  VDict [("symbol", VStr (delta_symbol d)); ("current_quantity", VDecimal (delta_current d));
         ("target_quantity", VDecimal (delta_target d)); ("delta_quantity", VDecimal (delta_quantity d));
         ("side", optional (λ s, VStr (side_value s)) (delta_side d))].

Definition RiskSettingResponse (r : RiskSetting) : pyval :=
  VDict [("id", VStr (risk_id r)); ("user_id", VStr (risk_user r)); ("exchange_account_id", VStr (risk_account r));
         ("trading_enabled", VBool (risk_trading_enabled r));
         ("max_single_order_notional", optional VDecimal (risk_max_single_order_notional r));
         ("max_position_notional", optional VDecimal (risk_max_position_notional r));
         ("max_leverage", optional VDecimal (risk_max_leverage r));
         ("min_order_quantity", optional VDecimal (risk_min_order_quantity r));
         ("max_order_quantity", optional VDecimal (risk_max_order_quantity r));
         ("blocked_symbols", texts (risk_blocked_symbols r))].

Definition MfaEnrollmentResponse (r : string * string) : pyval :=
  VDict [("provisioning_uri", VStr r.2); ("manual_entry_key", VStr r.1)].

(** ** Testnet orders *)

Definition TestnetOrderSubmitResponse_body (r : TestnetOrderSubmitResponse) : pyval :=
  VDict [("execution_id", VStr (rsp_execution_id r)); ("order_status", VStr (status_value (rsp_order_status r)));
         ("idempotent_replay", VBool (rsp_idempotent_replay r)); ("exchange_account_id", VStr (rsp_account r));
         ("exchange_name", VStr (exchange_value (rsp_exchange r))); ("client_order_id", VStr (rsp_client_order_id r));
         ("request_method", VStr (rsp_request_method r)); ("request_path", VStr (rsp_request_path r));
         ("approval_audit_log_id", VStr (rsp_approval_audit_log_id r));
         ("approval_expires_at", VStr (isoformat (rsp_approval_expires_at r)));
         ("exchange_response", rsp_exchange_response r)].

Definition check_body (name : string) (status : pyval) (required : bool) (detail : string) : pyval :=
  VDict [("name", VStr name); ("status", status); ("required", VBool required); ("detail", VStr detail)].

Definition TestnetOrderAdmissionResponse (r : TestnetOrderAdmissionReport) : pyval :=
  VDict [("exchange_account_id", VStr (adm_account r)); ("exchange_name", VStr (exchange_value (adm_exchange r)));
         ("account_mode", VStr (mode_value (adm_mode r))); ("overall_status", verdict (adm_overall_passed r));
         ("read_only", VBool (adm_read_only r)); ("order_submission_authorized", VBool (adm_order_submission_authorized r));
         ("gate_reasons", texts (adm_gate_reasons r));
         ("checks", VList (map (λ c, check_body (adm_name c) (verdict (adm_passed c)) (adm_required c) (adm_detail c))
                             (adm_checks r)))].

Definition TestnetOrderWindowPlanResponse (p : OrderWindowPlan) : pyval :=
  let s := plan_state p in
  VDict [("exchange_account_id", VStr (plan_account p));
         ("status", VStr (if plan_ready p then "READY_FOR_SEPARATE_APPROVAL" else "BLOCKED"));
         ("state", VDict
            [("exchange_name", VStr (exchange_value (pls_exchange s))); ("account_mode", VStr (mode_value (pls_mode s)));
             ("testnet_adapters_enabled", VBool (pls_adapters_enabled s));
             ("exchange_account_trading_enabled", VBool (pls_account_trading_enabled s));
             ("risk_settings_exist", VBool (pls_risk_settings_exist s));
             ("risk_trading_enabled", VBool (pls_risk_trading_enabled s));
             ("api_key_configured", VBool (pls_api_key_configured s))]);
         ("blocked_reasons", texts (plan_blocked_reasons p)); ("required_operator_steps", texts (plan_required_operator_steps p));
         ("mutations_allowed", VBool (plan_mutations_allowed p));
         ("order_submission_authorized", VBool (plan_order_submission_authorized p))].

Definition TestnetOrderWindowApprovalResponse (a : TestnetOrderWindowApproval) : pyval :=
  VDict [("audit_log_id", VStr (appr_audit_log_id a)); ("exchange_account_id", VStr (appr_account a));
         ("exchange_name", VStr (exchange_value (appr_exchange a))); ("symbol", VStr (appr_symbol a));
         ("side", VStr (side_value (appr_side a))); ("max_quantity", VDecimal (appr_max_quantity a));
         ("max_notional", VDecimal (appr_max_notional a)); ("duration_minutes", VInt (appr_duration_minutes a));
         ("order_submission_authorized", VBool (appr_order_submission_authorized a));
         ("trading_flags_changed", VBool (appr_trading_flags_changed a))].

Definition TestnetOrderReconciliationResponse (r : TestnetOrderReconciliationResult) : pyval :=
  VDict [("exchange_account_id", VStr (rcr_account r)); ("attempted", VInt (Z.of_nat (rcr_attempted r)));
         ("transitioned", VInt (Z.of_nat (rcr_transitioned r))); ("failed", VInt (Z.of_nat (rcr_failed r)));
         ("items", VList (map (λ i, VDict
            [("execution_id", VStr (rci_execution_id i)); ("status", VStr (rci_status i));
             ("transitioned", VBool (match rci_lifecycle_result i with Some l => lcr_transitioned l | None => false end));
             ("failure_type", optional VStr (rci_failure_type i))]) (rcr_items r)))].

Definition TestnetUserStreamConsumeResponse (r : TestnetUserStreamConsumeResult) : pyval :=
  VDict [("exchange_account_id", VStr (cns_account r)); ("exchange_name", VStr (exchange_value (cns_exchange r)));
         ("status", VStr (consumer_status_value (cns_status r))); ("messages_processed", VInt (Z.of_nat (cns_messages r)));
         ("reconnect_attempts", VInt (Z.of_nat (cns_reconnects r)))].

(** ** Real accounts *)

Definition ReadOnlyCheckResponse (r : ReadOnlyCheckResult) : pyval :=
  VDict [("exchange_account_id", VStr (roc_account r)); ("exchange_name", VStr (exchange_value (roc_exchange r)));
         ("authenticated", VBool (roc_authenticated r)); ("balance_asset_count", VInt (Z.of_nat (roc_balance_asset_count r)))].

Definition RealOpenOrderResponse (order : dict) : pyval :=
  VDict (map (λ k, (k, dict_get k order))
    ["order_id"; "symbol"; "side"; "order_type"; "status"; "price"; "quantity"; "filled_quantity"; "created_at"]).
Definition RealOpenOrdersResponse (r : RealOpenOrdersResult) : pyval :=
  VDict [("exchange_account_id", VStr (roo_account r)); ("exchange_name", VStr (exchange_value (roo_exchange r)));
         ("read_only", VBool true); ("orders", VList (map RealOpenOrderResponse (roo_orders r)))].

Definition RealBalanceResponse (b : RealBalance) : pyval :=
  VDict [("asset", VStr (rb_asset b)); ("free", optional VStr (rb_free b)); ("locked", optional VStr (rb_locked b));
         ("total", optional VStr (rb_total b))].
Definition RealBalancesResponse (r : RealBalancesResult) : pyval :=
  VDict [("exchange_account_id", VStr (rbr_account r)); ("exchange_name", VStr (exchange_value (rbr_exchange r)));
         ("read_only", VBool true); ("balances", VList (map RealBalanceResponse (rbr_balances r)))].

Definition phase4_status_value (s : Phase4ReadinessStatus) : pyval := verdict (bool_decide (s = PASS)).

Definition Phase4ReadinessReportResponse (r : Phase4ReadinessReport) : pyval :=
  VDict [("exchange_account_id", VStr (rr_account r)); ("exchange_name", VStr (exchange_value (rr_exchange r)));
         ("account_mode", VStr (mode_value (rr_mode r))); ("overall_status", phase4_status_value (rr_overall_status r));
         ("read_only", VBool (rr_read_only r)); ("order_submission_authorized", VBool (rr_order_submission_authorized r));
         ("checks", VList (map (λ c, check_body (rdy_name c) (phase4_status_value (rdy_status c)) (rdy_required c)
                                       (rdy_detail c)) (rr_checks r)));
         ("gate_reasons", texts (rr_gate_reasons r))].

Definition Phase4SmallFundReviewResponse (r : Phase4SmallFundReview) : pyval :=
  VDict [("audit_log_id", VStr (rev_audit_log_id r)); ("exchange_account_id", VStr (rev_account r));
         ("exchange_name", VStr (exchange_value (rev_exchange r))); ("max_notional", VDecimal (rev_max_notional r));
         ("read_only_audit_log_id", VStr (rev_read_only_audit_log_id r));
         ("order_submission_authorized", VBool (rev_order_submission_authorized r));
         ("trading_flags_changed", VBool (rev_trading_flags_changed r))].

Definition Phase4SmallFundOrderWindowApprovalResponse (a : Phase4SmallFundOrderWindowApproval) : pyval :=
  VDict [("audit_log_id", VStr (win_audit_log_id a)); ("exchange_account_id", VStr (win_account a));
         ("exchange_name", VStr (exchange_value (win_exchange a))); ("symbol", VStr (win_symbol a));
         ("side", VStr (side_value (win_side a))); ("max_quantity", VDecimal (win_max_quantity a));
         ("limit_price", VDecimal (win_limit_price a)); ("max_notional", VDecimal (win_max_notional a));
         ("duration_minutes", VInt (win_duration_minutes a)); ("review_audit_log_id", VStr (win_review_audit_log_id a));
         ("read_only_audit_log_id", VStr (win_read_only_audit_log_id a));
         ("order_submission_authorized", VBool (win_order_submission_authorized a));
         ("trading_flags_changed", VBool (win_trading_flags_changed a))].

Definition Phase4FinalReleaseCheckResponse (c : Phase4FinalReleaseCheck) : pyval :=
  VDict [("audit_log_id", VStr (fin_audit_log_id c)); ("exchange_account_id", VStr (fin_account c));
         ("exchange_name", VStr (exchange_value (fin_exchange c))); ("max_notional", VDecimal (fin_max_notional c));
         ("review_audit_log_id", VStr (fin_review_audit_log_id c));
         ("order_window_audit_log_id", VStr (fin_order_window_audit_log_id c));
         ("order_submission_authorized", VBool (fin_order_submission_authorized c));
         ("trading_flags_changed", VBool (fin_trading_flags_changed c))].

(** ** Notifications and administration *)

Definition StorageLocationResponse (l : StorageLocation) : pyval :=
  VDict [("id", VStr (loc_id l)); ("label", VStr (loc_label l)); ("path", VStr (loc_path l));
         ("is_current", VBool (loc_is_current l))].

Section moments.
Context (datetime_value : Z → pyval).

Definition InternalNotificationResponse (n : InternalNotification) : pyval :=
  VDict [("id", VStr (ntf_id n)); ("user_id", VStr (ntf_user n)); ("exchange_account_id", optional VStr (ntf_account n));
         ("channel", VStr (ntf_channel n)); ("severity", VStr (ntf_severity n)); ("title", VStr (ntf_title n));
         ("message", VStr (ntf_message n)); ("payload", VDict (ntf_payload n)); ("is_read", VBool (ntf_is_read n));
         ("created_at", datetime_value (ntf_created_at n)); ("read_at", optional datetime_value (ntf_read_at n))].

Definition AuditLogResponse (l : AuditLog) : pyval :=
  VDict [("id", VStr (aud_id l)); ("user_id", VStr (aud_user l)); ("exchange_account_id", optional VStr (aud_account l));
         ("action", VStr (aud_action l)); ("severity", VStr (aud_severity l)); ("payload", VDict (aud_payload l));
         ("created_at", datetime_value (aud_created_at l))].

Definition SystemEventResponse (e : SystemEvent) : pyval :=
  VDict [("id", VStr (evt_id e)); ("user_id", optional VStr (evt_user e)); ("exchange_account_id", optional VStr (evt_account e));
         ("event_type", VStr (evt_type e)); ("severity", VStr (evt_severity e)); ("payload", VDict (evt_payload e));
         ("created_at", datetime_value (evt_created_at e))].

Definition EmergencyStopResponse (s : EmergencyStopState) : pyval :=
  VDict [("enabled", VBool (st_enabled s)); ("reason", optional VStr (st_reason s));
         ("changed_by_user_id", optional VStr (st_changed_by s)); ("changed_at", datetime_value (st_changed_at s))].

(** ** The answers *)

Section answers.
Context `{Database} `{Settings} `{PyFloat} `{Fernet} `{Secrets} `{Pyotp} `{Redis} `{GexbotSettings} `{StorageSettings} `{X : Exchange} `{W : WebSocket}.
Context (rt : AlertRuntime).

Definition list_of {A} (f : A → pyval) (l : list A) : pyval := VList (map f l).

(** An endpoint for users, with the response model of its decorator. *)
Definition user_answer {A} (rq : Request) (k : User → M A) (response : A → pyval) : M pyval :=
  u ← get_current_user (rq_token rq); a ← k u; mret (response a).
Definition admin_answer {A} (rq : Request) (k : User → M A) (response : A → pyval) : M pyval :=
  u ← get_current_admin_user (rq_token rq); a ← k u; mret (response a).
Definition super_admin_answer {A} (rq : Request) (k : User → M A) (response : A → pyval) : M pyval :=
  u ← get_current_super_admin_user (rq_token rq); a ← k u; mret (response a).
Definition reauthenticated_answer {A} (rq : Request) (k : User → M A) (response : A → pyval) : M pyval :=
  u ← get_reauthenticated_user (rq_token rq) (rq_reauth rq); a ← k u; mret (response a).
Definition anyone_answer {A} (m : M A) (response : A → pyval) : M pyval := a ← m; mret (response a).

(** [None] where the response is left out. *)
Definition answer (rq : Request) : option (M pyval) :=
  match rq_call rq with
  | Register email username password => Some (anyone_answer (register email username password) UserResponse)
  | Login name password code => Some (anyone_answer (login name password code) TokenResponse)
  | Reauthenticate password => Some (anyone_answer (reauthenticate (rq_token rq) password) ReauthenticationResponse)
  | ReadMe => Some (user_answer rq read_me UserResponse)
  | UpdatePassword old new => Some (anyone_answer (update_password (rq_token rq) old new) (λ _, PasswordChangeResponse))
  | ReadMfaStatus => Some (anyone_answer (read_mfa_status (rq_token rq)) MfaStatusResponse)
  | EnrollMfa => Some (anyone_answer (enroll_mfa (rq_token rq) (rq_reauth rq)) MfaEnrollmentResponse)
  | ConfirmMfa code => Some (anyone_answer (confirm_mfa (rq_token rq) (rq_reauth rq) code) MfaConfirmResponse)
  | RemoveMfa code => Some (anyone_answer (remove_mfa (rq_token rq) (rq_reauth rq) code) (λ _, MfaDisableResponse))
  | ListPermissions => Some (user_answer rq list_permissions (list_of PermissionResponse))
  | AddPermission p => Some (user_answer rq (λ u, add_permission u p) PermissionResponse)
  | PatchPermission id p => Some (user_answer rq (λ u, patch_permission u id p) PermissionResponse)
  | RemovePermission id => Some (user_answer rq (λ u, remove_permission u id) (λ _, VNone))
  | ReadAccounts => Some (user_answer rq read_accounts (list_of ExchangeAccountResponse))
  | AddAccount e l m t => Some (user_answer rq (λ u, add_account u e l m t) ExchangeAccountResponse)
  | ReadAccount a => Some (user_answer rq (λ u, read_account u a) ExchangeAccountResponse)
  | RemoveAccount a => Some (user_answer rq (λ u, remove_account u a) (λ _, VNone))
  | SetApiKey a k s p =>
      Some (reauthenticated_answer rq (λ u, set_api_key u a k s p) (λ has_passphrase, ApiKeySecretMetadata_response
        {| akm_account := a; akm_configured := true; akm_has_passphrase := has_passphrase |}))
  | ReadApiKeyMetadata a => Some (user_answer rq (λ u, read_api_key_metadata u a) ApiKeySecretMetadata_response)
  | RemoveApiKey a => Some (user_answer rq (λ u, remove_api_key u a) (λ _, VNone))
  | CheckTestnetReadOnly a => Some (reauthenticated_answer rq (λ u, check_testnet_read_only_credentials u a) ReadOnlyCheckResponse)
  | CheckRealReadOnly a => Some (reauthenticated_answer rq (λ u, check_real_read_only_credentials u a) ReadOnlyCheckResponse)
  | ReadRealOpenOrders a => Some (user_answer rq (λ u, read_real_open_orders_endpoint u a) RealOpenOrdersResponse)
  | ReadRealBalances a => Some (user_answer rq (λ u, read_real_balances_endpoint u a) RealBalancesResponse)
  | ApproveAccountOrderWindow a s d q n m k =>
      Some (reauthenticated_answer rq (λ u, approve_account_order_window u a s d q n m k) TestnetOrderWindowApprovalResponse)
  | ReadPhase4Readiness a => Some (user_answer rq (λ u, read_phase4_readiness u a) Phase4ReadinessReportResponse)
  | RecordSmallFundReview a n k =>
      Some (reauthenticated_answer rq (λ u, record_small_fund_review u a n k) Phase4SmallFundReviewResponse)
  | RecordOrderWindow a s d q p n m k =>
      Some (reauthenticated_answer rq (λ u, record_small_fund_order_window_approval u a s d q p n m k)
              Phase4SmallFundOrderWindowApprovalResponse)
  | RecordFinalCheck a n c k =>
      Some (reauthenticated_answer rq (λ u, record_final_release_check u a n c k) Phase4FinalReleaseCheckResponse)
  | CreateManualSignal p => Some (user_answer rq (λ u, create_manual_trading_signal u p) TradingSignalResponse)
  | ExecuteSignal s a => Some (user_answer rq (λ u, execute_signal u s a rt) OrderExecutionResponse)
  | AdmissionCheck a => Some (user_answer rq (λ u, get_testnet_order_admission_check u a) TestnetOrderAdmissionResponse)
  | WindowPlan a => Some (user_answer rq (λ u, get_testnet_order_window_plan u a) TestnetOrderWindowPlanResponse)
  | ApproveOrderWindow a s d q n m k =>
      Some (user_answer rq (λ u, approve_testnet_order_window u a s d q n m k) TestnetOrderWindowApprovalResponse)
  | SubmitTestnetOrder p => Some (user_answer rq (λ u, submit_testnet_order u p) TestnetOrderSubmitResponse_body)
  | PreviewPositionTarget a s q => Some (user_answer rq (λ u, preview_position_target u a s q) PositionDeltaPreview)
  | ReadRiskSettings a => Some (user_answer rq (λ u, read_risk_settings u a) RiskSettingResponse)
  | ListNotifications o l => Some (user_answer rq (λ u, list_notifications u o l) (list_of InternalNotificationResponse))
  | MarkNotificationRead n => Some (user_answer rq (λ u, mark_notification_read u n) InternalNotificationResponse)
  | ListAuditLogs f => Some (admin_answer rq (λ _, list_audit_logs f) (list_of AuditLogResponse))
  | ListSystemEvents f => Some (admin_answer rq (λ _, list_system_events f) (list_of SystemEventResponse))
  | ListStorageLocations => Some (super_admin_answer rq (λ _, list_storage_locations) (list_of StorageLocationResponse))
  | ReadEmergencyStop => Some (admin_answer rq (λ _, get_emergency_stop_state) EmergencyStopResponse)
  | ActivateEmergencyStop r => Some (super_admin_answer rq (λ u, activate_emergency_stop u r rt) EmergencyStopResponse)
  | DeactivateEmergencyStop r => Some (reauthenticated_answer rq (λ u, deactivate_emergency_stop u r) EmergencyStopResponse)
  | ReconcileTestnetOrders a =>
      Some (reauthenticated_answer rq (λ u, reconcile_testnet_order_statuses u a) TestnetOrderReconciliationResponse)
  | ConsumeUserStream a k m =>
      Some (reauthenticated_answer rq (λ u, consume_testnet_user_stream u a k m) (optional TestnetUserStreamConsumeResponse))
  | PatchAccount _ _ | PatchRiskSettings _ _ | GetCandles _ _ _ _ _ | ListProviders | ListGexbotTickers
  | GetGexbotCategory _ _ _ | GetGexbotOrderflow _ | GetNotificationPreferences | UpdateNotificationPreferences _ => None
  end.

(** An answer is what [serve] does, with the response. *)
Lemma answer_serves rq m w :
  answer rq = Some m → (m w).2 = (serve rt rq w).2 ∧ ∀ x, (m w).1 = Raise x ↔ (serve rt rq w).1 = Raise x.
Proof.
  assert (∀ A (p : M A) (f : A → pyval), ((a ← p; mret (f a)) w).2 = ((p ;; mret tt) w).2 ∧
    ∀ x, ((a ← p; mret (f a)) w).1 = Raise x ↔ ((p ;; mret tt) w).1 = Raise x) as Hone.
  { intros A p f. rewrite !run_bind. destruct (p w) as [[a|e] w1]; (split; [done|]); intros x; split; intros [=]; by subst. }
  assert (∀ A B (p : M B) (k : B → M A) (f : A → pyval),
    ((u ← p; a ← k u; mret (f a)) w).2 = ((u ← p; k u ;; mret tt) w).2 ∧
    ∀ x, ((u ← p; a ← k u; mret (f a)) w).1 = Raise x ↔ ((u ← p; k u ;; mret tt) w).1 = Raise x) as Htwo.
  { intros A B p k f. rewrite !run_bind. destruct (p w) as [[b|e] w1]; [rewrite !run_bind; destruct (k b w1) as [[a|e] w2]|];
      (split; [done|]); intros x; split; intros [=]; by subst. }
  unfold answer, serve, as_user, as_admin, as_super_admin, as_reauthenticated, as_anyone, user_answer, admin_answer,
    super_admin_answer, reauthenticated_answer, anyone_answer.
  destruct (rq_call rq); try done; intros [= <-]; apply Hone || apply Htwo.
Qed.
End answers.
End moments.
