(* ===== verification/Secrecy.v ===== *)
(** The stored secrets stay inside.  Two databases that differ only in what is secret
    (password hashes, second factors, API keys) are told apart by no series of requests of
    the kinds listed in [reveals_nothing]: every answer, errors included, is the same.

    Left out of that list are the requests that use a secret on purpose (login, passwords,
    second factors, new keys), and those that ask an exchange, whose answers may depend on
    the key they are signed with. *)
From S2P Require Import Prelude PyStr PyDecimal PyValue Json Models Session PgDatabase Tables Demo Logic OrderStateMachine ExecutionLog ExecutionRow Alerts Accounts Security Mfa Users Permissions Notifications TestnetGate WindowApproval RateLimit HttpClient TestnetRequest RiskEngine PositionEngine EmergencyStop SignalEngine MockExchange OrderEngine TestnetPersistence TestnetSubmit Lifecycle AccountSync OrderReconciliation UserStream Adapters ReadOnly Phase4 MarketData Storage Endpoints Steady System Responses.

(** ** What is secret *)

Definition masked {A} (o : option A) : option string := (λ _, "") <$> o.

Definition hide_user (u : User) : User :=
  Build_User (user_id u) (user_email u) (user_username u) "" (user_auth_version u) (user_mfa_enabled u)
    (masked (user_mfa_secret u)) (masked (user_mfa_pending_secret u)) None [] (user_role u) (user_is_active u).

Definition hide_key (k : ApiKeySecret) : ApiKeySecret :=
  Build_ApiKeySecret (key_id k) (key_user k) (key_account k) "" "" (masked (key_passphrase k)).

(** A database without its secrets. *)
Definition public_db (d : Db) : Db :=
  set_secrets (map hide_key (db_secrets d)) (set_users (map hide_user (db_users d)) d).

(** Two sessions that differ only in secrets (and in what they have sent). *)
Definition alike (w w' : World) : Prop :=
  public_db (w_committed w) = public_db (w_committed w') ∧ public_db (w_tx w) = public_db (w_tx w') ∧
  w_new w = w_new w' ∧ db_users (w_new w) = [] ∧ db_secrets (w_new w) = [] ∧ w_next w = w_next w' ∧ w_now w = w_now w'.

(** Two programs that do the same in such sessions, up to related results. *)
Definition related {A} (S : A → A → Prop) (r r' : Outcome A * World) : Prop :=
  match r, r' with
  | (Ok a, w), (Ok a', w') => S a a' ∧ alike w w'
  | (Raise x, w), (Raise x', w') => x = x' ∧ alike w w'
  | _, _ => False
  end.
Definition similar {A} (S : A → A → Prop) (m m' : M A) : Prop := ∀ w w', alike w w' → related S (m w) (m' w').
Abbreviation discreet m := (similar eq m m).

(** ** Rules *)

Section rules.
Context {A : Type}.
Implicit Types S : A → A → Prop.

Lemma similar_ret S a a' : S a a' → similar S (mret a) (mret a').
Proof. by intros Ha w w' Hw. Qed.
Lemma similar_raise S x : similar S (raise x) (raise x).
Proof. by intros w w' Hw. Qed.
Lemma similar_lift (o : Outcome A) : discreet (lift o).
Proof. intros w w' Hw. by destruct o. Qed.
Lemma similar_gets S f f' : (∀ w w', alike w w' → S (f w) (f' w')) → similar S (gets f) (gets f').
Proof. intros Hf w w' Hw. split; [by apply Hf|done]. Qed.

Lemma similar_bind {B} (T : B → B → Prop) S (m m' : M B) k k' :
  similar T m m' → (∀ b b', T b b' → similar S (k b) (k' b')) → similar S (m ≫= k) (m' ≫= k').
Proof.
  intros Hm Hk w w' Hw. rewrite !run_bind. specialize (Hm w w' Hw).
  destruct (m w) as [[b|x] v], (m' w') as [[b'|x'] v']; try done. destruct Hm as [Hb Hv]. by apply (Hk b b' Hb).
Qed.

Lemma similar_eq_bind {B} S (m m' : M B) k k' :
  similar eq m m' → (∀ b, similar S (k b) (k' b)) → similar S (m ≫= k) (m' ≫= k').
Proof. intros Hm Hk. apply (similar_bind eq); [done|]. by intros b b' ->. Qed.

Lemma similar_try S (m m' : M A) h :
  similar S m m' → (∀ x k, h x = Some k → similar S k k) → similar S (try_except m h) (try_except m' h).
Proof.
  intros Hm Hh w w' Hw. unfold try_except. specialize (Hm w w' Hw).
  destruct (m w) as [[a|x] v], (m' w') as [[a'|x'] v']; try done. destruct Hm as [<- Hv].
  destruct (h x) as [k|] eqn:E; [|done]. by apply (Hh x k E).
Qed.
End rules.

Lemma similar_run_all (ms : list (M unit)) : Forall (λ m, discreet m) ms → discreet (run_all ms).
Proof.
  induction 1 as [|m ms Hm _ IH]; [by apply similar_ret|]. cbn. apply similar_eq_bind; [done|]. by intros [].
Qed.

Lemma similar_mapM {A B} (f : A → M B) l : (∀ a, discreet (f a)) → discreet (mapM f l).
Proof.
  intros Hf. induction l as [|a l IH]; [by apply similar_ret|]. cbn. apply similar_eq_bind; [done|]. intros b.
  apply similar_eq_bind; [done|]. intros bs. by apply similar_ret.
Qed.

(** A table without secrets. *)
Class Public (R : Type) `{Table R} := {
  public_tbl d : tbl (public_db d) = tbl (R:=R) d;
  public_set l d : public_db (set_tbl (R:=R) l d) = set_tbl l (public_db d);
  public_users l d : db_users (set_tbl (R:=R) l d) = db_users d;
  public_secrets l d : db_secrets (set_tbl (R:=R) l d) = db_secrets d }.

#[export] Instance UserPermission_public : Public UserPermission. Proof. by split. Qed.
#[export] Instance ExchangeAccount_public : Public ExchangeAccount. Proof. by split. Qed.
#[export] Instance TradingSignal_public : Public TradingSignal. Proof. by split. Qed.
#[export] Instance RiskSetting_public : Public RiskSetting. Proof. by split. Qed.
#[export] Instance Balance_public : Public Balance. Proof. by split. Qed.
#[export] Instance Position_public : Public Position. Proof. by split. Qed.
#[export] Instance OrderExecution_public : Public OrderExecution. Proof. by split. Qed.
#[export] Instance OrderExecutionTransition_public : Public OrderExecutionTransition. Proof. by split. Qed.
#[export] Instance AuditLog_public : Public AuditLog. Proof. by split. Qed.
#[export] Instance SystemEvent_public : Public SystemEvent. Proof. by split. Qed.
#[export] Instance InternalNotification_public : Public InternalNotification. Proof. by split. Qed.
#[export] Instance NotificationPreference_public : Public NotificationPreference. Proof. by split. Qed.
#[export] Instance SystemControl_public : Public SystemControl. Proof. by split. Qed.

Section tables.
Context `{Database} {R : Type} `{Public R}.

Lemma alike_tbl w w' : alike w w' → tbl (R:=R) (w_tx w) = tbl (w_tx w').
Proof. intros (_ & Ht & _). by rewrite <- public_tbl, Ht, public_tbl. Qed.

Lemma alike_set_tx l w w' :
  alike w w' → alike (set_tx (set_tbl (R:=R) l (w_tx w)) w) (set_tx (set_tbl l (w_tx w')) w').
Proof. intros (Hc & Ht & Hrest). unfold alike. cbn. rewrite !public_set, Ht. done. Qed.

Lemma similar_scalar (p : R → bool) : discreet (db_scalar p).
Proof. apply similar_gets. intros w w' Hw. by rewrite (alike_tbl w w'). Qed.
Lemma similar_scalars (p : R → bool) : discreet (db_scalars p).
Proof. apply similar_gets. intros w w' Hw. by rewrite (alike_tbl w w'). Qed.
Lemma similar_get id : discreet (db_get (R:=R) id).
Proof. apply similar_scalar. Qed.

Lemma similar_add (r : R) : discreet (db_add r).
Proof.
  intros w w' (Hc & Ht & Hn & Hu & Hs & Hrest). split; [done|]. unfold alike. cbn.
  by rewrite Hn, public_users, public_secrets, <- Hn, Hu, Hs.
Qed.

Lemma similar_insert (r : R) : discreet (insert_row r).
Proof.
  intros w w' Hw. unfold insert_row. rewrite (alike_tbl w w' Hw). destruct (row_store numeric_column r) as [r'|]; [|done].
  destruct (existsb _ _); [done|]. split; [done|]. by apply alike_set_tx.
Qed.

Lemma similar_flush_table : discreet (flush_table (R:=R)).
Proof.
  unfold flush_table. apply similar_eq_bind; [apply similar_gets; by intros w w' (_ & _ & -> & _)|]. intros rs.
  apply similar_eq_bind.
  - induction rs as [|r rs IH]; [by apply similar_ret|]. cbn. apply similar_eq_bind; [apply similar_insert|]. by intros [].
  - intros [] w w' (Hc & Ht & Hn & Hu & Hs & Hrest). split; [done|]. unfold alike. cbn.
    by rewrite Hn, public_users, public_secrets, <- Hn, Hu, Hs.
Qed.

Lemma similar_update id (f : R → R) : discreet (db_update id f).
Proof.
  intros w w' Hw. unfold db_update. rewrite (alike_tbl w w' Hw). destruct (find_first _ _) as [r|]; [|done].
  destruct (row_store numeric_column (f r)) as [r'|]; [|done]. split; [done|]. by apply alike_set_tx.
Qed.

Lemma similar_update_all (f : R → R) : discreet (db_update_all f).
Proof. intros w w' Hw. split; [done|]. cbn. rewrite (alike_tbl w w' Hw). by apply alike_set_tx. Qed.
Lemma similar_delete id : discreet (db_delete (R:=R) id).
Proof. intros w w' Hw. split; [done|]. cbn. rewrite (alike_tbl w w' Hw). by apply alike_set_tx. Qed.
End tables.

(** ** Sessions *)

Section sessions.
Context `{Database}.

(** The rows of users and keys a request adds are flushed in its own way; here none are
    pending. *)
Lemma similar_flush : discreet flush.
Proof.
  apply similar_run_all. each_table ltac:(first
    [ apply similar_flush_table; apply _
    | intros w w' Hw; pose proof Hw as (_ & _ & Hn & Hu & Hs & _);
      rewrite !flush_table_idle by first [exact Hu | exact Hs | rewrite <- Hn; first [exact Hu | exact Hs]]; done ]).
Qed.

Lemma similar_commit : discreet commit.
Proof.
  apply similar_eq_bind; [apply similar_flush|]. intros [] w w' (_ & Ht & Hrest). split; [done|].
  split; [exact Ht|]. split; [exact Ht|]. exact Hrest.
Qed.

Lemma similar_add_flush {R} `{Public R} (r : R) : discreet (add_flush r).
Proof. apply similar_eq_bind; [apply similar_add|]. intros []. apply similar_flush. Qed.
Lemma similar_add_commit {R} `{Public R} (r : R) : discreet (add_commit r).
Proof. apply similar_eq_bind; [apply similar_add|]. intros []. apply similar_commit. Qed.

Lemma similar_new_id : discreet new_id.
Proof. intros w w' (Hc & Ht & Hn & Hu & Hs & Hx & Hnow). unfold new_id. rewrite Hx. split; [done|].
  unfold alike. cbn. tauto. Qed.
Lemma similar_now : discreet now_utc.
Proof. apply similar_gets. by intros w w' (_ & _ & _ & _ & _ & _ & ->). Qed.
Lemma similar_emit ev : discreet (emit ev).
Proof. by intros w w' Hw. Qed.
Lemma similar_quiet (m : M unit) : quiet m → discreet m.
Proof. intros Hq w w' Hw. destruct (Hq w) as (evs & _ & ->), (Hq w') as (evs' & _ & ->). done. Qed.

Lemma alike_close w w' : alike w w' → alike (close w) (close w').
Proof. intros (Hc & Ht & Hn & Hu & Hs & Hrest). done. Qed.

(** ** Users and keys *)

Definition same_user (u u' : User) : Prop := hide_user u = hide_user u'.
Definition same_key (k k' : ApiKeySecret) : Prop := hide_key k = hide_key k'.

Lemma find_first_hidden {R} (hide : R → R) p (l l' : list R) :
  (∀ r, p (hide r) = p r) → map hide l = map hide l' → hide <$> find_first p l = hide <$> find_first p l'.
Proof.
  intros Hp. revert l'. induction l as [|r l IH]; intros [|r' l']; try done. intros [= Hr Hl].
  assert (p r = p r') as Hpr by (by rewrite <- (Hp r), Hr, Hp).
  change (hide <$> (if p r then Some r else find_first p l) = hide <$> (if p r' then Some r' else find_first p l')).
  rewrite Hpr. destruct (p r'); [exact (f_equal Some Hr)|by apply IH].
Qed.

Lemma similar_user id : similar (λ o o', hide_user <$> o = hide_user <$> o') (get_user_by_id id) (get_user_by_id id).
Proof.
  apply similar_gets. intros w w' (_ & Ht & _). apply find_first_hidden; [done|].
  exact (f_equal db_users Ht).
Qed.

Lemma similar_key user account :
  similar (λ o o', hide_key <$> o = hide_key <$> o') (get_api_key_secret_metadata user account)
    (get_api_key_secret_metadata user account).
Proof.
  apply similar_gets. intros w w' (_ & Ht & _). apply find_first_hidden; [done|].
  exact (f_equal db_secrets Ht).
Qed.

(** What follows depends on whether there is a key, and a passphrase. *)
Lemma similar_key_bind {A} (S : A → A → Prop) user account k k' :
  similar S (k None) (k' None) → (∀ a a', same_key a a' → similar S (k (Some a)) (k' (Some a'))) →
  similar S (get_api_key_secret_metadata user account ≫= k) (get_api_key_secret_metadata user account ≫= k').
Proof.
  intros Hn Hs. apply (similar_bind _ _ _ _ _ _ (similar_key user account)).
  intros [a|] [a'|] Hk; try done. apply Hs.
  exact (inj Some (hide_key a) (hide_key a') Hk).
Qed.

Lemma public_delete_key id d :
  let keep := List.filter (λ r, negb (String.eqb (key_id r) id)) in
  public_db (set_secrets (keep (db_secrets d)) d) = set_secrets (keep (db_secrets (public_db d))) (public_db d).
Proof.
  intros keep. unfold public_db, set_secrets, set_users. cbn. f_equal. induction (db_secrets d) as [|r l IH]; [done|].
  unfold keep in *. cbn. change (key_id (hide_key r)) with (key_id r).
  destruct (String.eqb (key_id r) id); cbn; by rewrite ?IH.
Qed.

Lemma similar_delete_key id : discreet (db_delete (R:=ApiKeySecret) id).
Proof.
  intros w w' (Hc & Ht & Hrest). split; [done|]. unfold alike. cbn. split; [done|]. split; [|done].
  by rewrite !public_delete_key, Ht.
Qed.
End sessions.

Create HintDb secrecy.

(** Of a key, only what is public and whether there is a passphrase. *)
Lemma same_key_fields a a' :
  same_key a a' → key_id a = key_id a' ∧ is_none (key_passphrase a) = is_none (key_passphrase a') ∧
    has_passphrase (Some a) = has_passphrase (Some a').
Proof.
  unfold same_key, hide_key, masked, has_passphrase. intros [= -> _ _ Hp].
  by destruct (key_passphrase a), (key_passphrase a').
Qed.
Lemma some_key (a : ApiKeySecret) : bool_decide (Some a ≠ None) = true.
Proof. by apply bool_decide_eq_true. Qed.

Ltac same_key_tac a a' Hk :=
  let Hid := fresh "Hid" in let Hn := fresh "Hn" in let Hp := fresh "Hp" in
  destruct (same_key_fields a a' Hk) as (Hid & Hn & Hp); cbn beta;
  change (is_none (Some a)) with false; change (is_none (Some a')) with false;
  rewrite ?some_key, ?Hid, ?Hn, ?Hp.

(** Walk through a program that is the same on both sides. *)
Ltac similar_step :=
  lazymatch goal with
  | |- similar _ (mret _) (mret _) => apply similar_ret; try reflexivity
  | |- similar _ (raise _) (raise _) => apply similar_raise
  | |- similar _ (lift _) _ => apply similar_lift
  | |- similar _ (db_scalar _) _ => apply similar_scalar
  | |- similar _ (db_scalars _) _ => apply similar_scalars
  | |- similar _ (db_get _) _ => apply similar_get
  | |- similar _ (db_add _) _ => apply similar_add
  | |- similar _ (db_update _ _) _ => apply similar_update
  | |- similar _ (db_update_all _) _ => apply similar_update_all
  | |- similar _ (db_delete (R:=ApiKeySecret) _) _ => apply similar_delete_key
  | |- similar _ (db_delete _) _ => apply similar_delete
  | |- similar _ flush _ => apply similar_flush
  | |- similar _ commit _ => apply similar_commit
  | |- similar _ (add_flush _) _ => apply similar_add_flush
  | |- similar _ (add_commit _) _ => apply similar_add_commit
  | |- similar _ new_id _ => apply similar_new_id
  | |- similar _ now_utc _ => apply similar_now
  | |- similar _ (emit _) _ => apply similar_emit
  | |- similar _ (get_api_key_secret_metadata _ _ ≫= _) _ =>
      apply similar_key_bind; [|let a := fresh "a" in let a' := fresh "a'" in let Hk := fresh "Hk" in intros a a' Hk; same_key_tac a a' Hk];
      cbn beta
  | |- similar _ (_ ≫= _) _ => apply similar_eq_bind; [|intros ?]
  | |- similar _ (mapM _ _) _ => apply similar_mapM; intros ?
  | |- similar _ (try_except _ _) _ => apply similar_try; [|handler_cases]
  | |- similar _ (match ?x with _ => _ end) _ => destruct x eqn:?
  end.
Ltac similar_tac := repeat first [solve [eauto 2 with secrecy] | similar_step].

(** ** Who asks *)

Section callers.
Context `{Database} `{Settings} `{PyFloat} `{Secrets}.

Lemma same_user_fields u u' :
  same_user u u' →
  user_id u = user_id u' ∧ user_role u = user_role u' ∧ user_is_active u = user_is_active u' ∧
  user_auth_version u = user_auth_version u' ∧ UserResponse u = UserResponse u' ∧ get_mfa_status u = get_mfa_status u' ∧
  user_mfa_enabled u = user_mfa_enabled u'.
Proof.
  unfold same_user, hide_user, UserResponse, get_mfa_status, masked. intros [= -> -> -> -> -> _ Hp -> ->]. do 5 (split; [done|]).
  split; [|done]. by destruct (user_mfa_pending_secret u), (user_mfa_pending_secret u').
Qed.

Lemma similar_decode token : discreet (decode_access_token token).
Proof. unfold decode_access_token. similar_tac. Qed.
#[local] Hint Resolve similar_decode : secrecy.

Lemma similar_current_user token : similar same_user (get_current_user token) (get_current_user token).
Proof.
  unfold get_current_user, unauthorized. apply similar_eq_bind; [apply similar_decode|]. intros [p|]; [|by apply similar_raise].
  destruct (_ && _); [|by apply similar_raise]. apply (similar_bind _ _ _ _ _ _ (similar_user _)).
  intros [u|] [u'|] Hu; try done. apply (inj Some (hide_user u) (hide_user u')) in Hu.
  destruct (same_user_fields u u' Hu) as (_ & _ & -> & -> & _). destruct (negb (user_is_active u')); [by apply similar_raise|].
  destruct (negb _); [by apply similar_raise|]. by apply similar_ret.
Qed.

Lemma similar_if {A} (S : A → A → Prop) (b b' : bool) m m' n n' :
  b = b' → similar S m m' → similar S n n' → similar S (if b then m else n) (if b' then m' else n').
Proof. intros <- Hm Hn. by destruct b. Qed.

Lemma similar_admin token : similar same_user (get_current_admin_user token) (get_current_admin_user token).
Proof.
  apply (similar_bind same_user); [apply similar_current_user|]. intros u u' Hu.
  destruct (same_user_fields u u' Hu) as (_ & -> & _). apply similar_if; [done|by apply similar_ret|by apply similar_raise].
Qed.

Lemma similar_super_admin token : similar same_user (get_current_super_admin_user token) (get_current_super_admin_user token).
Proof.
  apply (similar_bind same_user); [apply similar_current_user|]. intros u u' Hu.
  destruct (same_user_fields u u' Hu) as (_ & -> & _). apply similar_if; [done|by apply similar_ret|by apply similar_raise].
Qed.

Lemma similar_reauthenticated token reauth :
  similar same_user (get_reauthenticated_user token reauth) (get_reauthenticated_user token reauth).
Proof.
  apply (similar_bind same_user); [apply similar_current_user|]. intros u u' Hu.
  destruct (same_user_fields u u' Hu) as (-> & _ & _ & -> & _).
  apply similar_eq_bind; [apply similar_decode|]. intros [p|]; [|by apply similar_raise].
  apply similar_if; [done|by apply similar_ret|by apply similar_raise].
Qed.
End callers.

(** ** The requests *)

(** The kinds of requests the theorem is about. *)
Definition reveals_nothing (c : Call) : bool :=
  match c with
  | ReadMe | ReadMfaStatus | ListPermissions | AddPermission _ | PatchPermission _ _ | RemovePermission _
  | ReadAccounts | AddAccount _ _ _ _ | ReadAccount _ | PatchAccount _ _ | RemoveAccount _ | ReadApiKeyMetadata _
  | RemoveApiKey _ | ApproveAccountOrderWindow _ _ _ _ _ _ _ | ReadPhase4Readiness _ | RecordSmallFundReview _ _ _
  | RecordOrderWindow _ _ _ _ _ _ _ _ | RecordFinalCheck _ _ _ _ | CreateManualSignal _ | ExecuteSignal _ _
  | AdmissionCheck _ | WindowPlan _ | ApproveOrderWindow _ _ _ _ _ _ _ | PreviewPositionTarget _ _ _
  | ReadRiskSettings _ | PatchRiskSettings _ _ | ListNotifications _ _ | GetNotificationPreferences
  | UpdateNotificationPreferences _ | MarkNotificationRead _ | ListAuditLogs _ | ListSystemEvents _
  | ListStorageLocations | ReadEmergencyStop | ActivateEmergencyStop _ | DeactivateEmergencyStop _ => true
  | _ => false
  end.

Section requests.
Context `{Database} `{Settings} `{PyFloat} `{Fernet} `{Secrets} `{Pyotp} `{Redis} `{GexbotSettings} `{StorageSettings} `{X : Exchange} `{W : WebSocket}.
Context (datetime_value : Z → pyval) (rt : AlertRuntime) `{!AlertRuntimeLaws rt}.

(** The answer of a request, with no body where the response is not modelled. *)
Definition respond (rq : Request) : M pyval :=
  default (serve rt rq ;; mret VNone) (answer datetime_value rt rq).

(** An endpoint that is told users apart only by what is public. *)
Definition for_users {A} (T : A → A → Prop) (k : User → M A) : Prop := ∀ u u', same_user u u' → similar T (k u) (k u').

Lemma for_users_answer {A} (T : A → A → Prop) (who : M User) (k : User → M A) (response : A → pyval) :
  similar same_user who who → for_users T k → (∀ a a', T a a' → response a = response a') →
  discreet (u ← who; a ← k u; mret (response a)).
Proof.
  intros Hw Hk Hr. apply (similar_bind same_user); [done|]. intros u u' Hu.
  apply (similar_bind T); [by apply Hk|]. intros a a' Ha. apply similar_ret. by apply Hr.
Qed.

Lemma for_users_served {A} (who : M User) (k : User → M A) :
  similar same_user who who → for_users eq k → discreet ((u ← who; k u ;; mret tt) ;; mret VNone).
Proof.
  intros Hw Hk. apply similar_eq_bind; [|intros []; by apply similar_ret].
  apply (similar_bind same_user); [done|]. intros u u' Hu. apply similar_eq_bind; [by apply Hk|]. intros a. by apply similar_ret.
Qed.

Ltac caller := first [apply similar_current_user | apply similar_admin | apply similar_super_admin | apply similar_reauthenticated].

(** Down to the endpoint, for two users who are told apart by secrets only. *)
Ltac endpoint :=
  change (@id (M pyval)) with (λ m : M pyval, m); cbn beta;
  first [apply (for_users_answer eq); [caller| |by intros ? ? ->] | apply for_users_served; [caller|]];
  let u := fresh "u" in let u' := fresh "u'" in let Hu := fresh "Hu" in let Hid := fresh "Hid" in let Hrole := fresh "Hrole" in let Hmfa := fresh "Hmfa" in
  intros u u' Hu; destruct (same_user_fields u u' Hu) as (Hid & Hrole & _ & _ & _ & _ & Hmfa).

Lemma similar_owned user account : discreet (get_owned_account user account).
Proof. apply similar_scalar. Qed.
Lemma similar_risk user account : discreet (get_or_create_risk_settings user account).
Proof. unfold get_or_create_risk_settings. similar_tac. Qed.
Lemma similar_position user account symbol : discreet (get_or_create_position user account symbol).
Proof. unfold get_or_create_position. similar_tac. Qed.
Lemma similar_preferences user : discreet (get_or_create_preferences user).
Proof. unfold get_or_create_preferences. similar_tac. Qed.
Lemma similar_log id : discreet (gets (λ w, max_sequence (log_of id (db_transitions (w_tx w))))).
Proof.
  apply similar_gets. intros w w' Hw. pose proof (alike_tbl (R:=OrderExecutionTransition) w w' Hw) as E. cbn in E. by rewrite E.
Qed.
Lemma similar_log_new id : discreet (gets (λ w, max_sequence (log_of id (db_transitions (w_new w))))).
Proof. apply similar_gets. by intros w w' (_ & _ & -> & _). Qed.
Lemma similar_order_alert status ft : discreet (_notify_order_failure (Some rt) status ft).
Proof. apply similar_quiet, quiet_order_failure. Qed.
Lemma similar_stop_alert scope : discreet (notify_emergency_stop_enabled rt scope).
Proof. apply similar_quiet, quiet_emergency_stop. Qed.
#[local] Hint Resolve similar_owned similar_risk similar_position similar_preferences similar_log similar_log_new
  similar_order_alert similar_stop_alert : secrecy.

Lemma secret_accounts c rq :
  rq_call rq = c →
  match c with
  | ReadAccounts | AddAccount _ _ _ _ | ReadAccount _ | PatchAccount _ _ | RemoveAccount _ | ReadApiKeyMetadata _
  | RemoveApiKey _ => discreet (respond rq)
  | _ => True
  end.
Proof.
  unfold respond, answer, serve, user_answer, as_user. intros ->. destruct c; try done; cbn [default]; endpoint.
  all: unfold read_accounts, list_accounts, add_account, create_account, read_account, patch_account, update_account, remove_account,
    delete_account, read_api_key_metadata, remove_api_key, delete_api_key_secret, require_account, not_found; rewrite Hid; similar_tac.
Qed.

Lemma secret_users c rq :
  rq_call rq = c →
  match c with
  | ReadMe | ReadMfaStatus | ListPermissions | AddPermission _ | PatchPermission _ _ | RemovePermission _
  | ListNotifications _ _ | GetNotificationPreferences | UpdateNotificationPreferences _ | MarkNotificationRead _
  | ListAuditLogs _ | ListSystemEvents _ | ListStorageLocations => discreet (respond rq)
  | _ => True
  end.
Proof.
  unfold respond, answer, serve, user_answer, admin_answer, super_admin_answer, anyone_answer, as_user. intros ->. destruct c; try done; cbn [default].
  1: apply (for_users_answer same_user); [caller|intros u u' Hu; by apply similar_ret|]; intros u u' Hu;
    by destruct (same_user_fields u u' Hu) as (_ & _ & _ & _ & ? & _).
  1: { apply similar_eq_bind; [|intros s; by apply similar_ret]. apply (similar_bind same_user); [caller|]. intros u u' Hu.
    apply similar_ret. by destruct (same_user_fields u u' Hu) as (_ & _ & _ & _ & _ & ? & _). }
  all: endpoint.
  all: unfold list_permissions, list_permissions_for_owner, add_permission, create_permission, patch_permission, remove_permission,
    require_permission, get_owned_permission, update_permission, delete_permission, list_notifications, list_internal_notifications,
    get_notification_preferences, update_notification_preferences, update_preferences, mark_notification_read,
    mark_internal_notification_read, get_owned_internal_notification, list_audit_logs, list_system_events, list_storage_locations;
    rewrite ?Hid; similar_tac.
Qed.

Lemma secret_trading c rq :
  rq_call rq = c →
  match c with
  | CreateManualSignal _ | ExecuteSignal _ _ | PreviewPositionTarget _ _ _ | ReadRiskSettings _ | PatchRiskSettings _ _
  | ReadEmergencyStop | ActivateEmergencyStop _ | DeactivateEmergencyStop _ => discreet (respond rq)
  | _ => True
  end.
Proof.
  unfold respond, answer, serve, user_answer, admin_answer, super_admin_answer, reauthenticated_answer, as_user. intros ->.
  destruct c; try done; cbn [default].
  all: endpoint.
  all: unfold create_manual_trading_signal, create_manual_signal, execute_signal, execute_signal_for_account, execute_new,
    assert_new_orders_allowed, _get_owned_signal,
    _get_owned_account, _resolve_side_and_quantity, create_execution, submit_and_fill, fail_execution,
    record_initial_order_state, transition_order_execution, _add_transition, load_execution, _next_sequence_number, apply_fill,
    preview_position_target, read_risk_settings, patch_risk_settings, update_risk_settings,
    _notify_emergency_stop_enabled, activate_emergency_stop, deactivate_emergency_stop, set_emergency_stop, lock_control, force_flags_off,
    record_stop, get_emergency_stop_state, require_account, not_found;
    rewrite ?Hid, ?Hrole; similar_tac.
Qed.

Lemma secret_reviews c rq :
  rq_call rq = c →
  match c with
  | ApproveAccountOrderWindow _ _ _ _ _ _ _ | ReadPhase4Readiness _ | RecordSmallFundReview _ _ _
  | RecordOrderWindow _ _ _ _ _ _ _ _ | RecordFinalCheck _ _ _ _ | AdmissionCheck _ | WindowPlan _
  | ApproveOrderWindow _ _ _ _ _ _ _ => discreet (respond rq)
  | _ => True
  end.
Proof.
  unfold respond, answer, serve, user_answer, admin_answer, super_admin_answer, reauthenticated_answer, as_user. intros ->.
  destruct c; try done; cbn [default].
  all: endpoint.
  all: unfold approve_account_order_window, approve_testnet_order_window, record_testnet_order_window_approval,
    read_phase4_readiness, build_phase4_readiness_report, record_small_fund_review, record_phase4_small_fund_review,
    record_small_fund_order_window_approval, record_phase4_small_fund_order_window_approval,
    record_final_release_check, record_phase4_final_release_check, get_testnet_order_admission_check,
    build_testnet_order_admission_report, get_testnet_order_window_plan, build_testnet_order_window_plan,
    find_risk_settings, _latest_successful_real_read_only_audit, _latest_phase4_review_audit, _latest_required_audit, record_audit,
    reasons_answer, value_error_is_404, not_found, readiness_checks;
    rewrite ?Hid, ?Hrole, ?Hmfa; similar_tac.
Qed.

Lemma secret_respond rq : reveals_nothing (rq_call rq) = true → discreet (respond rq).
Proof.
  intros Hc. pose proof (secret_accounts _ rq eq_refl) as Ha. pose proof (secret_users _ rq eq_refl) as Hu.
  pose proof (secret_trading _ rq eq_refl) as Ht. pose proof (secret_reviews _ rq eq_refl) as Hr.
  by destruct (rq_call rq).
Qed.

(** Between requests nothing is open. *)
Definition ready_session (w : World) : Prop := w_new w = empty_db ∧ w_tx w = w_committed w.

Lemma ready_alike w w' t :
  ready_session w → ready_session w' → public_db (w_committed w) = public_db (w_committed w') → w_next w = w_next w' →
  alike (set_now t w) (set_now t w').
Proof. intros [Hn Ht] [Hn' Ht'] Hc Hx. unfold alike. cbn. by rewrite Hn, Hn', Ht, Ht'. Qed.

(** A series of requests, each at its time and in a session of its own, and the answers. *)
Fixpoint conversation (rqs : list (Z * Request)) (w : World) : list (Outcome pyval) :=
  match rqs with
  | [] => []
  | (t, rq) :: rqs' => let r := run_request (respond rq) (set_now t w) in r.1 :: conversation rqs' r.2
  end.

(** C9. The stored secrets stay inside.  Of two services whose databases agree but for
    password hashes, second factors, recovery codes and the encrypted API keys, every
    series of requests (none of which is a login, a change of credentials or a question to
    an exchange) gets the same answers, errors included, whoever asks: no answer depends on
    a stored secret, only on whether there is one. *)
Theorem secrets_stay_inside rqs w w' :
  forallb (λ r, reveals_nothing (rq_call r.2)) rqs = true → ready_session w → ready_session w' →
  public_db (w_committed w) = public_db (w_committed w') → w_next w = w_next w' →
  conversation rqs w = conversation rqs w'.
Proof.
  revert w w'. induction rqs as [|[t rq] rqs IH]; intros w w'; [done|]. cbn. intros [Hrq Hrqs]%andb_true_iff Hw Hw' Hc Hx.
  pose proof (secret_respond rq Hrq _ _ (ready_alike w w' t Hw Hw' Hc Hx)) as Hr. unfold related, run_request in *.
  destruct (respond rq (set_now t w)) as [[a|x] v], (respond rq (set_now t w')) as [[a'|x'] v']; try done;
    destruct Hr as [<- (Hc' & _ & _ & _ & _ & Hx' & _)]; cbn; f_equal; by apply IH.
Qed.
End requests.

(** ** Two databases with different secrets *)

#[local] Existing Instance demo_redis.
#[local] Existing Instance accepting_exchange.
#[local] Existing Instance refusing_stream.
#[local] Existing Instance gexbot_demo.
#[local] Existing Instance storage_demo_settings.

Definition other_password (u : User) : User :=
  Build_User (user_id u) (user_email u) (user_username u) "another hash" (user_auth_version u) (user_mfa_enabled u)
    (user_mfa_secret u) (user_mfa_pending_secret u) (user_mfa_last_used_step u) ["another code"] (user_role u) (user_is_active u).
Definition other_secrets (d : Db) : Db :=
  set_secrets (map (key_with "another key" "another secret" None) (db_secrets d)) (set_users (map other_password (db_users d)) d).
Definition other_world : World :=
  mkWorld (other_secrets (w_committed demo_world)) (other_secrets (w_committed demo_world)) empty_db (w_next demo_world)
    (w_now demo_world) [].

Definition questions : list (Z * Request) :=
  map (λ c, (w_now demo_world, demo_request c))
    [ReadMe; ReadApiKeyMetadata "acct-test"; ExecuteSignal "signal-1" "acct-sim"; ActivateEmergencyStop "flash crash";
     ExecuteSignal "signal-2" "acct-sim"].

Definition answered (o : Outcome pyval) : bool := match o with Ok _ => true | Raise _ => false end.

Lemma secrets_stay_inside_witness :
  conversation (λ t, VInt t) OperationalAlertRuntime questions demo_world =
    conversation (λ t, VInt t) OperationalAlertRuntime questions other_world ∧
  map answered (conversation (λ t, VInt t) OperationalAlertRuntime questions demo_world) = [true; true; true; true; false].
Proof.
  split; [|vm_compute; reflexivity].
  refine (secrets_stay_inside (λ t, VInt t) OperationalAlertRuntime questions demo_world other_world _ _ _ _ _).
  - reflexivity.
  - done.
  - done.
  - vm_compute. reflexivity.
  - reflexivity.
Defined.
